(* ===== verification/_CoqProject ===== *)
-Q . S2P
Prelude.v
GoStd.v
Json.v
JsonText.v
JsonParse.v
JsonString.v
JsonPrint.v
Sha256.v
Libraries.v
Errors.v
Kube.v
Core.v
Conditions.v
Effects.v
Interp.v
Interfaces.v
Reconciler.v
ReconcilerSafety.v
ReconcilerOutcome.v
Protocol.v
ProtocolProgress.v
ProtocolSafety.v
ProtocolRecovery.v
ProtocolCalls.v
Stale.v
StaleSafety.v
Fixture.v
ReconcilerWitness.v
ProtocolWitness.v
StaleWitness.v
JsonBody.v
JsonBodySpec.v
HashSpec.v
Objects.v
ObjectsSpec.v
Adapters.v
AdaptersSpec.v
LibraryWitness.v
HttpApi.v
HttpApiSpec.v
HttpServing.v
HttpSystem.v
HttpSystemSpec.v
HttpStale.v
Fleet.v
FleetSpec.v
HttpRecovery.v
HttpStaleRecovery.v
HttpWitness.v
HttpRecoveryWitness.v
HttpStaleWitness.v
FleetWitness.v
ProviderConfig.v
ProviderConfigSpec.v
Controllers.v
ControllersSpec.v
Client.v
ClientSpec.v
Cmd.v
CmdSpec.v
ConfigWitness.v
Operator.v
OperatorSpec.v
OperatorWitness.v
Wire.v
WireSpec.v
WireWitness.v
GoTypes.v
ApiTypes.v
DeepCopy.v
DeepCopySpec.v
Scheme.v
SchemeSpec.v
SpecJson.v
SpecJsonSpec.v
TypesWitness.v
