(* ===== verification/Prelude.v ===== *)
(** * A verification library for the SigNoz operator

    The operator mirrors Kubernetes custom resources (dashboards, rules, users,
    and seven other kinds) into a SigNoz server over its HTTP API.  This library
    models its Go code and proves what makes it correct.  Paths are relative to
    the repository.

    ** The program and its model

    A pass of the reconciler takes one custom resource, resolves the provider
    config it refers to, finds or reads what SigNoz holds of it through the
    adapter of its kind, and creates, updates, adopts or deletes there.  SigNoz
    has no idempotency keys, so the reconciler writes an annotation before each
    create and looks objects up by an identity taken from the desired state.

    A Go function that leaves the operator is a finite tree of calls ([prog] of
    Effects.v): it returns a result or makes one call and goes on with the answer.
    A pointer the code mutates is a value taken and returned.  [(T, error)] is
    [result], a nil-able pointer an option, [time.Duration] an integer of
    nanoseconds, a string a byte string.

    - internal/errors: Errors.v, the error chain, its predicates and the error
      that an HTTP answer becomes ([NewFromHTTPResponse]).
    - api/resources/v1alpha1/core.go, providerconfig_types.go: Core.v, the spec
      and status all kinds share and their accessors.
    - api/resources/v1alpha1/*_types.go, zz_generated.deepcopy.go,
      groupversion_info.go: GoTypes.v, what Go's types and values in memory are;
      ApiTypes.v, every struct of the package as data; DeepCopy.v, the statements
      of every generated DeepCopyInto; Scheme.v, the registration of the types.
    - internal/resources (reason.go, condition.go, reconciler.go): Conditions.v,
      the outcomes of a pass and the status conditions that report them.
    - internal/resources/object.go, adapter.go: Interfaces.v, the class
      [ResourceObject] a kind implements and the calls a pass makes.
    - internal/resources/reconcilers/common_reconciler.go: Reconciler.v, one
      definition per method, under its name.
    - internal/jsonbody: JsonBody.v, rendering, hashing, comparing JSON bodies.
    - internal/resources/objects: Objects.v, the ten kinds as instances of the
      text the generated files share ([object_of]).
    - internal/resources/adapters: Adapters.v, the HTTP programs behind Find,
      Create, Read, Update and Delete; HttpApi.v, the ten kinds with theirs, and
      what SigNoz's API promises of a kind's entries, the server a parameter.
    - internal/providerconfig: ProviderConfig.v, [Resolve] with its per-call cache
      of Secrets and ConfigMaps, the Ready condition, the pass of a config.
    - internal/controller/resources: Controllers.v, what each SetupWithManager
      registers (indexes, watches, handlers) and each [Reconcile].
    - internal/clients/signoz.go: Client.v, [Exchange] over [http.Client.Do].
    - cmd, internal/config, internal/instrumentation/logger.go: Cmd.v, flags and
      environment, the options made of them, the order of the start, and [main].
    - How these are put together: Operator.v, a pass with the resolution of its
      config, the client made of it and the adapter's program carried out down to
      the requests; Wire.v, the same against a server behind the network.

    Supporting files: GoStd.v, Json.v and Sha256.v compute what the code uses of
    Go's standard library (strings, strconv, encoding/json with its binary64
    numbers, crypto/sha256); SpecJson.v is encoding/json on a typed spec, from its
    type.  JsonText.v (the scanner), JsonParse.v (tokens and values), JsonString.v
    (literals) and JsonPrint.v (printed documents and their round trip) are the
    theory of JSON the theorems on bodies rest on.  Libraries.v and Kube.v hold
    the interfaces of third-party code.

    ** What the theorems show

    - The system (Protocol.v, ProtocolSafety.v, ProtocolProgress.v,
      ProtocolRecovery.v).  One object
      between an API server and SigNoz, with passes cut short at any call, writes
      that fail or take effect behind an error, users editing in between.  In
      every reachable state SigNoz holds at most one object of the identity, named
      by the status or announced by the stored annotation, held by the finalizer,
      and gone with the custom resource.  From every reachable state two passes
      in which nothing fails come to their end and bind the resource again, and
      one such deletion pass reclaims.  A kind takes part through the class
      [DesiredFromTemplate], which all ten implement ([object_of_desired] in
      ObjectsSpec.v).
    - The cache behind it (Stale.v, StaleSafety.v; HttpStale.v and
      HttpStaleRecovery.v over HTTP).  The same invariant where a pass begins from
      any version the informer cache may still show, even of an object that is
      gone: updates are refused unless they are of the stored version, merge
      patches never are.  Once the cache has caught up, recovery and reclaim are
      as before.
    - Many objects (Fleet.v, FleetSpec.v).  Custom resources of one kind, each of
      an identity of its own, with passes over them interleaved call by call: what
      a pass does is, for every other, what others in SigNoz may do anyway, so
      each of them lives in the system over HTTP as if it were alone.
    - The operator over HTTP (HttpApiSpec.v, HttpSystem.v, HttpSystemSpec.v;
      HttpServing.v, HttpRecovery.v).
      With the adapters' programs run exchange by exchange against any server
      that keeps the promises of HttpApi.v, every reachable state is one of the
      system above, so its invariant holds of the entries SigNoz lists.  Each of
      the ten lookups finds exactly the entries of the identity, also while
      others add, edit or remove entries between its pages, as long as these keep
      their places.  Against a
      server that also serves, recovery and reclaim hold over HTTP: each call
      of such a pass can be answered (ProtocolCalls.v has what the pass asks for),
      paged lookups included.
    - The operator down to requests (Operator.v, OperatorSpec.v, Wire.v,
      WireSpec.v; the theory of handlers is Interp.v).  In any environment every
      request is the one the resolved config of the object in hand makes, and
      every write on the wire is guarded; against a server behind a network that
      loses, cuts or garbles answers, the system is still that of Protocol.v.
    - One pass, any environment (ReconcilerSafety.v, ReconcilerOutcome.v).  The
      guards of create, update, delete and of the release of the finalizer, at
      every call of every run; the verdict, requeue and status write a pass ends
      with; what a suspended or steady pass leaves alone.
    - Bodies and kinds (JsonBodySpec.v, ObjectsSpec.v).  Comparison up to zero
      defaults, the fields it reports, the payload of an update, that an update
      settles the drift it was sent for.
    - Hashes and typed specs (HashSpec.v, SpecJsonSpec.v).  The hash of a body is
      the hash of its value: order, spacing and spelling do not show.  A typed
      spec goes on the wire as exactly its set fields, and every field of every
      spec type is compared.
    - Types (DeepCopySpec.v, SchemeSpec.v).  A deep copy of any of the 203 types
      shares no memory with its original; the scheme knows the 24 objects.
    - Lookups and transport (AdaptersSpec.v).  Both lookups return exactly the
      matches of the whole list; each call is one exchange; a status becomes its
      verdict.
    - Provider configs (ProviderConfigSpec.v).  The cached resolver against direct
      reads of a snapshot, what it reads and how often, the truth of Ready.
    - Watches (ControllersSpec.v).  An event requeues exactly the resources whose
      next resolution reads the changed object.
    - Client (ClientSpec.v) and command (CmdSpec.v).  One request at most, with
      the credential; what of a response counts; the merge of flags and
      environment; a start that stops at its first failure (reading the
      cluster's config among them), and the exit code;
      a manager that starts only whole and as it was asked to.

    Theorems with hypotheses are applied at concrete runs in the files named
    *Witness.v, over the small kind of Fixture.v and the instances that evaluate.

    ** Bounds

    Trees are finite, so every modelled pass ends once its calls are answered, and
    scanning JSON is structural recursion.  The one loop of the source without a
    bound of its own is [findByPage]: [find_pages] takes fuel, and
    [findByPage_exact] proves that length / 100 + 2 pages are enough for a list
    of that length (100 is [findPageLimit]).  In HttpSystem.v and Wire.v a lookup
    may take any number of pages; in Operator.v a run whose fuel is used up ends.

    ** Interfaces to code outside the repository

    [Gjson], [GoCmp] (Libraries.v), [ApiMachinery], [SemanticEqual] (Kube.v),
    [NetURL], [X509] (ProviderConfig.v), [Pflag], [BoundVariables], [Viper]
    (Cmd.v), [ExternalTypes] (ApiTypes.v), [ExternalJSON] (SpecJson.v),
    [RuntimeScheme] (Scheme.v), [SigNozServer] (HttpApi.v, with [SigNozServerLaws],
    [SigNozServes] and [SigNozServerFrame]), [NetServer] (Wire.v):
    classes of the functions the source calls; the laws a theorem needs are
    classes of their own with the documented behaviour, and each has an instance
    that evaluates.
    The laws of [Gjson] are about text in UTF-8 whose objects
    repeat no key and whose escapes of surrogates come in pairs ([documented]).

    ** Assumptions of the system

    Passes of one object run one at a time, as the work queue guarantees, and from
    what is stored.  In Stale.v they need not, but there nobody else deletes or
    renames in SigNoz ([outsiders_and_lag_lose_an_object]), a new object has no id on record, no two attempts carry
    the same second, and a cache never goes back behind the version an earlier
    pass began from.  A lookup in SigNoz sees every object created before it; over
    pages it may miss one that a removal by others moves to a page already read
    ([removal_hides_an_entry] in LibraryWitness.v), so the system over HTTP
    excludes these.  Nobody else gives an object of SigNoz this identity; one
    renamed away counts as gone until an update renames it back.  Without that the guarantee of
    docs/idempotency.md does not follow from the code: an empty lookup creates at
    once, with no grace period ([empty_lookup_creates_at_once]).  A create that
    fails with an error not worth retrying created nothing.  Users do not touch
    the status, the operator's annotation or finalizer, nor change the identity.
    A merge patch changes only the annotations it is of, except that one which
    removes the last annotation of the copy it is computed from removes all of the
    stored object's ([last_attempt_removed_wipes] in ProtocolWitness.v).
    In Fleet.v no entry is of two identities, an update changes names only to the
    one it sends, and between the pages of a lookup others keep the entries of
    every member in their places; more passes may run at once than the one worker
    a kind has.
    In Wire.v every config an object may refer to leads to the same SigNoz.
    Recovery over HTTP also assumes a server that is up and takes the bodies of
    the desired state, and that the recorded entry was not renamed away.

    ** Not modelled

    Log lines; the registration calls of controller-runtime, which only fail when
    the manager is misused; the version set at link time; test doubles;
    manifests, documents and the end to end tests.  Of encoding/json, the fields a
    spec type does not have: embedded ones and omitzero.

    ** Next

    A fleet whose passes begin from a cache, and one of several kinds at once. *)

From Stdlib Require Export ZArith Lia.
From stdpp Require Export base tactics option list gmap strings pretty.

(** Machine integers and durations are [Z]; strings are byte strings. *)

(** ** Fallible results: Go's [(T, error)] return pair *)

Inductive result (A E : Type) : Type :=
  | Ok (a : A)
  | Err (e : E).
Arguments Ok {A E} a.
Arguments Err {A E} e.

Declare Scope go_scope.
Delimit Scope go_scope with go.

(** [let? x := r in k] is [x, err := r; if err != nil { return err }; k]. *)
Notation "'let?' x ':=' r 'in' k" :=
  (match r with Ok x => k | Err e => Err e end)
  (at level 10, x pattern, r at level 100, k at level 200) : go_scope.
Open Scope go_scope.

Definition is_ok {A E} (r : result A E) : bool :=
  match r with Ok _ => true | Err _ => false end.

#[export] Instance result_eq_dec {A E} `{EqDecision A} `{EqDecision E} :
  EqDecision (result A E).
Proof. solve_decision. Defined.

Lemma is_ok_true {A E} (r : result A E) : is_ok r = true <-> exists a, r = Ok a.
Proof. destruct r; naive_solver. Qed.

(** ** Tactics of the development *)

(** Case on whatever the goal is blocked on, innermost first. *)
Ltac case_goal :=
  match goal with
  | |- context [match ?x with _ => _ end] =>
      lazymatch x with
      | context [match _ with _ => _ end] => fail
      | _ => let E := fresh "E" in destruct x eqn:E
      end
  end.

(** Same, in the hypothesis [H]. *)
Ltac case_in H :=
  match type of H with
  | context [match ?x with _ => _ end] =>
      lazymatch x with
      | context [match _ with _ => _ end] => fail
      | _ => let E := fresh "E" in destruct x eqn:E
      end
  end.

(** Boolean reflection: turn boolean tests into propositions. *)
Ltac breflect :=
  repeat match goal with
  | H : bool_decide _ = true |- _ => apply bool_decide_eq_true in H
  | H : bool_decide _ = false |- _ => apply bool_decide_eq_false in H
  | H : negb _ = true |- _ => apply negb_true_iff in H
  | H : negb _ = false |- _ => apply negb_false_iff in H
  | H : andb _ _ = true |- _ => apply andb_true_iff in H as [? ?]
  | H : orb _ _ = false |- _ => apply orb_false_iff in H as [? ?]
  end.

Create HintDb operator discriminated.

(** ** Lists *)

Lemma filter_nil_iff {A} (P : A -> Prop) `{!forall x, Decision (P x)} (l : list A) :
  filter P l = [] <-> forall x, x ∈ l -> ~ P x.
Proof.
  split.
  - intros Hnil x Hx Px.
    assert (x ∈ filter P l) as Hin by (apply list_elem_of_filter; auto).
    rewrite Hnil in Hin. by apply elem_of_nil in Hin.
  - intros Hno. destruct (filter P l) as [|x k] eqn:E; [done|].
    assert (x ∈ filter P l) as [Px Hx]%list_elem_of_filter by (rewrite E; set_solver).
    by destruct (Hno x Hx).
Qed.

Lemma Forall2_iff_l {A B} (P Q : A -> B -> Prop) l k :
  Forall (fun x => forall y, P x y <-> Q x y) l -> Forall2 P l k <-> Forall2 Q l k.
Proof.
  intros Hl. revert k. induction Hl as [|x l Hx _ IH]; intros [|y k];
    rewrite ?Forall2_nil, ?Forall2_cons, ?Forall2_nil_cons, ?Forall2_cons_nil, ?Hx, ?IH; try done; split; inversion 1.
Qed.
