(* ===== verification/GoStd.v ===== *)
(** * The parts of Go's standard library the operator calls

    [strings], [strconv], [fmt] verbs and [time] formatting, on byte strings.
    [Quote] (the verb %q) escapes ASCII as Go does and copies bytes from 0x80
    up: for a printable non-ASCII rune that is Go's output. *)

From S2P Require Import Prelude.
From Stdlib Require Import Ascii String.

Local Open Scope string_scope.

(** ** Package strings *)

(** [strings.HasPrefix s p]. *)
Definition HasPrefix (s p : string) : bool := String.prefix p s.

(** [strings.Join elems sep]. *)
Fixpoint Join (elems : list string) (sep : string) : string :=
  match elems with
  | [] => ""
  | [x] => x
  | x :: rest => x ++ sep ++ Join rest sep
  end.

Fixpoint strip_prefix {A} `{EqDecision A} (p l : list A) : option (list A) :=
  match p, l with
  | [], _ => Some l
  | a :: p', b :: l' => if decide (a = b) then strip_prefix p' l' else None
  | _ :: _, [] => None
  end.

(** The UTF-8 encodings of the runes of [unicode.IsSpace]. *)
Definition spaces : list (list nat) :=
  [[9]; [10]; [11]; [12]; [13]; [32]; [194; 133]; [194; 160]; [225; 154; 128]]
  ++ ((fun k => [226; 128; k]) <$> [128; 129; 130; 131; 132; 133; 134; 135; 136; 137; 138; 168; 169; 175])
  ++ [[226; 129; 159]; [227; 128; 128]].

Definition strip_space (toks : list (list nat)) (l : list nat) : option (list nat) :=
  foldr (fun t acc => match strip_prefix t l with Some l' => Some l' | None => acc end) None toks.

Fixpoint trim_left (fuel : nat) (toks : list (list nat)) (l : list nat) : list nat :=
  match fuel with
  | O => l
  | S fuel' =>
      match strip_space toks l with
      | Some l' => trim_left fuel' toks l'
      | None => l
      end
  end.

Definition bytes_of (s : string) : list nat := nat_of_ascii <$> list_ascii_of_string s.
Definition string_of (l : list nat) : string := string_of_list_ascii (ascii_of_nat <$> l).

(** [strings.TrimSpace]: leading and trailing white space removed. *)
Definition TrimSpace (s : string) : string :=
  let l := bytes_of s in
  let l := trim_left (List.length l) spaces l in
  let r := trim_left (List.length l) (reverse <$> spaces) (reverse l) in
  string_of (reverse r).

(** ** Package strconv and the verbs of fmt *)

(** [strconv.Itoa] and the verb %d. *)
Definition Itoa (z : Z) : string := pretty z.

Definition hex_digit (n : nat) : ascii := ascii_of_nat (if decide (n < 10) then 48 + n else 87 + n)%nat.

Definition quote_byte (a : ascii) : string :=
  let n := nat_of_ascii a in
  if decide (n = 34)%nat then "\" ++ String a ""
  else if decide (n = 92)%nat then "\\"
  else if decide (n = 7)%nat then "\a"
  else if decide (n = 8)%nat then "\b"
  else if decide (n = 12)%nat then "\f"
  else if decide (n = 10)%nat then "\n"
  else if decide (n = 13)%nat then "\r"
  else if decide (n = 9)%nat then "\t"
  else if decide (n = 11)%nat then "\v"
  else if decide (n < 32 \/ n = 127)%nat then
    "\x" ++ String (hex_digit (n / 16)) (String (hex_digit (n mod 16)) "")
  else String a "".

Definition dquote : string := String (ascii_of_nat 34) "".

(** The verb %q. *)
Definition Quote (s : string) : string :=
  dquote ++ foldr (fun a acc => quote_byte a ++ acc) "" (list_ascii_of_string s) ++ dquote.

(** ** Package time *)

(** A duration is an int64 count of nanoseconds. *)
Definition Second : Z := 1000000000.
Definition Minute : Z := 60 * Second.

(** Year, month and day of a count of days since 1970-01-01 in the proleptic
    Gregorian calendar. *)
Definition civil (days : Z) : Z * Z * Z :=
  let z := (days + 719468)%Z in
  let era := (z / 146097)%Z in
  let doe := (z - era * 146097)%Z in
  let yoe := ((doe - doe / 1460 + doe / 36524 - doe / 146096) / 365)%Z in
  let doy := (doe - (365 * yoe + yoe / 4 - yoe / 100))%Z in
  let mp := ((5 * doy + 2) / 153)%Z in
  let d := (doy - (153 * mp + 2) / 5 + 1)%Z in
  let m := (if decide (mp < 10)%Z then mp + 3 else mp - 9)%Z in
  (yoe + era * 400 + (if decide (m <= 2)%Z then 1 else 0), m, d)%Z.

Definition pad (width : nat) (z : Z) : string :=
  let s := pretty z in
  string_of_list_ascii (replicate (width - String.length s) (ascii_of_nat 48)) ++ s.

(** [time.Unix(sec, 0).UTC().Format(time.RFC3339)], for years up to 9999. *)
Definition FormatRFC3339 (sec : Z) : string :=
  let '(y, m, d) := civil (sec / 86400) in
  let s := (sec mod 86400)%Z in
  pad 4 y ++ "-" ++ pad 2 m ++ "-" ++ pad 2 d ++ "T"
  ++ pad 2 (s / 3600) ++ ":" ++ pad 2 (s / 60 mod 60) ++ ":" ++ pad 2 (s mod 60) ++ "Z".

Example format_rfc3339_example : FormatRFC3339 1763494834 = "2025-11-18T19:40:34Z".
Proof. vm_compute. reflexivity. Qed.

Example trim_space_example : TrimSpace (string_of [32; 9; 97; 32; 98; 194; 160; 10]) = "a b".
Proof. vm_compute. reflexivity. Qed.

Example quote_example : Quote (string_of [97; 34; 10; 1]) = string_of [34; 97; 92; 34; 92; 110; 92; 120; 48; 49; 34].
Proof. vm_compute. reflexivity. Qed.

Lemma append_String c s t : (String c s ++ t)%string = String c (s ++ t)%string.
Proof. done. Qed.
