(* ===== verification/Json.v ===== *)
(** * Go's encoding/json, as the operator uses it

    [json.Unmarshal] into [any], [json.Marshal] of such a value, and
    [json.Compact].  The scanner is Go's: a byte-at-a-time machine with a stack
    of open composites, so every function here is structurally recursive and
    needs no fuel.  Numbers are IEEE binary64 values ([spec_float]), read with
    correct rounding and printed with the shortest digits that read back. *)

From S2P Require Import Prelude GoStd.
From Stdlib Require Import Ascii String SpecFloat.

Local Open Scope string_scope.

(** ** Values

    [N] is the type of numbers: the literal's text as scanned, [float64] once
    decoded.  An object as scanned is its members in order, repeated keys
    included.  A decoded one is a Go map: its entries in strictly increasing key
    order, since a map has no order and a repeated key keeps the last value. *)

Inductive json (N : Type) : Type :=
  | JNull
  | JBool (b : bool)
  | JNum (n : N)
  | JStr (s : string)
  | JArr (l : list (json N))
  | JObj (m : list (string * json N)).
Arguments JNull {N}.
Arguments JBool {N} b.
Arguments JNum {N} n.
Arguments JStr {N} s.
Arguments JArr {N} l.
Arguments JObj {N} m.

Section json_ind.
Context {N : Type} (P : json N -> Prop)
  (Hnull : P JNull) (Hbool : forall b, P (JBool b)) (Hnum : forall n, P (JNum n))
  (Hstr : forall s, P (JStr s))
  (Harr : forall l, Forall P l -> P (JArr l))
  (Hobj : forall m, Forall (fun kv => P kv.2) m -> P (JObj m)).

Fixpoint json_ind' (v : json N) : P v :=
  match v with
  | JNull => Hnull
  | JBool b => Hbool b
  | JNum n => Hnum n
  | JStr s => Hstr s
  | JArr l =>
      Harr l ((fix go l := match l return Forall P l with
                           | [] => Forall_nil_2 P
                           | x :: l' => Forall_cons_2 P x l' (json_ind' x) (go l')
                           end) l)
  | JObj m =>
      Hobj m ((fix go m := match m return Forall (fun kv => P kv.2) m with
                           | [] => Forall_nil_2 _
                           | x :: m' => Forall_cons_2 _ x m' (json_ind' x.2) (go m')
                           end) m)
  end.
End json_ind.

Definition float64 : Type := spec_float.
#[export] Instance float64_eq_dec : EqDecision float64.
Proof. solve_decision. Defined.

#[export] Instance json_eq_dec {N} `{EqDecision N} : EqDecision (json N).
Proof.
  refine (fix go (x y : json N) : Decision (x = y) :=
    match x, y with
    | JNull, JNull => left eq_refl
    | JBool a, JBool b => cast_if (decide (a = b))
    | JNum a, JNum b => cast_if (decide (a = b))
    | JStr a, JStr b => cast_if (decide (a = b))
    | JArr a, JArr b => cast_if (@decide (a = b) (@list_eq_dec _ go a b))
    | JObj a, JObj b => cast_if (@decide (a = b) (@list_eq_dec _ (@prod_eq_dec _ _ _ go) a b))
    | _, _ => right _
    end); abstract congruence.
Defined.

(** [m[k] = v] on the ordered entries. *)
Fixpoint obj_insert {N} (k : string) (v : json N) (m : list (string * json N)) : list (string * json N) :=
  match m with
  | [] => [(k, v)]
  | (k', v') :: m' =>
      match String.compare k k' with
      | Lt => (k, v) :: m
      | Eq => (k, v) :: m'
      | Gt => (k', v') :: obj_insert k v m'
      end
  end.

(** [m[k]]. *)
Fixpoint obj_lookup {N} (k : string) (m : list (string * json N)) : option (json N) :=
  match m with
  | [] => None
  | (k', v) :: m' => if decide (k = k') then Some v else obj_lookup k m'
  end.

Definition in_range (a b c : nat) : bool := (a <=? c)%nat && (c <=? b)%nat.

(** ** UTF-8: the length of the valid sequence a byte list starts with, 0 if none *)

Definition utf8_len (l : list nat) : nat :=
  let cont c := in_range 128 191 c in
  match l with
  | [] => 0
  | a :: l1 =>
      if (a <? 128)%nat then 1 else
      match l1 with
      | [] => 0
      | b :: l2 =>
          if in_range 194 223 a then if cont b then 2 else 0 else
          match l2 with
          | [] => 0
          | c :: l3 =>
              if in_range 224 239 a then
                let ok := if (a =? 224)%nat then in_range 160 191 b
                          else if (a =? 237)%nat then in_range 128 159 b else cont b in
                if ok && cont c then 3 else 0
              else
              match l3 with
              | [] => 0
              | d :: _ =>
                  let ok := if (a =? 240)%nat then in_range 144 191 b
                            else if (a =? 244)%nat then in_range 128 143 b
                            else in_range 241 243 a && cont b in
                  if ok && cont c && cont d then 4 else 0
              end
          end
      end
  end%nat.

Definition rune_error : list nat := [239; 191; 189]%nat.

(** [utf8.AppendRune]. *)
Definition encode_rune (r : Z) : list nat :=
  if decide (r < 128)%Z then [Z.to_nat r]
  else if decide (r < 2048)%Z then [Z.to_nat (192 + r / 64); Z.to_nat (128 + r mod 64)]
  else if decide (55296 <= r < 57344 \/ 1114112 <= r)%Z then rune_error
  else if decide (r < 65536)%Z then
    [Z.to_nat (224 + r / 4096); Z.to_nat (128 + r / 64 mod 64); Z.to_nat (128 + r mod 64)]
  else [Z.to_nat (240 + r / 262144); Z.to_nat (128 + r / 4096 mod 64);
        Z.to_nat (128 + r / 64 mod 64); Z.to_nat (128 + r mod 64)].

(** ** Strings *)

Definition hex_value (c : nat) : option Z :=
  if in_range 48 57 c then Some (Z.of_nat c - 48)%Z
  else if in_range 97 102 c then Some (Z.of_nat c - 87)%Z
  else if in_range 65 70 c then Some (Z.of_nat c - 55)%Z
  else None.

Definition hex4 (a b c d : nat) : option Z :=
  match hex_value a, hex_value b, hex_value c, hex_value d with
  | Some a, Some b, Some c, Some d => Some (a * 4096 + b * 256 + c * 16 + d)%Z
  | _, _, _, _ => None
  end.

Definition escape_value (c : nat) : option nat :=
  if (c =? 98)%nat then Some 8%nat
  else if (c =? 102)%nat then Some 12%nat
  else if (c =? 110)%nat then Some 10%nat
  else if (c =? 114)%nat then Some 13%nat
  else if (c =? 116)%nat then Some 9%nat
  else if (c =? 34)%nat || (c =? 92)%nat || (c =? 47)%nat then Some c
  else None.

(** The contents of a scanned string literal; [keep] counts the bytes of a
    multi-byte rune still to copy.  A lone surrogate and an invalid byte both
    read as U+FFFD. *)
Fixpoint unquote (keep : nat) (l : list nat) : list nat :=
  match l with
  | [] => []
  | c :: l' =>
      match keep with
      | S keep' => c :: unquote keep' l'
      | O =>
          if (c =? 92)%nat then
            match l' with
            | [] => []
            | e :: l'' =>
                if (e =? 117)%nat then
                  match l'' with
                  | h1 :: h2 :: h3 :: h4 :: ((_ :: _ :: g1 :: g2 :: g3 :: g4 :: rest2) as rest) =>
                      let r := default 65533%Z (hex4 h1 h2 h3 h4) in
                      let pair := decide (take 2 rest = [92; 117]%nat) in
                      let r2 := default 65533%Z (hex4 g1 g2 g3 g4) in
                      if decide (55296 <= r < 56320)%Z then
                        if pair then
                          if decide (56320 <= r2 < 57344)%Z
                          then (encode_rune (65536 + (r - 55296) * 1024 + (r2 - 56320))
                                ++ unquote 0 rest2)%list
                          else (rune_error ++ unquote 0 rest)%list
                        else (rune_error ++ unquote 0 rest)%list
                      else (encode_rune r ++ unquote 0 rest)%list
                  | h1 :: h2 :: h3 :: h4 :: rest =>
                      (encode_rune (default 65533%Z (hex4 h1 h2 h3 h4)) ++ unquote 0 rest)%list
                  | _ => []
                  end
                else match escape_value e with
                     | Some b => b :: unquote 0 l''
                     | None => []
                     end
            end
          else match utf8_len l with
               | O => (rune_error ++ unquote 0 l')%list
               | S k => c :: unquote k l'
               end
      end
  end.

(** Text in which every rune is one, however it is read: valid UTF-8, and no escape
    of a surrogate but those of a pair; [keep] as in [unquote]. *)
Fixpoint encoded (keep : nat) (l : list nat) : bool :=
  match l with
  | [] => bool_decide (keep = 0)%nat
  | c :: l' =>
      match keep with
      | S keep' => encoded keep' l'
      | O =>
          if (c =? 92)%nat then
            match l' with
            | [] => false
            | e :: l'' =>
                if (e =? 117)%nat then
                  match l'' with
                  | h1 :: h2 :: h3 :: h4 :: rest =>
                      match hex4 h1 h2 h3 h4 with
                      | None => false
                      | Some r =>
                          if decide (55296 <= r < 57344)%Z then
                            match rest with
                            | b :: u :: g1 :: g2 :: g3 :: g4 :: rest2 =>
                                bool_decide (r < 56320)%Z && (b =? 92)%nat && (u =? 117)%nat
                                && match hex4 g1 g2 g3 g4 with Some r2 => bool_decide (56320 <= r2 < 57344)%Z | None => false end
                                && encoded 0 rest2
                            | _ => false
                            end
                          else encoded 0 rest
                      end
                  | _ => false
                  end
                else encoded 0 l''
            end
          else match utf8_len l with O => false | S k => encoded k l' end
      end
  end.

Definition WellEncoded (s : string) : bool := encoded 0 (bytes_of s).

(** ** The scanner *)

Inductive token :=
  | TLBrace | TRBrace | TLBrack | TRBrack | TColon | TComma
  | TStr (s : string)
  | TNum (lit : string)
  | TLit (lit : string).

Inductive lex_state :=
  | LGround
  | LString (acc : list nat)                 (* inside a string, bytes reversed *)
  | LEscape (acc : list nat)                 (* after a backslash *)
  | LUnicode (n : nat) (acc : list nat)      (* [n] hex digits still to come *)
  | LNumber (acc : list nat)
  | LWord (acc : list nat).

Definition is_space (c : nat) : bool := bool_decide (c ∈ [9; 10; 13; 32]%nat).
Definition is_digit (c : nat) : bool := in_range 48 57 c.
Definition is_number_byte (c : nat) : bool :=
  is_digit c || bool_decide (c ∈ [43; 45; 46; 69; 101]%nat).
Definition is_letter (c : nat) : bool := in_range 97 122 c.

(** One byte outside strings and words: the token it completes, and the state. *)
Definition lex_ground (c : nat) : option (list token * lex_state) :=
  if is_space c then Some ([], LGround)
  else if (c =? 123)%nat then Some ([TLBrace], LGround)
  else if (c =? 125)%nat then Some ([TRBrace], LGround)
  else if (c =? 91)%nat then Some ([TLBrack], LGround)
  else if (c =? 93)%nat then Some ([TRBrack], LGround)
  else if (c =? 58)%nat then Some ([TColon], LGround)
  else if (c =? 44)%nat then Some ([TComma], LGround)
  else if (c =? 34)%nat then Some ([], LString [])
  else if is_digit c || (c =? 45)%nat then Some ([], LNumber [c])
  else if is_letter c then Some ([], LWord [c])
  else None.

Definition lex_step (st : lex_state) (c : nat) : option (list token * lex_state) :=
  match st with
  | LGround => lex_ground c
  | LString acc =>
      if (c =? 34)%nat then Some ([TStr (string_of (unquote 0 (reverse acc)))], LGround)
      else if (c =? 92)%nat then Some ([], LEscape (c :: acc))
      else if (c <? 32)%nat then None
      else Some ([], LString (c :: acc))
  | LEscape acc =>
      if (c =? 117)%nat then Some ([], LUnicode 4 (c :: acc))
      else match escape_value c with Some _ => Some ([], LString (c :: acc)) | None => None end
  | LUnicode n acc =>
      match hex_value c, n with
      | Some _, S (S n') => Some ([], LUnicode (S n') (c :: acc))
      | Some _, _ => Some ([], LString (c :: acc))
      | None, _ => None
      end
  | LNumber acc =>
      if is_number_byte c then Some ([], LNumber (c :: acc))
      else match lex_ground c with
           | Some (ts, st') => Some (TNum (string_of (reverse acc)) :: ts, st')
           | None => None
           end
  | LWord acc =>
      if is_letter c then Some ([], LWord (c :: acc))
      else match lex_ground c with
           | Some (ts, st') => Some (TLit (string_of (reverse acc)) :: ts, st')
           | None => None
           end
  end.

Fixpoint lex (st : lex_state) (l : list nat) : option (list token) :=
  match l with
  | [] => match st with
          | LGround => Some []
          | LNumber acc => Some [TNum (string_of (reverse acc))]
          | LWord acc => Some [TLit (string_of (reverse acc))]
          | _ => None
          end
  | c :: l' => match lex_step st c with
               | Some (ts, st') => match lex st' l' with
                                   | Some ts' => Some (ts ++ ts')%list
                                   | None => None
                                   end
               | None => None
               end
  end.

(** The grammar of a number: an optional minus; 0, or digits not starting with
    0; an optional point and digits; an optional exponent.  The parts are the
    sign, the digits before and after the point, and the exponent. *)
Fixpoint span_digits (l : list nat) : list nat * list nat :=
  match l with
  | c :: l' => if is_digit c then let '(d, r) := span_digits l' in (c :: d, r) else ([], l)
  | [] => ([], [])
  end.

Definition digits_value (l : list nat) : Z :=
  foldl (fun acc c => acc * 10 + (Z.of_nat c - 48))%Z 0%Z l.

Definition number_parts (l : list nat) : option (bool * list nat * list nat * Z) :=
  let '(neg, l) := match l with
                   | c :: l' => if (c =? 45)%nat then (true, l') else (false, l)
                   | [] => (false, [])
                   end in
  let '(int, l) := span_digits l in
  if match int with [] => true | c :: _ :: _ => (c =? 48)%nat | _ => false end then None else
  let frac_rest := match l with
                   | c :: l' => if (c =? 46)%nat then
                                  match span_digits l' with
                                  | ([], _) => None
                                  | (d, r) => Some (d, r)
                                  end
                                else Some ([], l)
                   | [] => Some ([], [])
                   end in
  match frac_rest with
  | None => None
  | Some (frac, []) => Some (neg, int, frac, 0%Z)
  | Some (frac, c :: l) =>
      if (c =? 69)%nat || (c =? 101)%nat then
        let '(eneg, l) := match l with
                          | s :: l' => if (s =? 45)%nat then (true, l')
                                       else if (s =? 43)%nat then (false, l') else (false, l)
                          | [] => (false, [])
                          end in
        match span_digits l with
        | ([], _) => None
        | (d, []) => Some (neg, int, frac, if eneg then (- digits_value d)%Z else digits_value d)
        | _ => None
        end
      else None
  end.

(** ** The parser: a stack of open composites *)

Inductive frame :=
  (* What was read so far, reversed. *)
  | FArr (acc : list (json string))
  | FObj (acc : list (string * json string)) (key : string).

Inductive mode :=
  | MValue | MValueOrEnd | MKey | MKeyOrEnd | MColon (key : string) | MAfter
  | MDone (v : json string).

(** The decoder's bound on nesting. *)
Definition max_depth : nat := 100 * 100.

Definition complete (v : json string) (s : list frame) : list frame * mode :=
  match s with
  | [] => ([], MDone v)
  | FArr acc :: s => (FArr (v :: acc) :: s, MAfter)
  | FObj acc k :: s => (FObj ((k, v) :: acc) "" :: s, MAfter)
  end.

Definition scalar (t : token) : option (json string) :=
  match t with
  | TStr s => Some (JStr s)
  | TNum lit => match number_parts (bytes_of lit) with Some _ => Some (JNum lit) | None => None end
  | TLit "true" => Some (JBool true)
  | TLit "false" => Some (JBool false)
  | TLit "null" => Some JNull
  | _ => None
  end.

Definition open_value (t : token) (s : list frame) : option (list frame * mode) :=
  match t with
  | TLBrace => if (List.length s <? max_depth)%nat then Some (FObj [] "" :: s, MKeyOrEnd) else None
  | TLBrack => if (List.length s <? max_depth)%nat then Some (FArr [] :: s, MValueOrEnd) else None
  | _ => (fun v => complete v s) <$> scalar t
  end.

Definition parse_step (st : list frame * mode) (t : token) : option (list frame * mode) :=
  let '(s, m) := st in
  match m, t, s with
  | MValue, _, _ => open_value t s
  | MValueOrEnd, TRBrack, FArr acc :: s' => Some (complete (JArr (reverse acc)) s')
  | MValueOrEnd, _, _ => open_value t s
  | MKeyOrEnd, TRBrace, FObj acc _ :: s' => Some (complete (JObj (reverse acc)) s')
  | (MKey | MKeyOrEnd), TStr k, _ => Some (s, MColon k)
  | MColon k, TColon, FObj acc _ :: s' => Some (FObj acc k :: s', MValue)
  | MAfter, TComma, FArr _ :: _ => Some (s, MValue)
  | MAfter, TComma, FObj _ _ :: _ => Some (s, MKey)
  | MAfter, TRBrack, FArr acc :: s' => Some (complete (JArr (reverse acc)) s')
  | MAfter, TRBrace, FObj acc _ :: s' => Some (complete (JObj (reverse acc)) s')
  | _, _, _ => None
  end.

Fixpoint parse_run (st : list frame * mode) (ts : list token) : option (list frame * mode) :=
  match ts with
  | [] => Some st
  | t :: ts' => match parse_step st t with Some st' => parse_run st' ts' | None => None end
  end.

(** One JSON value and nothing else; numbers left as text. *)
Definition parse_syntax (s : string) : option (json string) :=
  match lex LGround (bytes_of s) with
  | Some ts => match parse_run ([], MValue) ts with
               | Some (_, MDone v) => Some v
               | _ => None
               end
  | None => None
  end.

(** [json.Valid]. *)
Definition Valid (s : string) : bool := bool_decide (is_Some (parse_syntax s)).

(** No object of the text repeats a key. *)
Fixpoint distinct_keys {N} (v : json N) : bool :=
  match v with
  | JArr l => forallb distinct_keys l
  | JObj m => bool_decide (NoDup m.*1) && forallb (fun kv => distinct_keys kv.2) m
  | _ => true
  end.

Definition DistinctKeys (s : string) : bool :=
  match parse_syntax s with Some v => distinct_keys v | None => false end.

(** ** float64 *)

Definition prec : Z := 53.
Definition emax : Z := 1024.

(** The correctly rounded binary64 of [(-1)^neg * m * 10^e]. *)
Definition round_decimal (neg : bool) (m : positive) (e : Z) : float64 :=
  if decide (0 <= e)%Z
  then binary_normalize prec emax (if neg then Z.neg (m * Z.to_pos (10 ^ e)) else Z.pos (m * Z.to_pos (10 ^ e))) 0 neg
  else SFdiv prec emax (S754_finite neg m 0) (S754_finite false (Z.to_pos (10 ^ (- e))) 0).

(** [strconv.ParseFloat(lit, 64)]: [None] is ErrSyntax or ErrRange.  Past the
    two cut-offs every decimal overflows or rounds to zero. *)
Definition ParseFloat (lit : string) : option float64 :=
  match number_parts (bytes_of lit) with
  | None => None
  | Some (neg, int, frac, e) =>
      let digits := (int ++ frac)%list in
      let e10 := (e - Z.of_nat (List.length frac))%Z in
      match digits_value digits with
      | Zpos m =>
          if decide (400 < e10)%Z then None
          else if decide (e10 + Z.of_nat (List.length digits) < -400)%Z then Some (S754_zero neg)
          else match round_decimal neg m e10 with
               | S754_infinity _ | S754_nan => None
               | f => Some f
               end
      | _ => Some (S754_zero neg)
      end
  end.

(** [floor (10^k * m * 2^e)] rounded to nearest, ties to even. *)
Definition scaled (m : positive) (e k : Z) : Z :=
  let num := (Zpos m * 2 ^ Z.max e 0 * 10 ^ Z.max k 0)%Z in
  let den := (2 ^ Z.max (- e) 0 * 10 ^ Z.max (- k) 0)%Z in
  let q := (num / den)%Z in
  let r := (num mod den)%Z in
  match (2 * r ?= den)%Z with
  | Lt => q
  | Gt => q + 1
  | Eq => if Z.even q then q else q + 1
  end%Z.

(** The decimal exponent [k] with [10^(k-1) <= m * 2^e < 10^k], from an
    estimate that is never too large; when the value rounds up to [10^k] the
    digits below carry one place. *)
Definition dec_exponent (m : positive) (e : Z) : Z :=
  let ge k := (10 ^ Z.max k 0 * 2 ^ Z.max (- e) 0 <=? Zpos m * 2 ^ Z.max e 0 * 10 ^ Z.max (- k) 0)%Z in
  let est := ((Z.log2 (Zpos m) + e) * 30103 / 100000 - 1)%Z in
  let fix up (fuel : nat) (k : Z) : Z :=
    match fuel with O => k | S f => if ge k then up f (k + 1)%Z else k end in
  up 4%nat est.

(** The shortest decimal [d * 10^e] that reads back as the float, as the digits'
    value and exponent, trying one to seventeen digits. *)
Definition shortest (m : positive) (e : Z) : Z * Z :=
  let k := dec_exponent m e in
  let fix go (fuel : nat) (n : Z) : Z * Z :=
    let d := scaled m e (n - k) in
    match fuel with
    | O => (d, k - n)%Z
    | S f =>
        match d with
        | Zpos p => if bool_decide (round_decimal false p (k - n) = S754_finite false m e)
                    then (d, k - n)%Z else go f (n + 1)%Z
        | _ => go f (n + 1)%Z
        end
    end in
  go 16%nat 1%Z.

(** Digits with the trailing zeros a carry leaves moved into the exponent. *)
Fixpoint strip_zeros (fuel : nat) (d k : Z) : Z * Z :=
  match fuel with
  | O => (d, k)
  | S f => if bool_decide (d mod 10 = 0)%Z then strip_zeros f (d / 10)%Z (k + 1)%Z else (d, k)
  end.

Definition zeros (n : nat) : string := string_of (replicate n 48%nat).

(** The encoder's rendering of a finite float: plain digits between 1e-6 and
    1e21, otherwise an exponent with no leading zero. *)
Definition format_finite (neg : bool) (m : positive) (e : Z) : string :=
  let '(d, k) := uncurry (strip_zeros 18) (shortest m e) in
  let ds := pretty d in
  let n := Z.of_nat (String.length ds) in
  let point := (n + k)%Z in                    (* position of the decimal point *)
  let body :=
    if decide (-6 < point <= 21)%Z then
      if decide (point <= 0)%Z then "0." ++ zeros (Z.to_nat (- point)) ++ ds
      else if decide (n <= point)%Z then ds ++ zeros (Z.to_nat (point - n))
      else String.substring 0 (Z.to_nat point) ds ++ "."
           ++ String.substring (Z.to_nat point) (Z.to_nat (n - point)) ds
    else
      let x := (point - 1)%Z in
      String.substring 0 1 ds
      ++ (if decide (1 < n)%Z then "." ++ String.substring 1 (Z.to_nat (n - 1)) ds else "")
      ++ "e" ++ (if decide (x < 0)%Z then "-" else "+")
      ++ pretty (Z.abs x)
  in (if neg then "-" else "") ++ body.

(** [json.Marshal] refuses infinities and NaN. *)
Definition format_float (f : float64) : option string :=
  match f with
  | S754_zero neg => Some (if neg then "-0" else "0")
  | S754_finite neg m e => Some (format_finite neg m e)
  | _ => None
  end.

(** ** Unmarshal *)

(** Numbers decoded everywhere in a scanned value. *)
Fixpoint decode (v : json string) : option (json float64) :=
  match v with
  | JNull => Some JNull
  | JBool b => Some (JBool b)
  | JNum lit => JNum <$> ParseFloat lit
  | JStr s => Some (JStr s)
  | JArr l =>
      JArr <$> (fix go l := match l with
                            | [] => Some []
                            | x :: l' => match decode x, go l' with
                                         | Some y, Some k => Some (y :: k)
                                         | _, _ => None
                                         end
                            end) l
  | JObj m =>
      (fun entries => JObj (foldl (fun acc kv => obj_insert kv.1 kv.2 acc) [] entries)) <$>
        (fix go m := match m with
                     | [] => Some []
                     | (k, x) :: m' => match decode x, go m' with
                                       | Some y, Some r => Some ((k, y) :: r)
                                       | _, _ => None
                                       end
                     end) m
  end.

(** [json.Unmarshal(data, &value)] with [value any]. *)
Definition Unmarshal (s : string) : option (json float64) :=
  match parse_syntax s with Some v => decode v | None => None end.

(** ** Marshal *)

Definition ascii_str (n : nat) : string := String (ascii_of_nat n) "".

Definition hex2 (c : nat) : string := String (hex_digit (c / 16)) (String (hex_digit (c mod 16)) "").

(** One ASCII byte of a string, with the encoder's escapes, HTML's included. *)
Definition escape_byte (c : nat) : string :=
  if (c =? 34)%nat then string_of [92; 34]%nat
  else if (c =? 92)%nat then string_of [92; 92]%nat
  else if (c =? 8)%nat then "\b" else if (c =? 12)%nat then "\f"
  else if (c =? 10)%nat then "\n" else if (c =? 13)%nat then "\r"
  else if (c =? 9)%nat then "\t"
  else if (c <? 32)%nat || bool_decide (c ∈ [38; 60; 62]%nat) then "\u00" ++ hex2 c
  else ascii_str c.

(** [copy] bytes of a rune are still to be copied, [skip] still to be dropped. *)
Fixpoint escape (copy skip : nat) (l : list nat) : string :=
  match l with
  | [] => ""
  | c :: l' =>
      match copy, skip with
      | S copy', _ => ascii_str c ++ escape copy' 0 l'
      | O, S skip' => escape 0 skip' l'
      | O, O =>
          if (c <? 128)%nat then escape_byte c ++ escape 0 0 l'
          else match utf8_len l with
               | O => "\ufffd" ++ escape 0 0 l'
               | S k =>
                   if bool_decide (take 3 l = [226; 128; 168]%nat) then "\u2028" ++ escape 0 2 l'
                   else if bool_decide (take 3 l = [226; 128; 169]%nat) then "\u2029" ++ escape 0 2 l'
                   else ascii_str c ++ escape k 0 l'
               end
      end
  end.

Definition marshal_string (s : string) : string := dquote ++ escape 0 0 (bytes_of s) ++ dquote.

(** [json.Marshal]: [None] is its error. *)
Fixpoint Marshal (v : json float64) : option string :=
  match v with
  | JNull => Some "null"
  | JBool b => Some (if b then "true" else "false")
  | JNum f => format_float f
  | JStr s => Some (marshal_string s)
  | JArr l =>
      (fun parts => "[" ++ Join parts "," ++ "]") <$>
        (fix go l := match l with
                     | [] => Some []
                     | x :: l' => match Marshal x, go l' with
                                  | Some y, Some k => Some (y :: k)
                                  | _, _ => None
                                  end
                     end) l
  | JObj m =>
      (fun parts => "{" ++ Join parts "," ++ "}") <$>
        (fix go m := match m with
                     | [] => Some []
                     | (k, x) :: m' => match Marshal x, go m' with
                                       | Some y, Some r => Some ((marshal_string k ++ ":" ++ y) :: r)
                                       | _, _ => None
                                       end
                     end) m
  end.

(** ** Compact *)

(** Whitespace outside strings dropped; [str] says the scan is inside a string
    and [esc] that the byte before was an escaping backslash. *)
Fixpoint compact (str esc : bool) (l : list nat) : list nat :=
  match l with
  | [] => []
  | c :: l' =>
      if str then c :: compact (negb ((c =? 34)%nat && negb esc)) ((c =? 92)%nat && negb esc) l'
      else if is_space c then compact false false l'
      else c :: compact (c =? 34)%nat false l'
  end.

(** [json.Compact(dst, src)]: [None] is its error. *)
Definition Compact (s : string) : option string :=
  if Valid s then Some (string_of (compact false false (bytes_of s))) else None.

Example unmarshal_marshal_example :
  (Unmarshal (string_of [123; 34; 98; 34; 58; 32; 91; 49; 44; 50; 46; 53; 93; 44; 10; 34; 97; 34; 58; 49; 125]) ≫= Marshal)
  = Some (string_of [123; 34; 97; 34; 58; 49; 44; 34; 98; 34; 58; 91; 49; 44; 50; 46; 53; 93; 125]).
Proof. vm_compute. reflexivity. Qed.

Example unmarshal_trailing_comma : Unmarshal "[1,]" = None.
Proof. vm_compute. reflexivity. Qed.

Example unmarshal_two_values : Unmarshal "1 2" = None.
Proof. vm_compute. reflexivity. Qed.

Example compact_example : Compact " [ 1 , true ] " = Some "[1,true]".
Proof. vm_compute. reflexivity. Qed.
