(* ===== verification/JsonText.v ===== *)
(** * Properties of JSON texts

    The scanner through white space and through encoded strings. *)

From S2P Require Import Prelude GoStd Json.
From Stdlib Require Import Ascii String.

Local Open Scope string_scope.
Local Open Scope list_scope.

(** ** Bytes and strings *)

Lemma list_ascii_app s t : list_ascii_of_string (s ++ t) = list_ascii_of_string s ++ list_ascii_of_string t.
Proof. induction s as [|c s IH]; [done|]. exact (f_equal (cons c) IH). Qed.

Lemma bytes_of_app s t : bytes_of (s ++ t)%string = bytes_of s ++ bytes_of t.
Proof. unfold bytes_of. by rewrite list_ascii_app, fmap_app. Qed.

Definition is_byte (c : nat) : Prop := (c < 256)%nat.

Lemma bytes_of_bytes s : Forall is_byte (bytes_of s).
Proof.
  apply Forall_fmap, Forall_forall. intros c _. unfold is_byte. simpl. apply nat_ascii_bounded.
Qed.

Lemma bytes_of_string_of l : Forall is_byte l -> bytes_of (string_of l) = l.
Proof.
  intros Hl. unfold bytes_of, string_of. rewrite list_ascii_of_string_of_list_ascii, <- list_fmap_compose.
  induction Hl as [|c l Hc _ IH]; [done|]. exact (f_equal2 cons (nat_ascii_embedding c Hc) IH).
Qed.

Lemma string_of_bytes_of s : string_of (bytes_of s) = s.
Proof.
  unfold bytes_of, string_of. rewrite <- list_fmap_compose.
  rewrite <- (string_of_list_ascii_of_string s) at 2. f_equal.
  induction (list_ascii_of_string s) as [|c l IH]; [done|]. exact (f_equal2 cons (ascii_nat_embedding c) IH).
Qed.

Lemma bytes_of_byte c : is_byte c -> bytes_of (ascii_str c) = [c].
Proof. intros Hc. unfold ascii_str, bytes_of. simpl. by rewrite nat_ascii_embedding. Qed.

(** ** White space around a text *)

Lemma lex_cons st c l : lex st (c :: l) =
  match lex_step st c with
  | Some (ts, st') => match lex st' l with Some ts' => Some (ts ++ ts') | None => None end
  | None => None
  end.
Proof. done. Qed.

Lemma lex_token st c ts st' l :
  lex_step st c = Some (ts, st') ->
  lex st (c :: l) = match lex st' l with Some ts' => Some (ts ++ ts') | None => None end.
Proof. intros Hc. by rewrite lex_cons, Hc. Qed.

Lemma lex_space c l : is_space c = true -> lex LGround (c :: l) = lex LGround l.
Proof. intros Hc. rewrite lex_cons. cbn [lex_step]. unfold lex_ground. rewrite Hc. by destruct (lex _ l). Qed.

(** A space at the end of a scan that succeeds with it, or without. *)
Lemma lex_space_end st c l : is_space c = true -> is_Some (lex st (l ++ [c])) -> lex st (l ++ [c]) = lex st l.
Proof.
  intros Hc. revert st. induction l as [|d l IH]; intros st; cbn [app].
  - assert (is_number_byte c = false /\ is_letter c = false /\ lex_ground c = Some ([], LGround)) as (Hn & Hl & Hg).
    { unfold is_space in Hc. apply bool_decide_eq_true in Hc. rewrite !elem_of_cons, elem_of_nil in Hc.
      by destruct Hc as [->|[->|[->|[->|[]]]]]. }
    assert (escape_value c = None /\ (c =? 117)%nat = false /\ hex_value c = None) as (He & Hu & Hh).
    { unfold is_space in Hc. apply bool_decide_eq_true in Hc. rewrite !elem_of_cons, elem_of_nil in Hc.
      by destruct Hc as [->|[->|[->|[->|[]]]]]. }
    destruct st as [|acc|acc|n acc|acc|acc]; cbn [lex lex_step]; rewrite ?Hn, ?Hl, ?Hg, ?He, ?Hu, ?Hh; cbn [lex app];
      try done; try (by intros [? ?]).
    intros Hs. exfalso. destruct (c =? 34)%nat eqn:E34; [|destruct (c =? 92)%nat eqn:E92; [|destruct (c <? 32)%nat]];
      try (by destruct Hs).
    + apply Nat.eqb_eq in E34 as ->. by vm_compute in Hc.
  - rewrite !lex_cons. destruct (lex_step st d) as [[ts st']|]; [|done].
    intros Hs. rewrite IH; [done|]. destruct (lex st' (l ++ [c])); [eauto|by destruct Hs].
Qed.

Lemma Valid_lex s : Valid s = true -> is_Some (lex LGround (bytes_of s)).
Proof.
  unfold Valid, parse_syntax. rewrite bool_decide_eq_true. destruct (lex _ _); [eauto|by intros [? ?]].
Qed.

(** A text is valid according to its tokens. *)
Lemma parse_syntax_tokens s t : lex LGround (bytes_of s) = lex LGround (bytes_of t) -> parse_syntax s = parse_syntax t.
Proof. unfold parse_syntax. by intros ->. Qed.

(** ** Silent stretches: bytes that complete no token *)

Fixpoint silent (st : lex_state) (l : list nat) : option lex_state :=
  match l with
  | [] => Some st
  | c :: l' => match lex_step st c with Some ([], st') => silent st' l' | _ => None end
  end.

Lemma lex_silent st l st' rest : silent st l = Some st' -> lex st (l ++ rest) = lex st' rest.
Proof.
  revert st. induction l as [|c l IH]; intros st; cbn [silent app]; [by intros [= ->]|].
  rewrite lex_cons. destruct (lex_step st c) as [[[|] st1]|]; try done.
  intros Hs. rewrite (IH _ Hs). by destruct (lex st' rest).
Qed.

Lemma silent_app st l1 l2 st' : silent st l1 = Some st' -> silent st (l1 ++ l2) = silent st' l2.
Proof.
  revert st. induction l1 as [|c l IH]; intros st; cbn [silent app]; [by intros [= ->]|].
  destruct (lex_step st c) as [[[|] st1]|]; try done. apply IH.
Qed.

(** From inside a string to inside it. *)
Definition stays (l : list nat) : Prop := forall acc, exists acc', silent (LString acc) l = Some (LString acc').

Lemma stays_nil : stays [].
Proof. intros acc. by exists acc. Qed.

Lemma stays_app l1 l2 : stays l1 -> stays l2 -> stays (l1 ++ l2).
Proof.
  intros H1 H2 acc. destruct (H1 acc) as [acc1 Ha]. destruct (H2 acc1) as [acc2 Hb].
  exists acc2. by rewrite (silent_app _ _ _ _ Ha).
Qed.

Lemma stays_high c : (128 <= c)%nat -> stays [c].
Proof.
  intros Hc acc. exists (c :: acc). cbn [silent lex_step].
  rewrite (proj2 (Nat.eqb_neq c 34)), (proj2 (Nat.eqb_neq c 92)), (proj2 (Nat.ltb_ge c 32)) by lia. done.
Qed.

Lemma stays_escape_byte c : (c < 128)%nat -> stays (bytes_of (escape_byte c)).
Proof.
  intros Hc acc. do 128 (destruct c as [|c]; [eexists; reflexivity|]). lia.
Qed.

(** The bytes of a multi-byte rune after the first. *)
Lemma utf8_len_tail c l k :
  (128 <= c)%nat -> utf8_len (c :: l) = S k -> Forall (fun d => 128 <= d)%nat (take k l) /\ (k <= List.length l)%nat.
Proof.
  intros Hc. unfold utf8_len. rewrite (proj2 (Nat.ltb_ge c 128)) by done. unfold in_range.
  destruct l as [|b [|d [|e l]]]; try done; cbn [take List.length];
    repeat case_match; intros [= <-]; cbn [take];
    repeat match goal with
    | H : (_ && _) = true |- _ => apply andb_true_iff in H as [? ?]
    | H : (_ <=? _)%nat = true |- _ => apply Nat.leb_le in H
    end; split; try lia; repeat constructor; lia.
Qed.

(** The encoder's output never leaves the string it is in. *)
Lemma stays_escape copy skip l :
  Forall is_byte l -> Forall (fun d => 128 <= d)%nat (take copy l) -> stays (bytes_of (escape copy skip l)).
Proof.
  revert copy skip. induction l as [|c l IH]; intros copy skip Hl Hcopy; [apply stays_nil|].
  apply Forall_cons in Hl as [Hc Hl]. cbn [escape].
  destruct copy as [|copy]; [destruct skip as [|skip]|].
  - destruct (c <? 128)%nat eqn:E.
    + apply Nat.ltb_lt in E. rewrite bytes_of_app. apply stays_app; [by apply stays_escape_byte|by apply IH].
    + apply Nat.ltb_ge in E. destruct (utf8_len (c :: l)) as [|k] eqn:Eu.
      * rewrite bytes_of_app. apply stays_app; [|by apply IH]. intros acc. eexists. reflexivity.
      * case_bool_decide; [|case_bool_decide].
        -- rewrite bytes_of_app. apply stays_app; [|by apply IH]. intros acc. eexists. reflexivity.
        -- rewrite bytes_of_app. apply stays_app; [|by apply IH]. intros acc. eexists. reflexivity.
        -- rewrite bytes_of_app, bytes_of_byte by done. apply stays_app; [by apply stays_high|].
           apply IH; [done|]. by apply (utf8_len_tail c).
  - by apply IH.
  - cbn [take] in Hcopy. apply Forall_cons in Hcopy as [Hh Hcopy].
    rewrite bytes_of_app, bytes_of_byte by done. apply stays_app; [by apply stays_high|by apply IH].
Qed.

(** An encoded string is one token. *)
Lemma lex_marshal_string s rest :
  exists t, lex LGround (bytes_of (marshal_string s) ++ rest)
            = match lex LGround rest with Some ts => Some (TStr t :: ts) | None => None end.
Proof.
  unfold marshal_string. rewrite !bytes_of_app, <- !app_assoc.
  destruct (stays_escape 0 0 (bytes_of s) (bytes_of_bytes s) (Forall_nil_2 _) []) as [acc Hacc].
  change (bytes_of dquote) with [34]%nat. exists (string_of (unquote 0 (reverse acc))).
  change (lex LGround ([34%nat] ++ bytes_of (escape 0 0 (bytes_of s)) ++ [34%nat] ++ rest))
    with (match lex (LString []) (bytes_of (escape 0 0 (bytes_of s)) ++ [34%nat] ++ rest) with
          | Some ts' => Some ([] ++ ts') | None => None end).
  rewrite (lex_silent _ _ _ _ Hacc). cbn [app]. rewrite lex_cons. cbn [lex_step]. rewrite Nat.eqb_refl.
  by destruct (lex LGround rest).
Qed.
