(* ===== verification/JsonParse.v ===== *)
(** * The JSON parser as the inverse of a printer of tokens

    A list of tokens is accepted with the value whose tokens it is. *)

From S2P Require Import Prelude GoStd Json JsonText.
From Stdlib Require Import Ascii String.

Local Open Scope string_scope.
Local Open Scope list_scope.

(** ** The tokens of a value *)

Fixpoint commas (ts : list (list token)) : list token :=
  match ts with
  | [] => []
  | [t] => t
  | t :: ts => t ++ TComma :: commas ts
  end.

Fixpoint tokens (v : json string) : list token :=
  match v with
  | JNull => [TLit "null"]
  | JBool b => [TLit (if b then "true" else "false")]
  | JNum lit => [TNum lit]
  | JStr s => [TStr s]
  | JArr l => TLBrack :: commas (tokens <$> l) ++ [TRBrack]
  | JObj m => TLBrace :: commas ((fun kv => TStr kv.1 :: TColon :: tokens kv.2) <$> m) ++ [TRBrace]
  end.

(** The numbers are numbers, and the nesting is within [d]. *)
Fixpoint fits (d : nat) (v : json string) : Prop :=
  match v with
  | JNum lit => is_Some (number_parts (bytes_of lit))
  | JArr l => match d with S d => Forall (fits d) l | O => False end
  | JObj m => match d with S d => Forall (fun kv => fits d kv.2) m | O => False end
  | _ => True
  end.

(** ** The parser reads the tokens of a value as that value *)

Lemma parse_run_app st ts ts' : parse_run st (ts ++ ts') =
  match parse_run st ts with Some st' => parse_run st' ts' | None => None end.
Proof. revert st. induction ts as [|t ts IH]; intros st; [done|]. cbn. destruct (parse_step st t); [apply IH|done]. Qed.

Lemma parse_cons st t ts : parse_run st (t :: ts) = match parse_step st t with Some st' => parse_run st' ts | None => None end.
Proof. done. Qed.

Definition opens (v : json string) : token := default TComma (head (tokens v)).

(** In either mode that takes a value. *)
Lemma parse_value_or_end v s rest : parse_run (s, MValueOrEnd) (tokens v ++ rest) = parse_run (s, MValue) (tokens v ++ rest).
Proof. by destruct v. Qed.

Definition reads (v : json string) : Prop := forall s rest,
  fits (max_depth - List.length s) v -> parse_run (s, MValue) (tokens v ++ rest) = parse_run (complete v s) rest.

Lemma reads_scalar v : match v with JArr _ | JObj _ => False | _ => True end -> reads v.
Proof.
  intros Hv s rest. destruct v as [|b|lit|str|l|m]; cbn [tokens app]; rewrite ?parse_cons; cbn [parse_step open_value]; try done.
  - by destruct b.
  - destruct (max_depth - _)%nat; intros [p Hp]; cbn [scalar]; by rewrite Hp.
Qed.

Lemma reads_elements l acc s rest :
  Forall reads l -> Forall (fits (max_depth - S (List.length s))) l ->
  parse_run (FArr acc :: s, match l with [] => MAfter | _ => MValue end) (commas (tokens <$> l) ++ TRBrack :: rest)
  = parse_run (complete (JArr (reverse acc ++ l)) s) rest.
Proof.
  revert acc. induction l as [|v l IH]; intros acc Hr Hf.
  - cbn. by rewrite app_nil_r.
  - apply Forall_cons in Hr as [Hv Hr]. apply Forall_cons in Hf as [Hfv Hf].
    assert (reverse acc ++ v :: l = reverse (v :: acc) ++ l) as -> by by rewrite reverse_cons, <- app_assoc.
    destruct l as [|v' l].
    + cbn [fmap list_fmap commas]. rewrite (Hv (FArr acc :: s)) by done. cbn. by rewrite app_nil_r.
    + cbn [fmap list_fmap commas]. rewrite <- app_assoc. rewrite (Hv (FArr acc :: s)) by done.
      cbn [complete]. rewrite <- app_comm_cons, parse_cons. cbn [parse_step].
      exact (IH (v :: acc) Hr Hf).
Qed.

Lemma reads_array l : Forall reads l -> reads (JArr l).
Proof.
  intros Hl s rest Hf. cbn [tokens]. rewrite <- app_comm_cons, parse_cons. cbn [parse_step open_value].
  destruct (max_depth - List.length s) as [|d] eqn:Hd; [done|]. cbn [fits] in Hf.
  destruct (Nat.ltb_spec (List.length s) max_depth) as [_|?]; [|lia].
  replace d with (max_depth - S (List.length s)) in Hf by lia.
  pose proof (reads_elements l [] s rest Hl Hf) as Hrun. change (reverse [] ++ l) with l in Hrun. rewrite <- app_assoc. cbn [app].
  destruct l as [|v l]; [done|]. rewrite <- Hrun. cbn [fmap list_fmap commas].
  destruct l; cbn [fmap list_fmap]; [apply parse_value_or_end|]. rewrite <- !app_assoc. apply parse_value_or_end.
Qed.

Abbreviation member_tokens := (fun kv : string * json string => TStr kv.1 :: TColon :: tokens kv.2).

Lemma reads_members m acc s rest k0 :
  Forall (fun kv => reads kv.2) m -> Forall (fun kv => fits (max_depth - S (List.length s)) kv.2) m ->
  parse_run (FObj acc k0 :: s, match m with [] => MAfter | _ => MKey end) (commas (member_tokens <$> m) ++ TRBrace :: rest)
  = parse_run (complete (JObj (reverse acc ++ m)) s) rest.
Proof.
  revert acc k0. induction m as [|[k v] m IH]; intros acc k0 Hr Hf.
  - cbn. by rewrite app_nil_r.
  - apply Forall_cons in Hr as [Hv Hr]. apply Forall_cons in Hf as [Hfv Hf]. cbn [snd] in Hv, Hfv.
    assert (reverse acc ++ (k, v) :: m = reverse ((k, v) :: acc) ++ m) as -> by by rewrite reverse_cons, <- app_assoc.
    destruct m as [|kv' m].
    + cbn [fmap list_fmap commas fst snd app]. rewrite !parse_cons. cbn [parse_step].
      rewrite parse_cons. cbn [parse_step]. rewrite (Hv (FObj acc k :: s)) by done. cbn. by rewrite app_nil_r.
    + cbn [fmap list_fmap commas fst snd app]. rewrite !parse_cons. cbn [parse_step].
      rewrite parse_cons. cbn [parse_step]. rewrite <- app_assoc. rewrite (Hv (FObj acc k :: s)) by done.
      cbn [complete]. rewrite <- app_comm_cons, parse_cons. cbn [parse_step].
      exact (IH ((k, v) :: acc) "" Hr Hf).
Qed.

Lemma reads_object m : Forall (fun kv => reads kv.2) m -> reads (JObj m).
Proof.
  intros Hm s rest Hf. cbn [tokens]. rewrite <- app_comm_cons, parse_cons. cbn [parse_step open_value].
  destruct (max_depth - List.length s) as [|d] eqn:Hd; [done|]. cbn [fits] in Hf.
  destruct (Nat.ltb_spec (List.length s) max_depth) as [_|?]; [|lia].
  replace d with (max_depth - S (List.length s)) in Hf by lia.
  pose proof (reads_members m [] s rest "" Hm Hf) as Hrun. change (reverse [] ++ m) with m in Hrun. rewrite <- app_assoc. cbn [app].
  destruct m as [|[k v] m]; [done|]. rewrite <- Hrun. cbn [fmap list_fmap commas fst snd].
  destruct m; cbn [fmap list_fmap app]; by rewrite !parse_cons.
Qed.

Lemma parse_tokens v : reads v.
Proof.
  induction v as [|b|lit|s|l Hl|m Hm] using json_ind'; try (by apply reads_scalar); [by apply reads_array|by apply reads_object].
Qed.

Lemma parse_syntax_lexed s v :
  lex LGround (bytes_of s) = Some (tokens v) -> fits max_depth v -> parse_syntax s = Some v.
Proof.
  intros Hs Hf. unfold parse_syntax. rewrite Hs. pose proof (parse_tokens v [] [] Hf) as Hp.
  rewrite app_nil_r in Hp. by rewrite Hp.
Qed.

(** ** What the parser accepts is the tokens of what it returns *)

#[local] Opaque max_depth.

Definition with_comma (t : list token) : list token := t ++ [TComma].

Lemma commas_snoc ts t : commas (ts ++ [t]) = List.concat (with_comma <$> ts) ++ t.
Proof.
  induction ts as [|t0 ts IH]; [done|]. cbn [app commas fmap list_fmap List.concat].
  destruct (ts ++ [t]) as [|t1 ts'] eqn:E; [by destruct ts|]. unfold with_comma at 1. by rewrite IH, <- !app_assoc.
Qed.

Lemma commas_with_comma ts : ts <> [] -> commas ts ++ [TComma] = List.concat (with_comma <$> ts).
Proof.
  destruct ts as [|ts t _] using rev_ind; [done|]. intros _. rewrite commas_snoc, fmap_app, List.concat_app, <- app_assoc.
  cbn. by rewrite app_nil_r.
Qed.

Definition elements_before (acc : list (json string)) : list token := List.concat (with_comma <$> (tokens <$> reverse acc)).
Definition members_before (acc : list (string * json string)) : list token :=
  List.concat (with_comma <$> (member_tokens <$> reverse acc)).

(** The tokens behind a frame whose next value is being read. *)
Definition frame_tokens (f : frame) : list token :=
  match f with
  | FArr acc => TLBrack :: elements_before acc
  | FObj acc k => TLBrace :: members_before acc ++ [TStr k; TColon]
  end.

Fixpoint below (s : list frame) : list token :=
  match s with [] => [] | f :: s => below s ++ frame_tokens f end.

Definition consumed (st : list frame * mode) : list token :=
  let '(s, m) := st in
  match m with
  | MValue | MValueOrEnd => below s
  | MKey | MKeyOrEnd =>
      match s with FObj acc _ :: s => below s ++ TLBrace :: members_before acc | _ => [] end
  | MColon k =>
      match s with FObj acc _ :: s => below s ++ TLBrace :: members_before acc ++ [TStr k] | _ => [] end
  | MAfter =>
      match s with
      | FArr acc :: s => below s ++ TLBrack :: commas (tokens <$> reverse acc)
      | FObj acc _ :: s => below s ++ TLBrace :: commas (member_tokens <$> reverse acc)
      | [] => []
      end
  | MDone v => tokens v
  end.

Fixpoint frames_fit (s : list frame) : Prop :=
  match s with
  | [] => True
  | FArr acc :: s => (List.length s < max_depth)%nat /\ Forall (fits (max_depth - S (List.length s))) acc /\ frames_fit s
  | FObj acc _ :: s =>
      (List.length s < max_depth)%nat /\ Forall (fun kv => fits (max_depth - S (List.length s)) kv.2) acc /\ frames_fit s
  end.

Definition coherent (st : list frame * mode) : Prop :=
  frames_fit st.1 /\
  match st.2 with
  | MValue => True
  | MValueOrEnd => match st.1 with FArr [] :: _ => True | _ => False end
  | MKeyOrEnd => match st.1 with FObj [] _ :: _ => True | _ => False end
  | MKey | MColon _ => match st.1 with FObj _ _ :: _ => True | _ => False end
  | MAfter => match st.1 with FArr (_ :: _) :: _ | FObj (_ :: _) _ :: _ => True | _ => False end
  | MDone v => match st.1 with [] => fits max_depth v | _ => False end
  end.

Lemma elements_end v acc : commas (tokens <$> reverse (v :: acc)) = elements_before acc ++ tokens v.
Proof. rewrite reverse_cons, fmap_app. apply commas_snoc. Qed.

Lemma members_end k v acc :
  commas (member_tokens <$> reverse ((k, v) :: acc)) = members_before acc ++ TStr k :: TColon :: tokens v.
Proof. rewrite reverse_cons, fmap_app. apply commas_snoc. Qed.

Lemma complete_consumed v s : frames_fit s -> fits (max_depth - List.length s) v ->
  coherent (complete v s) /\ consumed (complete v s) = below s ++ tokens v.
Proof.
  intros Hs Hv. destruct s as [|[acc|acc k] s]; cbn [complete consumed below frame_tokens].
  - split; [|done]. split; [done|]. cbn [List.length] in Hv. by rewrite Nat.sub_0_r in Hv.
  - destruct Hs as (Hlen & Hacc & Hs). split; [split; [|done]; cbn; by repeat split; [|constructor|]|].
    by rewrite elements_end, <- app_assoc.
  - destruct Hs as (Hlen & Hacc & Hs). split; [split; [|done]; cbn; by repeat split; [|constructor|]|].
    by rewrite members_end, <- app_assoc, <- app_comm_cons, <- app_assoc.
Qed.

Lemma scalar_tokens t v : scalar t = Some v -> tokens v = [t] /\ forall d, fits d v.
Proof.
  destruct t as [| | | | | |s|lit|lit]; try done; cbn [scalar].
  - intros [= <-]. split; [done|by intros []].
  - destruct (number_parts _) as [p|] eqn:Hp; [|done]. intros [= <-]. split; [done|]. intros [|d]; by exists p.
  - intros Hs. assert (lit = "true" \/ lit = "false" \/ lit = "null") as [->|[->| ->]]; revert Hs.
    2-4: intros [= <-]; split; [done|by intros []].
    repeat case_match; naive_solver.
Qed.

Lemma close_fits d l : (d < max_depth)%nat -> Forall (fits (max_depth - S d)) l -> fits (max_depth - d) (JArr l).
Proof. intros Hd Hl. replace (max_depth - d)%nat with (S (max_depth - S d)) by lia. done. Qed.

Lemma close_object_fits d m :
  (d < max_depth)%nat -> Forall (fun kv => fits (max_depth - S d) kv.2) m -> fits (max_depth - d) (JObj m).
Proof. intros Hd Hm. replace (max_depth - d)%nat with (S (max_depth - S d)) by lia. done. Qed.

Lemma open_consumed t s st : frames_fit s -> open_value t s = Some st -> coherent st /\ consumed st = below s ++ [t].
Proof.
  intros Hs. unfold open_value.
  assert ((fun v => complete v s) <$> scalar t = Some st -> coherent st /\ consumed st = below s ++ [t]) as Hscalar.
  { destruct (scalar t) as [v|] eqn:Hv; [|done]. intros [= <-]. apply scalar_tokens in Hv as [<- Hf].
    apply complete_consumed; [done|apply Hf]. }
  destruct t; try exact Hscalar; destruct (Nat.ltb_spec (List.length s) max_depth); try done; intros [= <-];
    (split; [by repeat split|done]).
Qed.

(** Closing a composite. *)
Lemma close_array_consumed acc s : frames_fit (FArr acc :: s) ->
  coherent (complete (JArr (reverse acc)) s) /\
  consumed (complete (JArr (reverse acc)) s) = below s ++ TLBrack :: commas (tokens <$> reverse acc) ++ [TRBrack].
Proof.
  intros (Hlen & Hacc & Hs). apply complete_consumed; [done|]. apply close_fits; [done|].
  by apply Forall_reverse.
Qed.

Lemma close_object_consumed acc k s : frames_fit (FObj acc k :: s) ->
  coherent (complete (JObj (reverse acc)) s) /\
  consumed (complete (JObj (reverse acc)) s) = below s ++ TLBrace :: commas (member_tokens <$> reverse acc) ++ [TRBrace].
Proof.
  intros (Hlen & Hacc & Hs). apply complete_consumed; [done|]. apply close_object_fits; [done|].
  by apply Forall_reverse.
Qed.

(** The next value of an array, or the next member of an object. *)
Lemma elements_comma acc : acc <> [] -> commas (tokens <$> reverse acc) ++ [TComma] = elements_before acc.
Proof.
  intros Hacc. apply commas_with_comma. intros He%fmap_nil_inv. apply Hacc.
  by rewrite <- (reverse_involutive acc), He.
Qed.

Lemma members_comma acc : acc <> [] -> commas (member_tokens <$> reverse acc) ++ [TComma] = members_before acc.
Proof.
  intros Hacc. apply commas_with_comma. intros He%fmap_nil_inv. apply Hacc.
  by rewrite <- (reverse_involutive acc), He.
Qed.

Lemma parse_step_consumed st t st' : coherent st -> parse_step st t = Some st' ->
  coherent st' /\ consumed st' = consumed st ++ [t].
Proof.
  destruct st as [s m]. intros [Hs Hm] Hstep. cbn [fst snd] in Hs, Hm. destruct m; cbn [parse_step consumed] in *.
  - by apply open_consumed.
  - destruct s as [|[[|]|] s]; try done.
    destruct t; try (by apply open_consumed). injection Hstep as <-.
    destruct (close_array_consumed [] s Hs) as [? ->]. split; [done|]. cbn. by rewrite <- app_assoc.
  - destruct s as [|[|acc k] s]; try done. destruct t; try done. injection Hstep as <-. split; [done|].
    cbn [consumed]. by rewrite <- app_assoc.
  - destruct s as [|[|[|] k] s]; try done. destruct t; try done; injection Hstep as <-.
    + destruct (close_object_consumed [] k s Hs) as [? ->]. split; [done|]. cbn. by rewrite <- app_assoc.
    + split; [done|]. cbn [consumed]. by rewrite <- app_assoc.
  - destruct s as [|[|acc k] s]; try done. destruct t; try done. injection Hstep as <-. split; [done|].
    cbn [consumed below frame_tokens]. by rewrite <- !app_assoc, <- !app_comm_cons, <- !app_assoc.
  - destruct s as [|[[|v acc]|[|kv acc] k] s]; try done; destruct t; try done; injection Hstep as <-.
    + destruct (close_array_consumed (v :: acc) s Hs) as [? ->]. split; [done|]. by rewrite <- app_assoc.
    + split; [done|]. cbn [consumed below frame_tokens]. by rewrite <- app_assoc, <- app_comm_cons, elements_comma.
    + destruct (close_object_consumed (kv :: acc) k s Hs) as [? ->]. split; [done|]. by rewrite <- app_assoc.
    + split; [done|]. cbn [consumed]. by rewrite <- app_assoc, <- app_comm_cons, members_comma.
  - done.
Qed.

Lemma parse_run_consumed st ts st' : coherent st -> parse_run st ts = Some st' ->
  coherent st' /\ consumed st' = consumed st ++ ts.
Proof.
  revert st. induction ts as [|t ts IH]; intros st Hst; cbn [parse_run].
  - intros [= ->]. by rewrite app_nil_r.
  - destruct (parse_step st t) as [st1|] eqn:Hstep; [|done]. destruct (parse_step_consumed _ _ _ Hst Hstep) as [Hst1 Hc].
    intros Hrun. destruct (IH _ Hst1 Hrun) as [? ->]. split; [done|]. by rewrite Hc, <- app_assoc.
Qed.

(** The text of a value is its tokens, spaced and spelled in some way. *)
Lemma parse_syntax_tokens_of s v :
  parse_syntax s = Some v <-> lex LGround (bytes_of s) = Some (tokens v) /\ fits max_depth v.
Proof.
  split; [|by intros [? ?]; apply parse_syntax_lexed]. unfold parse_syntax.
  destruct (lex _ _) as [ts|]; [|done]. destruct (parse_run _ _) as [[s' m]|] eqn:Hrun; [|done].
  destruct m as [| | | | | |v']; try done. intros [= ->].
  destruct (parse_run_consumed ([], MValue) ts _ (conj I I) Hrun) as [[_ Hf] Hc]. cbn in Hc.
  destruct s'; [|done]. by rewrite Hc.
Qed.
