(* ===== verification/JsonString.v ===== *)
(** * The JSON scanner on texts put together

    Punctuation, encoded strings, numbers, and lists of parts. *)

From S2P Require Import Prelude GoStd Json JsonText JsonParse.
From Stdlib Require Import Ascii String.

Local Open Scope string_scope.
Local Open Scope list_scope.

(** ** The scanner on texts put together *)

(** What may follow a value: nothing, or one of [,] [\]] [}]. *)
Definition follows (rest : list nat) : Prop :=
  match rest with [] => True | c :: _ => c = 44%nat \/ c = 93%nat \/ c = 125%nat end.

Definition prepend (ts : list token) (r : option (list token)) : option (list token) :=
  match r with Some ts' => Some (ts ++ ts') | None => None end.

Lemma prepend_app ts ts' r : prepend ts (prepend ts' r) = prepend (ts ++ ts') r.
Proof. destruct r; [cbn; by rewrite app_assoc|done]. Qed.

(** [l] is scanned as [ts], before whatever follows. *)
Definition lexes (l : list nat) (ts : list token) : Prop := forall rest,
  follows rest -> lex LGround (l ++ rest) = prepend ts (lex LGround rest).

Lemma lexes_all l ts : lexes l ts -> lex LGround l = Some ts.
Proof. intros Hl. pose proof (Hl [] I) as H. rewrite app_nil_r in H. rewrite H. cbn. by rewrite app_nil_r. Qed.

(** A text that is scanned by itself is scanned the same before what follows. *)
Lemma lex_before l st ts rest : lex st l = Some ts -> follows rest -> lex st (l ++ rest) = prepend ts (lex LGround rest).
Proof.
  revert st ts. induction l as [|c l IH]; intros st ts Hl Hrest.
  - cbn [app]. destruct rest as [|c rest].
    + rewrite Hl. cbn. by rewrite app_nil_r.
    + destruct st; cbn [lex] in Hl; try done; injection Hl as <-; [by destruct (lex LGround (c :: rest))| |];
        destruct Hrest as [->|[->| ->]]; rewrite !lex_cons; cbn [lex_step];
        try match goal with |- context [is_number_byte ?c] => change (is_number_byte c) with false end;
        try match goal with |- context [is_letter ?c] => change (is_letter c) with false end;
        cbn match; (destruct (lex_ground _) as [[ts st']|]; [by destruct (lex st' rest)|done]).
  - cbn [app]. rewrite lex_cons in Hl |- *. destruct (lex_step st c) as [[ts1 st1]|]; [|done].
    destruct (lex st1 l) as [ts2|] eqn:Hl2; [|done]. injection Hl as <-.
    rewrite (IH _ _ Hl2 Hrest). by destruct (lex LGround rest); cbn; rewrite ?app_assoc.
Qed.

Lemma lexes_text l ts : lex LGround l = Some ts -> lexes l ts.
Proof. intros Hl rest. by apply lex_before. Qed.

(** One byte that is a token. *)
Definition punctuation (c : nat) (t : token) : Prop := lex_ground c = Some ([t], LGround).

Lemma lex_punctuation c t l : punctuation c t -> lex LGround (c :: l) = prepend [t] (lex LGround l).
Proof. intros Hc. rewrite lex_cons. cbn [lex_step]. by rewrite Hc. Qed.

Lemma punctuation_open : punctuation 91 TLBrack /\ punctuation 123 TLBrace.
Proof. done. Qed.
Lemma punctuation_inner : punctuation 44 TComma /\ punctuation 58 TColon.
Proof. done. Qed.
Lemma punctuation_close : punctuation 93 TRBrack /\ punctuation 125 TRBrace.
Proof. done. Qed.

(** *** Lists of parts between brackets *)

Lemma bytes_of_Join p parts :
  bytes_of (Join (p :: parts) ",") = bytes_of p ++ List.concat ((fun q => 44%nat :: bytes_of q) <$> parts).
Proof.
  revert p. induction parts as [|q parts IH]; intros p.
  - cbn. by rewrite app_nil_r.
  - change (Join (p :: q :: parts) ",") with (p ++ "," ++ Join (q :: parts) ",")%string.
    rewrite !bytes_of_app, IH. reflexivity.
Qed.

Lemma lex_parts close t parts tss rest :
  punctuation close t -> close = 93%nat \/ close = 125%nat ->
  Forall2 (fun p ts => lexes (bytes_of p) ts) parts tss ->
  lex LGround (bytes_of (Join parts ",") ++ close :: rest) = prepend (commas tss ++ [t]) (lex LGround rest).
Proof.
  intros Hclose Hc Hparts. assert (follows (close :: rest)) as Hf by (by right).
  destruct Hparts as [|p ts parts tss Hp Hparts].
  - change (bytes_of (Join [] ",")) with (@nil nat). cbn [app]. by rewrite (lex_punctuation _ _ _ Hclose).
  - rewrite bytes_of_Join. revert p ts Hp. induction Hparts as [|q ts' parts tss Hq Hparts IH]; intros p ts Hp.
    + cbn [fmap list_fmap List.concat]. rewrite app_nil_r, Hp by done.
      by rewrite (lex_punctuation _ _ _ Hclose), prepend_app.
    + cbn [fmap list_fmap List.concat]. rewrite <- !app_assoc, Hp by by left.
      rewrite <- app_comm_cons, (lex_punctuation _ _ _ (proj1 punctuation_inner)), app_assoc, (IH q ts' Hq), !prepend_app.
      change (commas (ts :: ts' :: tss)) with (ts ++ TComma :: commas (ts' :: tss)). by rewrite <- !app_assoc.
Qed.

(** *** Strings *)

(** The bytes a string state has read. *)
Definition read_so_far (st : lex_state) : option (list nat) :=
  match st with LString acc | LEscape acc | LUnicode _ acc => Some acc | _ => None end.

Lemma silent_in_string st l st' acc : read_so_far st = Some acc -> silent st l = Some st' ->
  read_so_far st' = Some (reverse l ++ acc).
Proof.
  revert st acc. induction l as [|c l IH]; intros st acc Hst; cbn [silent]; [intros [= <-]; by rewrite Hst|].
  destruct (lex_step st c) as [[[|] st1]|] eqn:Hc; try done. intros Hs.
  rewrite reverse_cons, <- app_assoc. apply (IH st1); [|done].
  destruct st; try done; injection Hst as ->; cbn [lex_step] in Hc; repeat case_match; simplify_eq; done.
Qed.

Lemma lex_string_token s rest :
  lex LGround (bytes_of (marshal_string s) ++ rest)
  = prepend [TStr (string_of (unquote 0 (bytes_of (escape 0 0 (bytes_of s)))))] (lex LGround rest).
Proof.
  unfold marshal_string. rewrite !bytes_of_app, <- !app_assoc.
  destruct (stays_escape 0 0 (bytes_of s) (bytes_of_bytes s) (Forall_nil_2 _) []) as [acc Hacc].
  pose proof (silent_in_string (LString []) _ _ [] eq_refl Hacc) as Hread. cbn in Hread. rewrite app_nil_r in Hread.
  injection Hread as ->. change (bytes_of dquote) with [34]%nat.
  rewrite <- app_comm_cons, lex_cons. cbn [lex_step]. change (lex_ground 34) with (Some (@nil token, LString [])).
  cbn [app]. rewrite (lex_silent _ _ _ _ Hacc). cbn [app]. rewrite lex_cons. cbn [lex_step]. rewrite Nat.eqb_refl, reverse_involutive.
  by destruct (lex LGround rest).
Qed.

(** Valid UTF-8, [keep] bytes of a rune already begun to go. *)
Fixpoint utf8_from (keep : nat) (l : list nat) : bool :=
  match l with
  | [] => bool_decide (keep = 0)
  | c :: l' =>
      match keep with
      | S k => utf8_from k l'
      | O => match utf8_len l with O => false | S k => utf8_from k l' end
      end
  end.

Definition valid_utf8 (s : string) : bool := utf8_from 0 (bytes_of s).

(** A hex escape read back, not of a surrogate. *)
Lemma unquote_hex a b c d r rest :
  hex4 a b c d = Some r -> ~ (55296 <= r < 56320)%Z ->
  unquote 0 (92%nat :: 117%nat :: a :: b :: c :: d :: rest) = encode_rune r ++ unquote 0 rest.
Proof.
  intros Hr Hs. cbn [unquote]. cbn match.
  destruct rest as [|x0 [|x1 [|x2 [|x3 [|x4 [|x5 rest]]]]]]; rewrite Hr; cbn [default]; try done.
  by rewrite decide_False.
Qed.

Lemma unquote_ascii c rest : (c < 128)%nat -> c <> 92%nat -> unquote 0 (c :: rest) = c :: unquote 0 rest.
Proof.
  intros Hc H92. cbn [unquote]. rewrite (proj2 (Nat.eqb_neq c 92)) by done.
  unfold utf8_len. by rewrite (proj2 (Nat.ltb_lt c 128)).
Qed.

Lemma unquote_escape_byte c rest : (c < 128)%nat -> unquote 0 (bytes_of (escape_byte c) ++ rest) = c :: unquote 0 rest.
Proof.
  intros Hc.
  do 128 (destruct c as [|c];
    [lazymatch goal with |- context [escape_byte ?k] => let b := eval vm_compute in (bytes_of (escape_byte k)) in change (bytes_of (escape_byte k)) with b end;
     cbn [app]; first [reflexivity | by apply unquote_ascii; lia | (etrans; [eapply unquote_hex; [reflexivity|lia]|reflexivity])]|]).
  lia.
Qed.

(** The length of a rune depends on its own bytes only. *)
Lemma utf8_len_prefix c l l' k :
  utf8_len (c :: l) = S k -> take k l' = take k l -> (k <= List.length l)%nat -> utf8_len (c :: l') = S k.
Proof.
  unfold utf8_len. destruct (c <? 128)%nat; [done|].
  destruct l as [|b1 [|b2 [|b3 l]]]; try done; cbn [List.length]; repeat case_match; intros [= <-] Ht Hlen;
    destruct l' as [|c1 [|c2 [|c3 l']]]; cbn [take] in Ht; simplify_eq; try done; try lia;
    repeat match goal with H : ?x = _ |- context [?x] => rewrite H end; first [done|congruence].
Qed.

Lemma escape_keeps k l : Forall is_byte l -> (k <= List.length l)%nat -> take k (bytes_of (escape k 0 l)) = take k l.
Proof.
  revert k. induction l as [|c l IH]; intros [|k] Hl Hk; try done; try (cbn in Hk; lia).
  apply Forall_cons in Hl as [Hc Hl]. cbn [escape]. rewrite bytes_of_app, bytes_of_byte by done. cbn.
  f_equal. apply IH; [done|]. cbn in Hk. lia.
Qed.

Lemma unquote_escape l keep : Forall is_byte l -> utf8_from keep l = true ->
  unquote keep (bytes_of (escape keep 0 l)) = l.
Proof.
  remember (List.length l) as n eqn:Hn. revert l keep Hn.
  induction n as [n IH] using lt_wf_ind. intros l keep -> Hl Hv.
  destruct l as [|c l]; [done|]. apply Forall_cons in Hl as [Hc Hl].
  destruct keep as [|k]; cbn [escape utf8_from] in *.
  - destruct (Nat.ltb_spec c 128) as [H128|H128].
    + rewrite bytes_of_app, unquote_escape_byte by done. f_equal. eapply IH; [|done|done|]; [cbn; lia|].
      unfold utf8_len in Hv. by rewrite (proj2 (Nat.ltb_lt c 128)) in Hv.
    + destruct (utf8_len (c :: l)) as [|k] eqn:Hlen; [done|].
      case_bool_decide as Hls; [|case_bool_decide as Hps].
      * destruct l as [|b1 [|b2 l]]; try done. cbn in Hls. injection Hls as -> -> ->.
        rewrite bytes_of_app. change (bytes_of "\u2028") with [92;117;50;48;50;56]%nat. cbn [app].
        rewrite (unquote_hex _ _ _ _ 8232) by (done || lia). cbn [escape]. 
        change (encode_rune 8232) with [226;128;168]%nat. cbn [app]. do 3 f_equal.
        injection Hlen as <-. cbn [utf8_from] in Hv. repeat apply Forall_cons in Hl as [_ Hl].
        eapply IH; [|done|done|done]. cbn. lia.
      * destruct l as [|b1 [|b2 l]]; try done. cbn in Hps. injection Hps as -> -> ->.
        rewrite bytes_of_app. change (bytes_of "\u2029") with [92;117;50;48;50;57]%nat. cbn [app].
        rewrite (unquote_hex _ _ _ _ 8233) by (done || lia). cbn [escape].
        change (encode_rune 8233) with [226;128;169]%nat. cbn [app]. do 3 f_equal.
        injection Hlen as <-. cbn [utf8_from] in Hv. repeat apply Forall_cons in Hl as [_ Hl].
        eapply IH; [|done|done|done]. cbn. lia.
      * rewrite bytes_of_app, bytes_of_byte by done. cbn [app unquote].
        rewrite (proj2 (Nat.eqb_neq c 92)) by lia. destruct (utf8_len_tail c l k) as [_ Hk]; [lia|done|].
        rewrite (utf8_len_prefix c l _ k Hlen) by (done || by apply escape_keeps). f_equal.
        eapply IH; [|done|done|done]. cbn. lia.
  - rewrite bytes_of_app, bytes_of_byte by done. cbn [app unquote]. f_equal. eapply IH; [|done|done|done]. cbn. lia.
Qed.

(** What precedes in well encoded text does not matter. *)
Lemma encoded_app l keep rest : encoded keep l = true -> encoded keep (l ++ rest) = encoded 0 rest.
Proof.
  remember (List.length l) as n eqn:Hn. revert l keep Hn.
  induction n as [n IH] using lt_wf_ind. intros l keep -> Hl.
  destruct l as [|c l]; [by apply bool_decide_eq_true in Hl as ->|].
  destruct keep as [|k]; cbn [encoded app] in *; [|apply (IH (List.length l)); [cbn; lia|done|done]].
  destruct (c =? 92)%nat.
  - destruct l as [|e l]; [done|]. cbn [app]. destruct (e =? 117)%nat; [|apply (IH (List.length l)); [cbn; lia|done|done]].
    destruct l as [|h1 [|h2 [|h3 [|h4 l]]]]; try done. cbn [app]. destruct (hex4 h1 h2 h3 h4) as [r|]; [|done].
    destruct (decide _); [|apply (IH (List.length l)); [cbn; lia|done|done]].
    destruct l as [|b [|u [|g1 [|g2 [|g3 [|g4 l]]]]]]; try done. cbn [app].
    apply andb_true_iff in Hl as [-> Hl]. rewrite andb_true_l. apply (IH (List.length l)); [cbn; lia|done|done].
  - destruct (utf8_len (c :: l)) as [|k] eqn:Hlen; [done|].
    assert (k <= List.length l)%nat as Hk.
    { destruct (Nat.ltb_spec c 128) as [H128|H128]; [|by apply (utf8_len_tail c)].
      unfold utf8_len in Hlen. rewrite (proj2 (Nat.ltb_lt c 128)) in Hlen by done. injection Hlen as <-. lia. }
    rewrite (utf8_len_prefix c l (l ++ rest) k Hlen) by (done || by apply take_app_le).
    apply (IH (List.length l)); [cbn; lia|done|done].
Qed.

Lemma encoded_ascii c rest : (c < 128)%nat -> c <> 92%nat -> encoded 0 (c :: rest) = encoded 0 rest.
Proof.
  intros Hc H92. cbn [encoded]. rewrite (proj2 (Nat.eqb_neq c 92)) by done.
  unfold utf8_len. by rewrite (proj2 (Nat.ltb_lt c 128)).
Qed.

Lemma encoded_escape_byte c : (c < 128)%nat -> encoded 0 (bytes_of (escape_byte c)) = true.
Proof.
  intros Hc. assert (forallb (fun c => encoded 0 (bytes_of (escape_byte c))) (seq 0 128) = true) as Hall by (vm_compute; reflexivity).
  apply (proj1 (forallb_forall _ _) Hall). apply in_seq. lia.
Qed.

(** The escaped form of a valid string is well encoded. *)
Lemma encoded_escape l keep rest : Forall is_byte l -> utf8_from keep l = true ->
  encoded keep (bytes_of (escape keep 0 l) ++ rest) = encoded 0 rest.
Proof.
  remember (List.length l) as n eqn:Hn. revert l keep Hn.
  induction n as [n IH] using lt_wf_ind. intros l keep -> Hl Hv.
  destruct l as [|c l]; [by apply bool_decide_eq_true in Hv as ->|]. apply Forall_cons in Hl as [Hc Hl].
  destruct keep as [|k]; cbn [escape utf8_from] in *.
  - destruct (Nat.ltb_spec c 128) as [H128|H128].
    + rewrite bytes_of_app, <- app_assoc, encoded_app by (by apply encoded_escape_byte).
      eapply IH; [|done|done|]; [cbn; lia|]. unfold utf8_len in Hv. by rewrite (proj2 (Nat.ltb_lt c 128)) in Hv.
    + destruct (utf8_len (c :: l)) as [|k] eqn:Hlen; [done|].
      case_bool_decide as Hls; [|case_bool_decide as Hps].
      { destruct l as [|b1 [|b2 l]]; try done. cbn in Hls. injection Hls as -> -> ->. injection Hlen as <-. cbn [utf8_from escape] in Hv |- *.
        rewrite bytes_of_app, <- app_assoc, encoded_app by (vm_compute; reflexivity). repeat apply Forall_cons in Hl as [_ Hl].
        eapply IH; [|done|done|done]. cbn. lia. }
      { destruct l as [|b1 [|b2 l]]; try done. cbn in Hps. injection Hps as -> -> ->. injection Hlen as <-. cbn [utf8_from escape] in Hv |- *.
        rewrite bytes_of_app, <- app_assoc, encoded_app by (vm_compute; reflexivity). repeat apply Forall_cons in Hl as [_ Hl].
        eapply IH; [|done|done|done]. cbn. lia. }
      rewrite bytes_of_app, bytes_of_byte by done. cbn [app encoded].
      rewrite (proj2 (Nat.eqb_neq c 92)) by lia. destruct (utf8_len_tail c l k) as [_ Hk]; [lia|done|].
      pose proof (escape_keeps k l Hl Hk) as Hkeeps.
      rewrite (utf8_len_prefix c l _ k Hlen); [eapply IH; [|done|done|done]; cbn; lia| |done].
      rewrite take_app_le; [done|]. apply (f_equal (@List.length _)) in Hkeeps. rewrite !length_take in Hkeeps. lia.
  - rewrite bytes_of_app, bytes_of_byte by done. cbn [app encoded]. eapply IH; [|done|done|done]. cbn. lia.
Qed.

Lemma encoded_string s rest : valid_utf8 s = true -> encoded 0 (bytes_of (marshal_string s) ++ rest) = encoded 0 rest.
Proof.
  intros Hs. unfold marshal_string. rewrite !bytes_of_app, <- !app_assoc. change (bytes_of dquote) with [34%nat]. cbn [app].
  rewrite encoded_ascii by lia. rewrite encoded_escape; [by apply encoded_ascii; lia|apply bytes_of_bytes|done].
Qed.

(** A valid string is one token, itself. *)
Lemma lexes_string s : valid_utf8 s = true -> lexes (bytes_of (marshal_string s)) [TStr s].
Proof.
  intros Hs rest _. rewrite lex_string_token, unquote_escape, string_of_bytes_of; [done| |done]. apply bytes_of_bytes.
Qed.

(** *** Numbers *)

(** The bytes of a number, from a digit or a minus on. *)
Definition number_text (lit : string) : bool :=
  match bytes_of lit with
  | [] => false
  | c :: l => (is_digit c || (c =? 45)%nat) && forallb is_number_byte l
  end.

Lemma lex_number_tail acc l : forallb is_number_byte l = true ->
  lex (LNumber acc) l = Some [TNum (string_of (reverse acc ++ l))].
Proof.
  revert acc. induction l as [|c l IH]; intros acc.
  - intros _. cbn. by rewrite app_nil_r.
  - cbn [forallb]. intros [Hc Hl]%andb_true_iff. rewrite lex_cons. cbn [lex_step]. rewrite Hc, IH by done.
    by rewrite reverse_cons, <- app_assoc.
Qed.

Lemma lex_number_start c : is_digit c || (c =? 45)%nat = true -> lex_ground c = Some ([], LNumber [c]).
Proof.
  intros Hc. apply orb_true_iff in Hc as [Hc|Hc]; [|by apply Nat.eqb_eq in Hc as ->].
  unfold is_digit, in_range in Hc. apply andb_true_iff in Hc as [H1%Nat.leb_le H2%Nat.leb_le].
  assert (c ∈ seq 48 10) as Hin by (apply elem_of_seq; lia). cbn in Hin. set_unfold in Hin.
  by repeat (destruct Hin as [->|Hin]; [done|]).
Qed.

Lemma lex_number lit : number_text lit = true -> lex LGround (bytes_of lit) = Some [TNum lit].
Proof.
  unfold number_text. intros Hn. pose proof (string_of_bytes_of lit) as Hlit.
  destruct (bytes_of lit) as [|c l]; [done|]. apply andb_true_iff in Hn as [Hc Hl].
  rewrite lex_cons. cbn [lex_step]. rewrite (lex_number_start c Hc), lex_number_tail by done.
  exact (f_equal (fun s => Some [TNum s]) Hlit).
Qed.
