(* ===== verification/JsonPrint.v ===== *)
(** * JSON texts read back

    What an encoder writes is read as what it means, and [Unmarshal] after
    [Marshal]. *)

From S2P Require Import Prelude GoStd Json JsonText JsonParse JsonString.
From Stdlib Require Import Ascii String OrderedTypeEx Sorted.

Local Open Scope string_scope.
Local Open Scope list_scope.

(** ** Documents: what an encoder writes

    Of a document, [JNum t] is a text written as it is: a number, or what a
    [MarshalJSON] returned. *)

Abbreviation document := (json string).

Fixpoint print (d : document) : string :=
  match d with
  | JNull => "null"
  | JBool b => if b then "true" else "false"
  | JNum t => t
  | JStr s => marshal_string s
  | JArr l => ("[" ++ Join (print <$> l) "," ++ "]")%string
  | JObj m => ("{" ++ Join ((fun kv => (marshal_string kv.1 ++ ":" ++ print kv.2)%string) <$> m) "," ++ "}")%string
  end.

(** The value of a document, its texts read. *)
Fixpoint meaning (d : document) : option (json string) :=
  match d with
  | JNull => Some JNull
  | JBool b => Some (JBool b)
  | JNum t => parse_syntax t
  | JStr s => Some (JStr s)
  | JArr l => JArr <$> mapM meaning l
  | JObj m => JObj <$> mapM (fun kv => pair kv.1 <$> meaning kv.2) m
  end.

(** Every string the encoder spells is valid UTF-8, and its texts are well encoded. *)
Fixpoint valid_strings (d : document) : bool :=
  match d with
  | JNum t => WellEncoded t
  | JStr s => valid_utf8 s
  | JArr l => forallb valid_strings l
  | JObj m => forallb (fun kv => valid_utf8 kv.1 && valid_strings kv.2) m
  | _ => true
  end.

Lemma lexes_word w : lex LGround (bytes_of w) = Some [TLit w] -> lexes (bytes_of w) [TLit w].
Proof. apply lexes_text. Qed.

Lemma lexes_parts l vs : mapM meaning l = Some vs -> forallb valid_strings l = true ->
  Forall (fun d => forall v, meaning d = Some v -> valid_strings d = true -> lexes (bytes_of (print d)) (tokens v)) l ->
  Forall2 (fun p ts => lexes (bytes_of p) ts) (print <$> l) (tokens <$> vs).
Proof.
  intros Hm%mapM_Some_1 Hv Hl. induction Hm as [|d v l vs Hd _ IH]; [by constructor|].
  apply andb_true_iff in Hv as [Hv1 Hv2]. apply Forall_cons in Hl as [Hl1 Hl2]. constructor; auto.
Qed.

Lemma lexes_members m vs : mapM (fun kv => pair kv.1 <$> meaning kv.2) m = Some vs ->
  forallb (fun kv => valid_utf8 kv.1 && valid_strings kv.2) m = true ->
  Forall (fun kv => forall v, meaning kv.2 = Some v -> valid_strings kv.2 = true ->
    lexes (bytes_of (print kv.2)) (tokens v)) m ->
  Forall2 (fun p ts => lexes (bytes_of p) ts) ((fun kv => (marshal_string kv.1 ++ ":" ++ print kv.2)%string) <$> m)
    (member_tokens <$> vs).
Proof.
  intros Hm%mapM_Some_1 Hv Hl. induction Hm as [|[k d] [k' v] m vs Hd _ IH]; [by constructor|].
  cbn [fst snd forallb] in *. apply andb_true_iff in Hv as [[Hk Hv1]%andb_true_iff Hv2].
  apply Forall_cons in Hl as [Hl1 Hl2]. cbn [fst snd] in Hl1.
  apply fmap_Some in Hd as (v' & Hd & [= -> ->]).
  constructor; [|by auto]. cbn [fst snd]. intros rest Hrest.
  rewrite !bytes_of_app, <- !app_assoc, lex_string_token, unquote_escape, string_of_bytes_of by (done || apply bytes_of_bytes).
  change (bytes_of ":") with [58%nat]. cbn [app]. rewrite (lex_punctuation _ _ _ (proj2 punctuation_inner)).
  rewrite (Hl1 _ Hd Hv1 _ Hrest), !prepend_app. done.
Qed.

Lemma lexes_print d v : meaning d = Some v -> valid_strings d = true -> lexes (bytes_of (print d)) (tokens v).
Proof.
  revert v. induction d as [|[]|t|s|l Hl|m Hm] using json_ind'; intros v; cbn [meaning].
  - intros [= <-] _. by apply lexes_text.
  - intros [= <-] _. by apply lexes_text.
  - intros [= <-] _. by apply lexes_text.
  - intros Ht _. apply lexes_text. by apply parse_syntax_tokens_of in Ht as [? _].
  - intros [= <-]. apply lexes_string.
  - intros (vs & Hvs & ->)%fmap_Some Hv rest Hrest. cbn [print tokens]. rewrite !bytes_of_app, <- !app_assoc.
    change (bytes_of "[") with [91%nat]. change (bytes_of "]") with [93%nat]. cbn [app].
    rewrite (lex_punctuation _ _ _ (proj1 punctuation_open)),
      (lex_parts 93 TRBrack _ _ _ (proj1 punctuation_close) (or_introl eq_refl) (lexes_parts _ _ Hvs Hv Hl)).
    by rewrite prepend_app.
  - intros (vs & Hvs & ->)%fmap_Some Hv rest Hrest. cbn [print tokens]. rewrite !bytes_of_app, <- !app_assoc.
    change (bytes_of "{") with [123%nat]. change (bytes_of "}") with [125%nat]. cbn [app].
    rewrite (lex_punctuation _ _ _ (proj2 punctuation_open)),
      (lex_parts 125 TRBrace _ _ _ (proj2 punctuation_close) (or_intror eq_refl) (lexes_members _ _ Hvs Hv Hm)).
    by rewrite prepend_app.
Qed.

(** A printed document reads as its value. *)
Lemma parse_print d v : meaning d = Some v -> valid_strings d = true -> fits max_depth v -> parse_syntax (print d) = Some v.
Proof.
  intros Hm Hv Hf. apply parse_syntax_tokens_of. split; [|done]. by apply lexes_all, lexes_print.
Qed.

(** It is well encoded. *)
Lemma encoded_join sep l rest : (forall r, encoded 0 (bytes_of sep ++ r) = encoded 0 r) ->
  Forall (fun s => forall r, encoded 0 (bytes_of s ++ r) = encoded 0 r) l ->
  encoded 0 (bytes_of (Join l sep) ++ rest) = encoded 0 rest.
Proof.
  intros Hsep Hl. induction Hl as [|s [|s' l] Hs _ IH]; [done|apply Hs|].
  change (Join (s :: s' :: l) sep) with (s ++ (sep ++ Join (s' :: l) sep))%string.
  by rewrite !bytes_of_app, <- !app_assoc, Hs, Hsep.
Qed.

Lemma encoded_print d rest : valid_strings d = true -> encoded 0 (bytes_of (print d) ++ rest) = encoded 0 rest.
Proof.
  assert (forall sep, WellEncoded sep = true -> forall r, encoded 0 (bytes_of sep ++ r) = encoded 0 r) as Hword
    by (intros sep Hs r; by apply encoded_app).
  revert rest. induction d as [|[]|t|s|l Hl|m Hm] using json_ind'; intros rest Hv; cbn [print valid_strings] in *.
  1,2,3: by apply Hword.
  - by apply Hword.
  - by apply encoded_string.
  - rewrite !bytes_of_app, <- !app_assoc, Hword, encoded_join; [by apply Hword|by apply Hword| |done].
    apply Forall_fmap. induction Hl as [|d l Hd _ IH]; [constructor|]. cbn [forallb] in Hv. apply andb_true_iff in Hv as [Hv1 Hv2].
    constructor; [intros r; by apply Hd|by apply IH].
  - rewrite !bytes_of_app, <- !app_assoc, Hword, encoded_join; [by apply Hword|by apply Hword| |done].
    apply Forall_fmap. induction Hm as [|[k d] m Hd _ IH]; [constructor|]. cbn [forallb fst snd] in Hv.
    apply andb_true_iff in Hv as [[Hk Hv1]%andb_true_iff Hv2].
    constructor; [|by apply IH]. intros r. cbn [fst snd]. rewrite !bytes_of_app, <- !app_assoc, encoded_string by done.
    rewrite Hword by done. by apply Hd.
Qed.

Lemma print_encoded d : valid_strings d = true -> WellEncoded (print d) = true.
Proof. intros Hv. pose proof (encoded_print d [] Hv) as He. by rewrite app_nil_r in He. Qed.

(** ** Marshal and Unmarshal of decoded values *)

(** The document [Marshal] writes: each number as its shortest text. *)
Fixpoint spell (v : json float64) : option document :=
  match v with
  | JNull => Some JNull
  | JBool b => Some (JBool b)
  | JNum f => JNum <$> format_float f
  | JStr s => Some (JStr s)
  | JArr l => JArr <$> mapM spell l
  | JObj m => JObj <$> mapM (fun kv => pair kv.1 <$> spell kv.2) m
  end.

Lemma Marshal_array l : Marshal (JArr l) = (fun parts => "[" ++ Join parts "," ++ "]")%string <$> mapM Marshal l.
Proof. done. Qed.

Lemma Marshal_object m : Marshal (JObj m) =
  (fun parts => "{" ++ Join parts "," ++ "}")%string <$>
    mapM (fun kv => (fun t => marshal_string kv.1 ++ ":" ++ t)%string <$> Marshal kv.2) m.
Proof.
  cbn [Marshal]. f_equal. induction m as [|[k v] m IH]; [done|]. cbn. rewrite IH.
  destruct (Marshal v); try done; by destruct (mapM (M := option) _ _).
Qed.

(** An object prints exactly when its members do. *)
Lemma Marshal_object_some m : is_Some (Marshal (JObj m)) <-> Forall (fun kv => is_Some (Marshal kv.2)) m.
Proof.
  assert (forall A B (f : A -> B) o, is_Some (f <$> o) <-> is_Some o) as Hf by (intros A B f [a|]; split; by intros [b [=]]).
  rewrite Marshal_object, Hf, mapM_is_Some. apply Forall_iff. intros [k v]. cbn [fst snd]. apply Hf.
Qed.

Lemma decode_array l : decode (JArr l) = JArr <$> mapM decode l.
Proof. done. Qed.

(** The Go map the members make, in order. *)
Definition go_map (entries : list (string * json float64)) : list (string * json float64) :=
  foldl (fun acc kv => obj_insert kv.1 kv.2 acc) [] entries.

Lemma decode_object m : decode (JObj m) =
  (fun entries => JObj (go_map entries)) <$> mapM (fun kv => pair kv.1 <$> decode kv.2) m.
Proof.
  cbn [decode]. f_equal. induction m as [|[k v] m IH]; [done|]. cbn. rewrite IH.
  destruct (decode v); try done; by destruct (mapM (M := option) _ _).
Qed.

Lemma mapM_print {A} (f : A -> option string) (g : A -> option document) (p : document -> string) l :
  Forall (fun a => f a = p <$> g a) l -> mapM f l = fmap p <$> mapM g l.
Proof.
  induction 1 as [|a l Ha _ IH]; [done|]. cbn. rewrite Ha, IH.
  destruct (g a); [|done]. cbn. by destruct (mapM g l).
Qed.

Lemma Marshal_spell v : Marshal v = print <$> spell v.
Proof.
  induction v as [|b|f|s|l Hl|m Hm] using json_ind'; try done.
  - cbn. by destruct (format_float f).
  - rewrite Marshal_array. cbn [spell]. rewrite (mapM_print _ spell print) by done. by destruct (mapM (M := option) _ _).
  - rewrite Marshal_object. cbn [spell].
    assert (mapM (fun kv => (fun t => marshal_string kv.1 ++ ":" ++ t)%string <$> Marshal kv.2) m
      = fmap (fun kv => (marshal_string kv.1 ++ ":" ++ print kv.2)%string) <$> mapM (fun kv => pair kv.1 <$> spell kv.2) m) as ->.
    { induction Hm as [|[k v] m Hv _ IH]; [done|]. cbn [snd] in Hv. cbn. rewrite Hv, IH.
      destruct (spell v); [|done]. cbn. by destruct (mapM (fun kv => pair kv.1 <$> spell kv.2) m). }
    by destruct (mapM (M := option) _ _).
Qed.

(** ** Values that survive the round trip *)

(** What the decoder makes of a number's shortest text is the number. *)
Definition reads_back (f : float64) : bool :=
  match format_float f with
  | Some lit => number_text lit && bool_decide (ParseFloat lit = Some f)
  | None => false
  end.

Fixpoint keys_sorted (ks : list string) : bool :=
  match ks with
  | k :: ((k' :: _) as ks') => match String.compare k k' with Lt => keys_sorted ks' | _ => false end
  | _ => true
  end.

(** A decoded value: numbers that read back, valid strings, maps in key order. *)
Fixpoint canonical (v : json float64) : bool :=
  match v with
  | JNum f => reads_back f
  | JStr s => valid_utf8 s
  | JArr l => forallb canonical l
  | JObj m => keys_sorted m.*1 && forallb (fun kv => valid_utf8 kv.1 && canonical kv.2) m
  | _ => true
  end.

Fixpoint depth {N} (v : json N) : nat :=
  match v with
  | JArr l => S (list_max (depth <$> l))
  | JObj m => S (list_max ((fun kv => depth kv.2) <$> m))
  | _ => 0
  end.

(** *** Maps in key order *)

Lemma compare_trans a b c : String.compare a b = Lt -> String.compare b c = Lt -> String.compare a c = Lt.
Proof. rewrite !String_as_OT.cmp_lt. apply String_as_OT.lt_trans. Qed.

Lemma compare_gt a b : String.compare a b = Lt -> String.compare b a = Gt.
Proof. intros Hab. rewrite String.compare_antisym, Hab. done. Qed.

Lemma keys_sorted_strong ks : keys_sorted ks = true -> StronglySorted (fun a b => String.compare a b = Lt) ks.
Proof.
  intros Hks. apply Sorted_StronglySorted; [intros a b c; apply compare_trans|].
  induction ks as [|k [|k' ks] IH]; [constructor|by repeat constructor|].
  cbn [keys_sorted] in Hks. destruct (String.compare k k') eqn:Hc; try done. constructor; [by apply IH|by constructor].
Qed.

Lemma keys_sorted_insert {N} k (v : json N) m : keys_sorted m.*1 = true -> keys_sorted (obj_insert k v m).*1 = true.
Proof.
  induction m as [|[k0 v0] m IH]; [done|]. intros Hs. cbn [obj_insert]. destruct (String.compare k k0) eqn:Hc.
  - apply String.compare_eq_iff in Hc as ->. exact Hs.
  - cbn. rewrite Hc. exact Hs.
  - assert (String.compare k0 k = Lt) as Hc' by (by rewrite String.compare_antisym, Hc).
    destruct m as [|[k1 v1] m]; [cbn; by rewrite Hc'|]. cbn [fmap list_fmap fst keys_sorted] in Hs.
    destruct (String.compare k0 k1) eqn:H01; try done. specialize (IH Hs). cbn [obj_insert] in IH |- *.
    destruct (String.compare k k1) eqn:H1; cbn [fmap list_fmap fst keys_sorted] in IH |- *; rewrite ?Hc', ?H01; exact IH.
Qed.

Lemma obj_insert_last {N} k (v : json N) m :
  Forall (fun kv => String.compare kv.1 k = Lt) m -> obj_insert k v m = m ++ [(k, v)].
Proof.
  induction 1 as [|[k' v'] m Hk _ IH]; [done|]. cbn [fst] in Hk. cbn [obj_insert].
  by rewrite (compare_gt _ _ Hk), IH.
Qed.

Lemma go_map_sorted m : keys_sorted m.*1 = true -> go_map m = m.
Proof.
  intros Hm%keys_sorted_strong. unfold go_map.
  assert (forall acc, Forall (fun kv => Forall (fun k => String.compare kv.1 k = Lt) m.*1) acc ->
    foldl (fun acc kv => obj_insert kv.1 kv.2 acc) acc m = acc ++ m) as Hfold; [|by apply Hfold].
  induction m as [|[k v] m IH]; intros acc Hacc; [cbn; by rewrite app_nil_r|].
  apply StronglySorted_inv in Hm as [Hm Hk]. cbn [foldl fst snd fmap list_fmap] in *.
  rewrite obj_insert_last by (eapply Forall_impl; [exact Hacc|]; intros kv Hkv; by apply Forall_cons in Hkv as [? _]).
  rewrite IH, <- app_assoc; [done|done|]. apply Forall_app. split; [|by repeat constructor].
  eapply Forall_impl; [exact Hacc|]. intros kv Hkv. by apply Forall_cons in Hkv as [_ ?].
Qed.

(** ** The round trip *)

Lemma fits_number d lit : fits d (JNum lit) <-> is_Some (number_parts (bytes_of lit)).
Proof. by destruct d. Qed.

Lemma number_meaning lit f : number_text lit = true -> ParseFloat lit = Some f ->
  parse_syntax lit = Some (JNum lit) /\ forall d, fits d (JNum lit).
Proof.
  intros Hn Hp. assert (is_Some (number_parts (bytes_of lit))) as Hparts.
  { unfold ParseFloat in Hp. destruct (number_parts _); [by eexists|done]. }
  split; [|intros d; by apply fits_number]. apply parse_syntax_tokens_of. split; [by apply lex_number|by apply fits_number].
Qed.

Lemma number_encoded lit : number_text lit = true -> WellEncoded lit = true.
Proof.
  unfold number_text, WellEncoded. destruct (bytes_of lit) as [|c l]; [done|]. intros [Hc Hl]%andb_true_iff.
  assert (forall c, is_number_byte c = true -> (c < 128)%nat /\ c <> 92%nat) as Hbyte.
  { intros b Hb. unfold is_number_byte, is_digit, in_range in Hb. apply orb_true_iff in Hb as [Hb|Hb].
    - apply andb_true_iff in Hb as [?%Nat.leb_le ?%Nat.leb_le]. lia.
    - apply bool_decide_eq_true in Hb. set_unfold in Hb. lia. }
  assert (is_number_byte c = true) as Hc'.
  { unfold is_number_byte. apply orb_true_iff in Hc as [Hc|Hc%Nat.eqb_eq]; [by rewrite Hc|by rewrite Hc]. }
  destruct (Hbyte c Hc') as [? ?]. rewrite encoded_ascii by done. clear Hc Hc'.
  induction l as [|b l IH]; [done|]. apply andb_true_iff in Hl as [Hb Hl]. destruct (Hbyte b Hb) as [? ?].
  rewrite encoded_ascii by done. by apply IH.
Qed.

(** What [Marshal] writes of a canonical value means that value again. *)
Definition survives (v : json float64) (d : document) : Prop :=
  meaning d = Some d /\ valid_strings d = true /\ decode d = Some v /\ forall n, (depth v <= n)%nat -> fits n d.

Lemma list_max_elem {A} (f : A -> nat) l n : (list_max (f <$> l) <= n)%nat -> Forall (fun a => f a <= n)%nat l.
Proof. intros Hl%list_max_le. by apply Forall_fmap in Hl. Qed.

Lemma survives_array l ds : Forall2 survives l ds -> survives (JArr l) (JArr ds).
Proof.
  intros Hl.
  assert (mapM meaning ds = Some ds /\ forallb valid_strings ds = true /\ mapM decode ds = Some l /\
    forall n, Forall (fun v => depth v <= n)%nat l -> Forall (fits n) ds) as (H1 & H2 & H3 & H4).
  { induction Hl as [|v d l ds (Hm & Hv & Hd & Hf) _ (IH1 & IH2 & IH3 & IH4)]; [by repeat split; intros; constructor|].
    cbn [mapM forallb]. rewrite Hm, Hv, Hd. cbn. rewrite IH1, IH3. repeat split; [done|].
    intros n [Hn Hns]%Forall_cons. constructor; auto. }
  split; [cbn; by rewrite H1|]. split; [done|]. split; [rewrite decode_array; by rewrite H3|].
  intros [|n]; cbn [depth]; [lia|]. intros Hn%le_S_n%list_max_elem. by apply H4.
Qed.

Lemma survives_object m ds : keys_sorted m.*1 = true -> forallb (fun kv => valid_utf8 kv.1) m = true ->
  Forall2 (fun kv kd => kd.1 = kv.1 /\ survives kv.2 kd.2) m ds -> survives (JObj m) (JObj ds).
Proof.
  intros Hs Hk Hm.
  assert (mapM (fun kv => pair kv.1 <$> meaning kv.2) ds = Some ds /\
    forallb (fun kv => valid_utf8 kv.1 && valid_strings kv.2) ds = true /\
    mapM (fun kv => pair kv.1 <$> decode kv.2) ds = Some m /\
    forall n, Forall (fun kv => depth kv.2 <= n)%nat m -> Forall (fun kd => fits n kd.2) ds) as (H1 & H2 & H3 & H4).
  { clear Hs. induction Hm as [|[k v] [k' d] m ds [Hkk (Hv1 & Hv2 & Hv3 & Hv4)] _ IH]; [by repeat split; intros; constructor|].
    cbn [fst snd] in *. subst k'. cbn [forallb fst] in Hk. apply andb_true_iff in Hk as [Hk1 Hk2].
    destruct (IH Hk2) as (IH1 & IH2 & IH3 & IH4). cbn [mapM forallb fst snd]. rewrite Hv1, Hv2, Hv3, Hk1. cbn.
    rewrite IH1, IH3. repeat split; [done|]. intros n [Hn Hns]%Forall_cons. constructor; auto. }
  split; [cbn; by rewrite H1|]. split; [done|]. split; [rewrite decode_object, H3; cbn; by rewrite go_map_sorted|].
  intros [|n]; cbn [depth]; [lia|]. intros Hn%le_S_n%list_max_elem. by apply H4.
Qed.

Lemma spell_survives v d : canonical v = true -> spell v = Some d -> survives v d.
Proof.
  revert d. induction v as [|b|f|s|l Hl|m Hm] using json_ind'; intros d.
  - intros _ [= <-]. repeat split. by intros [|].
  - intros _ [= <-]. repeat split. by intros [|].
  - cbn [canonical spell]. unfold reads_back. destruct (format_float f) as [lit|]; [|done].
    intros [Hn Hp%bool_decide_eq_true]%andb_true_iff [= <-]. destruct (number_meaning lit f Hn Hp) as [Hs Hf].
    split; [done|]. split; [by apply number_encoded|]. split; [cbn; by rewrite Hp|]. auto.
  - intros Hc [= <-]. split; [done|]. split; [done|]. split; [done|]. by intros [|].
  - cbn [canonical spell]. intros Hc (ds & Hds & ->)%fmap_Some. apply survives_array.
    apply mapM_Some in Hds. induction Hds as [|v d l ds Hd _ IH]; [constructor|].
    apply andb_true_iff in Hc as [Hc1 Hc2]. apply Forall_cons in Hl as [Hl1 Hl2]. constructor; auto.
  - cbn [canonical spell]. intros [Hs Hc]%andb_true_iff (ds & Hds & ->)%fmap_Some. apply survives_object; [done| |].
    + clear -Hc. induction m as [|kv m IH]; [done|]. cbn [forallb] in *. apply andb_true_iff in Hc as [[-> _]%andb_true_iff Hc]. by apply IH.
    + clear Hs. apply mapM_Some in Hds. induction Hds as [|[k v] [k' d] m ds Hd _ IH]; [constructor|].
      cbn [forallb fst snd] in *. apply andb_true_iff in Hc as [[_ Hc1]%andb_true_iff Hc2].
      apply Forall_cons in Hm as [Hm1 Hm2]. apply fmap_Some in Hd as (d' & Hd & [= -> ->]). constructor; auto.
Qed.

(** Go reads what it wrote. *)
Lemma Unmarshal_of_Marshal v s : canonical v = true -> (depth v <= max_depth)%nat -> Marshal v = Some s ->
  Unmarshal s = Some v.
Proof.
  rewrite Marshal_spell. intros Hc Hd (d & Hs & ->)%fmap_Some. destruct (spell_survives v d Hc Hs) as (Hm & Hv & Hdec & Hf).
  unfold Unmarshal. rewrite (parse_print d d) by auto. done.
Qed.
