(* ===== verification/Sha256.v ===== *)
(** * crypto/sha256 and encoding/hex

    FIPS 180-4 on lists of bytes; words are 32-bit integers held in [Z]. *)

From S2P Require Import Prelude GoStd.
From Stdlib Require Import String.

Local Open Scope Z_scope.

Definition w32 (z : Z) : Z := z mod 2 ^ 32.
Definition add32 (a b : Z) : Z := w32 (a + b).
Definition rotr (n x : Z) : Z := Z.lor (Z.shiftr x n) (w32 (Z.shiftl x (32 - n))).
Definition not32 (x : Z) : Z := Z.lxor x (2 ^ 32 - 1).

Definition Ch (x y z : Z) : Z := Z.lxor (Z.land x y) (Z.land (not32 x) z).
Definition Maj (x y z : Z) : Z := Z.lxor (Z.lxor (Z.land x y) (Z.land x z)) (Z.land y z).
Definition Sigma0 (x : Z) : Z := Z.lxor (Z.lxor (rotr 2 x) (rotr 13 x)) (rotr 22 x).
Definition Sigma1 (x : Z) : Z := Z.lxor (Z.lxor (rotr 6 x) (rotr 11 x)) (rotr 25 x).
Definition sigma0 (x : Z) : Z := Z.lxor (Z.lxor (rotr 7 x) (rotr 18 x)) (Z.shiftr x 3).
Definition sigma1 (x : Z) : Z := Z.lxor (Z.lxor (rotr 17 x) (rotr 19 x)) (Z.shiftr x 10).

(** The constants are the first 32 bits of the fractional parts of the cube roots of
    the first 64 primes, and of the square roots of the first 8. *)
Definition prime (p : Z) : bool := forallb (fun d => negb (p mod d =? 0)) (seqZ 2 (p - 2)).
Definition primes : list Z := filter (fun p => prime p = true) (seqZ 2 310).

(** The integer cube root of a number below 2^108, bit by bit from the top. *)
Definition cube_root (z : Z) : Z :=
  foldr (fun bit r => let r' := Z.setbit r bit in if r' * r' * r' <=? z then r' else r) 0 (seqZ 0 36).

Definition K256 : list Z := (fun p => w32 (cube_root (Z.shiftl p 96))) <$> primes.
Definition H256 : list Z := (fun p => w32 (Z.sqrt (Z.shiftl p 64))) <$> take 8 primes.

Example K256_first_last : List.length K256 = 64%nat /\ head K256 = Some 0x428a2f98 /\ last K256 = Some 0xc67178f2.
Proof. vm_compute. auto. Qed.

(** [n] big-endian bytes of [z]. *)
Fixpoint be_bytes (n : nat) (z : Z) : list Z :=
  match n with O => [] | S n' => Z.shiftr z (8 * Z.of_nat n') mod 256 :: be_bytes n' z end.

Fixpoint be_words (l : list Z) : list Z :=
  match l with
  | a :: b :: c :: d :: l' => ((a * 256 + b) * 256 + c) * 256 + d :: be_words l'
  | _ => []
  end.

Definition padded (l : list Z) : list Z :=
  let n := List.length l in
  (l ++ [128] ++ replicate ((119 - n mod 64) mod 64)%nat 0 ++ be_bytes 8 (8 * Z.of_nat n))%list.

(** The message schedule, newest word first; [n] words still to produce. *)
Fixpoint schedule (n : nat) (w : list Z) : list Z :=
  match n with
  | O => reverse w
  | S n' => schedule n' (add32 (add32 (sigma1 (nth 1 w 0)) (nth 6 w 0)) (add32 (sigma0 (nth 14 w 0)) (nth 15 w 0)) :: w)
  end.

Definition round (s : list Z) (kw : Z * Z) : list Z :=
  match s with
  | [a; b; c; d; e; f; g; h] =>
      let t1 := w32 (h + Sigma1 e + Ch e f g + kw.1 + kw.2) in
      let t2 := add32 (Sigma0 a) (Maj a b c) in
      [add32 t1 t2; a; b; c; add32 d t1; e; f; g]
  | _ => s
  end.

Definition block (s w : list Z) : list Z :=
  zip_with add32 s (foldl round s (zip K256 (schedule 48 (reverse w)))).

Fixpoint blocks (fuel : nat) (s w : list Z) : list Z :=
  match fuel with
  | O => s
  | S fuel' => match w with [] => s | _ => blocks fuel' (block s (take 16 w)) (drop 16 w) end
  end.

Definition sum256 (l : list Z) : list Z :=
  let w := be_words (padded l) in
  flat_map (be_bytes 4) (blocks (List.length w) H256 w).

(** [hex.EncodeToString]. *)
Definition EncodeToString (l : list Z) : string :=
  string_of_list_ascii (flat_map (fun b => [hex_digit (Z.to_nat (b / 16)); hex_digit (Z.to_nat (b mod 16))]) l).

(** [hex.EncodeToString(sha256.Sum256(s))]. *)
Definition sha256_hex (s : string) : string := EncodeToString (sum256 (Z.of_nat <$> bytes_of s)).

Example sha256_empty :
  sha256_hex "" = "e3b0c44298fc1c149afbf4c8996fb92427ae41e4649b934ca495991b7852b855"%string.
Proof. vm_compute. reflexivity. Qed.

Example sha256_abc :
  sha256_hex "abc" = "ba7816bf8f01cfea414140de5dae2223b00361a396177a9cb410ff61f20015ad"%string.
Proof. vm_compute. reflexivity. Qed.

Example sha256_two_blocks :
  sha256_hex "abcdbcdecdefdefgefghfghighijhijkijkljklmklmnlmnomnopnopq"
  = "248d6a61d20638b8e5c026930c3e6039a33ce45964ff2167f6ecedd419db06c1"%string.
Proof. vm_compute. reflexivity. Qed.
