(* ===== verification/Libraries.v ===== *)
(** * The third-party libraries internal/jsonbody and the adapters call

    [Gjson] is github.com/tidwall/gjson and [GoCmp] github.com/google/go-cmp/cmp:
    interfaces of the functions the source calls, and the laws their
    documentation states.  [reference_gjson] and [reference_cmp] are instances
    that evaluate and meet the laws.

    Go's [any] decoded from JSON is [json float64]; nil is [JNull]. *)

From S2P Require Import Prelude GoStd Json.
From Stdlib Require Import Ascii String SpecFloat.

Local Open Scope string_scope.
Local Open Scope list_scope.

Abbreviation value := (json float64).

(** ** gjson *)

Class Gjson := {
  gresult : Type;
  ParseBytes : string -> gresult;
  GetBytes : string -> string -> gresult;
  Get : gresult -> string -> gresult;
  Exists : gresult -> bool;
  IsArray : gresult -> bool;
  Array : gresult -> list gresult;
  Raw : gresult -> string;
  gString : gresult -> string;
  Value : gresult -> value;
  Int : gresult -> Z;
}.

(** The library reads valid text; of repeated keys its documentation says nothing,
    and it keeps bytes that are no UTF-8 and reads lone surrogates in its own way. *)

(** [raw] is text the library documents, of value [v]. *)
Definition documented (raw : string) (v : value) : Prop :=
  Unmarshal raw = Some v /\ DistinctKeys raw && WellEncoded raw = true.

(** A path of one plain key: letters, so none of the path syntax. *)
Definition is_letter_byte (c : nat) : bool := in_range 97 122 c || in_range 65 90 c.
Definition plain_key (k : string) : bool := negb (String.eqb k "") && forallb is_letter_byte (bytes_of k).

Class GjsonLaws `{Gjson} := {
  (** The result was read from documented text. *)
  gj_read : gresult -> Prop;
  gj_parse : forall raw v, documented raw v ->
    gj_read (ParseBytes raw) /\ Exists (ParseBytes raw) = true /\ Value (ParseBytes raw) = v;
  gj_get_bytes : forall raw v path, documented raw v -> GetBytes raw path = Get (ParseBytes raw) path;
  gj_get_read : forall r k, gj_read r -> gj_read (Get r k);
  gj_get_object : forall r m k, gj_read r -> Exists r = true -> Value r = JObj m -> plain_key k = true ->
    match obj_lookup k m with
    | Some v => Exists (Get r k) = true /\ Value (Get r k) = v
    | None => Exists (Get r k) = false
    end;
  gj_get_other : forall r k, gj_read r -> (forall m, Value r <> JObj m) -> plain_key k = true ->
    Exists (Get r k) = false;
  gj_get_path : forall r k k', gj_read r -> plain_key k = true -> plain_key k' = true ->
    Get r (k ++ "." ++ k')%string = Get (Get r k) k';
  gj_missing : forall r, gj_read r -> Exists r = false ->
    Value r = JNull /\ gString r = "" /\ Array r = [] /\ IsArray r = false /\ Int r = 0%Z;
  gj_string : forall r s, gj_read r -> Exists r = true -> Value r = JStr s -> gString r = s;
  gj_is_array : forall r, gj_read r -> Exists r = true ->
    (IsArray r = true <-> exists l, Value r = JArr l);
  gj_array : forall r l, gj_read r -> Exists r = true -> Value r = JArr l ->
    Forall2 (fun r' v => gj_read r' /\ Exists r' = true /\ Value r' = v) (Array r) l;
}.

(** A reference instance: a result is the value found, if any. *)
Fixpoint segments (cur : string) (s : string) : list string :=
  match s with
  | EmptyString => [cur]
  | String c s' => if Ascii.eqb c "."%char then cur :: segments "" s' else segments (cur ++ String c "")%string s'
  end.

Definition get_key (r : option value) (k : string) : option value :=
  match r with Some (JObj m) => obj_lookup k m | _ => None end.

Definition value_string (v : value) : string :=
  match v with
  | JNull => ""
  | JBool b => if b then "true" else "false"
  | JNum f => default "" (format_float f)
  | JStr s => s
  | _ => default "" (Marshal v)
  end%string.

(** The integer part of a float. *)
Definition truncate (f : float64) : Z :=
  match f with
  | S754_finite neg m e =>
      let z := if decide (0 <= e)%Z then Z.shiftl (Z.pos m) e else Z.shiftr (Z.pos m) (- e) in
      if neg then (- z)%Z else z
  | _ => 0%Z
  end.

#[export] Instance reference_gjson : Gjson := {
  gresult := option value;
  ParseBytes raw := Unmarshal raw;
  GetBytes raw path := foldl get_key (Unmarshal raw) (segments "" path);
  Get r path := foldl get_key r (segments "" path);
  Exists r := bool_decide (is_Some r);
  IsArray r := match r with Some (JArr _) => true | _ => false end;
  Array r := match r with Some (JArr l) => Some <$> l | None | Some JNull => [] | Some v => [Some v] end;
  Raw r := match r with Some v => default "" (Marshal v) | None => "" end;
  gString r := match r with Some v => value_string v | None => "" end;
  Value r := default JNull r;
  Int r := match r with Some (JNum f) => truncate f | _ => 0%Z end;
}.

Lemma letter_not_dot c : is_letter_byte (Ascii.nat_of_ascii c) = true -> Ascii.eqb c "."%char = false.
Proof. destruct (Ascii.eqb_spec c "."%char) as [->|]; [by vm_compute|done]. Qed.

Lemma append_nil (s : string) : (s ++ "")%string = s.
Proof. induction s as [|a s IH]; [done|exact (f_equal (String a) IH)]. Qed.

Lemma append_cons (s : string) c t : ((s ++ String c "") ++ t)%string = (s ++ String c t)%string.
Proof. induction s as [|a s IH]; [done|exact (f_equal (String a) IH)]. Qed.

Lemma segments_plain cur k rest :
  forallb is_letter_byte (bytes_of k) = true ->
  segments cur (k ++ rest)%string = segments (cur ++ k)%string rest.
Proof.
  revert cur. induction k as [|c k IH]; intros cur.
  - intros _. by rewrite append_nil.
  - change ((String c k ++ rest)%string) with (String c (k ++ rest)%string).
    cbn -[Ascii.eqb is_letter_byte nat_of_ascii].
    intros [Hc Hk]%andb_true_iff. by rewrite (letter_not_dot _ Hc), IH, append_cons.
Qed.

Lemma segments_key k : plain_key k = true -> segments "" k = [k].
Proof.
  intros [_ Hk]%andb_true_iff. pose proof (segments_plain "" k "" Hk) as Hs.
  by rewrite append_nil in Hs.
Qed.

Lemma segments_two k k' : plain_key k = true -> plain_key k' = true -> segments "" (k ++ "." ++ k')%string = [k; k'].
Proof.
  intros Hk Hk'. pose proof Hk as [_ Hl]%andb_true_iff. rewrite segments_plain by done.
  simpl. by rewrite segments_key.
Qed.

#[export] Instance reference_gjson_laws : GjsonLaws.
Proof.
  refine {| gj_read := fun _ => True |}; simpl.
  - intros raw v [-> _]. done.
  - done.
  - done.
  - intros r m k _ _ Hv Hk. rewrite segments_key by done. simpl.
    destruct r as [v|]; simpl in *; [subst v; simpl|done]. by destruct (obj_lookup k m).
  - intros r k _ Hv Hk. rewrite segments_key by done. simpl.
    destruct r as [[]|]; simpl in *; try done. by destruct (Hv m).
  - intros r k k' _ Hk Hk'. by rewrite segments_two, !segments_key.
  - intros [v|] _; [|done]. by rewrite bool_decide_eq_true_2.
  - intros [v|] s _ _; simpl; [by intros ->|done].
  - intros [v|] _ Hx; [|by rewrite bool_decide_eq_false_2 in Hx by (by intros [? ?])].
    destruct v; split; try done; try (by intros [? ?]). eauto.
  - intros [v|] l _ _; simpl; [intros ->|done]. induction l; constructor; auto.
Qed.

(** ** go-cmp *)

(** The steps of a [cmp.Path]: the root, which has the type of two values of one
    type, and is an interface for others; through an interface, which is what maps
    and slices hold; into a map at a key with the values on each side when present;
    into a slice with the result of [Key] and of [SplitKeys]. *)
Inductive path_step :=
  | Root
  | TypeAssertion
  | MapIndex (key : string) (vx vy : option value)
  | SliceIndex (key xkey ykey : Z).

Abbreviation Path := (list path_step).

(** The calls a reporter gets: each step pushed, its subtree, then popped; a leaf
    is reported, equal or not, an ignored one as equal. *)
Inductive walk_tree :=
  | Leaf (equal : bool)
  | Node (s : path_step) (ts : list walk_tree).

Fixpoint all_equal (t : walk_tree) : bool :=
  match t with
  | Leaf b => b
  | Node _ ts => forallb all_equal ts
  end.

Class GoCmp := {
  (** [cmp.Equal(x, y, cmp.FilterPath(f, cmp.Ignore()))], and what its reporter
      is told. *)
  cmp_Equal : (Path -> bool) -> value -> value -> bool;
  cmp_walk : (Path -> bool) -> value -> value -> walk_tree;
}.

Definition kind (v : value) : nat :=
  match v with JNull => 0 | JBool _ => 1 | JNum _ => 2 | JStr _ => 3 | JArr _ => 4 | JObj _ => 5 end.

(** Go's == on two scalars of a kind. *)
Definition scalar_eq (x y : value) : bool :=
  match x, y with
  | JNull, JNull => true
  | JBool a, JBool b => Bool.eqb a b
  | JNum a, JNum b => SFeqb a b
  | JStr a, JStr b => bool_decide (a = b)
  | _, _ => false
  end.

(** The entries of two maps at a key, under a filter on their step. *)
Definition entry_equal (g : path_step -> bool) (eq : value -> value -> bool) (k : string) (a b : option value) : bool :=
  match a, b with
  | None, None => true
  | _, _ => g (MapIndex k a b) || match a, b with Some a, Some b => eq a b | _, _ => false end
  end.

(** A filter that looks at the last step only, and picks map entries only. *)
Definition filters_entries (f : Path -> bool) (g : path_step -> bool) : Prop :=
  (forall p s, f (p ++ [s]) = g s) /\ (forall s, g s = true -> exists k a b, s = MapIndex k a b).

(** The walk of the entries at one key of two maps. *)
Definition walk_entry (g : path_step -> bool) (eq : value -> value -> bool) (m1 m2 : list (string * value))
    (k : string) (t : walk_tree) : Prop :=
  (is_Some (obj_lookup k m1) \/ is_Some (obj_lookup k m2)) /\
  exists us, t = Node (MapIndex k (obj_lookup k m1) (obj_lookup k m2)) us /\
    forallb all_equal us = entry_equal g eq k (obj_lookup k m1) (obj_lookup k m2).

Class GoCmpLaws `{GoCmp} := {
  cmp_kinds : forall f g x y, filters_entries f g -> kind x <> kind y -> cmp_Equal f x y = false;
  cmp_scalars : forall f g x y, filters_entries f g -> kind x = kind y -> (kind x < 4)%nat ->
    cmp_Equal f x y = scalar_eq x y;
  cmp_slices : forall f g l1 l2, filters_entries f g ->
    (cmp_Equal f (JArr l1) (JArr l2) = true <-> Forall2 (fun x y => cmp_Equal f x y = true) l1 l2);
  cmp_maps : forall f g m1 m2, filters_entries f g ->
    (cmp_Equal f (JObj m1) (JObj m2) = true <->
     forall k, entry_equal g (cmp_Equal f) k (obj_lookup k m1) (obj_lookup k m2) = true);
  (** The reporter hears of a difference exactly when there is one. *)
  cmp_walk_equal : forall f x y, all_equal (cmp_walk f x y) = cmp_Equal f x y;
  (** It walks two maps one key at a time, every key of either. *)
  cmp_walk_maps : forall f g m1 m2, filters_entries f g -> exists ts,
    cmp_walk f (JObj m1) (JObj m2) = Node Root ts /\
    (forall t, t ∈ ts -> exists k, walk_entry g (cmp_Equal f) m1 m2 k t) /\
    (forall k, is_Some (obj_lookup k m1) \/ is_Some (obj_lookup k m2) -> exists t,
      t ∈ ts /\ walk_entry g (cmp_Equal f) m1 m2 k t);
  (** Two values of different kinds are reported where they meet. *)
  cmp_walk_kinds : forall f g x y, filters_entries f g -> kind x <> kind y ->
    cmp_walk f x y = Node Root [Leaf false];
}.

(** A reference instance, which pairs the elements of two slices in order. *)
Section reference.
Variable f : Path -> bool.

(** A step into a map entry, ignored or walked by [children]. *)
Definition entry_walk (p : Path) (s : path_step) (children : Path -> list walk_tree) : walk_tree :=
  Node s (if f (p ++ [s]) then [Leaf true] else children (p ++ [s])).

Section composite.
Variable walk : Path -> value -> value -> list walk_tree.

Fixpoint slices_walk (p : Path) (i : Z) (l1 l2 : list value) : list walk_tree :=
  match l1, l2 with
  | [], _ => imap (fun j _ => Node (SliceIndex (-1) (-1) (i + Z.of_nat j)) [Leaf false]) l2
  | x :: l1', y :: l2' =>
      Node (SliceIndex i i i) (walk (p ++ [SliceIndex i i i]) x y) :: slices_walk p (i + 1) l1' l2'
  | _ :: l1', [] => Node (SliceIndex (-1) i (-1)) [Leaf false] :: slices_walk p (i + 1) l1' []
  end.

(** The entries of [m], the keys of [seen] done before; [m2] is the other side. *)
Fixpoint keys_walk (p : Path) (m2 : list (string * value)) (seen : list string) (m : list (string * value))
    : list walk_tree :=
  match m with
  | [] => []
  | (k, a) :: m' =>
      let rest := keys_walk p m2 (k :: seen) m' in
      if decide (k ∈ seen) then rest
      else entry_walk p (MapIndex k (Some a) (obj_lookup k m2))
             (fun p' => match obj_lookup k m2 with Some b => walk p' a b | None => [Leaf false] end) :: rest
  end.

Definition added_walk (p : Path) (m1 m2 : list (string * value)) : list walk_tree :=
  (fun k => entry_walk p (MapIndex k None (obj_lookup k m2)) (fun _ => [Leaf false])) <$>
    filter (fun k => obj_lookup k m1 = None) m2.*1.
End composite.

Fixpoint ref_walk (p : Path) (x y : value) {struct x} : list walk_tree :=
  match x, y with
  | JArr l1, JArr l2 => [Node TypeAssertion (slices_walk ref_walk (p ++ [TypeAssertion]) 0 l1 l2)]
  | JObj m1, JObj m2 =>
      let p := p ++ [TypeAssertion] in
      [Node TypeAssertion (keys_walk ref_walk p m2 [] m1 ++ added_walk p m1 m2)]
  | JNull, JNull => [Leaf true]
  | _, _ => if decide (kind x = kind y) then [Node TypeAssertion [Leaf (scalar_eq x y)]] else [Leaf false]
  end.

(** The walk below the root. *)
Definition root_walk (x y : value) : list walk_tree :=
  match x, y with
  | JArr l1, JArr l2 => slices_walk ref_walk [Root] 0 l1 l2
  | JObj m1, JObj m2 => keys_walk ref_walk [Root] m2 [] m1 ++ added_walk [Root] m1 m2
  | _, _ => [Leaf (bool_decide (kind x = kind y) && scalar_eq x y)]
  end.
End reference.

#[export] Instance reference_cmp : GoCmp := {
  cmp_walk f x y := Node Root (root_walk f x y);
  cmp_Equal f x y := forallb all_equal (root_walk f x y);
}.

Section reference_laws.
Context (f : Path -> bool) (g : path_step -> bool) (Hf : filters_entries f g).

Abbreviation eqv p x y := (forallb all_equal (ref_walk f p x y)).

Lemma entry_walk_equal p s children :
  all_equal (entry_walk f p s children) = g s || forallb all_equal (children (p ++ [s])).
Proof. unfold entry_walk. simpl. rewrite (proj1 Hf). by destruct (g s). Qed.

Lemma slices_walk_equal walk p i l1 l2 :
  forallb all_equal (slices_walk walk p i l1 l2) = true <->
  (List.length l1 = List.length l2 /\
   forall n x y, l1 !! n = Some x -> l2 !! n = Some y ->
     let j := (i + Z.of_nat n)%Z in forallb all_equal (walk (p ++ [SliceIndex j j j]) x y) = true).
Proof.
  revert i l2. induction l1 as [|x l1 IH]; intros i [|y l2]; simpl.
  - done.
  - split; [done|]. by intros (? & _).
  - split; [done|]. by intros (? & _).
  - rewrite andb_true_iff, IH. split.
    + intros (Hx & Hl & Hn). split; [lia|].
      intros [|n] a b; simpl; [intros; simplify_eq; by rewrite Z.add_0_r|].
      intros Ha Hb. specialize (Hn n a b Ha Hb). simpl in Hn.
      by replace (i + Z.of_nat (S n))%Z with (i + 1 + Z.of_nat n)%Z by lia.
    + intros (Hl & Hn). split.
      { specialize (Hn 0%nat x y eq_refl eq_refl). simpl in Hn. by rewrite Z.add_0_r in Hn. }
      split; [lia|]. intros n a b Ha Hb. specialize (Hn (S n) a b Ha Hb).
      simpl in Hn. by replace (i + 1 + Z.of_nat n)%Z with (i + Z.of_nat (S n))%Z by lia.
Qed.

(** The nodes of [keys_walk]: one for each key of [m] not seen before, with the
    first entry of that key. *)
Definition key_node (walk : Path -> value -> value -> list walk_tree) (p : Path) (m1 m2 : list (string * value))
    (k : string) : walk_tree :=
  entry_walk f p (MapIndex k (obj_lookup k m1) (obj_lookup k m2))
    (fun p' => match obj_lookup k m1, obj_lookup k m2 with
               | Some a, Some b => walk p' a b
               | _, _ => [Leaf false]
               end).

Lemma keys_walk_elem walk p m2 seen m t :
  t ∈ keys_walk f walk p m2 seen m <->
  exists k, (k ∉ seen) /\ is_Some (obj_lookup k m) /\ t = key_node walk p m m2 k.
Proof.
  revert seen. induction m as [|[k a] m IH]; intros seen; simpl.
  - split; [by intros ?%not_elem_of_nil|]. by intros (k & _ & [? ?] & _).
  - assert (forall k', k' <> k -> key_node walk p ((k, a) :: m) m2 k' = key_node walk p m m2 k') as Hother.
    { intros k' Hk'. unfold key_node. simpl. by rewrite decide_False. }
    case_decide as Hk.
    + rewrite IH. split.
      * intros (k' & Hs & Hm & ->). exists k'. rewrite decide_False, Hother by set_solver. set_solver.
      * intros (k' & Hs & Hm & ->). exists k'. rewrite decide_False in Hm by set_solver.
        rewrite Hother by set_solver. set_solver.
    + rewrite elem_of_cons, IH. split.
      * intros [->|(k' & Hs & Hm & ->)].
        -- exists k. rewrite decide_True by done. split; [done|]. split; [eauto|].
           unfold key_node. simpl. by rewrite decide_True.
        -- exists k'. rewrite decide_False, Hother by set_solver. set_solver.
      * intros (k' & Hs & Hm & ->). destruct (decide (k' = k)) as [->|Hne]; [left|right].
        -- unfold key_node. simpl. by rewrite decide_True.
        -- exists k'. rewrite Hother by done. set_solver.
Qed.

Lemma obj_lookup_keys k (m : list (string * value)) : is_Some (obj_lookup k m) <-> k ∈ m.*1.
Proof.
  induction m as [|[k' v] m IH]; simpl; [split; [by intros []|by intros ?%not_elem_of_nil]|].
  rewrite elem_of_cons. case_decide; naive_solver.
Qed.

(** Every key of either map has its node, and no other. *)
Lemma maps_walk_elem p m1 m2 t :
  t ∈ keys_walk f (ref_walk f) p m2 [] m1 ++ added_walk f p m1 m2 <->
  exists k, (is_Some (obj_lookup k m1) \/ is_Some (obj_lookup k m2)) /\ t = key_node (ref_walk f) p m1 m2 k.
Proof.
  rewrite elem_of_app, keys_walk_elem. unfold added_walk. rewrite list_elem_of_fmap.
  setoid_rewrite list_elem_of_filter. setoid_rewrite <- obj_lookup_keys. split.
  - intros [(k & _ & Hk & ->)|(k & -> & Hn & Hk)]; exists k; (split; [by auto|]); [done|].
    unfold key_node. by rewrite Hn.
  - intros (k & Hk & ->). destruct (obj_lookup k m1) eqn:E1; [left|right]; exists k.
    + rewrite E1. split; [by apply not_elem_of_nil|]. by split.
    + split; [unfold key_node; by rewrite E1|]. split; [done|]. by destruct Hk as [[? ?]|].
Qed.

Lemma key_node_equal p m1 m2 k :
  is_Some (obj_lookup k m1) \/ is_Some (obj_lookup k m2) ->
  all_equal (key_node (ref_walk f) p m1 m2 k)
  = entry_equal g (fun a b => eqv (p ++ [MapIndex k (obj_lookup k m1) (obj_lookup k m2)]) a b) k
      (obj_lookup k m1) (obj_lookup k m2).
Proof.
  intros Hk. unfold key_node. rewrite entry_walk_equal. unfold entry_equal.
  destruct (obj_lookup k m1), (obj_lookup k m2); [done|done|done|].
  by destruct Hk as [[? ?]|[? ?]].
Qed.

Lemma entry_equal_ext eq eq' k a b :
  (forall x y, a = Some x -> b = Some y -> eq x y = eq' x y) -> entry_equal g eq k a b = entry_equal g eq' k a b.
Proof. unfold entry_equal. destruct a, b; [|done..]. intros Heq. by rewrite Heq. Qed.

Lemma maps_walk_equal p m1 m2 :
  forallb all_equal (keys_walk f (ref_walk f) p m2 [] m1 ++ added_walk f p m1 m2) = true <->
  forall k, entry_equal g (fun a b => eqv (p ++ [MapIndex k (obj_lookup k m1) (obj_lookup k m2)]) a b) k
              (obj_lookup k m1) (obj_lookup k m2) = true.
Proof.
  rewrite forallb_forall. split.
  - intros Hall k. destruct (obj_lookup k m1) eqn:E1, (obj_lookup k m2) eqn:E2; try done;
      (rewrite <- E1, <- E2, <- key_node_equal;
       [apply Hall, list_elem_of_In, maps_walk_elem; exists k|]); rewrite ?E1, ?E2; eauto.
  - intros Hall t (k & Hk & ->)%list_elem_of_In%maps_walk_elem.
    rewrite key_node_equal by done. apply Hall.
Qed.

Lemma eqv_maps p m1 m2 :
  eqv p (JObj m1) (JObj m2) = true <->
  forall k, entry_equal g (fun a b => eqv (p ++ [TypeAssertion] ++ [MapIndex k (obj_lookup k m1) (obj_lookup k m2)]) a b) k
              (obj_lookup k m1) (obj_lookup k m2) = true.
Proof.
  cbn [ref_walk forallb all_equal]. rewrite andb_true_r, maps_walk_equal.
  split; intros Hk k; specialize (Hk k); by rewrite <- app_assoc in *.
Qed.

Lemma eqv_slices p l1 l2 :
  eqv p (JArr l1) (JArr l2) = true <->
  List.length l1 = List.length l2 /\
  forall n x y, l1 !! n = Some x -> l2 !! n = Some y ->
    let j := Z.of_nat n in eqv (p ++ [TypeAssertion] ++ [SliceIndex j j j]) x y = true.
Proof.
  cbn [ref_walk forallb all_equal]. rewrite andb_true_r, slices_walk_equal.
  split; intros [? Hn]; (split; [done|]); intros n x y Hx Hy;
    specialize (Hn n x y Hx Hy); cbv zeta in *; rewrite Z.add_0_l, <- app_assoc in *; done.
Qed.

Lemma eqv_path p q x y : eqv p x y = eqv q x y.
Proof.
  revert p q y. induction x as [| | | |l IH|m IH] using json_ind'; intros p q y; try done.
  - destruct y as [| | | |l2|]; try done. apply eq_true_iff_eq. rewrite !eqv_slices.
    rewrite Forall_lookup in IH. split; intros [? Hn]; (split; [done|]); intros n a b Ha Hb; simpl;
      (erewrite (IH n a Ha); by apply Hn).
  - destruct y as [| | | | |m2]; try done. apply eq_true_iff_eq. rewrite !eqv_maps.
    assert (forall k a r r' y, obj_lookup k m = Some a -> eqv r a y = eqv r' a y) as IH'.
    { intros k a r r' y Hk. induction IH as [|[k' v] m Hv _ IHm]; simpl in *; [done|].
      case_decide; simplify_eq; eauto. }
    split; intros Hk k; specialize (Hk k); erewrite entry_equal_ext; try exact Hk; intros; by eapply IH'.
Qed.

(** Below the root as anywhere. *)
Lemma root_equal p x y : forallb all_equal (root_walk f x y) = eqv p x y.
Proof.
  destruct x as [| | | |l1|m1], y as [| | | |l2|m2]; try done;
    try (unfold root_walk, ref_walk; rewrite bool_decide_eq_true_2, decide_True by done; simpl; by rewrite ?andb_true_r).
  - apply eq_true_iff_eq. rewrite (eqv_slices p). cbn [root_walk]. rewrite slices_walk_equal.
    split; intros [? Hn]; (split; [done|]); intros n a b Ha Hb; specialize (Hn n a b Ha Hb); cbv zeta in *;
      rewrite Z.add_0_l in *; (etransitivity; [apply eqv_path|exact Hn]).
  - apply eq_true_iff_eq. rewrite (eqv_maps p). cbn [root_walk]. rewrite maps_walk_equal.
    split; intros Hk k; specialize (Hk k); (erewrite entry_equal_ext; [exact Hk|]); intros; apply eqv_path.
Qed.
End reference_laws.

#[export] Instance reference_cmp_laws : GoCmpLaws.
Proof.
  split; cbn [cmp_Equal cmp_walk reference_cmp all_equal].
  - intros f g x y Hf Hk. by destruct x, y.
  - intros f g x y Hf Hk Hs. destruct x, y; simpl in *; try done; rewrite ?andb_true_r; try done; lia.
  - intros f g l1 l2 Hf. rewrite (root_equal f g Hf []), (eqv_slices f). split.
    + intros [Hl Hn]. apply Forall2_same_length_lookup_2; [done|]. intros n x y E1 E2.
      rewrite (root_equal f g Hf ([] ++ [TypeAssertion] ++ [SliceIndex (Z.of_nat n) (Z.of_nat n) (Z.of_nat n)])).
      by apply (Hn n).
    + intros Hall. split; [by eapply Forall2_length|]. intros n x y E1 E2.
      cbv zeta. rewrite <- (root_equal f g Hf). by eapply (Forall2_lookup_lr _ _ _ _ _ _ Hall).
  - intros f g m1 m2 Hf. rewrite (root_equal f g Hf []), (eqv_maps f g Hf). split; intros Hk k; specialize (Hk k);
      (erewrite entry_equal_ext; [exact Hk|]); intros; [|symmetry]; by apply (root_equal f g).
  - done.
  - intros f g m1 m2 Hf.
    exists (keys_walk f (ref_walk f) [Root] m2 [] m1 ++ added_walk f [Root] m1 m2). split; [done|].
    assert (forall k, is_Some (obj_lookup k m1) \/ is_Some (obj_lookup k m2) ->
      walk_entry g (fun a b => forallb all_equal (root_walk f a b)) m1 m2 k (key_node f (ref_walk f) [Root] m1 m2 k))
      as Hentry.
    { intros k Hk. split; [done|]. eexists. split; [reflexivity|].
      etransitivity; [exact (key_node_equal f g Hf [Root] m1 m2 k Hk)|].
      apply entry_equal_ext. intros; symmetry; by apply (root_equal f g). }
    split.
    + intros t (k & Hk & ->)%(maps_walk_elem f g Hf). exists k. by apply Hentry.
    + intros k Hk. eexists. split; [|by apply Hentry]. apply (maps_walk_elem f g Hf). by exists k.
  - intros f g x y Hf Hk. destruct x, y; done.
Qed.
