(* ===== verification/Errors.v ===== *)
(** * internal/errors: the error value, its classification, HTTP responses

    The error chain is an inductive type; [errors.AsType[*Base]] is the depth
    first walk of the standard library over [Unwrap]. *)

From S2P Require Import Prelude GoStd Json.
From Stdlib Require Import String.

Local Open Scope string_scope.

(** ** reason.go: the closed set of reasons *)

Inductive Reason :=
  | ReasonUnknown | ReasonInvalidInput | ReasonUnauthorized | ReasonForbidden
  | ReasonNotFound | ReasonAlreadyExists | ReasonTooManyRequests | ReasonInternal
  | ReasonUnreachable.

#[export] Instance Reason_eq_dec : EqDecision Reason.
Proof. solve_decision. Defined.

Definition Reason_String (r : Reason) : string :=
  match r with
  | ReasonUnknown => "Unknown"
  | ReasonInvalidInput => "InvalidInput"
  | ReasonUnauthorized => "Unauthorized"
  | ReasonForbidden => "Forbidden"
  | ReasonNotFound => "NotFound"
  | ReasonAlreadyExists => "AlreadyExists"
  | ReasonTooManyRequests => "TooManyRequests"
  | ReasonInternal => "Internal"
  | ReasonUnreachable => "Unreachable"
  end.

Definition Retryable (r : Reason) : bool :=
  match r with
  | ReasonInvalidInput | ReasonUnauthorized | ReasonForbidden | ReasonAlreadyExists => false
  | _ => true
  end.

(** ** code.go *)

Record Code := NewCode { Code_String : string }.

#[export] Instance Code_eq_dec : EqDecision Code.
Proof. solve_decision. Defined.

Definition CodeUnknown : Code := NewCode "Unknown".

(** ** error.go: Base, and the other error values that reach it *)

Record BaseOf (E : Type) := MkBase {
  base_reason : Reason;
  base_code : Code;
  base_message : string;
  base_cause : option E;
}.
Arguments MkBase {E}.
Arguments base_reason {E}.
Arguments base_code {E}.
Arguments base_message {E}.
Arguments base_cause {E}.

(** [EText dyn msg] is an error of another package with no [Unwrap], of dynamic
    type [dyn]; [EWrap prefix e] is [fmt.Errorf("<prefix>: %w", e)]; [EJoin] is
    [errors.Join]. *)
Inductive error : Type :=
  | EBase (b : BaseOf error)
  | EText (dyn : string) (message : string)
  | EWrap (prefix : string) (inner : error)
  | EJoin (errs : list error).

Abbreviation Base := (BaseOf error).

(** [errors.New] and [fmt.Errorf] without %w. *)
Definition errorString (message : string) : error := EText "*errors.errorString" message.

(** [err.Error()]. *)
Fixpoint Error (e : error) : string :=
  match e with
  | EBase b =>
      match base_cause b with
      | Some c => base_message b ++ ": " ++ Error c
      | None => base_message b
      end
  | EText _ m => m
  | EWrap p c => p ++ ": " ++ Error c
  | EJoin es => Join (Error <$> es) (String (Ascii.ascii_of_nat 10) "")
  end.

Definition WithCode (b : Base) (code : Code) : Base :=
  MkBase (base_reason b) code (base_message b) (base_cause b).

(** [New] and [Newf]: the format is applied at the call. *)
Definition New (reason : Reason) (message : string) : Base :=
  MkBase reason CodeUnknown message None.

(** [Wrap] and [Wrapf]. *)
Definition Wrap (cause : error) (reason : Reason) (message : string) : Base :=
  MkBase reason CodeUnknown message (Some cause).

(** [errors.As(err, &base)] and [errors.AsType[*Base](err)]. *)
Fixpoint As_Base (e : error) : option Base :=
  match e with
  | EBase b => Some b
  | EText _ _ => None
  | EWrap _ c => As_Base c
  | EJoin es =>
      (fix first es := match es with
                       | [] => None
                       | e' :: es' => match As_Base e' with Some b => Some b | None => first es' end
                       end) es
  end.

Definition ReasonForError (e : error) : Reason :=
  match As_Base e with Some b => base_reason b | None => ReasonUnknown end.

(** A nil error is [None]: [AsType] finds nothing in it. *)
Definition ReasonForErr (err : option error) : Reason :=
  match err with Some e => ReasonForError e | None => ReasonUnknown end.

Definition IsNotFound (err : option error) : bool := bool_decide (ReasonForErr err = ReasonNotFound).
Definition IsAlreadyExists (err : option error) : bool := bool_decide (ReasonForErr err = ReasonAlreadyExists).
Definition IsUnauthorized (err : option error) : bool := bool_decide (ReasonForErr err = ReasonUnauthorized).
Definition IsForbidden (err : option error) : bool := bool_decide (ReasonForErr err = ReasonForbidden).
Definition IsUnreachable (err : option error) : bool := bool_decide (ReasonForErr err = ReasonUnreachable).

Definition IsRetryable (err : option error) : bool :=
  match err with Some _ => Retryable (ReasonForErr err) | None => false end.

(** [errors.Join(errs...)]: nil when every argument is. *)
Definition JoinErrors (errs : list (option error)) : option error :=
  match omap id errs with [] => None | es => Some (EJoin es) end.

(** ** http.go *)

Definition http_detail (body : option string) : string :=
  match body with
  | None | Some "" => ""
  | Some b => match Compact b with Some c => ": " ++ c | None => "" end
  end.

(** [NewFromHTTPResponse]: nil for a success status. [body] is nil or bytes. *)
Definition NewFromHTTPResponse (status : Z) (body : option string) : option Base :=
  let detail := http_detail body in
  let http := " (HTTP " ++ Itoa status ++ ")" ++ detail in
  if decide (200 <= status < 300)%Z then None
  else if decide (status = 400)%Z then Some (New ReasonInvalidInput ("the server rejected the request" ++ http))
  else if decide (status = 401)%Z then Some (New ReasonUnauthorized ("the server rejected the credential" ++ http))
  else if decide (status = 403)%Z then Some (New ReasonForbidden ("the server rejected the credential" ++ http))
  else if decide (status = 404)%Z then Some (New ReasonNotFound ("the server could not find the object" ++ http))
  else if decide (status = 409)%Z then Some (New ReasonAlreadyExists ("the server reported a conflict" ++ http))
  else if decide (status = 429)%Z then Some (New ReasonTooManyRequests ("the server asked to back off" ++ http))
  else if decide (500 <= status)%Z then Some (New ReasonInternal ("the server returned an internal error" ++ http))
  else Some (New ReasonUnknown ("the server returned an unexpected status" ++ http)).

(** ** Theorems *)

Lemma ReasonForError_wrap p e : ReasonForError (EWrap p e) = ReasonForError e.
Proof. done. Qed.

Lemma As_Base_join_first es :
  As_Base (EJoin es) = head (omap As_Base es).
Proof. induction es as [|e es IH]; [done|]. simpl in *. by destruct (As_Base e). Qed.

(** The statuses whose failure no retry fixes. *)
Lemma http_reason_not_retryable status body b :
  NewFromHTTPResponse status body = Some b ->
  Retryable (base_reason b) = false <-> (status = 400 \/ status = 401 \/ status = 403 \/ status = 409)%Z.
Proof.
  unfold NewFromHTTPResponse. intros Hb.
  repeat case_decide; simplify_eq/=; intuition (try lia; try discriminate).
Qed.
