(* ===== verification/Kube.v ===== *)
(** * The Kubernetes libraries the operator calls

    Plain data of apimachinery and controller-runtime, and the interface
    [ApiMachinery] of the library functions the source calls, with the laws
    their documentation states.  [reference_machinery] is an instance that
    evaluates; the theorems are proved against the interface. *)

From S2P Require Import Prelude GoStd Errors.
From Stdlib Require Import String.

Local Open Scope string_scope.

(** ** Data *)

Inductive ConditionStatus := ConditionTrue | ConditionFalse | ConditionUnknown.

#[export] Instance ConditionStatus_eq_dec : EqDecision ConditionStatus.
Proof. solve_decision. Defined.

(** [metav1.Condition] less LastTransitionTime, which the operator neither reads
    nor sets and the library moves only together with the status. *)
Record Condition := MkCondition {
  c_type : string;
  c_status : ConditionStatus;
  c_reason : string;
  c_message : string;
  c_generation : Z;
}.

#[export] Instance Condition_eq_dec : EqDecision Condition.
Proof. solve_decision. Defined.

(** [metav1.ObjectMeta], the fields the operator uses; a nil map and an empty
    one are read alike. *)
Record ObjectMeta := MkMeta {
  m_name : string;
  m_namespace : string;
  m_resource_version : string;
  m_generation : Z;
  m_deletion : option Z;
  m_finalizers : list string;
  m_annotations : gmap string string;
}.

#[export] Instance ObjectMeta_eq_dec : EqDecision ObjectMeta.
Proof. solve_decision. Defined.

Definition set_finalizers (m : ObjectMeta) (f : list string) : ObjectMeta :=
  MkMeta (m_name m) (m_namespace m) (m_resource_version m) (m_generation m) (m_deletion m) f (m_annotations m).

Definition set_annotations (m : ObjectMeta) (a : gmap string string) : ObjectMeta :=
  MkMeta (m_name m) (m_namespace m) (m_resource_version m) (m_generation m) (m_deletion m) (m_finalizers m) a.

(** [client.ObjectKey]. *)
Record ObjectKey := MkKey { key_namespace : string; key_name : string }.

#[export] Instance ObjectKey_eq_dec : EqDecision ObjectKey.
Proof. solve_decision. Defined.
#[export] Instance ObjectKey_countable : Countable ObjectKey.
Proof.
  refine (inj_countable' (fun k => (key_namespace k, key_name k)) (fun p => MkKey p.1 p.2) _).
  by intros [].
Defined.

(** [types.NamespacedName.String]. *)
Definition ObjectKey_String (k : ObjectKey) : string := key_namespace k ++ "/" ++ key_name k.

(** [ctrl.Result]: zero asks for no requeue. *)
Record Result := MkResult { RequeueAfter : Z }.
Definition no_requeue : Result := MkResult 0.

#[export] Instance Result_eq_dec : EqDecision Result.
Proof. solve_decision. Defined.

(** What a context carries to a call: a timeout set on it, and whether a
    cancellation reaches the call. *)
Record Context := MkContext { ctx_timeout : option Z; ctx_cancellable : bool }.
Definition WithTimeout (c : Context) (d : Z) : Context :=
  MkContext (Some (match ctx_timeout c with Some t => Z.min t d | None => d end)) true.
Definition WithoutCancel (c : Context) : Context := MkContext None false.

(** The condition of a type: the first one in the list. *)
Definition find_condition (t : string) (cs : list Condition) : option Condition :=
  head (filter (fun c => c_type c = t) cs).

(** ** Library functions *)

Class ApiMachinery := {
  (** [meta.SetStatusCondition] and [meta.RemoveStatusCondition]. *)
  SetStatusCondition : list Condition -> Condition -> list Condition;
  RemoveStatusCondition : list Condition -> string -> list Condition;
  (** [controllerutil], on the finalizers of the object. *)
  ContainsFinalizer : list string -> string -> bool;
  AddFinalizer : list string -> string -> list string * bool;
  RemoveFinalizer : list string -> string -> list string * bool;
  (** [apierrors.IsNotFound]. *)
  api_IsNotFound : error -> bool;
}.

(** What the documentation of those functions says. *)
Class ApiMachineryLaws `{ApiMachinery} := {
  set_condition_same : forall cs c,
    find_condition (c_type c) (SetStatusCondition cs c) = Some c;
  set_condition_other : forall cs c t,
    t <> c_type c -> find_condition t (SetStatusCondition cs c) = find_condition t cs;
  set_condition_present : forall cs c,
    find_condition (c_type c) cs = Some c -> SetStatusCondition cs c = cs;
  remove_condition_same : forall cs t,
    find_condition t (RemoveStatusCondition cs t) = None;
  remove_condition_other : forall cs t t',
    t' <> t -> find_condition t' (RemoveStatusCondition cs t) = find_condition t' cs;
  remove_condition_absent : forall cs t,
    find_condition t cs = None -> RemoveStatusCondition cs t = cs;
  contains_finalizer : forall fs f, ContainsFinalizer fs f = true <-> f ∈ fs;
  add_finalizer_present : forall fs f, f ∈ fs -> AddFinalizer fs f = (fs, false);
  add_finalizer_absent : forall fs f, f ∉ fs -> exists fs',
    AddFinalizer fs f = (fs', true) /\ forall g, g ∈ fs' <-> g = f \/ g ∈ fs;
  remove_finalizer_present : forall fs f, f ∈ fs -> exists fs',
    RemoveFinalizer fs f = (fs', true) /\ forall g, g ∈ fs' <-> g <> f /\ g ∈ fs;
  remove_finalizer_absent : forall fs f, f ∉ fs -> RemoveFinalizer fs f = (fs, false);
}.

(** [apiequality.Semantic.DeepEqual], at each type it is called at.  The model
    does not tell a nil slice or map from an empty one, and neither does it. *)
Class SemanticEqual (A : Type) := DeepEqual : A -> A -> bool.
Class SemanticEqualLaw (A : Type) `{SemanticEqual A} :=
  deep_equal : forall a b : A, DeepEqual a b = true <-> a = b.

#[export] Instance semantic_equal_dec {A} `{EqDecision A} : SemanticEqual A :=
  fun a b => bool_decide (a = b).
#[export] Instance semantic_equal_dec_law {A} `{EqDecision A} : SemanticEqualLaw A.
Proof. intros a b. unfold DeepEqual, semantic_equal_dec. by rewrite bool_decide_eq_true. Qed.

(** ** A reference instance *)

Fixpoint set_condition (cs : list Condition) (c : Condition) : list Condition :=
  match cs with
  | [] => [c]
  | c' :: cs' => if decide (c_type c' = c_type c) then c :: cs' else c' :: set_condition cs' c
  end.

#[export] Instance reference_machinery : ApiMachinery := {
  SetStatusCondition := set_condition;
  RemoveStatusCondition cs t := filter (fun c => c_type c <> t) cs;
  ContainsFinalizer fs f := bool_decide (f ∈ fs);
  AddFinalizer fs f := if decide (f ∈ fs) then (fs, false) else ((fs ++ [f])%list, true);
  RemoveFinalizer fs f := if decide (f ∈ fs) then (filter (fun g => g <> f) fs, true) else (fs, false);
  api_IsNotFound e := match e with EText "NotFound" _ => true | _ => false end;
}.

Lemma find_condition_cons t c cs :
  find_condition t (c :: cs) = if decide (c_type c = t) then Some c else find_condition t cs.
Proof. unfold find_condition. rewrite filter_cons. by case_decide. Qed.

Lemma find_set_same cs c : find_condition (c_type c) (set_condition cs c) = Some c.
Proof.
  induction cs as [|c' cs IH]; simpl; [|case_decide]; rewrite find_condition_cons; case_decide; done.
Qed.

Lemma find_set_other cs c t : t <> c_type c -> find_condition t (set_condition cs c) = find_condition t cs.
Proof.
  intros Hne. induction cs as [|c' cs IH]; simpl.
  - rewrite find_condition_cons. case_decide; congruence.
  - case_decide; rewrite !find_condition_cons; repeat case_decide; congruence.
Qed.

Lemma set_condition_idem cs c : find_condition (c_type c) cs = Some c -> set_condition cs c = cs.
Proof.
  induction cs as [|c' cs IH]; simpl; [done|]. rewrite find_condition_cons.
  case_decide; intros; simplify_eq; [done|]. f_equal; auto.
Qed.

Lemma find_filter_other cs t t' :
  t' <> t -> find_condition t' (filter (fun c => c_type c <> t) cs) = find_condition t' cs.
Proof.
  intros Hne. induction cs as [|c cs IH]; [done|]. rewrite filter_cons, find_condition_cons.
  case_decide; [rewrite find_condition_cons|]; repeat case_decide; congruence.
Qed.

#[export] Instance reference_machinery_laws : ApiMachineryLaws.
Proof.
  split; simpl.
  - apply find_set_same.
  - apply find_set_other.
  - apply set_condition_idem.
  - intros cs t. unfold find_condition. apply head_None, filter_nil_iff.
    intros c [? ?]%list_elem_of_filter; auto.
  - apply find_filter_other.
  - intros cs t Hn. induction cs as [|c cs IH]; [done|].
    rewrite find_condition_cons in Hn. rewrite filter_cons. case_decide; [done|].
    rewrite decide_True by done. f_equal; auto.
  - intros. by rewrite bool_decide_eq_true.
  - intros. by rewrite decide_True.
  - intros fs f Hf. eexists; rewrite decide_False by done; split; [done|]. set_solver.
  - intros fs f Hf. eexists; rewrite decide_True by done; split; [done|].
    intros g. rewrite list_elem_of_filter. done.
  - intros. by rewrite decide_False.
Qed.
