(* ===== verification/Core.v ===== *)
(** * api/resources/v1alpha1: the types every mirrored kind shares

    [core.go] and [providerconfig_types.go].  A duration or id behind a pointer
    is an option. *)

From S2P Require Import Prelude GoStd Errors Kube.
From Stdlib Require Import String.

Local Open Scope string_scope.

(** ** core.go *)

Definition AnnotationCreateAttempt : string := "resources.signoz.io/create-attempt".
Definition AnnotationSigNozResourceID : string := "resources.signoz.io/signoz-resource-id".
Definition ResourceFinalizer : string := "resources.signoz.io/finalizer".

(** [ReclaimPolicy] is a named string. *)
Definition ReclaimDelete : string := "Delete".
Definition ReclaimOrphan : string := "Orphan".

Record ProviderConfigRef := MkRef { ref_name : string; ref_kind : string }.

#[export] Instance ProviderConfigRef_eq_dec : EqDecision ProviderConfigRef.
Proof. solve_decision. Defined.

Record CoreSpec := MkCoreSpec {
  ProviderConfigRef_ : ProviderConfigRef;
  Interval : option Z;
  RetryInterval : option Z;
  Timeout : option Z;
  Suspend : bool;
  ReclaimPolicy : string;
}.

#[export] Instance CoreSpec_eq_dec : EqDecision CoreSpec.
Proof. solve_decision. Defined.

Record SigNozResource := MkResource { ID : option string }.

#[export] Instance SigNozResource_eq_dec : EqDecision SigNozResource.
Proof. solve_decision. Defined.

Record CoreStatus := MkStatus {
  Conditions : list Condition;
  SigNozResource_ : option SigNozResource;
  ObservedGeneration : Z;
  ObservedHash : string;
  ReconciledAt : option Z;
}.

#[export] Instance CoreStatus_eq_dec : EqDecision CoreStatus.
Proof. solve_decision. Defined.

(** The field assignments of the source. *)
Definition with_conditions (s : CoreStatus) (cs : list Condition) : CoreStatus :=
  MkStatus cs (SigNozResource_ s) (ObservedGeneration s) (ObservedHash s) (ReconciledAt s).
Definition with_resource (s : CoreStatus) (r : option SigNozResource) : CoreStatus :=
  MkStatus (Conditions s) r (ObservedGeneration s) (ObservedHash s) (ReconciledAt s).
Definition with_generation (s : CoreStatus) (g : Z) : CoreStatus :=
  MkStatus (Conditions s) (SigNozResource_ s) g (ObservedHash s) (ReconciledAt s).
Definition with_hash (s : CoreStatus) (h : string) : CoreStatus :=
  MkStatus (Conditions s) (SigNozResource_ s) (ObservedGeneration s) h (ReconciledAt s).
Definition with_reconciled_at (s : CoreStatus) (t : Z) : CoreStatus :=
  MkStatus (Conditions s) (SigNozResource_ s) (ObservedGeneration s) (ObservedHash s) (Some t).

Definition GetIDFromSigNozResource (r : option SigNozResource) : result string error :=
  match r with
  | None => Err (errorString "signozResource carries no id")
  | Some r =>
      match ID r with
      | None => Err (errorString "signozResource carries no id")
      | Some id => if decide (id = "") then Err (errorString "signozResource carries no id") else Ok id
      end
  end.

Fixpoint GetIDsFromSigNozResources (rs : list (option SigNozResource)) : list string :=
  match rs with
  | [] => []
  | r :: rs =>
      match GetIDFromSigNozResource r with
      | Ok id => id :: GetIDsFromSigNozResources rs
      | Err _ => GetIDsFromSigNozResources rs
      end
  end.

(** A mirrored custom resource: metadata, the shared spec, the kind's object
    template, the shared status. *)
Record Object (T : Type) := MkObject {
  o_meta : ObjectMeta;
  o_spec : CoreSpec;
  o_template : T;
  o_status : CoreStatus;
}.
Arguments MkObject {T}.
Arguments o_meta {T}.
Arguments o_spec {T}.
Arguments o_template {T}.
Arguments o_status {T}.

#[export] Instance Object_eq_dec {T} `{EqDecision T} : EqDecision (Object T).
Proof. solve_decision. Defined.

Definition with_meta {T} (o : Object T) (m : ObjectMeta) : Object T :=
  MkObject m (o_spec o) (o_template o) (o_status o).
Definition with_status {T} (o : Object T) (s : CoreStatus) : Object T :=
  MkObject (o_meta o) (o_spec o) (o_template o) s.

Definition annotation {T} (o : Object T) (k : string) : option string := m_annotations (o_meta o) !! k.

(** Go's map read: the zero value when the key is absent. *)
Definition annotation_or_zero {T} (o : Object T) (k : string) : string := default "" (annotation o k).

(** ** providerconfig_types.go *)

Definition ProviderConfigObservedRefKindSecret : string := "Secret".
Definition ProviderConfigObservedRefKindConfigMap : string := "ConfigMap".

(** [corev1.SecretKeySelector] and [corev1.ConfigMapKeySelector]. *)
Record KeySelector := MkSelector { sel_name : string; sel_key : string }.

Record ValueSource := MkSource {
  SecretKeyRef : option KeySelector;
  ConfigMapKeyRef : option KeySelector;
}.

Record Endpoint := MkEndpoint { ep_value : string; ep_value_from : option ValueSource }.

Record HeaderAuth := MkHeaderAuth {
  ha_name : string;
  ha_scheme : string;
  ha_value : string;
  ha_value_from : option ValueSource;
}.

Record Authentication := MkAuthentication { auth_header : option HeaderAuth }.

Record TLSConfig := MkTLS { tls_insecure : bool; tls_ca : option KeySelector }.

Record ProviderConfigSpec := MkPCSpec {
  pc_endpoint : Endpoint;
  pc_auth : Authentication;
  pc_tls : option TLSConfig;
}.

Record ProviderConfigStatus := MkPCStatus {
  pc_conditions : list Condition;
  pc_generation : Z;
  pc_versions : gmap string (gmap string string);
}.

#[export] Instance ProviderConfigStatus_eq_dec : EqDecision ProviderConfigStatus.
Proof. solve_decision. Defined.

Definition ValueSources (s : ProviderConfigSpec) : list (option ValueSource) :=
  ([ep_value_from (pc_endpoint s)]
   ++ match auth_header (pc_auth s) with Some h => [ha_value_from h] | None => [] end
   ++ match pc_tls s with
      | Some t => match tls_ca t with
                  | Some ref => [Some (MkSource (Some ref) None)]
                  | None => []
                  end
      | None => []
      end)%list.

(** [SecretNames] and [ConfigMapNames]: sets, as map[string]struct{}. *)
Definition SecretNames (s : ProviderConfigSpec) : gset string :=
  foldl (fun names src =>
    match src with
    | Some src => match SecretKeyRef src with
                  | Some ref => if decide (sel_name ref = "") then names else {[sel_name ref]} ∪ names
                  | None => names
                  end
    | None => names
    end) ∅ (ValueSources s).

Definition ConfigMapNames (s : ProviderConfigSpec) : gset string :=
  foldl (fun names src =>
    match src with
    | Some src => match ConfigMapKeyRef src with
                  | Some ref => if decide (sel_name ref = "") then names else {[sel_name ref]} ∪ names
                  | None => names
                  end
    | None => names
    end) ∅ (ValueSources s).

(** ** Lemmas *)

Lemma GetID_Ok r id : GetIDFromSigNozResource r = Ok id <-> r = Some (MkResource (Some id)) /\ id <> "".
Proof.
  split.
  - destruct r as [[[x|]]|]; simpl; try done. case_decide; [done|]. by intros [= <-].
  - intros [-> ?]. simpl. by rewrite decide_False.
Qed.

Lemma GetIDs_elem rs id :
  id ∈ GetIDsFromSigNozResources rs <-> exists r, r ∈ rs /\ GetIDFromSigNozResource r = Ok id.
Proof.
  induction rs as [|r rs IH]; simpl.
  - set_solver.
  - setoid_rewrite elem_of_cons. destruct (GetIDFromSigNozResource r) eqn:E.
    + rewrite elem_of_cons, IH. split.
      * intros [->|(r' & ? & ?)]; eauto.
      * intros (r' & [->|?] & ?); [left; congruence|eauto].
    + rewrite IH. split; intros (r' & ? & ?); [by eauto|].
      destruct H as [->|?]; [congruence|eauto].
Qed.
