(* ===== verification/Conditions.v ===== *)
(** * internal/resources: reasons, outcomes and the status conditions

    [reason.go], [reconciler.go]'s outcome and [condition.go]. *)

From S2P Require Import Prelude GoStd Errors Kube Core.
From Stdlib Require Import String.

Local Open Scope string_scope.

Module Reasons.
(** reason.go *)
Inductive Reason :=
  | ReasonSynced | ReasonPending | ReasonCreated | ReasonUpdated
  | ReasonInvalidSpec | ReasonRejected | ReasonAmbiguous | ReasonSigNozResourceIDMismatch
  | ReasonImmutableFieldChanged | ReasonUnauthorized | ReasonProviderConfigNotReady
  | ReasonBackendError | ReasonBackendUnreachable | ReasonSuspended | ReasonCompareFailed.

#[export] Instance Reason_eq_dec : EqDecision Reason.
Proof. solve_decision. Defined.

Definition Reason_String (r : Reason) : string :=
  match r with
  | ReasonSynced => "Synced"
  | ReasonPending => "Pending"
  | ReasonCreated => "Created"
  | ReasonUpdated => "Updated"
  | ReasonInvalidSpec => "InvalidSpec"
  | ReasonRejected => "Rejected"
  | ReasonAmbiguous => "Ambiguous"
  | ReasonSigNozResourceIDMismatch => "SigNozResourceIDMismatch"
  | ReasonImmutableFieldChanged => "ImmutableFieldChanged"
  | ReasonUnauthorized => "Unauthorized"
  | ReasonProviderConfigNotReady => "ProviderConfigNotReady"
  | ReasonBackendError => "BackendError"
  | ReasonBackendUnreachable => "BackendUnreachable"
  | ReasonSuspended => "Suspended"
  | ReasonCompareFailed => "CompareFailed"
  end.
End Reasons.
Import Reasons.

(** reconciler.go: the verdict of one pass. *)
Inductive ReconcilerOutcome :=
  | ReconcilerOutcomeSynced
  | ReconcilerOutcomePending
  | ReconcilerOutcomeRecoverable
  | ReconcilerOutcomeTerminal
  | ReconcilerOutcomeSuspended.

#[export] Instance ReconcilerOutcome_eq_dec : EqDecision ReconcilerOutcome.
Proof. solve_decision. Defined.

(** ** condition.go *)

Record condition := MkCond { cond_s : string; isAlwaysPresent : bool }.

Definition ConditionReady : condition := MkCond "Ready" true.
Definition ConditionSynced : condition := MkCond "Synced" true.
Definition ConditionTerminal : condition := MkCond "Terminal" false.
Definition ConditionRecoverable : condition := MkCond "Recoverable" false.
Definition ConditionSuspended : condition := MkCond "Suspended" false.

Definition presence (on : bool) : ConditionStatus := if on then ConditionTrue else ConditionFalse.

Section Conditions.
Context `{AM : ApiMachinery}.

Definition apply (status : CoreStatus) (generation : Z) (c : condition) (s : ConditionStatus)
    (reason : Reason) (message : string) : CoreStatus :=
  if negb (isAlwaysPresent c) && bool_decide (s <> ConditionTrue)
  then with_conditions status (RemoveStatusCondition (Conditions status) (cond_s c))
  else with_conditions status
         (SetStatusCondition (Conditions status)
            (MkCondition (cond_s c) s (Reason_String reason) message generation)).

Definition SetConditionsOnOutcome (status : CoreStatus) (generation : Z) (outcome : ReconcilerOutcome)
    (reason : Reason) (message : string) : CoreStatus :=
  let status := with_generation status generation in
  let synced := match outcome with
                | ReconcilerOutcomeSynced => ConditionTrue
                | ReconcilerOutcomeTerminal => ConditionFalse
                | _ => ConditionUnknown
                end in
  let status := apply status generation ConditionSynced synced reason message in
  let status := apply status generation ConditionSuspended
                  (presence (bool_decide (outcome = ReconcilerOutcomeSuspended))) reason message in
  let status := apply status generation ConditionTerminal
                  (presence (bool_decide (outcome = ReconcilerOutcomeTerminal))) reason message in
  let status := apply status generation ConditionRecoverable
                  (presence (bool_decide (outcome = ReconcilerOutcomeRecoverable))) reason message in
  let ready := match outcome with
               | ReconcilerOutcomeSynced => ConditionTrue
               | ReconcilerOutcomeTerminal | ReconcilerOutcomeSuspended => ConditionFalse
               | _ => ConditionUnknown
               end in
  apply status generation ConditionReady ready reason message.

(** The branches of [GetOutcomeAndSetConditionsOnErr], as the outcome and the
    reason each one reports. *)
Definition GetOutcomeAndSetConditionsOnErr (status : CoreStatus) (generation : Z) (err : error)
    : CoreStatus * ReconcilerOutcome :=
  let report outcome reason := (SetConditionsOnOutcome status generation outcome reason (Error err), outcome) in
  match As_Base err with
  | None => report ReconcilerOutcomeRecoverable ReasonBackendUnreachable
  | Some _ =>
      if IsUnreachable (Some err) then report ReconcilerOutcomeRecoverable ReasonBackendUnreachable
      else if IsRetryable (Some err) then report ReconcilerOutcomeRecoverable ReasonBackendError
      else if IsUnauthorized (Some err) || IsForbidden (Some err)
      then report ReconcilerOutcomeRecoverable ReasonUnauthorized
      else report ReconcilerOutcomeTerminal ReasonRejected
  end.
End Conditions.

(** ** The table SetConditionsOnOutcome implements *)

(** The status each condition type has after an outcome; [None]: absent. *)
Definition condition_table (outcome : ReconcilerOutcome) (t : string) : option ConditionStatus :=
  if decide (t = "Ready") then
    Some match outcome with
         | ReconcilerOutcomeSynced => ConditionTrue
         | ReconcilerOutcomeTerminal | ReconcilerOutcomeSuspended => ConditionFalse
         | _ => ConditionUnknown
         end
  else if decide (t = "Synced") then
    Some match outcome with
         | ReconcilerOutcomeSynced => ConditionTrue
         | ReconcilerOutcomeTerminal => ConditionFalse
         | _ => ConditionUnknown
         end
  else if decide (t = "Terminal") then
    match outcome with ReconcilerOutcomeTerminal => Some ConditionTrue | _ => None end
  else if decide (t = "Recoverable") then
    match outcome with ReconcilerOutcomeRecoverable => Some ConditionTrue | _ => None end
  else
    match outcome with ReconcilerOutcomeSuspended => Some ConditionTrue | _ => None end.

Definition managed_types : list string := ["Ready"; "Synced"; "Terminal"; "Recoverable"; "Suspended"].

(** What a status reports: every managed type as in the table, each present
    condition with the outcome's reason, message and generation. *)
Definition reports (status : CoreStatus) (generation : Z) (outcome : ReconcilerOutcome)
    (reason : Reason) (message : string) : Prop :=
  ObservedGeneration status = generation /\
  forall t, t ∈ managed_types ->
    find_condition t (Conditions status)
    = (fun s => MkCondition t s (Reason_String reason) message generation) <$> condition_table outcome t.

Section ConditionLemmas.
Context `{AML : ApiMachineryLaws}.

Lemma apply_other status g c s r m t :
  t <> cond_s c -> find_condition t (Conditions (apply status g c s r m)) = find_condition t (Conditions status).
Proof.
  intros Hne. unfold apply. case_match; simpl.
  - by apply remove_condition_other.
  - by apply set_condition_other.
Qed.

Lemma apply_same status g c s r m :
  find_condition (cond_s c) (Conditions (apply status g c s r m))
  = if isAlwaysPresent c || bool_decide (s = ConditionTrue)
    then Some (MkCondition (cond_s c) s (Reason_String r) m g) else None.
Proof.
  unfold apply. destruct (isAlwaysPresent c), s; simpl;
    try apply remove_condition_same;
    apply (set_condition_same _ (MkCondition _ _ _ _ _)).
Qed.

Lemma apply_fields status g c s r m :
  SigNozResource_ (apply status g c s r m) = SigNozResource_ status /\
  ObservedGeneration (apply status g c s r m) = ObservedGeneration status /\
  ObservedHash (apply status g c s r m) = ObservedHash status /\
  ReconciledAt (apply status g c s r m) = ReconciledAt status.
Proof. unfold apply. by case_match. Qed.

(** The conditions are all [SetConditionsOnOutcome] touches, the generation apart. *)
Lemma set_conditions_fields status g o r m :
  let s' := SetConditionsOnOutcome status g o r m in
  SigNozResource_ s' = SigNozResource_ status /\ ObservedGeneration s' = g /\
  ObservedHash s' = ObservedHash status /\ ReconciledAt s' = ReconciledAt status.
Proof.
  cbv zeta. unfold SetConditionsOnOutcome.
  repeat match goal with |- context [apply ?st ?g ?c ?s ?r ?m] =>
    pose proof (apply_fields st g c s r m) as (-> & -> & -> & ->) end.
  done.
Qed.

Lemma set_conditions_reports status g o r m : reports (SetConditionsOnOutcome status g o r m) g o r m.
Proof.
  split; [apply set_conditions_fields|]. intros t Ht. unfold SetConditionsOnOutcome.
  unfold managed_types in Ht. rewrite !elem_of_cons, elem_of_nil in Ht.
  destruct Ht as [->|[->|[->|[->|[->|[]]]]]].
  - change "Ready" with (cond_s ConditionReady) at 1. rewrite apply_same. by destruct o.
  - rewrite !apply_other by done. change "Synced" with (cond_s ConditionSynced) at 1.
    rewrite apply_same. by destruct o.
  - rewrite !apply_other by done. change "Terminal" with (cond_s ConditionTerminal) at 1.
    rewrite apply_same. by destruct o.
  - rewrite !apply_other by done. change "Recoverable" with (cond_s ConditionRecoverable) at 1.
    rewrite apply_same. by destruct o.
  - rewrite !apply_other by done. change "Suspended" with (cond_s ConditionSuspended) at 1.
    rewrite apply_same. by destruct o.
Qed.

Lemma set_conditions_unmanaged status g o r m t :
  t ∉ managed_types ->
  find_condition t (Conditions (SetConditionsOnOutcome status g o r m)) = find_condition t (Conditions status).
Proof.
  intros Ht. unfold SetConditionsOnOutcome. unfold managed_types in Ht.
  rewrite !apply_other; [done|..]; simpl; set_solver.
Qed.

(** [apply] leaves a status that already says the same untouched. *)
Lemma apply_idem status g c s r m :
  find_condition (cond_s c) (Conditions status)
  = (if isAlwaysPresent c || bool_decide (s = ConditionTrue)
     then Some (MkCondition (cond_s c) s (Reason_String r) m g) else None) ->
  apply status g c s r m = status.
Proof.
  intros Hf. unfold apply. destruct status as [cs ? ? ? ?]. unfold with_conditions. simpl in *.
  destruct (isAlwaysPresent c), s; simpl in *; f_equal;
    solve [ by apply remove_condition_absent
          | apply (set_condition_present _ (MkCondition _ _ _ _ _)); done ].
Qed.

Lemma set_conditions_idem status g o r m :
  reports status g o r m -> SetConditionsOnOutcome status g o r m = status.
Proof.
  intros [Hg Hc]. unfold SetConditionsOnOutcome.
  assert (with_generation status g = status) as -> by (unfold with_generation; destruct status; simpl in *; congruence).
  rewrite (apply_idem status); [|rewrite Hc by set_solver; by destruct o].
  rewrite (apply_idem status); [|rewrite Hc by set_solver; by destruct o].
  rewrite (apply_idem status); [|rewrite Hc by set_solver; by destruct o].
  rewrite (apply_idem status); [|rewrite Hc by set_solver; by destruct o].
  apply apply_idem; rewrite Hc by set_solver; by destruct o.
Qed.
End ConditionLemmas.
