(* ===== verification/Effects.v ===== *)
(** * Effects: calls that leave the operator, and a logic for them

    A Go function that calls an API is a finite tree: it ends with a result or
    makes one call and goes on with the answer.  [wp] is the weakest
    precondition of such a tree in a world that answers by the relation [step];
    its first conjunct holds at every call, so it also speaks of a run cut short
    there. *)

From S2P Require Import Prelude.

Section prog.
Context {E : Type -> Type}.

Inductive prog (R : Type) : Type :=
  | Ret (r : R)
  | Vis {X : Type} (e : E X) (k : X -> prog R).
Arguments Ret {R} r.
Arguments Vis {R X} e k.

Fixpoint bind {A B} (k : A -> prog B) (p : prog A) : prog B :=
  match p with
  | Ret a => k a
  | Vis e h => Vis e (fun x => bind k (h x))
  end.

Definition trigger {X} (e : E X) : prog X := Vis e Ret.
End prog.
Arguments prog E R : clear implicits.
Arguments Ret {E R} r.
Arguments Vis {E R X} e k.

#[export] Instance prog_ret {E} : MRet (prog E) := fun A a => Ret a.
#[export] Instance prog_bind {E} : MBind (prog E) := fun A B k p => bind k p.

(** The same program over a larger family of calls. *)
Fixpoint lift {E F : Type -> Type} (f : forall X, E X -> F X) {R} (p : prog E R) : prog F R :=
  match p with
  | Ret r => Ret r
  | Vis e k => Vis (f _ e) (fun x => lift f (k x))
  end.

(** ** Weakest preconditions *)

Section wp.
Context {E : Type -> Type} {W : Type}.
(** The world's answers, and what must hold whenever a call is made. *)
Variable step : forall X, W -> E X -> X -> W -> Prop.
Variable pre : forall X, W -> E X -> Prop.

Fixpoint wp {R} (p : prog E R) (Q : R -> W -> Prop) (w : W) : Prop :=
  match p with
  | Ret r => Q r w
  | Vis e k => pre _ w e /\ forall x w', step _ w e x w' -> wp (k x) Q w'
  end.

Lemma wp_mono {R} (p : prog E R) (Q Q' : R -> W -> Prop) w :
  (forall r w, Q r w -> Q' r w) -> wp p Q w -> wp p Q' w.
Proof.
  intros HQ. revert w. induction p as [r|X e k IH]; simpl; intros w; [auto|].
  intros [Hp Hk]. split; [done|]. intros x w' Hs. apply IH, Hk, Hs.
Qed.

Lemma wp_bind {A B} (p : prog E A) (k : A -> prog E B) Q w :
  wp p (fun a w => wp (k a) Q w) w -> wp (p ≫= k) Q w.
Proof.
  unfold mbind, prog_bind. revert w. induction p as [r|X e h IH]; simpl; intros w; [done|].
  intros [Hp Hk]. split; [done|]. intros x w' Hs. apply IH, Hk, Hs.
Qed.

Lemma wp_and {R} (p : prog E R) (Q Q' : R -> W -> Prop) w :
  wp p Q w -> wp p Q' w -> wp p (fun r w => Q r w /\ Q' r w) w.
Proof.
  revert w. induction p as [r|X e k IH]; simpl; intros w; [done|].
  intros [Hp Hk] [_ Hk']. split; [done|]. intros x w' Hs. apply IH; auto.
Qed.

Lemma wp_ret {R} (r : R) (Q : R -> W -> Prop) w : Q r w -> wp (mret r) Q w.
Proof. done. Qed.

Lemma wp_trigger {X} (e : E X) (Q : X -> W -> Prop) w :
  pre _ w e -> (forall x w', step _ w e x w' -> Q x w') -> wp (trigger e) Q w.
Proof. done. Qed.

(** ** Runs, complete or cut short *)

(** [exec p w p' w']: run from [p] in [w], some answers later [p'] is left to
    run in [w']. *)
Fixpoint exec {R} (p : prog E R) (w : W) (p' : prog E R) (w' : W) : Prop :=
  (p' = p /\ w' = w) \/
  match p with
  | Ret _ => False
  | Vis e k => exists x w1, step _ w e x w1 /\ exec (k x) w1 p' w'
  end.

(** Every run can be brought to an end, and every end satisfies [Q]. *)
Definition always {R} (p : prog E R) (w : W) (Q : R -> W -> Prop) : Prop :=
  (forall p' w', exec p w p' w' -> exists r w2, exec p' w' (Ret r) w2) /\
  (forall r w', exec p w (Ret r) w' -> Q r w').

(** What every answer preserves, a run preserves. *)
Lemma exec_preserves {R} (I : W -> Prop) (p p' : prog E R) w w' :
  (forall X w e x w', step X w e x w' -> I w -> I w') -> exec p w p' w' -> I w -> I w'.
Proof.
  intros HI. revert w. induction p as [r|X e k IH]; simpl; intros w.
  - by intros [[_ ->]|[]].
  - intros [[_ ->]|(x & w1 & Hs & Hex)] Hw; [done|]. eapply IH; eauto.
Qed.

Lemma exec_refl {R} (p : prog E R) w : exec p w p w.
Proof. destruct p; by left. Qed.

Lemma exec_step {R X} (e : E X) (k : X -> prog E R) x w w1 p2 w2 :
  step _ w e x w1 -> exec (k x) w1 p2 w2 -> exec (Vis e k) w p2 w2.
Proof. right. eauto. Qed.

Lemma wp_exec {R} (p p' : prog E R) Q w w' : wp p Q w -> exec p w p' w' -> wp p' Q w'.
Proof.
  revert w. induction p as [r|X e k IH]; simpl; intros w Hwp.
  - by intros [[-> ->]|[]].
  - intros [[-> ->]|(x & w1 & Hs & Hex)]; [done|]. destruct Hwp as [_ Hk]. eauto.
Qed.

Lemma wp_complete {R} (p : prog E R) Q w r w' : wp p Q w -> exec p w (Ret r) w' -> Q r w'.
Proof. apply (wp_exec p (Ret r)). Qed.

Lemma wp_call {R X} (p : prog E R) Q w (e : E X) k w' :
  wp p Q w -> exec p w (Vis e k) w' -> pre _ w' e.
Proof. intros Hwp Hex. by destruct (wp_exec _ _ _ _ _ Hwp Hex). Qed.

(** A complete run of a sequence is a complete run of each part. *)
Lemma exec_bind_inv {A B} (p : prog E A) (k : A -> prog E B) w r w' :
  exec (p ≫= k) w (Ret r) w' ->
  exists a w1, exec p w (Ret a) w1 /\ exec (k a) w1 (Ret r) w'.
Proof.
  unfold mbind, prog_bind. revert w. induction p as [a|X e h IH]; simpl; intros w.
  - exists a, w. by split; [left|].
  - intros [[? ?]|(x & w1 & Hs & Hex)]; [done|].
    destruct (IH x _ Hex) as (a & w2 & H1 & H2). exists a, w2. split; [right|]; eauto.
Qed.

Lemma exec_bind {A B} (p : prog E A) (k : A -> prog E B) w a w1 q w2 :
  exec p w (Ret a) w1 -> exec (k a) w1 q w2 -> exec (p ≫= k) w q w2.
Proof.
  unfold mbind, prog_bind. revert w. induction p as [r|X e h IH]; simpl; intros w.
  - intros [[Hr ->]|[]]. by simplify_eq.
  - intros [[? ?]|(x & w3 & Hs & Hex)] Hk; [done|]. right. eauto.
Qed.

Lemma exec_ret_inv {R} (r r' : R) w w' : exec (mret r) w (Ret r') w' -> r' = r /\ w' = w.
Proof. intros [[Hr ->]|[]]. by simplify_eq. Qed.

Lemma exec_trigger_inv {X} (e : E X) w x w' :
  exec (trigger e) w (Ret x) w' -> step _ w e x w'.
Proof. intros [[? ?]|(y & w1 & Hs & [[Hr ->]|[]])]; [done|]. by simplify_eq. Qed.

Lemma exec_trans {R} (p1 p2 p3 : prog E R) w1 w2 w3 :
  exec p1 w1 p2 w2 -> exec p2 w2 p3 w3 -> exec p1 w1 p3 w3.
Proof.
  revert w1. induction p1 as [r|X e k IH]; simpl; intros w1.
  - intros [[-> ->]|[]]; done.
  - intros [[-> ->]|(x & w & Hs & Hex)] H; [done|]. right. eauto.
Qed.
End wp.

Arguments wp_and {E W step pre R p Q Q' w}.
Arguments wp_bind {E W step pre A B p k Q w}.
Arguments wp_mono {E W step pre R p Q Q' w}.

(** Answers computed by a function: a run that evaluates. *)
Section run.
Context {E : Type -> Type} {W : Type}.
Variable handle : forall X, W -> E X -> X * W.

Fixpoint run {R} (p : prog E R) (w : W) : R * W :=
  match p with
  | Ret r => (r, w)
  | Vis e k => let '(x, w') := handle _ w e in run (k x) w'
  end.

Lemma run_exec {R} (step : forall X, W -> E X -> X -> W -> Prop) (p : prog E R) w :
  (forall X w (e : E X), step X w e (handle X w e).1 (handle X w e).2) ->
  exec step p w (Ret (run p w).1) (run p w).2.
Proof.
  intros Hstep. revert w. induction p as [r|X e k IH]; intros w; simpl; [by left|].
  specialize (Hstep X w e). destruct (handle X w e) as [x w']. right. eauto.
Qed.

(** The same, stopped before the first call that [stop] picks. *)
Fixpoint run_until (stop : forall X, E X -> bool) {R} (p : prog E R) (w : W) : prog E R * W :=
  match p with
  | Ret r => (Ret r, w)
  | Vis e k => if stop _ e then (p, w) else let '(x, w') := handle _ w e in run_until stop (k x) w'
  end.

Lemma run_until_exec {R} (step : forall X, W -> E X -> X -> W -> Prop) stop (p p' : prog E R) w w' :
  (forall X w (e : E X), step X w e (handle X w e).1 (handle X w e).2) ->
  run_until stop p w = (p', w') -> exec step p w p' w'.
Proof.
  intros Hstep. revert w. induction p as [r|X e k IH]; intros w; simpl.
  - intros [= <- <-]. by left.
  - destruct (stop X e); [intros [= <- <-]; by left|].
    specialize (Hstep X w e). destruct (handle X w e) as [x w1]. right. eauto.
Qed.
End run.

(** ** Histories: the world that remembers every call and answers anything *)

Inductive event (E : Type -> Type) : Type :=
  | Ev {X : Type} (e : E X) (x : X).
Arguments Ev {E X} e x.

Section history.
Context {E : Type -> Type}.
Definition history : Type := list (event E).

(** [ok] restricts the answers to those the environment documents. *)
Definition hist_step (ok : forall X, E X -> X -> Prop) (X : Type) (h : history) (e : E X) (x : X) (h' : history) : Prop :=
  ok X e x /\ h' = h ++ [Ev e x].
End history.
Arguments history E : clear implicits.

(** Any answer at all. *)
Definition any_answer {E : Type -> Type} (X : Type) (e : E X) (x : X) : Prop := True.

(** A run in one world is a run in any that its worlds map to. *)
Lemma exec_simulate {E : Type -> Type} {W1 W2 : Type} (f : W1 -> W2)
    (step1 : forall X, W1 -> E X -> X -> W1 -> Prop) (step2 : forall X, W2 -> E X -> X -> W2 -> Prop)
    {R} (p p' : prog E R) w w' :
  (forall X w (e : E X) x w', step1 X w e x w' -> step2 X (f w) e x (f w')) ->
  exec step1 p w p' w' -> exec step2 p (f w) p' (f w').
Proof.
  intros Hs. revert w. induction p as [r|X e k IH]; intros w; simpl.
  - intros [[-> ->]|[]]. by left.
  - intros [[-> ->]|(x & w1 & Hx & Hex)]; [by left|right].
    exists x, (f w1). split; [by apply Hs|by apply IH].
Qed.

(** ** Programs whose every call satisfies a predicate *)

Section all_calls.
Context {E : Type -> Type}.

Fixpoint all_calls {R} (P : forall X, E X -> Prop) (p : prog E R) : Prop :=
  match p with
  | Ret _ => True
  | Vis e k => P _ e /\ forall x, all_calls P (k x)
  end.

Lemma all_calls_bind {A B} P (p : prog E A) (k : A -> prog E B) :
  all_calls P p -> (forall a, all_calls P (k a)) -> all_calls P (p ≫= k).
Proof.
  unfold mbind, prog_bind. induction p as [r|X e h IH]; simpl; intros Hp Hk; [auto|].
  destruct Hp; split; auto.
Qed.

Lemma all_calls_ret {R} P (r : R) : all_calls P (mret r).
Proof. done. Qed.

Lemma all_calls_trigger {X} (P : forall X, E X -> Prop) (e : E X) : P X e -> all_calls P (trigger e).
Proof. done. Qed.

Lemma all_calls_mono {R} (P P' : forall X, E X -> Prop) (p : prog E R) :
  (forall X e, P X e -> P' X e) -> all_calls P p -> all_calls P' p.
Proof. intros HP. induction p; simpl; [done|]. intros [? ?]. split; auto. Qed.

(** A program of harmless calls meets any call condition they meet. *)
Lemma wp_all_calls {W R} (step : forall X, W -> E X -> X -> W -> Prop) pre P (p : prog E R) w :
  (forall X e w, P X e -> pre X w e) -> all_calls P p -> wp step pre p (fun _ _ => True) w.
Proof.
  intros HP. revert w. induction p as [r|X e k IH]; simpl; intros w; [done|].
  intros [He Hk]. split; [by apply HP|]. intros. by apply IH.
Qed.

Lemma all_calls_history {R} (P : forall X, E X -> Prop) ok (p : prog E R) h r h' :
  all_calls P p -> exec (hist_step ok) p h (Ret r) h' ->
  exists hs, h' = h ++ hs /\ Forall (fun ev => match ev with Ev e _ => P _ e end) hs.
Proof.
  revert h. induction p as [r0|X e k IH]; intros h; simpl.
  - intros _ [[_ ->]|[]]. exists []. by rewrite app_nil_r.
  - intros [He Hk] [[? ?]|(x & h1 & [_ ->] & Hex)]; [done|].
    destruct (IH x _ (Hk x) Hex) as (hs & -> & Hall). exists (Ev e x :: hs).
    split; [by rewrite <- app_assoc|by constructor].
Qed.
End all_calls.

(** Symbolic execution: one step of the program under [wp] or [all_calls]. *)
Ltac prog_case x := let E := fresh "E" in destruct x eqn:E.
Ltac prog_step :=
  lazymatch goal with
  | |- wp _ _ (mret _) _ _ => apply wp_ret
  | |- wp _ _ (trigger _) _ _ => apply wp_trigger
  | |- wp _ _ (_ ≫= _) _ _ => apply wp_bind
  | |- wp _ _ (match ?x with _ => _ end) _ _ => prog_case x
  | |- all_calls _ (mret _) => apply all_calls_ret
  | |- all_calls _ (trigger _) => apply all_calls_trigger
  | |- all_calls _ (_ ≫= _) => apply all_calls_bind; [|intros]
  | |- all_calls _ (match ?x with _ => _ end) => prog_case x
  end.
Ltac prog_steps := repeat (cbv beta zeta; prog_step).
(** The same without case analysis: up to the next branch of the program. *)
Ltac prog_seq :=
  repeat (cbv beta zeta;
    lazymatch goal with
    | |- wp _ _ (mret _) _ _ => apply wp_ret
    | |- wp _ _ (trigger _) _ _ => apply wp_trigger
    | |- wp _ _ (_ ≫= _) _ _ => apply wp_bind
    end).
