(* ===== verification/Interp.v ===== *)
(** * Handlers: the calls of a program carried out by programs over other calls

    [through] replaces every call by a program that answers it; in [interp] that
    program may also give no answer, and the run ends there.  A run of the result
    is a run of the original program in the world where the handlers answer, and
    perhaps one handler cut short. *)

From S2P Require Import Prelude Effects.

Lemma wp_pre_mono {E : Type -> Type} {W R} (step : forall X, W -> E X -> X -> W -> Prop) (pre pre' : forall X, W -> E X -> Prop)
    (p : prog E R) Q w :
  (forall X w e, pre X w e -> pre' X w e) -> wp step pre p Q w -> wp step pre' p Q w.
Proof.
  intros Hpre. revert w. induction p as [r|X e k IH]; cbn; intros w; [done|]. intros [He Hk]. split; [by apply Hpre|].
  intros x w' Hs. by apply IH, Hk.
Qed.

(** A world simulated by another: what holds of a program in each holds together. *)
Lemma wp_simulate {E : Type -> Type} {W1 W2 R} (f : W1 -> W2) (step1 : forall X, W1 -> E X -> X -> W1 -> Prop)
    (step2 : forall X, W2 -> E X -> X -> W2 -> Prop) pre1 pre2 (p : prog E R) Q1 Q2 w :
  (forall X w e x w', pre1 X w e -> step1 X w e x w' -> step2 X (f w) e x (f w')) ->
  wp step1 pre1 p Q1 w -> wp step2 pre2 p Q2 (f w) ->
  wp step1 (fun X w e => pre1 X w e /\ pre2 X (f w) e) p (fun r w => Q1 r w /\ Q2 r (f w)) w.
Proof.
  intros Hs. revert w. induction p as [r|X e k IH]; cbn; intros w; [done|]. intros [H1 Hk1] [H2 Hk2]. split; [done|].
  intros x w' Hx. apply IH; [by apply Hk1|apply Hk2; by eapply Hs].
Qed.

Lemma wp_both {E : Type -> Type} {W R} (step : forall X, W -> E X -> X -> W -> Prop) pre1 pre2 (p : prog E R) Q1 Q2 w :
  wp step pre1 p Q1 w -> wp step pre2 p Q2 w ->
  wp step (fun X w e => pre1 X w e /\ pre2 X w e) p (fun r w => Q1 r w /\ Q2 r w) w.
Proof. by apply (wp_simulate (fun w => w)). Qed.

(** A simulation with an invariant the steps of the program keep. *)
Lemma wp_refine {E : Type -> Type} {W R} (I : W -> Prop) (step1 step2 : forall X, W -> E X -> X -> W -> Prop) pre (p : prog E R) Q w :
  (forall X w e x w', pre X w e -> I w -> step1 X w e x w' -> step2 X w e x w' /\ I w') ->
  I w -> wp step2 pre p Q w -> wp step1 (fun X w e => pre X w e /\ I w) p (fun r w => Q r w /\ I w) w.
Proof.
  intros Hs. revert w. induction p as [r|X e k IH]; cbn; intros w HI; [done|]. intros [He Hk]. split; [done|].
  intros x w' Hx. destruct (Hs _ _ _ _ _ He HI Hx) as [Hx2 HI']. by apply IH, Hk.
Qed.

(** A program whose every call can be answered comes to its end. *)
Lemma wp_ends {E : Type -> Type} {W R} (step : forall X, W -> E X -> X -> W -> Prop) pre (p : prog E R) Q w :
  (forall X w e, pre X w e -> exists x w', step X w e x w') -> wp step pre p Q w ->
  exists r w', exec step p w (Ret r) w'.
Proof.
  intros Hpre. revert w. induction p as [r|X e k IH]; cbn; intros w; [exists r, w; by left|]. intros [He Hk].
  destruct (Hpre _ _ _ He) as (x & w1 & Hx). destruct (IH x w1 (Hk _ _ Hx)) as (r & w' & Hex).
  exists r, w'. right. eauto.
Qed.

Lemma wp_always {E : Type -> Type} {W R} (step : forall X, W -> E X -> X -> W -> Prop) pre (p : prog E R) Q w :
  (forall X w e, pre X w e -> exists x w', step X w e x w') -> wp step pre p Q w -> always step p w Q.
Proof.
  intros Hpre Hwp. split.
  - intros p' w' Hex. eapply wp_ends; [exact Hpre|]. by eapply wp_exec.
  - intros r w' Hex. by eapply (wp_complete step pre p).
Qed.

(** The calls made by a run, complete or not, and the next one. *)
Lemma wp_run {E : Type -> Type} {R} (P : forall X, E X -> Prop) ok (p q : prog E R) Q h h' :
  wp (hist_step ok) (fun X _ e => P X e) p Q h -> exec (hist_step ok) p h q h' ->
  exists hs, h' = h ++ hs /\ Forall (fun ev => match ev with Ev e _ => P _ e end) hs /\
    wp (hist_step ok) (fun X _ e => P X e) q Q h'.
Proof.
  revert h. induction p as [r|X e k IH]; intros h; cbn.
  - intros Hr [[-> ->]|[]]. exists []. by rewrite app_nil_r.
  - intros [He Hk] [[-> ->]|(x & h1 & Hx & Hex)]; [exists []; by rewrite app_nil_r|].
    destruct (IH x _ (Hk x h1 Hx) Hex) as (hs & -> & Hall & Hq). destruct Hx as [_ ->]. exists (Ev e x :: hs).
    rewrite <- app_assoc in *. split; [done|]. split; [by constructor|done].
Qed.

Section through.
Context {E F : Type -> Type}.
Variable handle : forall X, E X -> prog F X.

Fixpoint through {R} (p : prog E R) : prog F R :=
  match p with
  | Ret r => mret r
  | Vis e k => x ← handle _ e; through (k x)
  end.

Context {W : Type} (step : forall X, W -> F X -> X -> W -> Prop).

(** The world of [E] that the handlers make of a world of [F]. *)
Definition by_handler (X : Type) (w : W) (e : E X) (x : X) (w' : W) : Prop :=
  exec step (handle X e) w (Ret x) w'.

Lemma through_exec {R} (p : prog E R) w r w' :
  exec step (through p) w (Ret r) w' <-> exec by_handler p w (Ret r) w'.
Proof.
  split; revert w; induction p as [r'|X e k IH]; intros w; simpl.
  - intros [[[= ->] ->]|[]]. by left.
  - intros (x & w1 & Hx & Hex)%exec_bind_inv. right. exists x, w1. split; [done|by apply IH].
  - intros [[[= ->] ->]|[]]. by left.
  - intros [[? ?]|(x & w1 & Hx & Hex)]; [done|]. eapply exec_bind; [exact Hx|by apply IH].
Qed.

Lemma through_calls {R} (P : forall X, F X -> Prop) (p : prog E R) :
  all_calls (fun X e => all_calls P (handle X e)) p -> all_calls P (through p).
Proof.
  induction p as [r|X e k IH]; simpl; [done|]. intros [He Hk].
  apply (all_calls_bind P (handle X e) (fun x => through (k x))); auto.
Qed.
End through.

(** A lifted program runs where its calls are answered by a function. *)
Lemma lift_run {E F : Type -> Type} {W R} (f : forall X, E X -> F X) (step : forall X, W -> F X -> X -> W -> Prop)
    (answer : forall X, W -> E X -> X * W) (p : prog E R) w r :
  (forall X w e, step X w (f X e) (answer X w e).1 (answer X w e).2) -> (run answer p w).1 = r ->
  exists w', exec step (lift f p) w (Ret r) w'.
Proof.
  intros Hs <-. exists (run answer p w).2. revert w. induction p as [r|X e k IH]; intros w; cbn; [by left|].
  specialize (Hs X w e). destruct (answer X w e) as [x w']. right. eauto.
Qed.

Section interp.
Context {E F : Type -> Type}.
Variable handle : forall X, E X -> prog F (option X).

Fixpoint interp {R} (p : prog E R) : prog F (option R) :=
  match p with
  | Ret r => mret (Some r)
  | Vis e k => x ← handle _ e; match x with Some x => interp (k x) | None => mret None end
  end.

(** What is left to run once a handler has ended. *)
Definition resume {X R} (k : X -> prog E R) (x : option X) : prog F (option R) :=
  match x with Some x => interp (k x) | None => mret None end.

(** ** Runs *)

Section runs.
Context {W : Type} (step : forall X, W -> F X -> X -> W -> Prop).

Definition handled (X : Type) (w : W) (e : E X) (x : X) (w' : W) : Prop :=
  exec step (handle X e) w (Ret (Some x)) w'.

(** A sequence that is about to make a call is in its first part or its second. *)
Lemma exec_bind_cases {A B} (p : prog F A) (k : A -> prog F B) w q w' :
  exec step (p ≫= k) w q w' ->
  (exists Y (f : F Y) h, exec step p w (Vis f h) w' /\ q = Vis f (fun y => h y ≫= k)) \/
  (exists a w1, exec step p w (Ret a) w1 /\ exec step (k a) w1 q w').
Proof.
  unfold mbind, prog_bind. revert w. induction p as [r|X e h IH]; simpl; intros w Hex.
  - right. exists r, w. split; [by left|done].
  - destruct Hex as [[-> ->]|(x & w1 & Hs & Hex)].
    + left. exists X, e, h. split; [by left|done].
    + destruct (IH x w1 Hex) as [(Y & f & g & H1 & ->)|(a & w2 & H1 & H2)].
      * left. exists Y, f, g. split; [right; eauto|done].
      * right. exists a, w2. split; [right; eauto|done].
Qed.

(** A run is a run of the program, that has ended, is inside the handler of its
    next call, or ran out there. *)
Lemma interp_exec {R} (p : prog E R) w q w' :
  exec step (interp p) w q w' ->
  (exists r, exec handled p w (Ret r) w' /\ q = Ret (Some r)) \/
  (exists X (e : E X) k w1, exec handled p w (Vis e k) w1 /\
     ((exists Y (f : F Y) h, exec step (handle X e) w1 (Vis f h) w' /\ q = Vis f (fun y => h y ≫= resume k)) \/
      exec step (handle X e) w1 (Ret None) w' /\ q = Ret None)).
Proof.
  revert w. induction p as [r|X e k IH]; intros w Hex.
  - left. exists r. destruct Hex as [[-> ->]|[]]. split; [by left|done].
  - change (interp (Vis e k)) with (handle X e ≫= resume k) in Hex.
    apply exec_bind_cases in Hex as [(Y & f & h & H1 & ->)|([x|] & w1 & H1 & H2)].
    + right. exists X, e, k, w. split; [by left|left]. by exists Y, f, h.
    + destruct (IH x w1 H2) as [(r & H3 & ->)|(Y & e' & k' & w2 & H3 & H4)].
      * left. exists r. split; [|done]. right. by exists x, w1.
      * right. exists Y, e', k', w2. split; [|done]. right. by exists x, w1.
    + right. exists X, e, k, w. split; [by left|right]. by destruct H2 as [[-> ->]|[]].
Qed.

(** Building a run: one call answered by its handler, and a handler's own call. *)
Lemma interp_step {R X} (e : E X) (k : X -> prog E R) x w w1 q w2 :
  handled X w e x w1 -> exec step (interp (k x)) w1 q w2 -> exec step (interp (Vis e k)) w q w2.
Proof.
  intros Hx Hk. change (interp (Vis e k)) with (handle X e ≫= resume k). eapply exec_bind; [exact Hx|exact Hk].
Qed.

Lemma interp_inside {R X Y} (e : E X) (k : X -> prog E R) (f : F Y) k1 w w' :
  exec step (handle X e) w (Vis f k1) w' -> exists q, exec step (interp (Vis e k)) w (Vis f q) w'.
Proof.
  intros Hex. exists (fun y => k1 y ≫= resume k). change (interp (Vis e k)) with (handle X e ≫= resume k).
  revert w Hex. generalize (handle X e). intros p. unfold mbind, prog_bind.
  induction p as [r|V g h IH]; intros w He; cbn in He.
  - by destruct He as [[? _]|[]].
  - destruct He as [[Heq ->]|(x & w1 & Hx & Hex)]; [rewrite <- Heq; apply exec_refl|].
    right. exists x, w1. split; [done|by apply IH].
Qed.
End runs.

(** ** Histories *)

Abbreviation anything G := (hist_step (@any_answer G)).

(** The calls [h] were answered by the calls [g] of their handlers. *)
Inductive explains : history E -> history F -> Prop :=
  | explains_nil : explains [] []
  | explains_snoc h g X (e : E X) x d : explains h g -> exec (anything F) (handle X e) [] (Ret (Some x)) d ->
      explains (h ++ [Ev e x]) (g ++ d).

Lemma hist_frame_app {G : Type -> Type} {R} ok (p q : prog G R) h0 h h' :
  exec (hist_step ok) p h q h' -> exec (hist_step ok) p (h0 ++ h) q (h0 ++ h').
Proof.
  apply (exec_simulate (app h0) (hist_step ok) (hist_step ok)). intros X g e x g' [Hok ->].
  split; [done|]. by rewrite app_assoc.
Qed.

Lemma hist_frame {G : Type -> Type} {R} ok (p q : prog G R) h0 h :
  exec (hist_step ok) p h0 q h -> exists d, h = h0 ++ d /\ exec (hist_step ok) p [] q d.
Proof.
  revert h0. induction p as [r|X e k IH]; intros h0; cbn.
  - intros [[-> ->]|[]]. exists []. rewrite app_nil_r. split; [done|by left].
  - intros [[-> ->]|(x & h1 & [Hok ->] & Hex)].
    { exists []. rewrite app_nil_r. split; [done|by left]. }
    destruct (IH x _ Hex) as (d & -> & Hd). exists (Ev e x :: d). rewrite <- app_assoc. split; [done|].
    right. exists x, [Ev e x]. split; [done|]. by apply (hist_frame_app _ _ _ [Ev e x]) in Hd.
Qed.

Lemma handled_history {R} (p q : prog E R) h0 g0 g :
  explains h0 g0 -> exec (handled (anything F)) p g0 q g ->
  exists h, exec (anything E) p h0 q h /\ explains h g.
Proof.
  revert h0 g0. induction p as [r|X e k IH]; intros h0 g0 He; cbn.
  - intros [[-> ->]|[]]. exists h0. split; [by left|done].
  - intros [[-> ->]|(x & g1 & Hx & Hex)]; [exists h0; split; [by left|done]|].
    apply hist_frame in Hx as (d & -> & Hx).
    destruct (IH x (h0 ++ [Ev e x]) (g0 ++ d)) as (h & Hh & Hg); [by constructor|done|].
    exists h. split; [|done]. right. exists x, (h0 ++ [Ev e x]). by split.
Qed.

(** The call a program is about to make. *)
Definition calls_next {G : Type -> Type} {R} (P : forall X, G X -> Prop) (p : prog G R) : Prop :=
  match p with Ret _ => False | Vis e _ => P _ e end.

(** Wherever the run makes a call, the program had made the calls [h], answered by
    [g1], and was inside the handler of the next one. *)
Lemma interp_history {R X} (p : prog E R) (f : F X) q g :
  exec (anything F) (interp p) [] (Vis f q) g ->
  exists Y (e : E Y) k h g1 d k1, exec (anything E) p [] (Vis e k) h /\ explains h g1 /\ g = g1 ++ d /\
    exec (anything F) (handle Y e) [] (Vis f k1) d.
Proof.
  intros [(r & _ & ?)|(Y & e & k & g1 & Hp & [(Z & f' & k1 & Hh & Heq)|[_ ?]])]%interp_exec; [done| |done].
  apply (handled_history p _ [] []) in Hp as (h & Hp & Hg); [|constructor].
  apply hist_frame in Hh as (d & -> & Hh). exists Y, e, k, h, g1, d.
  assert (exists k2, exec (anything F) (handle Y e) [] (Vis f k2) d) as [k2 Hk]; [|by exists k2].
  set (P := fun V (c : F V) => exists k2, exec (anything F) (handle Y e) [] (Vis c k2) d).
  assert (P Z f') as HP by (by exists k1). change (calls_next P (Vis f q)). by rewrite Heq.
Qed.
End interp.
