(* ===== verification/Interfaces.v ===== *)
(** * internal/resources: the interfaces Object and Adapter

    [object.go] is the class [ResourceObject], implemented by the ten kinds of
    Objects.v; [adapter.go] and the Kubernetes client are the calls of [call],
    which the reconciler makes and the adapters answer. *)

From S2P Require Import Prelude GoStd Errors Kube Core.
From Stdlib Require Import String.

Local Open Scope string_scope.

(** ** object.go *)

Record CompareResult := MkCompare {
  cmp_UpdatableFields : list string;
  cmp_ImmutableFields : list string;
}.

(** Raw JSON is bytes; a nil [json.RawMessage] is [None]. *)
Class ResourceObject (T : Type) := {
  Identity : Object T -> result string error;
  Body : Object T -> result string error;
  Hash : Object T -> result string error;
  ToSigNozResource : string -> result SigNozResource error;
  ToUpdate : Object T -> result (option string) error;
  UpdatableFields : list string;
  ImmutableFields : list string;
  Compare : Object T -> option string -> result CompareResult error;
  CreateMethodAndPath : string * string;
  UpdateMethodAndPath : option SigNozResource -> string * string;
  ReadMethodAndPath : option SigNozResource -> string * string;
  DeleteMethodAndPath : option SigNozResource -> string * string;
}.

(** ** The calls a reconcile pass makes *)

Section call.
Context {T SigNoz Resolved : Type}.

(** A Kubernetes write answers with the object the server returned, which the
    client decodes into the caller's object, or with an error. *)
Inductive call : Type -> Type :=
  | KUpdate (ctx : Context) (o : Object T) : call (result (Object T) error)
  | KPatch (ctx : Context) (o base : Object T) : call (result (Object T) error)
  | KStatusUpdate (ctx : Context) (o : Object T) : call (result (Object T) error)
  | TimeNow : call Z
  | ResolveRef (ctx : Context) (ref : ProviderConfigRef) (resourceNamespace operatorNamespace : string)
      : call (result Resolved error)
  | Find (ctx : Context) (c : SigNoz) (o : Object T) : call (result (list (option SigNozResource)) error)
  | Create (ctx : Context) (c : SigNoz) (o : Object T) : call (result (option SigNozResource) error)
  | Read (ctx : Context) (c : SigNoz) (o : Object T) (r : option SigNozResource)
      : call (result (option string) error)
  | Update (ctx : Context) (c : SigNoz) (o : Object T) (r : option SigNozResource) : call (option error)
  | Delete (ctx : Context) (c : SigNoz) (o : Object T) (r : option SigNozResource) : call (option error).
End call.
Arguments call T SigNoz Resolved : clear implicits.
