(* ===== verification/Reconciler.v ===== *)
(** * internal/resources/reconcilers/common_reconciler.go

    One definition per method, as effect trees over the calls of Interfaces.v.
    The Go methods mutate the object behind a pointer: here each takes it and
    returns it, so a pass ends with the object, the [ctrl.Result] and the error.
    Loggers are dropped. *)

From S2P Require Import Prelude GoStd Errors Kube Core Conditions Effects Interfaces.
From Stdlib Require Import String.
Import Reasons.

Local Open Scope string_scope.

Record commonReconciler := MkReconciler {
  defaultInterval : Z;
  defaultRetryInterval : Z;
  defaultTimeout : Z;
  requeueAfterOnNotFound : Z;
  operatorNamespace : string;
}.

Definition NewCommonReconciler (interval retryInterval timeout : Z) (ns : string) : commonReconciler :=
  MkReconciler interval retryInterval timeout (1 * Second) ns.

(** The duration a pointer field carries, when it is set and positive. *)
Definition positive_duration (d : option Z) : option Z :=
  match d with Some z => if decide (0 < z)%Z then Some z else None | None => None end.

Section Reconciler.
Context {T SigNoz Resolved : Type}.
Context `{AM : ApiMachinery} `{RO : ResourceObject T} `{SE : SemanticEqual CoreStatus}.
(** [clients.New]. *)
Context (NewClient : Resolved -> SigNoz).
Context (rec : commonReconciler).

Abbreviation object := (Object T).
Abbreviation go := (prog (call T SigNoz Resolved)).
Abbreviation pass := (Object T * Result * option error)%type.

Definition timeout (obj : object) : Z :=
  match positive_duration (Timeout (o_spec obj)) with Some d => d | None => defaultTimeout rec end.

Definition interval (obj : object) : Z :=
  match positive_duration (Interval (o_spec obj)) with Some d => d | None => defaultInterval rec end.

Definition retryInterval (obj : object) : Z :=
  match positive_duration (RetryInterval (o_spec obj)) with
  | Some d => d
  | None =>
      match positive_duration (Interval (o_spec obj)) with
      | Some d => d
      | None => if decide (0 < defaultRetryInterval rec)%Z then defaultRetryInterval rec
                else defaultInterval rec
      end
  end.

Definition generation (obj : object) : Z := m_generation (o_meta obj).

(** [resources.SetConditionsOnOutcome(status, ...)] through the status pointer. *)
Definition set_outcome (obj : object) (g : Z) (o : ReconcilerOutcome) (r : Reason) (m : string) : object :=
  with_status obj (SetConditionsOnOutcome (o_status obj) g o r m).

Definition onAdapterError (obj : object) (err : error) : pass :=
  let '(status, outcome) := GetOutcomeAndSetConditionsOnErr (o_status obj) (generation obj) err in
  let obj := with_status obj status in
  if decide (outcome = ReconcilerOutcomeRecoverable)
  then (obj, MkResult (retryInterval obj), None)
  else (obj, no_requeue, None).

(** A write through the Kubernetes client: what the caller's object is after. *)
Definition written (obj : object) (r : result object error) : object * option error :=
  match r with Ok obj' => (obj', None) | Err e => (obj, Some e) end.

Definition addFinalizer (ctx : Context) (obj : object) : go (object * option error) :=
  let '(fs, ok) := AddFinalizer (m_finalizers (o_meta obj)) ResourceFinalizer in
  if negb ok then mret (obj, None)
  else
    let obj := with_meta obj (set_finalizers (o_meta obj) fs) in
    r ← trigger (KUpdate ctx obj);
    mret (written obj r).

Definition removeFinalizer (ctx : Context) (obj : object) : go pass :=
  let '(fs, ok) := RemoveFinalizer (m_finalizers (o_meta obj)) ResourceFinalizer in
  if negb ok then mret (obj, no_requeue, None)
  else
    let obj := with_meta obj (set_finalizers (o_meta obj) fs) in
    r ← trigger (KUpdate ctx obj);
    let '(obj, err) := written obj r in
    mret (obj, no_requeue, err).

Definition addCreateAttemptAnnotation (ctx : Context) (obj : object) : go (object * option error) :=
  now ← trigger TimeNow;
  let annotations := <[AnnotationCreateAttempt := FormatRFC3339 now]> (m_annotations (o_meta obj)) in
  let obj' := with_meta obj (set_annotations (o_meta obj) annotations) in
  r ← trigger (KPatch ctx obj' obj);
  mret (written obj' r).

Definition removeCreateAttemptAnnotation (ctx : Context) (obj : object) : go (object * option error) :=
  match annotation obj AnnotationCreateAttempt with
  | None => mret (obj, None)
  | Some _ =>
      let annotations := delete AnnotationCreateAttempt (m_annotations (o_meta obj)) in
      let obj' := with_meta obj (set_annotations (o_meta obj) annotations) in
      r ← trigger (KPatch ctx obj' obj);
      mret (written obj' r)
  end.

Definition signozClientFor (ctx : Context) (obj : object) (spec : CoreSpec) : go (result SigNoz error) :=
  resolved ← trigger (ResolveRef ctx (ProviderConfigRef_ spec) (m_namespace (o_meta obj)) (operatorNamespace rec));
  mret (match resolved with Ok r => Ok (NewClient r) | Err e => Err e end).

Definition ambiguous_message (count : nat) (identity : string) (ids : list string) : string :=
  "ambiguous: " ++ Itoa (Z.of_nat count) ++ " objects in SigNoz match identity " ++ Quote identity
  ++ " (candidates: " ++ Join ids ", " ++ "); set annotation " ++ AnnotationSigNozResourceID
  ++ " to the id of the one to adopt".

Definition onExistingObject (ctx : Context) (obj : object) (c : SigNoz) (hash : string) : go pass :=
  let g := generation obj in
  let resourceMetadata := SigNozResource_ (o_status obj) in
  remote ← trigger (Read ctx c obj resourceMetadata);
  match remote with
  | Err e =>
      if IsNotFound (Some e) then
        let obj := with_status obj (with_hash (with_resource (o_status obj) None) "") in
        let obj := set_outcome obj g ReconcilerOutcomePending ReasonPending
                     "The SigNoz object was not found; it will be recreated" in
        mret (obj, MkResult (requeueAfterOnNotFound rec), None)
      else mret (onAdapterError obj e)
  | Ok remote =>
      match Compare obj remote with
      | Err e =>
          mret (set_outcome obj g ReconcilerOutcomeTerminal ReasonCompareFailed
                  ("This is likely a bug in the operator: " ++ Error e), no_requeue, None)
      | Ok compareResult =>
          if decide (cmp_ImmutableFields compareResult <> []) then
            mret (set_outcome obj g ReconcilerOutcomeTerminal ReasonImmutableFieldChanged
                    ("Immutable fields changed: " ++ Join (cmp_ImmutableFields compareResult) ", "
                     ++ ". For this object, fields: " ++ Join ImmutableFields ","
                     ++ " are immutable. Revert the change, or delete and recreate the resource"),
                  no_requeue, None)
          else
            let isChangedByCompare := bool_decide (cmp_UpdatableFields compareResult <> []) in
            let isChangedByHash := bool_decide (ObservedHash (o_status obj) <> "")
                                   && bool_decide (ObservedHash (o_status obj) <> hash) in
            if negb isChangedByCompare && negb isChangedByHash then
              let obj := with_status obj (with_hash (o_status obj) hash) in
              let obj := set_outcome obj g ReconcilerOutcomeSynced ReasonSynced "In sync with SigNoz" in
              mret (obj, MkResult (interval obj), None)
            else
              err ← trigger (Update ctx c obj resourceMetadata);
              match err with
              | Some e => mret (onAdapterError obj e)
              | None =>
                  let obj := with_status obj (with_hash (o_status obj) hash) in
                  let obj := set_outcome obj g ReconcilerOutcomeSynced ReasonUpdated "Updated in SigNoz" in
                  mret (obj, MkResult (interval obj), None)
              end
      end
  end.

Definition adopt (ctx : Context) (obj : object) (c : SigNoz) (resourceMetadata : option SigNozResource)
    (hash : string) : go pass :=
  '(obj, err) ← addCreateAttemptAnnotation ctx obj;
  match err with
  | Some e => mret (obj, no_requeue, Some e)
  | None =>
      let obj := with_status obj (with_resource (o_status obj) resourceMetadata) in
      onExistingObject ctx obj c hash
  end.

Definition onConflict (ctx : Context) (obj : object) (c : SigNoz) (identity hash : string) : go pass :=
  let g := generation obj in
  found ← trigger (Find ctx c obj);
  match found with
  | Err e => mret (onAdapterError obj e)
  | Ok [resourceMetadata] => adopt ctx obj c resourceMetadata hash
  | Ok [] =>
      let requeueAfter := retryInterval obj in
      mret (set_outcome obj g ReconcilerOutcomeRecoverable ReasonBackendError
              ("SigNoz reported a conflict for identity " ++ Quote identity
               ++ " but no matching object was found; will retry"),
            MkResult requeueAfter, None)
  | Ok candidates =>
      mret (set_outcome obj g ReconcilerOutcomeTerminal ReasonAmbiguous
              (ambiguous_message (List.length candidates) identity (GetIDsFromSigNozResources candidates)),
            no_requeue, None)
  end.

Definition create (ctx : Context) (obj : object) (c : SigNoz) (identity hash : string) : go pass :=
  let g := generation obj in
  '(obj, err) ← addCreateAttemptAnnotation ctx obj;
  match err with
  | Some e => mret (obj, no_requeue, Some e)
  | None =>
      created ← trigger (Create ctx c obj);
      match created with
      | Err e =>
          if IsAlreadyExists (Some e) then onConflict ctx obj c identity hash
          else if negb (IsRetryable (Some e)) then
            '(obj, rerr) ← removeCreateAttemptAnnotation ctx obj;
            match rerr with
            | Some r => mret (obj, no_requeue, Some r)
            | None => mret (onAdapterError obj e)
            end
          else mret (onAdapterError obj e)
      | Ok resourceMetadata =>
          let obj := with_status obj (with_hash (with_resource (o_status obj) resourceMetadata) hash) in
          let obj := set_outcome obj g ReconcilerOutcomeSynced ReasonCreated "Created in SigNoz" in
          mret (obj, MkResult (interval obj), None)
      end
  end.

(** The loop over the candidates for the one the annotation pins. *)
Fixpoint find_pinned (pinned : string) (candidates : list (option SigNozResource))
    : option (option SigNozResource) :=
  match candidates with
  | [] => None
  | r :: rest =>
      match GetIDFromSigNozResource r with
      | Ok id => if decide (id = pinned) then Some r else find_pinned pinned rest
      | Err _ => find_pinned pinned rest
      end
  end.

Definition onNewObject (ctx : Context) (obj : object) (c : SigNoz) (identity hash : string) : go pass :=
  let g := generation obj in
  found ← trigger (Find ctx c obj);
  match found with
  | Err e => mret (onAdapterError obj e)
  | Ok candidates =>
      let candidateIDs := GetIDsFromSigNozResources candidates in
      let pinned := annotation_or_zero obj AnnotationSigNozResourceID in
      if decide (pinned <> "") then
        match find_pinned pinned candidates with
        | Some resourceMetadata => adopt ctx obj c resourceMetadata hash
        | None =>
            mret (set_outcome obj g ReconcilerOutcomeTerminal ReasonSigNozResourceIDMismatch
                    ("annotation " ++ AnnotationSigNozResourceID ++ ": no object with id " ++ Quote pinned
                     ++ " matches identity " ++ Quote identity ++ " (candidates: "
                     ++ (if decide (candidateIDs = []) then "none" else Join candidateIDs ", ") ++ ")"),
                  no_requeue, None)
        end
      else
        match candidates with
        | [resourceMetadata] => adopt ctx obj c resourceMetadata hash
        | [] => create ctx obj c identity hash
        | _ =>
            mret (set_outcome obj g ReconcilerOutcomeTerminal ReasonAmbiguous
                    (ambiguous_message (List.length candidates) identity candidateIDs),
                  no_requeue, None)
        end
  end.

Definition reconcile (ctx : Context) (obj : object) : go pass :=
  let spec := o_spec obj in
  let g := generation obj in
  if Suspend spec then
    mret (set_outcome obj g ReconcilerOutcomeSuspended ReasonSuspended
            "reconciliation is suspended by spec.suspend", no_requeue, None)
  else
  match Identity obj with
  | Err e =>
      mret (set_outcome obj g ReconcilerOutcomeTerminal ReasonInvalidSpec
              ("could not derive identity: " ++ Error e), no_requeue, None)
  | Ok identity =>
  match Hash obj with
  | Err e =>
      mret (set_outcome obj g ReconcilerOutcomeTerminal ReasonInvalidSpec
              ("could not calculate hash: " ++ Error e), no_requeue, None)
  | Ok hash =>
      sigNozClient ← signozClientFor ctx obj spec;
      match sigNozClient with
      | Err e =>
          let requeueAfter := retryInterval obj in
          mret (set_outcome obj g ReconcilerOutcomeRecoverable ReasonProviderConfigNotReady (Error e),
                MkResult requeueAfter, None)
      | Ok c =>
          match GetIDFromSigNozResource (SigNozResource_ (o_status obj)) with
          | Err _ => onNewObject ctx obj c identity hash
          | Ok _ =>
              '(obj, err) ← removeCreateAttemptAnnotation ctx obj;
              match err with
              | Some e => mret (obj, no_requeue, Some e)
              | None => onExistingObject ctx obj c hash
              end
          end
      end
  end
  end.

Definition reclaim (ctx : Context) (c : SigNoz) (obj : object) (resourceMetadata : option SigNozResource)
    : go pass :=
  err ← trigger (Delete ctx c obj resourceMetadata);
  if bool_decide (is_Some err) && negb (IsNotFound err)
  then mret (obj, MkResult (retryInterval obj), None)
  else removeFinalizer ctx obj.

Definition finalize (ctx : Context) (obj : object) : go pass :=
  if negb (ContainsFinalizer (m_finalizers (o_meta obj)) ResourceFinalizer) then mret (obj, no_requeue, None)
  else
  let spec := o_spec obj in
  if decide (ReclaimPolicy spec = ReclaimOrphan) then removeFinalizer ctx obj
  else
  let resourceMetadata := SigNozResource_ (o_status obj) in
  let id := GetIDFromSigNozResource resourceMetadata in
  if negb (is_ok id) && bool_decide (annotation obj AnnotationCreateAttempt = None)
  then removeFinalizer ctx obj
  else
  sigNozClient ← signozClientFor ctx obj spec;
  match sigNozClient with
  | Err _ => mret (obj, MkResult (retryInterval obj), None)
  | Ok c =>
      if is_ok id then reclaim ctx c obj resourceMetadata
      else
      match Identity obj with
      | Err _ => removeFinalizer ctx obj
      | Ok _ =>
          found ← trigger (Find ctx c obj);
          match found with
          | Err _ => mret (obj, MkResult (retryInterval obj), None)
          | Ok [] => removeFinalizer ctx obj
          | Ok [resourceMetadata] => reclaim ctx c obj resourceMetadata
          | Ok _ => mret (obj, MkResult (retryInterval obj), None)
          end
      end
  end.

Definition Reconcile (ctx : Context) (obj : object) : go pass :=
  let ctx := if decide (0 < timeout obj)%Z then WithTimeout ctx (timeout obj) else ctx in
  match m_deletion (o_meta obj) with
  | Some _ => finalize ctx obj
  | None =>
      '(obj, err) ← addFinalizer ctx obj;
      match err with
      | Some e => mret (obj, no_requeue, Some e)
      | None =>
          let beforeStatus := o_status obj in
          '(obj, result, err) ← reconcile ctx obj;
          if DeepEqual beforeStatus (o_status obj) then mret (obj, result, err)
          else
            now ← trigger TimeNow;
            let obj := with_status obj (with_reconciled_at (o_status obj) now) in
            r ← trigger (KStatusUpdate (WithoutCancel ctx) obj);
            match r with
            | Err uerr => mret (obj, no_requeue, Some uerr)
            | Ok obj => mret (obj, result, err)
            end
      end
  end.
End Reconciler.
