(* ===== verification/ReconcilerSafety.v ===== *)
(** * What a reconcile pass may do, in any environment

    The world here is the history of calls and answers, and the environment may
    answer anything: every theorem holds at every call of every run, so also of
    a pass that crashes or times out there. *)

From S2P Require Import Prelude GoStd Errors Kube Core Conditions Effects Interfaces Reconciler.
From Stdlib Require Import String.
Import Reasons.

Local Open Scope list_scope.

Section Safety.
Context {T SigNoz Resolved : Type}.
Context `{AML : ApiMachineryLaws} `{RO : ResourceObject T} `{SEL : SemanticEqualLaw CoreStatus}.
Context (NewClient : Resolved -> SigNoz) (rec : commonReconciler).

Abbreviation E := (call T SigNoz Resolved).
Abbreviation hist := (history E).
Abbreviation anything := (hist_step (E := E) (@any_answer E)).

(** ** Classes of calls *)

Definition is_create {X} (e : E X) : bool := match e with Create _ _ _ => true | _ => false end.
Definition is_delete {X} (e : E X) : bool := match e with Delete _ _ _ _ => true | _ => false end.
Definition is_update {X} (e : E X) : bool := match e with Update _ _ _ _ => true | _ => false end.
Definition is_find {X} (e : E X) : bool := match e with Find _ _ _ => true | _ => false end.
Definition is_status_update {X} (e : E X) : bool := match e with KStatusUpdate _ _ => true | _ => false end.
(** A call that changes SigNoz. *)
Definition is_remote_write {X} (e : E X) : bool := is_create e || is_update e || is_delete e.
(** A call that reaches SigNoz or resolves the way to it. *)
Definition is_remote {X} (e : E X) : bool :=
  match e with
  | ResolveRef _ _ _ _ | Find _ _ _ | Create _ _ _ | Read _ _ _ _ | Update _ _ _ _ | Delete _ _ _ _ => true
  | _ => false
  end.

Definition ev_call (P : forall X, E X -> bool) (ev : event E) : bool :=
  match ev with @Ev _ X e _ => P X e end.

Definition never {R} (P : forall X, E X -> bool) (p : prog E R) : Prop :=
  all_calls (fun X e => P X e = false) p.
Create HintDb calls discriminated.

Ltac calls := repeat (prog_steps; auto with calls).

(** ** The calls each method can make *)

Lemma addFinalizer_calls (P : forall X, E X -> Prop) ctx o :
  (forall o', P _ (KUpdate ctx o')) -> all_calls P (addFinalizer ctx o : prog E _).
Proof. intros ?. unfold addFinalizer. calls. Qed.

Lemma removeFinalizer_calls (P : forall X, E X -> Prop) ctx o :
  (forall o', P _ (KUpdate ctx o')) -> all_calls P (removeFinalizer ctx o : prog E _).
Proof. intros ?. unfold removeFinalizer. calls. Qed.

Lemma addAnnotation_calls (P : forall X, E X -> Prop) ctx o :
  P _ TimeNow -> (forall o' b, P _ (KPatch ctx o' b)) ->
  all_calls P (addCreateAttemptAnnotation ctx o : prog E _).
Proof. intros ??. unfold addCreateAttemptAnnotation. calls. Qed.

Lemma removeAnnotation_calls (P : forall X, E X -> Prop) ctx o :
  (forall o' b, P _ (KPatch ctx o' b)) -> all_calls P (removeCreateAttemptAnnotation ctx o : prog E _).
Proof. intros ?. unfold removeCreateAttemptAnnotation. calls. Qed.

Lemma client_calls (P : forall X, E X -> Prop) ctx o spec :
  (forall ref a b, P _ (ResolveRef ctx ref a b)) -> all_calls P (signozClientFor NewClient rec ctx o spec).
Proof. intros ?. unfold signozClientFor. calls. Qed.

Lemma onExisting_calls (P : forall X, E X -> Prop) ctx o c hash :
  (forall o r, P _ (Read ctx c o r)) -> (forall o r, P _ (Update ctx c o r)) ->
  all_calls P (onExistingObject rec ctx o c hash).
Proof. intros ??. unfold onExistingObject. calls. Qed.

#[local] Hint Resolve addFinalizer_calls removeFinalizer_calls addAnnotation_calls removeAnnotation_calls
  client_calls onExisting_calls : calls.

Lemma adopt_calls (P : forall X, E X -> Prop) ctx o c r hash :
  P _ TimeNow -> (forall o' b, P _ (KPatch ctx o' b)) ->
  (forall o r, P _ (Read ctx c o r)) -> (forall o r, P _ (Update ctx c o r)) ->
  all_calls P (adopt rec ctx o c r hash).
Proof. intros. unfold adopt. calls. Qed.
#[local] Hint Resolve adopt_calls : calls.

Lemma onConflict_calls (P : forall X, E X -> Prop) ctx o c identity hash :
  P _ TimeNow -> (forall o' b, P _ (KPatch ctx o' b)) -> (forall o, P _ (Find ctx c o)) ->
  (forall o r, P _ (Read ctx c o r)) -> (forall o r, P _ (Update ctx c o r)) ->
  all_calls P (onConflict rec ctx o c identity hash).
Proof. intros. unfold onConflict. calls. Qed.
#[local] Hint Resolve onConflict_calls : calls.

Lemma create_calls (P : forall X, E X -> Prop) ctx o c identity hash :
  P _ TimeNow -> (forall o' b, P _ (KPatch ctx o' b)) -> (forall o, P _ (Find ctx c o)) ->
  (forall o, P _ (Create ctx c o)) ->
  (forall o r, P _ (Read ctx c o r)) -> (forall o r, P _ (Update ctx c o r)) ->
  all_calls P (create rec ctx o c identity hash).
Proof. intros. unfold create. calls. Qed.
#[local] Hint Resolve create_calls : calls.

Lemma onNew_calls (P : forall X, E X -> Prop) ctx o c identity hash :
  P _ TimeNow -> (forall o' b, P _ (KPatch ctx o' b)) -> (forall o, P _ (Find ctx c o)) ->
  (forall o, P _ (Create ctx c o)) ->
  (forall o r, P _ (Read ctx c o r)) -> (forall o r, P _ (Update ctx c o r)) ->
  all_calls P (onNewObject rec ctx o c identity hash).
Proof. intros. unfold onNewObject. calls. Qed.
#[local] Hint Resolve onNew_calls : calls.

(** Everything but a status write, a finalizer write and a delete. *)
Lemma reconcile_calls (P : forall X, E X -> Prop) ctx o :
  P _ TimeNow -> (forall o' b, P _ (KPatch ctx o' b)) -> (forall c o, P _ (Find ctx c o)) ->
  (forall ref a b, P _ (ResolveRef ctx ref a b)) -> (forall c o, P _ (Create ctx c o)) ->
  (forall c o r, P _ (Read ctx c o r)) -> (forall c o r, P _ (Update ctx c o r)) ->
  all_calls P (reconcile NewClient rec ctx o).
Proof. intros. unfold reconcile. calls. Qed.

Lemma reclaim_calls (P : forall X, E X -> Prop) ctx c o r :
  (forall o', P _ (KUpdate ctx o')) -> (forall o r, P _ (Delete ctx c o r)) ->
  all_calls P (reclaim rec ctx c o r).
Proof. intros. unfold reclaim. calls. Qed.
#[local] Hint Resolve reclaim_calls : calls.

Lemma finalize_calls (P : forall X, E X -> Prop) ctx o :
  (forall o', P _ (KUpdate ctx o')) -> (forall ref a b, P _ (ResolveRef ctx ref a b)) ->
  (forall c o, P _ (Find ctx c o)) -> (forall c o r, P _ (Delete ctx c o r)) ->
  all_calls P (finalize NewClient rec ctx o).
Proof. intros. unfold finalize. calls. Qed.
#[local] Hint Resolve reconcile_calls finalize_calls : calls.

(** ** Creates *)

Definition no_call (P : forall X, E X -> bool) (h : hist) : Prop :=
  Forall (fun ev => ev_call P ev = false) h.

(** When a create may be issued: the calls before it end with a lookup that
    found nothing for the very object, then the durable create-attempt
    annotation; the object carries no recorded id, no pin, is not suspended,
    has an identity, and no create came before in the pass. *)
Definition create_guard (h : hist) (ctx : Context) (c : SigNoz) (o : Object T) : Prop :=
  exists h0 o0 o1 t,
    h = h0 ++ [Ev (Find ctx c o0 : E _) (Ok []); Ev (TimeNow : E _) t; Ev (KPatch ctx o1 o0 : E _) (Ok o)] /\
    annotation o1 AnnotationCreateAttempt = Some (FormatRFC3339 t) /\
    annotation_or_zero o0 AnnotationSigNozResourceID = ""%string /\
    is_ok (GetIDFromSigNozResource (SigNozResource_ (o_status o0))) = false /\
    Suspend (o_spec o0) = false /\ is_ok (Identity o0) = true /\
    no_call (@is_create) h.

Definition creates_guarded (X : Type) (h : hist) (e : E X) : Prop :=
  match e with Create ctx c o => create_guard h ctx c o | _ => True end.

Lemma never_create_wp {R} (p : prog E R) h :
  all_calls (fun X e => is_create e = false) p -> wp anything creates_guarded p (fun _ _ => True) h.
Proof. apply wp_all_calls. by intros X []. Qed.
Hint Resolve never_create_wp : calls.

Lemma no_call_snoc (P : forall X, E X -> bool) h X (e : E X) x :
  no_call P h -> P X e = false -> no_call P (h ++ [Ev e x]).
Proof. intros. apply Forall_app; split; [done|]. by constructor. Qed.
Hint Resolve no_call_snoc : calls.

Ltac stepped := intros ?x ?w [_ ->].

Lemma create_wp ctx o c identity hash h0 :
  annotation_or_zero o AnnotationSigNozResourceID = ""%string ->
  is_ok (GetIDFromSigNozResource (SigNozResource_ (o_status o))) = false ->
  Suspend (o_spec o) = false -> is_ok (Identity o) = true -> no_call (@is_create) h0 ->
  wp anything creates_guarded (create rec ctx o c identity hash) (fun _ _ => True)
    (h0 ++ [Ev (Find ctx c o : E _) (Ok [])]).
Proof.
  intros Hpin Hid Hsus Hident Hno. unfold create, addCreateAttemptAnnotation.
  prog_steps; [done|]. stepped. prog_steps; [done|]. stepped.
  destruct x0 as [o1|e]; cbn [written]; prog_steps; [| |done].
  - rewrite <- !app_assoc. cbn [app]. exists h0, o. eexists _, x. split; [done|].
    split; [apply lookup_insert_eq|]. do 4 (split; [done|]).
    apply Forall_app; split; [done|]. repeat constructor.
  - stepped. apply never_create_wp. calls.
Qed.

(** A program that makes no call of a class keeps the history free of it. *)
Lemma wp_no_call {R} (P : forall X, E X -> bool) pre (p : prog E R) h :
  (forall X e w, P X e = false -> pre X w e) ->
  all_calls (fun X e => P X e = false) p -> no_call P h ->
  wp anything pre p (fun _ h' => no_call P h') h.
Proof.
  intros Hpre. revert h. induction p as [r|X e k IH]; simpl; intros h Hc Hno; [done|].
  destruct Hc as [He Hk]. split; [by apply Hpre|]. intros x h' [_ ->].
  apply IH; [done|]. by apply no_call_snoc.
Qed.

Lemma never_create_no_call {R} (p : prog E R) h :
  all_calls (fun X e => is_create e = false) p -> no_call (@is_create) h ->
  wp anything creates_guarded p (fun _ h' => no_call (@is_create) h') h.
Proof. apply wp_no_call. by intros X []. Qed.

Lemma onNew_create_wp ctx o c identity hash h :
  is_ok (GetIDFromSigNozResource (SigNozResource_ (o_status o))) = false ->
  Suspend (o_spec o) = false -> is_ok (Identity o) = true -> no_call (@is_create) h ->
  wp anything creates_guarded (onNewObject rec ctx o c identity hash) (fun _ _ => True) h.
Proof.
  intros Hid Hsus Hident Hno. unfold onNewObject. prog_steps; [done|]. stepped.
  destruct x as [candidates|e]; [|done].
  cbv zeta. case_decide as Hpin.
  - apply never_create_wp. calls.
  - assert (annotation_or_zero o AnnotationSigNozResourceID = ""%string) by (by destruct (decide (annotation_or_zero o AnnotationSigNozResourceID = ""%string))).
    destruct candidates as [|r [|r' rest]]; [by apply create_wp| |done].
    apply never_create_wp. calls.
Qed.

Lemma reconcile_create_wp ctx o h :
  no_call (@is_create) h ->
  wp anything creates_guarded (reconcile NewClient rec ctx o) (fun _ _ => True) h.
Proof.
  intros Hno. unfold reconcile. cbv zeta.
  destruct (Suspend (o_spec o)) eqn:Hsus; [done|].
  destruct (Identity o) as [identity|] eqn:Hident; [|done].
  destruct (Hash o) as [hash|]; [|done].
  apply wp_bind. eapply wp_mono, never_create_no_call; [|calls|done].
  intros [c|e] w Hw; [|done]. cbn beta iota.
  destruct (GetIDFromSigNozResource _) eqn:Hid.
  - apply never_create_wp. calls.
  - apply onNew_create_wp; rewrite ?Hid, ?Hident; done.
Qed.

Lemma Reconcile_create_wp ctx o :
  wp anything creates_guarded (Reconcile NewClient rec ctx o) (fun _ _ => True) [].
Proof.
  unfold Reconcile. cbv zeta. destruct (m_deletion (o_meta o)).
  - apply never_create_wp. calls.
  - apply wp_bind. eapply wp_mono, never_create_no_call; [|calls|constructor].
    intros [o' [e|]] h Hno; [done|]. cbn beta iota.
    apply wp_bind. eapply wp_mono; [|by apply reconcile_create_wp].
    intros [[o'' res] err] h' _. apply never_create_wp. calls.
Qed.

(** C14. A create is guarded. Whenever a pass is about to issue a create, in
    any environment: the last three calls looked the object up by identity
    and found nothing, then durably wrote the create-attempt annotation; the
    object named no SigNoz id, carried no pin, was not suspended and had an
    identity; and no create preceded in the pass. *)
Theorem create_is_guarded ctx o ctx' c o' k h :
  exec anything (Reconcile NewClient rec ctx o) [] (Vis (Create ctx' c o') k) h ->
  create_guard h ctx' c o'.
Proof. intros Hex. apply (wp_call _ _ _ _ _ _ _ _ (Reconcile_create_wp ctx o) Hex). Qed.

(** ** Deletes and the release of the finalizer *)

Definition has_id (o : Object T) : bool := is_ok (GetIDFromSigNozResource (SigNozResource_ (o_status o))).

(** When a delete may be issued for [o]: [o] is being deleted, still holds the
    finalizer, is not orphaned, and the target is the recorded object, or the
    only match of the identity when a create or adopt was left unconfirmed. *)
Definition delete_guard (o : Object T) (h : hist) (ctx : Context) (c : SigNoz) (o' : Object T)
    (r : option SigNozResource) : Prop :=
  o' = o /\ m_deletion (o_meta o) <> None /\ ResourceFinalizer ∈ m_finalizers (o_meta o) /\
  ReclaimPolicy (o_spec o) <> ReclaimOrphan /\
  exists ref a b res, c = NewClient res /\
    (has_id o = true /\ r = SigNozResource_ (o_status o) /\
     h = [Ev (ResolveRef ctx ref a b : E _) (Ok res)]
     \/ has_id o = false /\ annotation o AnnotationCreateAttempt <> None /\
     h = [Ev (ResolveRef ctx ref a b : E _) (Ok res); Ev (Find ctx c o : E _) (Ok [r])]).

(** What must have happened before the finalizer is dropped from [o]. *)
Definition release_guard (o : Object T) (h : hist) : Prop :=
  m_deletion (o_meta o) <> None /\
  (ReclaimPolicy (o_spec o) = ReclaimOrphan
   \/ has_id o = false /\ annotation o AnnotationCreateAttempt = None
   \/ has_id o = false /\ is_ok (Identity o) = false
   \/ has_id o = false /\ (exists h0 ctx c, h = h0 ++ [Ev (Find ctx c o : E _) (Ok [])])
   \/ exists h0 ctx c r err, h = h0 ++ [Ev (Delete ctx c o r : E _) err] /\
         (err = None \/ IsNotFound err = true)).

Definition finalizes_guarded (o : Object T) (X : Type) (h : hist) (e : E X) : Prop :=
  match e with
  | Delete ctx c o' r => delete_guard o h ctx c o' r
  | KUpdate _ o' => ResourceFinalizer ∉ m_finalizers (o_meta o') -> release_guard o h
  | _ => True
  end.

Lemma removeFinalizer_wp o ctx o' h :
  release_guard o h ->
  wp anything (finalizes_guarded o) (removeFinalizer ctx o') (fun _ _ => True) h.
Proof.
  intros Hr. unfold removeFinalizer. prog_steps; [done|by intros _|].
  stepped. by prog_steps.
Qed.

Lemma reclaim_wp o ctx c r h :
  delete_guard o h ctx c o r -> m_deletion (o_meta o) <> None ->
  wp anything (finalizes_guarded o) (reclaim rec ctx c o r) (fun _ _ => True) h.
Proof.
  intros Hd Hdel. unfold reclaim. prog_steps; [done|]. stepped. prog_steps; [done|].
  apply removeFinalizer_wp. split; [done|]. do 4 right.
  exists h, ctx, c, r, x. split; [done|].
  destruct x; [right|by left]. by destruct (IsNotFound _).
Qed.

Lemma finalize_wp o ctx :
  m_deletion (o_meta o) <> None ->
  wp anything (finalizes_guarded o) (finalize NewClient rec ctx o) (fun _ _ => True) [].
Proof.
  intros Hdel. unfold finalize. cbv zeta.
  destruct (ContainsFinalizer _ _) eqn:Hfin; [|done]. cbn [negb].
  apply contains_finalizer in Hfin.
  case_decide as Hpol; [apply removeFinalizer_wp; by split; [|left]|].
  destruct (negb _ && _) eqn:Hnone.
  { apply removeFinalizer_wp. split; [done|]. right; left. breflect. done. }
  unfold signozClientFor. prog_seq; [done|]. stepped. prog_seq. cbn [app].
  destruct x as [res|e]; [|done]. cbn beta iota.
  destruct (has_id o) eqn:Hid; unfold has_id in Hid; rewrite Hid in Hnone |- *; cbn in Hnone.
  - apply reclaim_wp; [|done]. do 4 (split; [done|]). do 4 eexists. split; [done|]. by left.
  - breflect. destruct (Identity o) eqn:Hident.
    + prog_seq; [done|]. stepped. cbn [app].
      destruct x as [[|r [|r' rs]]|e]; [| |done..].
      * apply removeFinalizer_wp. split; [done|]. do 3 right; left. split; [done|].
        by eexists [_], _, _.
      * apply reclaim_wp; [|done]. do 4 (split; [done|]). do 4 eexists. split; [done|]. by right.
    + apply removeFinalizer_wp. split; [done|]. do 2 right; left. by rewrite Hident.
Qed.

Lemma never_finalize_wp {R} o (p : prog E R) h :
  all_calls (fun X e => is_delete e = false /\
    match e with KUpdate _ o' => ResourceFinalizer ∈ m_finalizers (o_meta o') | _ => True end) p ->
  wp anything (finalizes_guarded o) p (fun _ _ => True) h.
Proof. apply wp_all_calls. intros X [] w [? ?]; simpl; try done. Qed.

Lemma addFinalizer_keeps (P : forall X, E X -> Prop) ctx o :
  (forall o', ResourceFinalizer ∈ m_finalizers (o_meta o') -> P _ (KUpdate ctx o')) ->
  all_calls P (addFinalizer ctx o).
Proof.
  intros HP. unfold addFinalizer. destruct (decide (ResourceFinalizer ∈ m_finalizers (o_meta o))) as [Hin|Hin].
  - by rewrite add_finalizer_present.
  - destruct (add_finalizer_absent _ _ Hin) as (fs' & -> & Hfs). prog_steps.
    apply HP, Hfs. by left.
Qed.

Lemma Reconcile_finalize_wp ctx o :
  wp anything (finalizes_guarded o) (Reconcile NewClient rec ctx o) (fun _ _ => True) [].
Proof.
  unfold Reconcile. cbv zeta. destruct (m_deletion (o_meta o)) eqn:Hdel.
  - apply finalize_wp. by rewrite Hdel.
  - apply never_finalize_wp. apply all_calls_bind; [by apply addFinalizer_keeps|].
    intros [o' [e|]]; prog_steps; try done. by apply reconcile_calls.
Qed.

(** C15. A delete is guarded. Whenever a pass is about to delete in SigNoz, the
    custom resource is being deleted, holds the finalizer and is not
    orphaned; the target is the id status records, or, when an unconfirmed
    create or adopt left none, the single object its identity matches. *)
Theorem delete_is_guarded ctx o ctx' c o' r k h :
  exec anything (Reconcile NewClient rec ctx o) [] (Vis (Delete ctx' c o' r) k) h ->
  delete_guard o h ctx' c o' r.
Proof. intros Hex. apply (wp_call _ _ _ _ _ _ _ _ (Reconcile_finalize_wp ctx o) Hex). Qed.

(** C16. The finalizer is not dropped early. Whenever a pass is about to write
    the object without the finalizer, one of the sanctioned reasons holds: the
    policy is Orphan, nothing was ever bound, no identity exists to look by,
    the lookup positively found nothing, or the delete succeeded or answered
    not-found. *)
Theorem finalizer_release_is_guarded ctx o ctx' o' k h :
  exec anything (Reconcile NewClient rec ctx o) [] (Vis (KUpdate ctx' o') k) h ->
  ResourceFinalizer ∉ m_finalizers (o_meta o') -> release_guard o h.
Proof. intros Hex. apply (wp_call _ _ _ _ _ _ _ _ (Reconcile_finalize_wp ctx o) Hex). Qed.
End Safety.
