(* ===== verification/ReconcilerOutcome.v ===== *)
(** * What a reconcile pass ends with

    The verdict a pass settles on, what it asks of the work queue, when it
    writes to SigNoz, and what reaches the API server of all that. *)

From S2P Require Import Prelude GoStd Errors Kube Core Conditions Effects Interfaces Reconciler ReconcilerSafety.
From Stdlib Require Import String.
Import Reasons.

Local Open Scope list_scope.

Section Outcome.
Context {T SigNoz Resolved : Type}.
Context `{AML : ApiMachineryLaws} `{RO : ResourceObject T} `{SEL : SemanticEqualLaw CoreStatus}.
Context (NewClient : Resolved -> SigNoz) (rec : commonReconciler).

Abbreviation E := (call T SigNoz Resolved).
Abbreviation hist := (history E).
Abbreviation anything := (hist_step (E := E) (@any_answer E)).
Abbreviation unguarded := (fun (X : Type) (h : hist) (e : E X) => True).

(** ** The verdict and the requeue *)

(** What each verdict asks of the work queue. *)
Definition requeue_of (outcome : ReconcilerOutcome) (o : Object T) : Result :=
  match outcome with
  | ReconcilerOutcomeSynced => MkResult (interval rec o)
  | ReconcilerOutcomePending => MkResult (requeueAfterOnNotFound rec)
  | ReconcilerOutcomeRecoverable => MkResult (retryInterval rec o)
  | ReconcilerOutcomeTerminal | ReconcilerOutcomeSuspended => no_requeue
  end.

Definition settled (o : Object T) (res : Result) : Prop :=
  exists outcome reason message g,
    reports (o_status o) g outcome reason message /\ res = requeue_of outcome o.

Definition settles (p : Object T * Result * option error) : Prop :=
  let '(o, res, err) := p in err = None -> settled o res.

Lemma set_outcome_settled o g out r m : settled (set_outcome o g out r m) (requeue_of out (set_outcome o g out r m)).
Proof. exists out, r, m, g. split; [apply set_conditions_reports|done]. Qed.

Lemma set_outcome_settles o g out r m res err :
  res = requeue_of out o -> settles (set_outcome o g out r m, res, err).
Proof. intros -> _. apply set_outcome_settled. Qed.

(** The classification table of [GetOutcomeAndSetConditionsOnErr]. *)
Definition adapter_verdict (err : error) : ReconcilerOutcome * Reason :=
  match As_Base err with
  | None => (ReconcilerOutcomeRecoverable, ReasonBackendUnreachable)
  | Some b =>
      match base_reason b with
      | Errors.ReasonUnreachable => (ReconcilerOutcomeRecoverable, ReasonBackendUnreachable)
      | Errors.ReasonUnauthorized | Errors.ReasonForbidden => (ReconcilerOutcomeRecoverable, ReasonUnauthorized)
      | Errors.ReasonInvalidInput | Errors.ReasonAlreadyExists => (ReconcilerOutcomeTerminal, ReasonRejected)
      | _ => (ReconcilerOutcomeRecoverable, ReasonBackendError)
      end
  end.

Lemma adapter_error_table status g err :
  GetOutcomeAndSetConditionsOnErr status g err
  = (SetConditionsOnOutcome status g (adapter_verdict err).1 (adapter_verdict err).2 (Error err),
     (adapter_verdict err).1).
Proof.
  unfold GetOutcomeAndSetConditionsOnErr, adapter_verdict, IsUnreachable, IsRetryable, IsUnauthorized,
    IsForbidden, ReasonForErr, ReasonForError.
  destruct (As_Base err) as [b|]; [|done]. by destruct (base_reason b).
Qed.

Lemma adapter_verdict_cases e :
  (adapter_verdict e).1 = ReconcilerOutcomeRecoverable \/ (adapter_verdict e).1 = ReconcilerOutcomeTerminal.
Proof. unfold adapter_verdict. repeat case_match; auto. Qed.

Lemma onAdapterError_settles o e : settles (onAdapterError rec o e).
Proof.
  unfold onAdapterError. rewrite adapter_error_table. cbv zeta.
  assert (settled (set_outcome o (generation o) (adapter_verdict e).1 (adapter_verdict e).2 (Error e))
            (requeue_of (adapter_verdict e).1 o)) as Hs by apply set_outcome_settled.
  case_decide as Hd.
  - rewrite Hd in Hs |- *. intros _. exact Hs.
  - intros _. destruct (adapter_verdict_cases e) as [Hv|Hv]; [done|]. rewrite Hv in Hs |- *. exact Hs.
Qed.
Hint Resolve onAdapterError_settles : core.

Ltac stepped := intros ?x ?w [_ ->].
Ltac settle := prog_seq; first [done | apply onAdapterError_settles | by apply set_outcome_settles].

Lemma onExisting_settles ctx o c hash h :
  wp anything unguarded (onExistingObject rec ctx o c hash) (fun p _ => settles p) h.
Proof.
  unfold onExistingObject. prog_seq; [done|]. stepped.
  destruct x as [remote|e]; [|destruct (IsNotFound _); settle].
  destruct (Compare o remote) as [cr|e]; [|settle].
  case_decide; [settle|]. cbv zeta. case_match; [settle|].
  prog_seq; [done|]. stepped. destruct x; settle.
Qed.

Lemma adopt_settles ctx o c r hash h :
  wp anything unguarded (adopt rec ctx o c r hash) (fun p _ => settles p) h.
Proof.
  unfold adopt, addCreateAttemptAnnotation. prog_seq; [done|]. stepped. prog_seq; [done|]. stepped.
  destruct x0; cbn [written]; [apply onExisting_settles|done].
Qed.

Lemma onConflict_settles ctx o c identity hash h :
  wp anything unguarded (onConflict rec ctx o c identity hash) (fun p _ => settles p) h.
Proof.
  unfold onConflict. prog_seq; [done|]. stepped.
  destruct x as [[|r [|r' rs]]|e]; [settle|apply adopt_settles|settle..].
Qed.

Lemma create_settles ctx o c identity hash h :
  wp anything unguarded (create rec ctx o c identity hash) (fun p _ => settles p) h.
Proof.
  unfold create, addCreateAttemptAnnotation. prog_seq; [done|]. stepped. prog_seq; [done|]. stepped.
  destruct x0 as [o1|e]; cbn [written]; [|done].
  prog_seq; [done|]. stepped. destruct x0 as [r|e]; [settle|].
  destruct (IsAlreadyExists _); [apply onConflict_settles|].
  destruct (negb _); [|settle]. unfold removeCreateAttemptAnnotation.
  prog_seq. destruct (annotation o1 _); prog_seq; [done| |settle].
  stepped. destruct x0; cbn [written]; settle.
Qed.

Lemma onNew_settles ctx o c identity hash h :
  wp anything unguarded (onNewObject rec ctx o c identity hash) (fun p _ => settles p) h.
Proof.
  unfold onNewObject. prog_seq; [done|]. stepped. destruct x as [cs|e]; [|settle].
  cbv zeta. case_decide.
  - destruct (find_pinned _ _); [apply adopt_settles|settle].
  - destruct cs as [|r [|r' rs]]; [apply create_settles|apply adopt_settles|settle].
Qed.

Lemma reconcile_settles ctx o h :
  wp anything unguarded (reconcile NewClient rec ctx o) (fun p _ => settles p) h.
Proof.
  unfold reconcile, signozClientFor. cbv zeta.
  destruct (Suspend _); [settle|]. destruct (Identity o); [|settle]. destruct (Hash o); [|settle].
  prog_seq; [done|]. stepped. prog_seq. destruct x; [|settle].
  destruct (GetIDFromSigNozResource _); [|apply onNew_settles].
  unfold removeCreateAttemptAnnotation. prog_seq.
  destruct (annotation o _); prog_seq; [done| |apply onExisting_settles].
  stepped. destruct x; cbn [written]; [apply onExisting_settles|done].
Qed.

(** C17. A pass settles. A reconcile that returns no error leaves the status
    reporting exactly one verdict, every condition type in line with it, and
    asks for the requeue that verdict calls for: the interval when synced, the
    retry interval when recoverable, the not-found delay when pending, none
    when terminal or suspended. *)
Theorem reconcile_settles_on_one_verdict ctx o h o' res h' :
  exec anything (reconcile NewClient rec ctx o) h (Ret (o', res, None)) h' ->
  settled o' res.
Proof. intros Hex. by apply (wp_complete _ _ _ _ _ _ _ (reconcile_settles ctx o h) Hex). Qed.

(** ** Requeue delays *)

Definition positive_defaults : Prop :=
  (0 < defaultInterval rec /\ 0 < requeueAfterOnNotFound rec)%Z.

Lemma interval_positive (o : Object T) : (0 < defaultInterval rec)%Z -> (0 < interval rec o)%Z.
Proof.
  unfold interval, positive_duration. intros. repeat case_match; simplify_eq; lia.
Qed.

Lemma retryInterval_positive (o : Object T) : (0 < defaultInterval rec)%Z -> (0 < retryInterval rec o)%Z.
Proof.
  unfold retryInterval, positive_duration. intros. repeat case_match; simplify_eq; lia.
Qed.

(** No pass is lost and none spins. With positive operator-wide defaults a
    pass that settles asks for a strictly positive delay exactly when its
    verdict is one to come back to; a terminal or suspended verdict asks for
    none. *)
Theorem settled_requeue_positive ctx o h o' res h' :
  positive_defaults ->
  exec anything (reconcile NewClient rec ctx o) h (Ret (o', res, None)) h' ->
  exists outcome reason message g,
    reports (o_status o') g outcome reason message /\
    ((0 < RequeueAfter res)%Z <-> outcome <> ReconcilerOutcomeTerminal /\ outcome <> ReconcilerOutcomeSuspended) /\
    (0 <= RequeueAfter res)%Z.
Proof.
  intros [Hd Hn] Hex.
  destruct (wp_complete _ _ _ _ _ _ _ (reconcile_settles ctx o h) Hex eq_refl) as (out & r & m & g & Hr & ->).
  exists out, r, m, g. split; [done|].
  pose proof (interval_positive o' Hd). pose proof (retryInterval_positive o' Hd).
  destruct out; simpl; intuition (done || lia).
Qed.

(** ** Suspension *)

Lemma reconcile_suspended ctx (o : Object T) : Suspend (o_spec o) = true ->
  reconcile (T := T) (SigNoz := SigNoz) NewClient rec ctx o
  = mret (set_outcome o (generation o) ReconcilerOutcomeSuspended ReasonSuspended
            "reconciliation is suspended by spec.suspend"%string, no_requeue, None).
Proof. intros Hs. unfold reconcile. by rewrite Hs. Qed.

(** Suspension stops everything remote. A pass over a suspended, live object
    makes no call that resolves a provider config or reaches SigNoz, whatever
    the environment answers; it ends suspended and asks for no requeue. *)
Theorem suspended_touches_nothing ctx o h o' res err h' :
  Suspend (o_spec o) = true -> m_deletion (o_meta o) = None ->
  ResourceFinalizer ∈ m_finalizers (o_meta o) ->
  exec anything (Reconcile NewClient rec ctx o) h (Ret (o', res, err)) h' ->
  res = no_requeue /\
  exists hs, h' = h ++ hs /\ Forall (fun ev => ev_call (@is_remote T SigNoz Resolved) ev = false) hs /\
    (hs = [] /\ err = None /\ o' = o /\
     reports (o_status o) (generation o) ReconcilerOutcomeSuspended ReasonSuspended
       "reconciliation is suspended by spec.suspend"%string
     \/ exists c o1 answer h1, hs = h1 ++ [Ev (KStatusUpdate c o1 : E _) answer] /\
         reports (o_status o1) (generation o) ReconcilerOutcomeSuspended ReasonSuspended
           "reconciliation is suspended by spec.suspend"%string).
Proof.
  intros Hs Hd Hf Hex.
  set (m := "reconciliation is suspended by spec.suspend"%string) in *.
  assert (wp anything unguarded (Reconcile NewClient rec ctx o) (fun p h' =>
    let '(o', res, err) := p in
    res = no_requeue /\ exists hs, h' = h ++ hs /\
      Forall (fun ev => ev_call (@is_remote T SigNoz Resolved) ev = false) hs /\
      (hs = [] /\ err = None /\ o' = o /\ reports (o_status o) (generation o) ReconcilerOutcomeSuspended ReasonSuspended m
       \/ exists c o1 answer h1, hs = h1 ++ [Ev (KStatusUpdate c o1 : E _) answer] /\
         reports (o_status o1) (generation o) ReconcilerOutcomeSuspended ReasonSuspended m)) h) as Hwp.
  { unfold Reconcile, addFinalizer. rewrite Hd. cbv zeta. rewrite add_finalizer_present by done.
    cbn [negb]. prog_seq. rewrite reconcile_suspended by done. prog_seq.
    pose proof (set_conditions_reports (o_status o) (generation o) ReconcilerOutcomeSuspended ReasonSuspended m) as Hrep.
    destruct (DeepEqual _ _) eqn:Heq.
    - apply (proj1 (deep_equal _ _)) in Heq. cbn [set_outcome with_status o_status] in Heq.
      prog_seq. split; [done|]. exists []. rewrite app_nil_r. split; [done|]. split; [constructor|].
      left. split; [done|]. split; [done|]. fold m in Heq. rewrite <- Heq in Hrep. split; [|done].
      unfold set_outcome, with_status. fold m. rewrite <- Heq. by destruct o.
    - prog_seq; [done|]. stepped. prog_seq; [done|]. stepped.
      destruct x0; prog_seq; (split; [done|]; eexists; rewrite <- !app_assoc; split; [done|];
        split; [by repeat constructor|]; right; eexists _, _, _, [_]; split; [done|]; exact Hrep). }
  exact (wp_complete _ _ _ _ _ _ _ Hwp Hex).
Qed.

(** ** Updates *)

(** When an update may be sent: the object was just read, the comparison
    found no immutable difference, and either it found an updatable one or the
    hash of the body moved since the last write. *)
Definition update_guard (hash : string) (h : hist) (ctx : Context) (c : SigNoz) (o : Object T) (r : option SigNozResource) : Prop :=
  r = SigNozResource_ (o_status o) /\
  exists h0 remote cr,
    h = h0 ++ [Ev (Read ctx c o r : E _) (Ok remote)] /\ Compare o remote = Ok cr /\
    cmp_ImmutableFields cr = [] /\
    (cmp_UpdatableFields cr <> [] \/ ObservedHash (o_status o) <> ""%string /\ ObservedHash (o_status o) <> hash).

Definition updates_guarded (hash : string) (X : Type) (h : hist) (e : E X) : Prop :=
  match e with Update ctx c o r => update_guard hash h ctx c o r | _ => True end.

Lemma never_update_wp {R} hash (p : prog E R) h :
  all_calls (fun X e => is_update e = false) p -> wp anything (updates_guarded hash) p (fun _ _ => True) h.
Proof. apply wp_all_calls. by intros X []. Qed.

Lemma onExisting_update_wp ctx o c hash h :
  wp anything (updates_guarded hash) (onExistingObject rec ctx o c hash) (fun _ _ => True) h.
Proof.
  unfold onExistingObject. prog_seq; [done|]. stepped.
  destruct x as [remote|e]; [|by destruct (IsNotFound _)].
  destruct (Compare o remote) as [cr|e] eqn:Hcmp; [|done].
  case_decide as Him; [done|]. cbv zeta. destruct (negb _ && _) eqn:Hdrift; [done|].
  prog_seq; [|by intros [] ? _]. split; [done|].
  exists h, remote, cr. split; [done|]. split; [done|].
  split; [by destruct (cmp_ImmutableFields cr)|].
  apply andb_false_iff in Hdrift. rewrite !negb_false_iff, andb_true_iff, !bool_decide_eq_true in Hdrift. tauto.
Qed.

Lemma adopt_update_wp ctx o c r hash h :
  wp anything (updates_guarded hash) (adopt rec ctx o c r hash) (fun _ _ => True) h.
Proof.
  unfold adopt, addCreateAttemptAnnotation. prog_seq; [done|]. stepped. prog_seq; [done|]. stepped.
  destruct x0; cbn [written]; [apply onExisting_update_wp|done].
Qed.

Lemma onConflict_update_wp ctx o c identity hash h :
  wp anything (updates_guarded hash) (onConflict rec ctx o c identity hash) (fun _ _ => True) h.
Proof.
  unfold onConflict. prog_seq; [done|]. stepped.
  destruct x as [[|r [|r' rs]]|e]; [done|apply adopt_update_wp|done..].
Qed.

Lemma create_update_wp ctx o c identity hash h :
  wp anything (updates_guarded hash) (create rec ctx o c identity hash) (fun _ _ => True) h.
Proof.
  unfold create, addCreateAttemptAnnotation. prog_seq; [done|]. stepped. prog_seq; [done|]. stepped.
  destruct x0 as [o1|e]; cbn [written]; [|done]. prog_seq; [done|]. stepped. destruct x0 as [r|e]; [done|].
  destruct (IsAlreadyExists _); [apply onConflict_update_wp|].
  apply never_update_wp. unfold removeCreateAttemptAnnotation. by prog_steps.
Qed.

Lemma onNew_update_wp ctx o c identity hash h :
  wp anything (updates_guarded hash) (onNewObject rec ctx o c identity hash) (fun _ _ => True) h.
Proof.
  unfold onNewObject. prog_seq; [done|]. stepped. destruct x as [cs|e]; [|done].
  cbv zeta. case_decide.
  - destruct (find_pinned _ _); [apply adopt_update_wp|done].
  - destruct cs as [|r [|r' rs]]; [apply create_update_wp|apply adopt_update_wp|done].
Qed.

Lemma reconcile_update_wp ctx o hash h :
  Hash o = Ok hash -> wp anything (updates_guarded hash) (reconcile NewClient rec ctx o) (fun _ _ => True) h.
Proof.
  intros Hh. unfold reconcile, signozClientFor. cbv zeta.
  destruct (Suspend _); [done|]. destruct (Identity o); [|done]. rewrite Hh.
  prog_seq; [done|]. stepped. prog_seq. destruct x; [|done].
  destruct (GetIDFromSigNozResource _); [|apply onNew_update_wp].
  unfold removeCreateAttemptAnnotation. prog_seq.
  destruct (annotation o _); prog_seq; [done| |apply onExisting_update_wp].
  stepped. destruct x; cbn [written]; [apply onExisting_update_wp|done].
Qed.

(** C18. An update is sent only on drift. Whenever a reconcile is about to update
    in SigNoz: the object status records was read just before, no immutable
    field differs, and the comparison found an updatable difference or the
    hash of the body differs from the hash last written. *)
Theorem update_is_guarded ctx o hash h0 ctx' c o' r k h :
  Hash o = Ok hash ->
  exec anything (reconcile NewClient rec ctx o) h0 (Vis (Update ctx' c o' r) k) h ->
  update_guard hash h ctx' c o' r.
Proof. intros Hh Hex. apply (wp_call _ _ _ _ _ _ _ _ (reconcile_update_wp ctx o hash h0 Hh) Hex). Qed.

(** ** Which calls a pass makes at all, and under which context *)

(** The context of a call; reading the clock takes none. *)
Definition call_context {X} (e : E X) : option Context :=
  match e with
  | KUpdate ctx _ | KPatch ctx _ _ | KStatusUpdate ctx _ | ResolveRef ctx _ _ _ | Find ctx _ _
  | Create ctx _ _ | Read ctx _ _ _ | Update ctx _ _ _ | Delete ctx _ _ _ => Some ctx
  | TimeNow => None
  end.

Definition pass_context (ctx : Context) (o : Object T) : Context :=
  if decide (0 < timeout rec o)%Z then WithTimeout ctx (timeout rec o) else ctx.

(** The calls of a live pass and of a deletion pass. *)
Definition live_call {X} (e : E X) : bool := negb (is_delete e).
Definition deletion_call {X} (e : E X) : bool :=
  match e with KUpdate _ _ | ResolveRef _ _ _ _ | Find _ _ _ | Delete _ _ _ _ => true | _ => false end.

Definition live_or_deletion (o : Object T) {X} (e : E X) : bool :=
  match m_deletion (o_meta o) with Some _ => deletion_call e | None => live_call e end.

Definition in_context (ctx : Context) (o : Object T) {X} (e : E X) : Prop :=
  match call_context e with
  | Some c => if is_status_update e then c = WithoutCancel (pass_context ctx o) else c = pass_context ctx o
  | None => True
  end.

Lemma Reconcile_discipline ctx o :
  all_calls (fun X e => live_or_deletion o e = true /\ in_context ctx o e) (Reconcile NewClient rec ctx o).
Proof.
  unfold Reconcile, live_or_deletion. fold (pass_context ctx o). cbv zeta. destruct (m_deletion (o_meta o)).
  - by apply finalize_calls.
  - apply all_calls_bind; [by apply addFinalizer_calls|]. intros [o' [e|]]; [done|].
    apply all_calls_bind; [by apply reconcile_calls|]. intros [[o'' res] err]. by prog_steps.
Qed.

(** C19. Deletion and mirroring never mix, and the timeout covers the pass. A
    pass over a live object issues no delete; a pass over a deleted one
    creates, reads, updates and patches nothing and writes no status. Every
    call runs under the pass's timeout, the status write alone under a context
    nothing can cancel. *)
Theorem pass_call_discipline ctx o :
  all_calls (fun X e => live_or_deletion o e = true /\ in_context ctx o e) (Reconcile NewClient rec ctx o).
Proof. apply Reconcile_discipline. Qed.

(** ** What reaches the API server *)

(** The status writes of a history. *)
Definition status_writes (h : hist) : list (Object T) :=
  omap (fun ev => match ev with Ev (KStatusUpdate _ o) _ => Some o | _ => None end) h.

Lemma status_writes_app h1 h2 : status_writes (h1 ++ h2) = status_writes h1 ++ status_writes h2.
Proof. apply omap_app. Qed.

Lemma status_writes_none (h : hist) :
  Forall (fun ev => match ev with Ev e _ => is_status_update e = false end) h -> status_writes h = [].
Proof. induction 1 as [|[X [] x] h He _ IH]; try done. Qed.

(** The object with the finalizer added, and nothing else. *)
Definition held_copy (o sent : Object T) : Prop :=
  exists fs, sent = with_meta o (set_finalizers (o_meta o) fs) /\
    forall f, f ∈ fs <-> f = ResourceFinalizer \/ f ∈ m_finalizers (o_meta o).

(** What a live pass goes on with: the object, or what the API server answers when
    it is given the finalizer. *)
Definition taken_up (ctx : Context) (o : Object T) (h : hist) (o1 : Object T) : Prop :=
  ResourceFinalizer ∈ m_finalizers (o_meta o) /\ h = [] /\ o1 = o \/
  (ResourceFinalizer ∉ m_finalizers (o_meta o)) /\ exists sent, held_copy o sent /\ h = [Ev (KUpdate ctx sent : E _) (Ok o1)].

(** The end of a live pass that went on with an object of status [before], and
    which the reconcile left as [o2], with [res2] and [err2], after [h2]. *)
Definition status_recorded (ctx : Context) (before : CoreStatus) (o2 : Object T) (res2 : Result)
    (err2 : option error) (h2 h : hist) (o' : Object T) (res : Result) (err : option error) : Prop :=
  o_status o2 = before /\ h = h2 /\ status_writes h = [] /\ (o', res, err) = (o2, res2, err2)
  \/ o_status o2 <> before /\ exists now answer,
      let sent := with_status o2 (with_reconciled_at (o_status o2) now) in
      h = h2 ++ [Ev (TimeNow : E _) now; Ev (KStatusUpdate (WithoutCancel ctx) sent : E _) answer] /\
      status_writes h = [sent] /\
      match answer with
      | Ok o3 => (o', res, err) = (o3, res2, err2)
      | Err e => (o', res, err) = (sent, no_requeue, Some e)
      end.

Lemma reconcile_writes_no_status ctx o h r h' :
  exec anything (reconcile NewClient rec ctx o) h (Ret r) h' -> exists d, h' = h ++ d /\ status_writes d = [].
Proof.
  assert (all_calls (fun X (e : E X) => is_status_update e = false) (reconcile NewClient rec ctx o)) as Hall by (by apply reconcile_calls).
  intros (d & -> & Hd)%(all_calls_history _ _ _ _ _ _ Hall). exists d. split; [done|by apply status_writes_none].
Qed.

Lemma addFinalizer_takes_up ctx o o1 err h :
  exec anything (addFinalizer ctx o) [] (Ret (o1, err)) h ->
  match err with
  | None => taken_up ctx o h o1
  | Some e => (ResourceFinalizer ∉ m_finalizers (o_meta o)) /\ held_copy o o1 /\ h = [Ev (KUpdate ctx o1 : E _) (Err e)]
  end /\ status_writes h = [].
Proof.
  unfold addFinalizer. destruct (decide (ResourceFinalizer ∈ m_finalizers (o_meta o))) as [Hin|Hni].
  - rewrite add_finalizer_present by done. intros [[= -> ->] ->]%exec_ret_inv. split; [by left|done].
  - destruct (add_finalizer_absent _ _ Hni) as (fs & -> & Hfs). cbn [negb].
    intros (x & h1 & [_ ->]%exec_trigger_inv & [Hx ->]%exec_ret_inv)%exec_bind_inv.
    destruct x as [o2|e]; injection Hx as -> ->; (split; [|done]).
    + right. split; [done|]. eexists. split; [|reflexivity]. by exists fs.
    + split; [done|]. split; [by exists fs|done].
Qed.

(** C20. A verdict is recorded exactly when it changes the status.  A complete pass
    over a live object either could not add the finalizer, and ends with that
    error after this one call; or goes on with an object, reconciles it, and
    then: writes no status at all, in the whole pass, when the reconcile left the
    status as it was; otherwise writes it once, last, under a context nothing
    cancels, as the reconcile left it and stamped with the time, and a failed
    write becomes the error of the pass, so the work queue retries it.  What is
    written reports one verdict, with the requeue it calls for, unless the
    reconcile failed. *)
Theorem live_pass_records_status ctx o h o' res err :
  m_deletion (o_meta o) = None ->
  exec anything (Reconcile NewClient rec ctx o) [] (Ret (o', res, err)) h ->
  let ctx' := pass_context ctx o in
  (exists e, (ResourceFinalizer ∉ m_finalizers (o_meta o)) /\ held_copy o o' /\
     h = [Ev (KUpdate ctx' o' : E _) (Err e)] /\ res = no_requeue /\ err = Some e)
  \/ exists o1 h1 o2 res2 err2 h2,
      taken_up ctx' o h1 o1 /\
      exec anything (reconcile NewClient rec ctx' o1) h1 (Ret (o2, res2, err2)) h2 /\
      (err2 = None -> settled o2 res2) /\
      status_recorded ctx' (o_status o1) o2 res2 err2 h2 h o' res err.
Proof.
  intros Hdel Hex. unfold Reconcile in Hex. fold (pass_context ctx o) in Hex. cbv zeta in Hex |- *.
  rewrite Hdel in Hex. apply exec_bind_inv in Hex as ([o1 err1] & h1 & Hadd & Hex).
  apply addFinalizer_takes_up in Hadd as [Htake Hno1]. destruct err1 as [e|].
  { apply exec_ret_inv in Hex as [? ->]. simplify_eq. left. exists e. by destruct Htake as (? & ? & ?). }
  right. apply exec_bind_inv in Hex as ([[o2 res2] err2] & h2 & Hrec & Hex).
  exists o1, h1, o2, res2, err2, h2. do 2 (split; [done|]).
  split; [exact (wp_complete _ _ _ _ _ _ _ (reconcile_settles _ _ _) Hrec)|].
  destruct (reconcile_writes_no_status _ _ _ _ _ Hrec) as (d & -> & Hd).
  assert (status_writes (h1 ++ d) = []) as Hno2 by (by rewrite status_writes_app, Hno1, Hd).
  destruct (DeepEqual _ _) eqn:Heq.
  - apply (proj1 (deep_equal _ _)) in Heq. apply exec_ret_inv in Hex as [? ->]. by left.
  - right. split.
    { intros Hs. by rewrite Hs, (proj2 (deep_equal _ _) eq_refl) in Heq. }
    apply exec_bind_inv in Hex as (now & h3 & [_ ->]%exec_trigger_inv & Hex).
    apply exec_bind_inv in Hex as (answer & h4 & [_ ->]%exec_trigger_inv & Hex).
    exists now, answer. cbv zeta. rewrite <- (app_assoc (h1 ++ d)) in *.
    destruct answer; apply exec_ret_inv in Hex as [? ->]; (split; [done|]; split; [|done]);
      by rewrite status_writes_app, Hno2.
Qed.

(** ** The steady state *)

(** An object in sync: nothing to add, record or clear. *)
Record steady (o : Object T) (hash : string) : Prop := {
  steady_live : m_deletion (o_meta o) = None;
  steady_finalizer : ResourceFinalizer ∈ m_finalizers (o_meta o);
  steady_running : Suspend (o_spec o) = false;
  steady_identity : is_ok (Identity o) = true;
  steady_hash : Hash o = Ok hash;
  steady_id : has_id o = true;
  steady_annotation : annotation o AnnotationCreateAttempt = None;
  steady_observed : ObservedHash (o_status o) = hash;
  steady_reported : reports (o_status o) (generation o) ReconcilerOutcomeSynced ReasonSynced "In sync with SigNoz";
}.

(** C21. An object in sync stays put. When the provider config resolves and the
    read shows no difference, a pass makes these two calls and no other,
    leaves the object exactly as it was, and asks to be woken after the
    interval. *)
Theorem steady_pass_is_read_only ctx o hash resolved remote :
  steady o hash -> Compare o remote = Ok (MkCompare [] []) ->
  exec anything (Reconcile NewClient rec ctx o) [] (Ret (o, MkResult (interval rec o), None))
    [Ev (ResolveRef (pass_context ctx o) (ProviderConfigRef_ (o_spec o)) (m_namespace (o_meta o))
           (operatorNamespace rec) : E _) (Ok resolved);
     Ev (Read (pass_context ctx o) (NewClient resolved) o (SigNozResource_ (o_status o)) : E _) (Ok remote)].
Proof.
  intros [Hlive Hfin Hrun Hident Hhash Hid Hann Hobs Hrep] Hcmp.
  destruct (Identity o) as [identity|] eqn:Hi; [|done].
  unfold has_id in Hid. destruct (GetIDFromSigNozResource _) as [id|] eqn:Hgid; [|done].
  assert (set_outcome (with_status o (with_hash (o_status o) hash)) (generation o)
            ReconcilerOutcomeSynced ReasonSynced "In sync with SigNoz" = o) as Hsame.
  { unfold set_outcome. cbn [with_status o_status].
    assert (with_hash (o_status o) hash = o_status o) as ->
      by (unfold with_hash; rewrite <- Hobs; by destruct (o_status o)).
    rewrite set_conditions_idem by done. by destruct o. }
  unfold Reconcile. fold (pass_context ctx o). rewrite Hlive.
  unfold addFinalizer. rewrite add_finalizer_present by done. cbn [negb mbind prog_bind mret prog_ret bind].
  eapply exec_bind.
  - unfold reconcile. rewrite Hrun, Hi, Hhash. unfold signozClientFor.
    eapply exec_step with (x := Ok resolved); [by split|]. cbn [bind]. rewrite Hgid.
    unfold removeCreateAttemptAnnotation. rewrite Hann. cbn [mret prog_ret bind].
    eapply exec_step with (x := Ok remote); [by split|]. cbn [bind mret prog_ret]. rewrite Hcmp.
    cbn [cmp_ImmutableFields cmp_UpdatableFields]. rewrite decide_False by auto.
    rewrite (bool_decide_eq_false_2 ([] <> [])) by auto.
    rewrite (bool_decide_eq_false_2 (_ <> hash)) by auto. rewrite andb_false_r. cbn [negb andb].
    rewrite Hsame. apply exec_refl.
  - cbv beta iota zeta. rewrite (proj2 (deep_equal (o_status o) (o_status o)) eq_refl). apply exec_refl.
Qed.

(** ** The grace period *)

(** An object without an id, whatever its annotations say of an earlier attempt. *)
Record unnamed (o : Object T) (identity hash : string) : Prop := {
  unnamed_live : m_deletion (o_meta o) = None;
  unnamed_finalizer : ResourceFinalizer ∈ m_finalizers (o_meta o);
  unnamed_running : Suspend (o_spec o) = false;
  unnamed_identity : Identity o = Ok identity;
  unnamed_hash : Hash o = Ok hash;
  unnamed_id : has_id o = false;
  unnamed_pin : annotation_or_zero o AnnotationSigNozResourceID = ""%string;
}.

(** C22. No grace period is kept.  Whatever attempt the object has on record, made at
    whatever time, and whatever time it is now, a pass whose one lookup finds
    nothing goes on to create in that same pass: an earlier create whose outcome
    is unknown and not readable yet does not make it wait. *)
Theorem empty_lookup_creates_at_once ctx o identity hash resolved now stored :
  unnamed o identity hash ->
  exists patch k,
    exec anything (Reconcile NewClient rec ctx o) [] (Vis (Create (pass_context ctx o) (NewClient resolved) stored) k)
      [Ev (ResolveRef (pass_context ctx o) (ProviderConfigRef_ (o_spec o)) (m_namespace (o_meta o))
             (operatorNamespace rec) : E _) (Ok resolved);
       Ev (Find (pass_context ctx o) (NewClient resolved) o : E _) (Ok []);
       Ev (TimeNow : E _) now;
       Ev (KPatch (pass_context ctx o) patch o : E _) (Ok stored)] /\
    annotation patch AnnotationCreateAttempt = Some (FormatRFC3339 now).
Proof.
  intros [Hlive Hfin Hrun Hi Hhash Hid Hpin]. do 2 eexists. split.
  - unfold has_id in Hid. destruct (GetIDFromSigNozResource _) as [id|] eqn:Hgid; [done|].
    unfold Reconcile. fold (pass_context ctx o). rewrite Hlive.
    unfold addFinalizer. rewrite add_finalizer_present by done. cbn [negb mbind prog_bind mret prog_ret bind].
    unfold reconcile. rewrite Hrun, Hi, Hhash. unfold signozClientFor.
    eapply exec_step with (x := Ok resolved); [by split|]. cbn [bind]. rewrite Hgid.
    unfold onNewObject. eapply exec_step with (x := Ok []); [by split|]. cbn [bind GetIDsFromSigNozResources].
    rewrite Hpin. rewrite decide_False by auto. unfold create, addCreateAttemptAnnotation.
    eapply exec_step with (x := now); [by split|]. cbn [bind].
    eapply exec_step with (x := Ok stored); [by split|]. apply exec_refl.
  - apply lookup_insert_eq.
Qed.
End Outcome.
