(* ===== verification/Protocol.v ===== *)
(** * The operator between an API server and SigNoz

    One mirrored object over its life: the stored object, what exists in SigNoz
    of its identity, users who edit in between, and passes that run from what is
    stored and may be cut short at any call.  Every write may fail, and may take
    effect although its answer is an error; the create of a lost answer is how an
    object comes to exist that nobody knows the id of.

    The API server accepts any write of an object that exists: a write that it
    would refuse as a conflict is one that fails here, so it has more runs than a
    server with optimistic locking. *)

From S2P Require Import Prelude GoStd Errors Kube Core Effects Interfaces Reconciler.
From Stdlib Require Import String.

Local Open Scope string_scope.

(** The identity and the hash of a kind are functions of the desired state. *)
Class DesiredFromTemplate (T : Type) `{ResourceObject T} := {
  identity_template : forall o o' : Object T, o_template o = o_template o' -> Identity o = Identity o';
  hash_template : forall o o' : Object T, o_template o = o_template o' -> Hash o = Hash o';
}.

Section Protocol.
Context {T SigNoz Resolved : Type} `{AM : ApiMachinery} `{RO : ResourceObject T} `{SE : SemanticEqual CoreStatus}.
Context (NewClient : Resolved -> SigNoz) (rec : commonReconciler) (ctx : Context).
(** The identity of the object, which stays the same. *)
Context (identity : string).

Abbreviation E := (call T SigNoz Resolved).

(** [remote] holds the ids of the objects of that identity in SigNoz; the object
    is [live] until the API server drops it; [orphaned] records that the
    finalizer was dropped under the policy Orphan. *)
Record world := MkWorld {
  stored : Object T;
  live : bool;
  orphaned : bool;
  remote : gset string;
}.

Definition attempted (o : Object T) : Prop := is_Some (annotation o AnnotationCreateAttempt).
Definition held (o : Object T) : Prop := ResourceFinalizer ∈ m_finalizers (o_meta o).
Definition id_of (o : Object T) : result string error := GetIDFromSigNozResource (SigNozResource_ (o_status o)).

(** ** The API server *)

(** An object that is being deleted is gone once nothing holds it. *)
Definition gone (o : Object T) : bool :=
  bool_decide (is_Some (m_deletion (o_meta o))) && bool_decide (m_finalizers (o_meta o) = []).

(** The merge patch from [base] to [o] sets [annotations] to null when [o] has none
    left: an empty map is left out of the JSON it is computed from. *)
Definition nulls_annotations (o base : Object T) : bool :=
  bool_decide (m_annotations (o_meta o) = ∅) && negb (bool_decide (m_annotations (o_meta base) = ∅)).

(** What an update, a merge patch from [base] and a status update of [o] make of
    the object [s]; the server sets what is left open. *)
Definition updated (o s o' : Object T) : Prop :=
  o_spec o' = o_spec o /\ o_template o' = o_template o /\ o_status o' = o_status s /\
  m_finalizers (o_meta o') = m_finalizers (o_meta o) /\ m_annotations (o_meta o') = m_annotations (o_meta o) /\
  m_deletion (o_meta o') = m_deletion (o_meta s).

Definition patched (o base s o' : Object T) : Prop :=
  o_spec o' = o_spec s /\ o_template o' = o_template s /\ o_status o' = o_status s /\
  m_finalizers (o_meta o') = m_finalizers (o_meta s) /\ m_deletion (o_meta o') = m_deletion (o_meta s) /\
  forall k, annotation o' k =
    if nulls_annotations o base then None
    else if decide (annotation o k = annotation base k) then annotation s k else annotation o k.

Definition status_updated (o s o' : Object T) : Prop :=
  o_spec o' = o_spec s /\ o_template o' = o_template s /\ o_status o' = o_status o /\
  m_finalizers (o_meta o') = m_finalizers (o_meta s) /\ m_annotations (o_meta o') = m_annotations (o_meta s) /\
  m_deletion (o_meta o') = m_deletion (o_meta s).

Definition store (w : world) (o : Object T) (orphan : bool) : world :=
  MkWorld o (negb (gone o)) (orphaned w || orphan) (remote w).

(** A write that takes effect, with either answer, or fails without. *)
Definition written_to (w : world) (accepts : Object T -> Prop) (orphan : bool)
    (x : result (Object T) error) (w' : world) : Prop :=
  (live w = true /\ exists o, accepts o /\ w' = store w o orphan /\ (x = Ok o \/ is_ok x = false)) \/
  (is_ok x = false /\ w' = w).

(** The release of the finalizer under the policy Orphan. *)
Definition orphans (o : Object T) : bool :=
  bool_decide (ReclaimPolicy (o_spec o) = ReclaimOrphan) && negb (bool_decide (held o)).

(** ** SigNoz *)

Definition with_remote (w : world) (r : gset string) : world := MkWorld (stored w) (live w) (orphaned w) r.
Definition named_by (id : string) : option SigNozResource := Some (MkResource (Some id)).

(** How the world answers a call.  A lookup sees every object of the identity; a
    create that fails for a reason not worth retrying created nothing; an update
    of an object renamed in SigNoz may give it the identity back. *)
Definition respond (X : Type) (w : world) (e : E X) : X -> world -> Prop :=
  match e in call _ _ _ X return X -> world -> Prop with
  | KUpdate _ o => written_to w (updated o (stored w)) (orphans o)
  | KPatch _ o base => written_to w (patched o base (stored w)) false
  | KStatusUpdate _ o => written_to w (status_updated o (stored w)) false
  | TimeNow => fun _ w' => w' = w
  | Interfaces.ResolveRef _ _ _ _ => fun _ w' => w' = w
  | Find _ _ o => fun x w' => w' = w /\
      match x with Ok found => found ≡ₚ named_by <$> elements (remote w) | Err _ => True end
  | Create _ _ o => fun x w' =>
      match x with
      | Ok r => exists id, id <> "" /\ (id ∉ remote w) /\ r = named_by id /\ w' = with_remote w ({[id]} ∪ remote w)
      | Err e => w' = w \/
          IsRetryable (Some e) = true /\ exists id, id <> "" /\ (id ∉ remote w) /\ w' = with_remote w ({[id]} ∪ remote w)
      end
  | Read _ _ o r => fun x w' => w' = w /\
      match x, GetIDFromSigNozResource r with
      | Err e, Ok id => IsNotFound (Some e) = true -> id ∉ remote w
      | _, _ => True
      end
  | Update _ _ o r => fun x w' => w' = w \/
      exists id, GetIDFromSigNozResource r = Ok id /\ w' = with_remote w ({[id]} ∪ remote w)
  | Delete _ _ o r => fun x w' =>
      match GetIDFromSigNozResource r with
      | Ok id => (w' = with_remote w (remote w ∖ {[id]}) /\ IsNotFound x = false) \/
                 (w' = w /\ is_Some x /\ (IsNotFound x = true -> id ∉ remote w))
      | Err _ => w' = w
      end
  end.

(** ** Users *)

(** Edits of a stored object: anything but the status, which only the operator
    writes, its annotation, its finalizer, and the identity; a deletion stays. *)
Definition edited (s s' : Object T) : Prop :=
  Identity s' = Ok identity /\ o_status s' = o_status s /\
  annotation s' AnnotationCreateAttempt = annotation s AnnotationCreateAttempt /\
  (held s' <-> held s) /\ (is_Some (m_deletion (o_meta s)) -> is_Some (m_deletion (o_meta s'))).

(** What may happen between two calls: edits, and deletions in SigNoz. *)
Definition drift (w w' : world) : Prop :=
  orphaned w' = orphaned w /\ remote w' ⊆ remote w /\
  if live w then edited (stored w) (stored w') /\ live w' = negb (gone (stored w'))
  else stored w' = stored w /\ live w' = false.

Definition step (X : Type) (w : world) (e : E X) (x : X) (w' : world) : Prop :=
  exists w1, drift w w1 /\ respond X w1 e x w'.

(** A world in which nothing goes wrong: every call succeeds, and a read or a
    delete of what is not there says so. *)
Definition succeeds (X : Type) (w : world) (e : E X) : X -> Prop :=
  match e in call _ _ _ X return X -> Prop with
  | KUpdate _ _ | KPatch _ _ _ | KStatusUpdate _ _ => fun x => is_ok x = true
  | TimeNow => fun _ => True
  | Interfaces.ResolveRef _ _ _ _ => fun x => is_ok x = true
  | Find _ _ _ => fun x => is_ok x = true
  | Create _ _ _ => fun x => is_ok x = true
  | Read _ _ _ r => fun x =>
      match x with
      | Ok _ => forall id, GetIDFromSigNozResource r = Ok id -> id ∈ remote w
      | Err e => IsNotFound (Some e) = true
      end
  | Update _ _ _ _ => fun x => x = None
  | Delete _ _ _ _ => fun x => x = None \/ IsNotFound x = true
  end.

Definition calm (X : Type) (w : world) (e : E X) (x : X) (w' : world) : Prop :=
  respond X w e x w' /\ succeeds X w e x.

(** ** The system *)

(** A new object: SigNoz holds nothing of its identity. *)
Definition fresh (w : world) : Prop :=
  live w = true /\ gone (stored w) = false /\ orphaned w = false /\ remote w = ∅ /\
  Identity (stored w) = Ok identity.

Inductive reachable : world -> Prop :=
  | reach_fresh w : fresh w -> reachable w
  | reach_drift w w' : reachable w -> drift w w' -> reachable w'
  | reach_pass w p w' : reachable w -> live w = true ->
      exec step (Reconcile NewClient rec ctx (stored w)) w p w' -> reachable w'.

(** A patch that sets an annotation leaves the others alone. *)
Lemma setting_nulls_nothing (o base : Object T) k v :
  nulls_annotations (with_meta o (set_annotations (o_meta o) (<[k := v]> (m_annotations (o_meta o))))) base = false.
Proof. unfold nulls_annotations. cbn. rewrite bool_decide_eq_false_2; [done|]. apply insert_non_empty. Qed.
End Protocol.
