(* ===== verification/ProtocolProgress.v ===== *)
(** * An undisturbed pass can be answered to its end

    [serve] is one way a world in which nothing goes wrong answers; passes of an
    object that is not being deleted never get stuck there, and neither does a
    deletion pass, whose one write is its last call. *)

From S2P Require Import Prelude GoStd Errors Kube Core Effects Interfaces Reconciler Protocol.
From Stdlib Require Import String.

Local Open Scope string_scope.

Section Progress.
Context {T SigNoz Resolved : Type} `{AM : ApiMachinery} `{RO : ResourceObject T} `{SE : SemanticEqual CoreStatus}.
Context `{IR : Inhabited Resolved}.

Abbreviation E := (call T SigNoz Resolved).
Abbreviation world := (Protocol.world (T := T)).
Abbreviation object := (Object T).
Abbreviation calmly := (calm (T := T) (SigNoz := SigNoz) (Resolved := Resolved)).

(** ** An environment in which all is well *)

Definition select (P : string -> bool) (m : gmap string string) : gmap string string :=
  filter (fun kv => P kv.1 = true) m.
Definition same_at (o base : object) (k : string) : bool := bool_decide (annotation o k = annotation base k).
Definition merged (o base s : object) : gmap string string :=
  if nulls_annotations o base then ∅
  else select (same_at o base) (m_annotations (o_meta s)) ∪ select (fun k => negb (same_at o base k)) (m_annotations (o_meta o)).

Lemma select_lookup P m k : select P m !! k = if P k then m !! k else None.
Proof.
  unfold select. destruct (P k) eqn:Hk.
  - destruct (m !! k) as [v|] eqn:Hm; [by apply map_lookup_filter_Some_2|]. apply map_lookup_filter_None. by left.
  - apply map_lookup_filter_None. right. cbn. congruence.
Qed.

Lemma merged_lookup (o base s : object) k :
  merged o base s !! k =
    if nulls_annotations o base then None
    else if decide (annotation o k = annotation base k) then annotation s k else annotation o k.
Proof.
  unfold merged. destruct (nulls_annotations o base); [apply lookup_empty|]. rewrite lookup_union, !select_lookup. unfold same_at.
  destruct (decide (annotation o k = annotation base k)) as [He|Hne].
  - rewrite bool_decide_eq_true_2 by done. apply (right_id None _).
  - rewrite bool_decide_eq_false_2 by done. apply (left_id None _).
Qed.

Definition serve {X} (w : world) (e : E X) : X * world :=
  match e in call _ _ _ X return X * world with
  | KUpdate _ o =>
      let m := o_meta o in
      let o' := MkObject (MkMeta (m_name m) (m_namespace m) (m_resource_version m) (m_generation m)
                  (m_deletion (o_meta (stored w))) (m_finalizers m) (m_annotations m))
                (o_spec o) (o_template o) (o_status (stored w)) in
      (Ok o', store w o' (orphans o))
  | KPatch _ o base =>
      let o' := with_meta (stored w) (set_annotations (o_meta (stored w)) (merged o base (stored w))) in
      (Ok o', store w o' false)
  | KStatusUpdate _ o => let o' := with_status (stored w) (o_status o) in (Ok o', store w o' false)
  | TimeNow => (0%Z, w)
  | Interfaces.ResolveRef _ _ _ _ => (Ok inhabitant, w)
  | Find _ _ _ => (Ok (named_by <$> elements (remote w)), w)
  | Create _ _ _ =>
      let id := base.fresh ({[""]} ∪ remote w) in (Ok (named_by id), with_remote w ({[id]} ∪ remote w))
  | Read _ _ _ r =>
      (match GetIDFromSigNozResource r with
       | Ok id => if decide (id ∈ remote w) then Ok None else Err (EBase (New ReasonNotFound "gone"))
       | Err _ => Ok None
       end, w)
  | Update _ _ _ _ => (None, w)
  | Delete _ _ _ r =>
      (None, match GetIDFromSigNozResource r with Ok id => with_remote w (remote w ∖ {[id]}) | Err _ => w end)
  end.

Definition is_write {X} (e : E X) : bool :=
  match e with KUpdate _ _ | KPatch _ _ _ | KStatusUpdate _ _ => true | _ => false end.

Lemma serve_calm X w (e : E X) : live w = true -> calmly X w e (serve w e).1 (serve w e).2.
Proof.
  intros Hl. destruct e; (split; [|try reflexivity]).
  - left. split; [done|]. eexists. split; [|split; [reflexivity|by left]]. by repeat split.
  - left. split; [done|]. eexists. split; [|split; [reflexivity|by left]].
    do 5 (split; [reflexivity|]). intros k. apply merged_lookup.
  - left. split; [done|]. eexists. split; [|split; [reflexivity|by left]]. by repeat split.
  - reflexivity.
  - reflexivity.
  - split; [reflexivity|apply Permutation_refl].
  - pose proof (is_fresh ({[""]} ∪ remote w)) as Hf. eexists. split; [|split; [|by split]]; set_solver.
  - split; [done|]. cbn [serve fst]. destruct (GetIDFromSigNozResource r); [|done]. by destruct (decide _).
  - cbn [serve fst succeeds]. destruct (GetIDFromSigNozResource r) as [id|]; [|done].
    destruct (decide _); [|done]. intros id' Hid. congruence.
  - by left.
  - cbn [serve fst snd respond]. destruct (GetIDFromSigNozResource r); [by left|done].
  - by left.
Qed.

(** ** A live pass *)

Definition undeleted (w : world) : Prop := live w = true /\ m_deletion (o_meta (stored w)) = None.

Lemma store_undeleted (w : world) o b : m_deletion (o_meta o) = None -> undeleted (store w o b).
Proof. intros Hd. split; [|done]. cbn. unfold gone. by rewrite Hd. Qed.

Lemma calm_undeleted X w (e : E X) x w' : calmly X w e x w' -> undeleted w -> undeleted w'.
Proof.
  intros [Hr _] Hw. destruct e; cbn [respond] in Hr; try (by subst w'); try (by destruct Hr as [-> _]).
  - destruct Hr as [(_ & o' & (_ & _ & _ & _ & _ & Hd) & -> & _)|[_ ->]]; [|done].
    apply store_undeleted. by rewrite Hd, (proj2 Hw).
  - destruct Hr as [(_ & o' & (_ & _ & _ & _ & Hd & _) & -> & _)|[_ ->]]; [|done].
    apply store_undeleted. by rewrite Hd, (proj2 Hw).
  - destruct Hr as [(_ & o' & (_ & _ & _ & _ & _ & Hd) & -> & _)|[_ ->]]; [|done].
    apply store_undeleted. by rewrite Hd, (proj2 Hw).
  - destruct x; [by destruct Hr as (? & _ & _ & _ & ->)|by destruct Hr as [->|(_ & ? & _ & _ & ->)]].
  - by destruct Hr as [->|(id & _ & ->)].
  - destruct (GetIDFromSigNozResource _); [by destruct Hr as [[-> _]|[-> _]]|by subst w'].
Qed.

Lemma undeleted_ends {R} (p : prog E R) w : undeleted w -> exists r w', exec calmly p w (Ret r) w'.
Proof.
  revert w. induction p as [r|X e k IH]; intros w Hw; [exists r, w; by left|].
  pose proof (serve_calm X w e (proj1 Hw)) as Hc.
  destruct (IH (serve w e).1 (serve w e).2 (calm_undeleted _ _ _ _ _ Hc Hw)) as (r & w' & Hex).
  exists r, w'. eapply exec_step; [exact Hc|exact Hex].
Qed.

Lemma undeleted_always {R} (p : prog E R) w Q :
  undeleted w -> (forall r w', exec calmly p w (Ret r) w' -> Q r w') -> always calmly p w Q.
Proof.
  intros Hw HQ. split; [|done]. intros p' w' Hex. apply undeleted_ends.
  revert Hw. apply (exec_preserves calmly undeleted p p' w w' calm_undeleted Hex).
Qed.

(** ** A deletion pass *)

(** A write, if any, is the last call. *)
Fixpoint writes_last {R} (p : prog E R) : Prop :=
  match p with
  | Ret _ => True
  | Vis e k => forall x, if is_write e then exists r, k x = Ret r else writes_last (k x)
  end.

Lemma calm_read_live X w (e : E X) x w' : is_write e = false -> calmly X w e x w' -> live w' = live w.
Proof.
  intros He [Hr _]. destruct e; cbn [respond] in Hr; try discriminate; try (by subst w'); try (by destruct Hr as [-> _]).
  - destruct x; [by destruct Hr as (? & _ & _ & _ & ->)|by destruct Hr as [->|(_ & ? & _ & _ & ->)]].
  - by destruct Hr as [->|(id & _ & ->)].
  - destruct (GetIDFromSigNozResource _); [by destruct Hr as [[-> _]|[-> _]]|by subst w'].
Qed.

Lemma writes_last_ends {R} (p : prog E R) w :
  writes_last p -> live w = true -> exists r w', exec calmly p w (Ret r) w'.
Proof.
  revert w. induction p as [r|X e k IH]; intros w Hp Hl; [exists r, w; by left|].
  pose proof (serve_calm X w e Hl) as Hc. specialize (Hp (serve w e).1).
  destruct (is_write e) eqn:He.
  - destruct Hp as [r Hr]. exists r, (serve w e).2. eapply exec_step; [exact Hc|]. rewrite Hr. by left.
  - destruct (IH (serve w e).1 (serve w e).2) as (r & w' & Hex);
      [done|by rewrite (calm_read_live _ _ _ _ _ He Hc)|]. exists r, w'. eapply exec_step; [exact Hc|exact Hex].
Qed.

Lemma writes_last_always {R} (p : prog E R) w Q :
  writes_last p -> live w = true -> (forall r w', exec calmly p w (Ret r) w' -> Q r w') -> always calmly p w Q.
Proof.
  intros Hp Hl HQ. split; [|done]. clear HQ. intros p' w'. revert w Hp Hl.
  induction p as [r|X e k IH]; intros w Hp Hl Hex; cbn in Hex.
  - destruct Hex as [[-> ->]|[]]. exists r, w. by left.
  - destruct Hex as [[-> ->]|(x & w1 & Hc & Hex)]; [by apply writes_last_ends|].
    specialize (Hp x). destruct (is_write e) eqn:He.
    + destruct Hp as [r Hr]. rewrite Hr in Hex. destruct Hex as [[-> ->]|[]]. exists r, w1. by left.
    + eapply IH; [exact Hp| |exact Hex]. by rewrite (calm_read_live _ _ _ _ _ He Hc).
Qed.

Context (NewClient : Resolved -> SigNoz) (rec : commonReconciler).

Lemma removeFinalizer_writes_last ctx (o : object) : writes_last (removeFinalizer (SigNoz := SigNoz) (Resolved := Resolved) ctx o).
Proof.
  unfold removeFinalizer. destruct (RemoveFinalizer _ _) as [fs []]; [|done]. intros x. cbn.
  destruct (written _ x). by eexists.
Qed.

Lemma reclaim_writes_last ctx c (o : object) r : writes_last (reclaim (Resolved := Resolved) (SigNoz := SigNoz) rec ctx c o r).
Proof. intros x. cbn. destruct (_ && _); [done|apply removeFinalizer_writes_last]. Qed.

Lemma finalize_writes_last ctx (o : object) : writes_last (finalize NewClient rec ctx o).
Proof.
  unfold finalize. cbv zeta. destruct (negb _); [done|].
  destruct (decide _); [apply removeFinalizer_writes_last|].
  destruct (_ && _); [apply removeFinalizer_writes_last|]. intros [resolved|e]; [|done]. cbn [bind].
  destruct (is_ok _); [apply reclaim_writes_last|].
  destruct (Identity o); [|apply removeFinalizer_writes_last]. intros [[|r [|]]|e]; try done.
  - apply removeFinalizer_writes_last.
  - apply reclaim_writes_last.
Qed.
End Progress.
