(* ===== verification/ProtocolSafety.v ===== *)
(** * Nothing is created twice, and nothing created is lost

    The invariant of the system of Protocol.v, by induction on reachability and,
    inside a pass, at every call. *)

From S2P Require Import Prelude GoStd Errors Kube Core Conditions Effects Interfaces Reconciler ReconcilerOutcome Protocol.
From Stdlib Require Import String.

Local Open Scope string_scope.

Section Safety.
Context {T SigNoz Resolved : Type} `{AML : ApiMachineryLaws} `{RO : ResourceObject T} `{SEL : SemanticEqualLaw CoreStatus}.
Context {DT : DesiredFromTemplate T}.
Context (NewClient : Resolved -> SigNoz) (rec : commonReconciler) (identity : string).

Abbreviation E := (call T SigNoz Resolved).
Abbreviation world := (Protocol.world (T := T)).
Abbreviation step := (Protocol.step (T := T) (SigNoz := SigNoz) (Resolved := Resolved) identity).
Abbreviation drift := (Protocol.drift (T := T) identity).
Abbreviation object := (Object T).

(** What the id on an object says of SigNoz: with an id, it is the only object;
    without, there is none, or the attempt is on record. *)
Definition named (id : result string error) (w : world) : Prop :=
  match id with
  | Ok id => remote w ⊆ {[id]}
  | Err _ => remote w = ∅ \/ attempted (stored w)
  end.

Record Inv (w : world) : Prop := {
  inv_one : (size (remote w) <= 1)%nat;
  inv_ids : "" ∉ remote w;
  inv_identity : live w = true -> Identity (stored w) = Ok identity;
  inv_held : orphaned w = true \/ remote w = ∅ \/ (live w = true /\ held (stored w));
  inv_named : live w = true -> named (id_of (stored w)) w;
  inv_gone : live w = true -> gone (stored w) = false;
}.

(** A pass that may create: the object is live and held. *)
Definition Run (w : world) : Prop := Inv w /\ live w = true /\ held (stored w).

Abbreviation wpx := (wp step (fun X w (e : E X) => Inv w)).

(** ** Drift *)

Lemma subset_size (r r' : gset string) : r' ⊆ r -> (size r <= 1)%nat -> (size r' <= 1)%nat.
Proof. intros Hr Hs. pose proof (subseteq_size _ _ Hr). lia. Qed.

Lemma held_not_gone (o : object) : held o -> gone o = false.
Proof.
  unfold held, gone. intros Hf. destruct (m_finalizers (o_meta o)); [by apply elem_of_nil in Hf|].
  by rewrite andb_false_r.
Qed.

Lemma drift_live w w' : live w = true -> drift w w' ->
  edited identity (stored w) (stored w') /\ live w' = negb (gone (stored w')).
Proof. intros Hl (_ & _ & Hd). by rewrite Hl in Hd. Qed.

Lemma drift_Inv w w' : Inv w -> drift w w' -> Inv w'.
Proof.
  intros Hw Hd. pose proof Hd as (Ho & Hr & _). destruct (live w) eqn:Hl.
  - destruct (drift_live _ _ Hl Hd) as ((Hid & Hst & Han & Hhe & _) & Hl'). split.
    + eapply subset_size, inv_one; eauto.
    + intros Hin. by apply (inv_ids _ Hw), Hr.
    + done.
    + rewrite Ho. destruct (inv_held _ Hw) as [?|[He|[_ Hh]]]; [by left|right; left; set_solver|right; right].
      rewrite Hl', held_not_gone by (by apply Hhe). by split; [|apply Hhe].
    + intros _. pose proof (inv_named _ Hw Hl) as Hn. unfold named, id_of, attempted in *.
      rewrite Hst, Han. destruct (GetIDFromSigNozResource _); set_solver.
    + intros Hl2. rewrite Hl2 in Hl'. by destruct (gone (stored w')).
  - destruct Hd as (_ & _ & Hd). rewrite Hl in Hd. destruct Hd as [Hst Hl']. split.
    + eapply subset_size, inv_one; eauto.
    + intros Hin. by apply (inv_ids _ Hw), Hr.
    + congruence.
    + rewrite Ho. destruct (inv_held _ Hw) as [?|[He|[? _]]]; [by left|right; left; set_solver|congruence].
    + congruence.
    + congruence.
Qed.

Lemma drift_Run w w' : Run w -> drift w w' -> Run w'.
Proof.
  intros (Hw & Hl & Hh) Hd. destruct (drift_live _ _ Hl Hd) as ((_ & _ & _ & Hhe & _) & Hl').
  split; [by eapply drift_Inv|]. rewrite Hl', held_not_gone by (by apply Hhe). by split; [|apply Hhe].
Qed.

(** What an object read from the server, or written since, says of what is stored. *)
Definition local (o : object) (w : world) : Prop :=
  Identity o = Ok identity /\ o_status o = o_status (stored w) /\ (attempted o <-> attempted (stored w)).

Lemma drift_local o w w' : live w = true -> local o w -> drift w w' -> local o w'.
Proof.
  intros Hl (Hi & Hs & Ha) Hd. destruct (drift_live _ _ Hl Hd) as ((_ & Hst & Han & _) & _).
  split; [done|]. unfold attempted in *. by rewrite Hst, Han.
Qed.

Lemma drift_named id w w' : live w = true -> named id w -> drift w w' -> named id w'.
Proof.
  intros Hl Hn Hd. destruct (drift_live _ _ Hl Hd) as ((_ & _ & Han & _) & _). destruct Hd as (_ & Hr & _).
  unfold named, attempted in *. rewrite Han. destruct id; set_solver.
Qed.

Lemma drift_remote w w' r : remote w ⊆ r -> drift w w' -> remote w' ⊆ r.
Proof. intros Hw (_ & Hr & _). set_solver. Qed.

Lemma local_named o w : Run w -> local o w -> named (id_of o) w.
Proof. intros (Hw & Hl & _) (_ & Hs & _). unfold id_of. rewrite Hs. by apply (inv_named _ Hw). Qed.

(** ** Writes *)

Section Pass.
Context (ctx : Context).

(** A write that leaves the finalizers and the deletion alone. *)
Lemma store_Inv w o orphan :
  Inv w -> live w = true -> Identity o = Ok identity -> m_finalizers (o_meta o) = m_finalizers (o_meta (stored w)) ->
  m_deletion (o_meta o) = m_deletion (o_meta (stored w)) -> named (id_of o) (store w o orphan) -> Inv (store w o orphan).
Proof.
  intros Hw Hl Hi Hfi Hde Hn. assert (gone o = false) as Hg.
  { pose proof (inv_gone _ Hw Hl) as Hg. unfold gone in *. by rewrite Hfi, Hde. }
  split; try done; cbn.
  - apply (inv_one _ Hw).
  - apply (inv_ids _ Hw).
  - destruct (inv_held _ Hw) as [->|[?|[_ Hh]]]; [by left|by right; left|]. right; right. rewrite Hg. split; [done|].
    unfold held. by rewrite Hfi.
Qed.

Lemma store_Run w o orphan :
  Run w -> Identity o = Ok identity -> held o -> named (id_of o) (store w o orphan) -> Run (store w o orphan).
Proof.
  intros (Hw & Hl & _) Hi Hh Hn. assert (live (store w o orphan) = true) as Hlive
    by (cbn; by rewrite held_not_gone).
  split; [|by split]. split; try done; cbn.
  - apply (inv_one _ Hw).
  - apply (inv_ids _ Hw).
  - right. right. split; [by rewrite held_not_gone|done].
  - intros _. by apply held_not_gone.
Qed.

Lemma annotation_set (o : object) k v :
  annotation (with_meta o (set_annotations (o_meta o) (<[k := v]> (m_annotations (o_meta o))))) k = Some v.
Proof. apply lookup_insert_eq. Qed.

Lemma annotation_unset (o : object) k :
  annotation (with_meta o (set_annotations (o_meta o) (delete k (m_annotations (o_meta o))))) k = None.
Proof. apply lookup_delete_eq. Qed.

(** The annotation written before a create: durable once the patch succeeded. *)
Lemma add_attempt_wp (o : object) w :
  Run w -> local o w ->
  wpx (addCreateAttemptAnnotation ctx o)
    (fun '(o', err) w' => Run w' /\ id_of o' = id_of o /\ named (id_of o') w' /\ remote w' ⊆ remote w /\
       (err = None -> local o' w' /\ attempted o')) w.
Proof.
  intros Hw Hlo. unfold addCreateAttemptAnnotation.
  apply wp_bind, wp_trigger; [apply Hw|]. intros now w1 (w0 & Hd & ->).
  apply wp_bind, wp_trigger; [eapply drift_Inv; [apply Hw|done]|]. intros x w2 (w1 & Hd1 & Hx).
  assert (Run w1) as Hw1 by (eapply drift_Run, Hd1; eapply drift_Run, Hd; exact Hw).
  assert (local o w1) as Hlo1.
  { eapply drift_local, Hd1; [|eapply drift_local, Hd; [apply Hw|done]]. by eapply drift_Run in Hd as (_ & ? & _). }
  assert (remote w1 ⊆ remote w) as Hr by (eapply drift_remote, Hd1; by eapply drift_remote, Hd).
  pose proof (local_named _ _ Hw1 Hlo1) as Hn. pose proof Hlo1 as (Hid & Hst & Hat).
  apply wp_ret. unfold written. cbn [respond] in Hx.
  destruct Hx as [(_ & o' & (Hsp & Hte & Hst' & Hfi & Hde & Han) & -> & Hans)|[Herr ->]].
  - assert (attempted o') as Hat'.
    { unfold attempted. rewrite Han, setting_nulls_nothing, annotation_set. destruct (decide _) as [Heq|_]; [|by eexists].
      apply Hat. eexists. symmetry. exact Heq. }
    assert (id_of o' = id_of o) as Hid' by (unfold id_of; by rewrite Hst', Hst).
    assert (Run (store w1 o' false)) as Hs.
    { apply store_Run; [done| | |].
      - rewrite (identity_template o' (stored w1)) by done. apply (inv_identity _ (proj1 Hw1)), Hw1.
      - unfold held. rewrite Hfi. apply Hw1.
      - rewrite Hid'. unfold named. destruct (id_of o); [|by right]. by apply Hn. }
    destruct Hans as [->|Hok]; [|destruct x as [?|e]; [done|]].
    + split; [done|]. split; [done|]. split; [by apply (inv_named _ (proj1 Hs)), Hs|]. split; [done|]. intros _.
      split; [|done]. split; [|by split]. by apply (inv_identity _ (proj1 Hs)), Hs.
    + split; [done|]. split; [done|]. split; [|by split].
      change (id_of (with_meta o _)) with (id_of o). rewrite <- Hid'. by apply (inv_named _ (proj1 Hs)), Hs.
  - destruct x as [?|e]; [done|]. split; [done|]. by split; [|split; [|split]].
Qed.

(** It is removed only where no object could be lost by it. *)
Lemma remove_attempt_wp (o : object) w :
  Run w -> local o w -> (remote w = ∅ \/ is_ok (id_of o) = true) ->
  wpx (removeCreateAttemptAnnotation ctx o)
    (fun '(o', err) w' => Run w' /\ id_of o' = id_of o /\ named (id_of o') w' /\ remote w' ⊆ remote w /\
       (err = None -> local o' w')) w.
Proof.
  intros Hw Hlo Hsafe. unfold removeCreateAttemptAnnotation.
  destruct (annotation o AnnotationCreateAttempt) as [v|] eqn:Ho.
  2: { apply wp_ret. pose proof (local_named _ _ Hw Hlo). by do 4 (split; [done|]). }
  apply wp_bind, wp_trigger; [apply Hw|]. intros x w2 (w1 & Hd1 & Hx).
  assert (Run w1) as Hw1 by (eapply drift_Run, Hd1; exact Hw).
  assert (local o w1) as Hlo1 by (eapply drift_local, Hd1; [apply Hw|done]).
  assert (remote w1 ⊆ remote w) as Hr by (by eapply drift_remote, Hd1).
  pose proof (local_named _ _ Hw1 Hlo1) as Hn. pose proof Hlo1 as (Hid & Hst & Hat).
  assert (forall w', remote w' = remote w1 -> named (id_of o) w') as Hany.
  { intros w' Hr'. unfold named. destruct Hsafe as [He|Hok].
    - assert (remote w' = ∅) as He' by set_solver. rewrite He'. destruct (id_of o); set_solver.
    - destruct (id_of o); [|done]. rewrite Hr'. apply Hn. }
  apply wp_ret. unfold written. cbn [respond] in Hx.
  destruct Hx as [(_ & o' & (Hsp & Hte & Hst' & Hfi & Hde & Han) & -> & Hans)|[Herr ->]].
  - assert (id_of o' = id_of o) as Hid' by (unfold id_of; by rewrite Hst', Hst).
    assert (Run (store w1 o' false)) as Hs.
    { apply store_Run; [done| | |rewrite Hid'; by apply Hany].
      - rewrite (identity_template o' (stored w1)) by done. apply (inv_identity _ (proj1 Hw1)), Hw1.
      - unfold held. rewrite Hfi. apply Hw1. }
    destruct Hans as [->|Hok]; [|destruct x as [?|e]; [done|]].
    + split; [done|]. split; [done|]. split; [rewrite Hid'; by apply Hany|]. split; [done|]. intros _.
      split; [|done]. by apply (inv_identity _ (proj1 Hs)), Hs.
    + split; [done|]. split; [done|]. split; [by apply Hany|]. by split.
  - destruct x as [?|e]; [done|]. split; [done|]. split; [done|]. split; [by apply Hany|]. by split.
Qed.

(** ** The steps of a pass *)

(** What a pass leaves in hand to write to the status. *)
Abbreviation writable := (fun '(o', _, _) w' => Run w' /\ named (id_of o') w').

Lemma id_set_outcome (o : object) g out r m : id_of (set_outcome o g out r m) = id_of o.
Proof. unfold id_of, set_outcome. cbn [with_status o_status]. by rewrite (proj1 (set_conditions_fields _ _ _ _ _)). Qed.

Lemma onAdapterError_wp (o : object) e w :
  Run w -> named (id_of o) w -> wpx (mret (onAdapterError rec o e)) writable w.
Proof.
  intros Hw Hn. apply wp_ret. unfold onAdapterError. rewrite adapter_error_table.
  assert (forall s out r m, s = SetConditionsOnOutcome (o_status o) (generation o) out r m ->
    id_of (with_status o s) = id_of o) as Hid.
  { intros s out r m ->. apply id_set_outcome. }
  case_decide; split; try done; by erewrite Hid.
Qed.

Lemma set_outcome_writable (o : object) g out r m w :
  Run w -> named (id_of o) w -> Run w /\ named (id_of (set_outcome o g out r m)) w.
Proof. by rewrite id_set_outcome. Qed.

(** The object a pass goes on with: its id is the recorded one, or about to be,
    with the attempt on record. *)
Definition anchored (o : object) (w : world) : Prop :=
  id_of (stored w) = id_of o \/ is_ok (id_of (stored w)) = false /\ attempted (stored w).

Lemma drift_anchored (o : object) w w' : live w = true -> anchored o w -> drift w w' -> anchored o w'.
Proof.
  intros Hl Ha Hd. destruct (drift_live _ _ Hl Hd) as ((_ & Hst & Han & _) & _).
  unfold anchored, id_of, attempted in *. by rewrite Hst, Han.
Qed.

(** An update may give the object its identity back. *)
Lemma renamed_back (o : object) id w :
  Run w -> named (id_of o) w -> id_of o = Ok id -> anchored o w ->
  let w' := with_remote w ({[id]} ∪ remote w) in Run w' /\ named (id_of o) w'.
Proof.
  intros (Hw & Hl & Hh) Hn Hid Ha w'. rewrite Hid in *. cbn in Hn.
  assert (remote w' = {[id]}) as Hr by (cbn; set_solver).
  assert (id <> "") as Hne.
  { unfold id_of, GetIDFromSigNozResource in Hid. by repeat (case_match || case_decide); simplify_eq. }
  split; [|by unfold named; rewrite Hr]. split; [split|by split].
  - rewrite Hr, size_singleton. lia.
  - rewrite Hr. set_solver.
  - apply (inv_identity _ Hw).
  - right. right. by split.
  - intros _. unfold named. rewrite Hr. cbn [stored w' with_remote].
    destruct Ha as [->|[Hno Hat]]; [by rewrite Hid|]. destruct (id_of (stored w)); [done|by right].
  - apply (inv_gone _ Hw).
Qed.

Lemma onExisting_wp (o : object) c hash w :
  Run w -> named (id_of o) w -> is_ok (id_of o) = true -> anchored o w ->
  wpx (onExistingObject rec ctx o c hash) writable w.
Proof.
  intros Hw Hn Hok Ha. unfold onExistingObject. cbv zeta.
  apply wp_bind, wp_trigger; [apply Hw|]. intros x w2 (w1 & Hd & -> & Hx).
  assert (named (id_of o) w1) as Hn1 by (eapply drift_named, Hd; [apply Hw|done]).
  assert (anchored o w1) as Ha1 by (eapply drift_anchored, Hd; [apply Hw|done]).
  assert (Run w1) as Hw1 by (eapply drift_Run, Hd; exact Hw). clear Hd Hw Hn Ha w.
  destruct x as [body|e].
  - destruct (Compare o body) as [cr|e]; [|by apply wp_ret, set_outcome_writable].
    destruct (decide _); [by apply wp_ret, set_outcome_writable|].
    destruct (_ && _); [apply wp_ret; by apply (set_outcome_writable (with_status o (with_hash (o_status o) hash)))|].
    apply wp_bind, wp_trigger; [apply Hw1|]. intros err w2 (w3 & Hd & Hup).
    assert (named (id_of o) w3) as Hn3 by (eapply drift_named, Hd; [apply Hw1|done]).
    assert (Run w3) as Hw3 by (eapply drift_Run, Hd; exact Hw1).
    assert (Run w2 /\ named (id_of o) w2) as [Hw2 Hn2].
    { destruct Hup as [->|(id & Hid & ->)]; [done|]. apply renamed_back; [done|done|done|].
      eapply drift_anchored, Hd; [apply Hw1|done]. }
    destruct err as [e|]; [by apply onAdapterError_wp|].
    apply wp_ret. by apply (set_outcome_writable (with_status o (with_hash (o_status o) hash))).
  - destruct (IsNotFound (Some e)) eqn:Hnf; [|by apply onAdapterError_wp].
    apply wp_ret. apply set_outcome_writable; [done|]. left. unfold id_of in Hn1, Hok.
    destruct (GetIDFromSigNozResource _) as [id|]; [|done]. specialize (Hx eq_refl). cbn in Hn1. set_solver.
Qed.

(** ** What a lookup says *)

Lemma found_one w found id : Inv w -> found ≡ₚ named_by <$> elements (remote w) -> named_by id ∈ found ->
  GetIDFromSigNozResource (named_by id) = Ok id /\ remote w = {[id]}.
Proof.
  intros Hw Hf Hin. rewrite Hf, list_elem_of_fmap in Hin. destruct Hin as (id' & [= <-] & Hin%elem_of_elements).
  assert (id <> "") as Hne by (intros ->; by apply (inv_ids _ Hw)).
  split; [cbn; by rewrite decide_False|]. pose proof (inv_one _ Hw) as Hs.
  assert (size (remote w) = 1%nat) as Hone.
  { assert (size (remote w) <> 0%nat) by (intros Hz%size_empty_inv; set_solver). lia. }
  apply set_eq. intros y. rewrite elem_of_singleton. split; [|by intros ->].
  intros Hy. by apply (size_singleton_inv (remote w)).
Qed.

Lemma found_singleton w r : Inv w -> [r] ≡ₚ named_by <$> elements (remote w) ->
  exists id, r = named_by id /\ GetIDFromSigNozResource r = Ok id /\ remote w = {[id]}.
Proof.
  intros Hw Hf. assert (r ∈ named_by <$> elements (remote w)) as Hr by (rewrite <- Hf; apply list_elem_of_here).
  apply list_elem_of_fmap in Hr as (id & -> & _). exists id. split; [done|].
  by apply (found_one w [named_by id] id Hw Hf), list_elem_of_here.
Qed.

Lemma found_none (w : world) : [] ≡ₚ named_by <$> elements (remote w) -> remote w = ∅.
Proof. intros Hf. apply Permutation_nil_l, eq_sym, fmap_nil_inv, elements_empty_inv in Hf. by apply leibniz_equiv. Qed.

Lemma find_pinned_found pinned found r : find_pinned pinned found = Some r -> r ∈ found.
Proof.
  induction found as [|r' found IH]; cbn; [done|]. destruct (GetIDFromSigNozResource r'); [|intros; right; auto].
  case_decide; [intros [= ->]; by left|intros; right; auto].
Qed.

Lemma found_pinned w found pinned r : Inv w -> found ≡ₚ named_by <$> elements (remote w) ->
  find_pinned pinned found = Some r -> exists id, GetIDFromSigNozResource r = Ok id /\ remote w = {[id]}.
Proof.
  intros Hw Hf Hr%find_pinned_found. pose proof Hr as Hr'. rewrite Hf in Hr'.
  apply list_elem_of_fmap in Hr' as (id & -> & _). exists id. by apply (found_one w found id).
Qed.

Lemma named_sole r (w : world) id : GetIDFromSigNozResource r = Ok id -> remote w = {[id]} ->
  named (GetIDFromSigNozResource r) w.
Proof. intros -> Hr. cbn. set_solver. Qed.

Lemma adopt_wp (o : object) c r hash w id :
  Run w -> local o w -> is_ok (id_of o) = false -> GetIDFromSigNozResource r = Ok id -> remote w ⊆ {[id]} ->
  wpx (adopt rec ctx o c r hash) writable w.
Proof.
  intros Hw Hlo Hno Hr Hrem. unfold adopt. apply wp_bind. eapply wp_mono; [|by apply add_attempt_wp].
  intros [o' [e|]] w' (Hw' & Hid' & Hn & Hsub & Hlo'); [by apply wp_ret|].
  destruct (Hlo' eq_refl) as [(_ & Hst & Hat) Hat']. apply onExisting_wp; [done| | |].
  - unfold id_of. cbn. rewrite Hr. cbn. set_solver.
  - unfold id_of. cbn. by rewrite Hr.
  - right. split; [|by apply Hat]. unfold id_of in *. by rewrite <- Hst, Hid'.
Qed.

Lemma onConflict_wp (o : object) c hash w :
  Run w -> local o w -> is_ok (id_of o) = false -> wpx (onConflict rec ctx o c identity hash) writable w.
Proof.
  intros Hw Hlo Hno. unfold onConflict. cbv zeta. apply wp_bind, wp_trigger; [apply Hw|].
  intros x w2 (w1 & Hd & -> & Hx).
  assert (Run w1) as Hw1 by (eapply drift_Run, Hd; exact Hw).
  assert (local o w1) as Hlo1 by (eapply drift_local, Hd; [apply Hw|done]).
  pose proof (local_named _ _ Hw1 Hlo1) as Hn1.
  destruct x as [[|r [|r' found]]|e].
  - by apply wp_ret, set_outcome_writable.
  - destruct (found_singleton _ _ (proj1 Hw1) Hx) as (id & _ & Hr & Hrem).
    apply (adopt_wp o c r hash w1 id); [done|done|done|done|set_solver].
  - by apply wp_ret, set_outcome_writable.
  - by apply onAdapterError_wp.
Qed.

(** The object made is the only one, and the attempt is on record. *)
Lemma created_Run (w : world) id : Run w -> remote w = ∅ -> attempted (stored w) -> is_ok (id_of (stored w)) = false -> id <> "" ->
  Run (with_remote w ({[id]} ∪ remote w)).
Proof.
  intros (Hi & Hl & Hh) Hrem Hat Hno Hne. set (wc := with_remote w _). assert (remote wc = {[id]}) as Hwc by (cbn; rewrite Hrem; set_solver).
  split; [split|by split].
  - rewrite Hwc, size_singleton. lia.
  - rewrite Hwc. set_solver.
  - apply (inv_identity _ Hi).
  - right. right. by split.
  - intros _. unfold named. cbn [stored wc with_remote]. destruct (id_of (stored w)); [done|]. by right.
  - apply (inv_gone _ Hi).
Qed.

Lemma create_keeps (o : object) c hash w :
  Run w -> local o w -> remote w = ∅ -> is_ok (id_of o) = false ->
  wpx (create rec ctx o c identity hash) writable w.
Proof.
  intros Hw Hlo Hrem Hid. unfold create. cbv zeta. apply wp_bind. eapply wp_mono; [|by apply add_attempt_wp].
  intros [o' [e|]] w' (Hw' & Hid' & Hn & Hsub & Hlo'); [by apply wp_ret|].
  destruct (Hlo' eq_refl) as [Hlo1 Hat]. clear Hlo'.
  apply wp_bind, wp_trigger; [apply Hw'|]. intros x w2 (w1 & Hd & Hx).
  assert (Run w1) as Hw1 by (eapply drift_Run, Hd; exact Hw').
  assert (local o' w1) as Hlo2 by (eapply drift_local, Hd; [apply Hw'|done]).
  assert (remote w1 = ∅) as Hrem1.
  { destruct Hd as (_ & Hr & _). set_solver. }
  assert (attempted (stored w1)) as Hat1 by (by apply Hlo2).
  assert (is_ok (id_of o') = false) as Hid1 by (by rewrite Hid').
  assert (forall id, id <> "" -> let wc := with_remote w1 ({[id]} ∪ remote w1) in
    Run wc /\ named (id_of o') wc /\ remote wc = {[id]}) as Hmade.
  { intros id Hne wc. split; [|split; [|cbn; rewrite Hrem1; set_solver]].
    - apply created_Run; try done. unfold id_of in *. by rewrite <- (proj1 (proj2 Hlo2)).
    - unfold named. destruct (id_of o'); [done|]. by right. }
  cbn [respond] in Hx. destruct x as [r|e].
  - destruct Hx as (id & Hne & _ & -> & ->). destruct (Hmade id Hne) as (Hwc & _ & Hrc). apply wp_ret.
    apply set_outcome_writable; [done|]. unfold id_of. cbn [o_status with_status with_hash with_resource SigNozResource_].
    apply named_sole with id; [|done]. cbn. by rewrite decide_False.
  - destruct Hx as [->|(Hretry & id & Hne & _ & ->)].
    + destruct (IsAlreadyExists (Some e)); [by apply onConflict_wp|].
      destruct (IsRetryable (Some e)); cbn [negb].
      { apply onAdapterError_wp; [done|]. by apply local_named. }
      apply wp_bind. eapply wp_mono; [|apply remove_attempt_wp; [done|done|by left]].
      intros [o2 [e'|]] w3 (Hw3 & _ & Hn3 & _); [by apply wp_ret|by apply onAdapterError_wp].
    + destruct (Hmade id Hne) as (Hwc & Hnc & _).
      assert (IsAlreadyExists (Some e) = false) as ->.
      { revert Hretry. unfold IsAlreadyExists, IsRetryable. destruct (ReasonForErr (Some e)); done. }
      rewrite Hretry. by apply onAdapterError_wp.
Qed.

Lemma onNew_wp (o : object) c hash w :
  Run w -> local o w -> is_ok (id_of o) = false ->
  wpx (onNewObject rec ctx o c identity hash) writable w.
Proof.
  intros Hw Hlo Hid. unfold onNewObject. cbv zeta. apply wp_bind, wp_trigger; [apply Hw|].
  intros x w2 (w1 & Hd & -> & Hx).
  assert (Run w1) as Hw1 by (eapply drift_Run, Hd; exact Hw).
  assert (local o w1) as Hlo1 by (eapply drift_local, Hd; [apply Hw|done]).
  pose proof (local_named _ _ Hw1 Hlo1) as Hn1.
  destruct x as [found|e]; [|by apply onAdapterError_wp].
  destruct (decide _).
  { destruct (find_pinned _ found) as [r|] eqn:Hp; [|by apply wp_ret, set_outcome_writable].
    destruct (found_pinned _ _ _ _ (proj1 Hw1) Hx Hp) as (id & Hr & Hrem).
    apply (adopt_wp o c r hash w1 id); [done|done|done|done|set_solver]. }
  destruct found as [|r [|r' found]].
  - apply create_keeps; [done|done|by apply found_none|done].
  - destruct (found_singleton _ _ (proj1 Hw1) Hx) as (id & _ & Hr & Hrem).
    apply (adopt_wp o c r hash w1 id); [done|done|done|done|set_solver].
  - by apply wp_ret, set_outcome_writable.
Qed.

Lemma reconcile_wp (o : object) w : Run w -> local o w -> wpx (reconcile NewClient rec ctx o) writable w.
Proof.
  intros Hw Hlo. pose proof (local_named _ _ Hw Hlo) as Hn. unfold reconcile. cbv zeta.
  destruct (Suspend _); [by apply wp_ret, set_outcome_writable|].
  rewrite (proj1 Hlo). destruct (Interfaces.Hash o) as [hash|e]; [|by apply wp_ret, set_outcome_writable].
  apply wp_bind. unfold signozClientFor. apply wp_bind, wp_trigger; [apply Hw|]. intros x w2 (w1 & Hd & ->).
  assert (Run w1) as Hw1 by (eapply drift_Run, Hd; exact Hw).
  assert (local o w1) as Hlo1 by (eapply drift_local, Hd; [apply Hw|done]).
  pose proof (local_named _ _ Hw1 Hlo1) as Hn1. clear Hd Hw Hlo Hn w. apply wp_ret.
  destruct x as [resolved|e]; [|by apply wp_ret, set_outcome_writable].
  destruct (GetIDFromSigNozResource (SigNozResource_ (o_status o))) as [id|e] eqn:Hid.
  - assert (is_ok (id_of o) = true) as Hok by (unfold id_of; by rewrite Hid).
    apply wp_bind. eapply wp_mono; [|apply remove_attempt_wp; [done|done|by right]].
    intros [o' [e|]] w2 (Hw2 & Hid' & Hn2 & _ & Hlo2); [by apply wp_ret|].
    apply onExisting_wp; [done|done|by rewrite Hid'|left]. unfold id_of. by rewrite (proj1 (proj2 (Hlo2 eq_refl))).
  - apply onNew_wp; [done|done|]. unfold id_of. by rewrite Hid.
Qed.

(** ** The release of the finalizer *)

(** The update that drops the finalizer. *)
Lemma released_Inv (o o' : object) fs w :
  Inv w -> live w = true -> local o w -> ~ ResourceFinalizer ∈ fs -> (remote w = ∅ \/ ReclaimPolicy (o_spec o) = ReclaimOrphan) ->
  let o1 := with_meta o (set_finalizers (o_meta o) fs) in
  updated o1 (stored w) o' -> Inv (store w o' (orphans o1)).
Proof.
  intros Hw Hl (Hid & Hstat & Hat) Hout Hsafe o1 (Hsp & Hte & Hst & Hfi & Han & Hde).
  split; cbn -[GetIDFromSigNozResource orphans].
  - apply (inv_one _ Hw).
  - apply (inv_ids _ Hw).
  - intros _. rewrite <- Hid. by apply identity_template.
  - destruct Hsafe as [He|Hp]; [by right; left|left]. unfold orphans.
    rewrite bool_decide_eq_true_2 by done. rewrite bool_decide_eq_false_2 by done. apply orb_true_r.
  - intros _. pose proof (inv_named _ Hw Hl) as Hn. revert Hn. unfold named, id_of, attempted in *. rewrite Hst.
    assert (annotation o' AnnotationCreateAttempt = annotation o AnnotationCreateAttempt) as Ha
      by (unfold annotation; by rewrite Han).
    cbn -[GetIDFromSigNozResource annotation]. rewrite Ha.
    destruct (GetIDFromSigNozResource _); [done|]. intros [?|?%Hat]; [by left|by right].
  - by destruct (gone o').
Qed.

Lemma removeFinalizer_keeps (o : object) w :
  Run w -> local o w -> (remote w = ∅ \/ ReclaimPolicy (o_spec o) = ReclaimOrphan) ->
  wpx (removeFinalizer ctx o) (fun _ w' => Inv w') w.
Proof.
  intros Hw Hlo Hsafe. unfold removeFinalizer.
  destruct (decide (ResourceFinalizer ∈ m_finalizers (o_meta o))) as [Hin|Hni].
  2: { rewrite (remove_finalizer_absent _ _ Hni). by apply wp_ret, Hw. }
  destruct (remove_finalizer_present _ _ Hin) as (fs & -> & Hfs). cbn [negb].
  apply wp_bind, wp_trigger; [apply Hw|]. intros x w2 (w1 & Hd & Hx).
  assert (Run w1) as (Hw1 & Hl1 & _) by (eapply drift_Run, Hd; exact Hw).
  assert (local o w1) as Hlo1 by (eapply drift_local, Hd; [apply Hw|done]).
  assert (remote w1 = ∅ \/ ReclaimPolicy (o_spec o) = ReclaimOrphan) as Hsafe1.
  { destruct Hd as (_ & Hr & _). destruct Hsafe; [left; set_solver|by right]. }
  enough (Inv w2) by (destruct x; by apply wp_ret).
  cbn [respond] in Hx. destruct Hx as [(Hl & o' & Hup & -> & _)|[_ ->]]; [|done].
  apply released_Inv; try done. rewrite Hfs. tauto.
Qed.

(** Objects gone from SigNoz leave everything else in place. *)
Lemma less_remote_Inv w r : Inv w -> r ⊆ remote w -> Inv (with_remote w r).
Proof.
  intros Hw Hsub. split; cbn -[GetIDFromSigNozResource].
  - by eapply subset_size, inv_one.
  - intros Hin. by apply (inv_ids _ Hw), Hsub.
  - apply (inv_identity _ Hw).
  - destruct (inv_held _ Hw) as [?|[He|?]]; [by left|right; left; set_solver|by right; right].
  - intros Hl. pose proof (inv_named _ Hw Hl) as Hn. unfold named, attempted in *.
    cbn -[GetIDFromSigNozResource]. destruct (id_of _); set_solver.
  - apply (inv_gone _ Hw).
Qed.

Lemma less_remote (o : object) w r : Run w -> local o w -> r ⊆ remote w ->
  Run (with_remote w r) /\ local o (with_remote w r).
Proof. intros (Hw & Hl & Hh) Hlo Hsub. split; [|exact Hlo]. split; [by apply less_remote_Inv|by split]. Qed.

Lemma reclaim_keeps (o : object) c r id w :
  Run w -> local o w -> GetIDFromSigNozResource r = Ok id -> remote w ⊆ {[id]} ->
  wpx (reclaim rec ctx c o r) (fun _ w' => Inv w') w.
Proof.
  intros Hw Hlo Hr Hrem. unfold reclaim. apply wp_bind, wp_trigger; [apply Hw|]. intros x w2 (w1 & Hd & Hx).
  assert (Run w1) as Hw1 by (eapply drift_Run, Hd; exact Hw).
  assert (local o w1) as Hlo1 by (eapply drift_local, Hd; [apply Hw|done]).
  assert (remote w1 ⊆ {[id]}) as Hrem1 by (by eapply drift_remote).
  cbn [respond] in Hx. rewrite Hr in Hx. destruct Hx as [(-> & Hnf)|(-> & Hsome & Hgone)].
  - destruct (less_remote o w1 (remote w1 ∖ {[id]}) Hw1 Hlo1 ltac:(set_solver)) as [Hi Hlo'].
    destruct (_ && _); [by apply wp_ret, Hi|]. apply removeFinalizer_keeps; [done|done|left]. cbn. set_solver.
  - destruct (IsNotFound x) eqn:Hnf.
    + rewrite andb_false_r. apply removeFinalizer_keeps; [done|done|left]. specialize (Hgone eq_refl). set_solver.
    + rewrite bool_decide_eq_true_2 by done. by apply wp_ret, Hw1.
Qed.

Lemma finalize_keeps (o : object) w :
  Inv w -> live w = true -> local o w -> (held o -> held (stored w)) ->
  wpx (finalize NewClient rec ctx o) (fun _ w' => Inv w') w.
Proof.
  intros Hi Hl Hlo Hhe. unfold finalize. cbv zeta.
  destruct (ContainsFinalizer _ _) eqn:Hc; cbn [negb]; [|by apply wp_ret].
  apply contains_finalizer in Hc. assert (Run w) as Hw by (split; [done|]; split; [done|]; by apply Hhe). clear Hi Hl Hhe.
  destruct (decide _); [by apply removeFinalizer_keeps; auto|].
  pose proof (local_named _ _ Hw Hlo) as Hn.
  destruct (negb (is_ok _) && _) eqn:Hnone.
  { apply andb_true_iff in Hnone as [Hno Ha%bool_decide_eq_true]. apply removeFinalizer_keeps; [done|done|left].
    unfold named, id_of in Hn. destruct (GetIDFromSigNozResource _); [done|].
    destruct Hn as [?|Hat]; [done|]. apply Hlo in Hat as [v Hv]. congruence. }
  clear Hnone Hn. apply wp_bind. unfold signozClientFor. apply wp_bind, wp_trigger; [apply Hw|]. intros x w2 (w1 & Hd & ->).
  assert (Run w1) as Hw1 by (eapply drift_Run, Hd; exact Hw).
  assert (local o w1) as Hlo1 by (eapply drift_local, Hd; [apply Hw|done]). clear Hd Hw Hlo w.
  apply wp_ret. destruct x as [resolved|e]; [|by apply wp_ret, Hw1].
  pose proof (local_named _ _ Hw1 Hlo1) as Hn.
  destruct (GetIDFromSigNozResource (SigNozResource_ (o_status o))) as [id|e] eqn:Hid; cbn [is_ok].
  { unfold named, id_of in Hn. rewrite Hid in Hn. by apply reclaim_keeps with id. }
  rewrite (proj1 Hlo1). apply wp_bind, wp_trigger; [apply Hw1|]. intros x w2 (w3 & Hd & -> & Hx).
  assert (Run w3) as Hw3 by (eapply drift_Run, Hd; exact Hw1).
  assert (local o w3) as Hlo3 by (eapply drift_local, Hd; [apply Hw1|done]).
  destruct x as [[|r [|r' found]]|e']; [| |by apply wp_ret, Hw3|by apply wp_ret, Hw3].
  - apply removeFinalizer_keeps; [done|done|left]. by apply found_none.
  - destruct (found_singleton _ _ (proj1 Hw3) Hx) as (id & _ & Hr & Hrem).
    apply reclaim_keeps with id; [done|done|done|set_solver].
Qed.

(** ** The pass *)

Lemma local_stored w : Inv w -> live w = true -> local (stored w) w.
Proof. intros Hw Hl. split; [by apply (inv_identity _ Hw)|done]. Qed.

(** The update that adds the finalizer. *)
Lemma finalized_Run (o o' : object) fs w orphan :
  Inv w -> live w = true -> local o w -> ResourceFinalizer ∈ fs ->
  updated (with_meta o (set_finalizers (o_meta o) fs)) (stored w) o' -> Run (store w o' orphan) /\ local o' (store w o' orphan).
Proof.
  intros Hw Hl (Hid & Hstat & Hat) Hin (Hsp & Hte & Hst & Hfi & Han & Hde).
  assert (held o') as Hh by (unfold held; by rewrite Hfi).
  assert (Identity o' = Ok identity) as Hid' by (rewrite <- Hid; by apply identity_template).
  set (w' := store w o' _). assert (live w' = true) as Hlive by (cbn; by rewrite held_not_gone).
  assert (annotation o' AnnotationCreateAttempt = annotation o AnnotationCreateAttempt) as Ha
    by (unfold annotation; by rewrite Han).
  split; [|by split]. split; [|by split]. split; cbn -[GetIDFromSigNozResource].
  - apply (inv_one _ Hw).
  - apply (inv_ids _ Hw).
  - done.
  - right. right. by rewrite held_not_gone.
  - intros _. pose proof (inv_named _ Hw Hl) as Hn. revert Hn. unfold named, id_of, attempted in *. rewrite Hst.
    cbn -[GetIDFromSigNozResource annotation]. rewrite Ha.
    destruct (GetIDFromSigNozResource _); [done|]. intros [?|?%Hat]; [by left|by right].
  - intros _. by apply held_not_gone.
Qed.

(** The finalizer is on the stored object before anything else is done. *)
Lemma addFinalizer_wp (o : object) w :
  Inv w -> live w = true -> local o w -> (held o -> held (stored w)) ->
  wpx (addFinalizer ctx o) (fun '(o', err) w' => Inv w' /\ (err = None -> Run w' /\ local o' w')) w.
Proof.
  intros Hw Hl Hlo Hhe. unfold addFinalizer.
  destruct (decide (ResourceFinalizer ∈ m_finalizers (o_meta o))) as [Hin|Hni].
  { rewrite (add_finalizer_present _ _ Hin). apply wp_ret. split; [done|]. intros _. split; [|done].
    split; [done|]. split; [done|]. by apply Hhe. }
  destruct (add_finalizer_absent _ _ Hni) as (fs & -> & Hfs). cbn [negb].
  apply wp_bind, wp_trigger; [done|]. intros x w2 (w1 & Hd & Hx). apply wp_ret.
  assert (Inv w1) as Hw1 by (by eapply drift_Inv). assert (local o w1) as Hlo1 by (by eapply drift_local).
  cbn [respond] in Hx. destruct Hx as [(Hl1 & o' & Hup & -> & Hans)|[Hno ->]]; [|by destruct x].
  assert (ResourceFinalizer ∈ fs) as Hin by (rewrite Hfs; by left).
  destruct (finalized_Run o o' fs w1 (orphans (with_meta o (set_finalizers (o_meta o) fs))) Hw1 Hl1 Hlo1 Hin Hup) as [Hr Hlo'].
  destruct Hans as [->|Hok]; [|destruct x; [done|split; [apply Hr|done]]]. split; [apply Hr|]. by intros _.
Qed.
End Pass.

(** The status written at the end is one the world allows. *)
Lemma status_update_wp ctx (o : object) w :
  Run w -> named (id_of o) w -> wpx (trigger (KStatusUpdate ctx o)) (fun _ w' => Inv w') w.
Proof.
  intros Hw Hn. apply wp_trigger; [apply Hw|]. intros x w2 (w1 & Hd & Hx).
  assert (Run w1) as (Hw1 & Hl1 & Hh1) by (eapply drift_Run, Hd; exact Hw).
  assert (named (id_of o) w1) as Hn1 by (eapply drift_named, Hd; [apply Hw|done]).
  cbn [respond] in Hx. destruct Hx as [(_ & o' & (Hsp & Hte & Hst & Hfi & Han & Hde) & -> & _)|[_ ->]]; [|done].
  apply store_Run; [done| | |].
  - rewrite (identity_template o' (stored w1)) by done. by apply (inv_identity _ Hw1).
  - unfold held. by rewrite Hfi.
  - unfold named, id_of, attempted, annotation in *. rewrite Hst. cbn -[GetIDFromSigNozResource]. by rewrite Han.
Qed.

Lemma Reconcile_wp ctx (w : world) :
  Inv w -> live w = true -> wpx (Reconcile NewClient rec ctx (stored w)) (fun _ w' => Inv w') w.
Proof.
  intros Hw Hl. unfold Reconcile. cbv zeta. set (ctx' := if decide _ then _ else _).
  destruct (m_deletion _); [apply finalize_keeps; [done|done|by apply local_stored|done]|].
  apply wp_bind. eapply wp_mono; [|apply addFinalizer_wp; [done|done|by apply local_stored|done]].
  intros [o [e|]] w1 [Hw1 Hrun]; [by apply wp_ret|]. destruct (Hrun eq_refl) as [Hr Hlo]. clear Hrun.
  apply wp_bind. eapply wp_mono; [|by apply reconcile_wp].
  intros [[o' res] err] w2 [Hr2 Hn2]. destruct (DeepEqual _ _); [by apply wp_ret, Hr2|].
  apply wp_bind, wp_trigger; [apply Hr2|]. intros now w4 (w3 & Hd & ->).
  assert (Run w3) as Hr3 by (eapply drift_Run, Hd; exact Hr2).
  assert (named (id_of o') w3) as Hn3 by (eapply drift_named, Hd; [apply Hr2|done]).
  apply wp_bind. eapply wp_mono; [|by apply status_update_wp]. intros [?|?] w5 Hw5; by apply wp_ret.
Qed.

Lemma fresh_Inv w : fresh identity w -> Inv w.
Proof.
  intros (Hl & Hg & Ho & Hr & Hi). split.
  - rewrite Hr, size_empty. lia.
  - rewrite Hr. set_solver.
  - done.
  - by right; left.
  - intros _. unfold named. rewrite Hr. destruct (id_of _); [set_solver|by left].
  - done.
Qed.

Lemma reachable_Inv ctx w : reachable (SigNoz := SigNoz) (Resolved := Resolved) NewClient rec ctx identity w -> Inv w.
Proof.
  induction 1 as [w Hf|w w' _ IH Hd|w p w' _ IH Hl Hex].
  - by apply fresh_Inv.
  - by eapply drift_Inv.
  - pose proof (wp_exec _ _ _ _ _ _ _ (Reconcile_wp ctx w IH Hl) Hex) as Hp. destruct p; [done|apply Hp].
Qed.

Lemma Inv_accounted w : Inv w ->
  (size (remote w) <= 1)%nat /\
  (live w = true -> forall id, id ∈ remote w ->
     id_of (stored w) = Ok id \/ is_ok (id_of (stored w)) = false /\ attempted (stored w)) /\
  (live w = true -> remote w <> ∅ -> orphaned w = true \/ held (stored w)) /\
  (live w = false -> remote w <> ∅ -> orphaned w = true).
Proof.
  intros Hw. split; [apply (inv_one _ Hw)|]. split; [|split].
  - intros Hl id Hin. pose proof (inv_named _ Hw Hl) as Hn. unfold named in Hn.
    destruct (id_of (stored w)) as [id'|]; [left; f_equal; set_solver|right]. split; [done|].
    destruct Hn as [He|?]; [set_solver|done].
  - intros Hl Hne. destruct (inv_held _ Hw) as [?|[?|[_ ?]]]; by auto.
  - intros Hl Hne. destruct (inv_held _ Hw) as [?|[?|[? _]]]; [done|done|congruence].
Qed.

(** C1. Created at most once, and never lost.  Over any sequence of passes, each cut
    short anywhere, with every write of either server failing or losing its
    answer, and users editing the object in between: SigNoz never holds two
    objects of the identity; while the object exists, one it holds is named by
    the recorded id, or its attempt is on record in the stored annotation; it is
    held by the finalizer; and once the object is gone nothing is left in SigNoz,
    unless it was orphaned on purpose. *)
Theorem created_once_and_never_lost ctx w :
  reachable (SigNoz := SigNoz) (Resolved := Resolved) NewClient rec ctx identity w ->
  (size (remote w) <= 1)%nat /\
  (live w = true -> forall id, id ∈ remote w ->
     id_of (stored w) = Ok id \/ is_ok (id_of (stored w)) = false /\ attempted (stored w)) /\
  (live w = true -> remote w <> ∅ -> orphaned w = true \/ held (stored w)) /\
  (live w = false -> remote w <> ∅ -> orphaned w = true).
Proof. intros Hw%reachable_Inv. by apply Inv_accounted. Qed.
End Safety.
