(* ===== verification/ProtocolRecovery.v ===== *)
(** * What an undisturbed pass repairs

    From every state the system can reach, whatever crashed or lost its answer on
    the way there, passes in which nothing goes wrong end with the object bound
    to the one object of SigNoz, or, when it is being deleted, with nothing left
    there. *)

From S2P Require Import Prelude GoStd Errors Kube Core Conditions Effects Interfaces Reconciler ReconcilerSafety ReconcilerOutcome Protocol ProtocolProgress ProtocolSafety.
From Stdlib Require Import String.

Local Open Scope string_scope.

Section Recovery.
Context {T SigNoz Resolved : Type} `{AML : ApiMachineryLaws} `{RO : ResourceObject T} `{SEL : SemanticEqualLaw CoreStatus}.
Context {DT : DesiredFromTemplate T}.
Context (NewClient : Resolved -> SigNoz) (rec : commonReconciler) (identity : string).

Abbreviation E := (call T SigNoz Resolved).
Abbreviation world := (Protocol.world (T := T)).
Abbreviation object := (Object T).
Abbreviation calmly := (wp (calm (T := T) (SigNoz := SigNoz) (Resolved := Resolved)) (fun X w e => True)).

(** The two of one name. *)
Definition bound (w : world) : Prop := exists id, id_of (stored w) = Ok id /\ remote w = {[id]}.

(** What the operator leaves of an object it works on. *)
Definition kept (o o' : object) : Prop :=
  o_spec o' = o_spec o /\ o_template o' = o_template o /\ m_deletion (o_meta o') = m_deletion (o_meta o) /\
  annotation o' AnnotationSigNozResourceID = annotation o AnnotationSigNozResourceID /\ (held o -> held o').

#[export] Instance kept_preorder : PreOrder kept.
Proof.
  split; [by intros o|]. intros a b c (? & ? & ? & ? & ?) (? & ? & ? & ? & ?). repeat split; try congruence; auto.
Qed.

(** ** A calm run is a run *)

Lemma drift_refl (w : world) : Inv identity w -> drift identity w w.
Proof.
  intros Hw. split; [done|]. split; [done|]. destruct (live w) eqn:Hl; [|done].
  split; [|by rewrite (inv_gone _ _ Hw)]. split; [by apply (inv_identity _ _ Hw)|done].
Qed.

Lemma calm_step X (w : world) (e : E X) x w' :
  Inv identity w -> calm X w e x w' -> step identity X w e x w'.
Proof. intros Hw [Hr _]. exists w. split; [by apply drift_refl|done]. Qed.

Lemma wp_calm {R} (p : prog E R) Q (w : world) :
  wp (step identity) (fun X w (e : E X) => Inv identity w) p Q w -> calmly p Q w.
Proof.
  revert w. induction p as [r|X e k IH]; cbn; intros w; [done|]. intros [Hw Hk]. split; [done|].
  intros x w' Hc. apply IH, Hk. by apply calm_step.
Qed.

Lemma calm_Inv ctx (w : world) r w' :
  Inv identity w -> live w = true ->
  exec (calm (SigNoz := SigNoz)) (Reconcile NewClient rec ctx (stored w)) w (Ret r) w' -> Inv identity w'.
Proof.
  intros Hw Hl Hex. pose proof (wp_calm _ _ _ (Reconcile_wp NewClient rec identity ctx w Hw Hl)) as Hwp.
  exact (wp_complete _ _ _ _ _ _ _ Hwp Hex).
Qed.

(** ** The steps of a pass *)

Section Pass.
Context (ctx : Context).

(** A write that succeeds. *)
Lemma written_ok (w : world) accepts orphan x w' :
  written_to w accepts orphan x w' -> is_ok x = true ->
  exists o, x = Ok o /\ accepts o /\ w' = store w o orphan /\ live w = true.
Proof.
  intros [(Hl & o & Ha & -> & [->|Hx])|[Hx _]] Hok; [by exists o|congruence|congruence].
Qed.

Lemma add_attempt_calm (o : object) (w : world) :
  calmly (addCreateAttemptAnnotation ctx o)
    (fun '(o', err) w' => err = None /\ stored w' = o' /\ kept (stored w) o' /\ o_status o' = o_status (stored w) /\
       remote w' = remote w) w.
Proof.
  unfold addCreateAttemptAnnotation. apply wp_bind, wp_trigger; [done|]. intros now w1 [-> _].
  apply wp_bind, wp_trigger; [done|]. intros x w2 [Hx Hok]. apply wp_ret.
  destruct (written_ok _ _ _ _ _ Hx Hok) as (o' & -> & (Hsp & Hte & Hst & Hfi & Hde & Han) & -> & _).
  split; [done|]. split; [done|]. split; [|done]. split; [done|]. split; [done|]. split; [done|].
  split; [|unfold held; by rewrite Hfi]. rewrite Han, setting_nulls_nothing. rewrite decide_True; [done|]. apply lookup_insert_ne. done.
Qed.

Lemma remove_attempt_calm (o : object) (w : world) :
  o_status o = o_status (stored w) ->
  annotation o AnnotationSigNozResourceID = annotation (stored w) AnnotationSigNozResourceID ->
  calmly (removeCreateAttemptAnnotation ctx o)
    (fun '(o', err) w' => err = None /\ kept (stored w) (stored w') /\ o_status (stored w') = o_status (stored w) /\
       o_status o' = o_status (stored w) /\ remote w' = remote w) w.
Proof.
  intros Hs Hpin. unfold removeCreateAttemptAnnotation. destruct (annotation o AnnotationCreateAttempt); [|by apply wp_ret].
  apply wp_bind, wp_trigger; [done|]. intros x w2 [Hx Hok]. apply wp_ret.
  destruct (written_ok _ _ _ _ _ Hx Hok) as (o' & -> & (Hsp & Hte & Hst & Hfi & Hde & Han) & -> & _).
  split; [done|]. split; [|done]. split; [done|]. split; [done|]. split; [done|].
  split; [|unfold held; cbn; by rewrite Hfi]. cbn [stored store].
  assert (annotation (with_meta o (set_annotations (o_meta o) (delete AnnotationCreateAttempt (m_annotations (o_meta o)))))
    AnnotationSigNozResourceID = annotation o AnnotationSigNozResourceID) as Hsame by (by apply lookup_delete_ne).
  rewrite Han. destruct (nulls_annotations _ _) eqn:Hnull; [|by rewrite decide_True].
  apply andb_true_iff in Hnull as [Hnull%bool_decide_eq_true _]. unfold annotation in Hsame at 1. by rewrite Hnull, lookup_empty, Hpin in Hsame.
Qed.

Lemma onExisting_calm (o : object) c hash id (w : world) :
  id_of o = Ok id ->
  calmly (onExistingObject rec ctx o c hash)
    (fun '(o', _, err) w' => w' = w /\ err = None /\
       if decide (id ∈ remote w) then id_of o' = Ok id else is_ok (id_of o') = false) w.
Proof.
  intros Hid. unfold onExistingObject. cbv zeta. apply wp_bind, wp_trigger; [done|].
  intros x w1 [[-> Hx] Hs]. cbn [succeeds] in Hs. fold (id_of o) in *. rewrite Hid in Hx, Hs.
  destruct x as [body|e].
  - specialize (Hs id eq_refl). destruct (decide (id ∈ remote w)); [|done].
    destruct (Compare o body); [|by apply wp_ret; rewrite id_set_outcome].
    destruct (decide _); [by apply wp_ret; rewrite id_set_outcome|].
    destruct (_ && _); [by apply wp_ret; rewrite id_set_outcome|].
    apply wp_bind, wp_trigger; [done|]. intros err w1 [Hup Hs']. cbn in Hs'. subst err.
    assert (w1 = w) as ->.
    { destruct Hup as [->|(id' & Hid' & ->)]; [done|]. fold (id_of o) in Hid'. rewrite Hid in Hid'. injection Hid' as <-.
      destruct w. unfold with_remote. cbn in *. f_equal. set_solver. }
    apply wp_ret. by rewrite id_set_outcome.
  - rewrite Hs. apply wp_ret. destruct (decide (id ∈ remote w)); [by destruct (Hx Hs)|]. by rewrite id_set_outcome.
Qed.

(** The pass ends bound. *)
Abbreviation binds w := (fun '(o', _, err) w' =>
  err = None /\ kept (stored w) (stored w') /\ o_status (stored w') = o_status (stored w) /\
  exists id, id_of o' = Ok id /\ remote w' = {[id]}).

Lemma adopt_calm (o : object) c r hash id (w : world) :
  GetIDFromSigNozResource r = Ok id -> remote w = {[id]} ->
  calmly (adopt rec ctx o c r hash) (binds w) w.
Proof.
  intros Hr Hrem. unfold adopt. apply wp_bind. eapply wp_mono; [|apply add_attempt_calm].
  intros [o' err] w' (-> & Hst & Hk & Hs & Hrem').
  eapply wp_mono; [|by apply (onExisting_calm _ _ _ id)].
  intros [[o2 res] err] w2 (-> & -> & Hid). rewrite decide_True in Hid by set_solver. rewrite Hst.
  split; [done|]. split; [done|]. split; [done|]. exists id. split; [done|congruence].
Qed.

Lemma create_calm (o : object) c hash (w : world) :
  remote w = ∅ -> calmly (create rec ctx o c identity hash) (binds w) w.
Proof.
  intros Hrem. unfold create. cbv zeta. apply wp_bind. eapply wp_mono; [|apply add_attempt_calm].
  intros [o' err] w' (-> & Hst & Hk & Hs & Hrem'). apply wp_bind, wp_trigger; [done|].
  intros x w2 [Hx Hok]. destruct x as [r|e]; [|done]. destruct Hx as (id & Hne & _ & -> & ->). apply wp_ret.
  cbn [stored with_remote]. rewrite Hst. split; [done|]. split; [done|]. split; [done|]. exists id.
  rewrite id_set_outcome. split; [unfold id_of; cbn; by rewrite decide_False|]. cbn. rewrite Hrem', Hrem. set_solver.
Qed.

Lemma onNew_calm (o : object) c hash (w : world) :
  Inv identity w -> annotation_or_zero o AnnotationSigNozResourceID = "" ->
  calmly (onNewObject rec ctx o c identity hash) (binds w) w.
Proof.
  intros Hw Hpin. unfold onNewObject. cbv zeta. apply wp_bind, wp_trigger; [done|].
  intros x w1 [[-> Hx] Hok]. destruct x as [found|e]; [|done].
  rewrite decide_False by tauto. destruct found as [|r [|r' found]].
  - apply create_calm. by apply (found_none w).
  - destruct (found_singleton _ _ _ Hw Hx) as (id & _ & Hr & Hrem). by apply (adopt_calm _ _ _ _ id).
  - exfalso. apply Permutation_length in Hx. rewrite length_fmap in Hx.
    pose proof (inv_one _ _ Hw) as Hone. unfold size, set_size in Hone. cbn in Hone, Hx. lia.
Qed.

(** Bound, or found to be gone: the next pass then creates it. *)
Lemma reconcile_calm (o : object) hash (w : world) :
  Run identity w -> local identity o w -> Suspend (o_spec o) = false ->
  annotation o AnnotationSigNozResourceID = annotation (stored w) AnnotationSigNozResourceID ->
  annotation_or_zero o AnnotationSigNozResourceID = "" -> Interfaces.Hash o = Ok hash ->
  calmly (reconcile NewClient rec ctx o)
    (fun '(o', _, err) w' => err = None /\ kept (stored w) (stored w') /\ o_status (stored w') = o_status (stored w) /\
       ((exists id, id_of o' = Ok id /\ remote w' = {[id]}) \/
        remote w = ∅ /\ is_ok (id_of o) = true /\ is_ok (id_of o') = false)) w.
Proof.
  intros Hw Hlo Hsus Hsame Hpin Hh. unfold reconcile. cbv zeta. rewrite Hsus, (proj1 Hlo), Hh.
  apply wp_bind. unfold signozClientFor. apply wp_bind, wp_trigger; [done|]. intros x w1 [-> Hok].
  destruct x as [resolved|e]; [|done]. apply wp_ret.
  destruct (GetIDFromSigNozResource (SigNozResource_ (o_status o))) as [id|e] eqn:Hid; fold (id_of o) in Hid.
  - apply wp_bind. eapply wp_mono; [|apply remove_attempt_calm; [apply Hlo|done]].
    intros [o' err] w2 (-> & Hk & Hs & Hs' & Hrem).
    assert (id_of o' = Ok id) as Hid' by (unfold id_of in *; rewrite Hs'; by destruct Hlo as (_ & <- & _)).
    eapply wp_mono; [|by apply (onExisting_calm _ _ _ id)]. intros [[o2 res] err] w3 (-> & -> & Hres).
    pose proof (local_named identity _ _ Hw Hlo) as Hn. unfold named in Hn. rewrite Hid in Hn.
    split; [done|]. split; [done|]. split; [done|]. destruct (decide (id ∈ remote w2)) as [Hin|Hni].
    + left. exists id. split; [done|]. set_solver.
    + right. rewrite Hid. split; [set_solver|done].
  - eapply wp_mono; [|apply onNew_calm; [apply Hw|done]].
    intros [[o' res] err] w2 (? & ? & ? & ?). split; [done|]. split; [done|]. split; [done|]. by left.
Qed.

(** ** Deletion *)

Abbreviation reclaimed := (fun '(_, _, err) w' => err = None /\ remote w' = ∅ /\ ~ held (stored w')).

Lemma removeFinalizer_calm (o : object) (w : world) :
  held o -> remote w = ∅ -> calmly (removeFinalizer ctx o) reclaimed w.
Proof.
  intros Hh Hrem. unfold removeFinalizer. destruct (remove_finalizer_present _ _ Hh) as (fs & -> & Hfs).
  cbn [negb]. apply wp_bind, wp_trigger; [done|]. intros x w2 [Hx Hok].
  destruct (written_ok _ _ _ _ _ Hx Hok) as (o' & -> & (_ & _ & _ & Hfi & _) & -> & _). apply wp_ret.
  split; [done|]. split; [done|]. unfold held. cbn. rewrite Hfi. cbn. rewrite Hfs. tauto.
Qed.

Lemma reclaim_calm (o : object) c r id (w : world) :
  held o -> GetIDFromSigNozResource r = Ok id -> remote w ⊆ {[id]} ->
  calmly (reclaim rec ctx c o r) reclaimed w.
Proof.
  intros Hh Hr Hrem. unfold reclaim. apply wp_bind, wp_trigger; [done|]. intros x w1 [Hx Hok].
  cbn [respond] in Hx. rewrite Hr in Hx. cbn [succeeds] in Hok.
  assert (bool_decide (is_Some x) && negb (IsNotFound x) = false) as ->.
  { destruct Hok as [->| ->]; [done|apply andb_false_r]. }
  apply removeFinalizer_calm; [done|]. destruct Hx as [[-> _]|(-> & [e ->] & Hgone)]; [cbn; set_solver|].
  destruct Hok as [?|Hnf]; [done|]. specialize (Hgone Hnf). set_solver.
Qed.

Lemma finalize_calm (o : object) (w : world) :
  Run identity w -> local identity o w -> held o -> ReclaimPolicy (o_spec o) <> ReclaimOrphan ->
  calmly (finalize NewClient rec ctx o) reclaimed w.
Proof.
  intros Hw Hlo Hh Hpol. unfold finalize. cbv zeta.
  rewrite (proj2 (contains_finalizer _ _) Hh), decide_False by done. cbn [negb].
  pose proof (local_named identity _ _ Hw Hlo) as Hn.
  destruct (GetIDFromSigNozResource (SigNozResource_ (o_status o))) as [id|e] eqn:Hid; fold (id_of o) in Hid;
    unfold named in Hn; rewrite Hid in Hn; cbn [is_ok negb andb].
  - apply wp_bind. unfold signozClientFor. apply wp_bind, wp_trigger; [done|]. intros x w1 [-> Hok].
    destruct x; [|done]. by apply (reclaim_calm _ _ _ id).
  - destruct (bool_decide _) eqn:Ha.
    { apply bool_decide_eq_true in Ha. apply removeFinalizer_calm; [done|].
      destruct Hn as [?|Hat]; [done|]. apply Hlo in Hat as [v Hv]. congruence. }
    apply wp_bind. unfold signozClientFor. apply wp_bind, wp_trigger; [done|]. intros x w1 [-> Hok].
    destruct x; [|done]. apply wp_ret. rewrite (proj1 Hlo).
    apply wp_bind, wp_trigger; [done|]. intros x w1 [[-> Hx] Hok']. destruct x as [found|]; [|done].
    destruct found as [|r [|r' found]].
    + apply removeFinalizer_calm; [done|]. by apply found_none.
    + destruct (found_singleton _ _ _ (proj1 Hw) Hx) as (id & _ & Hr & Hrem).
      apply (reclaim_calm _ _ _ id); [done|done|set_solver].
    + exfalso. apply Permutation_length in Hx. rewrite length_fmap in Hx.
      pose proof (inv_one _ _ (proj1 Hw)) as Hone. unfold size, set_size in Hone. cbn in Hone, Hx. lia.
Qed.

(** ** The whole pass *)

Lemma addFinalizer_calm (w : world) :
  Inv identity w -> live w = true ->
  calmly (addFinalizer ctx (stored w))
    (fun '(o', err) w' => err = None /\ stored w' = o' /\ held o' /\ kept (stored w) o' /\
       o_status o' = o_status (stored w) /\ remote w' = remote w) w.
Proof.
  intros Hw Hl. unfold addFinalizer.
  destruct (decide (ResourceFinalizer ∈ m_finalizers (o_meta (stored w)))) as [Hin|Hni].
  { rewrite (add_finalizer_present _ _ Hin). apply wp_ret. by repeat split. }
  destruct (add_finalizer_absent _ _ Hni) as (fs & -> & Hfs). cbn [negb].
  apply wp_bind, wp_trigger; [done|]. intros x w2 [Hx Hok]. apply wp_ret.
  destruct (written_ok _ _ _ _ _ Hx Hok) as (o' & -> & (Hsp & Hte & Hst & Hfi & Han & Hde) & -> & _).
  assert (held o') as Hh by (unfold held; rewrite Hfi; cbn; rewrite Hfs; by left).
  split; [done|]. split; [done|]. split; [done|]. split; [|done].
  split; [done|]. split; [done|]. split; [done|]. split; [|done]. unfold annotation. by rewrite Han.
Qed.

End Pass.

(** A world the operator works on: the object exists, is not deleted, suspended or
    pinned, and its body can be rendered. *)
Definition workable (w : world) : Prop :=
  live w = true /\ m_deletion (o_meta (stored w)) = None /\ Suspend (o_spec (stored w)) = false /\
  annotation_or_zero (stored w) AnnotationSigNozResourceID = "" /\ is_ok (Interfaces.Hash (stored w)) = true.

Lemma kept_workable (w w' : world) : workable w -> kept (stored w) (stored w') ->
  live w' = true -> workable w'.
Proof.
  intros (_ & Hd & Hs & Hp & Hh) (Hsp & Hte & Hde & Han & _) Hl. unfold workable.
  rewrite Hl, Hsp, Hde, (hash_template _ _ Hte). unfold annotation_or_zero. rewrite Han. by repeat split.
Qed.

Lemma Reconcile_calm ctx (w : world) :
  Inv identity w -> workable w ->
  calmly (Reconcile NewClient rec ctx (stored w))
    (fun '(_, _, err) w' => err = None /\ kept (stored w) (stored w') /\
       (bound w' \/ remote w = ∅ /\ is_ok (id_of (stored w)) = true /\ is_ok (id_of (stored w')) = false)) w.
Proof.
  intros Hw (Hl & Hde & Hsus & Hpin & Hh). unfold Reconcile. cbv zeta. rewrite Hde. set (ctx' := if decide _ then _ else _).
  pose proof (wp_and (addFinalizer_calm ctx' w Hw Hl)
    (wp_calm _ _ _ (addFinalizer_wp identity ctx' (stored w) w Hw Hl (local_stored identity w Hw Hl) id))) as Hadd.
  apply wp_bind. eapply wp_mono; [|exact Hadd]. clear Hadd. intros [o err] w1 [(-> & Hst & Hheld & Hk & Hs & Hrem) [Hw1 Hrun]]. destruct (Hrun eq_refl) as [Hr Hlo]. clear Hrun.
  pose proof Hk as (Hsp & Hte & Hde1 & Han & _). apply is_ok_true in Hh as [hash Hh].
  apply wp_bind. eapply wp_mono; [|apply (reconcile_calm ctx' o hash w1 Hr Hlo)].
  2: by rewrite Hsp. 2: by rewrite Hst. 2: by (unfold annotation_or_zero in *; rewrite Han). 2: by rewrite (hash_template _ _ Hte).
  intros [[o' res] err] w2 (-> & Hk2 & Hs2 & Hout). rewrite Hst in Hk2.
  assert (forall w3, id_of (stored w3) = id_of o' -> remote w3 = remote w2 ->
    bound w3 \/ remote w = ∅ /\ is_ok (id_of (stored w)) = true /\ is_ok (id_of (stored w3)) = false) as Hend.
  { intros w3 Hid Hrem3. unfold bound. rewrite Hid, Hrem3. destruct Hout as [?|(He & Hok & ?)]; [by left|right].
    split; [by rewrite <- Hrem|]. split; [|done]. unfold id_of in *. by rewrite <- Hs. }
  destruct (DeepEqual _ _) eqn:Hdeep.
  - apply (proj1 (deep_equal _ _)) in Hdeep. apply wp_ret. split; [done|]. split; [by etrans|].
    apply Hend; [|done]. unfold id_of. by rewrite Hs2, Hst, Hdeep.
  - apply wp_bind, wp_trigger; [done|]. intros now w3 [-> _]. apply wp_bind, wp_trigger; [done|]. intros x w3 [Hx Hok].
    destruct (written_ok _ _ _ _ _ Hx Hok) as (o3 & -> & (Hsp3 & Hte3 & Hst3 & Hfi3 & Han3 & Hde3) & -> & _). apply wp_ret.
    split; [done|]. split; [|apply Hend; [|done]; unfold id_of; cbn -[GetIDFromSigNozResource]; by rewrite Hst3].
    etrans; [exact Hk|]. etrans; [exact Hk2|]. cbn. split; [done|]. split; [done|]. split; [done|].
    split; [unfold annotation; by rewrite Han3|unfold held; by rewrite Hfi3].
Qed.

(** ** What calm passes achieve *)

Context {IR : Inhabited Resolved}.
Abbreviation undisturbed := (always (calm (T := T) (SigNoz := SigNoz) (Resolved := Resolved))).

Lemma workable_undeleted (w : world) : workable w -> undeleted w.
Proof. intros (Hl & Hd & _). by split. Qed.

(** C3. Two undisturbed passes recover from anything.  From every state the system
    can reach, however many passes crashed, failed or lost their answers before
    it, and whatever was removed from SigNoz: over an object that is neither
    deleted, suspended nor pinned, and whose body renders, two passes in which
    every call succeeds never get stuck, and end without an error, with the id of
    the one object of its identity in SigNoz recorded in its stored status. *)
Theorem two_calm_passes_recover ctx w :
  reachable (SigNoz := SigNoz) NewClient rec ctx identity w -> workable w ->
  undisturbed (Reconcile NewClient rec ctx (stored w)) w (fun _ w1 =>
    undisturbed (Reconcile NewClient rec ctx (stored w1)) w1 (fun '(_, _, err) w2 =>
      err = None /\ exists id, id_of (stored w2) = Ok id /\ remote w2 = {[id]})).
Proof.
  intros Hw%reachable_Inv Hok. apply undeleted_always; [by apply workable_undeleted|].
  intros [[o1 res1] err1] w1 Hex1.
  destruct (wp_complete _ _ _ _ _ _ _ (Reconcile_calm ctx w Hw Hok) Hex1) as (-> & Hk & Hout).
  pose proof (calm_Inv ctx w _ _ Hw (proj1 Hok) Hex1) as Hw1.
  pose proof (exec_preserves _ undeleted _ _ _ _ calm_undeleted Hex1 (workable_undeleted _ Hok)) as Hu1.
  pose proof (kept_workable _ _ Hok Hk (proj1 Hu1)) as Hok1.
  apply undeleted_always; [done|]. intros [[o2 res2] err2] w2 Hex2.
  destruct (wp_complete _ _ _ _ _ _ _ (Reconcile_calm ctx w1 Hw1 Hok1) Hex2) as (-> & _ & [Hb|(Hrem & Hid & _)]); [by split|].
  destruct Hout as [(id & Hid1 & Hrem1)|(_ & _ & Hno)]; [set_solver|congruence].
Qed.

(** C4. Deletion reclaims.  From every state the system can reach, one undisturbed
    pass over an object that is being deleted, that the finalizer holds and that
    is not to be orphaned, never gets stuck, and ends without an error, with
    nothing of the identity left in SigNoz and the finalizer dropped: a create
    whose outcome was never learnt is found and removed too. *)
Theorem calm_deletion_reclaims ctx w :
  reachable (SigNoz := SigNoz) NewClient rec ctx identity w ->
  live w = true -> is_Some (m_deletion (o_meta (stored w))) -> held (stored w) ->
  ReclaimPolicy (o_spec (stored w)) <> ReclaimOrphan ->
  undisturbed (Reconcile NewClient rec ctx (stored w)) w (fun '(_, _, err) w' =>
    err = None /\ remote w' = ∅ /\ ~ held (stored w')).
Proof.
  intros Hw%reachable_Inv Hl [d Hd] Hh Hp. unfold Reconcile. cbv zeta. rewrite Hd.
  apply writes_last_always; [apply finalize_writes_last|done|]. intros [[o res] err] w' Hex.
  assert (Run identity w) as Hr by (by split).
  exact (wp_complete _ _ _ _ _ _ _ (finalize_calm _ (stored w) w Hr (local_stored identity w Hw Hl) Hh Hp) Hex).
Qed.
End Recovery.
