(* ===== verification/ProtocolCalls.v ===== *)
(** * What an undisturbed pass asks for

    In a world in which nothing goes wrong, a pass reads in SigNoz the object
    recorded when it began or one of the identity, creates when there is none,
    updates one it has just read, always of the desired state it began with; and
    the resource is there at every call. *)

From S2P Require Import Prelude GoStd Errors Kube Core Conditions Effects Interp Interfaces Reconciler ReconcilerSafety ReconcilerOutcome Protocol ProtocolProgress ProtocolSafety ProtocolRecovery.
From Stdlib Require Import String.

Local Open Scope string_scope.

Section Reads.
Context {T SigNoz Resolved : Type} `{AML : ApiMachineryLaws} `{RO : ResourceObject T} `{SEL : SemanticEqualLaw CoreStatus}.
Context {DT : DesiredFromTemplate T}.
Context (NewClient : Resolved -> SigNoz) (rec : commonReconciler).

Abbreviation E := (call T SigNoz Resolved).
Abbreviation world := (Protocol.world (T := T)).
Abbreviation object := (Object T).
Abbreviation calm_step := (calm (T := T) (SigNoz := SigNoz) (Resolved := Resolved)).

(** ** Calls of SigNoz *)

Section Begun.
(** The object as the pass was given it. *)
Context (o0 : object).

Definition unchanged (o : object) : Prop := o_template o = o_template o0.

Definition familiar (o : object) (w : world) : Prop :=
  exists id, id_of o = Ok id /\ (id_of o0 = Ok id \/ id ∈ remote w).

Definition known (X : Type) (w : world) (e : E X) : Prop :=
  match e with
  | Read _ _ _ r => m_deletion (o_meta o0) = None /\ exists id, GetIDFromSigNozResource r = Ok id /\ (id_of o0 = Ok id \/ id ∈ remote w)
  | Create _ _ o => m_deletion (o_meta o0) = None /\ unchanged o /\ remote w = ∅
  | Update _ _ o r => m_deletion (o_meta o0) = None /\ unchanged o /\ exists id, GetIDFromSigNozResource r = Ok id /\ id ∈ remote w
  | Delete _ _ _ r => is_ok (GetIDFromSigNozResource r) = true
  | _ => True
  end.

Abbreviation wpk := (wp calm_step known).

Section Live.
Context (Hlive : m_deletion (o_meta o0) = None).

Lemma onExisting_known ctx (o : object) c hash w :
  unchanged o -> familiar o w -> wpk (onExistingObject rec ctx o c hash) (fun _ _ => True) w.
Proof.
  intros Ho (id & Hid & Hf). unfold onExistingObject. cbv zeta. apply wp_bind, wp_trigger; [split; [done|by exists id]|].
  intros x w1 [[-> _] Hs]. cbn [succeeds] in Hs. destruct x as [body|e]; [|by case_match].
  destruct (Compare o body); [|done]. do 2 (case_match; [done|]).
  apply wp_bind, wp_trigger; [split; [done|]; split; [done|]; exists id; eauto|]. intros [e|] w2 _; done.
Qed.

Lemma patch_known ctx (o base : object) (w : world) :
  wpk (r ← trigger (KPatch ctx o base); mret (written o r))
    (fun '(o', err) w' => err = None /\ remote w' = remote w /\ o_status o' = o_status (stored w) /\
       o_status (stored w') = o_status (stored w) /\ o_template o' = o_template (stored w)) w.
Proof.
  apply wp_bind, wp_trigger; [done|]. intros x w2 [Hx Hok]. apply wp_ret.
  destruct (written_ok _ _ _ _ _ Hx Hok) as (o' & -> & (_ & Ht & Hst & _) & -> & _). by repeat split.
Qed.

Lemma adopt_known ctx (o : object) c r hash id w :
  unchanged (stored w) -> GetIDFromSigNozResource r = Ok id -> id ∈ remote w ->
  wpk (adopt rec ctx o c r hash) (fun _ _ => True) w.
Proof.
  intros Hw Hr Hid. unfold adopt, addCreateAttemptAnnotation. apply wp_bind, wp_bind, wp_trigger; [done|]. intros now w1 [-> _].
  eapply wp_mono; [|apply patch_known]. intros [o' err] w2 (-> & Hrem & _ & _ & Ht).
  apply onExisting_known; [unfold unchanged; cbn; congruence|]. exists id. split; [exact Hr|]. right. by rewrite Hrem.
Qed.

Lemma found_named (w : world) found r : found ≡ₚ named_by <$> elements (remote w) -> r ∈ found ->
  exists id, r = named_by id /\ id ∈ remote w.
Proof.
  intros Hp Hr. rewrite Hp in Hr. apply list_elem_of_fmap in Hr as (id & -> & Hin). exists id. by apply elem_of_elements in Hin.
Qed.

Lemma create_known ctx (o : object) c identity hash w :
  unchanged (stored w) -> remote w = ∅ -> wpk (create rec ctx o c identity hash) (fun _ _ => True) w.
Proof.
  intros Hw Hrem. unfold create, addCreateAttemptAnnotation. apply wp_bind, wp_bind, wp_trigger; [done|]. intros now w1 [-> _].
  eapply wp_mono; [|apply patch_known]. intros [o' err] w2 (-> & Hrem' & _ & _ & Ht).
  apply wp_bind, wp_trigger; [split; [done|]; split; [unfold unchanged; congruence|congruence]|].
  intros x w3 [_ Hok]. by destruct x.
Qed.

Lemma onNew_known ctx (o : object) c identity hash w :
  unchanged (stored w) -> ~ "" ∈ remote w -> wpk (onNewObject rec ctx o c identity hash) (fun _ _ => True) w.
Proof.
  intros Hw Hne. unfold onNewObject. cbv zeta. apply wp_bind, wp_trigger; [done|]. intros x w1 [[-> Hx] Hok].
  destruct x as [found|e]; [|done].
  assert (forall r, r ∈ found -> wpk (adopt rec ctx o c r hash) (fun _ _ => True) w) as Hadopt.
  { intros r (id & -> & Hid)%(found_named _ _ _ Hx). apply (adopt_known _ _ _ _ _ id); [done| |done].
    cbn. rewrite decide_False; [done|]. by intros ->. }
  destruct (decide _).
  - destruct (find_pinned _ _) as [r|] eqn:Hp; [|done]. by eapply Hadopt, find_pinned_found.
  - destruct found as [|r [|r' found]]; [|apply Hadopt; by left|done]. apply create_known; [done|]. by apply found_none.
Qed.

Lemma reconcile_known ctx (o : object) w :
  o_status o = o_status o0 -> o_status (stored w) = o_status o0 -> unchanged o -> unchanged (stored w) -> ~ "" ∈ remote w ->
  wpk (reconcile NewClient rec ctx o) (fun _ _ => True) w.
Proof.
  intros Ho Hw Ht Htw Hne. unfold reconcile. cbv zeta. destruct (Suspend _); [done|]. destruct (Identity o); [|done].
  destruct (Interfaces.Hash o); [|done]. apply wp_bind. unfold signozClientFor. apply wp_bind, wp_trigger; [done|].
  intros x w1 [-> _]. apply wp_ret. destruct x; [|done].
  destruct (GetIDFromSigNozResource _) as [id|] eqn:Hid; [|by apply onNew_known]. rewrite Ho in Hid.
  apply wp_bind. eapply (wp_mono (Q := fun '(o', _) _ => o_status o' = o_status o0 /\ unchanged o')).
  - intros [o' [e|]] w2 [Hs Ht']; [done|]. apply onExisting_known; [done|]. exists id. unfold id_of. rewrite Hs. by eauto.
  - unfold removeCreateAttemptAnnotation. destruct (annotation _ _); [|done].
    eapply wp_mono; [|apply patch_known]. intros [o' err] w2 (_ & _ & Hs & _ & Ht'). split; [congruence|unfold unchanged; congruence].
Qed.

End Live.

(** *** A deletion pass *)

Lemma removeFinalizer_known ctx (o : object) w : wpk (removeFinalizer ctx o) (fun _ _ => True) w.
Proof.
  unfold removeFinalizer. destruct (RemoveFinalizer _ _) as [fs []]; [|done].
  apply wp_bind, wp_trigger; [done|]. intros x w1 _. by destruct (written _ x).
Qed.

Lemma reclaim_known ctx c (o : object) r w :
  is_ok (GetIDFromSigNozResource r) = true -> wpk (reclaim rec ctx c o r) (fun _ _ => True) w.
Proof.
  intros Hr. unfold reclaim. apply wp_bind, wp_trigger; [done|]. intros x w1 _. destruct (_ && _); [done|].
  apply removeFinalizer_known.
Qed.

Lemma finalize_known ctx (o : object) w : ~ "" ∈ remote w -> wpk (finalize NewClient rec ctx o) (fun _ _ => True) w.
Proof.
  intros Hne. unfold finalize. cbv zeta. destruct (negb _); [done|].
  destruct (decide _); [apply removeFinalizer_known|]. destruct (_ && _); [apply removeFinalizer_known|].
  apply wp_bind. unfold signozClientFor. apply wp_bind, wp_trigger; [done|]. intros x w1 [-> _]. apply wp_ret.
  destruct x; [|done]. destruct (is_ok _) eqn:Hid; [by apply reclaim_known|].
  destruct (Identity o); [|apply removeFinalizer_known]. apply wp_bind, wp_trigger; [done|]. intros x w1 [[-> Hx] _].
  destruct x as [[|r [|r' found]]|e]; [apply removeFinalizer_known| |done|done]. apply reclaim_known.
  destruct (found_named _ _ r Hx) as (id & -> & Hin); [by left|]. cbn. rewrite decide_False; [done|]. by intros ->.
Qed.
End Begun.

Lemma Reconcile_known ctx w :
  ~ "" ∈ remote w -> wp calm_step (known (stored w)) (Reconcile NewClient rec ctx (stored w)) (fun _ _ => True) w.
Proof.
  intros Hne. unfold Reconcile. cbv zeta. set (ctx' := if decide _ then _ else _).
  destruct (m_deletion _) eqn:Hd; [by apply finalize_known|].
  apply wp_bind. eapply (wp_mono (Q := fun '(o, _) w' => o_status o = o_status (stored w) /\ o_status (stored w') = o_status (stored w) /\
    unchanged (stored w) o /\ unchanged (stored w) (stored w') /\ remote w' = remote w)).
  - intros [o [e|]] w1 (Ho & Hw & Ht & Htw & Hrem); [done|]. apply wp_bind.
    eapply wp_mono; [|by apply reconcile_known; rewrite ?Hrem]. intros [[o' res] err] w2 _. destruct (DeepEqual _ _); [done|].
    apply wp_bind, wp_trigger; [done|]. intros now w3 _. apply wp_bind, wp_trigger; [done|]. by intros [o3|e] w4 _.
  - unfold addFinalizer. destruct (AddFinalizer _ _) as [fs []]; [|by apply wp_ret].
    apply wp_bind, wp_trigger; [done|]. intros x w2 [Hx Hok]. apply wp_ret.
    destruct (written_ok _ _ _ _ _ Hx Hok) as (o' & -> & (_ & Ht & Hst & _) & -> & _). by repeat split.
Qed.

(** ** The invariant at every call *)

Lemma wp_calm_Inv identity {R} (p : prog E R) Q (w : world) :
  wp (step identity) (fun X w (e : E X) => Inv identity w) p Q w -> wp calm_step (fun X w e => Inv identity w) p Q w.
Proof.
  revert w. induction p as [r|X e k IH]; cbn; intros w; [done|]. intros [Hw Hk]. split; [done|].
  intros x w' Hc. apply IH, Hk. by apply ProtocolRecovery.calm_step.
Qed.

(** ** The resource is there *)

Definition is_there (X : Type) (w : world) (e : E X) : Prop := live w = true.

Lemma undeleted_there {R} (p : prog E R) w : undeleted w -> wp calm_step is_there p (fun _ w' => undeleted w') w.
Proof.
  revert w. induction p as [r|X e k IH]; cbn; intros w Hw; [done|]. split; [apply Hw|]. intros x w' Hx.
  apply IH. by eapply calm_undeleted.
Qed.

Lemma writes_last_there {R} (p : prog E R) w : writes_last p -> live w = true -> wp calm_step is_there p (fun _ _ => True) w.
Proof.
  revert w. induction p as [r|X e k IH]; cbn; intros w Hp Hl; [done|]. split; [exact Hl|]. intros x w' Hx.
  specialize (Hp x). destruct (is_write e) eqn:He; [by destruct Hp as [r ->]|].
  apply IH; [done|]. by rewrite (calm_read_live _ _ _ _ _ He Hx).
Qed.
End Reads.
