(* ===== verification/Stale.v ===== *)
(** * Passes from a cache that lags

    The world of Protocol.v with what an informer cache adds to it: a pass may
    begin from a version of the object that is no longer the stored one, even of
    an object that is gone, though never from one before that of an earlier pass.
    The API server refuses an update of another version than the stored one; a
    merge patch it takes from any. *)

From S2P Require Import Prelude GoStd Errors Kube Core Effects Interfaces Reconciler Protocol.
From Stdlib Require Import String.

Local Open Scope string_scope.
Local Open Scope list_scope.

Section Stale.
Context {T SigNoz Resolved : Type} `{AM : ApiMachinery} `{RO : ResourceObject T} `{SE : SemanticEqual CoreStatus}.
Context (NewClient : Resolved -> SigNoz) (rec : commonReconciler) (ctx : Context) (identity : string).
(** Whether others delete or rename the object in SigNoz. *)
Context (outsiders : bool).

Abbreviation object := (Object T).
Abbreviation E := (call T SigNoz Resolved).
Abbreviation world := (Protocol.world (T := T)).

(** The versions stored since the one the latest pass began from, newest first. *)
Record view := MkView { now : world; window : list object }.

Definition version (o : object) : string := m_resource_version (o_meta o).

(** What is stored stays, or gets a version that none of the window has. *)
Definition advances (v v' : view) : Prop :=
  stored (now v') = stored (now v) /\ window v' = window v \/
  (version (stored (now v')) ∉ version <$> window v) /\ window v' = stored (now v') :: window v.

(** Optimistic locking: the write of another version is refused. *)
Definition locked (v : view) (o : object) (x : result object error) (v' : view) : Prop :=
  version o <> version (stored (now v)) -> is_ok x = false /\ now v' = now v.

(** What optimistic locking, and the lack of [outsiders], add to [respond].  Two
    attempts are not of the same second: a patch that changes nothing writes
    nothing. *)
Definition restricts (X : Type) (v : view) (e : E X) : X -> view -> Prop :=
  match e in call _ _ _ X return X -> view -> Prop with
  | KUpdate _ o | KStatusUpdate _ o => fun x v' => locked v o x v'
  | KPatch _ o _ => fun _ _ => forall t, annotation o AnnotationCreateAttempt = Some t ->
      Forall (fun a => annotation a AnnotationCreateAttempt <> Some t) (window v)
  | Update _ _ _ _ => fun _ v' => outsiders = false -> now v' = now v
  | _ => fun _ _ => True
  end.

Definition stale_respond (X : Type) (v : view) (e : E X) (x : X) (v' : view) : Prop :=
  respond X (now v) e x (now v') /\ advances v v' /\ restricts X v e x v'.

Definition stale_drift (v v' : view) : Prop :=
  drift identity (now v) (now v') /\ advances v v' /\ (outsiders = false -> remote (now v') = remote (now v)).

Definition stale_step (X : Type) (v : view) (e : E X) (x : X) (v' : view) : Prop :=
  exists v1, stale_drift v v1 /\ stale_respond X v1 e x v'.

(** A new object has no id on record.  A pass begins from a version of the window,
    and none before it is seen again. *)
Inductive stale_reachable : view -> Prop :=
  | stale_fresh w : fresh identity w -> is_ok (id_of (stored w)) = false -> stale_reachable (MkView w [stored w])
  | stale_drifts v v' : stale_reachable v -> stale_drift v v' -> stale_reachable v'
  | stale_pass v newer o older p v' : stale_reachable v -> window v = newer ++ o :: older ->
      exec stale_step (Reconcile NewClient rec ctx o) (MkView (now v) (newer ++ [o])) p v' -> stale_reachable v'.
End Stale.
