(* ===== verification/StaleSafety.v ===== *)
(** * A lagging cache creates nothing twice and loses nothing

    The invariant of ProtocolSafety.v, where passes begin from versions that are
    no longer stored, as long as nobody but the operator deletes in SigNoz.  What
    makes it hold: updates of another version are refused; a merge patch hands
    back the stored object; and an id, once recorded, is that of every later
    version.  StaleWitness.v has a run that shows why nobody else may. *)

From S2P Require Import Prelude GoStd Errors Kube Core Conditions Effects Interfaces Reconciler ReconcilerOutcome Protocol ProtocolSafety Stale.
From Stdlib Require Import String Sorted.

Local Open Scope string_scope.
Local Open Scope list_scope.

Section Safety.
Context {T SigNoz Resolved : Type} `{AML : ApiMachineryLaws} `{RO : ResourceObject T} `{SEL : SemanticEqualLaw CoreStatus}.
Context {DT : DesiredFromTemplate T}.
Context (NewClient : Resolved -> SigNoz) (rec : commonReconciler) (identity : string).

Abbreviation E := (call T SigNoz Resolved).
Abbreviation object := (Object T).
Abbreviation world := (Protocol.world (T := T)).
Abbreviation view := (Stale.view (T := T)).
Abbreviation sstep := (stale_step (T := T) (SigNoz := SigNoz) (Resolved := Resolved) identity false).
Abbreviation sdrift := (stale_drift (T := T) identity false).
Abbreviation Inv := (ProtocolSafety.Inv (T := T) identity).
Abbreviation Run := (ProtocolSafety.Run (T := T) identity).

Definition deleted (o : object) : Prop := is_Some (m_deletion (o_meta o)).

(** ** The window *)

Record Hist (v : view) : Prop := {
  hist_head : exists rest, window v = stored (now v) :: rest;
  hist_unique : forall a b, a ∈ window v -> b ∈ window v -> version a = version b -> a = b;
  hist_identity : Forall (fun a => Identity a = Ok identity) (window v);
  hist_deletion : StronglySorted (fun a b => deleted b -> deleted a) (window v);
}.

(** An earlier version [a]: its id and its finalizer are still there. *)
Definition later (a s : object) : Prop := (forall id, id_of a = Ok id -> id_of s = Ok id) /\ (held a -> held s).

(** Before a pass has seen the deletion: the recorded id is that of an object. *)
Record Living (v : view) : Prop := {
  living_recorded : forall id, id_of (stored (now v)) = Ok id -> id ∈ remote (now v);
  living_later : Forall (fun a => later a (stored (now v))) (window v);
}.

Definition LInv (v : view) : Prop := Inv (now v) /\ Hist v /\ Living v.
Definition DInv (v : view) : Prop := Inv (now v) /\ Hist v /\ Forall deleted (window v).

#[export] Instance later_preorder : PreOrder later.
Proof. split; [by intros a|]. intros a b c [H1 H2] [H3 H4]. split; auto. Qed.

Lemma stored_seen v : Hist v -> stored (now v) ∈ window v.
Proof. intros Hh. destruct (hist_head _ Hh) as [rest ->]. by left. Qed.

Lemma advances_sub (v v' : view) a : advances v v' -> a ∈ window v -> a ∈ window v'.
Proof. intros [[_ ->]|[_ ->]]; [done|]. intros. by right. Qed.

Lemma quiet (v v' : view) : Hist v -> now v' = now v -> advances v v' -> v' = v.
Proof.
  intros Hh Hn [[_ Hw]|[Hnew _]]; [destruct v, v'; cbn in *; congruence|]. exfalso. apply Hnew. rewrite Hn.
  apply list_elem_of_fmap. exists (stored (now v)). split; [done|by apply stored_seen].
Qed.

Lemma advance_Hist v v' : Hist v -> advances v v' -> Identity (stored (now v')) = Ok identity ->
  (deleted (stored (now v)) -> deleted (stored (now v'))) -> Hist v'.
Proof.
  intros Hh Hadv Hi Hd. destruct Hadv as [[Hs Hw]|[Hnew Hw]].
  - destruct Hh as [[rest Hr] Hu Hid Hdel]. split; rewrite ?Hw; try done. exists rest. by rewrite Hs.
  - split; rewrite Hw.
    + by eexists.
    + assert (forall a, a ∈ window v -> version a <> version (stored (now v'))) as Hne.
      { intros a Ha Heq. apply Hnew, list_elem_of_fmap. by exists a. }
      intros a b [->|Ha]%elem_of_cons [->|Hb]%elem_of_cons Heq; [done| | |by apply (hist_unique _ Hh)].
      * by destruct (Hne b Hb).
      * by destruct (Hne a Ha).
    + constructor; [done|apply (hist_identity _ Hh)].
    + pose proof (hist_deletion _ Hh) as Hdel. constructor; [done|].
      destruct (hist_head _ Hh) as [rest Hr]. rewrite Hr in *. apply StronglySorted_inv in Hdel as [_ Hdel].
      constructor; [exact Hd|]. eapply Forall_impl; [exact Hdel|]. intros a Ha Hda. by apply Hd, Ha.
Qed.

Lemma advance_Living v v' : Hist v -> Living v -> advances v v' -> later (stored (now v)) (stored (now v')) ->
  (forall id, id_of (stored (now v')) = Ok id -> id ∈ remote (now v')) -> Living v'.
Proof.
  intros Hh [_ Hl] Hadv Hlater Hrec. split; [done|].
  assert (Forall (fun a => later a (stored (now v'))) (window v)) as Hall.
  { eapply Forall_impl; [exact Hl|]. intros a Ha. etrans; [exact Ha|exact Hlater]. }
  destruct Hadv as [[_ ->]|[_ ->]]; [done|]. by constructor.
Qed.

(** ** Drift *)

(** What a step that does not touch SigNoz, or adds to it, keeps. *)
Definition onwards (v v' : view) : Prop :=
  (forall a, a ∈ window v -> a ∈ window v') /\ remote (now v) ⊆ remote (now v').

#[export] Instance onwards_preorder : PreOrder onwards.
Proof. split; [by intros v|]. intros a b c [H1 H2] [H3 H4]. split; [auto|set_solver]. Qed.

Lemma drift_Hist v v' : Inv (now v) -> Hist v -> sdrift v v' -> Hist v'.
Proof.
  intros Hw Hh (Hd & Hadv & _). destruct (live (now v)) eqn:Hl.
  - destruct (drift_live identity _ _ Hl Hd) as ((Hid & _ & _ & _ & Hde) & _). by eapply advance_Hist.
  - pose proof Hd as (_ & _ & Hs). rewrite Hl in Hs. destruct Hs as [Hs _]. eapply advance_Hist; [done|done| |by rewrite Hs].
    rewrite Hs. pose proof (hist_identity _ Hh) as Hid. rewrite Forall_forall in Hid. by apply Hid, stored_seen.
Qed.

Lemma drift_later v v' : sdrift v v' -> later (stored (now v)) (stored (now v')) /\ id_of (stored (now v')) = id_of (stored (now v)).
Proof.
  intros ((_ & _ & Hd) & _). destruct (live (now v)).
  - destruct Hd as ((_ & Hst & _ & Hhe & _) & _). unfold later, id_of. rewrite Hst. split; [split; [done|by intros ?; apply Hhe]|done].
  - by destruct Hd as [-> _].
Qed.

Lemma drift_L v v' : LInv v -> sdrift v v' ->
  LInv v' /\ onwards v v' /\ remote (now v') = remote (now v) /\ (Run (now v) -> Run (now v')) /\
  (live (now v) = true -> attempted (stored (now v)) -> attempted (stored (now v'))).
Proof.
  intros (Hw & Hh & Hl) Hd. pose proof Hd as (Hdr & Hadv & Hrem). specialize (Hrem eq_refl).
  destruct (drift_later _ _ Hd) as [Hlater Hid].
  split; [|split; [split; [by intros a; apply advances_sub|by rewrite Hrem]|split; [done|split]]].
  - split; [by eapply drift_Inv|]. split; [by eapply drift_Hist|]. eapply advance_Living; try done.
    intros id. rewrite Hid, Hrem. apply (living_recorded _ Hl).
  - intros Hr. by eapply drift_Run.
  - intros Hlive Hat. destruct (drift_live identity _ _ Hlive Hdr) as ((_ & _ & Han & _) & _). unfold attempted. by rewrite Han.
Qed.

(** ** What a pass has in hand *)

(** A version of the window, with an id that is recorded there or now known. *)
Definition hand (o : object) (v : view) : Prop := exists a, a ∈ window v /\ version o = version a /\
  (forall id, id_of a = Ok id -> id_of o = Ok id) /\ (forall id, id_of o = Ok id -> id ∈ remote (now v)).

Lemma hand_onwards o v v' : hand o v -> onwards v v' -> hand o v'.
Proof. intros (a & Ha & Hv & Hid & Hr) [Hw Hrem]. exists a. split; [by apply Hw|]. split; [done|]. split; [done|]. auto. Qed.

Lemma hand_ext o o' v : hand o v -> version o' = version o -> id_of o' = id_of o -> hand o' v.
Proof. intros (a & Ha & Hv & Hid & Hr) Hv' Hid'. exists a. rewrite Hv', Hid'. done. Qed.

Lemma seen_later o v : LInv v -> o ∈ window v -> later o (stored (now v)).
Proof. intros (_ & _ & Hl) Ho. pose proof (living_later _ Hl) as Hall. rewrite Forall_forall in Hall. by apply Hall. Qed.

Lemma seen_hand o v : LInv v -> o ∈ window v -> hand o v.
Proof.
  intros Hv Ho. exists o. split; [done|]. split; [done|]. split; [done|]. intros id Hid.
  apply (living_recorded _ (proj2 (proj2 Hv))). by apply (seen_later _ _ Hv Ho).
Qed.

Lemma seen_identity o v : Hist v -> o ∈ window v -> Identity o = Ok identity.
Proof. intros Hh Ho. pose proof (hist_identity _ Hh) as Hid. rewrite Forall_forall in Hid. by apply Hid. Qed.

Lemma in_one (w : world) a b : Inv w -> a ∈ remote w -> b ∈ remote w -> a = b.
Proof.
  intros Hw Ha Hb. pose proof (inv_one _ _ Hw). apply (size_singleton_inv (remote w)); [|done..].
  assert (size (remote w) <> 0%nat) by (intros Hz%size_empty_inv; set_solver). lia.
Qed.

Lemma in_named (w : world) id : Inv w -> id ∈ remote w -> remote w ⊆ {[id]}.
Proof. intros Hw Hin b Hb. rewrite (in_one w b id); [set_solver|done..]. Qed.

(** A write that leaves the finalizers and the deletion alone, whoever made it. *)
Lemma write_L v v' o' :
  LInv v -> live (now v) = true -> advances v v' -> now v' = store (now v) o' false ->
  o_template o' = o_template (stored (now v)) ->
  m_finalizers (o_meta o') = m_finalizers (o_meta (stored (now v))) -> m_deletion (o_meta o') = m_deletion (o_meta (stored (now v))) ->
  (forall id, id_of (stored (now v)) = Ok id -> id_of o' = Ok id) -> (forall id, id_of o' = Ok id -> id ∈ remote (now v)) ->
  (is_ok (id_of o') = false -> remote (now v) = ∅ \/ attempted o') -> LInv v' /\ onwards v v' /\ o' ∈ window v'.
Proof.
  intros (Hw & Hh & Hl) Hlive Hadv Hnow Hte Hfi Hde Hmono Hrec Hat.
  assert (Identity o' = Ok identity) as Hid.
  { rewrite (identity_template o' (stored (now v))) by done. by apply (inv_identity _ _ Hw). }
  assert (Hist v') as Hh'. { eapply advance_Hist; try done; rewrite Hnow; [done|]. unfold deleted. cbn. by rewrite Hde. }
  split; [|split; [split; [by intros a; apply advances_sub|by rewrite Hnow]|]].
  - split; [|split; [done|]].
    + rewrite Hnow. apply store_Inv; try done. unfold named. destruct (id_of o') as [id|] eqn:Ho; [|by apply Hat].
      apply (in_named (now v)); [done|by apply Hrec].
    + apply (advance_Living v); [done..| |by rewrite Hnow]. rewrite Hnow. split; [done|]. unfold held. cbn. by rewrite Hfi.
  - replace o' with (stored (now v')); [by apply stored_seen|by rewrite Hnow].
Qed.

Section Pass.
Context (ctx : Context).

Abbreviation wps := (wp sstep (fun X v (e : E X) => LInv v)).

(** Calls that change nothing. *)
Lemma quiet_wp {X} (e : E X) (Q : X -> view -> Prop) v : LInv v ->
  (forall v1 x w, respond X (now v1) e x w -> w = now v1) ->
  (forall x v', LInv v' -> onwards v v' -> remote (now v') = remote (now v) -> respond X (now v') e x (now v') ->
     restricts false X v' e x v' -> Q x v') -> wps (trigger e) Q v.
Proof.
  intros Hv Hq HQ. apply wp_trigger; [done|]. intros x v2 (v1 & Hd & Hr & Hadv & Hres).
  destruct (drift_L _ _ Hv Hd) as (Hv1 & Hon & Hrem & _). pose proof (Hq _ _ _ Hr) as Hn.
  apply quiet in Hadv as ->; [|apply Hv1|done]. by apply HQ.
Qed.

(** A patch of the annotations, from a version that may lag: its answer is the
    stored object. *)
Lemma patch_stale (o : object) anns v : let o1 := with_meta o (set_annotations (o_meta o) anns) in
  LInv v -> o ∈ window v ->
  (forall v1 o', LInv v1 -> o ∈ window v1 -> remote (now v1) = remote (now v) -> patched o1 o (stored (now v1)) o' ->
     (forall t, annotation o1 AnnotationCreateAttempt = Some t -> annotation o AnnotationCreateAttempt <> Some t) ->
     is_ok (id_of o') = false -> remote (now v1) = ∅ \/ attempted o') ->
  wps (r ← trigger (KPatch ctx o1 o); mret (written o1 r)) (fun '(o', err) v' =>
    LInv v' /\ remote (now v') = remote (now v) /\ hand o' v' /\ (forall id, id_of o = Ok id -> id_of o' = Ok id) /\
    (err = None -> o' = stored (now v') /\ (held o -> Run (now v')) /\ exists s, patched o1 o s o' /\
       forall t, annotation o1 AnnotationCreateAttempt = Some t -> annotation o AnnotationCreateAttempt <> Some t)) v.
Proof.
  intros o1 Hv Ho Hat. apply wp_bind, wp_trigger; [done|]. intros x v2 (v1 & Hd & Hx & Hadv & Hsec).
  destruct (drift_L _ _ Hv Hd) as (Hv1 & [Hsub1 _] & Hrem1 & _). assert (o ∈ window v1) as Ho1 by auto.
  assert (forall t, annotation o1 AnnotationCreateAttempt = Some t -> annotation o AnnotationCreateAttempt <> Some t) as Hother.
  { intros t Ht. specialize (Hsec t Ht). rewrite Forall_forall in Hsec. by apply Hsec. }
  apply wp_ret. destruct (seen_later _ _ Hv1 Ho1) as [Hmono Hheld]. cbn [respond] in Hx.
  assert (hand o1 v1) as Ho1h by (by eapply hand_ext; [by apply seen_hand|..]).
  destruct Hx as [(Hl & o' & Hp & Hnow & Hans)|[Hno Hnow]].
  2: { destruct x as [?|e]; [done|]. apply quiet in Hadv as ->; [|apply Hv1|done]. by do 4 (split; [done|]). }
  pose proof Hp as (_ & Hte & Hst & Hfi & Hde & _).
  assert (id_of o' = id_of (stored (now v1))) as Hid by (unfold id_of; by rewrite Hst).
  destruct (write_L v1 v2 o') as (Hv2 & Hon2 & Hin); try done.
  { by rewrite Hid. } { rewrite Hid. apply (living_recorded _ (proj2 (proj2 Hv1))). } { by apply Hat. }
  assert (remote (now v2) = remote (now v)) as Hrem2 by (rewrite Hnow; cbn; congruence).
  destruct Hans as [->|Hok]; cbn [written].
  - split; [done|]. split; [done|]. split; [by apply seen_hand|]. split; [intros id Hi; rewrite Hid; by apply Hmono|].
    intros _. split; [by rewrite Hnow|]. split; [|by exists (stored (now v1))]. intros Hho%Hheld. destruct Hv2 as [Hw2 _].
    assert (held o') as Hho' by (unfold held; by rewrite Hfi). split; [done|]. rewrite Hnow. cbn. by rewrite held_not_gone.
  - destruct x as [?|e]; [done|]. do 2 (split; [done|]). split; [by eapply hand_onwards|done].
Qed.

Lemma add_attempt_stale (o : object) v : LInv v -> o ∈ window v ->
  wps (addCreateAttemptAnnotation ctx o) (fun '(o', err) v' => LInv v' /\ remote (now v') = remote (now v) /\ hand o' v' /\
    (err = None -> o' = stored (now v') /\ attempted o' /\ (held o -> Run (now v')))) v.
Proof.
  intros Hv Ho. unfold addCreateAttemptAnnotation. apply wp_bind, quiet_wp; [done|by intros v1 x w ->|].
  intros t v1 Hv1 [Hsub1 _] Hrem1 _ _.
  set (o1 := with_meta o (set_annotations (o_meta o) (<[AnnotationCreateAttempt:=FormatRFC3339 t]> (m_annotations (o_meta o))))).
  assert (annotation o1 AnnotationCreateAttempt = Some (FormatRFC3339 t)) as Ho1 by apply annotation_set.
  assert (nulls_annotations o1 o = false) as Hnull by apply setting_nulls_nothing.
  assert (forall s o', patched o1 o s o' -> annotation o AnnotationCreateAttempt <> Some (FormatRFC3339 t) -> attempted o') as Hat.
  { intros s o' (_ & _ & _ & _ & _ & Han) Hne. unfold attempted. rewrite Han, Hnull, Ho1, decide_False by done. by eexists. }
  eapply wp_mono; [|apply patch_stale; [done|by apply Hsub1|]].
  2: { intros v2 o' _ _ _ Hp Hsec _. right. by eapply Hat, Hsec. }
  intros [o' err] v2 (Hv2 & Hrem2 & Hh & _ & Hok). split; [done|]. split; [congruence|]. split; [done|].
  intros (Heq & Hrun & s & Hp & Hsec)%Hok. split; [done|]. split; [by eapply Hat, Hsec|done].
Qed.

Lemma remove_attempt_stale (o : object) v : LInv v -> o ∈ window v -> (remote (now v) = ∅ \/ is_ok (id_of o) = true) ->
  wps (removeCreateAttemptAnnotation ctx o) (fun '(o', err) v' => LInv v' /\ remote (now v') = remote (now v) /\ hand o' v' /\
    (forall id, id_of o = Ok id -> id_of o' = Ok id)) v.
Proof.
  intros Hv Ho Hsafe. unfold removeCreateAttemptAnnotation. destruct (annotation o _) as [t|].
  2: { apply wp_ret. split; [done|]. split; [done|]. split; [by apply seen_hand|done]. }
  eapply wp_mono; [|apply patch_stale; [done|done|]]; [by intros [o' err] v' (? & ? & ? & ? & _)|].
  intros v1 o' Hv1 Ho1 Hrem1 (_ & _ & Hst & _) _ Hno. left. rewrite Hrem1. destruct Hsafe as [?|Hok]; [done|].
  apply is_ok_true in Hok as [id Hok]. destruct (seen_later _ _ Hv1 Ho1) as [Hmono _].
  unfold id_of in *. by rewrite Hst, (Hmono _ Hok) in Hno.
Qed.

(** *** The steps of a pass *)

(** What a pass leaves in hand to write to the status. *)
Abbreviation in_hand := (fun '(o', _, _) v' => LInv v' /\ hand o' v').

Lemma hand_outcome (o : object) g out r m v : hand o v -> hand (set_outcome o g out r m) v.
Proof. intros Ho. eapply hand_ext; [exact Ho|done|apply id_set_outcome]. Qed.

Lemma done_stale (o : object) g out r m (res : Result) (err : option error) v : LInv v -> hand o v ->
  wps (mret (set_outcome o g out r m, res, err)) in_hand v.
Proof. intros Hv Ho. apply wp_ret. split; [done|by apply hand_outcome]. Qed.

Lemma onAdapterError_stale (o : object) e v : LInv v -> hand o v -> wps (mret (onAdapterError rec o e)) in_hand v.
Proof.
  intros Hv Ho. apply wp_ret. unfold onAdapterError. rewrite adapter_error_table.
  case_decide; (split; [done|]); by apply (hand_outcome o).
Qed.

(** The object read is there: none but the operator could have deleted it. *)
Lemma onExisting_stale (o : object) c hash v :
  LInv v -> hand o v -> is_ok (id_of o) = true -> wps (onExistingObject rec ctx o c hash) in_hand v.
Proof.
  intros Hv Ho [id Hid]%is_ok_true. unfold onExistingObject. cbv zeta. apply wp_bind, quiet_wp; [done|by intros v1 x w []|].
  intros x v1 Hv1 Hon1 _ [_ Hx] _. assert (hand o v1) as Ho1 by (by eapply hand_onwards). clear Hv Ho Hon1 v.
  destruct x as [body|e].
  - destruct (Compare o body); [|by apply done_stale]. destruct (decide _); [by apply done_stale|].
    destruct (_ && _); [by apply (done_stale (with_status o (with_hash (o_status o) hash)))|].
    apply wp_bind, wp_trigger; [done|]. intros err v3 (v2 & Hd & Hup & Hadv & Hres).
    destruct (drift_L _ _ Hv1 Hd) as (Hv2 & Hon2 & _). apply quiet in Hadv as ->; [|apply Hv2|by apply Hres].
    assert (hand o v2) as Ho2 by (by eapply hand_onwards).
    destruct err; [by apply onAdapterError_stale|]. by apply (done_stale (with_status o (with_hash (o_status o) hash))).
  - destruct (IsNotFound (Some e)) eqn:Hnf; [|by apply onAdapterError_stale]. exfalso.
    unfold id_of in Hid. rewrite Hid in Hx. apply (Hx eq_refl). by destruct Ho1 as (a & _ & _ & _ & Hr); apply Hr.
Qed.

(** Two ids of what is in SigNoz are one, so an adopted id is the recorded one. *)
Lemma adopt_stale (o : object) c r hash id v : LInv v -> o ∈ window v -> GetIDFromSigNozResource r = Ok id -> id ∈ remote (now v) ->
  wps (adopt rec ctx o c r hash) in_hand v.
Proof.
  intros Hv Ho Hr Hin. unfold adopt. apply wp_bind. eapply wp_mono; [|by apply add_attempt_stale].
  intros [o' [e|]] v' (Hv' & Hrem & Hh & Hok); [by apply wp_ret|]. destruct (Hok eq_refl) as [-> _].
  apply onExisting_stale; [done| |unfold id_of; cbn; by rewrite Hr]. exists (stored (now v')).
  split; [apply stored_seen, Hv'|]. split; [done|]. unfold id_of at 2 3. cbn. rewrite Hr. split.
  - intros id' Hid'. f_equal. apply (in_one (now v')); [apply Hv'|by rewrite Hrem|]. by apply (living_recorded _ (proj2 (proj2 Hv'))).
  - intros ? [= <-]. by rewrite Hrem.
Qed.

Lemma onConflict_stale (o : object) c hash v : LInv v -> o ∈ window v -> wps (onConflict rec ctx o c identity hash) in_hand v.
Proof.
  intros Hv Ho. unfold onConflict. cbv zeta. apply wp_bind, quiet_wp; [done|by intros v1 x w []|].
  intros x v1 Hv1 Hon1 _ [_ Hx] _. assert (o ∈ window v1) as Ho1 by (by apply Hon1).
  assert (hand o v1) as Hh by (by apply seen_hand). destruct x as [[|r [|r' found]]|e].
  - by apply done_stale.
  - destruct (found_singleton identity _ _ (proj1 Hv1) Hx) as (id & _ & Hr & Hrem).
    apply (adopt_stale o c r hash id); [done|done|done|]. rewrite Hrem. set_solver.
  - by apply done_stale.
  - by apply onAdapterError_stale.
Qed.

(** What a create makes leaves the window as it is. *)
Lemma created_L v v' id : LInv v -> Run (now v) -> remote (now v) = ∅ -> attempted (stored (now v)) -> id <> "" ->
  advances v v' -> now v' = with_remote (now v) ({[id]} ∪ remote (now v)) -> LInv v' /\ window v' = window v.
Proof.
  intros (Hw & Hh & Hl) Hrun Hrem Hat Hne Hadv Hnow.
  assert (window v' = window v) as Hwin.
  { destruct Hadv as [[_ ?]|[Hnew _]]; [done|]. exfalso. apply Hnew, list_elem_of_fmap. exists (stored (now v)).
    split; [by rewrite Hnow|by apply stored_seen]. }
  assert (forall id', id_of (stored (now v)) <> Ok id') as Hno.
  { intros id' Hid'. pose proof (living_recorded _ Hl _ Hid') as Hin. rewrite Hrem in Hin. set_solver. }
  split; [|done]. split; [|split].
  - rewrite Hnow. apply created_Run; try done. destruct (id_of _) as [id'|] eqn:Hid; [by destruct (Hno id')|done].
  - destruct Hh as [Hhd Hu Hi Hde]. split; rewrite ?Hwin, ?Hnow; done.
  - destruct Hl as [_ Hall]. split; rewrite ?Hwin, Hnow; [|done]. intros id' Hid'. by destruct (Hno id').
Qed.

(** A lookup that finds nothing leads to a create, one that finds an object to its adoption. *)
Lemma create_stale (o : object) c hash v : LInv v -> o ∈ window v -> held o -> remote (now v) = ∅ ->
  wps (create rec ctx o c identity hash) in_hand v.
Proof.
  intros Hv Ho Hho Hrem. unfold create. cbv zeta. apply wp_bind. eapply wp_mono; [|by apply add_attempt_stale].
  intros [o' [e|]] v1 (Hv1 & Hrem1 & Hh1 & Hok); [by apply wp_ret|]. destruct (Hok eq_refl) as (Heq & Hat & Hrun).
  specialize (Hrun Hho). rewrite Heq in Hat. clear Hok. apply wp_bind, wp_trigger; [done|]. intros x v3 (v2 & Hd & Hx & Hadv & _).
  destruct (drift_L _ _ Hv1 Hd) as (Hv2 & Hon2 & Hrem2 & Hrun2 & Hat2). specialize (Hrun2 Hrun). specialize (Hat2 (proj1 (proj2 Hrun)) Hat).
  assert (remote (now v2) = ∅) as Hnone by congruence. assert (hand o' v2) as Hh2 by (by eapply hand_onwards).
  assert (o' ∈ window v2) as Ho2 by (apply Hon2; rewrite Heq; apply stored_seen, Hv1).
  cbn [respond] in Hx. destruct x as [r|e]; [|destruct Hx as [Hnow|(Hretry & id & Hne & _ & Hnow)]].
  - destruct Hx as (id & Hne & _ & -> & Hnow). destruct (created_L v2 v3 id) as [Hv3 Hwin]; try done.
    apply done_stale; [done|]. exists o'. split; [by rewrite Hwin|]. split; [done|].
    assert (id_of (with_status o' (with_hash (with_resource (o_status o') (named_by id)) hash)) = Ok id) as Hid
      by (unfold id_of; cbn; by rewrite decide_False).
    rewrite Hid. split.
    + intros id' Hid'. destruct Hh2 as (a & _ & _ & _ & Hr). apply Hr in Hid'. rewrite Hnone in Hid'. set_solver.
    + intros ? [= <-]. rewrite Hnow. cbn. set_solver.
  - apply quiet in Hadv as ->; [|apply Hv2|done]. destruct (IsAlreadyExists _); [by apply onConflict_stale|].
    destruct (IsRetryable _); cbn [negb]; [by apply onAdapterError_stale|].
    apply wp_bind. eapply wp_mono; [|apply remove_attempt_stale; [done|done|by left]].
    intros [o2 [e'|]] v4 (Hv4 & _ & Hh4 & _); [by apply wp_ret|by apply onAdapterError_stale].
  - destruct (created_L v2 v3 id) as [Hv3 Hwin]; try done.
    assert (IsAlreadyExists (Some e) = false) as -> by (revert Hretry; unfold IsAlreadyExists, IsRetryable; by destruct (ReasonForErr (Some e))).
    rewrite Hretry. apply onAdapterError_stale; [done|]. eapply hand_onwards; [exact Hh2|]. split; [by rewrite Hwin|].
    rewrite Hnow. cbn. set_solver.
Qed.

Lemma onNew_stale (o : object) c hash v : LInv v -> o ∈ window v -> held o -> wps (onNewObject rec ctx o c identity hash) in_hand v.
Proof.
  intros Hv Ho Hho. unfold onNewObject. cbv zeta. apply wp_bind, quiet_wp; [done|by intros v1 x w []|].
  intros x v1 Hv1 Hon1 _ [_ Hx] _. assert (o ∈ window v1) as Ho1 by (by apply Hon1).
  assert (hand o v1) as Hh by (by apply seen_hand). destruct x as [found|e]; [|by apply onAdapterError_stale].
  destruct (decide _).
  { destruct (find_pinned _ found) as [r|] eqn:Hp; [|by apply done_stale].
    destruct (found_pinned identity _ _ _ _ (proj1 Hv1) Hx Hp) as (id & Hr & Hrem).
    apply (adopt_stale o c r hash id); [done|done|done|]. rewrite Hrem. set_solver. }
  destruct found as [|r [|r' found]].
  - apply create_stale; [done|done|done|by apply found_none].
  - destruct (found_singleton identity _ _ (proj1 Hv1) Hx) as (id & _ & Hr & Hrem).
    apply (adopt_stale o c r hash id); [done|done|done|]. rewrite Hrem. set_solver.
  - by apply done_stale.
Qed.

Lemma reconcile_stale (o : object) v : LInv v -> o ∈ window v -> held o -> wps (reconcile NewClient rec ctx o) in_hand v.
Proof.
  intros Hv Ho Hho. assert (hand o v) as Hh by (by apply seen_hand). unfold reconcile. cbv zeta.
  destruct (Suspend _); [by apply done_stale|]. rewrite (seen_identity o v) by (done || apply Hv).
  destruct (Interfaces.Hash o) as [hash|e]; [|by apply done_stale].
  apply wp_bind. unfold signozClientFor. apply wp_bind, quiet_wp; [done|by intros v1 x w ->|].
  intros x v1 Hv1 Hon1 _ _ _. assert (o ∈ window v1) as Ho1 by (by apply Hon1). assert (hand o v1) as Hh1 by (by apply seen_hand).
  apply wp_ret. destruct x as [resolved|e]; [|by apply done_stale].
  destruct (GetIDFromSigNozResource (SigNozResource_ (o_status o))) as [id|e] eqn:Hid; [|by apply onNew_stale].
  assert (is_ok (id_of o) = true) as Hok by (unfold id_of; by rewrite Hid).
  apply wp_bind. eapply wp_mono; [|apply remove_attempt_stale; [done|done|by right]].
  intros [o' [e|]] v2 (Hv2 & _ & Hh2 & Hid2); [by apply wp_ret|]. apply onExisting_stale; [done|done|].
  rewrite (Hid2 id); [done|]. exact Hid.
Qed.

(** *** Locked writes *)

Lemma locked_write (o : object) accepts orphan x v v' : Hist v -> written_to (now v) accepts orphan x (now v') ->
  locked v o x v' -> advances v v' ->
  v' = v /\ is_ok x = false \/
  version o = version (stored (now v)) /\ live (now v) = true /\
    exists o', accepts o' /\ now v' = store (now v) o' orphan /\ (x = Ok o' \/ is_ok x = false).
Proof.
  intros Hh Hx Hlock Hadv. destruct (decide (version o = version (stored (now v)))) as [Heq|Hne].
  - destruct Hx as [(Hl & o' & Ha & Hnow & Hans)|[Hno Hnow]]; [right|left; split; [by apply quiet|done]].
    split; [done|]. split; [done|]. by exists o'.
  - destruct (Hlock Hne) as [Hno Hnow]. left. split; [by apply quiet|done].
Qed.

(** What is as old as what is stored, and in the window, is it. *)
Lemma current (o : object) v : Hist v -> o ∈ window v -> version o = version (stored (now v)) -> o = stored (now v).
Proof. intros Hh Ho Hv. by apply (hist_unique _ Hh); [|apply stored_seen|]. Qed.

Lemma addFinalizer_stale (o : object) v : LInv v -> o ∈ window v ->
  wps (addFinalizer ctx o) (fun '(o', err) v' => LInv v' /\ (err = None -> o' ∈ window v' /\ held o')) v.
Proof.
  intros Hv Ho. unfold addFinalizer. destruct (decide (ResourceFinalizer ∈ m_finalizers (o_meta o))) as [Hin|Hni].
  { rewrite (add_finalizer_present _ _ Hin). by apply wp_ret. }
  destruct (add_finalizer_absent _ _ Hni) as (fs & -> & Hfs). cbn [negb].
  apply wp_bind, wp_trigger; [done|]. intros x v2 (v1 & Hd & Hx & Hadv & Hlock). apply wp_ret.
  destruct (drift_L _ _ Hv Hd) as ((Hw1 & Hh1 & Hl1) & [Hon1 _] & _). apply Hon1 in Ho.
  destruct (locked_write _ _ _ _ _ _ Hh1 Hx Hlock Hadv) as [[-> Hno]|(Heq & Hlive & o' & Hup & Hnow & Hans)].
  { destruct x; [done|]. by split. }
  apply (current o) in Heq as ->; [|done..]. assert (ResourceFinalizer ∈ fs) as Hin by (rewrite Hfs; by left).
  destruct (finalized_Run identity _ o' fs (now v1) (orphans (with_meta (stored (now v1)) (set_finalizers (o_meta (stored (now v1))) fs)))
    Hw1 Hlive (local_stored identity _ Hw1 Hlive) Hin Hup) as [Hr Hlo]. rewrite <- Hnow in Hr.
  destruct Hup as (_ & Hte & Hst & Hfi & _ & Hde). assert (held o') as Hheld by (unfold held; by rewrite Hfi).
  assert (Hist v2) as Hh2. { eapply advance_Hist; try done; rewrite Hnow; [apply Hlo|]. unfold deleted. cbn. by rewrite Hde. }
  assert (LInv v2) as Hv2.
  { split; [apply Hr|]. split; [done|]. apply (advance_Living v1); [done..| |]; rewrite Hnow; unfold later, id_of; cbn -[GetIDFromSigNozResource]; rewrite Hst.
    - by split. - apply (living_recorded _ Hl1). }
  destruct Hans as [->|Hno]; cbn [written]; [|destruct x; [done|by split]]. split; [done|]. intros _. split; [|done].
  replace o' with (stored (now v2)); [by apply stored_seen|by rewrite Hnow].
Qed.

(** The status is written over the version in hand, or not at all. *)
Lemma status_stale (o : object) v : LInv v -> hand o v -> wps (trigger (KStatusUpdate ctx o)) (fun _ v' => LInv v') v.
Proof.
  intros Hv Ho. apply wp_trigger; [done|]. intros x v2 (v1 & Hd & Hx & Hadv & Hlock).
  destruct (drift_L _ _ Hv Hd) as (Hv1 & Hon1 & _). apply (hand_onwards _ _ _ Ho) in Hon1 as (a & Ha & Hver & Hid & Hrec).
  pose proof Hv1 as (Hw1 & Hh1 & _).
  destruct (locked_write _ _ _ _ _ _ Hh1 Hx Hlock Hadv) as [[-> _]|(Heq & Hlive & o' & (_ & Hte & Hst & Hfi & Han & Hde) & Hnow & _)]; [done|].
  rewrite Hver in Heq. apply (current a) in Heq as ->; [|done..].
  assert (id_of o' = id_of o) as Hid' by (unfold id_of; by rewrite Hst).
  apply (write_L v1 v2 o'); try done; rewrite ?Hid'; try done.
  intros Hno. pose proof (inv_named _ _ Hw1 Hlive) as Hn. unfold named in Hn. destruct (id_of (stored (now v1))) as [id|].
  - by rewrite (Hid id eq_refl) in Hno.
  - destruct Hn as [?|Hat]; [by left|right]. unfold attempted, annotation in *. by rewrite Han.
Qed.

End Pass.

Lemma live_pass_stale ctx (o : object) v : LInv v -> o ∈ window v -> m_deletion (o_meta o) = None ->
  wp sstep (fun X v (e : E X) => LInv v) (Reconcile NewClient rec ctx o) (fun _ v' => LInv v') v.
Proof.
  intros Hv Ho Hdel. unfold Reconcile. cbv zeta. set (ctx' := if decide _ then _ else _). rewrite Hdel.
  apply wp_bind. eapply wp_mono; [|by apply addFinalizer_stale].
  intros [o' [e|]] v1 [Hv1 Hok]; [by apply wp_ret|]. destruct (Hok eq_refl) as [Ho' Hh'].
  apply wp_bind. eapply wp_mono; [|by apply reconcile_stale]. intros [[o2 res] err] v2 [Hv2 Hh2].
  destruct (DeepEqual _ _); [by apply wp_ret|]. apply wp_bind, quiet_wp; [done|by intros v3 x w ->|].
  intros t v3 Hv3 Hon3 _ _ _. apply wp_bind. eapply wp_mono; [|apply status_stale; [done|]].
  - intros [?|?] v4 Hv4; by apply wp_ret.
  - eapply hand_ext; [by eapply hand_onwards|done|done].
Qed.

(** ** A pass over a deleted object *)

Section Deletion.
Context (ctx : Context).

Abbreviation wpd := (wp sstep (fun X v (e : E X) => DInv v)).

Definition shrinks (v v' : view) : Prop :=
  (forall a, a ∈ window v -> a ∈ window v') /\ remote (now v') ⊆ remote (now v).

Lemma advance_deleted v v' : Forall deleted (window v) -> advances v v' -> deleted (stored (now v')) -> Forall deleted (window v').
Proof. intros Hf [[_ ->]|[_ ->]] Hd; [done|by constructor]. Qed.

Lemma drift_D v v' : DInv v -> sdrift v v' -> DInv v' /\ shrinks v v'.
Proof.
  intros (Hw & Hh & Hf) Hd. pose proof Hd as (Hdr & Hadv & _).
  split; [|split; [by intros a; apply advances_sub|by apply Hdr]]. split; [by eapply drift_Inv|]. split; [by eapply drift_Hist|].
  eapply advance_deleted; [done|done|]. assert (deleted (stored (now v))) as Hs.
  { rewrite Forall_forall in Hf. by apply Hf, stored_seen. }
  destruct (live (now v)) eqn:Hl; [by apply (drift_live identity _ _ Hl Hdr)|]. destruct Hdr as (_ & _ & Hdr). rewrite Hl in Hdr.
  by destruct Hdr as [-> _].
Qed.

Lemma quiet_D {X} (e : E X) (Q : X -> view -> Prop) v : DInv v ->
  (forall v1 x w, respond X (now v1) e x w -> w = now v1) ->
  (forall x v', DInv v' -> shrinks v v' -> respond X (now v') e x (now v') -> Q x v') -> wpd (trigger e) Q v.
Proof.
  intros Hv Hq HQ. apply wp_trigger; [done|]. intros x v2 (v1 & Hd & Hr & Hadv & _).
  destruct (drift_D _ _ Hv Hd) as [Hv1 Hs]. pose proof (Hq _ _ _ Hr) as Hn.
  apply quiet in Hadv as ->; [|apply Hv1|done]. by apply HQ.
Qed.

(** Why the version [o] may be released, should it still be the stored one. *)
Definition cleared (o : object) (w : world) : Prop :=
  ReclaimPolicy (o_spec o) = ReclaimOrphan \/ remote w = ∅ \/
  is_ok (id_of o) = false /\ annotation o AnnotationCreateAttempt = None \/
  (exists id, id_of o = Ok id /\ id ∉ remote w).

Lemma cleared_shrinks o v v' : cleared o (now v) -> shrinks v v' -> cleared o (now v').
Proof.
  intros Hc [_ Hr]. destruct Hc as [?|[He|[?|(id & ? & ?)]]]; [by left|right; left; set_solver|by right; right; left|].
  right; right; right. exists id. split; [done|set_solver].
Qed.

Lemma cleared_stored (w : world) : Inv w -> live w = true -> cleared (stored w) w ->
  remote w = ∅ \/ ReclaimPolicy (o_spec (stored w)) = ReclaimOrphan.
Proof.
  intros Hw Hl Hc. pose proof (inv_named _ _ Hw Hl) as Hn. unfold named in Hn.
  destruct Hc as [?|[?|[[Hno Ha]|(id & Hid & Hni)]]]; [by right|by left|left..].
  - destruct (id_of _); [done|]. destruct Hn as [?|[t Ht]]; [done|congruence].
  - rewrite Hid in Hn. set_solver.
Qed.

Lemma removeFinalizer_stale (o : object) v : DInv v -> o ∈ window v -> cleared o (now v) ->
  wpd (removeFinalizer ctx o) (fun _ v' => DInv v') v.
Proof.
  intros Hv Ho Hc. unfold removeFinalizer. destruct (decide (ResourceFinalizer ∈ m_finalizers (o_meta o))) as [Hin|Hni].
  2: { rewrite (remove_finalizer_absent _ _ Hni). by apply wp_ret. }
  destruct (remove_finalizer_present _ _ Hin) as (fs & -> & Hfs). cbn [negb].
  apply wp_bind, wp_trigger; [done|]. intros x v2 (v1 & Hd & Hx & Hadv & Hlock).
  destruct (drift_D _ _ Hv Hd) as [(Hw1 & Hh1 & Hf1) Hs]. apply Hs in Ho as Ho1. apply (cleared_shrinks _ v v1) in Hc; [|done].
  enough (DInv v2) by (destruct x; by apply wp_ret).
  destruct (locked_write _ _ _ _ _ _ Hh1 Hx Hlock Hadv) as [[-> _]|(Heq & Hlive & o' & Hup & Hnow & _)]; [done|].
  apply (current o) in Heq as ->; [|done..]. pose proof (cleared_stored _ Hw1 Hlive Hc) as Hsafe.
  assert (Inv (now v2)) as Hw2.
  { rewrite Hnow. apply released_Inv; try done; [by apply local_stored|]. rewrite Hfs. tauto. }
  destruct Hup as (_ & Hte & _ & _ & _ & Hde). rewrite Forall_forall in Hf1. specialize (Hf1 _ (stored_seen _ Hh1)) as Hsd.
  assert (deleted (stored (now v2))) as Hd2 by (unfold deleted; rewrite Hnow; cbn; by rewrite Hde).
  split; [done|]. split; [|eapply advance_deleted; [by apply Forall_forall|done|done]].
  apply (advance_Hist v1); [done|done| |done]. rewrite Hnow. cbn.
  rewrite (identity_template o' (stored (now v1))) by done. by apply (inv_identity _ _ Hw1).
Qed.

Lemma reclaim_stale (o : object) c r id v : DInv v -> o ∈ window v -> GetIDFromSigNozResource r = Ok id ->
  remote (now v) ⊆ {[id]} \/ id_of o = Ok id -> wpd (reclaim rec ctx c o r) (fun _ v' => DInv v') v.
Proof.
  intros Hv Ho Hr Hid. unfold reclaim. apply wp_bind, wp_trigger; [done|]. intros x v2 (v1 & Hd & Hx & Hadv & _).
  destruct (drift_D _ _ Hv Hd) as [Hv1 [Hs1 Hr1]]. pose proof Hv1 as (Hw1 & Hh1 & Hf1). apply Hs1 in Ho.
  assert (id ∉ remote (now v2) -> remote (now v2) ⊆ remote (now v) -> cleared o (now v2)) as Hc.
  { intros Hni Hsub. destruct Hid as [Hone|Hid]; [right; left; set_solver|right; right; right; by exists id]. }
  cbn [respond] in Hx. rewrite Hr in Hx. destruct Hx as [[Hnow _]|(Hnow & Hsome & Hgone)].
  - assert (window v2 = window v1) as Hwin.
    { destruct Hadv as [[_ ?]|[Hnew _]]; [done|]. exfalso. apply Hnew, list_elem_of_fmap. exists (stored (now v1)).
      split; [by rewrite Hnow|by apply stored_seen]. }
    assert (DInv v2) as Hv2.
    { split; [rewrite Hnow; apply less_remote_Inv; [done|set_solver]|]. split; [|by rewrite Hwin].
      destruct Hh1 as [Hhd Hu Hi Hde]. split; rewrite ?Hwin, ?Hnow; done. }
    destruct (_ && _); [by apply wp_ret|]. apply removeFinalizer_stale; [done|by rewrite Hwin|].
    apply Hc; rewrite Hnow; cbn; set_solver.
  - apply quiet in Hadv as ->; [|done|done]. destruct (IsNotFound x) eqn:Hnf.
    + rewrite andb_false_r. apply removeFinalizer_stale; [done|done|]. apply Hc; [by apply Hgone|done].
    + rewrite bool_decide_eq_true_2 by done. by apply wp_ret.
Qed.

Lemma finalize_stale (o : object) v : DInv v -> o ∈ window v -> wpd (finalize NewClient rec ctx o) (fun _ v' => DInv v') v.
Proof.
  intros Hv Ho. unfold finalize. cbv zeta. destruct (negb _); [by apply wp_ret|].
  destruct (decide _); [apply removeFinalizer_stale; [done|done|by left]|].
  destruct (negb (is_ok _) && _) eqn:Hnone.
  { apply andb_true_iff in Hnone as [Hno%negb_true_iff Ha%bool_decide_eq_true]. apply removeFinalizer_stale; [done|done|by right; right; left]. }
  apply wp_bind. unfold signozClientFor. apply wp_bind, quiet_D; [done|by intros v1 x w ->|].
  intros x v1 Hv1 [Hs1 _] _. apply Hs1 in Ho. apply wp_ret. destruct x as [resolved|e]; [|by apply wp_ret].
  destruct (GetIDFromSigNozResource (SigNozResource_ (o_status o))) as [id|e] eqn:Hid; cbn [is_ok].
  { apply (reclaim_stale o _ _ id); [done|done|done|by right]. }
  rewrite (seen_identity o v1) by (done || apply Hv1). apply wp_bind, quiet_D; [done|by intros v2 x w []|].
  intros x v2 Hv2 [Hs2 _] [_ Hx]. apply Hs2 in Ho. destruct x as [[|r [|r' found]]|e']; [| |by apply wp_ret|by apply wp_ret].
  - apply removeFinalizer_stale; [done|done|]. right; left. by apply found_none.
  - destruct (found_singleton identity _ _ (proj1 Hv2) Hx) as (id & _ & Hr & Hrem).
    apply (reclaim_stale o _ _ id); [done|done|done|left; set_solver].
Qed.
End Deletion.

Lemma deleted_pass_stale ctx (o : object) v : DInv v -> o ∈ window v -> deleted o ->
  wp sstep (fun X v (e : E X) => DInv v) (Reconcile NewClient rec ctx o) (fun _ v' => DInv v') v.
Proof. intros Hv Ho [t Ht]. unfold Reconcile. cbv zeta. rewrite Ht. by apply finalize_stale. Qed.

(** ** The system *)

(** The window cut to the version a pass begins from. *)
Lemma cut_Hist v newer o older : Hist v -> window v = newer ++ o :: older -> Hist (MkView (now v) (newer ++ [o])).
Proof.
  intros [[rest Hhd] Hu Hi Hd] Hw. assert (forall a, a ∈ newer ++ [o] -> a ∈ window v) as Hsub.
  { intros a. rewrite Hw, !elem_of_app, !elem_of_cons, elem_of_nil. tauto. }
  split; cbn.
  - rewrite Hw in Hhd. destruct newer as [|a newer]; cbn in *; injection Hhd as -> _; by eexists.
  - intros a b Ha%Hsub Hb%Hsub. by apply Hu.
  - rewrite Forall_forall in Hi |- *. intros a Ha%Hsub. by apply Hi.
  - rewrite Hw in Hd. clear -Hd. replace (newer ++ o :: older) with ((newer ++ [o]) ++ older) in Hd by (by rewrite <- app_assoc).
    induction (newer ++ [o]) as [|a l IH]; [constructor|]. apply StronglySorted_inv in Hd as [Hd Ha%Forall_app].
    constructor; [by apply IH|apply Ha].
Qed.

(** Between passes: nobody has seen the deletion, or nobody will miss it. *)
Definition Between (v : view) : Prop := LInv v \/ DInv v.

Lemma cut_deleted v newer o older : Between v -> window v = newer ++ o :: older -> deleted o ->
  DInv (MkView (now v) (newer ++ [o])).
Proof.
  intros Hv Hw Ho. assert (Inv (now v) /\ Hist v) as [Hi Hh] by (by destruct Hv as [(? & ? & _)|(? & ? & _)]).
  split; [done|]. split; [by eapply cut_Hist|]. cbn. apply Forall_app. split; [|by constructor].
  pose proof (hist_deletion _ Hh) as Hd. rewrite Hw in Hd. clear -Hd Ho. induction newer as [|a l IH]; [constructor|].
  apply StronglySorted_inv in Hd as [Hd [_ Ha]%Forall_app]. constructor; [|by apply IH].
  apply Forall_cons in Ha as [Ha _]. by apply Ha.
Qed.

Lemma cut_living v newer o older : Between v -> window v = newer ++ o :: older -> ~ deleted o ->
  LInv (MkView (now v) (newer ++ [o])).
Proof.
  intros [(Hi & Hh & [Hr Hl])|(_ & _ & Hf)] Hw Ho.
  - split; [done|]. split; [by eapply cut_Hist|]. split; [done|]. cbn. rewrite Hw in Hl.
    apply Forall_app in Hl as [Hn [Hlo _]%Forall_cons]. apply Forall_app. split; [done|by constructor].
  - rewrite Hw in Hf. apply Forall_app in Hf as [_ [Hd _]%Forall_cons]. by destruct Ho.
Qed.

Lemma fresh_L w : fresh identity w -> is_ok (id_of (stored w)) = false -> LInv (MkView w [stored w]).
Proof.
  intros Hf Hno. pose proof Hf as (_ & _ & _ & _ & Hid). split; [by apply fresh_Inv|]. split; split; cbn.
  - by exists [].
  - intros a b ->%list_elem_of_singleton ->%list_elem_of_singleton. done.
  - by constructor.
  - by repeat constructor.
  - intros id Hok. by rewrite Hok in Hno.
  - by repeat constructor.
Qed.

Lemma stale_reachable_Between ctx v :
  stale_reachable (SigNoz := SigNoz) (Resolved := Resolved) NewClient rec ctx identity false v -> Between v.
Proof.
  induction 1 as [w Hf Hno|v v' _ IH Hd|v newer o older p v' _ IH Hw Hex].
  - left. by apply fresh_L.
  - destruct IH as [Hv|Hv]; [left; by apply (drift_L v v')|right; by apply (drift_D v v')].
  - destruct (m_deletion (o_meta o)) as [t|] eqn:Hdel.
    + right. assert (DInv (MkView (now v) (newer ++ [o]))) as Hv by (eapply cut_deleted; [done..|by eexists]).
      assert (o ∈ newer ++ [o]) as Ho by set_solver.
      pose proof (wp_exec _ _ _ _ _ _ _ (deleted_pass_stale ctx o _ Hv Ho (ex_intro _ t Hdel)) Hex) as Hp.
      destruct p; [done|apply Hp].
    + left. assert (LInv (MkView (now v) (newer ++ [o]))) as Hv.
      { eapply cut_living; [done..|]. unfold deleted. rewrite Hdel. by intros []. }
      assert (o ∈ newer ++ [o]) as Ho by set_solver.
      pose proof (wp_exec _ _ _ _ _ _ _ (live_pass_stale ctx o _ Hv Ho Hdel) Hex) as Hp. destruct p; [done|apply Hp].
Qed.

(** C2. Lagging caches do no harm while nobody else deletes in SigNoz.  A pass may begin
    from any version stored since the one the last pass began from, of an object
    that has changed or is gone: with optimistic locking on updates alone, SigNoz
    never holds two objects of the identity, each it holds is named by the
    recorded id or its attempt is on record, and none is left behind. *)
Theorem stale_caches_are_safe ctx v :
  stale_reachable (SigNoz := SigNoz) (Resolved := Resolved) NewClient rec ctx identity false v ->
  (size (remote (now v)) <= 1)%nat /\
  (live (now v) = true -> forall id, id ∈ remote (now v) ->
     id_of (stored (now v)) = Ok id \/ is_ok (id_of (stored (now v))) = false /\ attempted (stored (now v))) /\
  (live (now v) = true -> remote (now v) <> ∅ -> orphaned (now v) = true \/ held (stored (now v))) /\
  (live (now v) = false -> remote (now v) <> ∅ -> orphaned (now v) = true).
Proof. intros [[Hw _]|[Hw _]]%stale_reachable_Between; by apply (Inv_accounted identity). Qed.
End Safety.
