(* ===== verification/Fixture.v ===== *)
(** * A fixture: one small kind and an environment that answers

    What the witnesses of the reconciler's theorems run on: objects whose
    template is a string, and an environment that accepts every write. *)

From S2P Require Import Prelude GoStd Errors Kube Core Conditions Effects Interfaces Reconciler.
From Stdlib Require Import String.

Local Open Scope string_scope.

(** A kind whose body is its template, mirrored verbatim, matched by value. *)
Definition note_path : string := "/api/v1/notes".

#[export] Instance Note : ResourceObject string := {
  Identity o := if decide (o_template o = "") then Err (errorString "no identity") else Ok (o_template o);
  Body o := Ok (o_template o);
  Hash o := Ok ("sha256:" ++ o_template o);
  ToSigNozResource id := Ok (MkResource (Some id));
  ToUpdate o := Ok (Some (o_template o));
  UpdatableFields := ["spec"];
  ImmutableFields := [];
  Compare o remote := Ok (MkCompare (if decide (remote = Some (o_template o)) then [] else ["spec"]) []);
  CreateMethodAndPath := ("POST", note_path);
  UpdateMethodAndPath r := ("PUT", note_path);
  ReadMethodAndPath r := ("GET", note_path);
  DeleteMethodAndPath r := ("DELETE", note_path);
}.

Abbreviation E := (call string string string).
Abbreviation note := (Object string).

Definition operator : commonReconciler := NewCommonReconciler (10 * Minute) Minute (30 * Second) "signoz-system".
Definition newClient (resolved : string) : string := resolved.
Definition background : Context := MkContext None true.

(** ** Objects *)

Definition spec (policy : string) (suspend : bool) : CoreSpec :=
  MkCoreSpec (MkRef "default" "ProviderConfig") None None None suspend policy.
Definition meta (deletion : option Z) (finalizers : list string) (annotations : gmap string string) : ObjectMeta :=
  MkMeta "a" "team" "1" 3 deletion finalizers annotations.
Definition status (id : option string) (hash : string) : CoreStatus :=
  MkStatus [] ((fun i => MkResource (Some i)) <$> id) 0 hash None.

Definition new_note : note :=
  MkObject (meta None [ResourceFinalizer] ∅) (spec ReclaimDelete false) "hello" (status None "").
Definition bound_note : note :=
  MkObject (meta None [ResourceFinalizer] ∅) (spec ReclaimDelete false) "hello" (status (Some "7") "sha256:hello").
Definition deleted_note : note :=
  MkObject (meta (Some 5%Z) [ResourceFinalizer] ∅) (spec ReclaimDelete false) "hello" (status (Some "7") "").
Definition suspended_note : note :=
  MkObject (meta None [ResourceFinalizer] ∅) (spec ReclaimDelete true) "hello" (status None "").

(** ** The environment *)

(** Writes succeed; a lookup finds [found], a read returns [remote]. *)
Section answers.
Context (found : list (option SigNozResource)) (remote : option string).

Definition answer {X} (e : E X) : X :=
  match e with
  | KUpdate _ o => Ok o
  | KPatch _ o _ => Ok o
  | KStatusUpdate _ o => Ok o
  | TimeNow => 0%Z
  | ResolveRef _ _ _ _ => Ok "config"
  | Find _ _ _ => Ok found
  | Create _ _ _ => Ok (Some (MkResource (Some "7")))
  | Read _ _ _ _ => Ok remote
  | Update _ _ _ _ => None
  | Delete _ _ _ _ => None
  end.

Definition answering {X} (h : history E) (e : E X) : X * history E := (answer e, (h ++ [Ev e (answer e)])%list).

Lemma answering_exec {R} stop (p p' : prog E R) h h' :
  run_until (@answering) stop p h = (p', h') -> exec (hist_step (@any_answer E)) p h p' h'.
Proof. apply run_until_exec. by split. Qed.
End answers.

Definition never_stop (X : Type) (e : E X) : bool := false.

(** Prove a run of the fixture by evaluating it. *)
Ltac run_note found remote stop :=
  apply (answering_exec found remote stop); reflexivity.
