(* ===== verification/ReconcilerWitness.v ===== *)
(** * The reconciler's theorems at concrete runs

    Each applies a theorem to a run of the fixture, at which its hypotheses
    hold. *)

From S2P Require Import Prelude GoStd Errors Kube Core Conditions Effects Interfaces Reconciler ReconcilerSafety ReconcilerOutcome Fixture.
From Stdlib Require Import String.
Import Reasons.

Local Open Scope string_scope.

Abbreviation anything := (hist_step (E := E) (@any_answer E)).
Abbreviation Pass := (Reconcile newClient operator background).

(** The first create of a new object. *)
Lemma create_is_guarded_witness : exists ctx c o k h,
  exec anything (Pass new_note) [] (Vis (Create ctx c o) k) h /\ create_guard h ctx c o.
Proof.
  assert (exists ctx c o k h, exec anything (Pass new_note) [] (Vis (Create ctx c o) k) h)
    as (ctx & c & o & k & h & Hex).
  { do 5 eexists. run_note (@nil (option SigNozResource)) (@None string) (fun X e => @is_create string string string X e). }
  exists ctx, c, o, k, h. split; [exact Hex|]. eapply create_is_guarded, Hex.
Defined.

(** The delete of a bound object being deleted. *)
Lemma delete_is_guarded_witness : exists ctx c o r k h,
  exec anything (Pass deleted_note) [] (Vis (Delete ctx c o r) k) h /\
  delete_guard newClient deleted_note h ctx c o r.
Proof.
  assert (exists ctx c o r k h, exec anything (Pass deleted_note) [] (Vis (Delete ctx c o r) k) h)
    as (ctx & c & o & r & k & h & Hex).
  { do 6 eexists. run_note (@nil (option SigNozResource)) (@None string) (fun X e => @is_delete string string string X e). }
  exists ctx, c, o, r, k, h. split; [exact Hex|]. eapply delete_is_guarded, Hex.
Defined.

Definition is_kupdate (X : Type) (e : E X) : bool := match e with KUpdate _ _ => true | _ => false end.

(** The release that follows it. *)
Lemma finalizer_release_is_guarded_witness : exists ctx o k h,
  exec anything (Pass deleted_note) [] (Vis (KUpdate ctx o) k) h /\
  (ResourceFinalizer ∉ m_finalizers (o_meta o)) /\ release_guard deleted_note h.
Proof.
  assert (exists ctx k h, exec anything (Pass deleted_note) []
    (Vis (KUpdate ctx (with_meta deleted_note (meta (Some 5%Z) [] ∅))) k) h) as (ctx & k & h & Hex).
  { do 3 eexists. run_note (@nil (option SigNozResource)) (@None string) is_kupdate. }
  do 4 eexists. split; [exact Hex|]. split; [apply not_elem_of_nil|].
  eapply finalizer_release_is_guarded; [exact Hex|apply not_elem_of_nil].
Defined.

(** A bound object whose body drifted, brought up to date. *)
Lemma reconcile_settles_on_one_verdict_witness : exists o res h,
  exec anything (reconcile newClient operator background bound_note) [] (Ret (o, res, None)) h /\
  settled operator o res.
Proof.
  assert (exists o res h, exec anything (reconcile newClient operator background bound_note) []
    (Ret (o, res, None)) h) as (o & res & h & Hex).
  { do 3 eexists. run_note (@nil (option SigNozResource)) (Some "other") never_stop. }
  exists o, res, h. split; [exact Hex|]. eapply reconcile_settles_on_one_verdict, Hex.
Defined.

Lemma settled_requeue_positive_witness : exists o outcome h,
  exec anything (reconcile newClient operator background bound_note) [] (Ret (o, MkResult (10 * Minute), None)) h /\
  (exists r m g, reports (o_status o) g outcome r m) /\
  ((0 < 10 * Minute)%Z <-> outcome <> ReconcilerOutcomeTerminal /\ outcome <> ReconcilerOutcomeSuspended).
Proof.
  assert (exists o h, exec anything (reconcile newClient operator background bound_note) []
    (Ret (o, MkResult (10 * Minute), None)) h) as (o & h & Hex).
  { do 2 eexists. run_note (@nil (option SigNozResource)) (Some "other") never_stop. }
  assert (positive_defaults operator) as Hpos by (split; reflexivity).
  destruct (settled_requeue_positive _ _ _ _ _ _ _ _ Hpos Hex) as (out & r & m & g & Hr & Hq & _).
  exists o, out, h. split; [exact Hex|]. split; [by exists r, m, g|exact Hq].
Defined.

Lemma suspended_touches_nothing_witness : exists o h,
  exec anything (Pass suspended_note) [] (Ret (o, no_requeue, None)) h /\
  exists hs, h = ([] ++ hs)%list /\ Forall (fun ev => ev_call (@is_remote string string string) ev = false) hs.
Proof.
  assert (exists o h, exec anything (Pass suspended_note) [] (Ret (o, no_requeue, None)) h) as (o & h & Hex).
  { do 2 eexists. run_note (@nil (option SigNozResource)) (Some "other") never_stop. }
  exists o, h. split; [exact Hex|].
  assert (ResourceFinalizer ∈ m_finalizers (o_meta suspended_note)) as Hf by (apply list_elem_of_here).
  destruct (suspended_touches_nothing newClient operator background suspended_note _ _ _ _ _ eq_refl eq_refl Hf Hex) as (_ & hs & Hh & Hno & _).
  by exists hs.
Defined.

(** The update of a drifted object. *)
Lemma update_is_guarded_witness : exists ctx c o r k h,
  exec anything (reconcile newClient operator background bound_note) [] (Vis (Update ctx c o r) k) h /\
  update_guard "sha256:hello" h ctx c o r.
Proof.
  assert (exists ctx c o r k h, exec anything (reconcile newClient operator background bound_note) []
    (Vis (Update ctx c o r) k) h) as (ctx & c & o & r & k & h & Hex).
  { do 6 eexists. run_note (@nil (option SigNozResource)) (Some "other") (fun X e => @is_update string string string X e). }
  exists ctx, c, o, r, k, h. split; [exact Hex|]. eapply update_is_guarded; [|exact Hex]. reflexivity.
Defined.

(** The status of a drifted object after its update, written once. *)
Lemma live_pass_records_status_witness : exists o res h,
  exec anything (Pass bound_note) [] (Ret (o, res, None)) h /\ List.length (status_writes h) = 1%nat /\
  exists o1 h1 o2 res2 err2 h2,
    exec anything (reconcile newClient operator (pass_context operator background bound_note) o1) h1
      (Ret (o2, res2, err2)) h2 /\ (err2 = None -> settled operator o2 res2) /\
    status_recorded (pass_context operator background bound_note) (o_status o1) o2 res2 err2 h2 h o res None.
Proof.
  assert (exists o res h, exec anything (Pass bound_note) [] (Ret (o, res, None)) h /\ List.length (status_writes h) = 1%nat)
    as (o & res & h & Hex & Hone).
  { do 3 eexists. split; [run_note (@nil (option SigNozResource)) (Some "other") never_stop|reflexivity]. }
  exists o, res, h. split; [exact Hex|]. split; [exact Hone|].
  destruct (live_pass_records_status newClient operator background bound_note _ _ _ _ eq_refl Hex)
    as [(e & _ & _ & _ & _ & He)|(o1 & h1 & o2 & res2 & err2 & h2 & _ & Hr & Hset & Hs)]; [discriminate He|].
  exists o1, h1, o2, res2, err2, h2. split; [exact Hr|]. split; [exact Hset|exact Hs].
Defined.

(** An object that was found in sync before. *)
Definition synced_note : note :=
  set_outcome bound_note 3 ReconcilerOutcomeSynced ReasonSynced "In sync with SigNoz".

Lemma steady_pass_is_read_only_witness : exists h,
  exec anything (Pass synced_note) [] (Ret (synced_note, MkResult (10 * Minute), None)) h /\ List.length h = 2.
Proof.
  assert (steady synced_note "sha256:hello") as Hs.
  { split; try reflexivity; [apply list_elem_of_here|]. apply set_conditions_reports. }
  eexists. split; [|].
  - apply (steady_pass_is_read_only newClient operator background synced_note "sha256:hello" "config"
             (Some "hello") Hs). reflexivity.
  - reflexivity.
Defined.

(** An object whose create attempt of a second ago has an unknown outcome. *)
Definition attempted_note : note :=
  with_meta new_note (set_annotations (o_meta new_note) {[AnnotationCreateAttempt := FormatRFC3339 99]}).

Lemma empty_lookup_creates_at_once_witness : exists k h,
  exec anything (Pass attempted_note) [] (Vis (Create (pass_context operator background attempted_note) "config" attempted_note) k) h /\
  List.length h = 4.
Proof.
  assert (unnamed attempted_note "hello" "sha256:hello") as Hu
    by (split; try reflexivity; apply list_elem_of_here).
  destruct (empty_lookup_creates_at_once newClient operator background attempted_note "hello" "sha256:hello" "config"
    100%Z attempted_note Hu) as (patch & k & Hex & _).
  exists k. eexists. split; [exact Hex|]. reflexivity.
Defined.
