(* ===== verification/ProtocolWitness.v ===== *)
(** * The system's theorems at concrete runs of the fixture

    A note is created, the operator crashes before the id is recorded, and passes
    recover; another is deleted. *)

From S2P Require Import Prelude GoStd Errors Kube Core Conditions Effects Interfaces Reconciler Protocol ProtocolProgress ProtocolSafety ProtocolRecovery Fixture.
From Stdlib Require Import String.

Local Open Scope string_scope.

#[export] Instance note_desired : DesiredFromTemplate string.
Proof. split; intros o o' Ht; cbn; by rewrite Ht. Qed.

Abbreviation world := (Protocol.world (T := string)).
Abbreviation system := (reachable (T := string) (SigNoz := string) (Resolved := string) newClient operator background "hello").
Abbreviation Pass := (Reconcile newClient operator background).
Abbreviation undisturbed := (always (calm (T := string) (SigNoz := string) (Resolved := string))).

#[export] Instance string_inhabited : Inhabited string := populate "config".

(** ** A crash after the create *)

Definition start : world := MkWorld new_note true false ∅.

Lemma start_fresh : fresh "hello" start.
Proof. by repeat split. Qed.

Definition crash_point (X : Type) (e : E X) : bool := match e with KStatusUpdate _ _ => true | _ => false end.

Lemma note_drift (w : world) :
  live w = true -> gone (stored w) = false -> Identity (stored w) = Ok "hello" -> drift "hello" w w.
Proof.
  intros Hl Hg Hi. split; [done|]. split; [done|]. rewrite Hl. split; [by split|by rewrite Hg].
Qed.

Definition attempt_made : note :=
  with_meta new_note (set_annotations (o_meta new_note) {[AnnotationCreateAttempt := "1970-01-01T00:00:00Z"]}).

(** The create took effect; the pass ends before the id is written. *)
Lemma crash_reached : exists p, exec (step "hello") (Pass new_note) start p (MkWorld attempt_made true false {["7"]}).
Proof.
  eexists. 
  eapply (exec_step _ _ _ (Ok "config")). { exists start. split; [by apply note_drift|reflexivity]. }
  eapply (exec_step _ _ _ (Ok [])). { exists start. split; [by apply note_drift|]. split; reflexivity. }
  eapply (exec_step _ _ _ 0%Z). { exists start. split; [by apply note_drift|reflexivity]. }
  eapply (exec_step _ _ _ (Ok attempt_made) _ (MkWorld attempt_made true false ∅)).
  { exists start. split; [by apply note_drift|]. left. split; [reflexivity|]. exists attempt_made.
    split; [|split; [reflexivity|by left]]. do 5 (split; [reflexivity|]). intros k.
    destruct (decide (k = AnnotationCreateAttempt)) as [->|Hk]; [reflexivity|]. unfold annotation. cbn.
    by rewrite !lookup_insert_ne by done. }
  eapply (exec_step _ _ _ (Ok (named_by "7"))).
  { eexists. split; [by apply note_drift|]. exists "7". split; [discriminate|]. split; [set_solver|]. split; reflexivity. }
  match goal with |- exec _ _ ?w _ ?w' => replace w with w' by (unfold with_remote; cbn; f_equal; set_solver) end.
  apply exec_refl.
Qed.

Lemma created_once_and_never_lost_witness : exists w,
  system w /\ size (remote w) = 1%nat /\ is_ok (id_of (stored w)) = false /\ attempted (stored w).
Proof.
  destruct crash_reached as (p & Hex).
  assert (system (MkWorld attempt_made true false {["7"]})) as Hr.
  { eapply reach_pass; [apply reach_fresh, start_fresh|reflexivity|exact Hex]. }
  exists (MkWorld attempt_made true false {["7"]}). split; [exact Hr|]. split; [reflexivity|]. split; [reflexivity|].
  destruct (created_once_and_never_lost newClient operator "hello" background _ Hr) as (_ & Hn & _).
  assert ("7" ∈ ({["7"]} : gset string)) as Hin by set_solver.
  destruct (Hn eq_refl "7" Hin) as [Hid|[_ Ha]]; [discriminate Hid|exact Ha].
Defined.

(** ** Recovery *)

Definition crashed : world := MkWorld attempt_made true false {["7"]}.
Lemma crashed_reachable : system crashed.
Proof.
  destruct crash_reached as (p & Hex). eapply reach_pass; [apply reach_fresh, start_fresh|reflexivity|exact Hex].
Qed.

Lemma two_calm_passes_recover_witness :
  undisturbed (Pass (stored crashed)) crashed (fun _ w1 =>
    undisturbed (Pass (stored w1)) w1 (fun '(_, _, err) w2 =>
      err = None /\ exists id, id_of (stored w2) = Ok id /\ remote w2 = {[id]})).
Proof.
  assert (workable crashed) as Hw by (do 4 (split; [reflexivity|]); reflexivity).
  exact (two_calm_passes_recover newClient operator "hello" background crashed crashed_reachable Hw).
Defined.

(** ** Deletion *)

Definition deleted : world := MkWorld (with_meta attempt_made
  (MkMeta "a" "team" "1" 3 (Some 5%Z) [ResourceFinalizer] (m_annotations (o_meta attempt_made)))) true false {["7"]}.

Lemma deleted_reachable : system deleted.
Proof.
  eapply reach_drift; [apply crashed_reachable|]. split; [reflexivity|]. split; [set_solver|].
  split; [|reflexivity]. split; [reflexivity|]. split; [reflexivity|]. split; [reflexivity|]. split; [done|]. by eexists.
Qed.

Lemma calm_deletion_reclaims_witness :
  undisturbed (Pass (stored deleted)) deleted (fun '(_, _, err) w => err = None /\ remote w = ∅ /\ ~ held (stored w)).
Proof.
  assert (is_Some (m_deletion (o_meta (stored deleted)))) as Hd by (by eexists).
  assert (held (stored deleted)) as Hh by apply list_elem_of_here.
  assert (ReclaimPolicy (o_spec (stored deleted)) <> ReclaimOrphan) as Hp by discriminate.
  exact (calm_deletion_reclaims newClient operator "hello" background deleted deleted_reachable eq_refl Hd Hh Hp).
Defined.

(** ** The patch that removes the attempt

    When the copy the pass holds has no other annotation, the patch removes every
    annotation of the stored object, also one that another controller set since. *)

Definition pinned : note :=
  with_meta attempt_made (set_annotations (o_meta attempt_made) (<[AnnotationSigNozResourceID := "7"]> (m_annotations (o_meta attempt_made)))).

Definition attempt_removed : note :=
  with_meta attempt_made (set_annotations (o_meta attempt_made) (delete AnnotationCreateAttempt (m_annotations (o_meta attempt_made)))).

Lemma last_attempt_removed_wipes (o' : note) :
  patched attempt_removed attempt_made pinned o' ->
  annotation pinned AnnotationSigNozResourceID = Some "7" /\ annotation o' AnnotationSigNozResourceID = None.
Proof.
  intros (_ & _ & _ & _ & _ & Ha). split; [reflexivity|]. rewrite Ha. reflexivity.
Qed.
