(* ===== verification/StaleWitness.v ===== *)
(** * A lagging cache at a concrete run of the fixture

    A pass creates a note and crashes before the id is written; the next begins
    from the note as it was before the first, finds what was created, and
    records its id.  And a run that loses an object, with others deleting in
    SigNoz. *)

From S2P Require Import Prelude GoStd Errors Kube Core Conditions Effects Interfaces Reconciler Protocol ProtocolSafety Stale StaleSafety Fixture ProtocolWitness.
From Stdlib Require Import String.

Local Open Scope string_scope.
Local Open Scope list_scope.

Abbreviation view := (Stale.view (T := string)).
Abbreviation lagging := (stale_reachable (T := string) (SigNoz := string) (Resolved := string) newClient operator background "hello").
Abbreviation sstep := (stale_step (T := string) (SigNoz := string) (Resolved := string) "hello").

(** The note in a version, with an attempt on record or none. *)
Definition recorded (attempt : option string) : gmap string string :=
  match attempt with Some t => {[AnnotationCreateAttempt := t]} | None => ∅ end.
Definition note_at (version : string) (attempt : option string) (st : CoreStatus) : note :=
  MkObject (MkMeta "a" "team" version 3 None [ResourceFinalizer] (recorded attempt)) (spec ReclaimDelete false) "hello" st.

Definition at0 : string := "1970-01-01T00:00:00Z".
Definition at1 : string := "1970-01-01T00:00:01Z".
Definition at2 : string := "1970-01-01T00:00:02Z".

Definition unbound : CoreStatus := status None "".
Definition seen (o : note) (r : gset string) (older : list note) : view := MkView (MkWorld o true false r) (o :: older).

Definition created_note : note := note_at "1" None unbound.
Definition tried : note := note_at "2" (Some at0) unbound.
Definition retried : note := note_at "3" (Some at1) unbound.
Definition adopted : CoreStatus := Eval vm_compute in with_reconciled_at
  (SetConditionsOnOutcome (with_hash (with_resource unbound (named_by "7")) "sha256:hello") 3 ReconcilerOutcomeSynced
     Reasons.ReasonSynced "In sync with SigNoz") 1.
Definition settled : note := note_at "4" (Some at1) adopted.

Section Steps.
Context (outsiders : bool).

(** A call between which nothing happens. *)
Lemma undisturbed_step X (v : view) (e : E X) x v' :
  live (now v) = true -> gone (stored (now v)) = false -> Identity (stored (now v)) = Ok "hello" ->
  stale_respond outsiders X v e x v' -> sstep outsiders X v e x v'.
Proof.
  intros Hl Hg Hi Hr. exists v. split; [|exact Hr]. split; [by apply note_drift|]. split; [by left|done].
Qed.

(** A call that leaves the world as it is. *)
Lemma undisturbed_read X (v : view) (e : E X) x :
  live (now v) = true -> gone (stored (now v)) = false -> Identity (stored (now v)) = Ok "hello" ->
  respond X (now v) e x (now v) -> restricts outsiders X v e x v -> sstep outsiders X v e x v.
Proof. intros Hl Hg Hi Hr Hq. apply undisturbed_step; try done. split; [done|]. split; [by left|done]. Qed.

(** A merge patch that takes effect. *)
Lemma patch_step ctx (o base o' s : note) r older : gone s = false -> Identity s = Ok "hello" ->
  patched o base s o' -> gone o' = false -> version o' ∉ version <$> s :: older ->
  (forall t, annotation o AnnotationCreateAttempt = Some t -> Forall (fun a => annotation a AnnotationCreateAttempt <> Some t) (s :: older)) ->
  sstep outsiders _ (seen s r older) (KPatch ctx o base) (Ok o') (seen o' r (s :: older)).
Proof.
  intros Hg Hi Hp Hg' Hnew Hsec. apply undisturbed_step; [done..|]. split; [|split; [by right|exact Hsec]].
  left. split; [done|]. exists o'. split; [exact Hp|]. split; [|by left]. unfold store. cbn. by rewrite Hg'.
Qed.

(** The attempt recorded over a version that may lag is one on what is stored. *)
Lemma attempt_step new sec t version1 attempt1 st1 version2 attempt2 st2 r older ctx :
  FormatRFC3339 sec = t -> attempt1 <> Some t ->
  new ∉ version <$> note_at version2 attempt2 st2 :: older ->
  Forall (fun a => annotation a AnnotationCreateAttempt <> Some t) (note_at version2 attempt2 st2 :: older) ->
  let base := note_at version1 attempt1 st1 in
  sstep outsiders _ (seen (note_at version2 attempt2 st2) r older)
    (KPatch ctx (with_meta base (set_annotations (o_meta base) (<[AnnotationCreateAttempt := FormatRFC3339 sec]> (m_annotations (o_meta base))))) base)
    (Ok (note_at new (Some t) st2)) (seen (note_at new (Some t) st2) r (note_at version2 attempt2 st2 :: older)).
Proof.
  intros -> Hne Hnew Hsec base. apply patch_step; [done|done| |done|done|].
  2: { intros t'. rewrite annotation_set. by intros [= <-]. }
  do 5 (split; [done|]). intros k. rewrite setting_nulls_nothing. destruct (decide (k = AnnotationCreateAttempt)) as [->|Hk].
  - rewrite annotation_set, decide_False; [apply lookup_insert_eq|]. intros Heq. apply Hne. rewrite Heq. by destruct attempt1.
  - unfold annotation, base. cbn. rewrite !lookup_insert_ne by done. rewrite lookup_empty.
    by destruct attempt1, attempt2; cbn; rewrite ?lookup_insert_ne, ?lookup_empty by done.
Qed.

(** Nor does its removal look at the version it is made from. *)
Lemma removal_step new t1 version1 st1 version2 attempt2 st2 r older ctx :
  new ∉ version <$> note_at version2 attempt2 st2 :: older ->
  let base := note_at version1 (Some t1) st1 in
  sstep outsiders _ (seen (note_at version2 attempt2 st2) r older)
    (KPatch ctx (with_meta base (set_annotations (o_meta base) (delete AnnotationCreateAttempt (m_annotations (o_meta base))))) base)
    (Ok (note_at new None st2)) (seen (note_at new None st2) r (note_at version2 attempt2 st2 :: older)).
Proof.
  intros Hnew base. apply patch_step; [done|done| |done|done|].
  2: { intros t. by rewrite annotation_unset. }
  do 5 (split; [done|]). intros k. destruct (decide (k = AnnotationCreateAttempt)) as [->|Hk].
  - rewrite annotation_unset, decide_False; [done|]. unfold annotation, base. cbn. by rewrite lookup_insert_eq.
  - unfold annotation, base. cbn. rewrite lookup_delete_ne, !lookup_insert_ne, !lookup_empty by done.
    by destruct attempt2; cbn; rewrite ?lookup_insert_ne, ?lookup_empty by done.
Qed.

(** A status written over the stored version. *)
Lemma status_step new version attempt st2 (o : note) r older ctx :
  o_meta o = o_meta (note_at version attempt st2) -> new ∉ Stale.version <$> note_at version attempt st2 :: older ->
  sstep outsiders _ (seen (note_at version attempt st2) r older) (KStatusUpdate ctx o)
    (Ok (note_at new attempt (o_status o))) (seen (note_at new attempt (o_status o)) r (note_at version attempt st2 :: older)).
Proof.
  intros Ho Hnew. apply undisturbed_step; [done..|]. split; [|split; [by right|intros Hne; destruct Hne; unfold Stale.version; by rewrite Ho]].
  left. split; [done|]. exists (note_at new attempt (o_status o)). split; [by repeat split|]. split; [done|by left].
Qed.

Lemma create_step ctx c (o : note) s r older id : gone s = false -> Identity s = Ok "hello" -> id <> "" -> (id ∉ r) ->
  sstep outsiders _ (seen s r older) (Create ctx c o) (Ok (named_by id)) (seen s ({[id]} ∪ r) older).
Proof. intros Hg Hi Hne Hni. apply undisturbed_step; try done. split; [|split; [by left|done]]. by exists id. Qed.
End Steps.

Ltac reads x := eapply (exec_step _ _ _ x); [apply undisturbed_read; try done|].
(** Evaluate the rest of the pass. *)
Ltac evaluates :=
  match goal with |- exec ?s ?p ?w ?q ?w' =>
    let p' := eval vm_compute in p in
    refine (eq_ind p' (fun x => exec s x w q w') _ p _); [|vm_compute; reflexivity]
  end.
Ltac writes step st := eapply exec_step; [apply step; [done|cbn; set_solver]|];
  match goal with |- context [o_status ?o] => assert (o_status o = st) as -> by (vm_compute; reflexivity) end.
Ltac goes step := eapply exec_step; [apply step; [by vm_compute|done|cbn; set_solver|by repeat constructor]|].

Lemma lagging_crash outsiders : exists p, exec (sstep outsiders) (Pass created_note) (seen created_note ∅ []) p (seen tried {["7"]} [created_note]).
Proof.
  eexists. reads (Ok "config" : result string error). reads (Ok [] : result (list (option SigNozResource)) error). reads 0%Z.
  goes (attempt_step outsiders "2" 0 at0 "1" None unbound "1" None unbound ∅ []).
  eapply exec_step; [by apply (create_step outsiders _ _ _ _ ∅ _ "7")|]. replace ({["7"]} ∪ ∅ : gset string) with ({["7"]} : gset string) by set_solver.
  apply exec_refl.
Qed.

(** The stale pass finds what the first created, and records its id. *)
Lemma lagging_adoption : exec (sstep false) (Pass created_note) (seen tried {["7"]} [created_note])
  (Ret (settled, MkResult (10 * Minute), None)) (seen settled {["7"]} [retried; tried; created_note]).
Proof.
  reads (Ok "config" : result string error). reads (Ok [named_by "7"] : result (list (option SigNozResource)) error). reads 1%Z.
  goes (attempt_step false "3" 1 at1 "1" None unbound "2" (Some at0) unbound {["7"]} [created_note]).
  reads (Ok (Some "hello") : result (option string) error). reads 1%Z.
  writes (status_step false "4" "3" (Some at1) unbound) adopted. apply exec_refl.
Qed.

Lemma lagging_settled : lagging false (seen settled {["7"]} [retried; tried; created_note]).
Proof.
  destruct (lagging_crash false) as (p & Hp).
  assert (lagging false (seen tried {["7"]} [created_note])) as Hr.
  { apply (stale_pass _ _ _ _ _ (seen created_note ∅ []) [] created_note [] p); [|done|exact Hp]. by apply stale_fresh. }
  by apply (stale_pass _ _ _ _ _ _ [tried] created_note [] _ _ Hr eq_refl lagging_adoption).
Qed.

Lemma stale_caches_are_safe_witness : exists v, lagging false v /\ size (remote (now v)) = 1%nat /\ id_of (stored (now v)) = Ok "7".
Proof.
  exists (seen settled {["7"]} [retried; tried; created_note]). split; [exact lagging_settled|]. split; [reflexivity|].
  destruct (stale_caches_are_safe newClient operator "hello" background _ lagging_settled) as (_ & Hn & _).
  assert ("7" ∈ ({["7"]} : gset string)) as Hin by set_solver.
  destruct (Hn eq_refl "7" Hin) as [Hid|[Hno _]]; [exact Hid|discriminate Hno].
Defined.

(** ** Why nobody else may delete in SigNoz

    Others delete a note in SigNoz while its passes lag.  A pass from a version
    with the old id takes away the attempt another has announced since: what that
    one created is then neither recorded nor announced. *)

Definition bound : CoreStatus := Eval vm_compute in with_reconciled_at
  (SetConditionsOnOutcome (with_hash (with_resource unbound (named_by "7")) "sha256:hello") 3 ReconcilerOutcomeSynced
     Reasons.ReasonCreated "Created in SigNoz") 0.
Definition unbound_again : CoreStatus := Eval vm_compute in with_reconciled_at
  (SetConditionsOnOutcome (with_hash (with_resource bound None) "") 3 ReconcilerOutcomePending
     Reasons.ReasonPending "The SigNoz object was not found; it will be recreated") 1.

Definition n2 : note := note_at "2" (Some at0) unbound.
Definition n3 : note := note_at "3" (Some at0) bound.
Definition n4 : note := note_at "4" (Some at1) bound.
Definition n5 : note := note_at "5" (Some at1) unbound_again.
Definition n6 : note := note_at "6" (Some at2) unbound_again.
Definition n7 : note := note_at "7" None unbound_again.

Lemma pass_creates : exec (sstep true) (Pass created_note) (seen created_note ∅ [])
  (Ret (n3, MkResult (10 * Minute), None)) (seen n3 {["7"]} [n2; created_note]).
Proof.
  reads (Ok "config" : result string error). reads (Ok [] : result (list (option SigNozResource)) error). reads 0%Z.
  goes (attempt_step true "2" 0 at0 "1" None unbound "1" None unbound ∅ []).
  eapply exec_step; [by apply (create_step true _ _ _ _ ∅ _ "7")|]. replace ({["7"]} ∪ ∅ : gset string) with ({["7"]} : gset string) by set_solver.
  reads 0%Z. writes (status_step true "3" "2" (Some at0) unbound) bound. apply exec_refl.
Qed.

Definition gone_in_signoz : error := EBase (New ReasonNotFound "not found").

(** It adopts an object that others delete before it is read. *)
Lemma pass_unbinds : exec (sstep true) (Pass created_note) (seen n3 {["7"]} [n2; created_note])
  (Ret (n5, MkResult Second, None)) (seen n5 ∅ [n4; n3; n2; created_note]).
Proof.
  reads (Ok "config" : result string error). reads (Ok [named_by "7"] : result (list (option SigNozResource)) error). reads 1%Z.
  goes (attempt_step true "4" 1 at1 "1" None unbound "3" (Some at0) bound {["7"]} [n2; created_note]).
  eapply (exec_step _ _ _ (Err gone_in_signoz : result (option string) error) _ (seen n4 ∅ [n3; n2; created_note])).
  { exists (seen n4 ∅ [n3; n2; created_note]). split.
    - split; [|split; [by left|done]]. split; [done|]. split; [set_solver|]. split; [by split|done].
    - split; [|split; [by left|done]]. split; [done|]. cbn. set_solver. }
  evaluates. reads 1%Z. writes (status_step true "5" "4" (Some at1) bound) unbound_again. apply exec_refl.
Qed.

Lemma pass_recreates : exists p, exec (sstep true) (Pass created_note) (seen n5 ∅ [n4; n3; n2; created_note]) p (seen n6 {["8"]} [n5; n4; n3; n2; created_note]).
Proof.
  eexists. reads (Ok "config" : result string error). reads (Ok [] : result (list (option SigNozResource)) error). reads 2%Z.
  goes (attempt_step true "6" 2 at2 "1" None unbound "5" (Some at1) unbound_again ∅ [n4; n3; n2; created_note]).
  eapply exec_step; [by apply (create_step true _ _ _ _ ∅ _ "8")|]. replace ({["8"]} ∪ ∅ : gset string) with ({["8"]} : gset string) by set_solver.
  apply exec_refl.
Qed.

Lemma pass_forgets : exists p, exec (sstep true) (Pass n3) (seen n6 {["8"]} [n5; n4; n3]) p (seen n7 {["8"]} [n6; n5; n4; n3]).
Proof.
  eexists. reads (Ok "config" : result string error).
  eapply exec_step; [apply (removal_step true "7" at0 "3" bound "6" (Some at2) unbound_again {["8"]} [n5; n4; n3]); cbn; set_solver|].
  apply exec_refl.
Qed.

Example outsiders_and_lag_lose_an_object : exists v, lagging true v /\ live (now v) = true /\ remote (now v) = {["8"]} /\
  is_ok (id_of (stored (now v))) = false /\ ~ attempted (stored (now v)).
Proof.
  destruct pass_recreates as (p3 & H3), pass_forgets as (p4 & H4). exists (seen n7 {["8"]} [n6; n5; n4; n3]).
  split; [|split; [done|]; split; [done|]; split; [done|]; by intros []].
  eapply (stale_pass _ _ _ _ _ (seen n6 {["8"]} [n5; n4; n3; n2; created_note]) [n6; n5; n4] n3 [n2; created_note]); [|done|exact H4].
  eapply (stale_pass _ _ _ _ _ (seen n5 ∅ [n4; n3; n2; created_note]) [n5; n4; n3; n2] created_note []); [|done|exact H3].
  eapply (stale_pass _ _ _ _ _ (seen n3 {["7"]} [n2; created_note]) [n3; n2] created_note []); [|done|exact pass_unbinds].
  eapply (stale_pass _ _ _ _ _ (seen created_note ∅ []) [] created_note []); [by apply stale_fresh|done|exact pass_creates].
Qed.
