(* ===== verification/JsonBody.v ===== *)
(** * internal/jsonbody: rendering, reading, hashing and comparing bodies

    Raw JSON is a byte string, nil [None]; a decoded [any] is a [value]. *)

From S2P Require Import Prelude GoStd Json Sha256 Libraries Errors.
From Stdlib Require Import String SpecFloat.

Local Open Scope string_scope.
Local Open Scope list_scope.

(** What encoding/json's errors say; none of them is an [errors.Base]. *)
Class JsonErrors := {
  unmarshal_error : string -> error;
  marshal_error : error;
}.
Class JsonErrorsLaws `{JsonErrors} := {
  unmarshal_error_plain : forall s, As_Base (unmarshal_error s) = None;
  marshal_error_plain : As_Base marshal_error = None;
}.

#[export] Instance reference_json_errors : JsonErrors := {
  unmarshal_error _ := EText "*json.SyntaxError" "invalid JSON";
  marshal_error := EText "*json.UnsupportedValueError" "unsupported value";
}.
#[export] Instance reference_json_errors_laws : JsonErrorsLaws.
Proof. by split. Qed.

(** [json.Marshal] at the type of a kind's typed spec. *)
Class SpecMarshaler (S : Type) := MarshalSpec : S -> result string error.

Section JsonBody.
Context `{GJ : Gjson} `{CMP : GoCmp} `{JE : JsonErrors}.

Definition json_Unmarshal (s : string) : result value error :=
  match Unmarshal s with Some v => Ok v | None => Err (unmarshal_error s) end.
Definition json_Marshal (v : value) : result string error :=
  match Marshal v with Some s => Ok s | None => Err marshal_error end.

(** ** render.go *)

Definition Render {S} `{SpecMarshaler S} (spec : option S) (jsonSpec : option string) : result string error :=
  match spec with
  | Some spec => let? out := MarshalSpec spec in Ok out
  | None =>
      match jsonSpec with
      | Some text => let? _ := json_Unmarshal text in Ok text
      | None => Err (EBase (New ReasonInvalidInput "exactly one of spec or jsonSpec must be set"))
      end
  end.

(** ** extract.go *)

Definition ExtractString (raw path : string) : result string error :=
  let value := gString (GetBytes raw path) in
  if decide (value = "") then Err (errorString ("no value at " ++ path)) else Ok value.

Definition ExtractFromSpecs {S} `{SpecMarshaler S} (spec : option S) (jsonSpec : option string) (path : string)
    : result string error :=
  let? body := Render spec jsonSpec in ExtractString body path.

(** The loop over the fields, from [payload]. *)
Fixpoint extract_payload (raw : string) (fields : list string) (payload : list (string * value))
    : list (string * value) :=
  match fields with
  | [] => payload
  | field :: fields' =>
      let v := GetBytes raw field in
      extract_payload raw fields' (if Exists v then obj_insert field (Value v) payload else payload)
  end.

Definition ExtractFields (raw : string) (fields : list string) : result (option string) error :=
  let payload := extract_payload raw fields [] in
  if decide (payload = []) then Ok None
  else let? out := json_Marshal (JObj payload) in Ok (Some out).

(** ** hash.go *)

Definition Hash (body : string) : result string error :=
  let? value := json_Unmarshal body in
  let? canonical := json_Marshal value in
  Ok (sha256_hex canonical).

(** ** diff.go *)

Fixpoint isDeepZero (v : value) : bool :=
  match v with
  | JNull => true
  | JBool b => negb b
  | JNum f => SFeqb f (S754_zero false)
  | JStr s => bool_decide (s = "")
  | JArr l => bool_decide (List.length l = 0)
  | JObj m => forallb (fun kv => isDeepZero kv.2) m
  end.

Definition ignoreZeroOnlyInY (path : Path) : bool :=
  match last path with
  | Some (MapIndex _ None (Some y)) => isDeepZero y
  | _ => false
  end.

Definition Equal (x y : value) : bool := cmp_Equal ignoreZeroOnlyInY x y.

Definition sliceKey (key xkey ykey : Z) : Z :=
  if decide (0 <= key)%Z then key else if decide (0 <= xkey)%Z then xkey else ykey.

Definition path_segment (step : path_step) : option string :=
  match step with
  | MapIndex key _ _ => Some key
  | SliceIndex key xkey ykey => Some (Itoa (sliceKey key xkey ykey))
  | _ => None
  end.

Definition formatPath (steps : Path) : string := Join (omap path_segment steps) ".".

Record pathReporter := MkReporter { steps : Path; paths : list string }.

Definition PushStep (r : pathReporter) (step : path_step) : pathReporter :=
  MkReporter (steps r ++ [step]) (paths r).
Definition Report (r : pathReporter) (equal : bool) : pathReporter :=
  if negb equal then MkReporter (steps r) (paths r ++ [formatPath (steps r)]) else r.
Definition PopStep (r : pathReporter) : pathReporter :=
  MkReporter (take (List.length (steps r) - 1) (steps r)) (paths r).

(** The library's calls to the reporter over a tree. *)
Fixpoint drive (r : pathReporter) (t : walk_tree) : pathReporter :=
  match t with
  | Leaf equal => Report r equal
  | Node s ts => PopStep (foldl drive (PushStep r s) ts)
  end.

Definition Diff (x y : value) : list string :=
  paths (drive (MkReporter [] []) (cmp_walk ignoreZeroOnlyInY x y)).

Definition overlaps (x y : string) : bool :=
  if decide (x = y \/ x = "" \/ y = "") then true
  else HasPrefix x (y ++ ".") || HasPrefix y (x ++ ".").

Fixpoint Intersect (x y : list string) : list string :=
  match y with
  | [] => []
  | candidate :: y' => (if existsb (overlaps candidate) x then [candidate] else []) ++ Intersect x y'
  end.
End JsonBody.

(** The reading of a difference that [Diff] and [Equal] mean: [y] has all of [x],
    and what only [y] has is a deep zero. *)
Inductive covered : value -> value -> Prop :=
  | covered_scalar x y : (kind x < 4)%nat -> kind x = kind y -> scalar_eq x y = true -> covered x y
  | covered_slice l1 l2 : Forall2 covered l1 l2 -> covered (JArr l1) (JArr l2)
  | covered_map m1 m2 :
      (forall k a, obj_lookup k m1 = Some a -> exists b, obj_lookup k m2 = Some b /\ covered a b) ->
      (forall k b, obj_lookup k m1 = None -> obj_lookup k m2 = Some b -> isDeepZero b = true) ->
      covered (JObj m1) (JObj m2).

Section Comparison.
Context `{CMPL : GoCmpLaws}.

Definition zero_only_in_y (s : path_step) : bool :=
  match s with MapIndex _ None (Some y) => isDeepZero y | _ => false end.

Lemma ignoreZeroOnlyInY_filters : filters_entries ignoreZeroOnlyInY zero_only_in_y.
Proof.
  split.
  - intros p s. unfold ignoreZeroOnlyInY. by rewrite last_snoc.
  - intros [| |k [a|] [b|]|]; simpl; try done. eauto.
Qed.
Hint Resolve ignoreZeroOnlyInY_filters : operator.

(** The entries of two objects at a key are no difference. *)
Definition field_covered (a b : option value) : Prop :=
  match a, b with
  | Some a, Some b => covered a b
  | Some _, None => False
  | None, Some b => isDeepZero b = true
  | None, None => True
  end.

Lemma entry_equal_covered eq k a b :
  (forall x y, a = Some x -> b = Some y -> (eq x y = true <-> covered x y)) ->
  (entry_equal zero_only_in_y eq k a b = true <-> field_covered a b).
Proof.
  intros Heq. unfold entry_equal, field_covered, zero_only_in_y.
  destruct a, b; simpl; rewrite ?orb_false_r; try done. by apply Heq.
Qed.

Lemma covered_maps m1 m2 :
  covered (JObj m1) (JObj m2) <-> forall k, field_covered (obj_lookup k m1) (obj_lookup k m2).
Proof.
  split.
  - intros Hc k. inversion Hc as [? ? Hk| |? ? H1 H2]; subst; [simpl in Hk; lia|]. unfold field_covered.
    destruct (obj_lookup k m1) eqn:E1.
    + by destruct (H1 _ _ E1) as (b & -> & ?).
    + destruct (obj_lookup k m2) eqn:E2; [by apply (H2 k)|done].
  - intros Hk. apply covered_map.
    + intros k a Ha. specialize (Hk k). rewrite Ha in Hk. simpl in Hk. case_match; [eauto|done].
    + intros k b Ha Hb. specialize (Hk k). by rewrite Ha, Hb in Hk.
Qed.

Lemma obj_lookup_Forall (P : value -> Prop) (m : list (string * value)) k a :
  Forall (fun kv => P kv.2) m -> obj_lookup k m = Some a -> P a.
Proof. induction 1 as [|[k' v] m Hv _ IH]; simpl; [done|]. case_decide; intros; simplify_eq; auto. Qed.

Lemma Equal_covered x y : Equal x y = true <-> covered x y.
Proof.
  unfold Equal. revert y. induction x as [| | | |l IH|m IH] using json_ind'; intros y.
  1-4: match goal with |- _ <-> covered ?x _ => destruct (decide (kind y = kind x)) as [Hk|Hk] end;
    [erewrite cmp_scalars by (eauto with operator; simpl; lia);
       split; [intros; constructor; simpl; auto; lia|by inversion 1]
    |erewrite cmp_kinds by eauto with operator; split; [done|inversion 1; subst; simpl in *; congruence]].
  - destruct y as [| | | |l2|]; try (erewrite cmp_kinds by eauto with operator; split; [done|by inversion 1]).
    erewrite cmp_slices, Forall2_iff_l by eauto with operator. split; [by apply covered_slice|].
    inversion 1; subst; simpl in *; [lia|done].
  - destruct y as [| | | | |m2]; try (erewrite cmp_kinds by eauto with operator; split; [done|by inversion 1]).
    erewrite cmp_maps, covered_maps by eauto with operator.
    split; intros Hk k; specialize (Hk k); (eapply entry_equal_covered; [|exact Hk]);
      intros a b Ha _; revert b;
      exact (obj_lookup_Forall (fun v => forall y, cmp_Equal ignoreZeroOnlyInY v y = true <-> covered v y) _ _ _ IH Ha).
Qed.

(** ** What the reporter collects *)

(** The paths of the unequal leaves, in order. *)
Fixpoint unequal_paths (p : Path) (t : walk_tree) : list Path :=
  match t with
  | Leaf b => if b then [] else [p]
  | Node s ts => flat_map (unequal_paths (p ++ [s])) ts
  end.

Lemma walk_tree_ind' (P : walk_tree -> Prop) :
  (forall b, P (Leaf b)) -> (forall s ts, Forall P ts -> P (Node s ts)) -> forall t, P t.
Proof.
  intros Hl Hn. fix go 1. intros [b|s ts]; [apply Hl|apply Hn].
  induction ts; constructor; [apply go|done].
Qed.

Lemma drive_paths t r :
  drive r t = MkReporter (steps r) (paths r ++ (formatPath <$> unequal_paths (steps r) t)).
Proof.
  revert r. induction t as [b|s ts IH] using walk_tree_ind'; intros [p l]; simpl.
  - unfold Report. destruct b; simpl; by rewrite ?app_nil_r.
  - assert (foldl drive (PushStep (MkReporter p l) s) ts
            = MkReporter (p ++ [s]) (l ++ (formatPath <$> flat_map (unequal_paths (p ++ [s])) ts))) as ->.
    { unfold PushStep. simpl. revert l. induction IH as [|t ts Ht _ IHts]; intros l; simpl.
      - by rewrite app_nil_r.
      - by rewrite Ht, IHts, fmap_app, app_assoc. }
    unfold PopStep. simpl. by rewrite length_app, Nat.add_sub, take_app_length.
Qed.

Lemma Diff_paths x y : Diff x y = formatPath <$> unequal_paths [] (cmp_walk ignoreZeroOnlyInY x y).
Proof. unfold Diff. by rewrite drive_paths. Qed.

Lemma unequal_paths_nil p t : unequal_paths p t = [] <-> all_equal t = true.
Proof.
  revert p. induction t as [b|s ts IH] using walk_tree_ind'; intros p; simpl; [by destruct b|].
  induction IH as [|t ts Ht _ IHts]; simpl; [done|].
  by rewrite app_nil, (Ht (p ++ [s])), IHts, andb_true_iff.
Qed.

Lemma unequal_paths_below p t q : q ∈ unequal_paths p t -> exists r, q = p ++ r.
Proof.
  revert p. induction t as [b|s ts IH] using walk_tree_ind'; intros p; simpl.
  - destruct b; intros Hq; [by apply not_elem_of_nil in Hq|]. apply list_elem_of_singleton in Hq as ->.
    exists []. by rewrite app_nil_r.
  - intros (t & Ht & Hq)%list_elem_of_In%in_flat_map.
    rewrite Forall_forall in IH. apply list_elem_of_In in Hq.
    destruct (IH t (proj2 (list_elem_of_In _ _) Ht) _ Hq) as [r ->]. exists (s :: r). by rewrite <- app_assoc.
Qed.

(** [Diff] is empty exactly when [y] covers [x]. *)
Lemma Diff_nil x y : Diff x y = [] <-> covered x y.
Proof.
  rewrite Diff_paths, <- Equal_covered. unfold Equal. rewrite <- cmp_walk_equal, <- (unequal_paths_nil []).
  by destruct (unequal_paths _ _).
Qed.

Lemma unequal_paths_all p ts : flat_map (unequal_paths p) ts = [] <-> forallb all_equal ts = true.
Proof.
  induction ts as [|t ts IH]; simpl; [done|]. by rewrite app_nil, unequal_paths_nil, IH, andb_true_iff.
Qed.

Lemma walk_entry_covered m1 m2 k t :
  walk_entry zero_only_in_y (cmp_Equal ignoreZeroOnlyInY) m1 m2 k t ->
  exists us, t = Node (MapIndex k (obj_lookup k m1) (obj_lookup k m2)) us /\
    (forall p, flat_map (unequal_paths p) us = [] <-> field_covered (obj_lookup k m1) (obj_lookup k m2)).
Proof.
  intros (Hk & us & -> & Heq). exists us. split; [done|]. intros p.
  rewrite unequal_paths_all, Heq. apply entry_equal_covered. intros x y _ _. apply (Equal_covered x y).
Qed.

(** The unequal leaves of two objects lie under their differing keys. *)
Lemma unequal_objects m1 m2 :
  let reported := unequal_paths [] (cmp_walk ignoreZeroOnlyInY (JObj m1) (JObj m2)) in
  (forall q, q ∈ reported -> exists k a b r, q = Root :: MapIndex k a b :: r /\
     (is_Some (obj_lookup k m1) \/ is_Some (obj_lookup k m2)) /\
     ~ field_covered (obj_lookup k m1) (obj_lookup k m2)) /\
  (forall k, ~ field_covered (obj_lookup k m1) (obj_lookup k m2) -> exists a b r,
     Root :: MapIndex k a b :: r ∈ reported).
Proof.
  destruct (cmp_walk_maps _ _ m1 m2 ignoreZeroOnlyInY_filters) as (ts & Hw & Hform & Hkeys).
  cbv zeta. rewrite Hw. cbn [unequal_paths flat_map app]. split.
  - intros q (t & Ht & Hq)%list_elem_of_In%in_flat_map. apply list_elem_of_In in Ht, Hq.
    destruct (Hform t Ht) as (k & Hentry). destruct (walk_entry_covered _ _ _ _ Hentry) as (us & -> & Hus).
    exists k. destruct (unequal_paths_below _ _ _ Hq) as [r' Hr].
    pose proof Hq as Hne. cbn [unequal_paths] in Hq, Hne.
    apply list_elem_of_In, in_flat_map in Hq as (u & _ & Hq). apply list_elem_of_In in Hq.
    destruct (unequal_paths_below _ _ _ Hq) as [r ->]. do 3 eexists. split; [reflexivity|].
    split; [apply Hentry|]. rewrite <- Hus. intros Hnil. rewrite Hnil in Hne. by apply not_elem_of_nil in Hne.
  - intros k Hk. destruct (Hkeys k) as (t & Ht & Hentry).
    { destruct (obj_lookup k m1), (obj_lookup k m2); simpl in Hk; [by left|by left|by right|tauto]. }
    destruct (walk_entry_covered _ _ _ _ Hentry) as (us & -> & Hus).
    set (p := [Root] ++ [MapIndex k (obj_lookup k m1) (obj_lookup k m2)]).
    destruct (flat_map (unequal_paths p) us) as [|q qs] eqn:Hq; [by apply Hus in Hq|].
    assert (q ∈ flat_map (unequal_paths p) us) as Hin by (rewrite Hq; apply list_elem_of_here).
    pose proof Hin as (u & _ & Hu)%list_elem_of_In%in_flat_map.
    apply list_elem_of_In in Hu. destruct (unequal_paths_below _ _ _ Hu) as [r ->].
    do 3 eexists. apply list_elem_of_In, in_flat_map. eexists. split; [by apply list_elem_of_In|].
    cbn [unequal_paths]. apply list_elem_of_In. exact Hin.
Qed.
End Comparison.
