(* ===== verification/JsonBodySpec.v ===== *)
(** * What internal/jsonbody computes

    Dotted paths, the field-level reading of a difference, the payload of an
    update, and the canonical hash. *)

From S2P Require Import Prelude GoStd Json JsonText JsonParse JsonString JsonPrint Sha256 Libraries Errors JsonBody.
From Stdlib Require Import Ascii String.

Local Open Scope string_scope.
Local Open Scope list_scope.

(** ** Dotted paths *)

Lemma append_assoc (a b c : string) : ((a ++ b) ++ c)%string = (a ++ b ++ c)%string.
Proof. induction a as [|x a IH]; [done|]. by rewrite !append_String, IH. Qed.

Lemma HasPrefix_iff s p : HasPrefix s p = true <-> exists r, s = (p ++ r)%string.
Proof.
  unfold HasPrefix. revert s. induction p as [|c p IH]; intros s.
  - split; [by exists s|]. by destruct s.
  - destruct s as [|d s]; [split; [done|by intros [r ?]]|]. simpl. destruct (ascii_dec c d) as [->|Hne].
    + rewrite IH. split; intros [r Hr]; exists r; [by rewrite append_String, <- Hr|].
      rewrite append_String in Hr. by injection Hr.
    + split; [done|]. intros [r Hr]. rewrite append_String in Hr. by injection Hr.
Qed.

Lemma segments_dot cur x r : segments cur (x ++ "." ++ r)%string = segments cur x ++ segments "" r.
Proof.
  revert cur. induction x as [|c x IH]; intros cur; [done|]. rewrite append_String. cbn [segments].
  destruct (Ascii.eqb c "."%char); [cbn [app]; f_equal|]; apply IH.
Qed.

Lemma segments_ne cur x : segments cur x <> [].
Proof. revert cur. induction x as [|c x IH]; intros cur; simpl; [done|]. by destruct (Ascii.eqb c _). Qed.

Lemma Join_cons x rest : rest <> [] -> Join (x :: rest) "." = (x ++ "." ++ Join rest ".")%string.
Proof. by destruct rest. Qed.

Lemma Join_segments cur x : Join (segments cur x) "." = (cur ++ x)%string.
Proof.
  revert cur. induction x as [|c x IH]; intros cur; cbn [segments]; [by rewrite append_nil|].
  destruct (Ascii.eqb_spec c "."%char) as [->|].
  - rewrite Join_cons by apply segments_ne. by rewrite IH.
  - by rewrite IH, append_cons.
Qed.

Lemma Join_app a b : a <> [] -> b <> [] -> Join (a ++ b) "." = (Join a "." ++ "." ++ Join b ".")%string.
Proof.
  intros Ha Hb. induction a as [|x a IH]; [done|]. destruct a as [|y a].
  - cbn [app]. by rewrite Join_cons.
  - change ((x :: y :: a) ++ b) with (x :: ((y :: a) ++ b)).
    rewrite !Join_cons, IH, !append_assoc by done. done.
Qed.

(** One path lies under another: segment by segment. *)
Lemma under_iff x y :
  HasPrefix x (y ++ ".") = true <-> exists rest, rest <> [] /\ segments "" x = segments "" y ++ rest.
Proof.
  rewrite HasPrefix_iff. split.
  - intros [r ->]. exists (segments "" r). split; [apply segments_ne|]. by rewrite append_assoc, segments_dot.
  - intros (rest & Hne & Hs). exists (Join rest "."). rewrite append_assoc.
    pose proof (Join_segments "" x) as Hx. pose proof (Join_segments "" y) as Hy.
    rewrite Hs, Join_app, Hy in Hx by (done || apply segments_ne). by symmetry.
Qed.

Lemma overlaps_segments x y :
  overlaps x y = true <->
  x = "" \/ y = "" \/ segments "" x `prefix_of` segments "" y \/ segments "" y `prefix_of` segments "" x.
Proof.
  unfold overlaps. case_decide as Hd; [split; [intros _|done]|].
  { destruct Hd as [->|[->| ->]]; eauto. }
  rewrite orb_true_iff, !under_iff. split.
  - intros [(rest & _ & Hs)|(rest & _ & Hs)]; [right; right; right|right; right; left]; by exists rest.
  - assert (forall a b, a <> b -> segments "" a = segments "" b -> False) as Hinj.
    { intros a b Hne Hs. apply Hne. by rewrite <- (Join_segments "" a : Join _ _ = a), Hs, (Join_segments "" b). }
    intros [->|[->|[[rest Hs]|[rest Hs]]]]; try tauto; destruct rest as [|s rest];
      [rewrite app_nil_r in Hs; exfalso; eapply (Hinj x y); [tauto|done]|right; by exists (s :: rest)
      |rewrite app_nil_r in Hs; exfalso; eapply (Hinj x y); [tauto|done]|left; by exists (s :: rest)].
Qed.

(** Overlap is ancestry. Two paths overlap exactly when one is the root, or
    the dot-separated segments of one begin with those of the other: a field
    never overlaps a mere textual prefix of its name. *)
Theorem overlaps_is_ancestry x y :
  overlaps x y = true <->
  x = "" \/ y = "" \/ segments "" x `prefix_of` segments "" y \/ segments "" y `prefix_of` segments "" x.
Proof. apply overlaps_segments. Qed.

Lemma Intersect_elem x y c : c ∈ Intersect x y <-> c ∈ y /\ exists p, p ∈ x /\ overlaps c p = true.
Proof.
  induction y as [|d y IH]; cbn [Intersect].
  - split; [by intros ?%not_elem_of_nil|]. by intros [?%not_elem_of_nil _].
  - rewrite elem_of_app, IH, elem_of_cons. destruct (existsb (overlaps d) x) eqn:He.
    + apply existsb_exists in He as (p & Hp%list_elem_of_In & Ho). rewrite list_elem_of_singleton.
      split; [intros [->|[? ?]]; eauto|]. intros [[->|?] ?]; eauto.
    + split; [intros [?%not_elem_of_nil|[? ?]]; [done|eauto]|].
      intros [[->|?] (p & Hp & Ho)]; [|eauto]. exfalso.
      assert (existsb (overlaps d) x = true) as Ht; [|congruence].
      apply existsb_exists. exists p. by rewrite <- list_elem_of_In.
Qed.

Lemma Intersect_nil x y : Intersect x y = [] <-> forall c, c ∈ y -> forall p, p ∈ x -> overlaps c p = false.
Proof.
  split.
  - intros Hn c Hc p Hp. destruct (overlaps c p) eqn:Ho; [|done].
    assert (c ∈ Intersect x y) as Hin by (apply Intersect_elem; eauto). rewrite Hn in Hin. by apply not_elem_of_nil in Hin.
  - intros Hno. destruct (Intersect x y) as [|c l] eqn:E; [done|].
    assert (c ∈ Intersect x y) as (Hc & p & Hp & Ho)%Intersect_elem by (rewrite E; apply list_elem_of_here).
    by rewrite (Hno c Hc p Hp) in Ho.
Qed.

(** ** Fields *)

(** A key that is one segment of a path. *)
Definition one_segment (k : string) : Prop := k <> "" /\ segments "" k = [k].

Lemma plain_one_segment k : plain_key k = true -> one_segment k.
Proof.
  intros Hk. split; [|by apply segments_key]. intros ->. by vm_compute in Hk.
Qed.

Section Fields.
Context `{CMPL : GoCmpLaws}.

Lemma formatPath_key k a b r :
  exists rest, segments "" (formatPath (Root :: MapIndex k a b :: r)) = segments "" k ++ rest /\
    (formatPath (Root :: MapIndex k a b :: r) = k \/
     exists t, formatPath (Root :: MapIndex k a b :: r) = (k ++ "." ++ t)%string).
Proof.
  unfold formatPath. cbn [omap list_omap path_segment]. destruct (omap path_segment r) as [|s l] eqn:Hr.
  - exists []. rewrite app_nil_r. split; [done|by left].
  - rewrite Join_cons by done. eexists. rewrite segments_dot. split; [done|]. right. eauto.
Qed.

Lemma overlaps_key f k a b r :
  one_segment f -> one_segment k ->
  overlaps f (formatPath (Root :: MapIndex k a b :: r)) = true -> f = k.
Proof.
  intros [Hf Hfs] [Hk Hks]. destruct (formatPath_key k a b r) as (rest & Hseg & Hform).
  rewrite overlaps_segments, Hseg, Hfs, Hks. intros [?|[He|[[t Ht]|[t Ht]]]]; [done| | |].
  - exfalso. rewrite He in Hform. destruct Hform as [?|[t Ht]]; [done|]. by destruct k.
  - by simplify_eq/=.
  - by simplify_eq/=.
Qed.

Lemma overlaps_own_key k a b r : overlaps k (formatPath (Root :: MapIndex k a b :: r)) = true.
Proof.
  destruct (formatPath_key k a b r) as (rest & Hseg & _). apply overlaps_segments.
  do 2 right. left. by exists rest.
Qed.

Lemma Diff_objects m1 m2 p : p ∈ Diff (JObj m1) (JObj m2) <->
  exists q, p = formatPath q /\ q ∈ unequal_paths [] (cmp_walk ignoreZeroOnlyInY (JObj m1) (JObj m2)).
Proof. rewrite Diff_paths, list_elem_of_fmap. naive_solver. Qed.

(** A field that differs is reported, whatever the other keys are. *)
Lemma differing_field_reported m1 m2 fields f :
  f ∈ fields -> ~ field_covered (obj_lookup f m1) (obj_lookup f m2) ->
  f ∈ Intersect (Diff (JObj m1) (JObj m2)) fields.
Proof.
  intros Hf Hd. destruct (proj2 (unequal_objects m1 m2) f Hd) as (a & b & r & Hin).
  apply Intersect_elem. split; [done|]. eexists. split; [|apply overlaps_own_key].
  apply Diff_objects. eauto.
Qed.

Lemma reported_fields m1 m2 fields f :
  (forall k, is_Some (obj_lookup k m1) \/ is_Some (obj_lookup k m2) -> one_segment k) ->
  (forall k, k ∈ fields -> one_segment k) ->
  (f ∈ Intersect (Diff (JObj m1) (JObj m2)) fields <->
   f ∈ fields /\ ~ field_covered (obj_lookup f m1) (obj_lookup f m2)).
Proof.
  intros Hkeys Hfields. split.
  - intros (Hf & p & (q & -> & Hq)%Diff_objects & Ho)%Intersect_elem. split; [done|].
    destruct (proj1 (unequal_objects m1 m2) q Hq) as (k & a & b & r & -> & Hk & Hd).
    apply overlaps_key in Ho; [by subst k|by apply Hfields|by apply Hkeys].
  - intros [Hf Hd]. by apply differing_field_reported.
Qed.

(** The comparison is exact on fields. Of two objects whose keys hold no dot,
    the fields reported out of a list of field names are exactly those where the
    second object does not cover the first: a field it lacks, one it holds
    otherwise, or one that only it holds and that is no zero value. *)
Theorem reported_fields_differ m1 m2 fields f :
  (forall k, is_Some (obj_lookup k m1) \/ is_Some (obj_lookup k m2) -> one_segment k) ->
  (forall k, k ∈ fields -> one_segment k) ->
  (f ∈ Intersect (Diff (JObj m1) (JObj m2)) fields <->
   f ∈ fields /\ ~ field_covered (obj_lookup f m1) (obj_lookup f m2)).
Proof. apply reported_fields. Qed.

(** A response that is not an object differs from a body in every field. *)
Lemma Diff_kinds x y : kind x <> kind y -> Diff x y = [""].
Proof.
  intros Hk. rewrite Diff_paths. erewrite cmp_walk_kinds by (apply ignoreZeroOnlyInY_filters || done). done.
Qed.

(** C34. Equality up to the server's defaults. [Equal] holds, and [Diff] is empty,
    exactly when the second value has everything the first has and adds only
    zero values: nil, false, 0, the empty string, an empty list, an object of
    those. *)
Theorem Equal_up_to_zero_defaults x y :
  (Equal x y = true <-> covered x y) /\ (Diff x y = [] <-> covered x y).
Proof. split; [apply Equal_covered|apply Diff_nil]. Qed.
End Fields.

(** ** The payload of an update *)

Lemma obj_lookup_insert {N} k k' (v : json N) m :
  obj_lookup k (obj_insert k' v m) = if decide (k = k') then Some v else obj_lookup k m.
Proof.
  induction m as [|[k0 v0] m IH]; simpl; [by case_decide|].
  destruct (String.compare k' k0) eqn:Hc; simpl.
  - apply String.compare_eq_iff in Hc as ->. by repeat case_decide.
  - by repeat case_decide.
  - rewrite IH. repeat case_decide; try done. subst.
    exfalso. pose proof (String.compare_antisym k0 k0) as Ha. by rewrite Hc in Ha.
Qed.

Lemma obj_insert_Forall {N} (P : string * json N -> Prop) k v (m : list (string * json N)) :
  P (k, v) -> Forall P m -> Forall P (obj_insert k v m).
Proof.
  intros Hv. induction 1 as [|[k0 v0] m Hk Hm IH]; cbn [obj_insert]; [by repeat constructor|].
  destruct (String.compare k k0); by repeat constructor.
Qed.

Lemma forallb_Forall {A} (f : A -> bool) l : forallb f l = true <-> Forall (fun a => f a = true) l.
Proof. rewrite forallb_forall, Forall_forall. by setoid_rewrite list_elem_of_In. Qed.

Lemma obj_lookup_pair {N} (P : string * json N -> Prop) k v (m : list (string * json N)) :
  Forall P m -> obj_lookup k m = Some v -> P (k, v).
Proof. induction 1 as [|[k' v'] m Hv _ IH]; cbn; [done|]. destruct (decide (k = k')) as [->|]; [by intros [= ->]|done]. Qed.

Section Extract.
Context `{GJL : GjsonLaws} `{JE : JsonErrors}.

(** A documented body's field, through gjson. *)
Lemma get_field raw m k :
  documented raw (JObj m) -> plain_key k = true ->
  match obj_lookup k m with
  | Some v => Exists (GetBytes raw k) = true /\ Value (GetBytes raw k) = v
  | None => Exists (GetBytes raw k) = false
  end.
Proof.
  intros Hraw Hk. destruct (gj_parse _ _ Hraw) as (Hr & He & Hv). rewrite (gj_get_bytes _ _ _ Hraw).
  by apply gj_get_object.
Qed.

(** The text at a plain key of a body. *)
Lemma extract_string raw m k s : documented raw (JObj m) -> plain_key k = true ->
  obj_lookup k m = (if decide (s = "") then None else Some (JStr s)) \/ obj_lookup k m = Some (JStr s) ->
  ExtractString raw k = if decide (s = "") then Err (errorString ("no value at " ++ k)) else Ok s.
Proof.
  intros Hraw Hk Hs. pose proof (get_field raw m k Hraw Hk) as Hf.
  assert (gj_read (GetBytes raw k)) as Hr.
  { rewrite (gj_get_bytes _ _ _ Hraw). apply gj_get_read. by apply (gj_parse _ _ Hraw). }
  unfold ExtractString. assert (gString (GetBytes raw k) = s) as ->; [|done].
  destruct Hs as [Hs|Hs]; rewrite Hs in Hf; [destruct (decide (s = "")) as [->|]|].
  - by destruct (gj_missing _ Hr Hf) as (_ & -> & _).
  - destruct Hf as [He Hv]. exact (gj_string _ _ Hr He Hv).
  - destruct Hf as [He Hv]. exact (gj_string _ _ Hr He Hv).
Qed.

Lemma extract_payload_lookup raw m fields payload k :
  documented raw (JObj m) -> (forall f, f ∈ fields -> plain_key f = true) ->
  obj_lookup k (extract_payload raw fields payload)
  = if bool_decide (k ∈ fields) && bool_decide (is_Some (obj_lookup k m)) then obj_lookup k m else obj_lookup k payload.
Proof.
  intros Hraw. revert payload. induction fields as [|f fields IH]; intros payload Hplain; [done|].
  cbn [extract_payload]. rewrite IH by (intros; apply Hplain; by right).
  pose proof (get_field raw m f Hraw (Hplain f (list_elem_of_here _ _))) as Hf.
  destruct (decide (k ∈ fields)) as [Hk|Hk].
  - rewrite !(bool_decide_eq_true_2 (k ∈ _)) by (done || by right). cbn [andb].
    destruct (obj_lookup k m) eqn:Ek; [done|].
    rewrite bool_decide_eq_false_2 by (by intros [? ?]).
    destruct (obj_lookup f m) eqn:Ef; [destruct Hf as [-> _]|by rewrite Hf].
    rewrite obj_lookup_insert. destruct (decide (k = f)) as [->|]; [congruence|done].
  - rewrite (bool_decide_eq_false_2 (k ∈ fields)) by done. cbn [andb].
    destruct (decide (k = f)) as [->|Hne].
    + rewrite (bool_decide_eq_true_2 (f ∈ f :: fields)) by apply list_elem_of_here. cbn [andb].
      destruct (obj_lookup f m) eqn:Ef.
      * destruct Hf as [-> ->]. rewrite obj_lookup_insert, decide_True by done.
        by rewrite bool_decide_eq_true_2.
      * by rewrite Hf, bool_decide_eq_false_2 by (by intros [? ?]).
    + rewrite (bool_decide_eq_false_2 (k ∈ f :: fields)) by set_solver. cbn [andb].
      destruct (obj_lookup f m) eqn:Ef; [destruct Hf as [-> _]|by rewrite Hf].
      rewrite obj_lookup_insert. by rewrite decide_False.
Qed.

Lemma extract_payload_Forall (P : string * value -> Prop) raw m fields payload :
  documented raw (JObj m) -> (forall f, f ∈ fields -> plain_key f = true) ->
  Forall P m -> Forall P payload -> Forall P (extract_payload raw fields payload).
Proof.
  intros Hraw Hplain Hm. revert payload. induction fields as [|f fields IH]; intros payload Hp; [done|]. cbn [extract_payload].
  apply IH; [intros; apply Hplain; by right|]. pose proof (get_field raw m f Hraw (Hplain f (list_elem_of_here _ _))) as Hf.
  destruct (obj_lookup f m) as [v|] eqn:Ef; [|by rewrite Hf]. destruct Hf as [-> ->].
  apply obj_insert_Forall; [exact (obj_lookup_pair P f v m Hm Ef)|done].
Qed.

Lemma extract_payload_sorted raw fields payload :
  keys_sorted payload.*1 = true -> keys_sorted (extract_payload raw fields payload).*1 = true.
Proof.
  revert payload. induction fields as [|f fields IH]; intros payload Hp; [done|]. cbn [extract_payload]. apply IH.
  destruct (Exists _); [by apply keys_sorted_insert|done].
Qed.

(** What an update sends reads back as it was extracted. *)
Lemma payload_reads_back raw m fields text :
  documented raw (JObj m) -> (forall f, f ∈ fields -> plain_key f = true) ->
  canonical (JObj m) = true -> (depth (JObj m) <= max_depth)%nat ->
  Marshal (JObj (extract_payload raw fields [])) = Some text -> Unmarshal text = Some (JObj (extract_payload raw fields [])).
Proof.
  intros Hraw Hplain Hc Hd. apply andb_true_iff in Hc as [_ Hc]. apply Unmarshal_of_Marshal.
  - apply andb_true_iff. split; [by apply extract_payload_sorted|].
    apply forallb_Forall. apply (extract_payload_Forall _ raw m); [done|done| |by constructor]. by apply forallb_Forall.
  - destruct max_depth as [|n]; cbn [depth] in *; [lia|]. apply le_n_S, list_max_le, Forall_fmap.
    apply (extract_payload_Forall (fun kv => depth kv.2 <= n)%nat raw m); [done|done| |by constructor].
    by apply list_max_elem, le_S_n.
Qed.

(** What an update sends: the fields of the body that can be updated, with the
    body's values. *)
Definition payload_of (m payload : list (string * value)) (fields : list string) : Prop :=
  forall k, obj_lookup k payload = if decide (k ∈ fields) then obj_lookup k m else None.

(** An update sends exactly the updatable fields. From a body that is an
    object, [ExtractFields] encodes the object of precisely the listed fields
    the body sets, with the body's values; there is nothing to send exactly when
    the body sets none of them. *)
Theorem ExtractFields_payload raw m fields :
  documented raw (JObj m) -> (forall f, f ∈ fields -> plain_key f = true) ->
  exists payload, payload_of m payload fields /\
    ExtractFields raw fields
    = if decide (payload = []) then Ok None else (let? out := json_Marshal (JObj payload) in Ok (Some out)).
Proof.
  intros Hraw Hplain. exists (extract_payload raw fields []). split; [|done].
  intros k. rewrite (extract_payload_lookup raw m) by done. cbn [obj_lookup].
  case_decide as Hk; [rewrite bool_decide_eq_true_2 by done|by rewrite bool_decide_eq_false_2 by done].
  cbn [andb]. case_bool_decide as Hs; [done|]. by destruct (obj_lookup k m); [destruct Hs|].
Qed.
End Extract.
