(* ===== verification/HashSpec.v ===== *)
(** * The hash of a body is the hash of its value

    Spacing, the order of members and the spelling of numbers and strings do not
    show in it. *)

From S2P Require Import Prelude GoStd Json JsonText JsonParse JsonString JsonPrint Sha256 Libraries Errors JsonBody.
From Stdlib Require Import String.

Local Open Scope string_scope.
Local Open Scope list_scope.

(** ** Members in another order *)

(** One scanned value becomes the other by reordering the members of objects, at
    any depth. *)
Inductive reordered : json string -> json string -> Prop :=
  | reordered_refl v : reordered v v
  | reordered_trans v1 v2 v3 : reordered v1 v2 -> reordered v2 v3 -> reordered v1 v3
  | reordered_members m m' : m ≡ₚ m' -> reordered (JObj m) (JObj m')
  | reordered_in_array l v v' l' : reordered v v' -> reordered (JArr (l ++ v :: l')) (JArr (l ++ v' :: l'))
  | reordered_in_object m k v v' m' : reordered v v' -> reordered (JObj (m ++ (k, v) :: m')) (JObj (m ++ (k, v') :: m')).

(** A Go map does not remember the order its keys came in. *)
Lemma compare_refl a : String.compare a a = Eq.
Proof. pose proof (String.compare_antisym a a) as Ha. by destruct (String.compare a a). Qed.

Lemma obj_insert_comm {N} a b (v w : json N) m : a <> b ->
  obj_insert a v (obj_insert b w m) = obj_insert b w (obj_insert a v m).
Proof.
  assert (forall a b v w, String.compare a b = Lt ->
    obj_insert a v (obj_insert b w m) = obj_insert b w (obj_insert a v m)) as Hlt.
  { clear. intros a b v w Hab. pose proof (compare_gt _ _ Hab) as Hba.
    induction m as [|[k u] m IH]; [cbn; by rewrite Hab, Hba|]. cbn [obj_insert].
    destruct (String.compare b k) eqn:Hbk.
    - apply String.compare_eq_iff in Hbk as ->. rewrite Hab. cbn [obj_insert]. rewrite Hab, Hba. by rewrite compare_refl.
    - rewrite (compare_trans _ _ _ Hab Hbk). cbn [obj_insert]. rewrite Hab, Hba. cbn [obj_insert]. by rewrite Hbk.
    - destruct (String.compare a k) eqn:Hak; cbn [obj_insert]; rewrite ?Hak; cbn [obj_insert].
      + apply String.compare_eq_iff in Hak as ->. by rewrite Hba.
      + rewrite Hba. cbn [obj_insert]. by rewrite Hbk.
      + by rewrite Hbk, IH. }
  intros Hne. destruct (String.compare a b) eqn:Hab; [by apply String.compare_eq_iff in Hab|by apply Hlt|].
  symmetry. apply Hlt. by rewrite String.compare_antisym, Hab.
Qed.

Lemma go_map_permutation m m' : m ≡ₚ m' -> NoDup m.*1 -> go_map m = go_map m'.
Proof.
  unfold go_map. intros Hp. generalize (@nil (string * json float64)).
  induction Hp as [|[k v] m m' _ IH|[k v] [k' v'] m|m m1 m' Hp1 IH1 Hp2 IH2]; intros acc Hnd; cbn [foldl] in *.
  - done.
  - apply IH. by apply NoDup_cons in Hnd as [_ ?].
  - cbn [fst snd fmap list_fmap] in *. apply NoDup_cons in Hnd as [Hni _]. f_equal. apply obj_insert_comm. set_solver.
  - rewrite IH1 by done. apply IH2. by rewrite <- Hp1.
Qed.

Lemma mapM_permutation {A B} (f : A -> option B) l l' : l ≡ₚ l' ->
  match mapM f l, mapM f l' with Some r, Some r' => r ≡ₚ r' | None, None => True | _, _ => False end.
Proof.
  induction 1 as [|a l l' _ IH|a b l|l l1 l' _ IH1 _ IH2]; cbn.
  - done.
  - destruct (f a); cbn; [|done]. destruct (mapM f l), (mapM f l'); cbn; try done. by constructor.
  - destruct (f a), (f b); cbn; try done. destruct (mapM f l); cbn; [constructor|done].
  - destruct (mapM f l), (mapM f l1), (mapM f l'); try done. by etrans.
Qed.

Lemma mapM_change {A B} (f : A -> option B) l a a' l' : f a = f a' -> mapM f (l ++ a :: l') = mapM f (l ++ a' :: l').
Proof. intros Hf. induction l as [|b l IH]; cbn; [by rewrite Hf|by rewrite IH]. Qed.

Lemma mapM_keys (m : list (string * json string)) entries :
  mapM (fun kv => pair kv.1 <$> decode kv.2) m = Some entries -> entries.*1 = m.*1.
Proof.
  intros Hm%mapM_Some. induction Hm as [|[k v] [k' v'] m entries Hd _ IH]; [done|].
  apply fmap_Some in Hd as (? & _ & [= -> ->]). cbn. by rewrite IH.
Qed.

Lemma distinct_keys_object (m : list (string * json string)) :
  distinct_keys (JObj m) = true <-> NoDup m.*1 /\ Forall (fun kv => distinct_keys kv.2 = true) m.
Proof.
  cbn [distinct_keys]. rewrite andb_true_iff, bool_decide_eq_true, forallb_forall, Forall_forall.
  split; intros [? Hm]; (split; [done|]); intros kv Hkv; apply Hm; by apply list_elem_of_In.
Qed.

(** Neither the value nor the distinctness of its keys depends on the order. *)
Lemma decode_reordered v v' : reordered v v' -> distinct_keys v = true -> distinct_keys v' = true /\ decode v = decode v'.
Proof.
  induction 1 as [v|v1 v2 v3 _ IH1 _ IH2|m m' Hp|l v v' l' _ IH|m k v v' m' _ IH]; intros Hv.
  - done.
  - destruct (IH1 Hv) as [H2 ->]. by destruct (IH2 H2) as [H3 ->].
  - apply distinct_keys_object in Hv as [Hnd Hm]. split.
    { apply distinct_keys_object. by rewrite <- Hp. }
    rewrite !decode_object. pose proof (mapM_permutation (fun kv => pair kv.1 <$> decode kv.2) _ _ Hp) as Hr.
    destruct (mapM _ m) as [r|] eqn:Em, (mapM _ m') as [r'|] eqn:Em'; try done. cbn. do 2 f_equal.
    apply go_map_permutation; [done|]. by rewrite (mapM_keys _ _ Em).
  - cbn [distinct_keys] in *. rewrite forallb_app in *. cbn [forallb] in *.
    apply andb_true_iff in Hv as [Hl [Hv Hl']%andb_true_iff]. destruct (IH Hv) as [Hv' Hd].
    split; [by rewrite Hl, Hv', Hl'|]. rewrite !decode_array. by rewrite (mapM_change decode l v v').
  - cbn [distinct_keys] in *. rewrite !fmap_app, forallb_app in *. cbn [forallb fmap list_fmap fst snd] in *.
    apply andb_true_iff in Hv as [Hnd [Hm [Hv Hm']%andb_true_iff]%andb_true_iff]. destruct (IH Hv) as [Hv' Hd].
    split; [by rewrite Hnd, Hm, Hv', Hm'|]. rewrite !decode_object. f_equal. apply mapM_change. cbn. by rewrite Hd.
Qed.

Section Hash.
Context `{JE : JsonErrors}.

(** C29. The hash is of the value.  Two bodies whose scanned values differ in the
    order of members only, whatever their spacing and the spelling of their
    strings, have the same hash; and the canonical text that is hashed, sent as a
    body, has the hash of the body it was made of. *)
Theorem Hash_of_value body body' v v' h :
  parse_syntax body = Some v -> parse_syntax body' = Some v' -> distinct_keys v = true -> reordered v v' ->
  JsonBody.Hash body = Ok h ->
  JsonBody.Hash body' = Ok h /\
  forall w text, Unmarshal body = Some w -> canonical w = true -> (depth w <= max_depth)%nat ->
    Marshal w = Some text -> JsonBody.Hash text = Ok h.
Proof.
  intros Hv Hv' Hd Hr. destruct (decode_reordered _ _ Hr Hd) as [_ Hdec].
  unfold JsonBody.Hash, json_Unmarshal. intros Hh. split.
  - unfold Unmarshal in Hh |- *. rewrite Hv in Hh. rewrite Hv', <- Hdec. by destruct (decode v).
  - intros w text Hw Hc Hdepth Ht. rewrite (Unmarshal_of_Marshal w text Hc Hdepth Ht). by rewrite Hw in Hh.
Qed.
End Hash.
