(* ===== verification/Objects.v ===== *)
(** * internal/resources/objects: the ten mirrored kinds

    The generated files differ in the collection path, the identity path and the
    two field lists only; [object_of] is the text they share and each kind below
    an instance of it.  A kind's typed spec is a type parameter with its
    [json.Marshal]. *)

From S2P Require Import Prelude GoStd Json Libraries Errors Kube Core JsonBody Interfaces.
From Stdlib Require Import String.

Local Open Scope string_scope.
Local Open Scope list_scope.

(** The [ObjectTemplate] of every kind. *)
Record ObjectTemplate (S : Type) := MkTemplate {
  Spec : option S;
  JSONSpec : option string;
}.
Arguments MkTemplate {S}.
Arguments Spec {S}.
Arguments JSONSpec {S}.

Section Kinds.
Context `{GJ : Gjson} `{CMP : GoCmp} `{JE : JsonErrors}.
Context {S : Type} `{SM : SpecMarshaler S}.

Abbreviation template := (ObjectTemplate S).

Definition object_Body (o : Object template) : result string error :=
  Render (Spec (o_template o)) (JSONSpec (o_template o)).

Definition object_Identity (path : string) (o : Object template) : result string error :=
  ExtractFromSpecs (Spec (o_template o)) (JSONSpec (o_template o)) path.

Definition object_Hash (o : Object template) : result string error :=
  let? body := object_Body o in JsonBody.Hash body.

Definition object_ToSigNozResource (response : string) : result SigNozResource error :=
  let? id := ExtractString response "data.id" in Ok (MkResource (Some id)).

Definition object_ToUpdate (updatable : list string) (o : Object template) : result (option string) error :=
  let? body := object_Body o in ExtractFields body updatable.

Definition object_Compare (updatable immutable : list string) (o : Object template) (response : option string)
    : result CompareResult error :=
  let? body := object_Body o in
  let paths := Diff (Value (ParseBytes body)) (Value (GetBytes (default "" response) "data")) in
  Ok (MkCompare (Intersect paths updatable) (Intersect paths immutable)).

(** [id, _ := GetIDFromSigNozResource(resourceMetadata)]. *)
Definition id_or_zero (r : option SigNozResource) : string :=
  match GetIDFromSigNozResource r with Ok id => id | Err _ => "" end.

Definition object_of (collectionPath identityPath : string) (updatable immutable : list string)
    : ResourceObject template := {|
  Identity := object_Identity identityPath;
  Body := object_Body;
  Interfaces.Hash := object_Hash;
  ToSigNozResource := object_ToSigNozResource;
  ToUpdate := object_ToUpdate updatable;
  UpdatableFields := updatable;
  ImmutableFields := immutable;
  Compare := object_Compare updatable immutable;
  CreateMethodAndPath := ("POST", collectionPath);
  UpdateMethodAndPath r := ("PUT", collectionPath ++ "/" ++ id_or_zero r)%string;
  ReadMethodAndPath r := ("GET", collectionPath ++ "/" ++ id_or_zero r)%string;
  DeleteMethodAndPath r := ("DELETE", collectionPath ++ "/" ++ id_or_zero r)%string;
|}.

Definition AuthDomainObject : ResourceObject template :=
  object_of "/api/v2/auth_domains" "name" ["config"; "enabled"; "roleMapping"] ["name"].
Definition DashboardObject : ResourceObject template :=
  object_of "/api/v2/dashboards" "name" ["image"; "name"; "schemaVersion"; "spec"; "tags"] [].
Definition NotificationChannelObject : ResourceObject template :=
  object_of "/api/v2/notification_channels" "name" ["config"] ["displayName"; "name"].
Definition PlannedMaintenanceObject : ResourceObject template :=
  object_of "/api/v1/downtime_schedules" "name" ["alertIds"; "description"; "name"; "schedule"; "scope"] [].
Definition RoleObject : ResourceObject template :=
  object_of "/api/v1/roles" "name" ["description"; "transactionGroups"] ["name"].
Definition RoutePolicyObject : ResourceObject template :=
  object_of "/api/v1/route_policies" "name" ["channels"; "description"; "expression"; "kind"; "name"; "tags"] [].
Definition RuleObject : ResourceObject template :=
  object_of "/api/v2/rules" "alert"
    ["alert"; "alertType"; "annotations"; "condition"; "description"; "disabled"; "evaluation"; "labels";
     "notificationSettings"; "ruleType"; "schemaVersion"] [].
Definition SavedViewObject : ResourceObject template :=
  object_of "/api/v2/saved_views" "name" ["schemaVersion"; "source"; "spec"] ["name"].
Definition ServiceAccountObject : ResourceObject template :=
  object_of "/api/v1/service_accounts" "name" ["name"] [].
Definition UserObject : ResourceObject template :=
  object_of "/api/v2/users" "email" ["displayName"] ["email"].

Definition kinds : list (ResourceObject template) :=
  [AuthDomainObject; DashboardObject; NotificationChannelObject; PlannedMaintenanceObject; RoleObject;
   RoutePolicyObject; RuleObject; SavedViewObject; ServiceAccountObject; UserObject].
End Kinds.
