(* ===== verification/ObjectsSpec.v ===== *)
(** * What a kind compares and sends

    The comparison of a read response with the desired body, field by field, and
    what an update settles. *)

From S2P Require Import Prelude GoStd Json JsonText JsonParse JsonString JsonPrint Sha256 Libraries Errors Kube Core JsonBody JsonBodySpec Interfaces Protocol Objects.
From Stdlib Require Import String.

Local Open Scope string_scope.
Local Open Scope list_scope.

(** What a mirrored object names and sends depends on its template alone, so the
    system's theorems hold of every kind. *)
#[export] Instance object_of_desired `{GJ : Gjson} `{CMP : GoCmp} `{JE : JsonErrors} {S : Type} `{SM : SpecMarshaler S}
    cp ip upd imm : DesiredFromTemplate (ObjectTemplate S) (H := object_of cp ip upd imm).
Proof.
  split; intros o o' Ht; cbn; unfold object_Identity, object_Hash, object_Body; by rewrite Ht.
Qed.

Section Compare.
Context `{GJL : GjsonLaws} `{CMPL : GoCmpLaws} `{JE : JsonErrors} {S : Type} `{SM : SpecMarshaler S}.

Abbreviation object := (Object (ObjectTemplate S)).
Abbreviation entries := (list (string * value)).

Definition own_keys (m : entries) : Prop := forall k, is_Some (obj_lookup k m) -> one_segment k.

(** The desired body is the object [mb]; the response has the object [md] under
    [data]. *)
Definition body_is (o : object) (mb : entries) : Prop :=
  exists body, object_Body o = Ok body /\ documented body (JObj mb).
Definition response_is (raw : string) (md : entries) : Prop :=
  exists m, documented raw (JObj m) /\ obj_lookup "data" m = Some (JObj md).

Lemma Compare_objects upd imm o raw mb md :
  body_is o mb -> response_is raw md ->
  object_Compare upd imm o (Some raw)
  = Ok (MkCompare (Intersect (Diff (JObj mb) (JObj md)) upd) (Intersect (Diff (JObj mb) (JObj md)) imm)).
Proof.
  intros (body & Hb & Hbody) (m & Hraw & Hd). unfold object_Compare. rewrite Hb.
  destruct (gj_parse _ _ Hbody) as (_ & _ & ->).
  pose proof (get_field raw m "data" Hraw eq_refl) as Hf. rewrite Hd in Hf. destruct Hf as [_ Hv].
  change (default "" (Some raw)) with raw. by rewrite Hv.
Qed.

Lemma Compare_fields cp ip upd imm (o : object) raw mb md f :
  body_is o mb -> response_is raw md -> own_keys mb -> own_keys md ->
  Forall (fun k => plain_key k = true) (upd ++ imm) ->
  exists cr, Compare (ResourceObject := object_of cp ip upd imm) o (Some raw) = Ok cr /\
    (f ∈ cmp_UpdatableFields cr <-> f ∈ upd /\ ~ field_covered (obj_lookup f mb) (obj_lookup f md)) /\
    (f ∈ cmp_ImmutableFields cr <-> f ∈ imm /\ ~ field_covered (obj_lookup f mb) (obj_lookup f md)).
Proof.
  intros Hb Hr Hmb Hmd [Hu Hi]%Forall_app. eexists. split; [by apply Compare_objects|]. cbn.
  assert (forall k, is_Some (obj_lookup k mb) \/ is_Some (obj_lookup k md) -> one_segment k) as Hkeys
    by (intros k [?|?]; auto).
  rewrite Forall_forall in Hu, Hi.
  split; apply reported_fields; try done; intros k Hk; apply plain_one_segment; auto.
Qed.

(** C25. The comparison is exact. For every kind, of a desired body and a response
    whose keys hold no dots, [Compare] reports an updatable or an immutable
    field exactly when the field is one of the kind's and the response does not
    cover the body there; fields of neither list are never reported. *)
Theorem Compare_exact cp ip upd imm (o : object) raw mb md f :
  body_is o mb -> response_is raw md -> own_keys mb -> own_keys md ->
  Forall (fun k => plain_key k = true) (upd ++ imm) ->
  exists cr, Compare (ResourceObject := object_of cp ip upd imm) o (Some raw) = Ok cr /\
    (f ∈ cmp_UpdatableFields cr <-> f ∈ upd /\ ~ field_covered (obj_lookup f mb) (obj_lookup f md)) /\
    (f ∈ cmp_ImmutableFields cr <-> f ∈ imm /\ ~ field_covered (obj_lookup f mb) (obj_lookup f md)).
Proof. apply Compare_fields. Qed.

(** What a server that held [md] holds once it took an update: of a field the
    payload sets, a value that covers it; the rest stays.  Of no payload nothing is
    sent. *)
Definition stores (payload : option string) (md md' : entries) : Prop :=
  exists sent, match payload with Some text => Unmarshal text = Some (JObj sent) | None => sent = [] end /\
    forall f, match obj_lookup f sent with
              | Some a => exists b, obj_lookup f md' = Some b /\ covered a b
              | None => obj_lookup f md' = obj_lookup f md
              end.

(** The payload of an update has the updatable fields of the body, and no others. *)
Lemma ToUpdate_sends upd (o : object) mb payload :
  body_is o mb -> canonical (JObj mb) = true -> (depth (JObj mb) <= max_depth)%nat ->
  Forall (fun k => plain_key k = true) upd -> object_ToUpdate upd o = Ok payload ->
  forall sent, match payload with Some text => Unmarshal text = Some (JObj sent) | None => sent = [] end ->
  forall f, obj_lookup f sent = if decide (f ∈ upd) then obj_lookup f mb else None.
Proof.
  intros (body & Hb & Hbody) Hc Hd Hp. rewrite Forall_forall in Hp. unfold object_ToUpdate, ExtractFields. rewrite Hb.
  assert (forall f, obj_lookup f (extract_payload body upd []) = if decide (f ∈ upd) then obj_lookup f mb else None) as Hall.
  { intros f. rewrite (extract_payload_lookup body mb) by done. cbn [obj_lookup].
    case_decide as Hf; [rewrite bool_decide_eq_true_2 by done|by rewrite bool_decide_eq_false_2 by done].
    cbn [andb]. case_bool_decide as Hs; [done|]. by destruct (obj_lookup f mb); [destruct Hs|]. }
  destruct (decide (extract_payload body upd [] = [])) as [Hnil|_].
  - intros [= <-] sent ->. by rewrite <- Hnil.
  - unfold json_Marshal. destruct (Marshal _) as [text|] eqn:Ht; [|done]. intros [= <-] sent Hs.
    rewrite (payload_reads_back body mb upd text) in Hs by done. by injection Hs as <-.
Qed.

Lemma update_leaves cp ip upd imm (o : object) raw raw' mb md md' payload :
  NoDup (upd ++ imm) -> Forall (fun k => plain_key k = true) (upd ++ imm) ->
  body_is o mb -> canonical (JObj mb) = true -> (depth (JObj mb) <= max_depth)%nat ->
  response_is raw md -> response_is raw' md' -> own_keys mb -> own_keys md -> own_keys md' ->
  object_ToUpdate upd o = Ok payload -> stores payload md md' ->
  exists cr cr', Compare (ResourceObject := object_of cp ip upd imm) o (Some raw) = Ok cr /\
    Compare (ResourceObject := object_of cp ip upd imm) o (Some raw') = Ok cr' /\
    (forall f, f ∈ cmp_UpdatableFields cr' <-> f ∈ cmp_UpdatableFields cr /\ obj_lookup f mb = None) /\
    (forall f, f ∈ cmp_ImmutableFields cr' <-> f ∈ cmp_ImmutableFields cr).
Proof.
  intros Hdis Hplain Hb Hc Hd Hr Hr' Hmb Hmd Hmd' Hup (sent & Hsent & Hstored).
  pose proof (proj1 (proj1 (Forall_app _ _ _) Hplain)) as Hpu.
  pose proof (ToUpdate_sends upd o mb payload Hb Hc Hd Hpu Hup sent Hsent) as Hall.
  destruct (Compare_fields cp ip upd imm o raw mb md "" Hb Hr Hmb Hmd Hplain) as (cr & Hcr & _).
  destruct (Compare_fields cp ip upd imm o raw' mb md' "" Hb Hr' Hmb Hmd' Hplain) as (cr' & Hcr' & _).
  exists cr, cr'. split; [done|]. split; [done|].
  assert (forall f, (f ∈ cmp_UpdatableFields cr <-> f ∈ upd /\ ~ field_covered (obj_lookup f mb) (obj_lookup f md)) /\
    (f ∈ cmp_ImmutableFields cr <-> f ∈ imm /\ ~ field_covered (obj_lookup f mb) (obj_lookup f md))) as Hf.
  { intros f. destruct (Compare_fields cp ip upd imm o raw mb md f Hb Hr Hmb Hmd Hplain) as (c & Hcc & Hfields).
    rewrite Hcr in Hcc. by injection Hcc as <-. }
  assert (forall f, (f ∈ cmp_UpdatableFields cr' <-> f ∈ upd /\ ~ field_covered (obj_lookup f mb) (obj_lookup f md')) /\
    (f ∈ cmp_ImmutableFields cr' <-> f ∈ imm /\ ~ field_covered (obj_lookup f mb) (obj_lookup f md'))) as Hf'.
  { intros f. destruct (Compare_fields cp ip upd imm o raw' mb md' f Hb Hr' Hmb Hmd' Hplain) as (c & Hcc & Hfields).
    rewrite Hcr' in Hcc. by injection Hcc as <-. }
  split; intros f; specialize (Hall f); specialize (Hstored f).
  - rewrite (proj1 (Hf f)), (proj1 (Hf' f)). destruct (decide (f ∈ upd)) as [Hu|Hu]; [|tauto].
    rewrite Hall in Hstored. destruct (obj_lookup f mb) as [a|].
    + destruct Hstored as (b & -> & Hcov). split; [by intros [_ []]|by intros [_ ?]].
    + rewrite Hstored. tauto.
  - rewrite (proj2 (Hf f)), (proj2 (Hf' f)). destruct (decide (f ∈ imm)) as [Hi|Hi]; [|tauto].
    assert (f ∉ upd) as Hu by (intros Hu; by apply NoDup_app in Hdis as (_ & Hno & _); apply (Hno f Hu)).
    rewrite decide_False in Hall by done. rewrite Hall in Hstored. by rewrite Hstored.
Qed.

(** The kinds are consistent. For each of the ten kinds: the updatable and the
    immutable fields are plain names, without repetition and disjoint, the field
    that gives the identity is one of them, and the four requests go to the one
    collection of the kind, the id last. *)
Theorem kinds_consistent :
  Forall (fun K : ResourceObject (ObjectTemplate S) => exists ip cp,
    K = object_of cp ip (UpdatableFields (ResourceObject := K)) (ImmutableFields (ResourceObject := K)) /\
    ip ∈ UpdatableFields (ResourceObject := K) ++ ImmutableFields (ResourceObject := K) /\
    NoDup (UpdatableFields (ResourceObject := K) ++ ImmutableFields (ResourceObject := K)) /\
    Forall (fun f => plain_key f = true) (UpdatableFields (ResourceObject := K) ++ ImmutableFields (ResourceObject := K)) /\
    forall id, id <> "" ->
      CreateMethodAndPath (ResourceObject := K) = ("POST", cp) /\
      ReadMethodAndPath (ResourceObject := K) (Some (MkResource (Some id))) = ("GET", (cp ++ "/" ++ id)%string) /\
      UpdateMethodAndPath (ResourceObject := K) (Some (MkResource (Some id))) = ("PUT", (cp ++ "/" ++ id)%string) /\
      DeleteMethodAndPath (ResourceObject := K) (Some (MkResource (Some id))) = ("DELETE", (cp ++ "/" ++ id)%string))
    kinds.
Proof.
  assert (forall r, id_or_zero (Some (MkResource (Some r))) = r) as Hid.
  { intros r. unfold id_or_zero. simpl. case_decide; [by subst|done]. }
  unfold kinds.
  repeat (apply Forall_cons; split;
    [do 2 eexists; split; [reflexivity|]; split; [apply (bool_decide_unpack _); by vm_compute|];
     split; [apply (bool_decide_unpack _); by vm_compute|];
     split; [apply (bool_decide_unpack _); by vm_compute|]; intros id _; simpl; by rewrite Hid|]).
  constructor.
Qed.

(** C35. An update settles what it sends.  For each of the ten kinds: when the
    server took the update that [ToUpdate] makes of the object, so that each field
    of that payload has a value there that covers it and the others are as they
    were, the next comparison reports exactly the updatable fields that were
    reported before and that the body leaves out, and the same immutable fields.
    So an update of a body that sets every field that drifted is not sent again,
    and none undoes an immutable difference. *)
Theorem update_settles_drift : Forall (fun K : ResourceObject (ObjectTemplate S) =>
  forall (o : object) raw raw' mb md md' payload,
  body_is o mb -> canonical (JObj mb) = true -> (depth (JObj mb) <= max_depth)%nat ->
  response_is raw md -> response_is raw' md' -> own_keys mb -> own_keys md -> own_keys md' ->
  ToUpdate (ResourceObject := K) o = Ok payload -> stores payload md md' ->
  exists cr cr', Compare (ResourceObject := K) o (Some raw) = Ok cr /\ Compare (ResourceObject := K) o (Some raw') = Ok cr' /\
    (forall f, f ∈ cmp_UpdatableFields cr' <-> f ∈ cmp_UpdatableFields cr /\ obj_lookup f mb = None) /\
    (forall f, f ∈ cmp_ImmutableFields cr' <-> f ∈ cmp_ImmutableFields cr)) kinds.
Proof.
  eapply Forall_impl; [exact kinds_consistent|]. intros K (ip & cp & HK & _ & Hdis & Hplain & _).
  revert Hdis Hplain HK. generalize (UpdatableFields (ResourceObject := K)) (ImmutableFields (ResourceObject := K)).
  intros upd imm Hdis Hplain ->. intros o raw raw' mb md md' payload. by apply update_leaves.
Qed.
End Compare.
