(* ===== verification/Adapters.v ===== *)
(** * internal/resources/adapters: HTTP exchanges behind Find, Create, Read, Update, Delete

    Programs over one effect, [SigNoz.Exchange]. *)

From S2P Require Import Prelude GoStd Json Libraries Errors Kube Core JsonBody Effects Interfaces.
From Stdlib Require Import Ascii String.

Local Open Scope string_scope.
Local Open Scope list_scope.

(** [clients.SigNoz]: the status code and the body, nil or JSON, or an error. *)
Inductive http (SigNoz : Type) : Type -> Type :=
  | Exchange (ctx : Context) (c : SigNoz) (method path : string) (body : option string)
      : http SigNoz (result (Z * option string) error).
Arguments Exchange {SigNoz}.

Definition MethodGet : string := "GET".

(** ** Package strings and net/url *)

(** [strings.EqualFold] compares under Unicode case folding, whose tables are left
    open; on ASCII it is equality up to the case of letters. *)
Definition lower_byte (c : nat) : nat := if in_range 65 90 c then (c + 32)%nat else c.
Definition is_ascii (s : string) : bool := forallb (fun c => Nat.ltb c 128) (bytes_of s).

Class CaseFolding := EqualFold : string -> string -> bool.
Class CaseFoldingLaws `{CaseFolding} := {
  equal_fold_refl : forall s, EqualFold s s = true;
  equal_fold_sym : forall s t, EqualFold s t = EqualFold t s;
  equal_fold_ascii : forall s t, is_ascii s = true -> is_ascii t = true ->
    (EqualFold s t = true <-> lower_byte <$> bytes_of s = lower_byte <$> bytes_of t);
}.

#[export] Instance ascii_folding : CaseFolding :=
  fun s t => bool_decide (lower_byte <$> bytes_of s = lower_byte <$> bytes_of t).
#[export] Instance ascii_folding_laws : CaseFoldingLaws.
Proof.
  split; unfold EqualFold, ascii_folding.
  - intros. by apply bool_decide_eq_true.
  - intros. by apply bool_decide_ext.
  - intros. by rewrite bool_decide_eq_true.
Qed.

(** [url.QueryEscape]. *)
Definition upper_hex (n : nat) : ascii := ascii_of_nat (if decide (n < 10) then 48 + n else 55 + n)%nat.
Definition unreserved (c : nat) : bool :=
  in_range 48 57 c || in_range 65 90 c || in_range 97 122 c || bool_decide (c ∈ [45; 95; 46; 126]%nat).
Definition query_byte (c : nat) : list ascii :=
  if unreserved c then [ascii_of_nat c]
  else if (c =? 32)%nat then ["+"%char]
  else ["%"%char; upper_hex (c / 16); upper_hex (c mod 16)].
Definition QueryEscape (s : string) : string := string_of_list_ascii (flat_map query_byte (bytes_of s)).

(** [json.Unmarshal] into a slice of structs of two string fields: members in
    text order, a name matched exactly or else up to case, null leaving the zero
    value, any other kind an error. [None] is its error. *)
Definition fold_name (s : string) : list nat :=
  (fix go (keep : nat) (l : list nat) : list nat :=
     match l with
     | [] => []
     | c :: l' =>
         match keep with
         | S keep' => go keep' l'
         | O => match l with
                | 197 :: 191 :: _ => 83 :: go 1 l'
                | 226 :: 132 :: 170 :: _ => 75 :: go 2 l'
                | _ => (if in_range 97 122 c then c - 32 else c) :: go 0 l'
                end
         end
     end%nat) 0%nat (bytes_of s).

Definition same_field (name key : string) : bool := bool_decide (fold_name key = fold_name name).

Definition set_string (old : string) (v : json string) : option string :=
  match v with JStr s => Some s | JNull => Some old | _ => None end.

Fixpoint struct_fields (f1 f2 : string) (m : list (string * json string)) (acc : string * string)
    : option (string * string) :=
  match m with
  | [] => Some acc
  | (k, v) :: m' =>
      if same_field f1 k then match set_string acc.1 v with Some s => struct_fields f1 f2 m' (s, acc.2) | None => None end
      else if same_field f2 k then match set_string acc.2 v with Some s => struct_fields f1 f2 m' (acc.1, s) | None => None end
      else struct_fields f1 f2 m' acc
  end.

Definition decode_struct (f1 f2 : string) (v : json string) : option (string * string) :=
  match v with
  | JObj m => struct_fields f1 f2 m ("", "")
  | JNull => Some ("", "")
  | _ => None
  end.

Definition UnmarshalStructs (f1 f2 : string) (raw : string) : option (list (string * string)) :=
  match parse_syntax raw with
  | Some (JArr l) => mapM (decode_struct f1 f2) l
  | Some JNull => Some []
  | _ => None
  end.

Section Adapters.
Context {T SigNoz : Type}.
Context `{RO : ResourceObject T} `{GJ : Gjson} `{JE : JsonErrors} `{CF : CaseFolding}.

Abbreviation object := (Object T).
Abbreviation go := (prog (http SigNoz)).
Abbreviation resource := (option SigNozResource).

(** The check after every exchange: the body, or the error the status means. *)
Definition success (r : result (Z * option string) error) : result (option string) error :=
  match r with
  | Err e => Err e
  | Ok (status, body) => match NewFromHTTPResponse status body with Some b => Err (EBase b) | None => Ok body end
  end.

(** A nil body and an empty one read alike through gjson. *)
Definition raw_of (body : option string) : string := default "" body.

(** ** common_transport.go *)

Definition commonTransport_Create (ctx : Context) (c : SigNoz) (obj : object) : go (result resource error) :=
  match Body obj with
  | Err e => mret (Err e)
  | Ok body =>
      let '(method, path) := CreateMethodAndPath in
      r ← trigger (Exchange ctx c method path (Some body));
      mret (match success r with
            | Err e => Err e
            | Ok result =>
                match ToSigNozResource (raw_of result) with Ok resource => Ok (Some resource) | Err e => Err e end
            end)
  end.

Definition commonTransport_Read (ctx : Context) (c : SigNoz) (obj : object) (resourceMetadata : resource)
    : go (result (option string) error) :=
  let '(method, path) := ReadMethodAndPath resourceMetadata in
  r ← trigger (Exchange ctx c method path None);
  mret (success r).

Definition commonTransport_Update (ctx : Context) (c : SigNoz) (obj : object) (resourceMetadata : resource)
    : go (option error) :=
  let '(method, path) := UpdateMethodAndPath resourceMetadata in
  match ToUpdate obj with
  | Err e => mret (Some e)
  | Ok None => mret None
  | Ok (Some payload) =>
      r ← trigger (Exchange ctx c method path (Some payload));
      mret (match success r with Err e => Some e | Ok _ => None end)
  end.

Definition commonTransport_Delete (ctx : Context) (c : SigNoz) (obj : object) (resourceMetadata : resource)
    : go (option error) :=
  let '(method, path) := DeleteMethodAndPath resourceMetadata in
  r ← trigger (Exchange ctx c method path None);
  mret (match success r with Err e => Some e | Ok _ => None end).

(** ** common_find.go *)

Definition internal_error (message : string) : error := EBase (New ReasonInternal message).

(** The loop over a list's entries: every entry whose [field] holds [identity]. *)
Fixpoint matching (field identity : string) (entries : list gresult) : result (list resource) error :=
  match entries with
  | [] => Ok []
  | entry :: entries' =>
      if decide (gString (Get entry field) <> identity) then matching field identity entries'
      else
        let id := gString (Get entry "id") in
        if decide (id = "") then Err (internal_error "find: list entry carries no id")
        else let? matches := matching field identity entries' in Ok (Some (MkResource (Some id)) :: matches)
  end.

Definition findByField (ctx : Context) (c : SigNoz) (obj : object) (path field : string)
    : go (result (list resource) error) :=
  match Identity obj with
  | Err e => mret (Err e)
  | Ok identity =>
      r ← trigger (Exchange ctx c MethodGet path None);
      mret (match success r with
            | Err e => Err e
            | Ok result =>
                let data := GetBytes (raw_of result) "data" in
                if negb (Exists data) || negb (IsArray data)
                then Err (internal_error "find: response carries no data list")
                else matching field identity (Array data)
            end)
  end.

Definition findPageLimit : Z := 100.

Definition page_path (path : string) (offset : Z) : string :=
  (path ++ "?limit=" ++ Itoa findPageLimit ++ "&offset=" ++ Itoa offset)%string.

(** One turn of the loop's body: an error, the last page, or one to go on after. *)
Definition find_page (listKey identity : string) (offset : Z) (matches : list resource)
    (r : result (Z * option string) error) : result (list resource * bool) error :=
  let? result := success r in
  let data := GetBytes (raw_of result) "data" in
  if negb (Exists data) then Err (internal_error "find: response carries no data")
  else
    let list := Get data listKey in
    if Exists list && negb (IsArray list)
    then Err (internal_error ("find: could not parse " ++ listKey ++ " list"))
    else
      let entries := Array list in
      let? found := matching "name" identity entries in
      let n := Z.of_nat (List.length entries) in
      Ok (matches ++ found, bool_decide (n = 0%Z) || bool_decide (Int (Get data "total") <= offset + n)%Z).

(** The loop has no bound of its own: [None] when [fuel] pages were not enough. *)
Fixpoint find_pages (fuel : nat) (ctx : Context) (c : SigNoz) (path listKey identity : string) (offset : Z)
    (matches : list resource) : go (option (result (list resource) error)) :=
  match fuel with
  | O => mret None
  | S fuel' =>
      r ← trigger (Exchange ctx c MethodGet (page_path path offset) None);
      match find_page listKey identity offset matches r with
      | Err e => mret (Some (Err e))
      | Ok (matches, true) => mret (Some (Ok matches))
      | Ok (matches, false) => find_pages fuel' ctx c path listKey identity (offset + findPageLimit) matches
      end
  end.

Definition findByPage (fuel : nat) (ctx : Context) (c : SigNoz) (obj : object) (path listKey : string)
    : go (option (result (list resource) error)) :=
  match Identity obj with
  | Err e => mret (Some (Err e))
  | Ok identity => find_pages fuel ctx c path listKey identity 0 []
  end.

(** ** The adapters *)

Abbreviation Find_ := (Context -> SigNoz -> object -> go (result (list resource) error)).

Definition AuthDomainAdapter_Find : Find_ := fun ctx c obj => findByField ctx c obj "/api/v2/auth_domains" "name".
Definition PlannedMaintenanceAdapter_Find : Find_ := fun ctx c obj => findByField ctx c obj "/api/v1/downtime_schedules" "name".
Definition RoleAdapter_Find : Find_ := fun ctx c obj => findByField ctx c obj "/api/v1/roles" "name".
Definition RoutePolicyAdapter_Find : Find_ := fun ctx c obj => findByField ctx c obj "/api/v1/route_policies" "name".
Definition RuleAdapter_Find : Find_ := fun ctx c obj => findByField ctx c obj "/api/v2/rules" "alert".
Definition ServiceAccountAdapter_Find : Find_ := fun ctx c obj => findByField ctx c obj "/api/v1/service_accounts" "name".

Definition DashboardAdapter_Find (fuel : nat) (ctx : Context) (c : SigNoz) (obj : object) :=
  findByPage fuel ctx c obj "/api/v2/dashboards" "dashboards".
Definition NotificationChannelAdapter_Find (fuel : nat) (ctx : Context) (c : SigNoz) (obj : object) :=
  findByPage fuel ctx c obj "/api/v2/notification_channels" "channels".

(** user_adapter.go and savedview_adapter.go: the list decoded into structs. *)
Definition find_structs (field message : string) (accepts : string -> bool) (result : option string)
    : Prelude.result (list resource) error :=
  let data := GetBytes (raw_of result) "data" in
  if negb (Exists data) then Err (internal_error "find: response carries no data")
  else
    match UnmarshalStructs "id" field (Raw data) with
    | None => Err (EBase (Wrap (unmarshal_error (Raw data)) ReasonInternal message))
    | Some entries => Ok ((fun e => Some (MkResource (Some e.1))) <$> filter (fun e => accepts e.2 = true) entries)
    end.

Definition UserAdapter_Find : Find_ := fun ctx c obj =>
  match Identity obj with
  | Err e => mret (Err e)
  | Ok identity =>
      r ← trigger (Exchange ctx c MethodGet "/api/v2/users" None);
      mret (match success r with
            | Err e => Err e
            | Ok result => find_structs "email" "find: could not parse user list" (fun email => EqualFold email identity) result
            end)
  end.

Definition SavedViewAdapter_Find : Find_ := fun ctx c obj =>
  match Identity obj with
  | Err e => mret (Err e)
  | Ok identity =>
      r ← trigger (Exchange ctx c MethodGet ("/api/v2/saved_views?name=" ++ QueryEscape identity)%string None);
      mret (match success r with
            | Err e => Err e
            | Ok result => find_structs "name" "find: could not parse saved view list" (fun name => bool_decide (name = identity)) result
            end)
  end.
End Adapters.

Example query_escape_example : QueryEscape "a b/c~" = "a+b%2Fc~".
Proof. vm_compute. reflexivity. Qed.
