(* ===== verification/AdaptersSpec.v ===== *)
(** * What the adapters answer

    The lists a lookup reads, as values; the paged walk against a server that
    holds one list; what each transport call makes of an answer. *)

From S2P Require Import Prelude GoStd Json Libraries Errors Kube Core JsonBody JsonBodySpec Conditions Effects Interfaces Objects Adapters Reconciler ReconcilerSafety ReconcilerOutcome.
From Stdlib Require Import String.

Local Open Scope string_scope.
Local Open Scope list_scope.

(** ** Answers *)

Lemma NewFromHTTPResponse_none status body :
  NewFromHTTPResponse status body = None <-> (200 <= status < 300)%Z.
Proof. unfold NewFromHTTPResponse. repeat case_decide; split; try done; lia. Qed.

Lemma success_Ok r body : success r = Ok body <-> exists status, r = Ok (status, body) /\ (200 <= status < 300)%Z.
Proof.
  unfold success. destruct r as [[status b]|e]; [|split; [done|by intros (? & ? & _)]].
  destruct (NewFromHTTPResponse status b) eqn:E; split; try done.
  - intros (s & Heq & Hs). simplify_eq. apply (NewFromHTTPResponse_none s body) in Hs. congruence.
  - intros Heq. simplify_eq. exists status. split; [done|]. by apply NewFromHTTPResponse_none in E.
  - intros (s & Heq & Hs). by simplify_eq.
Qed.

(** ** Entries as values *)

Definition field_of (k : string) (v : value) : option value :=
  match v with JObj m => obj_lookup k m | _ => None end.

(** The field is a string where it is set. *)
Definition string_field (k : string) (v : value) : Prop :=
  match field_of k v with None | Some (JStr _) => True | Some _ => False end.

Definition text_of (k : string) (v : value) : string :=
  match field_of k v with Some (JStr s) => s | _ => "" end.

(** The reference lookup over a list: the ids of the entries whose [field] is
    [identity], in order, unless one of them has none. *)
Definition list_matches (field identity : string) (l : list value) : result (list (option SigNozResource)) error :=
  let found := filter (fun v => text_of field v = identity) l in
  if decide (Forall (fun v => text_of "id" v <> "") found)
  then Ok ((fun v => Some (MkResource (Some (text_of "id" v)))) <$> found)
  else Err (internal_error "find: list entry carries no id").

Section Entries.
Context `{GJL : GjsonLaws}.

(** A result that reads as the value. *)
Definition reads (r : gresult) (v : value) : Prop := gj_read r /\ Exists r = true /\ Value r = v.

Lemma get_text r v k : reads r v -> plain_key k = true -> string_field k v -> gString (Get r k) = text_of k v.
Proof.
  intros (Hr & He & Hv) Hk Hs. pose proof (gj_get_read _ k Hr) as Hr'.
  assert (Exists (Get r k) = false -> gString (Get r k) = "") as Hmiss.
  { intros Hn. by destruct (gj_missing _ Hr' Hn) as (_ & ? & _). }
  unfold text_of, string_field, field_of in *.
  destruct v as [| | | | |m]; try (apply Hmiss, (gj_get_other _ _ Hr); [congruence|done]).
  pose proof (gj_get_object _ _ _ Hr He Hv Hk) as Ho. destruct (obj_lookup k m) as [u|]; [|by apply Hmiss].
  destruct Ho as [He' Hv']. destruct u; try done. by apply gj_string.
Qed.

Definition well_typed (field : string) (v : value) : Prop := string_field field v /\ string_field "id" v.

Lemma matching_list field identity rs l :
  plain_key field = true -> identity <> "" -> Forall2 reads rs l -> Forall (well_typed field) l ->
  matching field identity rs = list_matches field identity l.
Proof.
  intros Hf Hne Hrs. induction Hrs as [|r v rs l Hr _ IH]; intros Hty; [done|].
  apply Forall_cons in Hty as [[Hfield Hid] Hty]. cbn [matching].
  rewrite (get_text _ _ _ Hr Hf Hfield), (get_text _ _ "id" Hr eq_refl Hid), (IH Hty).
  unfold list_matches. rewrite filter_cons. destruct (decide (text_of field v = identity)) as [He|He].
  - rewrite decide_False by tauto. destruct (decide (text_of "id" v = "")) as [Hi|Hi].
    + rewrite decide_False; [done|]. by intros [? ?]%Forall_cons.
    + destruct (decide (Forall _ _)) as [Hall|Hall].
      * by rewrite (decide_True (P := Forall _ (v :: _))) by (by constructor).
      * rewrite (decide_False (P := Forall _ (v :: _))) by (by intros [? ?]%Forall_cons). done.
  - by rewrite decide_True by done.
Qed.

Lemma list_matches_nil field identity : list_matches field identity [] = Ok [].
Proof. done. Qed.

Lemma list_matches_app field identity a b :
  list_matches field identity (a ++ b)
  = (let? x := list_matches field identity a in let? y := list_matches field identity b in Ok (x ++ y)).
Proof.
  unfold list_matches. rewrite filter_app. repeat case_decide; try done; rewrite Forall_app in *; try tauto.
  by rewrite fmap_app.
Qed.

(** ** A response *)

(** The body of a list response: an object with the list under [data]. *)
Definition list_response (raw : string) (l : list value) : Prop :=
  exists m, documented raw (JObj m) /\ obj_lookup "data" m = Some (JArr l).

(** A page: an object under [data] with the page under [listKey] and a total. *)
Definition page_response (listKey : string) (raw : string) (page : list value) (total : Z) : Prop :=
  exists m d, documented raw (JObj m) /\ obj_lookup "data" m = Some (JObj d) /\
    obj_lookup listKey d = Some (JArr page) /\ Int (Get (GetBytes raw "data") "total") = total.

Lemma list_response_read raw l :
  list_response raw l ->
  Exists (GetBytes raw "data") = true /\ IsArray (GetBytes raw "data") = true /\
  Forall2 reads (Array (GetBytes raw "data")) l.
Proof.
  intros (m & Hraw & Hl). pose proof (get_field raw m "data" Hraw eq_refl) as Hf. rewrite Hl in Hf.
  destruct Hf as [He Hv]. assert (gj_read (GetBytes raw "data")) as Hr.
  { rewrite (gj_get_bytes _ _ _ Hraw). apply gj_get_read, (gj_parse _ _ Hraw). }
  split; [done|]. split; [apply gj_is_array; eauto|]. by apply gj_array.
Qed.

(** A list response, read by a lookup. *)
Lemma list_response_found field identity raw l :
  plain_key field = true -> identity <> "" -> Forall (well_typed field) l -> list_response raw l ->
  (let data := GetBytes raw "data" in
   if negb (Exists data) || negb (IsArray data)
   then Err (internal_error "find: response carries no data list")
   else matching field identity (Array data)) = list_matches field identity l.
Proof.
  intros Hf Hne Hty Hraw. destruct (list_response_read _ _ Hraw) as (He & Ha & Hl). cbv zeta. rewrite He, Ha.
  by apply matching_list.
Qed.

Lemma page_response_read listKey raw page total :
  plain_key listKey = true -> page_response listKey raw page total ->
  let data := GetBytes raw "data" in
  Exists data = true /\ Exists (Get data listKey) = true /\ IsArray (Get data listKey) = true /\
  Forall2 reads (Array (Get data listKey)) page /\ Int (Get data "total") = total.
Proof.
  intros Hk (m & d & Hraw & Hd & Hp & Ht). cbv zeta.
  pose proof (get_field raw m "data" Hraw eq_refl) as Hf. rewrite Hd in Hf. destruct Hf as [He Hv].
  assert (gj_read (GetBytes raw "data")) as Hr.
  { rewrite (gj_get_bytes _ _ _ Hraw). apply gj_get_read, (gj_parse _ _ Hraw). }
  pose proof (gj_get_object _ _ _ Hr He Hv Hk) as Ho. rewrite Hp in Ho. destruct Ho as [He' Hv'].
  pose proof (gj_get_read _ listKey Hr) as Hr'.
  split; [done|]. split; [done|]. split; [apply gj_is_array; eauto|]. split; [by apply gj_array|done].
Qed.
End Entries.

Section Lookups.
Context {T SigNoz : Type} `{RO : ResourceObject T} `{GJL : GjsonLaws}.

Abbreviation net := (http SigNoz).

(** A server that answers a path by a relation between it and the response. *)
Definition serving (answers : string -> Z * option string -> Prop) (X : Type) (w : unit) (e : net X) : X -> unit -> Prop :=
  match e in http _ X return X -> unit -> Prop with
  | Exchange _ _ method path body => fun x _ => method = MethodGet /\ exists a, x = Ok a /\ answers path a
  end.

Abbreviation free := (fun (X : Type) (w : unit) (e : net X) => True).

(** A lookup by field finds exactly the matches. Against a server that answers
    the collection with a list of well-typed entries, [findByField] returns the
    ids of precisely the entries whose field is the object's identity, in the
    list's order, or an error when one of those has no id. *)
Theorem findByField_exact ctx (c : SigNoz) (o : Object T) path field identity l r w :
  Identity o = Ok identity -> identity <> "" -> plain_key field = true -> Forall (well_typed field) l ->
  exec (serving (fun p a => p = path /\ exists raw, a = (200%Z, Some raw) /\ list_response raw l))
    (findByField ctx c o path field) tt (Ret r) w ->
  r = list_matches field identity l.
Proof.
  intros Hid Hne Hf Hty. unfold findByField. rewrite Hid.
  intros (x & [] & (_ & a & -> & _ & raw & -> & Hraw)%exec_trigger_inv & Hr)%exec_bind_inv.
  apply exec_ret_inv in Hr as [-> _]. cbn [success]. rewrite (proj2 (NewFromHTTPResponse_none 200 _)) by lia.
  by apply list_response_found.
Qed.

(** ** The paged walk *)

(** The page at an offset: at most [findPageLimit] entries from there on. *)
Definition page_at (l : list value) (offset : Z) : list value := take 100 (drop (Z.to_nat offset) l).

(** A server that pages [l] under [listKey] of [path]; its totals may overcount. *)
Definition paging (path listKey : string) (l : list value) (p : string) (a : Z * option string) : Prop :=
  exists offset raw total, (0 <= offset)%Z /\ p = page_path path offset /\ a = (200%Z, Some raw) /\
    page_response listKey raw (page_at l offset) total /\ (Z.of_nat (List.length l) <= total)%Z.

Lemma Itoa_inj a b : Itoa a = Itoa b -> a = b.
Proof. apply (inj pretty). Qed.

Lemma append_inj_l (a b c : string) : (a ++ b)%string = (a ++ c)%string -> b = c.
Proof. induction a as [|x a IH]; [done|]. rewrite !append_String. intros [= ?]. auto. Qed.

Lemma page_path_inj path a b : page_path path a = page_path path b -> a = b.
Proof. unfold page_path. intros He. by repeat apply append_inj_l in He; apply Itoa_inj in He. Qed.

(** One page, read. *)
Lemma find_page_read listKey identity l offset matches x raw total :
  plain_key listKey = true -> identity <> "" -> Forall (well_typed "name") l ->
  success x = Ok (Some raw) -> page_response listKey raw (page_at l offset) total ->
  find_page listKey identity offset matches x
  = (let? found := list_matches "name" identity (page_at l offset) in
     let n := Z.of_nat (List.length (page_at l offset)) in
     Ok (matches ++ found, bool_decide (n = 0%Z) || bool_decide (total <= offset + n)%Z)).
Proof.
  intros Hk Hne Hty Hx Hpage. unfold find_page. rewrite Hx. change (raw_of (Some raw)) with raw.
  destruct (page_response_read _ _ _ _ Hk Hpage) as (He & He' & Ha & Hl & Hi). cbv beta iota zeta.
  rewrite He, He', Ha, Hi. cbn [negb andb].
  erewrite matching_list; [|done|done|exact Hl|by apply Forall_take, Forall_drop].
  by rewrite (Forall2_length _ _ _ Hl).
Qed.

Lemma find_page_paging path listKey identity l offset matches a :
  plain_key listKey = true -> identity <> "" -> Forall (well_typed "name") l -> (0 <= offset)%Z ->
  paging path listKey l (page_path path offset) a ->
  exists total, (Z.of_nat (List.length l) <= total)%Z /\
  find_page listKey identity offset matches (Ok a)
  = (let? found := list_matches "name" identity (page_at l offset) in
     let n := Z.of_nat (List.length (page_at l offset)) in
     Ok (matches ++ found, bool_decide (n = 0%Z) || bool_decide (total <= offset + n)%Z)).
Proof.
  intros Hk Hne Hty Ho (off & raw & total & _ & <-%page_path_inj & -> & Hpage & Htotal).
  exists total. split; [done|]. apply (find_page_read _ _ _ _ _ _ raw); [done|done|done| |done].
  cbn [success]. by rewrite (proj2 (NewFromHTTPResponse_none 200 _)) by lia.
Qed.

Lemma page_split l offset :
  (0 <= offset)%Z -> drop (Z.to_nat offset) l = page_at l offset ++ drop (Z.to_nat (offset + findPageLimit)) l.
Proof.
  intros Ho. unfold page_at. rewrite <- (take_drop 100 (drop (Z.to_nat offset) l)) at 1.
  rewrite drop_drop. by replace (Z.to_nat offset + 100)%nat with (Z.to_nat (offset + findPageLimit))
    by (unfold findPageLimit; lia).
Qed.

Lemma find_pages_exact fuel ctx (c : SigNoz) path listKey identity l offset matches r w :
  plain_key listKey = true -> identity <> "" -> Forall (well_typed "name") l -> (0 <= offset)%Z ->
  (List.length l - Z.to_nat offset + 100 <= 100 * fuel)%nat ->
  exec (serving (paging path listKey l)) (find_pages fuel ctx c path listKey identity offset matches) tt (Ret r) w ->
  r = Some (let? found := list_matches "name" identity (drop (Z.to_nat offset) l) in Ok (matches ++ found)).
Proof.
  intros Hk Hne Hty. revert offset matches. induction fuel as [|fuel IH]; intros offset matches Ho Hfuel Hex; [lia|].
  cbn [find_pages] in Hex.
  apply exec_bind_inv in Hex as (x & [] & (_ & a & -> & Ha)%exec_trigger_inv & Hex).
  destruct (find_page_paging _ _ identity _ _ matches _ Hk Hne Hty Ho Ha) as (total & Ht & Hpage).
  rewrite Hpage in Hex. rewrite (page_split l offset Ho), list_matches_app.
  destruct (list_matches "name" identity (page_at l offset)) as [found|e]; [|by apply exec_ret_inv in Hex as [-> _]].
  cbv zeta in Hex. cbn [app] in Hex.
  destruct (_ || _) eqn:Hlast in Hex.
  - apply exec_ret_inv in Hex as [-> _].
    assert (drop (Z.to_nat (offset + findPageLimit)) l = []) as ->; [|by rewrite list_matches_nil, app_nil_r].
    apply drop_ge. unfold page_at in Hlast. rewrite length_take, length_drop in Hlast. unfold findPageLimit.
    apply orb_true_iff in Hlast as [Hn%bool_decide_eq_true|Hn%bool_decide_eq_true]; lia.
  - rewrite (IH (offset + findPageLimit)%Z (matches ++ found)); [|unfold findPageLimit; lia| |exact Hex].
    + destruct (list_matches _ _ (drop _ l)); [by rewrite app_assoc|done].
    + apply orb_false_iff in Hlast as [Hn%bool_decide_eq_false _].
      unfold page_at in Hn. rewrite length_take, length_drop in Hn. unfold findPageLimit. lia.
Qed.

(** C24. The paged walk ends and misses nothing. Against a server that pages one
    list of well-typed entries and never undercounts it, a lookup by page
    returns, within two pages more than the list fills, exactly the ids of the
    entries of the whole list whose name is the object's identity, in order, or
    an error when one of those has no id; an overcounted total only costs a
    page. *)
Theorem findByPage_exact fuel ctx (c : SigNoz) (o : Object T) path listKey identity l r w :
  Identity o = Ok identity -> identity <> "" -> plain_key listKey = true -> Forall (well_typed "name") l ->
  (List.length l / 100 + 2 <= fuel)%nat ->
  exec (serving (paging path listKey l)) (findByPage fuel ctx c o path listKey) tt (Ret r) w ->
  r = Some (list_matches "name" identity l).
Proof.
  intros Hid Hne Hk Hty Hfuel. unfold findByPage. rewrite Hid. intros Hex.
  pose proof (Nat.div_mod_eq (List.length l) 100). pose proof (Nat.mod_upper_bound (List.length l) 100).
  rewrite (find_pages_exact fuel ctx c path listKey identity l 0 [] r w); [|done|done|done|done| |exact Hex].
  - change (drop (Z.to_nat 0) l) with l. by destruct (list_matches _ _ l).
  - lia.
Qed.
End Lookups.

(** ** Transport calls *)

Section Transport.
Context {T SigNoz : Type} `{RO : ResourceObject T}.

Abbreviation net := (http SigNoz).
Abbreviation anything := (hist_step (E := net) (@any_answer net)).

Definition accepted (x : result (Z * option string) error) : Prop :=
  exists status body, x = Ok (status, body) /\ (200 <= status < 300)%Z.

Lemma success_accepted x : is_ok (success x) = true <-> accepted x.
Proof.
  rewrite is_ok_true. unfold accepted. setoid_rewrite success_Ok. naive_solver.
Qed.

(** An update is one request, or none. [Update] makes one exchange, of the
    kind's update method and path with the update payload, and succeeds exactly
    when the answer has a 2xx status; it makes none, and succeeds, when the body
    sets no updatable field, and none, failing, when the payload cannot be
    built. *)
Theorem update_is_one_exchange ctx (c : SigNoz) (o : Object T) r res h :
  exec anything (commonTransport_Update ctx c o r) [] (Ret res) h ->
  match ToUpdate o with
  | Err e => h = [] /\ res = Some e
  | Ok None => h = [] /\ res = None
  | Ok (Some payload) => exists x,
      h = [Ev (Exchange ctx c (UpdateMethodAndPath r).1 (UpdateMethodAndPath r).2 (Some payload) : net _) x] /\
      (res = None <-> accepted x)
  end.
Proof.
  unfold commonTransport_Update. destruct (UpdateMethodAndPath r) as [method path] eqn:Hp.
  destruct (ToUpdate o) as [[payload|]|e]; [|intros [-> ->]%exec_ret_inv; done|intros [-> ->]%exec_ret_inv; done].
  intros (x & h1 & [_ ->]%exec_trigger_inv & [-> ->]%exec_ret_inv)%exec_bind_inv.
  exists x. split; [done|]. rewrite <- success_accepted. by destruct (success x).
Qed.

Lemma read_is_one_exchange ctx (c : SigNoz) (o : Object T) r res h :
  exec anything (commonTransport_Read ctx c o r) [] (Ret res) h ->
  exists x, h = [Ev (Exchange ctx c (ReadMethodAndPath r).1 (ReadMethodAndPath r).2 None : net _) x] /\
    (is_ok res = true <-> accepted x).
Proof.
  unfold commonTransport_Read. destruct (ReadMethodAndPath r) as [method path].
  intros (x & h1 & [_ ->]%exec_trigger_inv & [-> ->]%exec_ret_inv)%exec_bind_inv.
  exists x. split; [done|]. apply success_accepted.
Qed.
End Transport.

(** ** Creates name what they made *)

Section Created.
Context `{GJ : Gjson} `{CMP : GoCmp} `{JE : JsonErrors} {S SigNoz : Type} `{SM : SpecMarshaler S}.

Abbreviation net := (http SigNoz).
Abbreviation anything := (hist_step (E := net) (@any_answer net)).

Lemma ExtractString_ne raw path s : ExtractString raw path = Ok s -> s <> "".
Proof. unfold ExtractString. case_decide; congruence. Qed.

(** A create that succeeds names the object. For every mirrored kind, when
    [Create] returns without an error the answer had a 2xx status, one exchange
    was made, and the metadata returned carries an id. *)
Theorem create_names_the_object cp ip upd imm ctx (c : SigNoz) (o : Object (ObjectTemplate S)) r h :
  exec anything (commonTransport_Create (RO := object_of cp ip upd imm) ctx c o) [] (Ret (Ok r)) h ->
  is_ok (GetIDFromSigNozResource r) = true /\
  exists body x, object_Body o = Ok body /\
    h = [Ev (Exchange ctx c "POST" cp (Some body) : net _) x] /\ accepted x.
Proof.
  unfold commonTransport_Create. cbn [object_of Body CreateMethodAndPath ToSigNozResource].
  destruct (object_Body o) as [body|e]; [|by intros [? _]%exec_ret_inv].
  intros (x & h1 & [_ ->]%exec_trigger_inv & [Hr ->]%exec_ret_inv)%exec_bind_inv.
  destruct (success x) as [result|] eqn:Hx; [|done]. unfold object_ToSigNozResource in Hr.
  destruct (ExtractString _ _) as [id|] eqn:Hid; [|done]. injection Hr as ->. split.
  - apply is_ok_true. exists id. apply GetID_Ok. split; [done|]. by eapply ExtractString_ne.
  - exists body, x. split; [done|]. split; [done|]. apply success_accepted. by rewrite Hx.
Qed.
End Created.

(** ** The verdict of an HTTP status *)

(** What a failing status makes of a pass: a refused body and a conflict are the
    resource's own and are not retried; a rejected credential is the config's and
    is; everything else is the backend's and is retried. *)
Definition status_verdict (status : Z) : ReconcilerOutcome * Conditions.Reasons.Reason :=
  if decide (status = 400 \/ status = 409)%Z then (ReconcilerOutcomeTerminal, Conditions.Reasons.ReasonRejected)
  else if decide (status = 401 \/ status = 403)%Z then (ReconcilerOutcomeRecoverable, Conditions.Reasons.ReasonUnauthorized)
  else (ReconcilerOutcomeRecoverable, Conditions.Reasons.ReasonBackendError).

(** The verdict of an HTTP status. A 2xx answer is no error; any other answer
    is an error the reconciler classifies by its status alone, whatever the
    body: terminal for 400 and 409, recoverable for the rest, attributed to the
    credential for 401 and 403 and to the backend otherwise. *)
Theorem http_status_verdict status body :
  match NewFromHTTPResponse status body with
  | None => (200 <= status < 300)%Z
  | Some b => ~ (200 <= status < 300)%Z /\ adapter_verdict (EBase b) = status_verdict status
  end.
Proof.
  destruct (NewFromHTTPResponse status body) as [b|] eqn:E; [|by apply NewFromHTTPResponse_none in E].
  assert (~ (200 <= status < 300)%Z) as Hn by (rewrite <- (NewFromHTTPResponse_none status body), E; done).
  split; [done|]. unfold NewFromHTTPResponse in E. rewrite decide_False in E by done.
  unfold status_verdict.
  repeat (case_decide; simplify_eq; [first [done|lia]|]).
  all: try (repeat case_decide; simplify_eq; first [done|lia]).
Qed.
