(* ===== verification/LibraryWitness.v ===== *)
(** * The theorems of the bodies, the kinds and the adapters, at concrete inputs

    Auth domains over the reference instances of the libraries, with a typed
    spec that is its own JSON. *)

From S2P Require Import Prelude GoStd Json Libraries Errors Kube Core Effects Interfaces JsonBody JsonBodySpec Objects ObjectsSpec Adapters AdaptersSpec Fixture.
From Stdlib Require Import Ascii String.

Local Open Scope string_scope.
Local Open Scope list_scope.

(** JSON written with single quotes. *)
Definition json_of (s : string) : string :=
  string_of ((fun c => if decide (c = 39)%nat then 34%nat else c) <$> bytes_of s).

#[export] Instance text_spec : SpecMarshaler string := fun s => Ok s.

Abbreviation domain := (Object (ObjectTemplate string)).

Definition desired : string := json_of "{'name':'x','config':{'a':1}}".
Definition remote : string := json_of "{'status':'ok','data':{'id':'7','name':'x','config':{'a':2},'enabled':false}}".
Definition domain_of (body : string) : domain :=
  MkObject (meta None [] ∅) (spec ReclaimDelete false) (MkTemplate None (Some body)) (status None "").

(** The members of a text that is an object. *)
Definition members (raw : string) : list (string * value) :=
  match Unmarshal raw with Some (JObj m) => m | _ => [] end.
Definition data_members (raw : string) : list (string * value) :=
  match obj_lookup "data" (members raw) with Some (JObj m) => m | _ => [] end.

Lemma desired_body : body_is (domain_of desired) (members desired).
Proof. exists desired. split; [vm_compute; reflexivity|]. split; vm_compute; reflexivity. Qed.

Lemma remote_response : response_is remote (data_members remote).
Proof. exists (members remote). split; [split|]; vm_compute; reflexivity. Qed.

Lemma plain_own_keys (m : list (string * value)) :
  forallb (fun kv => plain_key kv.1) m = true -> own_keys m.
Proof.
  intros Hm k. induction m as [|[k' v] m IH]; [by intros [? ?]|].
  cbn in Hm |- *. apply andb_true_iff in Hm as [Hk Hm].
  destruct (decide (k = k')) as [->|]; [intros _; by apply plain_one_segment|auto].
Qed.

Abbreviation updatable := ["config"; "enabled"; "roleMapping"].

(** The config drifted; the server's own [enabled], false, is no difference. *)
Lemma reported_fields_differ_witness :
  "config" ∈ Intersect (Diff (JObj (members desired)) (JObj (data_members remote))) updatable <->
  "config" ∈ updatable /\ ~ field_covered (obj_lookup "config" (members desired)) (obj_lookup "config" (data_members remote)).
Proof.
  apply reported_fields_differ.
  - intros k [Hk|Hk]; revert k Hk; apply plain_own_keys; vm_compute; reflexivity.
  - intros k Hk. apply plain_one_segment.
    assert (Forall (fun k => plain_key k = true) updatable) as Hall by (repeat constructor).
    rewrite Forall_forall in Hall. by apply Hall.
Defined.

(** A stored zero that the body leaves out is no difference. *)
Lemma Equal_up_to_zero_defaults_witness :
  covered (JObj (members desired)) (JObj (members (json_of "{'name':'x','config':{'a':1,'b':[]},'enabled':false}"))).
Proof.
  apply (proj1 (proj1 (Equal_up_to_zero_defaults (JObj (members desired))
    (JObj (members (json_of "{'name':'x','config':{'a':1,'b':[]},'enabled':false}")))))).
  vm_compute. reflexivity.
Defined.

(** The config is all there is to send. *)
Lemma ExtractFields_payload_witness : exists payload,
  payload_of (members desired) payload updatable /\ payload <> [] /\
  ExtractFields desired updatable = (let? out := json_Marshal (JObj payload) in Ok (Some out)).
Proof.
  assert (documented desired (JObj (members desired))) as Hd by (split; vm_compute; reflexivity).
  assert (forall f, f ∈ updatable -> plain_key f = true) as Hp.
  { rewrite <- Forall_forall. by repeat constructor. }
  destruct (ExtractFields_payload desired (members desired) updatable Hd Hp) as (payload & Hpay & Hx).
  assert (payload <> []) as Hne.
  { intros ->. specialize (Hpay "config"). vm_compute in Hpay. discriminate. }
  exists payload. split; [exact Hpay|]. split; [exact Hne|]. by rewrite Hx, decide_False.
Defined.

Lemma desired_keys : own_keys (members desired).
Proof. apply plain_own_keys. vm_compute. reflexivity. Qed.
Lemma remote_keys : own_keys (data_members remote).
Proof. apply plain_own_keys. vm_compute. reflexivity. Qed.

Lemma Compare_exact_witness : exists cr,
  Compare (ResourceObject := AuthDomainObject) (domain_of desired) (Some remote) = Ok cr /\
  ("config" ∈ cmp_UpdatableFields cr <->
   "config" ∈ updatable /\ ~ field_covered (obj_lookup "config" (members desired)) (obj_lookup "config" (data_members remote))).
Proof.
  assert (Forall (fun k => plain_key k = true) (updatable ++ ["name"])) as Hp by (by repeat constructor).
  destruct (Compare_exact "/api/v2/auth_domains" "name" updatable ["name"] (domain_of desired) remote
    (members desired) (data_members remote) "config" desired_body remote_response desired_keys remote_keys Hp)
    as (cr & Hcr & Hu & _).
  exists cr. split; [exact Hcr|exact Hu].
Defined.

(** What the server answers before and once the config was stored; [roleMapping] is
    its own. *)
Definition drifted : string :=
  json_of "{'data':{'id':'7','name':'x','config':{'a':2},'enabled':false,'roleMapping':{'defaultRole':'VIEWER'}}}".
Definition updated : string :=
  json_of "{'data':{'id':'7','name':'x','config':{'a':1,'b':0},'enabled':false,'roleMapping':{'defaultRole':'VIEWER'}}}".
Definition config_sent : string := json_of "{'config':{'a':1}}".

Lemma only_config_stored : stores (Some config_sent) (data_members drifted) (data_members updated).
Proof.
  assert (exists a b rest, data_members drifted = ("config", a) :: rest /\ data_members updated = ("config", b) :: rest)
    as (a & b & rest & -> & Hb) by (do 3 eexists; split; vm_compute; reflexivity).
  exists (members config_sent). split; [vm_compute; reflexivity|]. intros f.
  assert (exists c, members config_sent = [("config", c)]) as [c Hc] by (eexists; vm_compute; reflexivity).
  assert (covered c b) as Hcov.
  { assert (match members config_sent, data_members updated with (_, c) :: _, (_, b) :: _ => Equal c b | _, _ => false end = true) as He
      by (vm_compute; reflexivity). rewrite Hc, Hb in He. by apply Equal_covered. }
  rewrite Hc, Hb. cbn [obj_lookup]. destruct (decide (f = "config")) as [_|_]; [by exists b|done].
Qed.

Lemma update_settles_drift_witness : exists cr cr',
  Compare (ResourceObject := AuthDomainObject) (domain_of desired) (Some drifted) = Ok cr /\
  Compare (ResourceObject := AuthDomainObject) (domain_of desired) (Some updated) = Ok cr' /\
  cmp_UpdatableFields cr = ["config"; "roleMapping"] /\
  ("roleMapping" ∈ cmp_UpdatableFields cr') /\ ~ "config" ∈ cmp_UpdatableFields cr'.
Proof.
  assert (AuthDomainObject ∈ kinds (S := string)) as Hin by left.
  assert (response_is drifted (data_members drifted)) as Hr
    by (exists (members drifted); split; [split|]; vm_compute; reflexivity).
  assert (response_is updated (data_members updated)) as Hr'
    by (exists (members updated); split; [split|]; vm_compute; reflexivity).
  assert (own_keys (data_members drifted)) as Hk by (apply plain_own_keys; vm_compute; reflexivity).
  assert (own_keys (data_members updated)) as Hk' by (apply plain_own_keys; vm_compute; reflexivity).
  destruct (proj1 (Forall_forall _ _) update_settles_drift AuthDomainObject Hin (domain_of desired) drifted updated
    (members desired) (data_members drifted) (data_members updated) (Some config_sent) desired_body)
    as (cr & cr' & Hcr & Hcr' & Hu & _).
  - vm_compute. reflexivity.
  - apply Nat.leb_le. vm_compute. reflexivity.
  - exact Hr.
  - exact Hr'.
  - exact desired_keys.
  - exact Hk.
  - exact Hk'.
  - vm_compute. reflexivity.
  - exact only_config_stored.
  - exists cr, cr'. split; [exact Hcr|]. split; [exact Hcr'|].
    assert (cmp_UpdatableFields cr = ["config"; "roleMapping"]) as Hfields.
    { assert (Compare (ResourceObject := AuthDomainObject) (domain_of desired) (Some drifted)
        = Ok (MkCompare ["config"; "roleMapping"] [])) as Heq by (vm_compute; reflexivity).
      rewrite Hcr in Heq. by injection Heq as ->. }
    split; [exact Hfields|]. split.
    + apply Hu. rewrite Hfields. split; [right; left|vm_compute; reflexivity].
    + intros [_ Hn]%Hu. vm_compute in Hn. discriminate Hn.
Defined.

(** ** Lookups and exchanges of auth domains; a client is a string *)

#[export] Instance Domain : ResourceObject (ObjectTemplate string) := AuthDomainObject.

Definition domain_list : string :=
  json_of "{'data':[{'id':'1','name':'y'},{'id':'7','name':'x'}]}".
Definition list_entries : list value :=
  match obj_lookup "data" (members domain_list) with Some (JArr l) => l | _ => [] end.

Lemma desired_identity : Identity (domain_of desired) = Ok "x".
Proof. vm_compute. reflexivity. Qed.

Lemma entries_well_typed : Forall (well_typed "name") list_entries.
Proof. vm_compute. repeat constructor. Qed.

Lemma findByField_exact_witness : exists r w,
  exec (serving (fun p a => p = "/api/v2/auth_domains" /\ exists raw, a = (200%Z, Some raw) /\ list_response raw list_entries))
    (findByField background "c" (domain_of desired) "/api/v2/auth_domains" "name") tt (Ret r) w /\
  r = Ok [Some (MkResource (Some "7"))].
Proof.
  assert (list_response domain_list list_entries) as Hl
    by (exists (members domain_list); split; [split|]; vm_compute; reflexivity).
  assert (exists r w, exec (serving (fun p a => p = "/api/v2/auth_domains" /\ exists raw, a = (200%Z, Some raw) /\ list_response raw list_entries))
    (findByField background "c" (domain_of desired) "/api/v2/auth_domains" "name") tt (Ret r) w) as (r & w & Hex).
  { do 2 eexists. unfold findByField. rewrite desired_identity. right. exists (Ok (200%Z, Some domain_list)), tt.
    split; [split; [reflexivity|eauto 10]|]. apply exec_refl. }
  exists r, w. split; [exact Hex|].
  assert ("x" <> "") as Hne by discriminate.
  rewrite (findByField_exact background "c" (domain_of desired) "/api/v2/auth_domains" "name" "x" list_entries r w
    desired_identity Hne eq_refl entries_well_typed Hex). vm_compute. reflexivity.
Defined.

Definition domain_page : string :=
  json_of "{'data':{'domains':[{'id':'1','name':'y'},{'id':'7','name':'x'}],'total':2}}".

Lemma findByPage_exact_witness : exists r w,
  exec (serving (paging "/api/v2/dashboards" "domains" list_entries))
    (findByPage 2 background "c" (domain_of desired) "/api/v2/dashboards" "domains") tt (Ret r) w /\
  r = Some (Ok [Some (MkResource (Some "7"))]).
Proof.
  assert (paging "/api/v2/dashboards" "domains" list_entries (page_path "/api/v2/dashboards" 0) (200%Z, Some domain_page)) as Hp.
  { exists 0%Z, domain_page, 2%Z. split; [lia|]. split; [reflexivity|]. split; [reflexivity|]. split; [|vm_compute; discriminate].
    do 2 eexists. split; [split; vm_compute; reflexivity|]. repeat split; vm_compute; reflexivity. }
  assert (exists r w, exec (serving (paging "/api/v2/dashboards" "domains" list_entries))
    (findByPage 2 background "c" (domain_of desired) "/api/v2/dashboards" "domains") tt (Ret r) w) as (r & w & Hex).
  { do 2 eexists. unfold findByPage. rewrite desired_identity. cbn [find_pages]. eapply exec_bind.
    - right. exists (Ok (200%Z, Some domain_page)), tt. split; [split; [reflexivity|eauto 10]|]. apply exec_refl.
    - match goal with |- context [find_page ?a ?b ?c ?d ?e] =>
        assert (find_page a b c d e = Ok ([Some (MkResource (Some "7"))], true)) as -> by (vm_compute; reflexivity) end.
      apply exec_refl. }
  exists r, w. split; [exact Hex|].
  assert ("x" <> "") as Hne by discriminate. assert (List.length list_entries / 100 + 2 <= 2) as Hf by (vm_compute; lia).
  rewrite (findByPage_exact 2 background "c" (domain_of desired) "/api/v2/dashboards" "domains" "x" list_entries r w
    desired_identity Hne eq_refl entries_well_typed Hf Hex). vm_compute. reflexivity.
Defined.

(** ** A removal between two pages hides an entry *)

(** A server whose list another client may shorten once a page is out. *)
Definition dwindling (path listKey : string) (X : Type) (l : list value) (e : http string X) : X -> list value -> Prop :=
  match e in http _ X return X -> list value -> Prop with
  | Exchange _ _ method p body => fun x l' => method = MethodGet /\ (exists a, x = Ok a /\ paging path listKey l p a) /\ (l' = l \/ l' = tl l)
  end.

Definition page_body (l : list string) (total : string) : string :=
  json_of ("{'data':{'dashboards':[" ++ Join l "," ++ "],'total':" ++ total ++ "}}").
Definition bystander : string := "{'id':'1','name':'y'}".
Definition entries_of (raw : string) : list value :=
  match obj_lookup "data" (members raw) with
  | Some (JObj d) => match obj_lookup "dashboards" d with Some (JArr l) => l | _ => [] end
  | _ => []
  end.
Definition crowd (n : nat) : list value := entries_of (page_body (repeat bystander n ++ ["{'id':'7','name':'x'}"]) "0").

(** The lookup ends without an error and empty, though an entry of the name was
    there all along: it moved to a page already read. *)
Example removal_hides_an_entry :
  exec (dwindling "/api/v2/dashboards" "dashboards") (findByPage 2 background "c" (domain_of desired) "/api/v2/dashboards" "dashboards")
    (crowd 100) (Ret (Some (Ok []))) (crowd 99) /\
  list_matches "name" "x" (crowd 100) = Ok [Some (MkResource (Some "7"))] /\ list_matches "name" "x" (crowd 99) = Ok [Some (MkResource (Some "7"))].
Proof.
  split; [|by split; vm_compute].
  assert (paging "/api/v2/dashboards" "dashboards" (crowd 100) (page_path "/api/v2/dashboards" 0)
    (200%Z, Some (page_body (repeat bystander 100) "101"))) as H1.
  { exists 0%Z, (page_body (repeat bystander 100) "101"), 101%Z. split; [lia|]. split; [reflexivity|]. split; [reflexivity|].
    split; [|vm_compute; discriminate]. do 2 eexists. split; [split; vm_compute; reflexivity|]. repeat split; vm_compute; reflexivity. }
  assert (paging "/api/v2/dashboards" "dashboards" (crowd 99) (page_path "/api/v2/dashboards" 100)
    (200%Z, Some (page_body [] "100"))) as H2.
  { exists 100%Z, (page_body [] "100"), 100%Z. split; [lia|]. split; [reflexivity|]. split; [reflexivity|].
    split; [|vm_compute; discriminate]. do 2 eexists. split; [split; vm_compute; reflexivity|]. repeat split; vm_compute; reflexivity. }
  assert (tl (crowd 100) = crowd 99) as Htl by (vm_compute; reflexivity).
  unfold findByPage. rewrite desired_identity. cbn [find_pages].
  eapply (exec_step _ _ _ (Ok (200%Z, Some (page_body (repeat bystander 100) "101"))) _ (crowd 99)).
  { split; [reflexivity|]. split; [exact (ex_intro _ _ (conj eq_refl H1))|]. right. symmetry. exact Htl. }
  cbv beta. assert (find_page "dashboards" "x" 0 [] (Ok (200%Z, Some (page_body (repeat bystander 100) "101"))) = Ok ([], false)) as -> by (vm_compute; reflexivity).
  eapply (exec_step _ _ _ (Ok (200%Z, Some (page_body [] "100"))) _ (crowd 99)).
  { split; [reflexivity|]. split; [exact (ex_intro _ _ (conj eq_refl H2))|]. left. exact eq_refl. }
  cbv beta. assert (find_page "dashboards" "x" (0 + findPageLimit) [] (Ok (200%Z, Some (page_body [] "100"))) = Ok ([], true)) as -> by (vm_compute; reflexivity).
  apply exec_refl.
Qed.

Abbreviation net := (http string).

Lemma update_is_one_exchange_witness : exists payload h,
  exec (hist_step (E := net) (@any_answer net)) (commonTransport_Update background "c" (domain_of desired) (Some (MkResource (Some "7"))))
    [] (Ret None) h /\
  h = [Ev (Exchange background "c" "PUT" "/api/v2/auth_domains/7" (Some payload) : net _) (Ok (200%Z, None))].
Proof.
  destruct (ToUpdate (domain_of desired)) as [[payload|]|] eqn:Hu; [|vm_compute in Hu; discriminate..].
  assert (exec (hist_step (E := net) (@any_answer net))
    (commonTransport_Update background "c" (domain_of desired) (Some (MkResource (Some "7")))) [] (Ret None)
    [Ev (Exchange background "c" "PUT" "/api/v2/auth_domains/7" (Some payload) : net _) (Ok (200%Z, None))]) as Hex.
  { unfold commonTransport_Update. rewrite Hu. right. exists (Ok (200%Z, None)). eexists. split; [split; reflexivity|].
    apply exec_refl. }
  exists payload. eexists. split; [exact Hex|].
  pose proof (update_is_one_exchange background "c" (domain_of desired) (Some (MkResource (Some "7"))) None _ Hex) as Hx.
  rewrite Hu in Hx. destruct Hx as (x & _ & _). reflexivity.
Defined.

Lemma create_names_the_object_witness : exists r h,
  exec (hist_step (E := net) (@any_answer net)) (commonTransport_Create background "c" (domain_of desired)) [] (Ret (Ok r)) h /\
  is_ok (GetIDFromSigNozResource r) = true.
Proof.
  assert (exists r h, exec (hist_step (E := net) (@any_answer net))
    (commonTransport_Create background "c" (domain_of desired)) [] (Ret (Ok r)) h) as (r & h & Hex).
  { exists (Some (MkResource (Some "7"))). eexists. unfold commonTransport_Create.
    assert (Body (domain_of desired) = Ok desired) as -> by (vm_compute; reflexivity).
    right. exists (Ok (201%Z, Some remote)). eexists. split; [split; reflexivity|].
    match goal with |- exec _ ?p _ _ _ => assert (p = Ret (Ok (Some (MkResource (Some "7"))))) as -> by (vm_compute; reflexivity) end.
    apply exec_refl. }
  exists r, h. split; [exact Hex|].
  exact (proj1 (create_names_the_object "/api/v2/auth_domains" "name" updatable ["name"] background "c" (domain_of desired) r h Hex)).
Defined.
