(* ===== verification/HttpApi.v ===== *)
(** * The SigNoz HTTP API a kind lives behind

    A SigNoz server is a parameter: how it answers an exchange, and what its API
    promises of the list of one kind's entries.  The ten kinds with their
    adapters. *)

From S2P Require Import Prelude GoStd Json Libraries Errors Kube Core JsonBody JsonBodySpec Effects Interfaces Objects Adapters AdaptersSpec.
From Stdlib Require Import String.

Local Open Scope string_scope.
Local Open Scope list_scope.

Section HttpApi.
Context `{GJ : Gjson} `{CMP : GoCmp} `{JE : JsonErrors} `{CF : CaseFolding}.
Context {S SigNoz : Type} `{SM : SpecMarshaler S}.

Abbreviation object := (Object (ObjectTemplate S)).
Abbreviation net := (http SigNoz).
Abbreviation resource := (option SigNozResource).

(** ** The kinds and their lookups *)

(** How a kind is listed and matched: the collection in one response, or in pages
    under a key; users in one response, matched up to the case of the email;
    saved views asked for by name. *)
Inductive listing :=
  | Collection (field : string)
  | Paged (listKey : string)
  | UserList
  | SavedViewList.

Record mirror := MkMirror {
  mirror_object : ResourceObject (ObjectTemplate S);
  mirror_path : string;
  mirror_identity : string;
  mirror_listing : listing;
  (** With fuel for the pages; [None] when it was not enough. *)
  mirror_Find : nat -> Context -> SigNoz -> object -> prog net (option (result (list resource) error));
}.

Definition all_at_once (find : Context -> SigNoz -> object -> prog net (result (list resource) error))
    (fuel : nat) (ctx : Context) (c : SigNoz) (o : object) : prog net (option (result (list resource) error)) :=
  r ← find ctx c o; mret (Some r).

Definition mirrors : list mirror := [
  MkMirror AuthDomainObject "/api/v2/auth_domains" "name" (Collection "name")
    (all_at_once (AuthDomainAdapter_Find (RO := AuthDomainObject)));
  MkMirror DashboardObject "/api/v2/dashboards" "name" (Paged "dashboards")
    (DashboardAdapter_Find (RO := DashboardObject));
  MkMirror NotificationChannelObject "/api/v2/notification_channels" "name" (Paged "channels")
    (NotificationChannelAdapter_Find (RO := NotificationChannelObject));
  MkMirror PlannedMaintenanceObject "/api/v1/downtime_schedules" "name" (Collection "name")
    (all_at_once (PlannedMaintenanceAdapter_Find (RO := PlannedMaintenanceObject)));
  MkMirror RoleObject "/api/v1/roles" "name" (Collection "name")
    (all_at_once (RoleAdapter_Find (RO := RoleObject)));
  MkMirror RoutePolicyObject "/api/v1/route_policies" "name" (Collection "name")
    (all_at_once (RoutePolicyAdapter_Find (RO := RoutePolicyObject)));
  MkMirror RuleObject "/api/v2/rules" "alert" (Collection "alert")
    (all_at_once (RuleAdapter_Find (RO := RuleObject)));
  MkMirror SavedViewObject "/api/v2/saved_views" "name" SavedViewList
    (all_at_once (SavedViewAdapter_Find (RO := SavedViewObject)));
  MkMirror ServiceAccountObject "/api/v1/service_accounts" "name" (Collection "name")
    (all_at_once (ServiceAccountAdapter_Find (RO := ServiceAccountObject)));
  MkMirror UserObject "/api/v2/users" "email" UserList
    (all_at_once (UserAdapter_Find (RO := UserObject)))].

(** ** The entries of a kind *)

(** Entries are what SigNoz lists: JSON objects with an id. *)
Abbreviation entries := (list value).

Definition id_of_entry (v : value) : string := text_of "id" v.

(** The field an entry is matched by. *)
Definition matched_field (st : listing) : string :=
  match st with Collection field => field | Paged _ | SavedViewList => "name" | UserList => "email" end.

(** The entry is one of this identity. *)
Definition mine (st : listing) (identity : string) (v : value) : bool :=
  match st with
  | UserList => EqualFold (text_of "email" v) identity
  | _ => bool_decide (text_of (matched_field st) v = identity)
  end.

(** What a server holds: typed entries with ids of their own. *)
Definition listed (st : listing) (s : entries) : Prop :=
  Forall (well_typed (matched_field st)) s /\ Forall (fun v => id_of_entry v <> "") s /\ NoDup (id_of_entry <$> s).

(** The list of structs a body decodes to. *)
Definition structs_response (field raw : string) (s : entries) : Prop :=
  Exists (GetBytes raw "data") = true /\
  UnmarshalStructs "id" field (Raw (GetBytes raw "data")) = Some ((fun v => (id_of_entry v, text_of field v)) <$> s).

(** A GET of a list: the whole of it, a page of it, or at least the saved views of
    the name asked for. *)
Definition lists (st : listing) (collection : string) (s : entries) (path : string) (body : option string) : Prop :=
  match st with
  | Collection _ => path = collection -> exists raw, body = Some raw /\ list_response raw s
  | Paged listKey => forall offset, (0 <= offset)%Z -> path = page_path collection offset ->
      exists raw total, body = Some raw /\ page_response listKey raw (page_at s offset) total /\
        (Z.of_nat (List.length s) <= total)%Z
  | UserList => path = collection -> exists raw, body = Some raw /\ structs_response "email" raw s
  | SavedViewList => forall name, path = (collection ++ "?name=" ++ QueryEscape name)%string ->
      exists raw (keep : value -> bool), body = Some raw /\
        structs_response "name" raw (filter (fun v => keep v = true) s) /\
        forall v, v ∈ s -> text_of "name" v = name -> keep v = true
  end.

(** ** What the API promises *)

(** A server: how it answers an exchange, and what it then holds of a kind. *)
Class SigNozServer := server : forall X, entries -> net X -> X -> entries -> Prop.

(** A server that others use as well, in the ways [G], between any two exchanges. *)
Definition busy `{SV : SigNozServer} (G : entries -> entries -> Prop) (X : Type) (s : entries) (e : net X) (x : X) (s' : entries) : Prop :=
  exists s1, G s s1 /\ server X s1 e x s'.

(** What others may do between the pages of a lookup: the entries of the identity
    stay where they are in the list. *)
Definition steady (st : listing) (identity : string) (s s' : entries) : Prop :=
  (listed st s -> listed st s') /\
  forall i v, mine st identity v = true -> (s !! i = Some v <-> s' !! i = Some v).

Definition not_found (x : result (Z * option string) error) : Prop :=
  exists e, success x = Err e /\ IsNotFound (Some e) = true.

(** A payload that was marshalled from an object with this identity, or with none. *)
Definition keeps_identity (field identity payload : string) : Prop :=
  exists m, json_Marshal (JObj m) = Ok payload /\ (obj_lookup field m = None \/ obj_lookup field m = Some (JStr identity)).

Section Laws.
Context `{SV : SigNozServer} (K : mirror).

Let st := mirror_listing K.
Let item (id : string) : string := (mirror_path K ++ "/" ++ id)%string.

(** Ids stay distinct.  Lists are complete; a failed read or delete says not found
    only of an id that is not there; a create adds one entry of the identity that
    was sent, answers with its id, and has created nothing when it fails in a way
    that does not call for a retry; an update changes the entry of its id, and
    leaves it the identity that was sent; a delete removes the entry of its id. *)
Class SigNozServerLaws := {
  api_listed : forall X s (e : net X) x s', server X s e x s' -> listed st s -> listed st s';
  api_list : forall s ctx c path x s' body, server _ s (Exchange ctx c MethodGet path None) x s' ->
    success x = Ok body -> lists st (mirror_path K) s path body;
  api_get : forall s ctx c path x s', server _ s (Exchange ctx c MethodGet path None) x s' ->
    s' = s /\ forall id, path = item id -> not_found x -> id ∉ id_of_entry <$> s;
  api_create : forall s ctx c body x s', server _ s (Exchange ctx c "POST" (mirror_path K) (Some body)) x s' ->
    s' = s /\ is_ok (success x) = false \/
    exists v, s' ≡ₚ v :: s /\
      (forall identity, ExtractString body (mirror_identity K) = Ok identity -> mine st identity v = true) /\
      match success x with
      | Ok answer => ExtractString (raw_of answer) "data.id" = Ok (id_of_entry v)
      | Err e => IsRetryable (Some e) = true
      end;
  api_update : forall s ctx c id payload x s', server _ s (Exchange ctx c "PUT" (item id) (Some payload)) x s' ->
    Forall2 (fun v v' => id_of_entry v' = id_of_entry v /\ (id_of_entry v <> id -> v' = v) /\
      forall identity, keeps_identity (mirror_identity K) identity payload -> mine st identity v = true -> mine st identity v' = true) s s';
  api_delete : forall s ctx c id x s', server _ s (Exchange ctx c "DELETE" (item id) None) x s' ->
    s' = filter (fun v => id_of_entry v <> id) s /\ ~ not_found x \/
    s' = s /\ is_ok (success x) = false /\ (not_found x -> id ∉ id_of_entry <$> s);
}.
End Laws.
End HttpApi.
