(* ===== verification/HttpApiSpec.v ===== *)
(** * Every lookup finds what SigNoz holds of an identity

    The Find of each of the ten adapters, against any server that keeps the
    promises of HttpApi.v. *)

From S2P Require Import Prelude GoStd Json Libraries Errors Kube Core JsonBody JsonBodySpec Effects Interfaces Objects Adapters AdaptersSpec Protocol HttpApi.
From Stdlib Require Import String.

Local Open Scope string_scope.
Local Open Scope list_scope.

Section HttpApiSpec.
Context `{GJL : GjsonLaws} `{CMP : GoCmp} `{JE : JsonErrors} `{CF : CaseFolding}.
Context {S SigNoz : Type} `{SM : SpecMarshaler S} `{SV : SigNozServer (SigNoz := SigNoz)}.

Abbreviation object := (Object (ObjectTemplate S)).
Abbreviation mirror := (HttpApi.mirror (S := S) (SigNoz := SigNoz)).
Abbreviation resource := (option SigNozResource).

(** The ids of the entries of an identity. *)
Definition my_ids (st : listing) (identity : string) (s : list value) : list string :=
  id_of_entry <$> filter (fun v => mine st identity v = true) s.
Definition held_ids (st : listing) (identity : string) (s : list value) : gset string := list_to_set (my_ids st identity s).

Lemma elem_of_my_ids st identity s id :
  id ∈ my_ids st identity s <-> exists v, v ∈ s /\ mine st identity v = true /\ id = id_of_entry v.
Proof. unfold my_ids. rewrite list_elem_of_fmap. setoid_rewrite list_elem_of_filter. naive_solver. Qed.

Lemma my_ids_distinct st identity s : listed st s -> NoDup (my_ids st identity s).
Proof.
  intros (_ & _ & Hnd). eapply sublist_NoDup; [exact Hnd|]. apply fmap_sublist, sublist_filter.
Qed.

Lemma held_ids_elements st identity s : listed st s -> elements (held_ids st identity s) ≡ₚ my_ids st identity s.
Proof. intros Hs. apply elements_list_to_set. by apply my_ids_distinct. Qed.

(** ** One response, read *)

Lemma list_matches_mine field identity s :
  Forall (fun v => id_of_entry v <> "") s ->
  list_matches field identity s
  = Ok ((fun v => named_by (id_of_entry v)) <$> filter (fun v => text_of field v = identity) s).
Proof.
  intros Hs. unfold list_matches. rewrite decide_True; [done|].
  rewrite Forall_forall in *. intros v [_ Hv]%list_elem_of_filter. by apply Hs.
Qed.

Lemma filter_mine st identity (s : list value) : st <> UserList ->
  filter (fun v => text_of (matched_field st) v = identity) s = filter (fun v => mine st identity v = true) s.
Proof.
  intros Hst. apply list_filter_iff. intros v. by destruct st; cbn [mine]; rewrite ?bool_decide_eq_true.
Qed.

Lemma filter_fmap {A B} (f : A -> B) (P : B -> bool) (l : list A) :
  filter (fun b => P b = true) (f <$> l) = f <$> filter (fun a => P (f a) = true) l.
Proof. induction l as [|a l IH]; [done|]. rewrite fmap_cons, !filter_cons, IH. by destruct (decide _). Qed.

Lemma filter_kept {A} (P keep : A -> bool) (l : list A) : (forall a, a ∈ l -> P a = true -> keep a = true) ->
  filter (fun a => P a = true) (filter (fun a => keep a = true) l) = filter (fun a => P a = true) l.
Proof.
  induction l as [|a l IH]; intros Hk; [done|]. rewrite !filter_cons.
  assert (forall b, b ∈ l -> P b = true -> keep b = true) as Hl by (intros; apply Hk; [by right|done]).
  destruct (decide (P a = true)) as [HP|HP].
  - rewrite (decide_True (P := keep a = true)) by (apply Hk; [by left|done]).
    rewrite filter_cons, decide_True by done. by rewrite IH.
  - destruct (decide (keep a = true)); [rewrite filter_cons, decide_False by done|]; by apply IH.
Qed.

(** The structs a body decodes to, those of the identity picked. *)
Lemma find_structs_mine field message accepts raw s found :
  structs_response field raw s -> find_structs field message accepts (Some raw) = Ok found ->
  found = (fun v => named_by (id_of_entry v)) <$> filter (fun v => accepts (text_of field v) = true) s.
Proof.
  intros [He Hu]. unfold find_structs. change (raw_of (Some raw)) with raw. cbv zeta. rewrite He, Hu. intros [= <-].
  by rewrite (filter_fmap _ (fun e => accepts e.2)), <- list_fmap_compose.
Qed.

(** ** The lookups *)

(** What a lookup of the identity over the entries may return. *)
Definition finds (st : listing) (identity : string) (s : list value) (r : result (list resource) error) : Prop :=
  match r with Ok found => found = named_by <$> my_ids st identity s | Err _ => True end.

(** *** Others at work *)

#[export] Instance steady_preorder st identity : PreOrder (steady st identity).
Proof.
  split; [by intros s|]. intros a b c [H1 H2] [H3 H4]. split; [auto|]. intros i v Hv. by rewrite (H2 i v Hv), (H4 i v Hv).
Qed.

Lemma filter_stays {A} (P : A -> bool) (s s' : list A) :
  (forall i v, P v = true -> (s !! i = Some v <-> s' !! i = Some v)) ->
  filter (fun v => P v = true) s = filter (fun v => P v = true) s'.
Proof.
  assert (forall l : list A, (forall i v, P v = true -> l !! i <> Some v) -> filter (fun v => P v = true) l = []) as Hnone.
  { intros l Hl. induction l as [|a l IH]; [done|]. rewrite filter_cons, decide_False by (intros Ha; by apply (Hl 0%nat a Ha)).
    apply IH. intros i. apply (Hl (Datatypes.S i)). }
  revert s'. induction s as [|a s IH]; intros s' Hst.
  - symmetry. apply Hnone. intros i v Hv Hi. by apply (Hst i v Hv) in Hi.
  - destruct s' as [|b s']; [apply Hnone; intros i v Hv Hi; by apply (Hst i v Hv) in Hi|].
    rewrite !filter_cons, (IH s') by (intros i; apply (Hst (Datatypes.S i))). destruct (decide (P a = true)) as [Ha|Ha].
    + pose proof (proj1 (Hst 0%nat a Ha) eq_refl) as [= ->]. by rewrite decide_True.
    + destruct (decide (P b = true)) as [Hb|Hb]; [|done]. by pose proof (proj2 (Hst 0%nat b Hb) eq_refl) as [= ->].
Qed.

Lemma steady_drop st identity (s s' : list value) n : steady st identity s s' ->
  filter (fun v => mine st identity v = true) (drop n s) = filter (fun v => mine st identity v = true) (drop n s').
Proof. intros [_ Hst]. apply filter_stays. intros i v Hv. rewrite !lookup_drop. by apply Hst. Qed.

Lemma steady_my_ids st identity (s s' : list value) : steady st identity s s' -> my_ids st identity s' = my_ids st identity s.
Proof. intros Hst. unfold my_ids. by rewrite (steady_drop _ _ _ _ 0 Hst : filter _ s = filter _ s'). Qed.

Lemma get_exec {A} G ctx (c : SigNoz) path (f : result (Z * option string) error -> A) s r s' :
  exec (busy G) (x ← trigger (Exchange ctx c MethodGet path None); mret (f x)) s (Ret r) s' ->
  exists x s1, G s s1 /\ server _ s1 (Exchange ctx c MethodGet path None) x s' /\ r = f x.
Proof.
  intros (x & s1 & (s2 & HG & Hx)%exec_trigger_inv & [-> ->]%exec_ret_inv)%exec_bind_inv. by exists x, s2.
Qed.

Section Kind.
Context (K : mirror) {laws : SigNozServerLaws K} (identity : string) (Hne : identity <> "").
Context (G : list value -> list value -> Prop) (HG : forall s s', G s s' -> steady (mirror_listing K) identity s s').

(** A lookup of one response sees the list after what others did. *)
Lemma one_response {A} ctx (c : SigNoz) path (f : result (Z * option string) error -> A) s r s' : listed (mirror_listing K) s ->
  exec (busy G) (x ← trigger (Exchange ctx c MethodGet path None); mret (f x)) s (Ret r) s' ->
  rtc G s s' /\ my_ids (mirror_listing K) identity s' = my_ids (mirror_listing K) identity s /\
  listed (mirror_listing K) s' /\ exists x, r = f x /\
    forall body, success x = Ok body -> lists (mirror_listing K) (mirror_path K) s' path body.
Proof.
  intros Hs (x & s1 & H1 & Hx & ->)%get_exec. destruct (api_get K s1 ctx c _ x s' Hx) as [-> _].
  split; [by apply rtc_once|]. split; [by apply steady_my_ids, HG|]. split; [by apply (HG _ _ H1)|].
  exists x. split; [done|]. intros body. by apply (api_list K _ _ _ _ _ _ _ Hx).
Qed.

Lemma collection_finds field ctx c (o : object) s r s' `{RO : ResourceObject (ObjectTemplate S)} :
  mirror_listing K = Collection field -> plain_key field = true -> Identity o = Ok identity ->
  listed (Collection field) s ->
  exec (busy G) (findByField ctx c o (mirror_path K) field) s (Ret r) s' ->
  rtc G s s' /\ finds (Collection field) identity s r.
Proof.
  intros Hst Hf Hid Hs. unfold findByField. rewrite Hid.
  intros (Hrtc & Hmine & (Hty & Hids & _) & x & -> & Hl)%one_response; rewrite Hst in *; [|done]. split; [done|].
  destruct (success x) as [body|e]; [|done]. destruct (Hl body eq_refl eq_refl) as (raw & -> & Hraw).
  change (raw_of (Some raw)) with raw. rewrite (list_response_found _ _ _ _ Hf Hne Hty Hraw), list_matches_mine by done.
  cbn [finds]. rewrite <- Hmine. unfold my_ids. rewrite <- list_fmap_compose. by rewrite <- (filter_mine (Collection field)).
Qed.

(** The walk over the pages, from one on. *)
Lemma pages_find listKey fuel ctx c offset matches s r s' :
  mirror_listing K = Paged listKey -> plain_key listKey = true -> listed (Paged listKey) s -> (0 <= offset)%Z ->
  exec (busy G) (find_pages fuel ctx c (mirror_path K) listKey identity offset matches) s (Ret (Some r)) s' ->
  rtc G s s' /\ match r with
            | Ok found => found = matches ++
                ((fun v => named_by (id_of_entry v)) <$> filter (fun v => mine (Paged listKey) identity v = true) (drop (Z.to_nat offset) s))
            | Err _ => True
            end.
Proof.
  intros Hst Hk. revert offset matches s. induction fuel as [|fuel IH]; intros offset matches s Hs Ho; cbn [find_pages]; [by intros [? _]%exec_ret_inv|].
  intros (x & s2 & (s1 & H1 & Hx)%exec_trigger_inv & Hex)%exec_bind_inv. destruct (api_get K s1 ctx c _ x s2 Hx) as [-> _].
  pose proof (HG _ _ H1) as Hsteady. rewrite Hst in Hsteady. pose proof (proj1 Hsteady Hs) as Hs1.
  rewrite (steady_drop _ _ _ _ (Z.to_nat offset) Hsteady). apply (rtc_once (R := G)) in H1.
  destruct (success x) as [body|e] eqn:Hok; [|unfold find_page in Hex; rewrite Hok in Hex; by apply exec_ret_inv in Hex as [[= ->] ->]].
  pose proof (api_list K _ _ _ _ _ _ _ Hx Hok) as Hl. rewrite Hst in Hl.
  destruct (Hl offset Ho eq_refl) as (raw & total & -> & Hpage & Htotal). pose proof Hs1 as (Hty & Hids & _).
  rewrite (find_page_read _ _ s1 _ _ _ _ _ Hk Hne Hty Hok Hpage) in Hex. rewrite (page_split s1 offset Ho), filter_app, fmap_app.
  rewrite list_matches_mine, (filter_mine (Paged listKey)) in Hex by (done || by apply Forall_take, Forall_drop).
  cbv zeta in Hex. destruct (_ || _) eqn:Hlast in Hex.
  - apply exec_ret_inv in Hex as [[= ->] ->]. split; [done|].
    assert (drop (Z.to_nat (offset + findPageLimit)) s1 = []) as ->; [|by rewrite filter_nil, app_nil_r].
    unfold page_at in Hlast. rewrite length_take, length_drop in Hlast.
    apply drop_ge. unfold findPageLimit. apply orb_true_iff in Hlast as [Hn%bool_decide_eq_true|Hn%bool_decide_eq_true]; lia.
  - apply IH in Hex as [Hrtc Hex]; [|done|unfold findPageLimit; lia]. split; [by etrans|]. destruct r as [res|e]; [|done].
    by rewrite Hex, app_assoc.
Qed.

Lemma paged_finds listKey fuel ctx c (o : object) s r s' `{RO : ResourceObject (ObjectTemplate S)} :
  mirror_listing K = Paged listKey -> plain_key listKey = true -> Identity o = Ok identity ->
  listed (Paged listKey) s ->
  exec (busy G) (findByPage fuel ctx c o (mirror_path K) listKey) s (Ret (Some r)) s' ->
  rtc G s s' /\ finds (Paged listKey) identity s r.
Proof.
  intros Hst Hk Hid Hs. unfold findByPage. rewrite Hid.
  intros [Hrtc Hr]%(pages_find listKey); [|done..]. split; [done|]. destruct r as [found|e]; [|done]. rewrite Hr.
  cbn [finds app]. unfold my_ids. by rewrite <- list_fmap_compose.
Qed.

Lemma users_find ctx c (o : object) s r s' `{RO : ResourceObject (ObjectTemplate S)} :
  mirror_listing K = UserList -> mirror_path K = "/api/v2/users" -> Identity o = Ok identity -> listed UserList s ->
  exec (busy G) (UserAdapter_Find ctx c o) s (Ret r) s' -> rtc G s s' /\ finds UserList identity s r.
Proof.
  intros Hst Hp Hid Hs. unfold UserAdapter_Find. rewrite Hid.
  intros (Hrtc & Hmine & _ & x & -> & Hl)%one_response; rewrite Hst in *; [|done]. split; [done|].
  destruct (success x) as [body|e]; [|done]. rewrite Hp in Hl. destruct (Hl body eq_refl eq_refl) as (raw & -> & Hraw).
  destruct (find_structs _ _ _ _) as [found|e] eqn:Hf; [|done].
  rewrite (find_structs_mine _ _ _ _ _ _ Hraw Hf). cbn [finds]. rewrite <- Hmine. unfold my_ids. by rewrite <- list_fmap_compose.
Qed.

Lemma saved_views_find ctx c (o : object) s r s' `{RO : ResourceObject (ObjectTemplate S)} :
  mirror_listing K = SavedViewList -> mirror_path K = "/api/v2/saved_views" -> Identity o = Ok identity -> listed SavedViewList s ->
  exec (busy G) (SavedViewAdapter_Find ctx c o) s (Ret r) s' -> rtc G s s' /\ finds SavedViewList identity s r.
Proof.
  intros Hst Hp Hid Hs. unfold SavedViewAdapter_Find. rewrite Hid.
  intros (Hrtc & Hmine & _ & x & -> & Hl)%one_response; rewrite Hst in *; [|done]. split; [done|].
  destruct (success x) as [body|e]; [|done]. rewrite Hp in Hl.
  destruct (Hl body eq_refl identity eq_refl) as (raw & keep & -> & Hraw & Hkeep).
  destruct (find_structs _ _ _ _) as [found|e] eqn:Hf; [|done].
  rewrite (find_structs_mine _ _ _ _ _ _ Hraw Hf). cbn [finds]. rewrite <- Hmine. unfold my_ids. rewrite <- list_fmap_compose. cbn [mine matched_field].
  rewrite (filter_kept (fun v => bool_decide (text_of "name" v = identity)) keep); [done|].
  intros v Hv Hn%bool_decide_eq_true. by apply Hkeep.
Qed.
End Kind.

(** ** The ten kinds *)

Lemma all_at_once_exec (step : forall X, list value -> http SigNoz X -> X -> list value -> Prop) find fuel ctx c (o : object) s (r : result (list resource) error) s' :
  exec step (all_at_once find fuel ctx c o) s (Ret (Some r)) s' -> exec step (find ctx c o) s (Ret r) s'.
Proof. intros (r' & s1 & Hex & [[= ->] ->]%exec_ret_inv)%exec_bind_inv. exact Hex. Qed.

(** A kind as the system needs it: its paths and plain field names, and a lookup
    that finds its own, whatever steady things others do meanwhile. *)
Class well_mirrored (K : mirror) : Prop := {
  mirrored_object : exists upd imm, mirror_object K = object_of (mirror_path K) (mirror_identity K) upd imm /\
    Forall (fun k => plain_key k = true) (mirror_identity K :: upd);
  mirrored_find : SigNozServerLaws K -> forall G fuel ctx c (o : object) identity s r s',
    Identity (ResourceObject := mirror_object K) o = Ok identity -> identity <> "" -> listed (mirror_listing K) s ->
    (forall s s', G s s' -> steady (mirror_listing K) identity s s') ->
    exec (busy G) (mirror_Find K fuel ctx c o) s (Ret (Some r)) s' -> rtc G s s' /\ finds (mirror_listing K) identity s r;
}.

Lemma collection_well_mirrored cp ip upd imm field :
  Forall (fun k => plain_key k = true) (ip :: upd) -> plain_key field = true ->
  well_mirrored (MkMirror (object_of cp ip upd imm) cp ip (Collection field)
    (all_at_once (fun ctx c o => findByField (RO := object_of cp ip upd imm) ctx c o cp field))).
Proof.
  intros Hp Hf. split; [by exists upd, imm|]. intros laws G fuel ctx c o identity s r s' Hid Hne Hs HG Hex%(all_at_once_exec _ _ fuel).
  by apply (collection_finds _ (laws := laws) identity Hne G HG field ctx c o s r s') in Hex.
Qed.

Lemma paged_well_mirrored cp ip upd imm listKey :
  Forall (fun k => plain_key k = true) (ip :: upd) -> plain_key listKey = true ->
  well_mirrored (MkMirror (object_of cp ip upd imm) cp ip (Paged listKey)
    (fun fuel ctx c o => findByPage (RO := object_of cp ip upd imm) fuel ctx c o cp listKey)).
Proof.
  intros Hp Hf. split; [by exists upd, imm|]. intros laws G fuel ctx c o identity s r s' Hid Hne Hs HG Hex.
  by apply (paged_finds _ (laws := laws) identity Hne G HG listKey fuel ctx c o s r s') in Hex.
Qed.

Lemma mirrors_well_mirrored : Forall well_mirrored mirrors.
Proof.
  unfold mirrors. repeat apply Forall_cons_2; [..|by apply Forall_nil_2].
  all: try (apply collection_well_mirrored; [by repeat constructor|done]).
  all: try (apply paged_well_mirrored; [by repeat constructor|done]).
  all: split; [do 2 eexists; split; [reflexivity|by repeat constructor]|].
  all: intros laws G fuel ctx c o identity s r s' Hid Hne Hs HG Hex%(all_at_once_exec _ _ fuel).
  - by apply (saved_views_find _ (laws := laws) identity G HG ctx c o s r s') in Hex.
  - by apply (users_find _ (laws := laws) identity G HG ctx c o s r s') in Hex.
Qed.
End HttpApiSpec.
