(* ===== verification/HttpServing.v ===== *)
(** * A SigNoz that serves

    When SigNoz is up and takes what the custom resource asks for, every lookup
    and every call of an adapter can be answered, with a success or with not
    found of what is not there. *)

From S2P Require Import Prelude GoStd Json JsonParse JsonPrint Libraries Errors Kube Core JsonBody JsonBodySpec Effects Interfaces Reconciler Objects ObjectsSpec Adapters AdaptersSpec Protocol HttpApi HttpApiSpec.
From Stdlib Require Import String.

Local Open Scope string_scope.
Local Open Scope list_scope.

Section HttpServing.
Context `{GJL : GjsonLaws} `{CMP : GoCmp} `{JE : JsonErrors} `{CF : CaseFolding}.
Context {S SigNoz : Type} `{SM : SpecMarshaler S} `{SV : SigNozServer (SigNoz := SigNoz)}.
(** The bodies SigNoz takes, and the entries it can show. *)
Context (accepts : string -> Prop) (shows : list value -> Prop).

Abbreviation object := (Object (ObjectTemplate S)).
Abbreviation mirror := (HttpApi.mirror (S := S) (SigNoz := SigNoz)).
Abbreviation resource := (option SigNozResource).

(** The paths a lookup of a kind asks for. *)
Definition list_path (st : listing) (collection path : string) : Prop :=
  match st with
  | Collection _ | UserList => path = collection
  | Paged _ => exists offset, (0 <= offset)%Z /\ path = page_path collection offset
  | SavedViewList => exists name, path = (collection ++ "?name=" ++ QueryEscape name)%string
  end.

Section Serves.
Context (K : mirror).

Let st := mirror_listing K.
Let item (id : string) : string := (mirror_path K ++ "/" ++ id)%string.

(** Lists and items are answered, an accepted body creates where the identity is
    free, an accepted payload updates what is there, and a delete removes it or
    says that it is gone. *)
Class SigNozServes : Prop := {
  serves_on : forall X s (e : http SigNoz X) x s', server X s e x s' -> shows s -> shows s';
  serves_list : forall s ctx c path, listed st s -> shows s -> list_path st (mirror_path K) path ->
    exists x s', server _ s (Exchange ctx c MethodGet path None) x s' /\ is_ok (success x) = true;
  serves_get : forall s ctx c id, listed st s -> shows s -> id <> "" ->
    exists x s', server _ s (Exchange ctx c MethodGet (item id) None) x s' /\
      (is_ok (success x) = true \/ not_found x) /\ (id ∉ id_of_entry <$> s -> not_found x);
  serves_create : forall s ctx c body identity, listed st s -> shows s -> accepts body ->
    ExtractString body (mirror_identity K) = Ok identity -> my_ids st identity s = [] ->
    exists x s', server _ s (Exchange ctx c "POST" (mirror_path K) (Some body)) x s' /\ is_ok (success x) = true;
  serves_update : forall s ctx c id payload, listed st s -> shows s -> accepts payload -> id ∈ id_of_entry <$> s ->
    exists x s', server _ s (Exchange ctx c "PUT" (item id) (Some payload)) x s' /\ is_ok (success x) = true;
  serves_delete : forall s ctx c id, listed st s -> shows s -> id <> "" ->
    exists x s', server _ s (Exchange ctx c "DELETE" (item id) None) x s' /\ (is_ok (success x) = true \/ not_found x);
}.
End Serves.

(** ** Lookups *)

Lemma exchange_answered {A} ctx c method path body (f : result (Z * option string) error -> A) a s x s' :
  server _ s (Exchange ctx c method path body) x s' -> f x = a ->
  exec server (x ← trigger (Exchange ctx c method path body); mret (f x)) s (Ret a) s'.
Proof. intros Hx <-. eapply exec_step; [exact Hx|apply exec_refl]. Qed.

Section Kind.
Context (K : mirror) {laws : SigNozServerLaws K} {up : SigNozServes K}.

Lemma list_answered ctx c path s :
  listed (mirror_listing K) s -> shows s -> list_path (mirror_listing K) (mirror_path K) path ->
  exists x body, server _ s (Exchange ctx c MethodGet path None) x s /\ success x = Ok body /\
    lists (mirror_listing K) (mirror_path K) s path body.
Proof.
  intros Hs Hok Hp. destruct (serves_list K s ctx c path Hs Hok Hp) as (x & s' & Hx & [body Hb]%is_ok_true).
  destruct (api_get K _ _ _ _ _ _ Hx) as [-> _]. exists x, body. split; [done|]. split; [done|]. by eapply (api_list K).
Qed.

Lemma collection_found field ctx c (o : object) identity s `{RO : ResourceObject (ObjectTemplate S)} :
  mirror_listing K = Collection field -> plain_key field = true -> Identity o = Ok identity -> identity <> "" ->
  listed (Collection field) s -> shows s ->
  exists found, exec server (findByField ctx c o (mirror_path K) field) s (Ret (Ok found)) s.
Proof.
  intros Hst Hf Hid Hne Hs Hok. destruct (list_answered ctx c (mirror_path K) s) as (x & body & Hx & Hb & Hl); rewrite ?Hst; [done..|].
  rewrite Hst in Hl. destruct (Hl eq_refl) as (raw & -> & Hraw). destruct Hs as (Hty & Hids & _).
  unfold findByField. rewrite Hid. eexists. eapply exchange_answered; [exact Hx|]. cbv beta. rewrite Hb.
  change (raw_of (Some raw)) with raw. rewrite (list_response_found _ _ _ _ Hf Hne Hty Hraw). by apply list_matches_mine.
Qed.

(** The walk over the pages ends: past the end the page is empty. *)
Lemma pages_found listKey identity n ctx c offset matches s :
  mirror_listing K = Paged listKey -> plain_key listKey = true -> identity <> "" -> listed (Paged listKey) s -> shows s ->
  (0 <= offset)%Z -> (List.length s - Z.to_nat offset <= n)%nat ->
  exists fuel found, exec server (find_pages fuel ctx c (mirror_path K) listKey identity offset matches) s (Ret (Some (Ok found))) s.
Proof.
  intros Hst Hk Hne Hs Hok. revert offset matches. induction n as [n IH] using lt_wf_ind. intros offset matches Ho Hn.
  destruct (list_answered ctx c (page_path (mirror_path K) offset) s) as (x & body & Hx & Hb & Hl); [by rewrite Hst|done| |].
  { rewrite Hst. by exists offset. }
  rewrite Hst in Hl. destruct (Hl offset Ho eq_refl) as (raw & total & -> & Hpage & Htotal).
  pose proof (find_page_read _ _ s offset matches x _ _ Hk Hne (proj1 Hs) Hb Hpage) as Hread.
  rewrite list_matches_mine in Hread by (apply Forall_take, Forall_drop, Hs). cbv zeta in Hread.
  destruct (_ || _) eqn:Hlast in Hread.
  - exists 1%nat. eexists. cbn [find_pages]. eapply exec_step; [exact Hx|]. cbv beta. rewrite Hread. apply exec_refl.
  - apply orb_false_iff in Hlast as [Hpos%bool_decide_eq_false _].
    unfold page_at in Hpos. rewrite length_take, length_drop in Hpos.
    destruct (IH (List.length s - Z.to_nat (offset + findPageLimit))%nat) with (offset := (offset + findPageLimit)%Z)
      (matches := matches ++ ((fun v => named_by (id_of_entry v)) <$> filter (fun v => text_of "name" v = identity) (page_at s offset)))
      as (fuel & found & Hex); [unfold findPageLimit in *; lia..|].
    exists (Datatypes.S fuel), found. cbn [find_pages]. eapply exec_step; [exact Hx|]. cbv beta. rewrite Hread. exact Hex.
Qed.

Lemma paged_found listKey ctx c (o : object) identity s `{RO : ResourceObject (ObjectTemplate S)} :
  mirror_listing K = Paged listKey -> plain_key listKey = true -> Identity o = Ok identity -> identity <> "" ->
  listed (Paged listKey) s -> shows s ->
  exists fuel found, exec server (findByPage fuel ctx c o (mirror_path K) listKey) s (Ret (Some (Ok found))) s.
Proof.
  intros Hst Hk Hid Hne Hs Hok. unfold findByPage. rewrite Hid. by eapply pages_found.
Qed.

Lemma structs_found field message accepted raw s :
  structs_response field raw s -> exists found, find_structs field message accepted (Some raw) = Ok found.
Proof.
  intros [He Hu]. unfold find_structs. change (raw_of (Some raw)) with raw. cbv zeta. rewrite He, Hu. by eexists.
Qed.

Lemma users_found ctx c (o : object) identity s `{RO : ResourceObject (ObjectTemplate S)} :
  mirror_listing K = UserList -> mirror_path K = "/api/v2/users" -> Identity o = Ok identity ->
  listed UserList s -> shows s -> exists found, exec server (UserAdapter_Find ctx c o) s (Ret (Ok found)) s.
Proof.
  intros Hst Hp Hid Hs Hok. destruct (list_answered ctx c (mirror_path K) s) as (x & body & Hx & Hb & Hl); rewrite ?Hst; [done..|].
  rewrite Hst in Hl. destruct (Hl eq_refl) as (raw & -> & Hraw). rewrite Hp in Hx. unfold UserAdapter_Find. rewrite Hid.
  destruct (structs_found _ "find: could not parse user list" (fun email => EqualFold email identity) _ _ Hraw) as [found Hf].
  exists found. eapply exchange_answered; [exact Hx|]. cbv beta. by rewrite Hb, Hf.
Qed.

Lemma saved_views_found ctx c (o : object) identity s `{RO : ResourceObject (ObjectTemplate S)} :
  mirror_listing K = SavedViewList -> mirror_path K = "/api/v2/saved_views" -> Identity o = Ok identity ->
  listed SavedViewList s -> shows s -> exists found, exec server (SavedViewAdapter_Find ctx c o) s (Ret (Ok found)) s.
Proof.
  intros Hst Hp Hid Hs Hok.
  destruct (list_answered ctx c (mirror_path K ++ "?name=" ++ QueryEscape identity)%string s) as (x & body & Hx & Hb & Hl);
    rewrite ?Hst; [done|done|by exists identity|].
  rewrite Hst in Hl. destruct (Hl identity eq_refl) as (raw & keep & -> & Hraw & _). rewrite Hp in Hx.
  unfold SavedViewAdapter_Find. rewrite Hid.
  destruct (structs_found _ "find: could not parse saved view list" (fun name => bool_decide (name = identity)) _ _ Hraw) as [found Hf].
  exists found. eapply exchange_answered; [exact Hx|]. cbv beta. by rewrite Hb, Hf.
Qed.
End Kind.

(** A kind whose lookup can be answered. *)
Class findable (K : mirror) : Prop := can_find : SigNozServerLaws K -> SigNozServes K ->
  forall ctx c (o : object) identity s, Identity (ResourceObject := mirror_object K) o = Ok identity -> identity <> "" ->
    listed (mirror_listing K) s -> shows s ->
    exists fuel found, exec server (mirror_Find K fuel ctx c o) s (Ret (Some (Ok found))) s.

Lemma all_at_once_run find ctx c (o : object) s (found : list resource) s' :
  exec server (find ctx c o) s (Ret (Ok found)) s' ->
  exec server (all_at_once find 0 ctx c o) s (Ret (Some (Ok found))) s'.
Proof. intros Hex. unfold all_at_once. eapply exec_bind; [exact Hex|apply exec_refl]. Qed.

Lemma collection_findable cp ip upd imm field : plain_key field = true ->
  findable (MkMirror (object_of cp ip upd imm) cp ip (Collection field)
    (all_at_once (fun ctx c o => findByField (RO := object_of cp ip upd imm) ctx c o cp field))).
Proof.
  intros Hf laws up ctx c o identity s Hid Hne Hs Hok. exists 0%nat.
  destruct (collection_found _ (laws := laws) (up := up) field ctx c o identity s eq_refl Hf Hid Hne Hs Hok) as [found Hex].
  exists found. by apply all_at_once_run.
Qed.

Lemma paged_findable cp ip upd imm listKey : plain_key listKey = true ->
  findable (MkMirror (object_of cp ip upd imm) cp ip (Paged listKey)
    (fun fuel ctx c o => findByPage (RO := object_of cp ip upd imm) fuel ctx c o cp listKey)).
Proof.
  intros Hk laws up ctx c o identity s Hid Hne Hs Hok.
  exact (paged_found _ (laws := laws) (up := up) listKey ctx c o identity s eq_refl Hk Hid Hne Hs Hok).
Qed.

Lemma mirrors_findable : Forall findable mirrors.
Proof.
  unfold mirrors. repeat apply Forall_cons_2; [..|by apply Forall_nil_2].
  all: try by apply collection_findable.
  all: try by apply paged_findable.
  all: intros laws up ctx c o identity s Hid Hne Hs Hok; exists 0%nat.
  - destruct (saved_views_found _ (laws := laws) (up := up) ctx c o identity s eq_refl eq_refl Hid Hs Hok) as [found Hf].
    exists found. by apply all_at_once_run.
  - destruct (users_found _ (laws := laws) (up := up) ctx c o identity s eq_refl eq_refl Hid Hs Hok) as [found Hf].
    exists found. by apply all_at_once_run.
Qed.
End HttpServing.
