(* ===== verification/HttpSystem.v ===== *)
(** * The operator against the HTTP API of SigNoz

    The system of Protocol.v with the adapters in it: each call a pass makes of an
    adapter runs the adapter's program, exchange by exchange, against a server
    that holds entries.  Each answer is one Protocol.v allows, where [remote] is
    the set of ids of the entries of the identity.

    Between two calls of a pass anything of [http_drift] may happen in SigNoz.
    Between two pages of a lookup others may do what leaves the entries of the
    identity where they are in the list ([steady]); why no more is
    [removal_hides_an_entry] of LibraryWitness.v. *)

From S2P Require Import Prelude GoStd Json Libraries Errors Kube Core JsonBody JsonBodySpec Effects Interfaces Reconciler Objects ObjectsSpec Adapters AdaptersSpec ReconcilerSafety ReconcilerOutcome Protocol HttpApi HttpApiSpec.
From Stdlib Require Import String.

Local Open Scope string_scope.
Local Open Scope list_scope.

Section HttpSystem.
Context `{GJL : GjsonLaws} `{CMP : GoCmp} `{JE : JsonErrors} `{CF : CaseFolding} `{AM : ApiMachinery} `{SE : SemanticEqual CoreStatus}.
Context {S SigNoz Resolved : Type} `{SM : SpecMarshaler S} `{SV : SigNozServer (SigNoz := SigNoz)}.
Context (K : mirror (S := S) (SigNoz := SigNoz)).
Context (NewClient : Resolved -> SigNoz) (rec : commonReconciler) (ctx : Context).
Context (identity : string).

Abbreviation object := (Object (ObjectTemplate S)).
Abbreviation E := (call (ObjectTemplate S) SigNoz Resolved).
Abbreviation st := (mirror_listing K).

#[local] Instance kind : ResourceObject (ObjectTemplate S) := mirror_object K.

Record http_world := MkHttpWorld {
  h_stored : object;
  h_live : bool;
  h_orphaned : bool;
  h_entries : list value;
}.

(** The world of Protocol.v: of SigNoz, the ids of this identity. *)
Definition abstract (h : http_world) : world :=
  MkWorld (h_stored h) (h_live h) (h_orphaned h) (held_ids st identity (h_entries h)).

(** The desired state is an object that gives the identity, a non-empty string. *)
Definition specified (t : ObjectTemplate S) : Prop :=
  exists body m, Render (Spec t) (JSONSpec t) = Ok body /\ documented body (JObj m) /\
    obj_lookup (mirror_identity K) m = Some (JStr identity) /\ identity <> "".

Definition sound (h : http_world) : Prop :=
  listed st (h_entries h) /\ (h_live h = true -> specified (o_template (h_stored h))).

Definition same_object (h h' : http_world) : Prop :=
  h_stored h' = h_stored h /\ h_live h' = h_live h /\ h_orphaned h' = h_orphaned h.

(** The API server answers as in Protocol.v, the adapters by their programs. *)
Definition http_respond (X : Type) (h : http_world) (e : E X) (x : X) (h' : http_world) : Prop :=
  match e in call _ _ _ X return X -> Prop with
  | Find ctx c o => fun x => same_object h h' /\
      exists fuel, exec server (mirror_Find K fuel ctx c o) (h_entries h) (Ret (Some x)) (h_entries h')
  | Create ctx c o => fun x => same_object h h' /\
      exec server (commonTransport_Create ctx c o) (h_entries h) (Ret x) (h_entries h')
  | Read ctx c o r => fun x => same_object h h' /\
      exec server (commonTransport_Read ctx c o r) (h_entries h) (Ret x) (h_entries h')
  | Update ctx c o r => fun x => same_object h h' /\
      exec server (commonTransport_Update ctx c o r) (h_entries h) (Ret x) (h_entries h')
  | Delete ctx c o r => fun x => same_object h h' /\
      exec server (commonTransport_Delete ctx c o r) (h_entries h) (Ret x) (h_entries h')
  | KUpdate _ _ as e | KPatch _ _ _ as e | KStatusUpdate _ _ as e | TimeNow as e | Interfaces.ResolveRef _ _ _ _ as e =>
      fun x => respond _ (abstract h) e x (abstract h') /\ h_entries h' = h_entries h
  end x.

(** The same, where others are at work in SigNoz between the pages of a lookup. *)
Definition busy_respond (X : Type) (h : http_world) (e : E X) (x : X) (h' : http_world) : Prop :=
  match e in call _ _ _ X return X -> Prop with
  | Find ctx c o => fun x => same_object h h' /\
      exists fuel, exec (busy (steady st identity)) (mirror_Find K fuel ctx c o) (h_entries h) (Ret (Some x)) (h_entries h')
  | e => fun x => http_respond _ h e x h'
  end x.

(** What others may do in between: users edit the object, and anything may change
    in SigNoz but that an entry comes to have this identity. *)
Definition http_drift (h h' : http_world) : Prop := drift identity (abstract h) (abstract h') /\ sound h'.

Definition http_step (X : Type) (h : http_world) (e : E X) (x : X) (h' : http_world) : Prop :=
  exists h1, http_drift h h1 /\ busy_respond X h1 e x h'.

Definition http_fresh (h : http_world) : Prop := fresh identity (abstract h) /\ sound h.

Inductive http_reachable : http_world -> Prop :=
  | http_reach_fresh h : http_fresh h -> http_reachable h
  | http_reach_drift h h' : http_reachable h -> http_drift h h' -> http_reachable h'
  | http_reach_pass h p h' : http_reachable h -> h_live h = true ->
      exec http_step (Reconcile NewClient rec ctx (h_stored h)) h p h' -> http_reachable h'.

(** ** Answers *)

Context {HK : well_mirrored K} {laws : SigNozServerLaws K}.

Lemma specified_identity (o : object) : specified (o_template o) -> Identity o = Ok identity.
Proof.
  intros (body & m & Hb & Hd & Hm & Hne). unfold kind. destruct (mirrored_object (K := K)) as (upd & imm & -> & Hp).
  apply Forall_cons in Hp as [Hp _]. cbn [Identity object_of]. unfold object_Identity, ExtractFromSpecs. rewrite Hb.
  rewrite (extract_string _ _ _ identity Hd Hp) by (by right). by rewrite decide_False.
Qed.

(** The objects a call is made for give the identity. *)
Definition carries {X} (e : E X) : Prop :=
  match e with
  | KUpdate _ o | KPatch _ o _ | KStatusUpdate _ o => specified (o_template o)
  | Find _ _ o | Create _ _ o | Read _ _ o _ | Update _ _ o _ | Delete _ _ o _ => specified (o_template o)
  | TimeNow | Interfaces.ResolveRef _ _ _ _ => True
  end.

Lemma same_object_abstract h h' : same_object h h' ->
  abstract h' = with_remote (abstract h) (held_ids st identity (h_entries h')).
Proof. unfold abstract, with_remote. cbn. by intros (-> & -> & ->). Qed.

Lemma same_entries h h' : same_object h h' -> h_entries h' = h_entries h -> abstract h' = abstract h.
Proof. unfold abstract. by intros (-> & -> & ->) ->. Qed.

Lemma exec_listed {R} (p : prog (http SigNoz) R) s p' s' : exec server p s p' s' -> listed st s -> listed st s'.
Proof. apply exec_preserves. intros X s1 e x s2. apply (api_listed K). Qed.

(** One exchange, made for its effect. *)
Lemma exchange_exec {A} ctx' c method path body (f : result (Z * option string) error -> A) s r s' :
  exec server (x ← trigger (Exchange ctx' c method path body); mret (f x)) s (Ret r) s' ->
  exists x, server _ s (Exchange ctx' c method path body) x s' /\ r = f x.
Proof. intros (x & s1 & Hx%exec_trigger_inv & [-> ->]%exec_ret_inv)%exec_bind_inv. by exists x. Qed.

Lemma respond_busy X h (e : E X) x h' : http_respond X h e x h' -> busy_respond X h e x h'.
Proof.
  destruct e; try done. intros [Hs (fuel & Hex)]. split; [done|]. exists fuel.
  refine (exec_simulate (fun s => s) _ _ _ _ _ _ _ Hex). intros Y s1 f y s2 Hy. by exists s1.
Qed.

Lemma find_answer fuel ctx' c (o : object) x h h' :
  sound h -> specified (o_template o) -> same_object h h' ->
  exec (busy (steady st identity)) (mirror_Find K fuel ctx' c o) (h_entries h) (Ret (Some x)) (h_entries h') ->
  respond _ (abstract h) (Find ctx' c o : E _) x (abstract h') /\ sound h'.
Proof.
  intros [Hs Hl] Ho Hsame Hex. pose proof Ho as (_ & _ & _ & _ & _ & Hne).
  destruct (mirrored_find (K := K) laws (steady st identity) _ _ _ _ identity _ _ _ (specified_identity o Ho) Hne Hs (fun s s' H => H) Hex) as [Hrtc Hf].
  assert (steady st identity (h_entries h) (h_entries h')) as Hst by (clear -Hrtc; induction Hrtc; [done|by etrans]).
  split; [split|].
  - rewrite (same_object_abstract _ _ Hsame). unfold held_ids. rewrite (steady_my_ids _ _ _ _ Hst). by destruct h.
  - destruct x as [found|e]; [|done]. cbn [finds] in Hf. rewrite Hf. apply fmap_Permutation. symmetry. by apply held_ids_elements.
  - destruct Hsame as (Hso & Hli & _). unfold sound. rewrite Hso, Hli. split; [by apply Hst|done].
Qed.

Lemma read_answer ctx' c (o : object) r x h h' : same_object h h' ->
  exec server (commonTransport_Read ctx' c o r) (h_entries h) (Ret x) (h_entries h') ->
  respond _ (abstract h) (Read ctx' c o r : E _) x (abstract h').
Proof.
  intros Hsame. unfold commonTransport_Read, kind. destruct (mirrored_object (K := K)) as (upd & imm & -> & _).
  cbn [ReadMethodAndPath object_of]. intros (y & Hy & ->)%exchange_exec.
  destruct (api_get K _ _ _ _ _ _ Hy) as [Heq Hgone]. split; [by apply same_entries|].
  destruct (success y) as [b|e] eqn:Hok; [done|]. destruct (GetIDFromSigNozResource r) as [id|] eqn:Hid; [|done].
  intros Hnf Hin. unfold id_or_zero in Hgone. rewrite Hid in Hgone. apply (Hgone id eq_refl); [by exists e|].
  cbn in Hin. apply elem_of_list_to_set, elem_of_my_ids in Hin as (v & Hv & _ & ->). apply list_elem_of_fmap. by exists v.
Qed.

(** An entry more. *)
Lemma held_ids_cons v s s' : s' ≡ₚ v :: s -> listed st s' -> mine st identity v = true ->
  id_of_entry v <> "" /\ (id_of_entry v ∉ held_ids st identity s) /\
  held_ids st identity s' = {[id_of_entry v]} ∪ held_ids st identity s.
Proof.
  intros Hp (_ & Hids & Hnd) Hv. rewrite Hp in Hids, Hnd. apply Forall_cons in Hids as [Hne _].
  apply NoDup_cons in Hnd as [Hnew _]. split; [done|]. split.
  - intros Hin. apply elem_of_list_to_set, elem_of_my_ids in Hin as (u & Hu & _ & Heq). apply Hnew.
    rewrite Heq. apply list_elem_of_fmap. by exists u.
  - apply leibniz_equiv. intros id. rewrite elem_of_union, elem_of_singleton. unfold held_ids.
    rewrite !elem_of_list_to_set, !elem_of_my_ids. setoid_rewrite Hp. setoid_rewrite elem_of_cons. naive_solver.
Qed.

(** What a create does to the entries. *)
Lemma create_entries ctx' c (o : object) x s s' :
  specified (o_template o) -> exec server (commonTransport_Create ctx' c o) s (Ret x) s' ->
  s' = s /\ is_ok x = false \/
  exists v, s' ≡ₚ v :: s /\ mine st identity v = true /\
    match x with Ok r => r = named_by (id_of_entry v) | Err e => IsRetryable (Some e) = true end.
Proof.
  intros Ho. pose proof (specified_identity o Ho) as Hid. revert Hid. unfold commonTransport_Create, kind.
  destruct (mirrored_object (K := K)) as (upd & imm & -> & _).
  cbn [Identity Body CreateMethodAndPath ToSigNozResource object_of]. unfold object_Identity, ExtractFromSpecs, object_Body.
  destruct (Render _ _) as [body|]; [|done]. intros Hid (y & Hy & ->)%exchange_exec.
  destruct (api_create K _ _ _ _ _ _ Hy) as [[Heq Hno]|(v & Hp & Hmine & Hans)].
  - left. by destruct (success y).
  - right. exists v. split; [done|]. split; [by apply Hmine|]. destruct (success y) as [answer|e]; [|done].
    unfold object_ToSigNozResource. by rewrite Hans.
Qed.

Lemma create_answer ctx' c (o : object) x h h' :
  specified (o_template o) -> same_object h h' -> listed st (h_entries h') ->
  exec server (commonTransport_Create ctx' c o) (h_entries h) (Ret x) (h_entries h') ->
  respond _ (abstract h) (Create ctx' c o : E _) x (abstract h').
Proof.
  intros Ho Hsame Hs' [[Heq Hno]|(v & Hp & Hmine & Hx)]%create_entries; [|..|done].
  - destruct x; [done|]. left. by apply same_entries.
  - destruct (held_ids_cons v _ _ Hp Hs' Hmine) as (Hne & Hnew & Hheld).
    rewrite (same_object_abstract _ _ Hsame), Hheld. destruct x as [r|e].
    + subst r. by exists (id_of_entry v).
    + right. split; [done|]. by exists (id_of_entry v).
Qed.

(** What a read and a delete do to the entries. *)
Lemma read_entries ctx' c (o : object) r x s s' : exec server (commonTransport_Read ctx' c o r) s (Ret x) s' -> s' = s.
Proof.
  unfold commonTransport_Read, kind. destruct (mirrored_object (K := K)) as (upd & imm & -> & _).
  cbn [ReadMethodAndPath object_of]. intros (y & Hy & _)%exchange_exec. apply (api_get K _ _ _ _ _ _ Hy).
Qed.

Lemma delete_entries ctx' c (o : object) r x s s' : exec server (commonTransport_Delete ctx' c o r) s (Ret x) s' ->
  s' = s \/ s' = filter (fun v => id_of_entry v <> id_or_zero r) s.
Proof.
  unfold commonTransport_Delete, kind. destruct (mirrored_object (K := K)) as (upd & imm & -> & _).
  cbn [DeleteMethodAndPath object_of]. intros (y & Hy & ->)%exchange_exec.
  apply (api_delete K) in Hy as [[-> _]|[-> _]]; [by right|by left].
Qed.

Lemma delete_answer ctx' c (o : object) r x h h' :
  listed st (h_entries h) -> same_object h h' ->
  exec server (commonTransport_Delete ctx' c o r) (h_entries h) (Ret x) (h_entries h') ->
  respond _ (abstract h) (Delete ctx' c o r : E _) x (abstract h').
Proof.
  intros (_ & Hids & _) Hsame. unfold commonTransport_Delete, kind. destruct (mirrored_object (K := K)) as (upd & imm & -> & _).
  cbn [DeleteMethodAndPath object_of]. intros (y & Hy & ->)%exchange_exec. apply (api_delete K) in Hy.
  unfold id_or_zero in Hy. cbn [respond]. destruct (GetIDFromSigNozResource r) as [id|].
  - destruct Hy as [[Heq Hnf]|(Heq & Hno & Hgone)].
    + left. split.
      * rewrite (same_object_abstract _ _ Hsame), Heq. f_equal. apply leibniz_equiv. intros k. cbn [abstract remote].
        rewrite elem_of_difference, elem_of_singleton. unfold held_ids. rewrite !elem_of_list_to_set, !elem_of_my_ids.
        setoid_rewrite list_elem_of_filter. naive_solver.
      * destruct (success y) as [|e] eqn:Hok; [done|]. destruct (IsNotFound (Some e)) eqn:Hn; [|done].
        destruct Hnf. by exists e.
    + right. split; [by apply same_entries|]. destruct (success y) as [|e] eqn:Hok; [done|]. split; [by eexists|].
      intros Hn. assert (id ∉ id_of_entry <$> h_entries h) as Hni by (apply Hgone; by exists e).
      intros Hin. apply Hni. cbn in Hin. apply elem_of_list_to_set, elem_of_my_ids in Hin as (v & Hv & _ & ->).
      apply list_elem_of_fmap. by exists v.
  - apply same_entries; [done|]. destruct Hy as [[Heq _]|[Heq _]]; [|done]. rewrite Heq.
    clear -Hids. induction Hids as [|v s Hv _ IH]; [done|]. by rewrite filter_cons, decide_True, IH.
Qed.

(** What an update leaves of the identity: what there was, and maybe the object. *)
Lemma held_ids_updated id s s' :
  Forall2 (fun v v' => id_of_entry v' = id_of_entry v /\ (id_of_entry v <> id -> v' = v) /\
    (mine st identity v = true -> mine st identity v' = true)) s s' ->
  held_ids st identity s' = held_ids st identity s \/
  (id ∈ id_of_entry <$> s) /\ held_ids st identity s' = {[id]} ∪ held_ids st identity s.
Proof.
  induction 1 as [|v v' s s' (Hid & Hother & Hmine) _ IH]; [by left|].
  assert (forall v s, held_ids st identity (v :: s)
    = (if mine st identity v then {[id_of_entry v]} else ∅) ∪ held_ids st identity s) as Hcons.
  { intros u l. unfold held_ids, my_ids. rewrite filter_cons. destruct (mine st identity u); cbn; set_solver. }
  rewrite !Hcons, Hid, fmap_cons. destruct (decide (id_of_entry v = id)) as [->|Hne].
  - destruct (mine st identity v) eqn:Hv, (mine st identity v') eqn:Hv'; try by specialize (Hmine eq_refl).
    + right. split; [by left|]. destruct IH as [->|[_ ->]]; clear; set_solver.
    + right. split; [by left|]. destruct IH as [->|[_ ->]]; clear; set_solver.
    + destruct IH as [->|[_ ->]]; [left|right; split; [by left|]]; clear; set_solver.
  - rewrite Hother by done. destruct IH as [->|[Hin ->]]; [by left|right]. split; [by right|]. clear; set_solver.
Qed.

(** An update sends nothing, or a payload that keeps the identity. *)
Lemma update_sends ctx' c (o : object) r x s s' :
  specified (o_template o) -> exec server (commonTransport_Update ctx' c o r) s (Ret x) s' ->
  s' = s \/ exists y payload, keeps_identity (mirror_identity K) identity payload /\
    server _ s (Exchange ctx' c "PUT" (mirror_path K ++ "/" ++ id_or_zero r)%string (Some payload)) y s'.
Proof.
  intros (body & m & Hb & Hd & Hm & Hne). unfold commonTransport_Update, kind.
  destruct (mirrored_object (K := K)) as (upd & imm & -> & Hp). cbn [UpdateMethodAndPath ToUpdate object_of].
  unfold object_ToUpdate, object_Body. rewrite Hb. unfold ExtractFields.
  destruct (decide _) as [_|_]; [by intros [_ ?]%exec_ret_inv; left|].
  destruct (json_Marshal _) as [payload|] eqn:Hpay; [|by intros [_ ?]%exec_ret_inv; left].
  intros (y & Hy & _)%exchange_exec. right. exists y, payload. split; [|exact Hy].
  exists (extract_payload body upd []). split; [done|]. apply Forall_cons in Hp as [_ Hp]. rewrite Forall_forall in Hp.
  rewrite (extract_payload_lookup body m) by done. rewrite Hm. cbn [obj_lookup].
  destruct (_ && _); [by right|by left].
Qed.

(** What an update does to the entries. *)
Lemma update_entries ctx' c (o : object) r x s s' :
  specified (o_template o) -> exec server (commonTransport_Update ctx' c o r) s (Ret x) s' ->
  Forall2 (fun v v' => id_of_entry v' = id_of_entry v /\ (id_of_entry v <> id_or_zero r -> v' = v) /\
    (mine st identity v = true -> mine st identity v' = true)) s s'.
Proof.
  intros Ho [->|(y & payload & Hkeep & Hy)]%update_sends; [|..|done].
  - apply Forall_Forall2_diag, Forall_forall. by intros v _.
  - apply (api_update K) in Hy. eapply Forall2_impl; [exact Hy|]. intros v v' (? & ? & Hmine). split; [done|]. split; [done|]. by apply Hmine.
Qed.

Lemma update_answer ctx' c (o : object) r x h h' :
  specified (o_template o) -> listed st (h_entries h) -> same_object h h' ->
  exec server (commonTransport_Update ctx' c o r) (h_entries h) (Ret x) (h_entries h') ->
  respond _ (abstract h) (Update ctx' c o r : E _) x (abstract h').
Proof.
  intros Ho (_ & Hids & _) Hsame Hy%update_entries; [|done].
  cbn [respond]. rewrite (same_object_abstract _ _ Hsame).
  destruct (held_ids_updated _ _ _ Hy) as [->|[Hin ->]]; [left; by destruct h|right].
  unfold id_or_zero in *. destruct (GetIDFromSigNozResource r) as [id|]; [by exists id|].
  apply list_elem_of_fmap in Hin as (v & Hv & Hin). rewrite Forall_forall in Hids. by destruct (Hids v Hin).
Qed.
End HttpSystem.
