(* ===== verification/HttpSystemSpec.v ===== *)
(** * The adapters implement the world of Protocol.v

    A simulation: every run of the operator against the HTTP API is a run of the
    system of Protocol.v, call by call, so what holds of that system holds of the
    entries SigNoz lists. *)

From S2P Require Import Prelude GoStd Json Libraries Errors Kube Core JsonBody JsonBodySpec Conditions Effects Interfaces Reconciler Objects ObjectsSpec Adapters AdaptersSpec Protocol ProtocolSafety HttpApi HttpApiSpec HttpSystem.
From Stdlib Require Import String.

Local Open Scope string_scope.
Local Open Scope list_scope.

Section Simulation.
Context `{GJL : GjsonLaws} `{CMP : GoCmp} `{JE : JsonErrors} `{CF : CaseFolding} `{AML : ApiMachineryLaws} `{SEL : SemanticEqualLaw CoreStatus}.
Context {S SigNoz Resolved : Type} `{SM : SpecMarshaler S} `{SV : SigNozServer (SigNoz := SigNoz)}.
Context (K : mirror (S := S) (SigNoz := SigNoz)) {HK : well_mirrored K} {laws : SigNozServerLaws K}.
Context (NewClient : Resolved -> SigNoz) (rec : commonReconciler) (identity : string).

#[local] Instance here : ResourceObject (ObjectTemplate S) := kind K.

Abbreviation object := (Object (ObjectTemplate S)).
Abbreviation E := (call (ObjectTemplate S) SigNoz Resolved).
Abbreviation hstep := (http_step (Resolved := Resolved) K identity).
Abbreviation good := (sound K identity).
Abbreviation abs := (abstract K identity).
Abbreviation ours := (specified K identity).

(** ** One call *)

Lemma write_sound h h' (accepts : object -> Prop) orphan (x : result object error) :
  good h -> (forall o, accepts o -> h_live h = true -> ours (o_template o)) ->
  written_to (abs h) accepts orphan x (abs h') -> h_entries h' = h_entries h ->
  good h' /\ forall o, x = Ok o -> ours (o_template o).
Proof.
  intros [Hs Hl] Hacc Hw Heq. destruct Hw as [(Hlive & o & Ho & Hw & Hx)|[Hno Hw]].
  - assert (h_stored h' = o) as Hst by exact (f_equal stored Hw). split.
    + split; [by rewrite Heq|]. intros _. rewrite Hst. by apply Hacc.
    + intros o' ->. destruct Hx as [[= ->]|?]; [by apply Hacc|done].
  - assert (h_stored h' = h_stored h) as Hst by exact (f_equal stored Hw).
    assert (h_live h' = h_live h) as Hli by exact (f_equal live Hw). split.
    + split; [by rewrite Heq|]. by rewrite Hst, Hli.
    + by intros o ->.
Qed.

Lemma unchanged_sound h h' : good h -> abs h' = abs h -> h_entries h' = h_entries h -> good h'.
Proof.
  intros [Hs Hl] Hw Heq. split; [by rewrite Heq|].
  assert (h_stored h' = h_stored h) as -> by exact (f_equal stored Hw).
  by assert (h_live h' = h_live h) as -> by exact (f_equal live Hw).
Qed.

Lemma call_sound {R} (p p' : prog (http SigNoz) R) h h' :
  good h -> same_object h h' -> exec server p (h_entries h) p' (h_entries h') -> good h'.
Proof.
  intros [Hs Hl] (Hst & Hli & _) Hex. split; [|by rewrite Hst, Hli].
  by apply (exec_listed K (laws := laws) _ _ _ _ Hex).
Qed.

(** What a server write hands back still gives the identity. *)
Definition hands_back {X} (e : E X) : X -> Prop :=
  match e in call _ _ _ X return X -> Prop with
  | KUpdate _ _ | KPatch _ _ _ | KStatusUpdate _ _ => fun x => forall o, x = Ok o -> ours (o_template o)
  | _ => fun _ => True
  end.

(** The answer is one of Protocol.v. *)
Lemma answer_refines X h (e : E X) x h' :
  good h -> carries K identity e -> busy_respond K identity X h e x h' ->
  respond X (abs h) e x (abs h') /\ good h' /\ hands_back e x.
Proof.
  intros Hh Hc Hr. destruct e; cbn [busy_respond http_respond carries] in Hr, Hc.
  - destruct Hr as [Hr Heq]. split; [done|]. eapply write_sound; [done| |exact Hr|done].
    intros o' (_ & Ht & _) _. by rewrite Ht.
  - destruct Hr as [Hr Heq]. split; [done|]. eapply write_sound; [done| |exact Hr|done].
    intros o' (_ & Ht & _) Hl. rewrite Ht. by apply Hh.
  - destruct Hr as [Hr Heq]. split; [done|]. eapply write_sound; [done| |exact Hr|done].
    intros o' (_ & Ht & _) Hl. rewrite Ht. by apply Hh.
  - destruct Hr as [Hr Heq]. split; [done|]. split; [|done]. by eapply unchanged_sound.
  - destruct Hr as [Hr Heq]. split; [done|]. split; [|done]. by eapply unchanged_sound.
  - destruct Hr as [Hs (fuel & Hex)]. destruct (find_answer (Resolved := Resolved) K identity fuel ctx c o x h h' Hh Hc Hs Hex). by split.
  - destruct Hr as [Hs Hex]. pose proof (call_sound _ _ _ _ Hh Hs Hex) as Hh'.
    split; [|done]. exact (create_answer K identity ctx c o x h h' Hc Hs (proj1 Hh') Hex).
  - destruct Hr as [Hs Hex]. pose proof (call_sound _ _ _ _ Hh Hs Hex).
    split; [|done]. exact (read_answer K identity ctx c o r x h h' Hs Hex).
  - destruct Hr as [Hs Hex]. pose proof (call_sound _ _ _ _ Hh Hs Hex).
    split; [|done]. exact (update_answer K identity ctx c o r x h h' Hc (proj1 Hh) Hs Hex).
  - destruct Hr as [Hs Hex]. pose proof (call_sound _ _ _ _ Hh Hs Hex).
    split; [|done]. exact (delete_answer K identity ctx c o r x h h' (proj1 Hh) Hs Hex).
Qed.

(** ** One pass *)

(** At every call of a pass the world is sound and the objects carried give the
    identity. *)
Abbreviation wph := (wp hstep (fun X h (e : E X) => good h /\ carries K identity e)).

Lemma call_wp {X} (e : E X) (Q : X -> http_world -> Prop) h :
  good h -> carries K identity e -> (forall x h', good h' -> hands_back e x -> Q x h') -> wph (trigger e) Q h.
Proof.
  intros Hh Hc HQ. apply wp_trigger; [done|]. intros x h' (h1 & [_ Hh1] & Hr).
  by apply HQ; apply (answer_refines _ _ _ _ _ Hh1 Hc Hr).
Qed.

Lemma written_ours (o : object) x o' err : ours (o_template o) ->
  (forall o1, x = Ok o1 -> ours (o_template o1)) -> written o x = (o', err) -> ours (o_template o').
Proof. intros Ho Hx. destruct x as [o1|e]; intros [= <- _]; [by apply Hx|done]. Qed.

Abbreviation hands_on := (fun '(o', _) h' => good h' /\ ours (o_template o')).
Abbreviation ends_with := (fun '(o', _, _) h' => good h' /\ ours (o_template o')).

Section Pass.
Context (ctx : Context).

(** A write of an object that gives the identity, and what is left in hand. *)
Lemma written_wp (o : object) (e : E (result object error)) h :
  good h -> carries K identity e -> ours (o_template o) ->
  (forall x, hands_back e x -> forall o1, x = Ok o1 -> ours (o_template o1)) ->
  wph (r ← trigger e; mret (written o r)) hands_on h.
Proof.
  intros Hh Hc Ho Hback. apply wp_bind, call_wp; [done|done|]. intros x h' Hh' Hx. apply wp_ret.
  destruct (written o x) as [o' err] eqn:Hw. split; [done|]. by eapply written_ours; [exact Ho|by apply Hback|exact Hw].
Qed.

Lemma addFinalizer_hands (o : object) h : good h -> ours (o_template o) -> wph (addFinalizer ctx o) hands_on h.
Proof.
  intros Hh Ho. unfold addFinalizer. destruct (AddFinalizer _ _) as [fs []]; [|by apply wp_ret].
  by apply written_wp.
Qed.

Lemma removeFinalizer_hands (o : object) h : good h -> ours (o_template o) -> wph (removeFinalizer ctx o) ends_with h.
Proof.
  intros Hh Ho. unfold removeFinalizer. destruct (RemoveFinalizer _ _) as [fs []]; [|by apply wp_ret].
  apply wp_bind, call_wp; [done|done|]. intros x h' Hh' Hx. cbv zeta. destruct (written _ x) as [o' err] eqn:Hw.
  apply wp_ret. split; [done|]. by eapply written_ours in Hw.
Qed.

Lemma add_attempt_hands (o : object) h : good h -> ours (o_template o) -> wph (addCreateAttemptAnnotation ctx o) hands_on h.
Proof.
  intros Hh Ho. unfold addCreateAttemptAnnotation. apply wp_bind, call_wp; [done|done|]. intros now h' Hh' _.
  by apply written_wp.
Qed.

Lemma remove_attempt_hands (o : object) h : good h -> ours (o_template o) -> wph (removeCreateAttemptAnnotation ctx o) hands_on h.
Proof.
  intros Hh Ho. unfold removeCreateAttemptAnnotation. destruct (annotation _ _); [|by apply wp_ret].
  by apply written_wp.
Qed.

Lemma onAdapterError_ends (o : object) e h : good h -> ours (o_template o) -> wph (mret (onAdapterError rec o e)) ends_with h.
Proof.
  intros Hh Ho. apply wp_ret. unfold onAdapterError. destruct (GetOutcomeAndSetConditionsOnErr _ _ _). by case_decide.
Qed.

Lemma onExisting_ends (o : object) c hash h :
  good h -> ours (o_template o) -> wph (onExistingObject rec ctx o c hash) ends_with h.
Proof.
  intros Hh Ho. unfold onExistingObject. apply wp_bind, call_wp; [done|done|]. intros x h1 Hh1 _. destruct x as [body|e].
  - destruct (Compare o body) as [cr|e]; [|by apply wp_ret]. destruct (decide _); [by apply wp_ret|].
    destruct (_ && _); [by apply wp_ret|]. apply wp_bind, call_wp; [done|done|]. intros err h2 Hh2 _.
    destruct err; [by apply onAdapterError_ends|by apply wp_ret].
  - destruct (IsNotFound _); [by apply wp_ret|by apply onAdapterError_ends].
Qed.

Lemma adopt_ends (o : object) c r hash h : good h -> ours (o_template o) -> wph (adopt rec ctx o c r hash) ends_with h.
Proof.
  intros Hh Ho. unfold adopt. apply wp_bind. eapply wp_mono; [|by apply add_attempt_hands].
  intros [o' [e|]] h' [Hh' Ho']; [by apply wp_ret|by apply onExisting_ends].
Qed.

Lemma onConflict_ends (o : object) c id hash h :
  good h -> ours (o_template o) -> wph (onConflict rec ctx o c id hash) ends_with h.
Proof.
  intros Hh Ho. unfold onConflict. apply wp_bind, call_wp; [done|done|]. intros x h1 Hh1 _.
  destruct x as [[|r [|r' found]]|e]; [by apply wp_ret|by apply adopt_ends|by apply wp_ret|by apply onAdapterError_ends].
Qed.

Lemma create_ends (o : object) c id hash h :
  good h -> ours (o_template o) -> wph (create rec ctx o c id hash) ends_with h.
Proof.
  intros Hh Ho. unfold create. apply wp_bind. eapply wp_mono; [|by apply add_attempt_hands].
  intros [o' [e|]] h' [Hh' Ho']; [by apply wp_ret|]. apply wp_bind, call_wp; [done|done|]. intros x h1 Hh1 _.
  destruct x as [r|e]; [by apply wp_ret|]. destruct (IsAlreadyExists _); [by apply onConflict_ends|].
  destruct (negb _); [|by apply onAdapterError_ends]. apply wp_bind. eapply wp_mono; [|by apply remove_attempt_hands].
  intros [o2 [e'|]] h2 [Hh2 Ho2]; [by apply wp_ret|by apply onAdapterError_ends].
Qed.

Lemma onNew_ends (o : object) c id hash h :
  good h -> ours (o_template o) -> wph (onNewObject rec ctx o c id hash) ends_with h.
Proof.
  intros Hh Ho. unfold onNewObject. apply wp_bind, call_wp; [done|done|]. intros x h1 Hh1 _.
  destruct x as [found|e]; [|by apply onAdapterError_ends].
  destruct (decide _); [destruct (find_pinned _ _); [by apply adopt_ends|by apply wp_ret]|].
  destruct found as [|r [|r' found]]; [by apply create_ends|by apply adopt_ends|by apply wp_ret].
Qed.

Lemma reconcile_ends (o : object) h : good h -> ours (o_template o) -> wph (reconcile NewClient rec ctx o) ends_with h.
Proof.
  intros Hh Ho. unfold reconcile. destruct (Suspend _); [by apply wp_ret|]. destruct (Identity o); [|by apply wp_ret].
  destruct (Interfaces.Hash o); [|by apply wp_ret]. apply wp_bind. unfold signozClientFor.
  apply wp_bind, call_wp; [done|done|]. intros x h1 Hh1 _. apply wp_ret. destruct x; [|by apply wp_ret].
  destruct (GetIDFromSigNozResource _); [|by apply onNew_ends]. apply wp_bind.
  eapply wp_mono; [|by apply remove_attempt_hands]. intros [o' [e|]] h2 [Hh2 Ho2]; [by apply wp_ret|by apply onExisting_ends].
Qed.

Lemma reclaim_ends (o : object) c r h : good h -> ours (o_template o) -> wph (reclaim rec ctx c o r) ends_with h.
Proof.
  intros Hh Ho. unfold reclaim. apply wp_bind, call_wp; [done|done|]. intros x h1 Hh1 _.
  destruct (_ && _); [by apply wp_ret|by apply removeFinalizer_hands].
Qed.

Lemma finalize_ends (o : object) h : good h -> ours (o_template o) -> wph (finalize NewClient rec ctx o) ends_with h.
Proof.
  intros Hh Ho. unfold finalize. destruct (negb _); [by apply wp_ret|]. cbv zeta.
  destruct (decide _); [by apply removeFinalizer_hands|]. destruct (_ && _); [by apply removeFinalizer_hands|].
  apply wp_bind. unfold signozClientFor. apply wp_bind, call_wp; [done|done|]. intros x h1 Hh1 _. apply wp_ret.
  destruct x; [|by apply wp_ret]. destruct (is_ok _); [by apply reclaim_ends|].
  destruct (Identity o); [|by apply removeFinalizer_hands]. apply wp_bind, call_wp; [done|done|]. intros x h2 Hh2 _.
  destruct x as [[|r [|r' found]]|e]; [by apply removeFinalizer_hands|by apply reclaim_ends|by apply wp_ret|by apply wp_ret].
Qed.
End Pass.

Lemma Reconcile_ends ctx (o : object) h :
  good h -> ours (o_template o) -> wph (Reconcile NewClient rec ctx o) (fun _ h' => good h') h.
Proof.
  intros Hh Ho. unfold Reconcile. cbv zeta. set (ctx' := if decide _ then _ else _). destruct (m_deletion _).
  { eapply wp_mono; [|by apply finalize_ends]. by intros [[? ?] ?] h' [? _]. }
  apply wp_bind. eapply wp_mono; [|by apply addFinalizer_hands]. intros [o1 [e|]] h1 [Hh1 Ho1]; [by apply wp_ret|].
  apply wp_bind. eapply wp_mono; [|by apply reconcile_ends]. intros [[o2 res] err] h2 [Hh2 Ho2].
  destruct (DeepEqual _ _); [by apply wp_ret|]. apply wp_bind, call_wp; [done|done|]. intros now h3 Hh3 _.
  apply wp_bind, call_wp; [done|done|]. intros [o3|e] h4 Hh4 _; by apply wp_ret.
Qed.

(** ** The simulation *)

Lemma run_refines {R} (p : prog E R) Q h p' h' :
  good h -> wph p Q h -> exec hstep p h p' h' ->
  exec (step (SigNoz := SigNoz) (Resolved := Resolved) identity) p (abs h) p' (abs h') /\ good h'.
Proof.
  revert h. induction p as [r|X e k IH]; intros h Hh; simpl.
  - intros _ [[-> ->]|[]]. split; [by left|done].
  - intros [[_ Hc] Hk] [[-> ->]|(x & h1 & Hs & Hex)]; [split; [by left|done]|].
    pose proof Hs as (h0 & [Hd Hh0] & Hr). destruct (answer_refines _ _ _ _ _ Hh0 Hc Hr) as (Hr' & Hh1 & _).
    destruct (IH x h1 Hh1 (Hk x h1 Hs) Hex) as [Hex' Hh']. split; [|done]. right. exists x, (abs h1).
    split; [by exists (abs h0)|done].
Qed.

Lemma http_reachable_refines ctx h :
  http_reachable K NewClient rec ctx identity h -> reachable NewClient rec ctx identity (abs h) /\ good h.
Proof.
  induction 1 as [h [Hf Hs]|h h' _ [Hr Hh] [Hd Hs]|h p h' _ [Hr Hh] Hl Hex].
  - split; [by apply reach_fresh|done].
  - split; [by eapply reach_drift|done].
  - destruct (run_refines _ _ _ _ _ Hh (Reconcile_ends ctx (h_stored h) h Hh (proj2 Hh Hl)) Hex) as [Hex' Hh'].
    split; [by eapply (reach_pass _ _ _ _ (abs h))|done].
Qed.
End Simulation.

(** ** All ten kinds *)

Section Kinds.
Context `{GJL : GjsonLaws} `{CMP : GoCmp} `{JE : JsonErrors} `{CF : CaseFolding} `{AML : ApiMachineryLaws} `{SEL : SemanticEqualLaw CoreStatus}.
Context {S SigNoz Resolved : Type} `{SM : SpecMarshaler S} `{SV : SigNozServer (SigNoz := SigNoz)}.
Context (NewClient : Resolved -> SigNoz) (rec : commonReconciler) (identity : string).

Lemma mirror_desired (K : mirror (S := S) (SigNoz := SigNoz)) : well_mirrored K ->
  DesiredFromTemplate (ObjectTemplate S) (H := kind K).
Proof. intros HK. unfold kind. destruct (mirrored_object (K := K)) as (upd & imm & -> & _). apply object_of_desired. Qed.

(** SigNoz lists at most one entry of the identity, which, while the object exists,
    is named by the recorded id or announced by the stored attempt and held by the
    finalizer, and is there no more once the object is gone, unless orphaned. *)
Definition one_entry_accounted_for (K : mirror (S := S) (SigNoz := SigNoz)) (h : http_world (S := S)) : Prop :=
  (List.length (my_ids (mirror_listing K) identity (h_entries h)) <= 1)%nat /\
  forall v, v ∈ h_entries h -> mine (mirror_listing K) identity v = true ->
    (h_live h = true -> id_of (h_stored h) = Ok (id_of_entry v) \/
       is_ok (id_of (h_stored h)) = false /\ attempted (h_stored h)) /\
    (h_orphaned h = true \/ h_live h = true /\ held (h_stored h)).

Lemma Inv_entries (K : mirror (S := S) (SigNoz := SigNoz)) (h : http_world (S := S)) :
  listed (mirror_listing K) (h_entries h) -> Inv (RO := kind K) identity (abstract K identity h) -> one_entry_accounted_for K h.
Proof.
  intros Hs Hw. split.
  { rewrite <- (Permutation_length (held_ids_elements _ identity _ Hs)). exact (inv_one _ _ Hw). }
  intros v Hv Hm. assert (id_of_entry v ∈ remote (abstract K identity h)) as Hin.
  { cbn. apply elem_of_list_to_set, elem_of_my_ids. by exists v. }
  split.
  - intros Hl. pose proof (inv_named _ _ Hw Hl) as Hn. unfold named in Hn. cbn [abstract stored] in Hn.
    destruct (id_of (h_stored h)) as [id|]; [left; f_equal; set_solver|right]. split; [done|].
    destruct Hn as [He|?]; [set_solver|done].
  - destruct (inv_held _ _ Hw) as [?|[He|?]]; [by left|set_solver|by right].
Qed.

Lemma http_reachable_accounted (K : mirror (S := S) (SigNoz := SigNoz)) ctx h :
  well_mirrored K -> SigNozServerLaws K -> http_reachable K NewClient rec ctx identity h ->
  reachable (RO := kind K) NewClient rec ctx identity (abstract K identity h) /\ one_entry_accounted_for K h.
Proof.
  intros HK laws Hh.
  pose proof (mirror_desired K HK) as DT. destruct (http_reachable_refines K NewClient rec identity ctx h Hh) as [Hr [Hs _]].
  split; [exact Hr|]. apply Inv_entries; [done|]. by apply (reachable_Inv _ _ _ _ _ Hr).
Qed.

(** C5. The operator over HTTP.  For each of the ten kinds, with its adapter,
    against any SigNoz server that keeps the promises of its API: whatever the
    operator, crashed and restarted, its users and others in SigNoz have done, the
    state is one the system of Protocol.v reaches; so SigNoz lists at most one
    entry of the identity, which, while the object exists, is named by the recorded
    id or announced by the stored attempt and held by the finalizer, and is there
    no more once the object is gone, unless it was orphaned. *)
Theorem http_operator_is_the_system : Forall (fun K : mirror (S := S) (SigNoz := SigNoz) =>
  SigNozServerLaws K -> forall ctx h, http_reachable K NewClient rec ctx identity h ->
  reachable (RO := kind K) NewClient rec ctx identity (abstract K identity h) /\ one_entry_accounted_for K h) mirrors.
Proof.
  eapply Forall_impl; [exact mirrors_well_mirrored|]. intros K HK laws ctx h Hh. by apply http_reachable_accounted.
Qed.
End Kinds.
