(* ===== verification/HttpStale.v ===== *)
(** * Lagging caches, over HTTP

    The passes of Stale.v with the adapters in them: what the cache shows is that
    of Stale.v, what SigNoz holds and answers that of HttpSystem.v. *)

From S2P Require Import Prelude GoStd Json Libraries Errors Kube Core JsonBody JsonBodySpec Conditions Effects Interp Interfaces Reconciler Objects ObjectsSpec Adapters AdaptersSpec Protocol ProtocolSafety Stale StaleSafety HttpApi HttpApiSpec HttpSystem HttpSystemSpec.
From Stdlib Require Import String.

Local Open Scope string_scope.
Local Open Scope list_scope.

Section HttpStale.
Context `{GJL : GjsonLaws} `{CMP : GoCmp} `{JE : JsonErrors} `{CF : CaseFolding} `{AML : ApiMachineryLaws} `{SEL : SemanticEqualLaw CoreStatus}.
Context {S SigNoz Resolved : Type} `{SM : SpecMarshaler S} `{SV : SigNozServer (SigNoz := SigNoz)}.
Context (K : mirror (S := S) (SigNoz := SigNoz)).
Context (NewClient : Resolved -> SigNoz) (rec : commonReconciler) (ctx : Context) (identity : string).

#[local] Instance here : ResourceObject (ObjectTemplate S) := kind K.

Abbreviation object := (Object (ObjectTemplate S)).
Abbreviation E := (call (ObjectTemplate S) SigNoz Resolved).
Abbreviation abs := (abstract K identity).
Abbreviation ours := (specified K identity).

Record http_view := MkHttpView { hv_now : http_world (S := S); hv_window : list object }.

Definition view_of (v : http_view) : view := MkView (abs (hv_now v)) (hv_window v).

(** The window begins with what is stored; each version gives the identity. *)
Definition tracked (v : http_view) : Prop :=
  sound K identity (hv_now v) /\ (exists rest, hv_window v = h_stored (hv_now v) :: rest) /\
  Forall (fun o : object => ours (o_template o)) (hv_window v).

Definition http_stale_drift (v v' : http_view) : Prop := stale_drift identity false (view_of v) (view_of v') /\ tracked v'.

Definition http_stale_step (X : Type) (v : http_view) (e : E X) (x : X) (v' : http_view) : Prop :=
  exists v1, http_stale_drift v v1 /\ busy_respond K identity X (hv_now v1) e x (hv_now v') /\
    advances (view_of v1) (view_of v') /\ restricts false X (view_of v1) e x (view_of v').

Inductive http_stale_reachable : http_view -> Prop :=
  | http_stale_fresh h : http_fresh K identity h -> is_ok (id_of (h_stored h)) = false ->
      http_stale_reachable (MkHttpView h [h_stored h])
  | http_stale_drifts v v' : http_stale_reachable v -> http_stale_drift v v' -> http_stale_reachable v'
  | http_stale_pass v newer o older p v' : http_stale_reachable v -> hv_window v = newer ++ o :: older ->
      exec http_stale_step (Reconcile NewClient rec ctx o) (MkHttpView (hv_now v) (newer ++ [o])) p v' -> http_stale_reachable v'.

(** ** The simulation *)

Context {HK : well_mirrored K} {laws : SigNozServerLaws K}.

Lemma write_ours (h h' : http_world) (accepts : object -> Prop) orphan (x : result object error) :
  ours (o_template (h_stored h)) -> (forall o, accepts o -> ours (o_template o)) ->
  written_to (abs h) accepts orphan x (abs h') -> ours (o_template (h_stored h')).
Proof.
  intros Ho Hacc [(_ & o & Hao & Hw & _)|[_ Hw]]; apply (f_equal stored) in Hw; cbn in Hw; rewrite Hw; auto.
Qed.

(** What is stored goes on giving the identity. *)
Lemma respond_ours X (h : http_world) (e : E X) x h' :
  ours (o_template (h_stored h)) -> carries K identity e -> busy_respond K identity X h e x h' -> ours (o_template (h_stored h')).
Proof.
  intros Ho Hc Hr. destruct e; cbn [busy_respond http_respond carries] in Hr, Hc.
  1-3: destruct Hr as [Hr _]; eapply write_ours; [done| |exact Hr]; intros o' (_ & Ht & _); rewrite Ht; done.
  1-2: destruct Hr as [Hw _]; apply (f_equal stored) in Hw; cbn in Hw; by rewrite Hw.
  all: by destruct Hr as [(-> & _) _].
Qed.

Lemma advances_tracked (v v' : http_view) : tracked v -> sound K identity (hv_now v') -> ours (o_template (h_stored (hv_now v'))) ->
  advances (view_of v) (view_of v') -> tracked v'.
Proof.
  intros (_ & [rest Hhd] & Hall) Hs Ho [[Hst Hw]|[_ Hw]]; cbn in *; (split; [done|]); rewrite Hw.
  - split; [exists rest; by rewrite Hst|done].
  - split; [by eexists|by constructor].
Qed.

Lemma tracked_stored v : tracked v -> ours (o_template (h_stored (hv_now v))).
Proof. intros (_ & [rest Hhd] & Hall). rewrite Hhd in Hall. by apply Forall_cons in Hall as [? _]. Qed.

Lemma stale_step_refines X (v : http_view) (e : E X) x v' : carries K identity e -> http_stale_step X v e x v' ->
  stale_step identity false X (view_of v) e x (view_of v') /\ tracked v' /\ http_step K identity X (hv_now v) e x (hv_now v').
Proof.
  intros Hc (v1 & [Hd Ht] & Hr & Hadv & Hres). pose proof Ht as (Hs & _ & _).
  destruct (answer_refines K identity _ _ _ _ _ Hs Hc Hr) as (Hr' & Hs' & _). split; [|split].
  - exists (view_of v1). split; [done|]. by split.
  - apply (advances_tracked v1); [done|done| |done]. eapply respond_ours; [by apply tracked_stored|exact Hc|exact Hr].
  - exists (hv_now v1). split; [|done]. split; [by destruct Hd as [Hd _]|done].
Qed.

(** The calls a pass makes carry the identity, so each step is one of Stale.v. *)
Lemma stale_run_refines {R} (p : prog E R) Q v p' v' :
  tracked v -> wp (http_step K identity) (fun X h (e : E X) => sound K identity h /\ carries K identity e) p Q (hv_now v) ->
  exec http_stale_step p v p' v' -> exec (stale_step identity false) p (view_of v) p' (view_of v') /\ tracked v'.
Proof.
  revert v. induction p as [r|X e k IH]; intros v Hv; simpl.
  - intros _ [[-> ->]|[]]. split; [by left|done].
  - intros [[_ Hc] Hk] [[-> ->]|(x & v1 & Hs & Hex)]; [split; [by left|done]|].
    destruct (stale_step_refines _ _ _ _ _ Hc Hs) as (Hs' & Hv1 & Hh). destruct (IH x v1 Hv1 (Hk x _ Hh) Hex) as [Hex' Hv'].
    split; [|done]. right. by exists x, (view_of v1).
Qed.

Lemma http_stale_refines v : http_stale_reachable v -> stale_reachable NewClient rec ctx identity false (view_of v) /\ tracked v.
Proof.
  induction 1 as [h [Hf Hs] Hno|v v' _ [Hr Hv] [Hd Ht]|v newer o older p v' _ [Hr Hv] Hw Hex].
  - split; [by apply (stale_fresh _ _ _ _ _ (abs h))|]. split; [done|]. split; [by exists []|]. constructor; [|done].
    apply Hs. apply Hf.
  - split; [by eapply stale_drifts|done].
  - pose proof Hv as (Hs & [rest Hhd] & Hall). rewrite Hw in Hall, Hhd.
    assert (tracked (MkHttpView (hv_now v) (newer ++ [o]))) as Hcut.
    { split; [done|]. cbn. split.
      - destruct newer as [|a newer]; injection Hhd as -> _; by eexists.
      - apply Forall_app in Hall as [Hn [Ho _]%Forall_cons]. apply Forall_app. split; [done|by constructor]. }
    assert (ours (o_template o)) as Ho by (by apply Forall_app in Hall as [_ [Ho _]%Forall_cons]).
    destruct (stale_run_refines _ _ _ _ _ Hcut (Reconcile_ends K NewClient rec identity ctx o (hv_now v) Hs Ho) Hex) as [Hex' Hv'].
    split; [|done]. by eapply (stale_pass _ _ _ _ _ (view_of v)).
Qed.

(** Where old versions led is sound, and holds the invariant. *)
Lemma http_stale_Inv v : http_stale_reachable v -> Inv identity (abs (hv_now v)) /\ sound K identity (hv_now v).
Proof.
  pose proof (mirror_desired K HK) as DT. intros [Hr [Hs _]]%http_stale_refines. split; [|exact Hs].
  by destruct (stale_reachable_Between _ _ _ _ _ Hr) as [[Hw _]|[Hw _]].
Qed.
End HttpStale.

Section Kinds.
Context `{GJL : GjsonLaws} `{CMP : GoCmp} `{JE : JsonErrors} `{CF : CaseFolding} `{AML : ApiMachineryLaws} `{SEL : SemanticEqualLaw CoreStatus}.
Context {S SigNoz Resolved : Type} `{SM : SpecMarshaler S} `{SV : SigNozServer (SigNoz := SigNoz)}.
Context (NewClient : Resolved -> SigNoz) (rec : commonReconciler) (identity : string).

(** C9. Lagging caches do no harm over HTTP.  For each of the ten kinds, with its
    adapter, against any SigNoz server that keeps the promises of its API, where
    nobody but the operator deletes or renames entries of the identity: with passes
    that begin from versions of the object the cache still shows, every state is
    one of Stale.v, and SigNoz lists at most one entry of the identity, recorded or
    announced by the object, and none without it unless orphaned. *)
Theorem stale_caches_are_safe_over_http : Forall (fun K : mirror (S := S) (SigNoz := SigNoz) =>
  SigNozServerLaws K -> forall ctx v, http_stale_reachable K NewClient rec ctx identity v ->
  stale_reachable (RO := kind K) NewClient rec ctx identity false (view_of K identity v) /\
  one_entry_accounted_for identity K (hv_now v)) mirrors.
Proof.
  eapply Forall_impl; [exact mirrors_well_mirrored|]. intros K HK laws ctx v Hv.
  pose proof (mirror_desired K HK) as DT. destruct (http_stale_Inv K NewClient rec ctx identity v Hv) as [Hw Hs].
  split; [by apply (http_stale_refines K NewClient rec ctx identity v)|]. apply Inv_entries; [by apply Hs|exact Hw].
Qed.
End Kinds.
