(* ===== verification/Fleet.v ===== *)
(** * Many objects of a kind at once

    A fleet: custom resources of one kind, each with an identity of its own, that
    share a SigNoz.  Their passes run concurrently, a call of one between two calls
    of another, and any of them may be cut short; users and others in SigNoz do
    what they may in HttpSystem.v. *)

From S2P Require Import Prelude GoStd Json Libraries Errors Kube Core JsonBody JsonBodySpec Effects Interfaces Reconciler Objects Adapters AdaptersSpec Protocol HttpApi HttpApiSpec HttpSystem.
From Stdlib Require Import String.

Local Open Scope string_scope.
Local Open Scope list_scope.

Section Fleet.
Context `{GJL : GjsonLaws} `{CMP : GoCmp} `{JE : JsonErrors} `{CF : CaseFolding} `{AM : ApiMachinery} `{SE : SemanticEqual CoreStatus}.
Context {S SigNoz Resolved : Type} `{SM : SpecMarshaler S} `{SV : SigNozServer (SigNoz := SigNoz)}.
Context (K : mirror (S := S) (SigNoz := SigNoz)).
Context (NewClient : Resolved -> SigNoz) (rec : commonReconciler) (ctx : Context).
(** The identity of each object, by the name of its custom resource. *)
Context (identity_of : string -> string).

#[local] Instance here : ResourceObject (ObjectTemplate S) := kind K.

Abbreviation object := (Object (ObjectTemplate S)).
Abbreviation E := (call (ObjectTemplate S) SigNoz Resolved).
Abbreviation st := (mirror_listing K).

(** What a fleet asks of the API besides: an update leaves an entry the name it
    has, or gives it the one that was sent. *)
Class SigNozServerFrame := {
  api_update_names : forall s ctx c id payload x s',
    server _ s (Exchange ctx c "PUT" (mirror_path K ++ "/" ++ id)%string (Some payload)) x s' ->
    Forall2 (fun v v' => id_of_entry v' = id_of_entry v /\
      forall identity, keeps_identity (mirror_identity K) identity payload ->
        mine st identity v' = true \/ text_of (matched_field st) v' = text_of (matched_field st) v) s s';
}.

(** An object, with what is left of the pass that runs over it, if one does. *)
Record member := MkMember {
  f_stored : object;
  f_live : bool;
  f_orphaned : bool;
  f_pass : option (prog E (object * Result * option error));
}.

Record fleet := MkFleet {
  f_members : gmap string member;
  f_entries : list value;
}.

(** The world of HttpSystem.v a member lives in. *)
Definition around (F : fleet) (m : member) : http_world := MkHttpWorld (f_stored m) (f_live m) (f_orphaned m) (f_entries F).
Definition member_of (h : http_world) (p : option (prog E (object * Result * option error))) : member :=
  MkMember (h_stored h) (h_live h) (h_orphaned h) p.

(** A call of member [n]: others in SigNoz may be at work between the pages of a
    lookup, as long as they keep every member's entries in place. *)
Definition undisputed (F : fleet) (s s' : list value) : Prop :=
  forall n, is_Some (f_members F !! n) -> steady st (identity_of n) s s'.

Definition member_respond (F : fleet) (n : string) (X : Type) (h : http_world) (e : E X) (x : X) (h' : http_world) : Prop :=
  match e in call _ _ _ X return X -> Prop with
  | Find ctx c o => fun x => same_object h h' /\
      exists fuel, exec (busy (undisputed F)) (mirror_Find K fuel ctx c o) (h_entries h) (Ret (Some x)) (h_entries h')
  | e => fun x => http_respond K (identity_of n) _ h e x h'
  end x.

(** No entry is of both identities. *)
Definition apart (x y : string) : Prop := forall v, mine st x v = true -> mine st y v = false.

(** What users and others do, seen by each member, is what they may do to it. *)
Definition outside (F F' : fleet) : Prop := listed st (f_entries F') /\
  forall n, match f_members F !! n, f_members F' !! n with
    | Some m, Some m' => f_pass m' = f_pass m /\ http_drift K (identity_of n) (around F m) (around F' m')
    | None, None => True
    | _, _ => False
    end.

Inductive fleet_step (F : fleet) : fleet -> Prop :=
  | fleet_join n m : f_members F !! n = None -> f_pass m = None -> http_fresh K (identity_of n) (around F m) ->
      (forall n', is_Some (f_members F !! n') -> apart (identity_of n) (identity_of n') /\ apart (identity_of n') (identity_of n)) ->
      fleet_step F (MkFleet (<[n := m]> (f_members F)) (f_entries F))
  | fleet_outside F' : outside F F' -> fleet_step F F'
  | fleet_begin n m : f_members F !! n = Some m -> f_pass m = None -> f_live m = true ->
      fleet_step F (MkFleet (<[n := member_of (around F m) (Some (Reconcile NewClient rec ctx (f_stored m)))]> (f_members F)) (f_entries F))
  | fleet_call n m X (e : E X) k x h' : f_members F !! n = Some m -> f_pass m = Some (Vis e k) ->
      member_respond F n X (around F m) e x h' ->
      fleet_step F (MkFleet (<[n := member_of h' (Some (k x))]> (f_members F)) (h_entries h'))
  | fleet_stop n m : f_members F !! n = Some m ->
      fleet_step F (MkFleet (<[n := member_of (around F m) None]> (f_members F)) (f_entries F)).

(** From a SigNoz that may hold anything, with no object yet. *)
Definition fleet_reachable (F : fleet) : Prop := exists s, listed st s /\ rtc fleet_step (MkFleet ∅ s) F.
End Fleet.
