(* ===== verification/FleetSpec.v ===== *)
(** * The members of a fleet do not get in each other's way

    What one member does is, for every other, what others may do anyway; so each
    lives in the system of HttpSystem.v, and what holds there holds of each. *)

From S2P Require Import Prelude GoStd Json Libraries Errors Kube Core JsonBody JsonBodySpec Conditions Effects Interfaces Reconciler Objects ObjectsSpec Adapters AdaptersSpec Protocol ProtocolSafety ProtocolRecovery HttpApi HttpApiSpec HttpSystem HttpSystemSpec Fleet.
From Stdlib Require Import String.

Local Open Scope string_scope.
Local Open Scope list_scope.

Section Spec.
Context `{GJL : GjsonLaws} `{CMP : GoCmp} `{JE : JsonErrors} `{CF : CaseFolding} `{AML : ApiMachineryLaws} `{SEL : SemanticEqualLaw CoreStatus}.
Context {S SigNoz Resolved : Type} `{SM : SpecMarshaler S} `{SV : SigNozServer (SigNoz := SigNoz)}.
Context (K : mirror (S := S) (SigNoz := SigNoz)) {HK : well_mirrored K} {laws : SigNozServerLaws K} {frame : SigNozServerFrame K}.
Context (NewClient : Resolved -> SigNoz) (rec : commonReconciler) (ctx : Context) (identity_of : string -> string).

#[local] Instance here : ResourceObject (ObjectTemplate S) := kind K.
#[local] Instance desired_here : DesiredFromTemplate (ObjectTemplate S) := mirror_desired K HK.

Abbreviation object := (Object (ObjectTemplate S)).
Abbreviation E := (call (ObjectTemplate S) SigNoz Resolved).
Abbreviation st := (mirror_listing K).
Abbreviation Reach n := (http_reachable K NewClient rec ctx (identity_of n)).
Abbreviation hstep n := (http_step (Resolved := Resolved) K (identity_of n)).
Abbreviation fleet := (Fleet.fleet (S := S) (SigNoz := SigNoz) (Resolved := Resolved)).
Abbreviation Pass := (prog E (object * Result * option error)).

(** ** Drift composes *)

Lemma drift_trans identity (w w1 w2 : world) : drift identity w w1 -> drift identity w1 w2 -> drift identity w w2.
Proof.
  intros (Ho1 & Hr1 & Hd1) (Ho2 & Hr2 & Hd2). split; [congruence|]. split; [set_solver|]. destruct (live w).
  - destruct Hd1 as ((Hi1 & Hs1 & Ha1 & Hh1 & Hx1) & Hl1). destruct (live w1) eqn:Hlive.
    + destruct Hd2 as ((Hi2 & Hs2 & Ha2 & Hh2 & Hx2) & Hl2). split; [|done]. repeat split; try congruence; try tauto.
    + destruct Hd2 as [-> ->]. split; [done|congruence].
  - destruct Hd1 as [<- Hl1]. by rewrite Hl1 in Hd2.
Qed.

Lemma http_drift_trans n h h1 h2 :
  http_drift K (identity_of n) h h1 -> http_drift K (identity_of n) h1 h2 -> http_drift K (identity_of n) h h2.
Proof. intros [Hd1 _] [Hd2 Hs]. split; [by eapply drift_trans|done]. Qed.

(** ** A member over time *)

(** A member's world is reachable, or what a pass that has come this far left of
    one, with what others did since. *)
Definition tracks (n : string) (h : http_world (S := S)) (p : option Pass) : Prop :=
  match p with
  | None => Reach n h
  | Some p => exists h0 h1, Reach n h0 /\ h_live h0 = true /\
      exec (hstep n) (Reconcile NewClient rec ctx (h_stored h0)) h0 p h1 /\ http_drift K (identity_of n) h1 h
  end.

Lemma tracks_reach n h p : tracks n h p -> Reach n h.
Proof.
  destruct p as [p|]; [|done]. intros (h0 & h1 & Hr & Hl & Hex & Hd).
  eapply http_reach_drift; [|exact Hd]. by eapply http_reach_pass.
Qed.

Lemma tracks_good n h p : tracks n h p -> Inv (identity_of n) (abstract K (identity_of n) h) /\ sound K (identity_of n) h.
Proof.
  intros Hr%tracks_reach. destruct (http_reachable_refines K NewClient rec (identity_of n) ctx h Hr) as [Hw Hs].
  split; [by eapply reachable_Inv|done].
Qed.

Lemma tracks_stays n h p : tracks n h p -> http_drift K (identity_of n) h h.
Proof. intros [Hw Hs]%tracks_good. split; [by apply drift_refl|done]. Qed.

Lemma tracks_drift n h h' p : tracks n h p -> http_drift K (identity_of n) h h' -> tracks n h' p.
Proof.
  destruct p as [p|]; cbn; [|by apply http_reach_drift]. intros (h0 & h1 & Hr & Hl & Hex & Hd) Hd'.
  exists h0, h1. do 3 (split; [done|]). by eapply http_drift_trans.
Qed.

Lemma tracks_begin n h : Reach n h -> h_live h = true -> tracks n h (Some (Reconcile NewClient rec ctx (h_stored h))).
Proof.
  intros Hr Hl. exists h, h. split; [done|]. split; [done|]. split; [by apply exec_refl|]. by apply (tracks_stays n h None).
Qed.

(** A call of the pass, made with the identity in hand. *)
Lemma tracks_call n h X (e : E X) k x h' : tracks n h (Some (Vis e k)) -> busy_respond K (identity_of n) X h e x h' ->
  carries K (identity_of n) e /\ tracks n h' (Some (k x)).
Proof.
  intros Ht Hr. pose proof Ht as (h0 & h1 & Hr0 & Hl & Hex & Hd).
  destruct (http_reachable_refines K NewClient rec (identity_of n) ctx h0 Hr0) as [_ [Hs Hours]].
  destruct (wp_call _ _ _ _ _ _ _ _ (Reconcile_ends K NewClient rec (identity_of n) ctx (h_stored h0) h0 (conj Hs Hours) (Hours Hl)) Hex) as [_ Hc].
  split; [exact Hc|].
  assert (exec (hstep n) (Reconcile NewClient rec ctx (h_stored h0)) h0 (k x) h') as Hex'.
  { eapply exec_trans; [exact Hex|]. eapply exec_step; [|apply exec_refl]. by exists h. }
  exists h0, h'. split; [done|]. split; [done|]. split; [done|].
  apply (tracks_stays n h' None). by apply (http_reach_pass K NewClient rec ctx (identity_of n) h0 (k x)).
Qed.

(** ** What a call does to the entries of another identity *)

(** Whether an entry is of an identity shows in its name. *)
Lemma mine_name y v v' : text_of (matched_field st) v' = text_of (matched_field st) v -> mine st y v' = mine st y v.
Proof. unfold mine. by destruct st; cbn [matched_field]; intros ->. Qed.

Lemma held_subset y s s' :
  (forall v', v' ∈ s' -> mine st y v' = true -> exists v, v ∈ s /\ mine st y v = true /\ id_of_entry v = id_of_entry v') ->
  held_ids st y s' ⊆ held_ids st y s.
Proof.
  intros Hin id. unfold held_ids. rewrite !elem_of_list_to_set, !elem_of_my_ids. intros (v' & Hv' & Hm & ->).
  destruct (Hin v' Hv' Hm) as (v & Hv & Hmv & Heq). by exists v.
Qed.

Lemma update_frame x y ctx' c (o : object) r res s s' : apart K x y -> specified K x (o_template o) ->
  exec server (commonTransport_Update ctx' c o r) s (Ret res) s' -> held_ids st y s' ⊆ held_ids st y s.
Proof.
  intros Hap Ho [->|(z & payload & Hkeep & Hz)]%(update_sends K x); [done| |done]. apply held_subset. intros v' Hv' Hm.
  apply list_elem_of_lookup in Hv' as [i Hi]. pose proof (api_update_names K _ _ _ _ _ _ _ Hz) as Hall.
  destruct (Forall2_lookup_r _ _ _ _ _ Hall Hi) as (v & Hv & Hid & Hname). exists v.
  split; [by eapply list_elem_of_lookup_2|]. split; [|done].
  destruct (Hname x Hkeep) as [Hx|Hsame]; [|by rewrite <- (mine_name y _ _ Hsame)].
  by rewrite (Hap _ Hx) in Hm.
Qed.

(** A call made with one identity in hand adds nothing of another. *)
Lemma respond_frame F n n' X (h : http_world) (e : E X) x h' :
  is_Some (f_members F !! n) -> is_Some (f_members F !! n') -> apart K (identity_of n) (identity_of n') ->
  sound K (identity_of n) h -> carries K (identity_of n) e -> member_respond K identity_of F n X h e x h' ->
  held_ids st (identity_of n') (h_entries h') ⊆ held_ids st (identity_of n') (h_entries h).
Proof.
  intros Hn Hn' Hap [Hs _] Hc Hr. destruct e; cbn [member_respond http_respond carries] in Hr, Hc; try (by destruct Hr as [_ ->]).
  - destruct Hr as [_ (fuel & Hex)]. pose proof Hc as (_ & _ & _ & _ & _ & Hne).
    destruct (mirrored_find (K := K) laws _ _ _ _ _ _ _ _ _ (specified_identity K _ o Hc) Hne Hs (fun s s' Hu => Hu n Hn) Hex) as [Hrtc _].
    assert (steady st (identity_of n') (h_entries h) (h_entries h')) as Hst.
    { clear -Hrtc Hn'. induction Hrtc as [|s s1 s2 Hu _ IH]; [done|]. etrans; [by apply Hu|exact IH]. }
    unfold held_ids. by rewrite (steady_my_ids _ _ _ _ Hst).
  - destruct Hr as [_ [[-> _]|(v & Hp & Hm & _)]%(create_entries K (identity_of n))]; [done| |done].
    apply held_subset. intros v' Hv' Hm'. rewrite Hp in Hv'. apply elem_of_cons in Hv' as [->|Hv']; [|by exists v'].
    by rewrite (Hap _ Hm) in Hm'.
  - destruct Hr as [_ ->%(read_entries K)]. done.
  - destruct Hr as [_ Hex]. by eapply update_frame.
  - destruct Hr as [_ Hex]. apply held_subset. intros v' Hv' Hm'. exists v'. split; [|done].
    apply (delete_entries K) in Hex as [Heq|Heq]; rewrite Heq in Hv'; [done|]. by apply list_elem_of_filter in Hv' as [_ ?].
Qed.

Lemma member_busy F n X h (e : E X) x h' : is_Some (f_members F !! n) ->
  member_respond K identity_of F n X h e x h' -> busy_respond K (identity_of n) X h e x h'.
Proof.
  intros Hn. destruct e; cbn [member_respond busy_respond]; try done. intros [Hs (fuel & Hex)]. split; [done|]. exists fuel.
  refine (exec_simulate (fun s => s) _ _ _ _ _ _ _ Hex). intros Y s e y s' (s1 & Hu & Hy). exists s1. split; [by apply Hu|done].
Qed.

(** So for another member it is a drift. *)
Lemma call_is_drift F n n' X (h : http_world) (e : E X) x h' m' p' : 
  is_Some (f_members F !! n) -> is_Some (f_members F !! n') -> apart K (identity_of n) (identity_of n') ->
  sound K (identity_of n) h -> carries K (identity_of n) e -> member_respond K identity_of F n X h e x h' ->
  h_entries h = f_entries F -> tracks n' (around F m') p' ->
  http_drift K (identity_of n') (around F m') (around (MkFleet (f_members F) (h_entries h')) m').
Proof.
  intros Hn Hn' Hap Hs Hc Hr Hent Ht. destruct (tracks_good _ _ _ Ht) as [Hw [Hs' Hours]].
  pose proof (respond_frame F n n' X h e x h' Hn Hn' Hap Hs Hc Hr) as Hsub. rewrite Hent in Hsub.
  destruct (answer_refines K _ _ _ _ _ _ Hs Hc (member_busy _ _ _ _ _ _ _ Hn Hr)) as (_ & [Hlisted _] & _).
  split; [|by split]. split; [done|]. split; [exact Hsub|]. by apply drift_refl in Hw as (_ & _ & Hw).
Qed.

(** ** The fleet *)

Record Fleet_Inv (F : fleet) : Prop := {
  fleet_tracks : forall n m, f_members F !! n = Some m -> tracks n (around F m) (f_pass m);
  fleet_apart : forall n n', n <> n' -> is_Some (f_members F !! n) -> is_Some (f_members F !! n') -> apart K (identity_of n) (identity_of n');
}.

(** A member replaced, the others following. *)
Lemma replaced_Inv F n m1 m2 s : Fleet_Inv F -> f_members F !! n = Some m1 ->
  (let F' := MkFleet (<[n := m2]> (f_members F)) s in
   tracks n (around F' m2) (f_pass m2) /\
   forall n' m', n' <> n -> f_members F !! n' = Some m' -> tracks n' (around F m') (f_pass m') -> tracks n' (around F' m') (f_pass m')) ->
  Fleet_Inv (MkFleet (<[n := m2]> (f_members F)) s).
Proof.
  intros [Ht Hap] Hn [Hn2 Hothers]. assert (forall n', is_Some (<[n := m2]> (f_members F) !! n') -> is_Some (f_members F !! n')) as Hdom.
  { intros n'. destruct (decide (n' = n)) as [->|Hne]; [intros _; by eexists|by rewrite lookup_insert_ne]. }
  split; cbn [f_members].
  - intros n' m'. destruct (decide (n' = n)) as [->|Hne].
    + rewrite lookup_insert_eq. by intros [= <-].
    + rewrite lookup_insert_ne by done. intros Hm'. by apply Hothers, Ht.
  - intros n1 n2 Hne Hs1%Hdom Hs2%Hdom. by apply Hap.
Qed.

Lemma fleet_step_Inv F F' : Fleet_Inv F -> fleet_step K NewClient rec ctx identity_of F F' -> Fleet_Inv F'.
Proof.
  intros HF Hstep. pose proof HF as [Ht Hap].
  destruct Hstep as [n m Hn Hp Hf Hnew|F' [Hs Hout]|n m Hn Hp Hl|n m X e k x h' Hn Hp Hr|n m Hn].
  - split; cbn [f_members].
    + intros n' m'. destruct (decide (n' = n)) as [->|Hne].
      * rewrite lookup_insert_eq. intros [= <-]. rewrite Hp. by apply http_reach_fresh.
      * rewrite lookup_insert_ne by done. apply Ht.
    + intros n1 n2 Hne. destruct (decide (n1 = n)) as [->|Hn1], (decide (n2 = n)) as [->|Hn2]; [done|..].
      * rewrite (lookup_insert_ne _ n n2) by done. intros _ Hs2. by apply Hnew.
      * rewrite (lookup_insert_ne _ n n1) by done. intros Hs1 _. by apply Hnew.
      * rewrite !lookup_insert_ne by done. by apply Hap.
  - assert (forall n, is_Some (f_members F' !! n) -> is_Some (f_members F !! n)) as Hdom.
    { intros n [m' Hm']. specialize (Hout n). rewrite Hm' in Hout. destruct (f_members F !! n); [by eexists|done]. }
    split.
    + intros n m' Hm'. specialize (Hout n). rewrite Hm' in Hout. destruct (f_members F !! n) as [m|] eqn:Hm; [|done].
      destruct Hout as [-> Hd]. eapply tracks_drift; [by apply Ht|exact Hd].
    + intros n1 n2 Hne Hs1%Hdom Hs2%Hdom. by apply Hap.
  - apply (replaced_Inv F n m); [done|done|]. split; [|done].
    specialize (Ht n m Hn). rewrite Hp in Ht. by apply (tracks_begin n (around F m)).
  - specialize (Ht n m Hn) as Htn. rewrite Hp in Htn. assert (is_Some (f_members F !! n)) as Hdom by (by eexists).
    destruct (tracks_call _ _ _ _ _ _ _ Htn (member_busy _ _ _ _ _ _ _ Hdom Hr)) as [Hc Htn'].
    apply (replaced_Inv F n m); [done|done|]. split; [by destruct h'|]. intros n' m' Hne Hm' Ht'.
    eapply tracks_drift; [exact Ht'|].
    assert (is_Some (f_members F !! n')) as Hdom' by (by eexists).
    by apply (call_is_drift F n n' X (around F m) e x h' m' (f_pass m') Hdom Hdom' (Hap _ _ (not_eq_sym Hne) Hdom Hdom') (proj2 (tracks_good _ _ _ Htn))).
  - apply (replaced_Inv F n m); [done|done|]. split; [|done]. specialize (Ht n m Hn). by apply (tracks_reach n (around F m)) in Ht.
Qed.

Lemma fleet_reachable_Inv F : fleet_reachable K NewClient rec ctx identity_of F -> Fleet_Inv F.
Proof.
  intros (s & _ & Hr). assert (Fleet_Inv (MkFleet ∅ s)) as HF.
  { split; cbn [f_members]; intros n; rewrite lookup_empty; [done|]. by intros n' _ [? ?]. }
  revert HF. induction Hr as [F|F F1 F2 Hs _ IH]; [done|]. intros HF. by eapply IH, fleet_step_Inv.
Qed.
End Spec.

Section Kinds.
Context `{GJL : GjsonLaws} `{CMP : GoCmp} `{JE : JsonErrors} `{CF : CaseFolding} `{AML : ApiMachineryLaws} `{SEL : SemanticEqualLaw CoreStatus}.
Context {S SigNoz Resolved : Type} `{SM : SpecMarshaler S} `{SV : SigNozServer (SigNoz := SigNoz)}.
Context (NewClient : Resolved -> SigNoz) (rec : commonReconciler) (identity_of : string -> string).

(** C10. Many objects at once.  For each of the ten kinds, against any SigNoz server
    that keeps the promises of its API: a fleet of custom resources of that kind,
    no entry being of two of their identities, that come and have passes run over
    them in any interleaving of their calls, cut short anywhere, with users and
    others at work in between.  Whatever has happened, each of them is where it
    could be on its own: SigNoz lists at most one entry of its identity, recorded
    or announced by it, and none without it unless orphaned. *)
Theorem concurrent_passes_are_independent : Forall (fun K : mirror (S := S) (SigNoz := SigNoz) =>
  SigNozServerLaws K -> SigNozServerFrame K -> forall ctx F, fleet_reachable K NewClient rec ctx identity_of F ->
  forall n m, f_members F !! n = Some m ->
    http_reachable K NewClient rec ctx (identity_of n) (around F m) /\
    one_entry_accounted_for (identity_of n) K (around F m)) mirrors.
Proof.
  eapply Forall_impl; [exact mirrors_well_mirrored|]. intros K HK laws frame ctx F HF n m Hn.
  pose proof (fleet_tracks _ _ _ _ _ _ (fleet_reachable_Inv K NewClient rec ctx identity_of F HF) n m Hn) as Ht.
  pose proof (tracks_reach K NewClient rec ctx identity_of n (around F m) (f_pass m) Ht) as Hr.
  split; [exact Hr|]. by apply (http_reachable_accounted NewClient rec (identity_of n) K ctx (around F m) HK laws Hr).
Qed.
End Kinds.
