(* ===== verification/HttpRecovery.v ===== *)
(** * Recovery, over HTTP

    The passes of ProtocolRecovery.v with the adapters in them: against a SigNoz
    that serves, a pass in which nothing goes wrong never gets stuck, and two of
    them bind the resource to the one entry of its identity. *)

From S2P Require Import Prelude GoStd Json JsonPrint Libraries Errors Kube Core JsonBody JsonBodySpec Conditions Effects Interp Interfaces Reconciler Objects ObjectsSpec Adapters AdaptersSpec ReconcilerSafety ReconcilerOutcome Protocol ProtocolProgress ProtocolSafety ProtocolRecovery ProtocolCalls HttpApi HttpApiSpec HttpServing HttpSystem HttpSystemSpec.
From Stdlib Require Import String.

Local Open Scope string_scope.
Local Open Scope list_scope.

Section Recovery.
Context `{GJL : GjsonLaws} `{CMP : GoCmp} `{JE : JsonErrors} `{CF : CaseFolding} `{AML : ApiMachineryLaws} `{SEL : SemanticEqualLaw CoreStatus}.
Context {S SigNoz Resolved : Type} `{SM : SpecMarshaler S} `{SV : SigNozServer (SigNoz := SigNoz)} `{IR : Inhabited Resolved}.
Context (accepts : string -> Prop) (shows : list value -> Prop).
Context (K : mirror (S := S) (SigNoz := SigNoz)) {HK : well_mirrored K} {laws : SigNozServerLaws K}.
Context {CAN : findable accepts shows K} {up : SigNozServes accepts shows K}.
Context (NewClient : Resolved -> SigNoz) (rec : commonReconciler) (identity : string).

#[local] Instance here : ResourceObject (ObjectTemplate S) := kind K.
#[local] Instance desired_here : DesiredFromTemplate (ObjectTemplate S) := mirror_desired K HK.

Abbreviation object := (Object (ObjectTemplate S)).
Abbreviation E := (call (ObjectTemplate S) SigNoz Resolved).
Abbreviation st := (mirror_listing K).
Abbreviation good := (sound K identity).
Abbreviation abs := (abstract K identity).
Abbreviation ours := (specified K identity).
Abbreviation hstep := (http_step (Resolved := Resolved) K identity).

(** A call answered over HTTP, with nothing going wrong. *)
Definition http_calm (X : Type) (h : http_world) (e : E X) (x : X) (h' : http_world) : Prop :=
  http_respond K identity X h e x h' /\ succeeds X (abs h) e x.

(** SigNoz takes what the desired state asks for: its body and the payload of an
    update, and it hashes. *)
Definition acceptable (t : ObjectTemplate S) : Prop := forall o : object, o_template o = t ->
  (forall body, Body o = Ok body -> accepts body) /\
  (forall payload, ToUpdate o = Ok (Some payload) -> accepts payload) /\
  is_ok (Interfaces.Hash o) = true.

(** The entry of the recorded id, if there is one, has the identity: it was not
    renamed away. *)
Definition not_renamed (o : object) (h : http_world (S := S)) : Prop :=
  forall v, v ∈ h_entries h -> id_of o = Ok (id_of_entry v) -> mine st identity v = true.

(** ** What a pass keeps of the entries *)

(** What is new has the identity, and what is not keeps its id and the identity. *)
Definition evolves (s s' : list value) : Prop := forall v', v' ∈ s' -> mine st identity v' = true \/
  exists v, v ∈ s /\ id_of_entry v' = id_of_entry v /\ (mine st identity v = true -> mine st identity v' = true).

Lemma evolves_subset s s' : (forall v, v ∈ s' -> v ∈ s) -> evolves s s'.
Proof. intros Hs v Hv. right. exists v. auto. Qed.

Lemma evolves_refl s s' : s' = s -> evolves s s'.
Proof. intros ->. by apply evolves_subset. Qed.

Lemma not_renamed_evolves o h h' : not_renamed o h -> evolves (h_entries h) (h_entries h') -> not_renamed o h'.
Proof.
  intros Hn He v' Hv' Hid. destruct (He v' Hv') as [?|(v & Hv & Heq & Hm)]; [done|]. apply Hm, Hn; [done|by rewrite Hid, Heq].
Qed.

Lemma create_evolves ctx c (o : object) x s s' :
  ours (o_template o) -> exec server (commonTransport_Create ctx c o) s (Ret x) s' -> evolves s s'.
Proof.
  intros Ho [[-> _]|(v & Hp & Hmine & _)]%(create_entries K identity); [by apply evolves_refl| |done].
  intros v' Hv'. rewrite Hp in Hv'. apply elem_of_cons in Hv' as [->|Hv']; [by left|]. right. by exists v'.
Qed.

Lemma update_evolves ctx c (o : object) r x s s' :
  ours (o_template o) -> exec server (commonTransport_Update ctx c o r) s (Ret x) s' -> evolves s s'.
Proof.
  intros Ho Hy%(update_entries K identity) v' Hv'; [|done].
  apply list_elem_of_lookup in Hv' as [i Hi]. destruct (Forall2_lookup_r _ _ _ _ _ Hy Hi) as (v & Hv & Hid & _ & Hm).
  right. exists v. split; [by eapply list_elem_of_lookup_2|done].
Qed.

Lemma delete_evolves ctx c (o : object) r x s s' :
  exec server (commonTransport_Delete ctx c o r) s (Ret x) s' -> evolves s s'.
Proof.
  intros [->| ->]%(delete_entries K); [by apply evolves_refl|]. apply evolves_subset. by intros v [_ Hv]%list_elem_of_filter.
Qed.

Lemma find_entries fuel ctx c (o : object) x s s' :
  ours (o_template o) -> listed st s -> exec server (mirror_Find K fuel ctx c o) s (Ret (Some x)) s' -> s' = s.
Proof.
  intros Ho Hs Hex. pose proof Ho as (_ & _ & _ & _ & _ & Hne).
  apply (exec_simulate (fun s => s) _ (busy eq)) in Hex; [|by intros X s1 e y s2 He; exists s1].
  assert (forall s s', s = s' -> steady st identity s s') as Heq by (by intros ? ? <-).
  destruct (mirrored_find (K := K) laws eq _ _ _ _ identity _ _ _ (specified_identity K identity o Ho) Hne Hs Heq Hex) as [Hrtc _].
  clear -Hrtc. by induction Hrtc as [|a b c <- _ IH].
Qed.

Lemma respond_evolves X h (e : E X) x h' :
  good h -> carries K identity e -> http_respond K identity X h e x h' -> evolves (h_entries h) (h_entries h').
Proof.
  intros [Hs _] Hc Hr. destruct e; cbn [http_respond carries] in Hr, Hc; try (by apply evolves_refl, Hr).
  - destruct Hr as [_ (fuel & Hex)]. apply evolves_refl. by eapply find_entries.
  - destruct Hr as [_ Hex]. by eapply create_evolves.
  - destruct Hr as [_ Hex]. apply evolves_refl. by eapply (read_entries K).
  - destruct Hr as [_ Hex]. by eapply update_evolves.
  - destruct Hr as [_ Hex]. by eapply delete_evolves.
Qed.

Lemma respond_shows X h (e : E X) x h' :
  http_respond K identity X h e x h' -> shows (h_entries h) -> shows (h_entries h').
Proof.
  assert (forall R (p p' : prog (http SigNoz) R) s s', exec server p s p' s' -> shows s -> shows s') as Hex.
  { intros R p p' s s'. apply exec_preserves. intros Y s1 f y s2. apply (serves_on accepts shows K). }
  destruct e; cbn [http_respond]; intros Hr; try (by destruct Hr as [_ ->]); try (destruct Hr as [_ Hr]; by eapply Hex).
  destruct Hr as [_ (fuel & Hr)]. by eapply Hex.
Qed.

(** ** The calls of the adapter, served *)

Section Served.
Context (s : list value) (Hs : listed st s) (Hsh : shows s).

Lemma create_run ctx c (o : object) :
  ours (o_template o) -> (forall body, Body o = Ok body -> accepts body) -> my_ids st identity s = [] ->
  exists r s', exec server (commonTransport_Create ctx c o) s (Ret (Ok r)) s'.
Proof.
  intros Ho Hacc Hnone. pose proof (specified_identity K identity o Ho) as Hid. revert Hid Hacc.
  unfold here, kind, commonTransport_Create. destruct (mirrored_object (K := K)) as (upd & imm & -> & _).
  cbn [Identity Body CreateMethodAndPath ToSigNozResource object_of]. unfold object_Identity, ExtractFromSpecs, object_Body.
  destruct (Render _ _) as [body|]; [|done]. intros Hid Hacc.
  destruct (serves_create accepts shows K _ ctx c body identity Hs Hsh (Hacc _ eq_refl) Hid Hnone) as (x & s' & Hx & Hok).
  destruct (api_create K _ _ _ _ _ _ Hx) as [[_ Hno]|(v & _ & _ & Hans)]; [congruence|].
  destruct (success x) as [answer|] eqn:Hsx; [|done]. eexists _, s'. eapply exchange_answered; [exact Hx|]. cbv beta.
  rewrite Hsx. unfold object_ToSigNozResource. by rewrite Hans.
Qed.

Lemma read_run ctx c (o : object) r id : GetIDFromSigNozResource r = Ok id ->
  exists x, exec server (commonTransport_Read ctx c o r) s (Ret x) s /\
    match x with Ok _ => id ∈ id_of_entry <$> s | Err e => IsNotFound (Some e) = true end.
Proof.
  intros Hid. unfold here, kind, commonTransport_Read. destruct (mirrored_object (K := K)) as (upd & imm & -> & _).
  cbn [ReadMethodAndPath object_of]. unfold id_or_zero. rewrite Hid. apply GetID_Ok in Hid as [_ Hne].
  destruct (serves_get accepts shows K _ ctx c id Hs Hsh Hne) as (x & s' & Hx & Hok & Hgone).
  destruct (api_get K _ _ _ _ _ _ Hx) as [-> _]. exists (success x). split; [by eapply exchange_answered|].
  destruct (success x) as [b|e] eqn:Hsx.
  - destruct (decide (id ∈ id_of_entry <$> s)) as [?|Hni]; [done|]. destruct (Hgone Hni) as (e & He & _). congruence.
  - destruct Hok as [?|(e' & He & Hnf)]; [done|]. congruence.
Qed.

Lemma update_run ctx c (o : object) r id : ours (o_template o) ->
  (forall payload, ToUpdate o = Ok (Some payload) -> accepts payload) -> is_ok (Interfaces.Hash o) = true ->
  GetIDFromSigNozResource r = Ok id -> id ∈ id_of_entry <$> s ->
  exists s', exec server (commonTransport_Update ctx c o r) s (Ret None) s'.
Proof.
  intros (body & m & Hb & Hd & _). unfold here, kind, commonTransport_Update.
  destruct (mirrored_object (K := K)) as (upd & imm & -> & Hp). cbn [UpdateMethodAndPath ToUpdate Interfaces.Hash object_of].
  unfold object_ToUpdate, object_Hash, object_Body, id_or_zero. rewrite Hb. intros Hacc Hh -> Hin.
  destruct (ExtractFields body upd) as [[payload|]|e] eqn:Hx; [|by exists s; apply exec_refl|].
  - destruct (serves_update accepts shows K _ ctx c id payload Hs Hsh (Hacc _ eq_refl) Hin) as (x & s' & Hy & [b Hok]%is_ok_true).
    exists s'. eapply exchange_answered; [exact Hy|]. cbv beta. by rewrite Hok.
  - exfalso. revert Hx. unfold ExtractFields. destruct (decide _); [done|]. revert Hh. unfold JsonBody.Hash, json_Unmarshal, json_Marshal.
    rewrite (proj1 Hd). destruct (Marshal (JObj m)) as [text|] eqn:Hm; [|done]. intros _.
    assert (is_Some (Marshal (JObj (extract_payload body upd [])))) as [t ->]; [|done].
    apply Marshal_object_some. apply Forall_cons in Hp as [_ Hp]. rewrite Forall_forall in Hp.
    apply (extract_payload_Forall (fun kv => is_Some (Marshal kv.2)) body m); [done|done| |done].
    apply Marshal_object_some. by eexists.
Qed.

Lemma delete_run ctx c (o : object) r id : GetIDFromSigNozResource r = Ok id ->
  exists x s', exec server (commonTransport_Delete ctx c o r) s (Ret x) s' /\ (x = None \/ IsNotFound x = true).
Proof.
  intros Hid. unfold here, kind, commonTransport_Delete. destruct (mirrored_object (K := K)) as (upd & imm & -> & _).
  cbn [DeleteMethodAndPath object_of]. unfold id_or_zero. rewrite Hid. apply GetID_Ok in Hid as [_ Hne].
  destruct (serves_delete accepts shows K _ ctx c id Hs Hsh Hne) as (x & s' & Hx & Hok).
  eexists _, s'. split; [by eapply exchange_answered|]. destruct Hok as [[b ->]%is_ok_true|(e & -> & Hnf)]; [by left|by right].
Qed.
End Served.

(** ** A pass, call by call *)

Section Begun.
(** The object as the pass was given it. *)
Context (o0 : object).

(** What holds at every call of an undisturbed pass. *)
Definition ready (X : Type) (h : http_world) (e : E X) : Prop :=
  good h /\ carries K identity e /\ h_live h = true /\ known o0 X (abs h) e /\
  (m_deletion (o_meta o0) = None -> not_renamed o0 h) /\ shows (h_entries h).

(** What holds of a run against the API, and of the calm run it is, together. *)
Lemma wp_over_http {R} (p : prog E R) Q1 Q2 h :
  wp hstep (fun X h (e : E X) => good h /\ carries K identity e) p Q1 h ->
  wp (calm (Resolved := Resolved)) (fun X w e => (Inv identity w /\ is_there X w e) /\ known o0 X w e) p Q2 (abs h) ->
  (m_deletion (o_meta o0) = None -> not_renamed o0 h) -> shows (h_entries h) ->
  wp http_calm ready p (fun r h' => Q1 r h' /\ Q2 r (abs h') /\ shows (h_entries h')) h.
Proof.
  revert h. induction p as [r|X e k IH]; cbn [wp]; intros h; [done|].
  intros [[Hh Hc] Hk1] [[[Hw Hl] Hkn] Hk2] Hn Hsh. split; [exact (conj Hh (conj Hc (conj Hl (conj Hkn (conj Hn Hsh)))))|]. intros x h' [Hr Hs].
  pose proof (respond_busy K identity _ _ _ _ _ Hr) as Hb.
  destruct (answer_refines K identity _ _ _ _ _ Hh Hc Hb) as (Hr' & _ & _). apply IH.
  - apply Hk1. exists h. split; [|exact Hb]. split; [by apply drift_refl|exact Hh].
  - apply Hk2. by split.
  - intros Hd. eapply not_renamed_evolves; [by apply Hn|]. by eapply respond_evolves.
  - by eapply respond_shows.
Qed.

(** ** Every such call can be answered *)

Definition with_world (h : http_world (S := S)) (w : world) : http_world (S := S) :=
  MkHttpWorld (stored w) (live w) (orphaned w) (h_entries h).
Definition with_entries (h : http_world (S := S)) (s : list value) : http_world (S := S) :=
  MkHttpWorld (h_stored h) (h_live h) (h_orphaned h) s.

Definition answerable (X : Type) (h : http_world) (e : E X) : Prop := exists x h', http_calm X h e x h'.

(** The API server's calls. *)
Definition kube {X} (e : E X) : bool :=
  match e with
  | KUpdate _ _ | KPatch _ _ _ | KStatusUpdate _ _ | TimeNow | Interfaces.ResolveRef _ _ _ _ => true
  | _ => false
  end.

Lemma kube_answerable X h (e : E X) : kube e = true -> h_live h = true -> answerable X h e.
Proof.
  intros He Hl. destruct (serve_calm X (abs h) e Hl) as [Hr Hs].
  exists (serve (abs h) e).1, (with_world h (serve (abs h) e).2). split; [|exact Hs]. destruct e; try done; by split.
Qed.

Lemma held_entry h id : id ∈ remote (abs h) -> id ∈ id_of_entry <$> h_entries h.
Proof.
  intros (v & Hv & _ & ->)%elem_of_list_to_set%elem_of_my_ids. apply list_elem_of_fmap. by exists v.
Qed.

Lemma my_ids_none h : listed st (h_entries h) -> remote (abs h) = ∅ -> my_ids st identity (h_entries h) = [].
Proof.
  intros Hs Hrem. apply (f_equal elements) in Hrem. cbn in Hrem. rewrite elements_empty in Hrem.
  apply Permutation_nil_r. rewrite <- Hrem. symmetry. by apply held_ids_elements.
Qed.

Lemma find_answerable ctx c (o : object) h : ready _ h (Find ctx c o : E _) -> answerable _ h (Find ctx c o : E _).
Proof.
  intros ([Hs _] & Hc & _ & _ & _ & Hsh). pose proof Hc as (_ & _ & _ & _ & _ & Hne).
  destruct (CAN laws up ctx c o identity (h_entries h) (specified_identity K identity o Hc) Hne Hs Hsh) as (fuel & found & Hex).
  exists (Ok found), h. split; [|done]. split; [done|]. by exists fuel.
Qed.

Lemma create_answerable ctx c (o : object) h : (m_deletion (o_meta o0) = None -> acceptable (o_template o0)) ->
  ready _ h (Create ctx c o : E _) -> answerable _ h (Create ctx c o : E _).
Proof.
  intros Hacc ([Hs _] & Hc & _ & (Hd & Ho & Hrem) & _ & Hsh). destruct (Hacc Hd o Ho) as (Hbody & _ & _).
  destruct (create_run (h_entries h) Hs Hsh ctx c o) as (r & s' & Hex); [done|done|by apply my_ids_none|].
  exists (Ok r), (with_entries h s'). by split.
Qed.

Lemma read_answerable ctx c (o : object) r h : ready _ h (Read ctx c o r : E _) -> answerable _ h (Read ctx c o r : E _).
Proof.
  intros ([Hs _] & Hc & _ & (Hd & id & Hid & Hkn) & Hn & Hsh).
  destruct (read_run (h_entries h) Hs Hsh ctx c o r id) as (x & Hex & Hx); [done..|].
  exists x, h. split; [by split|]. cbn [succeeds]. destruct x as [b|e]; [|exact Hx]. intros id' Hid'.
  rewrite Hid in Hid'. injection Hid' as <-. destruct Hkn as [Hkn|?]; [|done].
  apply list_elem_of_fmap in Hx as (v & -> & Hv). apply elem_of_list_to_set, elem_of_my_ids. exists v.
  split; [done|]. split; [by apply Hn|done].
Qed.

Lemma update_answerable ctx c (o : object) r h : (m_deletion (o_meta o0) = None -> acceptable (o_template o0)) ->
  ready _ h (Update ctx c o r : E _) -> answerable _ h (Update ctx c o r : E _).
Proof.
  intros Hacc ([Hs _] & Hc & _ & (Hd & Ho & id & Hid & Hin) & _ & Hsh). destruct (Hacc Hd o Ho) as (_ & Hpay & Hh).
  destruct (update_run (h_entries h) Hs Hsh ctx c o r id) as (s' & Hex); [done..|by apply held_entry|].
  exists None, (with_entries h s'). by split.
Qed.

Lemma delete_answerable ctx c (o : object) r h : ready _ h (Delete ctx c o r : E _) -> answerable _ h (Delete ctx c o r : E _).
Proof.
  intros ([Hs _] & Hc & _ & Hkn & _ & Hsh). apply is_ok_true in Hkn as [id Hid].
  destruct (delete_run (h_entries h) Hs Hsh ctx c o r id) as (x & s' & Hex & Hx); [done..|].
  exists x, (with_entries h s'). by split.
Qed.

Lemma ready_answerable : (m_deletion (o_meta o0) = None -> acceptable (o_template o0)) ->
  forall X h (e : E X), ready X h e -> answerable X h e.
Proof.
  intros Hacc X h e He. destruct (kube e) eqn:Hk; [apply kube_answerable; [done|apply He]|].
  destruct e; try done.
  - by apply find_answerable.
  - by apply create_answerable.
  - by apply read_answerable.
  - by apply update_answerable.
  - by apply delete_answerable.
Qed.
End Begun.

(** ** A live pass *)

Lemma live_pass ctx h :
  Inv identity (abs h) -> good h -> workable (abs h) -> shows (h_entries h) -> not_renamed (h_stored h) h ->
  wp http_calm (ready (h_stored h)) (Reconcile NewClient rec ctx (h_stored h)) (fun '(_, _, err) h' =>
    (good h' /\ shows (h_entries h')) /\ (Inv identity (abs h') /\ undeleted (abs h')) /\
    err = None /\ kept (h_stored h) (h_stored h') /\
    (bound (abs h') \/ remote (abs h) = ∅ /\ is_ok (id_of (h_stored h)) = true /\ is_ok (id_of (h_stored h')) = false)) h.
Proof.
  intros Hw Hh Hok Hsh Hn. pose proof (workable_undeleted _ Hok) as Hu. pose proof Hok as (Hl & _).
  pose proof (wp_calm_Inv identity _ _ _ (Reconcile_wp NewClient rec identity ctx (abs h) Hw Hl)) as HA.
  pose proof (undeleted_there (Reconcile NewClient rec ctx (h_stored h)) (abs h) Hu) as HB.
  pose proof (Reconcile_known NewClient rec ctx (abs h) (inv_ids _ _ Hw)) as HC.
  pose proof (Reconcile_calm NewClient rec identity ctx (abs h) Hw Hok) as HD.
  pose proof (wp_both _ _ _ _ _ _ _ (wp_both _ _ _ _ _ _ _ (wp_both _ _ _ _ _ _ _ HA HB) HC) HD) as Habs.
  eapply wp_pre_mono in Habs; [|intros X w e [Hpre _]; exact Hpre].
  eapply wp_mono; [|apply (wp_over_http _ _ _ _ h (Reconcile_ends K NewClient rec identity ctx (h_stored h) h Hh (proj2 Hh Hl)) Habs (fun _ => Hn) Hsh)].
  intros [[o res] err] h' (Hh' & [[[Hw' Hu'] _] Hout] & Hsh'). exact (conj (conj Hh' Hsh') (conj (conj Hw' Hu') Hout)).
Qed.

(** What is recorded names the one entry of the identity. *)
Definition bound_over_http (h : http_world (S := S)) : Prop :=
  exists v, v ∈ h_entries h /\ mine st identity v = true /\ id_of (h_stored h) = Ok (id_of_entry v) /\
    my_ids st identity (h_entries h) = [id_of_entry v].

Lemma bound_entry h : good h -> bound (abs h) -> bound_over_http h.
Proof.
  intros [Hs _] (id & Hid & Hrem). pose proof (held_ids_elements st identity _ Hs) as Hp. cbn in Hrem.
  rewrite Hrem, elements_singleton in Hp. symmetry in Hp. apply Permutation_singleton_r in Hp.
  assert (id ∈ my_ids st identity (h_entries h)) as (v & Hv & Hm & ->)%elem_of_my_ids by (rewrite Hp; by left).
  by exists v.
Qed.

(** Ids are distinct, so the entry of the recorded id is the one of the identity. *)
Lemma bound_not_renamed h : good h -> bound_over_http h -> not_renamed (h_stored h) h.
Proof.
  intros ((_ & _ & Hnd) & _) (v & Hv & Hm & Hid & _) v' Hv' Hid'. rewrite Hid in Hid'. injection Hid' as Heq.
  apply list_elem_of_lookup in Hv as [i Hi], Hv' as [j Hj].
  assert (i = j) as ->; [|congruence].
  apply (NoDup_lookup _ i j (id_of_entry v) Hnd); rewrite list_lookup_fmap; [by rewrite Hi|rewrite Hj; cbn; congruence].
Qed.

(** Two live passes in a row. *)
Lemma two_passes ctx h :
  Inv identity (abs h) -> good h -> workable (abs h) -> acceptable (o_template (h_stored h)) -> shows (h_entries h) ->
  not_renamed (h_stored h) h ->
  always http_calm (Reconcile NewClient rec ctx (h_stored h)) h (fun _ h1 =>
    always http_calm (Reconcile NewClient rec ctx (h_stored h1)) h1 (fun '(_, _, err) h2 =>
      err = None /\ bound_over_http h2)).
Proof.
  intros Hw Hh Hok Hacc Hsh Hn. eapply wp_always; [by apply (ready_answerable (h_stored h))|].
  eapply wp_mono; [|by apply live_pass]. intros [[o1 res1] err1] h1 ([Hh1 Hsh1] & [Hw1 Hu1] & _ & Hk & Hout1).
  pose proof (kept_workable _ (abs h1) Hok Hk (proj1 Hu1)) as Hok1. pose proof Hk as (_ & Ht & _).
  assert (not_renamed (h_stored h1) h1) as Hn1.
  { destruct Hout1 as [Hb|(_ & _ & Hno)]; [by apply bound_not_renamed, bound_entry|]. intros v _ Hid. cbn in Hno. by rewrite Hid in Hno. }
  eapply wp_always; [apply (ready_answerable (h_stored h1)); by rewrite Ht|].
  eapply wp_mono; [|by apply live_pass]. intros [[o2 res2] err2] h2 ([Hh2 _] & _ & -> & _ & Hout2). split; [done|].
  destruct Hout2 as [Hb|(Hrem & Hid & _)]; [by apply bound_entry|].
  destruct Hout1 as [(id & _ & Hrem1)|(_ & _ & Hno)]; [set_solver|congruence].
Qed.

(** ** A deletion pass *)

Lemma deletion_pass ctx h :
  Inv identity (abs h) -> good h -> h_live h = true -> is_Some (m_deletion (o_meta (h_stored h))) -> held (h_stored h) ->
  ReclaimPolicy (o_spec (h_stored h)) <> ReclaimOrphan -> shows (h_entries h) ->
  always http_calm (Reconcile NewClient rec ctx (h_stored h)) h (fun '(_, _, err) h' =>
    err = None /\ my_ids st identity (h_entries h') = [] /\ ~ held (h_stored h')).
Proof.
  intros Hw Hh Hl [d Hd] Hheld Hpol Hsh. eapply wp_always.
  { apply (ready_answerable (h_stored h)). by rewrite Hd. }
  pose proof (wp_calm_Inv identity _ _ _ (Reconcile_wp NewClient rec identity ctx (abs h) Hw Hl)) as HA.
  assert (Reconcile NewClient rec ctx (h_stored h) = finalize NewClient rec
    (if decide (0 < timeout rec (h_stored h))%Z then WithTimeout ctx (timeout rec (h_stored h)) else ctx) (h_stored h)) as Heq.
  { unfold Reconcile. by rewrite Hd. }
  assert (wp (calm (Resolved := Resolved)) is_there (Reconcile NewClient rec ctx (h_stored h)) (fun _ _ => True) (abs h)) as HB.
  { rewrite Heq. apply writes_last_there; [apply finalize_writes_last|exact Hl]. }
  pose proof (Reconcile_known NewClient rec ctx (abs h) (inv_ids _ _ Hw)) as HC.
  pose proof (finalize_calm NewClient rec identity
    (if decide (0 < timeout rec (h_stored h))%Z then WithTimeout ctx (timeout rec (h_stored h)) else ctx)
    (h_stored h) (abs h) (conj Hw (conj Hl Hheld)) (local_stored identity (abs h) Hw Hl) Hheld Hpol) as HD.
  rewrite <- Heq in HD.
  pose proof (wp_both _ _ _ _ _ _ _ (wp_both _ _ _ _ _ _ _ (wp_both _ _ _ _ _ _ _ HA HB) HC) HD) as Habs.
  eapply wp_pre_mono in Habs; [|intros X w e [Hpre _]; exact Hpre].
  assert (m_deletion (o_meta (h_stored h)) = None -> not_renamed (h_stored h) h) as Hn by (by rewrite Hd).
  eapply wp_mono; [|apply (wp_over_http _ _ _ _ h (Reconcile_ends K NewClient rec identity ctx (h_stored h) h Hh (proj2 Hh Hl)) Habs Hn Hsh)].
  intros [[o res] err] h' ([Hs' _] & [_ (-> & Hrem & Hno)] & _). split; [done|]. split; [|done].
  by apply my_ids_none.
Qed.
End Recovery.

(** ** All ten kinds *)

Section Kinds.
Context `{GJL : GjsonLaws} `{CMP : GoCmp} `{JE : JsonErrors} `{CF : CaseFolding} `{AML : ApiMachineryLaws} `{SEL : SemanticEqualLaw CoreStatus}.
Context {S SigNoz Resolved : Type} `{SM : SpecMarshaler S} `{SV : SigNozServer (SigNoz := SigNoz)} `{IR : Inhabited Resolved}.
Context (accepts : string -> Prop) (shows : list value -> Prop).
Context (NewClient : Resolved -> SigNoz) (rec : commonReconciler) (identity : string).

Abbreviation undisturbed K := (always (http_calm (Resolved := Resolved) K identity)).
Abbreviation pass K := (Reconcile (RO := kind K) NewClient rec).

Lemma mirrors_recoverable : Forall (fun K : mirror (S := S) (SigNoz := SigNoz) => well_mirrored K /\ findable accepts shows K) mirrors.
Proof. apply Forall_and. split; [exact mirrors_well_mirrored|apply mirrors_findable]. Qed.

(** C6. Two undisturbed passes recover over HTTP.  For each of the ten kinds, with
    its adapter, against any server that keeps the promises of its API, is up and
    takes the body and the payload the custom resource asks for: from every state
    the operator can reach, over an object that is neither deleted, suspended nor
    pinned and whose entry was not renamed away, two passes in which nothing goes
    wrong never get stuck (every call has an answer, paged lookups end), and end
    without an error, with one entry of the identity, named by the recorded id. *)
Theorem two_calm_passes_recover_over_http : Forall (fun K : mirror (S := S) (SigNoz := SigNoz) =>
  SigNozServerLaws K -> SigNozServes accepts shows K -> forall ctx h,
  http_reachable K NewClient rec ctx identity h -> workable (RO := kind K) (abstract K identity h) ->
  acceptable accepts K (o_template (h_stored h)) -> shows (h_entries h) -> not_renamed K identity (h_stored h) h ->
  undisturbed K (pass K ctx (h_stored h)) h (fun _ h1 =>
    undisturbed K (pass K ctx (h_stored h1)) h1 (fun '(_, _, err) h2 => err = None /\ bound_over_http K identity h2))) mirrors.
Proof.
  eapply Forall_impl; [exact mirrors_recoverable|]. intros K [HK CAN] laws up ctx h Hr Hok Hacc Hsh Hn.
  pose proof (mirror_desired K HK) as DT. destruct (http_reachable_refines K NewClient rec identity ctx h Hr) as [Hw Hh].
  apply (two_passes accepts shows); try done. by eapply reachable_Inv.
Qed.

(** C7. Deletion reclaims over HTTP.  For each of the ten kinds, against such a
    server: from every state the operator can reach, a pass in which nothing goes
    wrong over an object that is being deleted, that the finalizer holds and that
    is not to be orphaned never gets stuck, and ends without an error, with no
    entry of the identity left in SigNoz and the finalizer dropped. *)
Theorem calm_deletion_reclaims_over_http : Forall (fun K : mirror (S := S) (SigNoz := SigNoz) =>
  SigNozServerLaws K -> SigNozServes accepts shows K -> forall ctx h,
  http_reachable K NewClient rec ctx identity h -> h_live h = true -> is_Some (m_deletion (o_meta (h_stored h))) ->
  held (h_stored h) -> ReclaimPolicy (o_spec (h_stored h)) <> ReclaimOrphan ->
  shows (h_entries h) ->
  undisturbed K (pass K ctx (h_stored h)) h (fun '(_, _, err) h' =>
    err = None /\ my_ids (mirror_listing K) identity (h_entries h') = [] /\ ~ held (h_stored h'))) mirrors.
Proof.
  eapply Forall_impl; [exact mirrors_recoverable|]. intros K [HK CAN] laws up ctx h Hr Hl Hd Hheld Hpol Hsh.
  pose proof (mirror_desired K HK) as DT. destruct (http_reachable_refines K NewClient rec identity ctx h Hr) as [Hw Hh].
  apply (deletion_pass accepts shows); try done. by eapply reachable_Inv.
Qed.
End Kinds.
