(* ===== verification/HttpStaleRecovery.v ===== *)
(** * Recovery once the cache has caught up

    What passes that began from old versions left behind is a state the recovery of
    HttpRecovery.v starts from, so lagging caches cost nothing in the end. *)

From S2P Require Import Prelude GoStd Json Libraries Errors Kube Core JsonBody JsonBodySpec Conditions Effects Interfaces Reconciler Objects ObjectsSpec Adapters AdaptersSpec Protocol ProtocolSafety ProtocolProgress ProtocolRecovery Stale StaleSafety HttpApi HttpApiSpec HttpServing HttpSystem HttpSystemSpec HttpStale HttpRecovery.
From Stdlib Require Import String.

Section Kinds.
Context `{GJL : GjsonLaws} `{CMP : GoCmp} `{JE : JsonErrors} `{CF : CaseFolding} `{AML : ApiMachineryLaws} `{SEL : SemanticEqualLaw CoreStatus}.
Context {S SigNoz Resolved : Type} `{SM : SpecMarshaler S} `{SV : SigNozServer (SigNoz := SigNoz)} `{IR : Inhabited Resolved}.
Context (accepts : string -> Prop) (shows : list value -> Prop).
Context (NewClient : Resolved -> SigNoz) (rec : commonReconciler) (identity : string).

Abbreviation undisturbed K := (always (http_calm (Resolved := Resolved) K identity)).
Abbreviation pass K := (Reconcile (RO := kind K) NewClient rec).

(** C11. Lagging caches do not stand in the way.  For each of the ten kinds, against
    any server that keeps the promises of its API, is up and takes what the custom
    resource asks for: from every state that passes over old versions of the object
    can reach, once a pass begins from the object as it is, two passes in which
    nothing goes wrong bind a workable object to the one entry of its identity, and
    one reclaims the entry of an object that is being deleted; none gets stuck. *)
Theorem lagging_operator_recovers : Forall (fun K : mirror (S := S) (SigNoz := SigNoz) =>
  SigNozServerLaws K -> SigNozServes accepts shows K -> forall ctx v,
  http_stale_reachable K NewClient rec ctx identity v -> shows (h_entries (hv_now v)) ->
  let h := hv_now v in
  (workable (RO := kind K) (abstract K identity h) -> acceptable accepts K (o_template (h_stored h)) ->
   not_renamed K identity (h_stored h) h ->
   undisturbed K (pass K ctx (h_stored h)) h (fun _ h1 =>
     undisturbed K (pass K ctx (h_stored h1)) h1 (fun '(_, _, err) h2 => err = None /\ bound_over_http K identity h2))) /\
  (h_live h = true -> is_Some (m_deletion (o_meta (h_stored h))) -> held (h_stored h) ->
   ReclaimPolicy (o_spec (h_stored h)) <> ReclaimOrphan ->
   undisturbed K (pass K ctx (h_stored h)) h (fun '(_, _, err) h' =>
     err = None /\ my_ids (mirror_listing K) identity (h_entries h') = [] /\ ~ held (h_stored h')))) mirrors.
Proof.
  eapply Forall_impl; [apply (mirrors_recoverable accepts shows)|]. intros K [HK CAN] laws up ctx v Hv Hsh.
  pose proof (mirror_desired K HK) as DT. destruct (http_stale_Inv K NewClient rec ctx identity v Hv) as [Hw Hh]. split.
  - intros Hok Hacc Hn. by apply (two_passes accepts shows).
  - intros Hl Hd Hheld Hpol. by apply (deletion_pass accepts shows).
Qed.
End Kinds.
