(* ===== verification/HttpWitness.v ===== *)
(** * The system over HTTP, at a server that evaluates

    A server of auth domains, and a pass that finds none, creates one and crashes
    before its id is recorded. *)

From S2P Require Import Prelude GoStd Json Libraries Errors Kube Core JsonBody JsonBodySpec Conditions Effects Interfaces Reconciler Objects ObjectsSpec Adapters AdaptersSpec Fixture LibraryWitness Protocol HttpApi HttpApiSpec HttpSystem HttpSystemSpec.
From Stdlib Require Import String.

Local Open Scope string_scope.
Local Open Scope list_scope.

(** ** The server *)

Abbreviation cp := "/api/v2/auth_domains".
Definition item_of (v : value) : string := (cp ++ "/" ++ id_of_entry v)%string.
Definition is_item (path : string) (v : value) : bool := bool_decide (path = item_of v).

Abbreviation answer := (result (Z * option string) error).
Definition down : answer := Err (EBase (New ReasonUnreachable "down")).
Definition missing : answer := Ok (404%Z, None).

Definition list_domains (s : list value) : answer :=
  let data := JObj [("data", JArr s)] in
  match Marshal data with
  | Some raw => if bool_decide (Unmarshal raw = Some data) && (DistinctKeys raw && WellEncoded raw) then Ok (200%Z, Some raw) else down
  | None => down
  end.

(** The domains of the examples; the server makes no others. *)
Definition other : value := JObj [("id", JStr "d9"); ("name", JStr "y")].
Definition created : value := JObj [("id", JStr "d1"); ("name", JStr "x")].
Definition alone : value := JObj [("id", JStr "d0"); ("name", JStr "x")].
Definition shown : list (list value) := [[]; [other]; [created]; [created; other]; [alone]].

Definition add_domain (s : list value) (body : string) : answer * list value :=
  match ExtractString body "name" with
  | Err _ => (Ok (400%Z, None), s)
  | Ok name =>
      let id := ("d" ++ Itoa (Z.of_nat (List.length s)))%string in
      let raw := json_of ("{'data':{'id':'" ++ id ++ "'}}") in
      match ExtractString raw "data.id" with
      | Ok id' =>
          let s' := JObj [("id", JStr id); ("name", JStr name)] :: s in
          if decide (id' = id /\ (id ∉ id_of_entry <$> s) /\ s' ∈ shown) then (Ok (201%Z, Some raw), s') else (down, s)
      | Err _ => (down, s)
      end
  end.

Definition domain_server (s : list value) (method path : string) (body : option string) : answer * list value :=
  if decide (method = "GET") then
    if decide (path = cp) then (list_domains s, s)
    else if existsb (is_item path) s then (Ok (200%Z, Some "{}"), s) else (missing, s)
  else if decide (method = "POST") then
    match body with Some b => if decide (path = cp) then add_domain s b else (missing, s) | None => (missing, s) end
  else if decide (method = "PUT") then (Ok (200%Z, None), s)
  else if decide (method = "DELETE") then
    if existsb (is_item path) s then (Ok (200%Z, None), filter (fun v => is_item path v = false) s) else (missing, s)
  else (missing, s).

#[export] Instance serve_domains : SigNozServer (SigNoz := string) := fun X s e =>
  match e in http _ X return X -> list value -> Prop with
  | Exchange _ _ method path body => fun x s' => domain_server s method path body = (x, s')
  end.

Definition domain_mirror : mirror (S := string) (SigNoz := string) :=
  MkMirror AuthDomainObject cp "name" (Collection "name") (all_at_once (AuthDomainAdapter_Find (RO := AuthDomainObject))).

Lemma domain_mirrored : domain_mirror ∈ mirrors.
Proof. left. Qed.

(** ** It keeps the promises *)

Lemma list_domains_lists s body : success (list_domains s) = Ok body -> exists raw, body = Some raw /\ list_response raw s.
Proof.
  unfold list_domains. destruct (Marshal _) as [raw|]; [|done]. destruct (_ && _) eqn:Hd; [|done].
  apply andb_true_iff in Hd as [Hu%bool_decide_eq_true Hk]. cbn. intros [= <-]. exists raw. split; [done|].
  exists [("data", JArr s)]. by split.
Qed.

Lemma items_exist path s : existsb (is_item path) s = false <-> forall id, path = (cp ++ "/" ++ id)%string -> id ∉ id_of_entry <$> s.
Proof.
  split.
  - intros He id -> (v & -> & Hv)%list_elem_of_fmap. apply not_true_iff_false in He. apply He, existsb_exists.
    exists v. split; [by apply list_elem_of_In|]. by apply bool_decide_eq_true.
  - intros Hn. apply not_true_iff_false. intros (v & Hv & Hi%bool_decide_eq_true)%existsb_exists.
    apply (Hn (id_of_entry v) Hi). apply list_elem_of_fmap. exists v. split; [done|by apply list_elem_of_In].
Qed.

Lemma add_domain_adds s body x s' : add_domain s body = (x, s') ->
  s' = s /\ is_ok (success x) = false \/
  exists id name raw, ExtractString body "name" = Ok name /\ x = Ok (201%Z, Some raw) /\ ExtractString raw "data.id" = Ok id /\
    id <> "" /\ (id ∉ id_of_entry <$> s) /\ s' = JObj [("id", JStr id); ("name", JStr name)] :: s /\ s' ∈ shown.
Proof.
  unfold add_domain. destruct (ExtractString body "name") as [name|]; [|intros [= <- <-]; by left]. cbv zeta.
  destruct (ExtractString (json_of _) "data.id") as [id|] eqn:Hid; [|intros [= <- <-]; by left].
  destruct (decide _) as [(Heq & Hnew & Hin)|]; [|intros [= <- <-]; by left]. intros [= <- <-]. right.
  eexists id, name, _. split; [done|]. split; [by rewrite Heq|]. rewrite <- Heq in *. split; [exact Hid|].
  split; [by eapply ExtractString_ne|]. by split.
Qed.

Lemma add_domain_listed s body x s' : add_domain s body = (x, s') -> listed (Collection "name") s -> listed (Collection "name") s'.
Proof.
  intros Hx (Hty & Hids & Hnd). destruct (add_domain_adds _ _ _ _ Hx) as [[-> _]|(id & name & raw & _ & _ & _ & Hne & Hnew & -> & _)]; [done|].
  split; [by constructor|]. split; [by constructor|]. by constructor.
Qed.

Lemma item_inj id id' : (cp ++ "/" ++ id)%string = (cp ++ "/" ++ id')%string -> id = id'.
Proof. intros He. by do 2 apply append_inj_l in He. Qed.

#[export] Instance serve_domains_laws : SigNozServerLaws domain_mirror.
Proof.
  split; unfold server, serve_domains; cbn [mirror_path mirror_listing mirror_identity domain_mirror].
  - intros X s e x s'. destruct e as [ctx c method path body]. unfold domain_server.
    repeat (case_decide || case_match); try (by intros [= _ <-]).
    + apply add_domain_listed.
    + intros [= _ <-] (Hty & Hids & Hnd). split; [|split].
      * rewrite Forall_forall in *. intros v [_ Hv]%list_elem_of_filter. by apply Hty.
      * rewrite Forall_forall in *. intros v [_ Hv]%list_elem_of_filter. by apply Hids.
      * eapply sublist_NoDup; [exact Hnd|]. apply fmap_sublist, sublist_filter.
  - intros s ctx c path x s' body. unfold domain_server. rewrite decide_True by done. intros Hx Hok ->.
    rewrite decide_True in Hx by done. injection Hx as <- <-. by apply list_domains_lists.
  - intros s ctx c path x s'. unfold domain_server. rewrite decide_True by done. intros Hx.
    assert (s' = s) as -> by (repeat (case_decide || case_match); congruence). split; [done|]. intros id -> (e & He & Hnf).
    rewrite decide_False in Hx by done. destruct (existsb _ s) eqn:Hex; [by injection Hx as <-|].
    by apply (proj1 (items_exist _ s) Hex).
  - intros s ctx c body x s'. unfold domain_server. rewrite decide_False, decide_True, decide_True by done.
    intros [[-> Hno]|(id & name & raw & Hb & -> & Hid & _ & _ & -> & _)]%add_domain_adds; [by left|right].
    exists (JObj [("id", JStr id); ("name", JStr name)]). split; [done|]. split; [|exact Hid].
    intros identity Hi. rewrite Hb in Hi. injection Hi as <-. by apply bool_decide_eq_true.
  - intros s ctx c id payload x s'. unfold domain_server. rewrite !decide_False, decide_True by done. intros [= _ <-].
    apply Forall_Forall2_diag, Forall_forall. intros v _. done.
  - intros s ctx c id x s'. unfold domain_server. rewrite !decide_False, decide_True by done.
    destruct (existsb _ s) eqn:Hex; intros [= <- <-].
    + left. split; [|by intros (e & He & _)]. apply list_filter_iff. intros v. unfold is_item.
      rewrite bool_decide_eq_false. unfold item_of. split; intros Hn He; apply Hn; [by rewrite He|by apply item_inj in He].
    + right. split; [done|]. split; [done|]. intros _. by apply (proj1 (items_exist _ s) Hex).
Qed.

(** ** A pass that crashes after the create *)

Definition new_domain : domain :=
  MkObject (meta None [ResourceFinalizer] ∅) (spec ReclaimDelete false) (MkTemplate None (Some desired)) (status None "").
Definition announced : domain :=
  with_meta new_domain (set_annotations (o_meta new_domain) {[AnnotationCreateAttempt := "1970-01-01T00:00:00Z"]}).

Abbreviation http_state := (http_world (S := string)).
Abbreviation Domains := (http_reachable (Resolved := string) domain_mirror newClient operator background "x").

Definition start : http_state := MkHttpWorld new_domain true false [other].
Definition crashed : http_state := MkHttpWorld announced true false [created; other].

Lemma domain_specified : specified domain_mirror "x" (o_template new_domain).
Proof.
  exists desired, (members desired). split; [reflexivity|]. split; [split; vm_compute; reflexivity|]. split; [vm_compute; reflexivity|discriminate].
Qed.

Lemma domain_sound (o : domain) b s : o_template o = o_template new_domain -> Forall (well_typed "name") s ->
  Forall (fun v => id_of_entry v <> "") s -> NoDup (id_of_entry <$> s) -> sound domain_mirror "x" (MkHttpWorld o true b s).
Proof. intros Ho ???. split; [by split|]. intros _. cbn. rewrite Ho. exact domain_specified. Qed.

Lemma start_sound : sound domain_mirror "x" start.
Proof. apply domain_sound; [done|by repeat constructor|by repeat constructor|apply NoDup_singleton]. Qed.

Lemma domain_stays (h : http_state) : h_live h = true -> gone (h_stored h) = false ->
  Identity (ResourceObject := kind domain_mirror) (h_stored h) = Ok "x" -> sound domain_mirror "x" h -> http_drift domain_mirror "x" h h.
Proof.
  intros Hl Hg Hi Hs. split; [|exact Hs]. split; [done|]. split; [done|]. cbn [abstract live stored]. rewrite Hl, Hg.
  by repeat split.
Qed.

Definition announcing : http_state := MkHttpWorld announced true false [other].

Lemma announcing_sound : sound domain_mirror "x" announcing.
Proof. apply domain_sound; [reflexivity|by repeat constructor|by repeat constructor|apply NoDup_singleton]. Qed.

Lemma start_stays : http_drift domain_mirror "x" start start.
Proof. apply domain_stays; [reflexivity|reflexivity|vm_compute; reflexivity|exact start_sound]. Qed.

Lemma announcing_stays : http_drift domain_mirror "x" announcing announcing.
Proof. apply domain_stays; [reflexivity|reflexivity|vm_compute; reflexivity|exact announcing_sound]. Qed.

(** The write that announces the create takes effect. *)
Lemma patch_announces accepts orphan :
  accepts = patched (with_meta new_domain (set_annotations (o_meta new_domain)
    (<[AnnotationCreateAttempt := "1970-01-01T00:00:00Z"]> ∅))) new_domain new_domain -> orphan = false ->
  written_to (abstract domain_mirror "x" start) accepts orphan (Ok announced) (abstract domain_mirror "x" announcing).
Proof.
  intros -> ->. left. split; [reflexivity|]. exists announced. split; [|split; [reflexivity|by left]].
  do 5 (split; [reflexivity|]). intros k.
  destruct (decide (k = AnnotationCreateAttempt)) as [->|Hk]; [reflexivity|]. unfold annotation. cbn.
  by rewrite !lookup_insert_ne by done.
Qed.

Abbreviation hstep := (http_step (Resolved := string) domain_mirror "x").

(** A lookup, by what the server lists. *)
Lemma domains_found (o : domain) identity ctx c s found : Identity (ResourceObject := AuthDomainObject) o = Ok identity ->
  match success (list_domains s) with
  | Ok r => let data := GetBytes (raw_of r) "data" in
      negb (Exists data) || negb (IsArray data) = false /\ matching "name" identity (Array data) = Ok found
  | Err _ => False
  end -> exec server (mirror_Find domain_mirror 0 ctx c o) s (Ret (Some (Ok found))) s.
Proof.
  intros Hid Hf. eapply exec_bind; [|apply exec_refl]. unfold AuthDomainAdapter_Find, findByField. rewrite Hid.
  eapply exec_bind; [eapply (exec_step _ _ _ (list_domains s)); [reflexivity|apply exec_refl]|].
  destruct (success (list_domains s)); [|done]. cbv zeta in *. destruct Hf as [-> ->]. apply exec_refl.
Qed.

Lemma nothing_found ctx c :
  exec server (mirror_Find domain_mirror 0 ctx c new_domain) [other] (Ret (Some (Ok []))) [other].
Proof. apply (domains_found new_domain "x"); vm_compute; [reflexivity|by split]. Qed.

Lemma one_created ctx c (o : domain) : o_template o = o_template new_domain ->
  exec server (commonTransport_Create (RO := kind domain_mirror) ctx c o) [other] (Ret (Ok (named_by "d1"))) [created; other].
Proof.
  destruct o as [m sp t st]. cbn [o_template]. intros ->. set (o := MkObject m sp _ st). set (raw := json_of "{'data':{'id':'d1'}}").
  assert (domain_server [other] "POST" cp (Some desired) = (Ok (201%Z, Some raw), [created; other])) as Hserve by (vm_compute; reflexivity).
  assert (Body (ResourceObject := AuthDomainObject) o = Ok desired) as Hb by (vm_compute; reflexivity).
  unfold commonTransport_Create. change (Body o) with (Body (ResourceObject := AuthDomainObject) o). rewrite Hb.
  eapply exec_bind; [eapply (exec_step _ _ _ (Ok (201%Z, Some raw))); [exact Hserve|apply exec_refl]|].
  left. split; [vm_compute; reflexivity|reflexivity].
Qed.

Lemma crash_reached_over_http : exists p, exec hstep
  (Reconcile (RO := kind domain_mirror) newClient operator background new_domain) start p crashed.
Proof.
  eexists.
  eapply (exec_step _ _ _ (Ok "config") _ start). { exists start. split; [exact start_stays|]. by split. }
  eapply (exec_step _ _ _ (Ok []) _ start).
  { exists start. split; [exact start_stays|]. apply respond_busy. split; [done|]. exists 0. apply nothing_found. }
  eapply (exec_step _ _ _ 0%Z _ start). { exists start. split; [exact start_stays|]. by split. }
  eapply (exec_step _ _ _ (Ok announced) _ announcing).
  { exists start. split; [exact start_stays|]. split; [|reflexivity]. by apply patch_announces. }
  eapply (exec_step _ _ _ (Ok (named_by "d1")) _ crashed).
  { exists announcing. split; [exact announcing_stays|]. split; [done|]. by apply one_created. }
  apply exec_refl.
Qed.

Lemma crashed_reached : Domains crashed.
Proof.
  destruct crash_reached_over_http as (p & Hex).
  eapply (http_reach_pass _ _ _ _ _ start); [|reflexivity|exact Hex]. apply http_reach_fresh. split; [|exact start_sound].
  split; [reflexivity|]. split; [reflexivity|]. split; [reflexivity|]. split; [reflexivity|]. vm_compute. reflexivity.
Qed.

(** The one entry of the identity is announced by the stored attempt. *)
Lemma http_operator_is_the_system_witness :
  Domains crashed /\ my_ids (Collection "name") "x" (h_entries crashed) = ["d1"] /\
  (id_of (h_stored crashed) = Ok "d1" \/ is_ok (id_of (h_stored crashed)) = false /\ attempted (h_stored crashed)).
Proof.
  split; [exact crashed_reached|]. split; [vm_compute; reflexivity|].
  assert (created ∈ h_entries crashed) as Hin by left.
  destruct (proj1 (Forall_forall _ _) (http_operator_is_the_system (Resolved := string) newClient operator "x") domain_mirror domain_mirrored
    serve_domains_laws background crashed crashed_reached) as (_ & _ & Hall).
  destruct (Hall created Hin) as [Hnamed _]; [vm_compute; reflexivity|]. exact (Hnamed eq_refl).
Defined.
