(* ===== verification/HttpRecoveryWitness.v ===== *)
(** * Recovery over HTTP, at a server that serves

    The crash of HttpWitness.v, between the create and the record of its id, and
    what passes in which nothing goes wrong make of it. *)

From S2P Require Import Prelude GoStd Json Libraries Errors Kube Core JsonBody JsonBodySpec Conditions Effects Interfaces Reconciler Objects ObjectsSpec Adapters AdaptersSpec Fixture LibraryWitness Protocol ProtocolRecovery HttpApi HttpApiSpec HttpServing HttpSystem HttpSystemSpec HttpRecovery HttpWitness.
From Stdlib Require Import String.

Local Open Scope string_scope.
Local Open Scope list_scope.

(** ** The server serves *)

(** Bodies of the domain x. *)
Definition of_x (body : string) : Prop := forall name, ExtractString body "name" = Ok name -> name = "x".

Definition showable (s : list value) : Prop := s ∈ shown.

Lemma showable_delete s path : showable s -> showable (filter (fun v => is_item path v = false) s).
Proof.
  unfold showable, shown. intros Hs. repeat (apply elem_of_cons in Hs as [->|Hs]); [..|by apply not_elem_of_nil in Hs].
  all: rewrite ?filter_cons, ?filter_nil; repeat destruct (decide _); set_solver.
Qed.

Lemma shown_listed s : showable s -> is_ok (success (list_domains s)) = true.
Proof.
  unfold showable, shown. intros Hs. repeat (apply elem_of_cons in Hs as [->|Hs]); [..|by apply not_elem_of_nil in Hs].
  all: vm_compute; reflexivity.
Qed.

Lemma shown_created s body : showable s -> ExtractString body "name" = Ok "x" -> my_ids (Collection "name") "x" s = [] ->
  is_ok (success (add_domain s body).1) = true.
Proof.
  unfold showable, shown. intros Hs Hb. unfold add_domain. rewrite Hb. clear Hb.
  repeat (apply elem_of_cons in Hs as [->|Hs]); [..|by apply not_elem_of_nil in Hs].
  all: first [intros _; vm_compute; reflexivity|intros Hno; vm_compute in Hno; discriminate Hno].
Qed.

#[export] Instance domains_serve : SigNozServes of_x showable domain_mirror.
Proof.
  split; unfold server, serve_domains; cbn [mirror_path mirror_listing mirror_identity domain_mirror].
  - intros X s e x s'. destruct e as [ctx c method path body]. unfold domain_server.
    repeat (case_decide || case_match); try (by intros [= _ <-]).
    + by intros [[-> _]|(id & name & raw & _ & _ & _ & _ & _ & _ & Hin)]%add_domain_adds.
    + intros [= _ <-]. apply showable_delete.
  - intros s ctx c path _ Hs ->. exists (list_domains s), s. unfold domain_server. rewrite !decide_True by done.
    split; [done|by apply shown_listed].
  - intros s ctx c id _ _ Hne. unfold domain_server. rewrite decide_True by done. rewrite decide_False by done.
    destruct (existsb _ s) eqn:Hex; do 2 eexists; (split; [reflexivity|]).
    + split; [by left|]. intros Hni. exfalso. rewrite (proj2 (items_exist _ s)) in Hex; [done|].
      by intros id' <-%item_inj.
    + split; [right|]; [|intros _]; by eexists.
  - intros s ctx c body identity _ Hs Hx Hid Hno. pose proof (Hx _ Hid) as ->. unfold domain_server.
    rewrite decide_False, decide_True, decide_True by done. eexists _, _. split; [apply surjective_pairing|]. by apply shown_created.
  - intros s ctx c id payload _ _ _ _. unfold domain_server. rewrite !decide_False, decide_True by done. by do 2 eexists.
  - intros s ctx c id _ _ _. unfold domain_server. rewrite !decide_False, decide_True by done.
    destruct (existsb _ s); do 2 eexists; (split; [reflexivity|]); [by left|right; by eexists].
Qed.

(** ** After the crash *)

Abbreviation calmly := (always (http_calm (Resolved := string) domain_mirror "x")).
Abbreviation pass := (Reconcile (RO := kind domain_mirror) newClient operator background).

Lemma crashed_shown : showable (h_entries crashed).
Proof. unfold showable, shown. set_solver. Qed.

Lemma domain_acceptable : acceptable of_x domain_mirror (o_template (h_stored crashed)).
Proof.
  intros [m sp t st] Ht. cbn [o_template] in Ht. subst t. split; [|split].
  - intros body Hb name. vm_compute in Hb. injection Hb as <-. vm_compute. by intros [= <-].
  - intros payload Hp name. vm_compute in Hp. injection Hp as <-. vm_compute. by intros [= <-].
  - vm_compute. reflexivity.
Qed.

(** The next passes find the domain, adopt it, and settle. *)
Lemma two_calm_passes_recover_over_http_witness :
  calmly (pass (h_stored crashed)) crashed (fun _ h1 =>
    calmly (pass (h_stored h1)) h1 (fun '(_, _, err) h2 => err = None /\ bound_over_http domain_mirror "x" h2)).
Proof.
  refine (proj1 (Forall_forall _ _) (two_calm_passes_recover_over_http (Resolved := string) of_x showable newClient operator "x")
    domain_mirror domain_mirrored serve_domains_laws domains_serve background crashed crashed_reached _ domain_acceptable crashed_shown _).
  - split; [reflexivity|]. split; [reflexivity|]. split; [reflexivity|]. split; [reflexivity|]. vm_compute. reflexivity.
  - intros v _ Hid. vm_compute in Hid. discriminate Hid.
Defined.

(** The user deletes it before the operator is back. *)
Definition deleted : domain :=
  with_meta announced (MkMeta (m_name (o_meta announced)) (m_namespace (o_meta announced)) (m_resource_version (o_meta announced))
    (m_generation (o_meta announced)) (Some 1%Z) (m_finalizers (o_meta announced)) (m_annotations (o_meta announced))).
Definition deleting : http_state := MkHttpWorld deleted true false [created; other].

Lemma deleting_reached : Domains deleting.
Proof.
  eapply http_reach_drift; [exact crashed_reached|]. split.
  - split; [reflexivity|]. split; [done|]. cbn [abstract live crashed h_live]. split; [|vm_compute; reflexivity].
    split; [vm_compute; reflexivity|]. split; [reflexivity|]. split; [reflexivity|]. split; [done|]. intros [? ?]. discriminate.
  - apply domain_sound; [reflexivity|by repeat constructor|by repeat constructor|]. vm_compute. 
    apply NoDup_cons. split; [set_solver|apply NoDup_singleton].
Qed.

Lemma calm_deletion_reclaims_over_http_witness :
  calmly (pass deleted) deleting (fun '(_, _, err) h =>
    err = None /\ my_ids (Collection "name") "x" (h_entries h) = [] /\ ~ held (h_stored h)).
Proof.
  refine (proj1 (Forall_forall _ _) (calm_deletion_reclaims_over_http (Resolved := string) of_x showable newClient operator "x")
    domain_mirror domain_mirrored serve_domains_laws domains_serve background deleting deleting_reached _ _ _ _ crashed_shown).
  - reflexivity.
  - by eexists.
  - left.
  - discriminate.
Defined.
