(* ===== verification/HttpStaleWitness.v ===== *)
(** * A lagging cache over HTTP, at a concrete run

    A pass creates an auth domain over HTTP and crashes; the next begins from the
    object as it was before, and finds the entry. *)

From S2P Require Import Prelude GoStd Json Libraries Errors Kube Core JsonBody JsonBodySpec Conditions Effects Interfaces Reconciler Objects ObjectsSpec Adapters AdaptersSpec Fixture LibraryWitness Protocol ProtocolSafety ProtocolRecovery Stale HttpApi HttpApiSpec HttpServing HttpSystem HttpSystemSpec HttpStale HttpRecovery HttpStaleRecovery HttpWitness HttpRecoveryWitness.
From Stdlib Require Import String.

Local Open Scope string_scope.
Local Open Scope list_scope.

Abbreviation http_view := (HttpStale.http_view (S := string)).
Abbreviation lagging := (http_stale_reachable (Resolved := string) domain_mirror newClient operator background "x").
Abbreviation sstep := (http_stale_step (Resolved := string) domain_mirror "x").

(** The object once its create is announced. *)
Definition announced2 : domain :=
  MkObject (MkMeta "a" "team" "2" 3 None [ResourceFinalizer] {[AnnotationCreateAttempt := "1970-01-01T00:00:00Z"]})
    (o_spec new_domain) (o_template new_domain) (o_status new_domain).

Definition begun : http_view := MkHttpView start [new_domain].
Definition announcing2 : http_view := MkHttpView (MkHttpWorld announced2 true false [other]) [announced2; new_domain].
Definition crashed2 : http_view := MkHttpView (MkHttpWorld announced2 true false [created; other]) [announced2; new_domain].

Lemma domains_tracked o w s : o_template o = o_template new_domain -> Forall (fun a : domain => o_template a = o_template new_domain) w ->
  Forall (well_typed "name") s -> Forall (fun v => id_of_entry v <> "") s -> NoDup (id_of_entry <$> s) ->
  tracked domain_mirror "x" (MkHttpView (MkHttpWorld o true false s) (o :: w)).
Proof.
  intros Ho Hw Hty Hids Hnd. split; [by apply domain_sound|]. split; [by eexists|].
  constructor; [rewrite Ho; exact domain_specified|]. eapply Forall_impl; [exact Hw|]. cbn. intros a ->. exact domain_specified.
Qed.

(** A call between which nothing happens. *)
Lemma undisturbed_call X (v : http_view) (e : call _ string string X) x v' :
  http_drift domain_mirror "x" (hv_now v) (hv_now v) -> tracked domain_mirror "x" v ->
  busy_respond domain_mirror "x" X (hv_now v) e x (hv_now v') -> advances (view_of domain_mirror "x" v) (view_of domain_mirror "x" v') ->
  restricts false X (view_of domain_mirror "x" v) e x (view_of domain_mirror "x" v') -> sstep X v e x v'.
Proof.
  intros [Hd _] Ht Hr Hadv Hres. exists v. split; [|by split]. split; [|exact Ht]. split; [exact Hd|]. split; [by left|done].
Qed.

Lemma begun_tracked : tracked domain_mirror "x" begun.
Proof. apply domains_tracked; [done|by constructor|by repeat constructor|by repeat constructor|apply NoDup_singleton]. Qed.

Lemma announcing2_tracked : tracked domain_mirror "x" announcing2.
Proof. apply domains_tracked; [done|by repeat constructor|by repeat constructor|by repeat constructor|apply NoDup_singleton]. Qed.

Lemma crashed2_tracked : tracked domain_mirror "x" crashed2.
Proof.
  apply domains_tracked; [done|by repeat constructor|by repeat constructor|by repeat constructor|].
  apply (bool_decide_unpack _). vm_compute. exact I.
Qed.

Lemma domain_view_stays (v : http_view) : h_live (hv_now v) = true -> gone (h_stored (hv_now v)) = false ->
  Identity (ResourceObject := kind domain_mirror) (h_stored (hv_now v)) = Ok "x" -> tracked domain_mirror "x" v ->
  http_drift domain_mirror "x" (hv_now v) (hv_now v).
Proof. intros Hl Hg Hi [Hs _]. by apply domain_stays. Qed.

(** A call that leaves everything as it is. *)
Lemma undisturbed_reads X (v : http_view) (e : call _ string string X) x :
  http_drift domain_mirror "x" (hv_now v) (hv_now v) -> tracked domain_mirror "x" v ->
  busy_respond domain_mirror "x" X (hv_now v) e x (hv_now v) ->
  restricts false X (view_of domain_mirror "x" v) e x (view_of domain_mirror "x" v) -> sstep X v e x v.
Proof. intros Hd Ht Hr Hres. apply undisturbed_call; try done. by left. Qed.

Lemma begun_stays : http_drift domain_mirror "x" (hv_now begun) (hv_now begun).
Proof. exact start_stays. Qed.

Lemma announcing2_stays : http_drift domain_mirror "x" (hv_now announcing2) (hv_now announcing2).
Proof. apply domain_view_stays; [reflexivity|reflexivity|vm_compute; reflexivity|exact announcing2_tracked]. Qed.

Lemma crashed2_stays : http_drift domain_mirror "x" (hv_now crashed2) (hv_now crashed2).
Proof. apply domain_view_stays; [reflexivity|reflexivity|vm_compute; reflexivity|exact crashed2_tracked]. Qed.

Abbreviation Pass := (Reconcile (RO := kind domain_mirror) newClient operator background new_domain).

Lemma lagging_crash_over_http : exists p, exec sstep Pass begun p crashed2.
Proof.
  eexists.
  eapply (exec_step _ _ _ (Ok "config") _ begun). { apply undisturbed_reads; [exact begun_stays|exact begun_tracked|by split|done]. }
  eapply (exec_step _ _ _ (Ok []) _ begun).
  { apply undisturbed_reads; [exact begun_stays|exact begun_tracked| |done]. apply respond_busy. split; [done|]. exists 0. apply nothing_found. }
  eapply (exec_step _ _ _ 0%Z _ begun). { apply undisturbed_reads; [exact begun_stays|exact begun_tracked|by split|done]. }
  eapply (exec_step _ _ _ (Ok announced2) _ announcing2).
  { apply undisturbed_call; [exact begun_stays|exact begun_tracked| | |].
    - split; [|reflexivity]. left. split; [reflexivity|]. exists announced2. split; [|split; [reflexivity|by left]].
      do 5 (split; [reflexivity|]). intros k. destruct (decide (k = AnnotationCreateAttempt)) as [->|Hk]; [reflexivity|].
      unfold annotation. cbn. by rewrite !lookup_insert_ne by done.
    - right. split; [|reflexivity]. cbn. by apply (bool_decide_unpack _).
    - intros t _. by repeat constructor. }
  eapply (exec_step _ _ _ (Ok (named_by "d1")) _ crashed2).
  { apply undisturbed_call; [exact announcing2_stays|exact announcing2_tracked| |by left|done]. split; [done|]. by apply one_created. }
  apply exec_refl.
Qed.

(** The next pass begins from the object of before, and finds the entry. *)
Lemma lagging_lookup : exists p, exec sstep Pass crashed2 p crashed2.
Proof.
  eexists.
  eapply (exec_step _ _ _ (Ok "config") _ crashed2). { apply undisturbed_reads; [exact crashed2_stays|exact crashed2_tracked|by split|done]. }
  eapply (exec_step _ _ _ (Ok [named_by "d1"]) _ crashed2).
  { apply undisturbed_reads; [exact crashed2_stays|exact crashed2_tracked| |done]. apply respond_busy. split; [done|]. exists 0.
    apply (domains_found new_domain "x"); vm_compute; [reflexivity|by split]. }
  apply exec_refl.
Qed.

Lemma lagging_reached : lagging crashed2.
Proof.
  destruct lagging_crash_over_http as (p & Hp), lagging_lookup as (q & Hq).
  assert (lagging crashed2) as Hr.
  { eapply (http_stale_pass _ _ _ _ _ begun [] new_domain []); [|reflexivity|exact Hp]. apply http_stale_fresh; [|reflexivity].
    split; [|exact start_sound]. do 4 (split; [reflexivity|]). vm_compute. reflexivity. }
  exact (http_stale_pass _ _ _ _ _ crashed2 [announced2] new_domain [] _ _ Hr eq_refl Hq).
Qed.

Lemma stale_caches_are_safe_over_http_witness :
  lagging crashed2 /\ my_ids (Collection "name") "x" (h_entries (hv_now crashed2)) = ["d1"] /\
  (id_of (h_stored (hv_now crashed2)) = Ok "d1" \/
   is_ok (id_of (h_stored (hv_now crashed2))) = false /\ attempted (h_stored (hv_now crashed2))).
Proof.
  split; [exact lagging_reached|]. split; [vm_compute; reflexivity|].
  assert (created ∈ h_entries (hv_now crashed2)) as Hin by left.
  destruct (proj1 (Forall_forall _ _) (stale_caches_are_safe_over_http (Resolved := string) newClient operator "x") domain_mirror domain_mirrored
    serve_domains_laws background crashed2 lagging_reached) as (_ & _ & Hall).
  destruct (Hall created Hin) as [Hnamed _]; [vm_compute; reflexivity|]. exact (Hnamed eq_refl).
Defined.

(** Once the cache shows the announcement, two passes adopt the entry and settle. *)
Lemma lagging_operator_recovers_witness :
  calmly (pass announced2) (hv_now crashed2) (fun _ h1 =>
    calmly (pass (h_stored h1)) h1 (fun '(_, _, err) h2 => err = None /\ bound_over_http domain_mirror "x" h2)).
Proof.
  refine (proj1 (proj1 (Forall_forall _ _) (lagging_operator_recovers (Resolved := string) of_x showable newClient operator "x")
    domain_mirror domain_mirrored serve_domains_laws domains_serve background crashed2 lagging_reached crashed_shown) _ domain_acceptable _).
  - do 4 (split; [reflexivity|]). vm_compute. reflexivity.
  - intros v _ Hid. vm_compute in Hid. discriminate Hid.
Defined.
