(* ===== verification/FleetWitness.v ===== *)
(** * Two auth domains whose passes interleave

    A pass of one finds nothing, announces its create and makes it, while a pass of
    the other has begun, has looked up its own entry and goes on. *)

From S2P Require Import Prelude GoStd Json Libraries Errors Kube Core JsonBody JsonBodySpec Conditions Effects Interfaces Reconciler Objects ObjectsSpec Adapters AdaptersSpec Fixture LibraryWitness Protocol HttpApi HttpApiSpec HttpSystem HttpSystemSpec Fleet FleetSpec HttpWitness.
From Stdlib Require Import String.

Local Open Scope string_scope.
Local Open Scope list_scope.

#[export] Instance serve_domains_frame : SigNozServerFrame domain_mirror.
Proof.
  split. intros s ctx c id payload x s'. unfold server, serve_domains, domain_server. cbn [mirror_path domain_mirror].
  rewrite !decide_False, decide_True by done. intros [= _ <-]. apply Forall_Forall2_diag, Forall_forall. intros v _. split; [done|by right].
Qed.

(** ** The two *)

Definition identity_of (n : string) : string := if decide (n = "a") then "x" else "z".

Definition desired_z : string := json_of "{'name':'z'}".
Definition other_domain : domain :=
  MkObject (MkMeta "b" "team" "1" 3 None [ResourceFinalizer] ∅) (spec ReclaimDelete false) (MkTemplate None (Some desired_z)) (status None "").

Abbreviation Member := (Fleet.member (S := string) (SigNoz := string) (Resolved := string)).
Abbreviation Fleet' := (Fleet.fleet (S := string) (SigNoz := string) (Resolved := string)).
Abbreviation left_of := (option (prog (call (ObjectTemplate string) string string) (domain * Result * option error))).
Abbreviation fstep := (fleet_step domain_mirror newClient operator background identity_of).

Definition at_work (o : domain) (p : left_of) : Member := MkMember o true false p.
Definition two (a b : Member) (s : list value) : Fleet' := MkFleet (<["a" := a]> (<["b" := b]> ∅)) s.

Lemma two_a a b s : f_members (two a b s) !! "a" = Some a.
Proof. reflexivity. Qed.

Lemma two_b a b s : f_members (two a b s) !! "b" = Some b.
Proof. unfold two. cbn [f_members]. rewrite lookup_insert_ne by done. apply lookup_insert_eq. Qed.

Lemma replace_a a b a' s s' : MkFleet (<["a" := a']> (f_members (two a b s))) s' = two a' b s'.
Proof. unfold two. cbn [f_members]. by rewrite insert_insert_eq. Qed.

Lemma replace_b a b b' s s' : MkFleet (<["b" := b']> (f_members (two a b s))) s' = two a b' s'.
Proof. unfold two. cbn [f_members]. by rewrite insert_insert_ne, insert_insert_eq by done. Qed.

Lemma call_of_a (o : domain) X (e : call _ string string X) k x o' b s s' :
  (forall F, member_respond domain_mirror identity_of F "a" X (MkHttpWorld o true false s) e x (MkHttpWorld o' true false s')) ->
  fstep (two (at_work o (Some (Vis e k))) b s) (two (at_work o' (Some (k x))) b s').
Proof.
  intros Hr. rewrite <- (replace_a (at_work o (Some (Vis e k))) b _ s).
  exact (fleet_call domain_mirror newClient operator background identity_of _ "a" (at_work o (Some (Vis e k))) X e k x (MkHttpWorld o' true false s') (two_a _ _ _) eq_refl (Hr _)).
Qed.

Lemma call_of_b (o : domain) X (e : call _ string string X) k x o' a s s' :
  (forall F, member_respond domain_mirror identity_of F "b" X (MkHttpWorld o true false s) e x (MkHttpWorld o' true false s')) ->
  fstep (two a (at_work o (Some (Vis e k))) s) (two a (at_work o' (Some (k x))) s').
Proof.
  intros Hr. rewrite <- (replace_b a (at_work o (Some (Vis e k))) _ s).
  exact (fleet_call domain_mirror newClient operator background identity_of _ "b" (at_work o (Some (Vis e k))) X e k x (MkHttpWorld o' true false s') (two_b _ _ _) eq_refl (Hr _)).
Qed.

Lemma apart_domains x y : x <> y -> apart domain_mirror x y.
Proof.
  intros Hne v. unfold mine. cbn [mirror_listing domain_mirror]. intros Hx%bool_decide_eq_true. apply bool_decide_eq_false. congruence.
Qed.

(** ** The run *)

Lemma other_specified : specified domain_mirror "z" (o_template other_domain).
Proof.
  exists desired_z, (LibraryWitness.members desired_z). split; [reflexivity|]. split; [split; vm_compute; reflexivity|].
  split; [vm_compute; reflexivity|discriminate].
Qed.

Lemma other_fresh : http_fresh domain_mirror "z" (MkHttpWorld other_domain true false [other]).
Proof.
  split; [do 4 (split; [reflexivity|]); vm_compute; reflexivity|].
  split; [exact (proj1 start_sound)|]. intros _. exact other_specified.
Qed.

Lemma start_joins : http_fresh domain_mirror "x" start.
Proof. split; [|exact start_sound]. do 4 (split; [reflexivity|]). vm_compute. reflexivity. Qed.

Lemma both_join : rtc fstep (MkFleet ∅ [other]) (two (at_work new_domain None) (at_work other_domain None) [other]).
Proof.
  assert (fstep (MkFleet ∅ [other]) (MkFleet (<["b" := at_work other_domain None]> ∅) [other])) as Hb.
  { apply (fleet_join domain_mirror newClient operator background identity_of (MkFleet ∅ [other]) "b" (at_work other_domain None));
      [done|done|exact other_fresh|]. by intros n' [? ?]. }
  eapply rtc_l; [exact Hb|]. apply rtc_once.
  refine (fleet_join domain_mirror newClient operator background identity_of
    (MkFleet (<["b" := at_work other_domain None]> ∅) [other]) "a" (at_work new_domain None) _ _ start_joins _); [done|done|].
  intros n' Hn'. cbn [f_members] in Hn'. destruct (decide (n' = "b")) as [->|Hne]; [|rewrite lookup_insert_ne in Hn' by done; by destruct Hn'].
  split; by apply apart_domains.
Qed.

(** A lookup between whose pages nobody is at work. *)
Lemma quiet_find n o s ctx c found (F : Fleet') :
  exec server (mirror_Find domain_mirror 0 ctx c o) s (Ret (Some found)) s ->
  member_respond domain_mirror identity_of F n _ (MkHttpWorld o true false s) (Find ctx c o) found (MkHttpWorld o true false s).
Proof.
  intros Hex. split; [done|]. exists 0. refine (exec_simulate (fun s => s) _ _ _ _ _ _ _ Hex).
  intros Y s1 f y s2 Hy. exists s1. split; [|done]. by intros n' _.
Qed.

Lemma interleaved : exists p q, rtc fstep (MkFleet ∅ [other]) (two (at_work announced (Some p)) (at_work other_domain (Some q)) [created; other]).
Proof.
  do 2 eexists. etrans; [exact both_join|].
  eapply rtc_l. { rewrite <- (replace_a (at_work new_domain None) _ _ [other]). exact (fleet_begin domain_mirror newClient operator background identity_of _ "a" (at_work new_domain None) (two_a _ _ _) eq_refl eq_refl). }
  eapply rtc_l. { rewrite <- (replace_b _ (at_work other_domain None) _ [other]). exact (fleet_begin domain_mirror newClient operator background identity_of _ "b" (at_work other_domain None) (two_b _ _ _) eq_refl eq_refl). }
  eapply rtc_l. { apply (call_of_a new_domain _ _ _ (Ok "config") new_domain). by split. }
  eapply rtc_l. { apply (call_of_b other_domain _ _ _ (Ok "config") other_domain). by split. }
  eapply rtc_l. { apply (call_of_a new_domain _ _ _ (Ok []) new_domain). intros F. apply quiet_find, nothing_found. }
  eapply rtc_l. { apply (call_of_b other_domain _ _ _ (Ok []) other_domain). intros F. apply quiet_find.
    apply (domains_found other_domain "z"); vm_compute; [reflexivity|by split]. }
  eapply rtc_l. { apply (call_of_a new_domain _ _ _ 0%Z new_domain). by split. }
  eapply rtc_l. { apply (call_of_b other_domain _ _ _ 0%Z other_domain). by split. }
  eapply rtc_l. { apply (call_of_a new_domain _ _ _ (Ok announced) announced). intros F. change (identity_of "a") with "x". split; [|reflexivity]. by apply patch_announces. }
  eapply rtc_l. { apply (call_of_a announced _ _ _ (Ok (named_by "d1")) announced _ [other] [created; other]). split; [done|]. by apply one_created. }
  reflexivity.
Qed.

(** Both are accounted for: the one whose entry was made announces it, and there
    is none of the other. *)
Lemma concurrent_passes_are_independent_witness : exists p q,
  let F := two (at_work announced (Some p)) (at_work other_domain (Some q)) [created; other] in
  fleet_reachable domain_mirror newClient operator background identity_of F /\
  one_entry_accounted_for "x" domain_mirror (around F (at_work announced (Some p))) /\
  my_ids (Collection "name") "x" (f_entries F) = ["d1"] /\
  one_entry_accounted_for "z" domain_mirror (around F (at_work other_domain (Some q))).
Proof.
  destruct interleaved as (p & q & Hr). exists p, q. intros F.
  assert (fleet_reachable domain_mirror newClient operator background identity_of F) as HF.
  { exists [other]. split; [exact (proj1 start_sound)|exact Hr]. }
  pose proof (proj1 (Forall_forall _ _) (concurrent_passes_are_independent (Resolved := string) newClient operator identity_of) domain_mirror domain_mirrored
    serve_domains_laws serve_domains_frame background F HF) as Hall.
  split; [exact HF|]. split; [exact (proj2 (Hall "a" _ (two_a _ _ _)))|]. split; [vm_compute; reflexivity|].
  exact (proj2 (Hall "b" _ (two_b _ _ _))).
Defined.
