(* ===== verification/ProviderConfig.v ===== *)
(** * internal/providerconfig: resolving a provider config

    [resolvers/cache.go], [resolvers/cached_resolver.go], [resolved.go],
    [condition.go], [reason.go] and [reconcilers/common_reconciler.go].  The cache
    of one Resolve call is passed as state. *)

From S2P Require Import Prelude GoStd Errors Kube Core Effects.
From Stdlib Require Import Ascii String.

Local Open Scope string_scope.

(** ** The standard library's URLs and certificate pools, and the API reader *)

(** net/url as far as the operator uses it; a [url.URL] is opaque. *)
Class NetURL := {
  URL : Type;
  url_Parse : string -> option URL;
  url_Scheme : URL -> string;
  url_Host : URL -> string;
  url_RawQuery : URL -> string;
  url_EscapedPath : URL -> string;
  url_JoinPath : URL -> string -> URL;
  url_SetRawQuery : URL -> string -> URL;
  url_String : URL -> string;
  url_Redacted : URL -> string;
}.

(** crypto/x509: [NewCertPool] then [AppendCertsFromPEM], which may add nothing. *)
Class X509 := {
  CertPool : Type;
  AppendCertsFromPEM : string -> option CertPool;
}.

Record Secret := MkSecret { secret_ResourceVersion : string; secret_Data : gmap string string }.
Record ConfigMap := MkConfigMap { configMap_ResourceVersion : string; configMap_Data : gmap string string }.

(** A ProviderConfig or a ClusterProviderConfig. *)
Record Config := MkConfig { config_meta : ObjectMeta; config_spec : ProviderConfigSpec; config_status : ProviderConfigStatus }.

Definition with_config_status (c : Config) (s : ProviderConfigStatus) : Config :=
  MkConfig (config_meta c) (config_spec c) s.

Inductive config_call : Type -> Type :=
  | GetSecret (ctx : Context) (key : ObjectKey) : config_call (result Secret error)
  | GetConfigMap (ctx : Context) (key : ObjectKey) : config_call (result ConfigMap error)
  | GetProviderConfig (ctx : Context) (key : ObjectKey) : config_call (result Config error)
  | GetClusterProviderConfig (ctx : Context) (key : ObjectKey) : config_call (result Config error)
  | ConfigStatusUpdate (ctx : Context) (c : Config) : config_call (result Config error).

Abbreviation go := (prog config_call).

(** ** reason.go and resolver.go *)

Definition ReasonResolved : string := "Resolved".
Definition CodeSpecInvalid : Code := NewCode "SpecInvalid".
Definition CodeEndpointInvalid : Code := NewCode "EndpointInvalid".
Definition CodeSecretNotFound : Code := NewCode "SecretNotFound".
Definition CodeConfigMapNotFound : Code := NewCode "ConfigMapNotFound".
Definition CodeKeyNotFound : Code := NewCode "KeyNotFound".
Definition CodeValueEmpty : Code := NewCode "ValueEmpty".
Definition CodeCABundleInvalid : Code := NewCode "CABundleInvalid".
Definition CodeReferenceReadFailed : Code := NewCode "ReferenceReadFailed".

Definition DefaultHeaderName : string := "SIGNOZ-API-KEY".

Section ProviderConfig.
Context `{AM : ApiMachinery} `{NU : NetURL} `{XC : X509}.

(** ** resolved.go *)

Record ResolvedHeaderAuthentication := MkHeader { header_Name : string; header_Scheme : string; header_Value : string }.
Record ResolvedTLSConfig := MkResolvedTLS { tls_InsecureSkipVerify : bool; tls_CAPool : option CertPool }.
Record ResolvedProviderConfigSpec := MkResolved {
  resolved_Endpoint : URL;
  resolved_Header : option ResolvedHeaderAuthentication;
  resolved_TLS : option ResolvedTLSConfig;
}.

Definition ResolvedHeaderAuthentication_String (a : ResolvedHeaderAuthentication) : string :=
  "ResolvedHeaderAuthentication{name: " ++ header_Name a ++ ", value: [REDACTED]}".

Definition ResolvedProviderConfigSpec_String (c : ResolvedProviderConfigSpec) : string :=
  "ResolvedProviderConfigSpec{endpoint: " ++ url_Redacted (resolved_Endpoint c) ++ ", header: "
  ++ match resolved_Header c with Some h => header_Name h | None => "" end ++ ", value: [REDACTED]}".

(** The header set on a request, if any. *)
Definition SetAuthHeader (c : ResolvedProviderConfigSpec) : option (string * string) :=
  match resolved_Header c with
  | None => None
  | Some h =>
      let value := if decide (header_Scheme h <> "") then header_Scheme h ++ " " ++ header_Value h else header_Value h in
      Some (header_Name h, value)
  end.

(** The TLS settings of the client: InsecureSkipVerify and RootCAs, above TLS 1.2. *)
Definition TLSClientConfig (c : ResolvedProviderConfigSpec) : option (bool * option CertPool) :=
  match resolved_TLS c with
  | None => None
  | Some t =>
      match tls_InsecureSkipVerify t, tls_CAPool t with
      | false, None => None
      | insecure, pool => Some (insecure, pool)
      end
  end.

(** ** cache.go *)

Abbreviation by_kind A := (gmap string (gmap ObjectKey A)).

Record cache := MkCache {
  cache_namespace : string;
  cache_secrets : gmap ObjectKey Secret;
  cache_configMaps : gmap ObjectKey ConfigMap;
  cache_errs : by_kind error;
  cache_versions : by_kind string;
}.

Definition lookup2 {A} (m : by_kind A) (kind : string) (key : ObjectKey) : option A :=
  match m !! kind with Some by_key => by_key !! key | None => None end.
Definition insert2 {A} (m : by_kind A) (kind : string) (key : ObjectKey) (a : A) : by_kind A :=
  <[kind := <[key := a]> (default ∅ (m !! kind))]> m.

Definition cache_fail (c : cache) (kind : string) (key : ObjectKey) (err : error) : cache :=
  MkCache (cache_namespace c) (cache_secrets c) (cache_configMaps c) (insert2 (cache_errs c) kind key err) (cache_versions c).
Definition cache_observe (c : cache) (kind : string) (key : ObjectKey) (version : string) : cache :=
  MkCache (cache_namespace c) (cache_secrets c) (cache_configMaps c) (cache_errs c) (insert2 (cache_versions c) kind key version).
Definition store_secret (c : cache) (key : ObjectKey) (s : Secret) : cache :=
  MkCache (cache_namespace c) (<[key := s]> (cache_secrets c)) (cache_configMaps c) (cache_errs c) (cache_versions c).
Definition store_configMap (c : cache) (key : ObjectKey) (m : ConfigMap) : cache :=
  MkCache (cache_namespace c) (cache_secrets c) (<[key := m]> (cache_configMaps c)) (cache_errs c) (cache_versions c).

(** The error of a failed read, under the kind's name and not-found code. *)
Definition read_error (kind : string) (notFound : Code) (key : ObjectKey) (err : error) : error :=
  if api_IsNotFound err
  then EBase (WithCode (New ReasonNotFound (kind ++ " " ++ Quote (key_name key) ++ " not found in namespace "
                                            ++ Quote (key_namespace key))) notFound)
  else EBase (WithCode (New ReasonInternal ("could not read " ++ kind ++ " " ++ Quote (key_name key) ++ " in namespace "
                                            ++ Quote (key_namespace key) ++ ": " ++ Error err)) CodeReferenceReadFailed).

Definition cache_secret (ctx : Context) (c : cache) (key : ObjectKey) : go (cache * result Secret error) :=
  match lookup2 (cache_errs c) ProviderConfigObservedRefKindSecret key with
  | Some err => mret (c, Err err)
  | None =>
      match cache_secrets c !! key with
      | Some s => mret (c, Ok s)
      | None =>
          r ← trigger (GetSecret ctx key);
          mret (match r with
                | Err err =>
                    let resolveErr := read_error "Secret" CodeSecretNotFound key err in
                    (cache_fail c ProviderConfigObservedRefKindSecret key resolveErr, Err resolveErr)
                | Ok s =>
                    (cache_observe (store_secret c key s) ProviderConfigObservedRefKindSecret key
                       (secret_ResourceVersion s), Ok s)
                end)
      end
  end.

Definition cache_configMap (ctx : Context) (c : cache) (key : ObjectKey) : go (cache * result ConfigMap error) :=
  match lookup2 (cache_errs c) ProviderConfigObservedRefKindConfigMap key with
  | Some err => mret (c, Err err)
  | None =>
      match cache_configMaps c !! key with
      | Some m => mret (c, Ok m)
      | None =>
          r ← trigger (GetConfigMap ctx key);
          mret (match r with
                | Err err =>
                    let resolveErr := read_error "ConfigMap" CodeConfigMapNotFound key err in
                    (cache_fail c ProviderConfigObservedRefKindConfigMap key resolveErr, Err resolveErr)
                | Ok m =>
                    (cache_observe (store_configMap c key m) ProviderConfigObservedRefKindConfigMap key
                       (configMap_ResourceVersion m), Ok m)
                end)
      end
  end.

Definition invalid (code : Code) (message : string) : error := EBase (WithCode (New ReasonInvalidInput message) code).

Definition key_missing (path kind : string) (ref : KeySelector) : error :=
  EBase (WithCode (New ReasonNotFound (path ++ ": " ++ kind ++ " " ++ Quote (sel_name ref) ++ " has no key "
                                       ++ Quote (sel_key ref))) CodeKeyNotFound).

(** The value at a key of a reference that was read. *)
Definition value_at (path kind : string) (ref : KeySelector) (data : result (gmap string string) error)
    : result string error :=
  match data with
  | Err err => Err (EWrap path err)
  | Ok data => match data !! sel_key ref with Some value => Ok value | None => Err (key_missing path kind ref) end
  end.

Definition cache_value (ctx : Context) (c : cache) (path inline : string) (from : option ValueSource)
    : go (cache * result string error) :=
  match from with
  | None =>
      if decide (inline = "")
      then mret (c, Err (invalid CodeSpecInvalid (path ++ ": set exactly one of value or valueFrom")))
      else mret (c, Ok (TrimSpace inline))
  | Some from =>
      match SecretKeyRef from, ConfigMapKeyRef from with
      | Some ref, _ =>
          '(c, secret) ← cache_secret ctx c (MkKey (cache_namespace c) (sel_name ref));
          mret (c, let? value := value_at (path ++ ".valueFrom.secretKeyRef") "Secret" ref
                                   (let? s := secret in Ok (secret_Data s)) in Ok (TrimSpace value))
      | None, Some ref =>
          '(c, configMap) ← cache_configMap ctx c (MkKey (cache_namespace c) (sel_name ref));
          mret (c, let? value := value_at (path ++ ".valueFrom.configMapKeyRef") "ConfigMap" ref
                                   (let? m := configMap in Ok (configMap_Data m)) in Ok (TrimSpace value))
      | None, None =>
          mret (c, Err (invalid CodeSpecInvalid (path ++ ".valueFrom: set exactly one of secretKeyRef or configMapKeyRef")))
      end
  end.

(** The checks on an endpoint's value. *)
Definition parse_endpoint (raw : string) : result URL error :=
  match url_Parse raw with
  | None => Err (invalid CodeEndpointInvalid "spec.endpoint: value is not a valid URL")
  | Some endpoint =>
      if decide (url_Scheme endpoint <> "http" /\ url_Scheme endpoint <> "https")
      then Err (invalid CodeEndpointInvalid "spec.endpoint: URL scheme must be http or https")
      else if decide (url_Host endpoint = "")
      then Err (invalid CodeEndpointInvalid "spec.endpoint: URL has no host")
      else Ok endpoint
  end.

Definition cache_endpoint (ctx : Context) (c : cache) (spec : ProviderConfigSpec) : go (cache * result URL error) :=
  '(c, raw) ← cache_value ctx c "spec.endpoint" (ep_value (pc_endpoint spec)) (ep_value_from (pc_endpoint spec));
  mret (c, let? raw := raw in parse_endpoint raw).

(** The header a credential's value is sent in. *)
Definition build_header (header : HeaderAuth) (value : string) : result ResolvedHeaderAuthentication error :=
  if decide (value = "")
  then Err (invalid CodeValueEmpty "spec.auth.header: credential resolved to an empty value")
  else Ok (MkHeader (if decide (ha_name header = "") then DefaultHeaderName else ha_name header) (ha_scheme header) value).

Definition cache_authentication (ctx : Context) (c : cache) (auth : Authentication)
    : go (cache * result (option ResolvedHeaderAuthentication) error) :=
  match auth_header auth with
  | None => mret (c, Err (invalid CodeSpecInvalid "spec.auth: no authentication method set"))
  | Some header =>
      '(c, value) ← cache_value ctx c "spec.auth.header" (ha_value header) (ha_value_from header);
      mret (c, let? value := value in let? h := build_header header value in Ok (Some h))
  end.

(** The pool of a CA bundle. *)
Definition build_pool (ref : KeySelector) (bundle : string) : result CertPool error :=
  match AppendCertsFromPEM bundle with
  | None => Err (invalid CodeCABundleInvalid ("spec.tls.caSecretRef: Secret " ++ Quote (sel_name ref) ++ " key "
                                              ++ Quote (sel_key ref) ++ " holds no PEM certificate"))
  | Some pool => Ok pool
  end.

Definition cache_trust (ctx : Context) (c : cache) (config : option TLSConfig)
    : go (cache * result (option ResolvedTLSConfig) error) :=
  match config with
  | None => mret (c, Ok None)
  | Some config =>
      match tls_ca config with
      | None => mret (c, Ok (Some (MkResolvedTLS (tls_insecure config) None)))
      | Some ref =>
          '(c, secret) ← cache_secret ctx c (MkKey (cache_namespace c) (sel_name ref));
          mret (c, let? bundle := value_at "spec.tls.caSecretRef" "Secret" ref (let? s := secret in Ok (secret_Data s)) in
                   let? pool := build_pool ref bundle in
                   Ok (Some (MkResolvedTLS (tls_insecure config) (Some pool))))
      end
  end.

(** ** cached_resolver.go *)

(** The order a range over a Go map takes is not specified. *)
Context (range : gset string -> list string).

Fixpoint read_secrets (ctx : Context) (c : cache) (names : list string) : go cache :=
  match names with
  | [] => mret c
  | name :: names => '(c, _) ← cache_secret ctx c (MkKey (cache_namespace c) name); read_secrets ctx c names
  end.

Fixpoint read_configMaps (ctx : Context) (c : cache) (names : list string) : go cache :=
  match names with
  | [] => mret c
  | name :: names => '(c, _) ← cache_configMap ctx c (MkKey (cache_namespace c) name); read_configMaps ctx c names
  end.

Definition Resolve (ctx : Context) (namespace : string) (spec : ProviderConfigSpec)
    : go (result ResolvedProviderConfigSpec error * by_kind string) :=
  let c := MkCache namespace ∅ ∅ ∅ ∅ in
  c ← read_secrets ctx c (range (SecretNames spec));
  c ← read_configMaps ctx c (range (ConfigMapNames spec));
  '(c, endpoint) ← cache_endpoint ctx c spec;
  match endpoint with
  | Err err => mret (Err err, cache_versions c)
  | Ok endpoint =>
      '(c, auth) ← cache_authentication ctx c (pc_auth spec);
      match auth with
      | Err err => mret (Err err, cache_versions c)
      | Ok auth =>
          '(c, tlsConfig) ← cache_trust ctx c (pc_tls spec);
          match tlsConfig with
          | Err err => mret (Err err, cache_versions c)
          | Ok tlsConfig => mret (Ok (MkResolved endpoint auth tlsConfig), cache_versions c)
          end
      end
  end.

Definition resolve_named (ctx : Context) (name refNamespace : string) (spec : ProviderConfigSpec)
    : go (result ResolvedProviderConfigSpec error) :=
  '(resolved, _) ← Resolve ctx refNamespace spec;
  mret (match resolved with
        | Err err => Err (EWrap ("provider config " ++ Quote name ++ " could not be resolved") err)
        | Ok resolved => Ok resolved
        end).

Definition ResolveRef (ctx : Context) (ref : ProviderConfigRef) (resourceNamespace operatorNamespace : string)
    : go (result ResolvedProviderConfigSpec error) :=
  if decide (ref_kind ref = "" \/ ref_kind ref = "ProviderConfig") then
    config ← trigger (GetProviderConfig ctx (MkKey resourceNamespace (ref_name ref)));
    match config with
    | Err err => mret (Err (EWrap ("ProviderConfig " ++ Quote (ref_name ref) ++ " in namespace " ++ Quote resourceNamespace) err))
    | Ok config => resolve_named ctx (ref_name ref) resourceNamespace (config_spec config)
    end
  else if decide (ref_kind ref = "ClusterProviderConfig") then
    config ← trigger (GetClusterProviderConfig ctx (MkKey "" (ref_name ref)));
    match config with
    | Err err => mret (Err (EWrap ("ClusterProviderConfig " ++ Quote (ref_name ref)) err))
    | Ok config => resolve_named ctx (ref_name ref) operatorNamespace (config_spec config)
    end
  else mret (Err (errorString ("providerConfigRef.kind " ++ Quote (ref_kind ref) ++ " is not a known provider config kind"))).

(** ** condition.go *)

Definition conditionReason (failure : Base) : string :=
  if decide (base_code failure <> CodeUnknown) then Code_String (base_code failure)
  else Code_String CodeReferenceReadFailed.

Definition ready_condition (generation : Z) (resolveErr : option error) : Condition :=
  match resolveErr with
  | None => MkCondition "Ready" ConditionTrue ReasonResolved "Endpoint and credential resolved" generation
  | Some err =>
      match As_Base err with
      | Some failure => MkCondition "Ready" ConditionFalse (conditionReason failure) (base_message failure) generation
      | None => MkCondition "Ready" ConditionFalse (Code_String CodeReferenceReadFailed) (Error err) generation
      end
  end.

(** [observed[key.String()] = version] over the map. *)
Definition observed_of (by_key : gmap ObjectKey string) : gmap string string :=
  list_to_map ((fun kv => (ObjectKey_String kv.1, kv.2)) <$> map_to_list by_key).

Definition observed_versions (versions : by_kind string) : gmap string (gmap string string) :=
  observed_of <$> filter (fun kv => kv.2 <> ∅) versions.

Definition SetConditions (status : ProviderConfigStatus) (generation : Z) (versions : by_kind string)
    (resolveErr : option error) : ProviderConfigStatus :=
  MkPCStatus (SetStatusCondition (pc_conditions status) (ready_condition generation resolveErr)) generation
    (observed_versions versions).

(** ** reconcilers/common_reconciler.go *)

Context `{SE : SemanticEqual ProviderConfigStatus}.

Definition error_of {A} (r : result A error) : option error := match r with Ok _ => None | Err e => Some e end.

Definition CommonReconciler_Reconcile (ctx : Context) (obj : Config) (refNamespace : string)
    : go (Config * Result * option error) :=
  '(resolved, versions) ← Resolve ctx refNamespace (config_spec obj);
  let err := error_of resolved in
  let observed := config_status obj in
  let obj := with_config_status obj (SetConditions observed (m_generation (config_meta obj)) versions err) in
  if negb (DeepEqual observed (config_status obj)) then
    r ← trigger (ConfigStatusUpdate ctx obj);
    match r with
    | Err uerr => mret (obj, no_requeue, Some (EWrap "could not update status" uerr))
    | Ok obj => mret (obj, no_requeue, err)
    end
  else mret (obj, no_requeue, err).
End ProviderConfig.
