(* ===== verification/ProviderConfigSpec.v ===== *)
(** * What resolving a provider config does

    The resolver against a snapshot of the cluster, compared with direct reads;
    the reads it makes; the status it reports. *)

From S2P Require Import Prelude GoStd Errors Kube Core Effects ProviderConfig.
From Stdlib Require Import String.

Local Open Scope string_scope.
Local Open Scope list_scope.

Section Resolver.
Context `{AML : ApiMachineryLaws} `{NU : NetURL} `{XC : X509}.
Context (range : gset string -> list string) (Hrange : forall s, range s ≡ₚ elements s).

(** ** A snapshot of the cluster *)

Context (sec : ObjectKey -> result Secret error) (cm : ObjectKey -> result ConfigMap error).

(** A reference read: its kind and key. *)
Abbreviation read := (string * ObjectKey)%type.
Abbreviation Sec := ProviderConfigObservedRefKindSecret.
Abbreviation Cm := ProviderConfigObservedRefKindConfigMap.

(** The snapshot answers every read the same way; the world is the reads made. *)
Definition snapshot (X : Type) (w : list read) (e : config_call X) : X -> list read -> Prop :=
  match e in config_call X return X -> list read -> Prop with
  | GetSecret _ key => fun x w' => x = sec key /\ w' = w ++ [(Sec, key)]
  | GetConfigMap _ key => fun x w' => x = cm key /\ w' = w ++ [(Cm, key)]
  | _ => fun _ w' => w' = w
  end.

(** Each reference is read once, in the one namespace. *)
Definition fresh_read (ns : string) (X : Type) (w : list read) (e : config_call X) : Prop :=
  match e with
  | GetSecret _ key => ~ (Sec, key) ∈ w /\ key_namespace key = ns
  | GetConfigMap _ key => ~ (Cm, key) ∈ w /\ key_namespace key = ns
  | _ => True
  end.

(** ** Direct reads *)

Definition direct_secret (key : ObjectKey) : result Secret error :=
  match sec key with Ok s => Ok s | Err e => Err (read_error "Secret" CodeSecretNotFound key e) end.
Definition direct_configMap (key : ObjectKey) : result ConfigMap error :=
  match cm key with Ok m => Ok m | Err e => Err (read_error "ConfigMap" CodeConfigMapNotFound key e) end.

Definition direct_value (ns path inline : string) (from : option ValueSource) : result string error :=
  match from with
  | None => if decide (inline = "")
            then Err (invalid CodeSpecInvalid (path ++ ": set exactly one of value or valueFrom")%string)
            else Ok (TrimSpace inline)
  | Some from =>
      match SecretKeyRef from, ConfigMapKeyRef from with
      | Some ref, _ =>
          let? value := value_at (path ++ ".valueFrom.secretKeyRef") "Secret" ref
                          (let? s := direct_secret (MkKey ns (sel_name ref)) in Ok (secret_Data s)) in Ok (TrimSpace value)
      | None, Some ref =>
          let? value := value_at (path ++ ".valueFrom.configMapKeyRef") "ConfigMap" ref
                          (let? m := direct_configMap (MkKey ns (sel_name ref)) in Ok (configMap_Data m)) in Ok (TrimSpace value)
      | None, None =>
          Err (invalid CodeSpecInvalid (path ++ ".valueFrom: set exactly one of secretKeyRef or configMapKeyRef")%string)
      end
  end.

Definition direct_auth (ns : string) (auth : Authentication) : result (option ResolvedHeaderAuthentication) error :=
  match auth_header auth with
  | None => Err (invalid CodeSpecInvalid "spec.auth: no authentication method set")
  | Some header =>
      let? value := direct_value ns "spec.auth.header" (ha_value header) (ha_value_from header) in
      let? h := build_header header value in Ok (Some h)
  end.

Definition direct_trust (ns : string) (config : option TLSConfig) : result (option ResolvedTLSConfig) error :=
  match config with
  | None => Ok None
  | Some config =>
      match tls_ca config with
      | None => Ok (Some (MkResolvedTLS (tls_insecure config) None))
      | Some ref =>
          let? bundle := value_at "spec.tls.caSecretRef" "Secret" ref
                           (let? s := direct_secret (MkKey ns (sel_name ref)) in Ok (secret_Data s)) in
          let? pool := build_pool ref bundle in
          Ok (Some (MkResolvedTLS (tls_insecure config) (Some pool)))
      end
  end.

(** The resolution every field of which is read on its own. *)
Definition direct_resolve (ns : string) (spec : ProviderConfigSpec) : result ResolvedProviderConfigSpec error :=
  let? raw := direct_value ns "spec.endpoint" (ep_value (pc_endpoint spec)) (ep_value_from (pc_endpoint spec)) in
  let? endpoint := parse_endpoint raw in
  let? auth := direct_auth ns (pc_auth spec) in
  let? tls := direct_trust ns (pc_tls spec) in
  Ok (MkResolved endpoint auth tls).

(** ** The cache agrees with the snapshot *)

Lemma lookup2_insert2 {A} (m : gmap string (gmap ObjectKey A)) kind key kind' key' a :
  lookup2 (insert2 m kind key a) kind' key'
  = if decide (kind = kind' /\ key = key') then Some a else lookup2 m kind' key'.
Proof.
  unfold lookup2, insert2. destruct (decide (kind = kind')) as [->|Hk].
  - rewrite lookup_insert_eq. destruct (decide (key = key')) as [->|Hne].
    + rewrite lookup_insert_eq. by rewrite decide_True.
    + rewrite lookup_insert_ne by done. rewrite decide_False by tauto. by destruct (m !! kind').
  - rewrite lookup_insert_ne by done. by rewrite decide_False by tauto.
Qed.

Definition read_result {A} (direct : ObjectKey -> result A error) (c : cache) (kind : string) (stored : gmap ObjectKey A)
    (version : A -> string) (w : list read) : Prop :=
  forall key,
    ((kind, key) ∈ w <-> is_Some (lookup2 (cache_errs c) kind key) \/ is_Some (stored !! key)) /\
    (forall e, lookup2 (cache_errs c) kind key = Some e -> direct key = Err e) /\
    (forall a, stored !! key = Some a -> direct key = Ok a) /\
    (forall v, lookup2 (cache_versions c) kind key = Some v <->
       (kind, key) ∈ w /\ exists a, direct key = Ok a /\ version a = v).

Record coherent (ns : string) (c : cache) (w : list read) : Prop := {
  coherent_ns : cache_namespace c = ns;
  coherent_secrets : read_result direct_secret c Sec (cache_secrets c) secret_ResourceVersion w;
  coherent_configMaps : read_result direct_configMap c Cm (cache_configMaps c) configMap_ResourceVersion w;
}.

Lemma coherent_empty ns : coherent ns (MkCache ns ∅ ∅ ∅ ∅) [].
Proof.
  split; [done|..]; intros key; unfold lookup2; simpl; rewrite !lookup_empty;
    (split; [split; [by intros ?%not_elem_of_nil|by intros [[]|[]]]|]);
    (split; [done|]); (split; [done|]); intros v; (split; [done|]); by intros [?%not_elem_of_nil _].
Qed.

(** A read of one kind keeps what is known of the other. *)
Lemma read_result_other {A} direct c c' kind kind' (stored : gmap ObjectKey A) version w key :
  read_result direct c kind stored version w -> kind <> kind' ->
  (forall k, lookup2 (cache_errs c') kind k = lookup2 (cache_errs c) kind k) ->
  (forall k, lookup2 (cache_versions c') kind k = lookup2 (cache_versions c) kind k) ->
  read_result direct c' kind stored version (w ++ [(kind', key)]).
Proof.
  intros Hr Hne He Hv k. destruct (Hr k) as (Hin & Herr & Hok & Hver). rewrite He, Hv.
  assert ((kind, k) ∈ w ++ [(kind', key)] <-> (kind, k) ∈ w) as Hw.
  { rewrite elem_of_app, list_elem_of_singleton. split; [intros [?|[= ? ?]]; congruence|by left]. }
  setoid_rewrite Hw. done.
Qed.

Lemma read_snoc kind key k (w : list read) :
  (kind, k) ∈ w ++ [(kind, key)] <-> (kind, k) ∈ w \/ k = key.
Proof.
  rewrite elem_of_app, list_elem_of_singleton. split; (intros [?|?]; [by left|right]); congruence.
Qed.

Lemma read_result_fail {A} direct c c' kind (stored : gmap ObjectKey A) version w key e :
  read_result direct c kind stored version w -> (kind, key) ∉ w -> direct key = Err e ->
  cache_errs c' = insert2 (cache_errs c) kind key e -> cache_versions c' = cache_versions c ->
  read_result direct c' kind stored version (w ++ [(kind, key)]).
Proof.
  intros Hr Hnew Hd He Hv k. destruct (Hr k) as (Hin & Herr & Hok & Hver).
  rewrite He, Hv, lookup2_insert2. setoid_rewrite read_snoc.
  destruct (decide (k = key)) as [->|Hne].
  - rewrite decide_True by done. split; [split; [eauto|by right]|]. split; [by intros ? [= <-]|]. split; [done|].
    intros v. rewrite Hver, Hd. split; [by intros [_ (? & ? & _)]|by intros [_ (? & ? & _)]].
  - rewrite decide_False by (intros [_ ?]; congruence).
    assert (((kind, k) ∈ w \/ k = key) <-> (kind, k) ∈ w) as Hw by tauto.
    split; [by rewrite Hw|]. split; [done|]. split; [done|]. intros v. by rewrite Hw.
Qed.

Lemma read_result_store {A} direct c c' kind (stored : gmap ObjectKey A) version w key a :
  read_result direct c kind stored version w -> (kind, key) ∉ w -> direct key = Ok a ->
  cache_errs c' = cache_errs c -> cache_versions c' = insert2 (cache_versions c) kind key (version a) ->
  read_result direct c' kind (<[key := a]> stored) version (w ++ [(kind, key)]).
Proof.
  intros Hr Hnew Hd He Hv k. destruct (Hr k) as (Hin & Herr & Hok & Hver).
  rewrite He, Hv, lookup2_insert2. setoid_rewrite read_snoc.
  destruct (decide (k = key)) as [->|Hne].
  - rewrite lookup_insert_eq, decide_True by done. split; [split; [eauto|by right]|]. split.
    { intros e Hke. assert ((kind, key) ∈ w) by (apply Hin; eauto). done. }
    split; [by intros ? [= <-]|]. intros v. split; [intros [= <-]; eauto|].
    intros [_ (b & Hb & <-)]. congruence.
  - rewrite lookup_insert_ne by done. rewrite decide_False by (intros [_ ?]; congruence).
    assert (((kind, k) ∈ w \/ k = key) <-> (kind, k) ∈ w) as Hw by tauto.
    split; [by rewrite Hw|]. split; [done|]. split; [done|]. intros v. by rewrite Hw.
Qed.

Lemma lookup2_insert2_ne {A} (m : gmap string (gmap ObjectKey A)) kind key kind' k a :
  kind <> kind' -> lookup2 (insert2 m kind key a) kind' k = lookup2 m kind' k.
Proof. intros Hne. rewrite lookup2_insert2, decide_False by tauto. done. Qed.

(** What a step through the cache ends with: the direct result, a cache that
    still agrees, and at least the reads made before. *)
Definition agrees {A} (ns : string) (w : list read) (direct : result A error) (p : cache * result A error) (w' : list read) : Prop :=
  coherent ns p.1 w' /\ p.2 = direct /\ forall x, x ∈ w -> x ∈ w'.

Lemma cache_secret_agrees ctx ns c w key :
  coherent ns c w -> key_namespace key = ns ->
  wp snapshot (fresh_read ns) (cache_secret ctx c key)
    (fun p w' => agrees ns w (direct_secret key) p w' /\ (Sec, key) ∈ w') w.
Proof.
  intros Hc Hns. pose proof Hc as [Hn Hs Hm]. destruct (Hs key) as (Hin & Herr & Hok & _). unfold cache_secret.
  destruct (lookup2 (cache_errs c) Sec key) as [e|] eqn:Ee.
  { prog_seq. split; [split; [done|split; [by symmetry; apply Herr|done]]|]. apply Hin. left. eauto. }
  destruct (cache_secrets c !! key) as [s|] eqn:Es.
  { prog_seq. split; [split; [done|split; [by symmetry; apply Hok|done]]|]. apply Hin. right. eauto. }
  assert ((Sec, key) ∉ w) as Hnew by (intros [[? ?]|[? ?]]%Hin; congruence).
  prog_seq; [done|]. intros x w' [-> ->]. prog_seq.
  assert (forall x, x ∈ w -> x ∈ w ++ [(Sec, key)]) as Hmono by (intros; apply elem_of_app; by left).
  assert ((Sec, key) ∈ w ++ [(Sec, key)]) as Hlast by (apply elem_of_app; right; by apply list_elem_of_singleton).
  unfold direct_secret in *. destruct (sec key) as [s|e] eqn:Ek.
  - split; [|done]. split; [|done]. split; [done|..].
    + eapply read_result_store; [exact Hs|done|by unfold direct_secret; rewrite Ek|done|done].
    + apply (read_result_other _ c); [done|done|done|]. intros k. by apply lookup2_insert2_ne.
  - split; [|done]. split; [|done]. split; [done|..].
    + eapply read_result_fail; [exact Hs|done|by unfold direct_secret; rewrite Ek|done|done].
    + apply (read_result_other _ c); [done|done| |done]. intros k. by apply lookup2_insert2_ne.
Qed.

Lemma cache_configMap_agrees ctx ns c w key :
  coherent ns c w -> key_namespace key = ns ->
  wp snapshot (fresh_read ns) (cache_configMap ctx c key)
    (fun p w' => agrees ns w (direct_configMap key) p w' /\ (Cm, key) ∈ w') w.
Proof.
  intros Hc Hns. pose proof Hc as [Hn Hs Hm]. destruct (Hm key) as (Hin & Herr & Hok & _). unfold cache_configMap.
  destruct (lookup2 (cache_errs c) Cm key) as [e|] eqn:Ee.
  { prog_seq. split; [split; [done|split; [by symmetry; apply Herr|done]]|]. apply Hin. left. eauto. }
  destruct (cache_configMaps c !! key) as [s|] eqn:Es.
  { prog_seq. split; [split; [done|split; [by symmetry; apply Hok|done]]|]. apply Hin. right. eauto. }
  assert ((Cm, key) ∉ w) as Hnew by (intros [[? ?]|[? ?]]%Hin; congruence).
  prog_seq; [done|]. intros x w' [-> ->]. prog_seq.
  assert (forall x, x ∈ w -> x ∈ w ++ [(Cm, key)]) as Hmono by (intros; apply elem_of_app; by left).
  assert ((Cm, key) ∈ w ++ [(Cm, key)]) as Hlast by (apply elem_of_app; right; by apply list_elem_of_singleton).
  unfold direct_configMap in *. destruct (cm key) as [s|e] eqn:Ek.
  - split; [|done]. split; [|done]. split; [done|..].
    + apply (read_result_other _ c); [done|done|done|]. intros k. by apply lookup2_insert2_ne.
    + eapply read_result_store; [exact Hm|done|by unfold direct_configMap; rewrite Ek|done|done].
  - split; [|done]. split; [|done]. split; [done|..].
    + apply (read_result_other _ c); [done|done| |done]. intros k. by apply lookup2_insert2_ne.
    + eapply read_result_fail; [exact Hm|done|by unfold direct_configMap; rewrite Ek|done|done].
Qed.
(** The rest of the resolver only composes those two reads. *)
Ltac agree_step lem :=
  apply wp_bind; eapply wp_mono; [|apply lem; [eassumption|reflexivity || assumption]].

Lemma cache_value_agrees ctx ns c w path inline from :
  coherent ns c w ->
  wp snapshot (fresh_read ns) (cache_value ctx c path inline from) (agrees ns w (direct_value ns path inline from)) w.
Proof.
  intros Hc. pose proof (coherent_ns _ _ _ Hc) as <-. unfold cache_value, direct_value.
  destruct from as [from|]; [|by case_decide].
  destruct (SecretKeyRef from) as [ref|].
  { agree_step cache_secret_agrees. intros [c' r] w' [(Hc' & Hr & Hm) _]. cbn [fst snd] in *. by subst r. }
  destruct (ConfigMapKeyRef from) as [ref|]; [|done].
  agree_step cache_configMap_agrees. intros [c' r] w' [(Hc' & Hr & Hm) _]. cbn [fst snd] in *. by subst r.
Qed.

Lemma cache_endpoint_agrees ctx ns c w spec :
  coherent ns c w ->
  wp snapshot (fresh_read ns) (cache_endpoint ctx c spec)
    (agrees ns w (let? raw := direct_value ns "spec.endpoint" (ep_value (pc_endpoint spec)) (ep_value_from (pc_endpoint spec)) in
                  parse_endpoint raw)) w.
Proof.
  intros Hc. unfold cache_endpoint. apply wp_bind. eapply wp_mono; [|by apply cache_value_agrees].
  intros [c' r] w' (Hc' & Hr & Hm). cbn [fst snd] in *. by subst r.
Qed.

Lemma cache_authentication_agrees ctx ns c w auth :
  coherent ns c w ->
  wp snapshot (fresh_read ns) (cache_authentication ctx c auth) (agrees ns w (direct_auth ns auth)) w.
Proof.
  intros Hc. unfold cache_authentication, direct_auth. destruct (auth_header auth); [|done].
  apply wp_bind. eapply wp_mono; [|by apply cache_value_agrees]. intros [c' r] w' (Hc' & Hr & Hm). cbn [fst snd] in *. by subst r.
Qed.

Lemma cache_trust_agrees ctx ns c w config :
  coherent ns c w ->
  wp snapshot (fresh_read ns) (cache_trust ctx c config) (agrees ns w (direct_trust ns config)) w.
Proof.
  intros Hc. pose proof (coherent_ns _ _ _ Hc) as <-. unfold cache_trust, direct_trust.
  destruct config as [config|]; [|done]. destruct (tls_ca config) as [ref|]; [|done].
  agree_step cache_secret_agrees. intros [c' r] w' [(Hc' & Hr & Hm) _]. cbn [fst snd] in *. by subst r.
Qed.

Lemma read_secrets_agrees ctx ns names c w :
  coherent ns c w ->
  wp snapshot (fresh_read ns) (read_secrets ctx c names)
    (fun c' w' => coherent ns c' w' /\ (forall x, x ∈ w -> x ∈ w') /\
       forall name, name ∈ names -> (Sec, MkKey ns name) ∈ w') w.
Proof.
  revert c w. induction names as [|name names IH]; intros c w Hc; cbn [read_secrets].
  { prog_seq. split; [done|]. split; [done|]. by intros ? ?%not_elem_of_nil. }
  pose proof (coherent_ns _ _ _ Hc) as Hns. agree_step cache_secret_agrees.
  intros [c' r] w' [(Hc' & _ & Hm) Hin]. rewrite Hns in Hin. eapply wp_mono; [|by apply IH].
  intros c'' w'' (Hc'' & Hm' & Hall). split; [done|]. split; [auto|].
  intros n [->|Hn]%elem_of_cons; [|auto]. apply Hm', Hin.
Qed.

Lemma read_configMaps_agrees ctx ns names c w :
  coherent ns c w ->
  wp snapshot (fresh_read ns) (read_configMaps ctx c names)
    (fun c' w' => coherent ns c' w' /\ (forall x, x ∈ w -> x ∈ w') /\
       forall name, name ∈ names -> (Cm, MkKey ns name) ∈ w') w.
Proof.
  revert c w. induction names as [|name names IH]; intros c w Hc; cbn [read_configMaps].
  { prog_seq. split; [done|]. split; [done|]. by intros ? ?%not_elem_of_nil. }
  pose proof (coherent_ns _ _ _ Hc) as Hns. agree_step cache_configMap_agrees.
  intros [c' r] w' [(Hc' & _ & Hm) Hin]. rewrite Hns in Hin. eapply wp_mono; [|by apply IH].
  intros c'' w'' (Hc'' & Hm' & Hall). split; [done|]. split; [auto|].
  intros n [->|Hn]%elem_of_cons; [|auto]. apply Hm', Hin.
Qed.

(** ** Resolve *)

(** What Resolve must have read: every reference the spec names. *)
Definition all_read (ns : string) (spec : ProviderConfigSpec) (w : list read) : Prop :=
  (forall name, name ∈ SecretNames spec -> (Sec, MkKey ns name) ∈ w) /\
  (forall name, name ∈ ConfigMapNames spec -> (Cm, MkKey ns name) ∈ w).

(** The versions recorded: of exactly the references read that exist. *)
Definition versions_of (w : list read) (versions : gmap string (gmap ObjectKey string)) : Prop :=
  (forall key v, lookup2 versions Sec key = Some v <->
     (Sec, key) ∈ w /\ exists s, sec key = Ok s /\ secret_ResourceVersion s = v) /\
  (forall key v, lookup2 versions Cm key = Some v <->
     (Cm, key) ∈ w /\ exists m, cm key = Ok m /\ configMap_ResourceVersion m = v).

Lemma coherent_versions ns c w : coherent ns c w -> versions_of w (cache_versions c).
Proof.
  intros [_ Hs Hm]. split; intros key v.
  - destruct (Hs key) as (_ & _ & _ & ->). unfold direct_secret. destruct (sec key); [done|].
    split; [by intros [_ (? & ? & _)]|by intros [_ (? & ? & _)]].
  - destruct (Hm key) as (_ & _ & _ & ->). unfold direct_configMap. destruct (cm key); [done|].
    split; [by intros [_ (? & ? & _)]|by intros [_ (? & ? & _)]].
Qed.

Lemma all_read_mono ns spec w w' : all_read ns spec w -> (forall x, x ∈ w -> x ∈ w') -> all_read ns spec w'.
Proof. intros [Hs Hm] Hw. split; auto. Qed.

Definition resolved_as (ns : string) (spec : ProviderConfigSpec)
    (p : result ResolvedProviderConfigSpec error * gmap string (gmap ObjectKey string)) (w : list read) : Prop :=
  p.1 = direct_resolve ns spec /\ versions_of w p.2 /\ all_read ns spec w.

Lemma Resolve_agrees ctx ns spec :
  wp snapshot (fresh_read ns) (Resolve range ctx ns spec) (resolved_as ns spec) [].
Proof.
  unfold Resolve. cbv zeta.
  apply wp_bind. eapply wp_mono; [|apply read_secrets_agrees, coherent_empty]. intros c1 w1 (Hc1 & _ & Hsec).
  apply wp_bind. eapply wp_mono; [|by apply read_configMaps_agrees]. intros c2 w2 (Hc2 & Hm2 & Hcm).
  assert (all_read ns spec w2) as Hall.
  { split; intros name Hn; [apply Hm2, Hsec|apply Hcm]; rewrite Hrange; by apply elem_of_elements. }
  apply wp_bind. eapply wp_mono; [|by apply cache_endpoint_agrees]. intros [c3 e] w3 (Hc3 & Hre & Hm3). cbn [fst snd] in *. subst e.
  unfold resolved_as, direct_resolve. cbn [fst snd] in *.
  assert (all_read ns spec w3) as Hall3 by (by eapply all_read_mono).
  destruct (direct_value ns "spec.endpoint" _ _) as [raw|err]; [|by split; [|split; [eapply coherent_versions|]]].
  destruct (parse_endpoint raw) as [endpoint|err]; [|by split; [|split; [eapply coherent_versions|]]].
  apply wp_bind. eapply wp_mono; [|by apply cache_authentication_agrees]. intros [c4 a] w4 (Hc4 & Hra & Hm4). cbn [fst snd] in *. subst a.
  cbn [fst snd] in *. assert (all_read ns spec w4) as Hall4 by (by eapply all_read_mono).
  destruct (direct_auth ns _) as [auth|err]; [|by split; [|split; [eapply coherent_versions|]]].
  apply wp_bind. eapply wp_mono; [|by apply cache_trust_agrees]. intros [c5 t] w5 (Hc5 & Hrt & Hm5). cbn [fst snd] in *. subst t.
  cbn [fst snd] in *. assert (all_read ns spec w5) as Hall5 by (by eapply all_read_mono).
  by destruct (direct_trust ns _); split; [|split; [eapply coherent_versions|]| |split; [eapply coherent_versions|]].
Qed.

(** C23. Resolution is a read of every field. Against a snapshot of the cluster,
    [Resolve] ends with exactly the result of reading each field's reference on
    its own, error included; with the version of every reference it read that
    exists, and no other; and having read every Secret and ConfigMap the spec
    names, on failure too. *)
Theorem Resolve_refines_direct_reads ctx ns spec res versions w :
  exec snapshot (Resolve range ctx ns spec) [] (Ret (res, versions)) w ->
  res = direct_resolve ns spec /\ versions_of w versions /\ all_read ns spec w.
Proof. intros Hex. exact (wp_complete _ _ _ _ _ _ _ (Resolve_agrees ctx ns spec) Hex). Qed.

(** Each reference is read once, in one namespace. At no point of any run of
    [Resolve] is a Secret or ConfigMap about to be read that was read before in
    the run, or one outside the namespace references resolve in. *)
Theorem Resolve_reads_once ctx ns spec w :
  (forall ctx' key k, exec snapshot (Resolve range ctx ns spec) [] (Vis (GetSecret ctx' key) k) w ->
     ~ (Sec, key) ∈ w /\ key_namespace key = ns) /\
  (forall ctx' key k, exec snapshot (Resolve range ctx ns spec) [] (Vis (GetConfigMap ctx' key) k) w ->
     ~ (Cm, key) ∈ w /\ key_namespace key = ns).
Proof.
  split; intros ctx' key k Hex; exact (wp_call _ _ _ _ _ _ _ _ (Resolve_agrees ctx ns spec) Hex).
Qed.
End Resolver.

(** ** The references a spec names *)

Section Names.
Context `{NU : NetURL} `{XC : X509} `{AM : ApiMachinery}.

(** A value source names an object through [proj]. *)
Definition refers (proj : ValueSource -> option KeySelector) (name : string) (src : option ValueSource) : Prop :=
  exists s ref, src = Some s /\ proj s = Some ref /\ sel_name ref = name.
Definition named (proj : ValueSource -> option KeySelector) (spec : ProviderConfigSpec) (name : string) : Prop :=
  name <> "" /\ exists src, src ∈ ValueSources spec /\ refers proj name src.

Definition add_name (proj : ValueSource -> option KeySelector) (names : gset string) (src : option ValueSource) : gset string :=
  match src with
  | Some src => match proj src with
                | Some ref => if decide (sel_name ref = "") then names else {[sel_name ref]} ∪ names
                | None => names
                end
  | None => names
  end.

Lemma add_name_elem proj s src name : name ∈ add_name proj s src <-> name ∈ s \/ name <> "" /\ refers proj name src.
Proof.
  unfold add_name, refers. destruct src as [src|]; [|split; [by left|intros [?|(_ & ? & ? & [=] & _)]; done]].
  destruct (proj src) as [ref|] eqn:Hr; [|split; [by left|intros [?|(_ & ? & ? & [= <-] & ? & _)]; [done|congruence]]].
  assert ((exists s0 ref0, Some src = Some s0 /\ proj s0 = Some ref0 /\ sel_name ref0 = name) <-> sel_name ref = name) as Href.
  { split; [by intros (? & ? & [= <-] & ? & <-); simplify_eq|]. intros <-. by exists src, ref. }
  rewrite Href. case_decide as Hn; [|rewrite elem_of_union, elem_of_singleton]; split.
  - by left.
  - intros [?|[? ?]]; [done|congruence].
  - intros [->|?]; [by right|by left].
  - intros [?|[_ ->]]; [by right|by left].
Qed.

Lemma add_names_elem proj l s name :
  name ∈ foldl (add_name proj) s l <-> name ∈ s \/ name <> "" /\ exists src, src ∈ l /\ refers proj name src.
Proof.
  setoid_rewrite <- (Exists_exists (refers proj name) l).
  revert s. induction l as [|src l IH]; intros s; simpl; [rewrite Exists_nil; tauto|].
  rewrite IH, add_name_elem, Exists_cons. tauto.
Qed.

Lemma SecretNames_elem spec name : name ∈ SecretNames spec <-> named SecretKeyRef spec name.
Proof.
  change (SecretNames spec) with (foldl (add_name SecretKeyRef) ∅ (ValueSources spec)).
  rewrite add_names_elem. unfold named. set_solver.
Qed.

Lemma ConfigMapNames_elem spec name : name ∈ ConfigMapNames spec <-> named ConfigMapKeyRef spec name.
Proof.
  change (ConfigMapNames spec) with (foldl (add_name ConfigMapKeyRef) ∅ (ValueSources spec)).
  rewrite add_names_elem. unfold named. set_solver.
Qed.

(** The indexes know of a read. *)
Definition indexed_read (spec : ProviderConfigSpec) (X : Type) (e : config_call X) : Prop :=
  match e with
  | GetSecret _ key => key_name key = "" \/ key_name key ∈ SecretNames spec
  | GetConfigMap _ key => key_name key = "" \/ key_name key ∈ ConfigMapNames spec
  | _ => False
  end.

Lemma cache_secret_calls (P : forall X, config_call X -> Prop) ctx c key :
  P _ (GetSecret ctx key) -> all_calls P (cache_secret ctx c key).
Proof. intros HP. unfold cache_secret. by prog_steps. Qed.

Lemma cache_configMap_calls (P : forall X, config_call X -> Prop) ctx c key :
  P _ (GetConfigMap ctx key) -> all_calls P (cache_configMap ctx c key).
Proof. intros HP. unfold cache_configMap. by prog_steps. Qed.

Lemma cache_value_calls spec ctx c path inline from :
  from ∈ ValueSources spec -> all_calls (indexed_read spec) (cache_value ctx c path inline from).
Proof.
  intros Hfrom. unfold cache_value. destruct from as [from|]; [|by prog_steps].
  destruct (SecretKeyRef from) as [ref|] eqn:Hs; [|destruct (ConfigMapKeyRef from) as [ref|] eqn:Hm; [|done]];
    (apply all_calls_bind; [|intros []; by prog_steps]).
  - apply cache_secret_calls. simpl. destruct (decide (sel_name ref = "")) as [|Hn]; [by left|right].
    apply SecretNames_elem. split; [done|]. exists (Some from). split; [done|]. by exists from, ref.
  - apply cache_configMap_calls. simpl. destruct (decide (sel_name ref = "")) as [|Hn]; [by left|right].
    apply ConfigMapNames_elem. split; [done|]. exists (Some from). split; [done|]. by exists from, ref.
Qed.

Lemma read_secrets_calls spec ctx names c :
  (forall n, n ∈ names -> n ∈ SecretNames spec) -> all_calls (indexed_read spec) (read_secrets ctx c names).
Proof.
  revert c. induction names as [|n names IH]; intros c Hn; cbn [read_secrets]; [done|].
  apply all_calls_bind; [apply cache_secret_calls; right; apply Hn; by left|]. intros [c' r]. apply IH. set_solver.
Qed.

Lemma read_configMaps_calls spec ctx names c :
  (forall n, n ∈ names -> n ∈ ConfigMapNames spec) -> all_calls (indexed_read spec) (read_configMaps ctx c names).
Proof.
  revert c. induction names as [|n names IH]; intros c Hn; cbn [read_configMaps]; [done|].
  apply all_calls_bind; [apply cache_configMap_calls; right; apply Hn; by left|]. intros [c' r]. apply IH. set_solver.
Qed.

Lemma Resolve_calls (range : gset string -> list string) ctx ns spec :
  (forall s, range s ≡ₚ elements s) -> all_calls (indexed_read spec) (Resolve range ctx ns spec).
Proof.
  intros Hrange. unfold Resolve. cbv zeta.
  apply all_calls_bind; [apply read_secrets_calls; intros n; by rewrite Hrange, elem_of_elements|intros c1].
  apply all_calls_bind; [apply read_configMaps_calls; intros n; by rewrite Hrange, elem_of_elements|intros c2].
  apply all_calls_bind.
  { unfold cache_endpoint. apply all_calls_bind; [|intros []; by prog_steps]. apply cache_value_calls.
    apply elem_of_app; left. apply list_elem_of_here. }
  intros [c3 [e|e]]; [|done]. apply all_calls_bind.
  { unfold cache_authentication. destruct (auth_header (pc_auth spec)) as [h|] eqn:Hh; [|done].
    apply all_calls_bind; [|intros []; by prog_steps]. apply cache_value_calls.
    unfold ValueSources. rewrite Hh. apply elem_of_app; right. apply elem_of_app; left. apply list_elem_of_here. }
  intros [c4 [a|a]]; [|done]. apply all_calls_bind; [|intros [c5 [t|t]]; done].
  unfold cache_trust. destruct (pc_tls spec) as [t|] eqn:Ht; [|done]. destruct (tls_ca t) as [ref|] eqn:Hr; [|done].
  apply all_calls_bind; [|intros []; by prog_steps]. apply cache_secret_calls. simpl.
  destruct (decide (sel_name ref = "")) as [|Hn]; [by left|right]. apply SecretNames_elem. split; [done|].
  exists (Some (MkSource (Some ref) None)). split; [|by eexists _, ref]. unfold ValueSources. rewrite Ht, Hr.
  apply elem_of_app; right. apply elem_of_app; right. apply list_elem_of_here.
Qed.

(** C37. What Resolve reads is what the watches know. Whatever the cluster answers,
    every Secret or ConfigMap [Resolve] reads is one that [SecretNames] or
    [ConfigMapNames] lists, so one whose change requeues the config; a reference
    of empty name, which no object has, apart. *)
Theorem Resolve_reads_are_indexed (range : gset string -> list string) ctx ns spec :
  (forall s, range s ≡ₚ elements s) -> all_calls (indexed_read spec) (Resolve range ctx ns spec).
Proof. apply Resolve_calls. Qed.
End Names.

(** ** The status *)

Section Status.
Context `{AML : ApiMachineryLaws} `{SEL : SemanticEqualLaw ProviderConfigStatus}.

(** The Ready condition tells the outcome. After [SetConditions], Ready is True
    exactly when resolving succeeded; otherwise it carries the failure's code,
    or ReferenceReadFailed for a failure without one; it is of the reconciled
    generation; every other condition is untouched; a kind is listed among the
    observed versions exactly when a reference of it was read; and reporting the
    same outcome again changes nothing. *)
Theorem SetConditions_truthful status g versions err :
  let s := SetConditions status g versions err in
  (exists c, find_condition "Ready" (pc_conditions s) = Some c /\ c_generation c = g /\
     (c_status c = ConditionTrue <-> err = None) /\
     (forall e b, err = Some e -> As_Base e = Some b -> base_code b <> CodeUnknown ->
        c_reason c = Code_String (base_code b) /\ c_message c = base_message b)) /\
  (forall t, t <> "Ready" -> find_condition t (pc_conditions s) = find_condition t (pc_conditions status)) /\
  pc_generation s = g /\
  (forall kind, is_Some (pc_versions s !! kind) <-> exists m, versions !! kind = Some m /\ m <> ∅) /\
  SetConditions s g versions err = s.
Proof.
  cbv zeta. unfold SetConditions. cbn [pc_conditions pc_generation pc_versions].
  assert (c_type (ready_condition g err) = "Ready") as Ht
    by (unfold ready_condition; destruct err as [e|]; [by destruct (As_Base e)|done]).
  pose proof (set_condition_same (pc_conditions status) (ready_condition g err)) as Hsame. rewrite Ht in Hsame.
  split; [|split; [|split; [done|split]]].
  - exists (ready_condition g err). split; [done|]. unfold ready_condition.
    destruct err as [e|]; [|by split; [|split; [|intros ? ? [=]]]].
    destruct (As_Base e) as [b|] eqn:Hb; (split; [done|]; split; [done|]); intros ? b' [= <-] Hb' Hc; [|congruence].
    rewrite Hb in Hb'. injection Hb' as <-. simpl. unfold conditionReason. by rewrite decide_True.
  - intros t Hne. apply set_condition_other. by rewrite Ht.
  - intros kind. unfold observed_versions. rewrite lookup_fmap, fmap_is_Some. split.
    + intros [m (Hm & Hne)%map_lookup_filter_Some]. eauto.
    + intros (m & Hm & Hne). exists m. by apply map_lookup_filter_Some.
  - f_equal. apply set_condition_present. by rewrite Ht.
Qed.
End Status.

(** ** A pass over a provider config *)

Section Pass.
Context `{AML : ApiMachineryLaws} `{NU : NetURL} `{XC : X509} `{SEL : SemanticEqualLaw ProviderConfigStatus}.
Context (range : gset string -> list string) (Hrange : forall s, range s ≡ₚ elements s).
Context (sec : ObjectKey -> result Secret error) (cm : ObjectKey -> result ConfigMap error).

(** A cluster that answers reads from the snapshot, and writes as it likes. *)
Definition cluster (X : Type) (e : config_call X) : X -> Prop :=
  match e in config_call X return X -> Prop with
  | GetSecret _ key => fun x => x = sec key
  | GetConfigMap _ key => fun x => x = cm key
  | _ => fun _ => True
  end.

Definition is_read (ev : event config_call) : Prop :=
  match ev with Ev (GetSecret _ _) _ | Ev (GetConfigMap _ _) _ => True | _ => False end.

(** The references a history read. *)
Definition reads_of (h : history config_call) : list (string * ObjectKey) :=
  omap (fun ev => match ev with
                  | Ev (GetSecret _ key) _ => Some (ProviderConfigObservedRefKindSecret, key)
                  | Ev (GetConfigMap _ key) _ => Some (ProviderConfigObservedRefKindConfigMap, key)
                  | _ => None
                  end) h.

Lemma Resolve_history ctx ns spec res versions h :
  exec (hist_step cluster) (Resolve range ctx ns spec) [] (Ret (res, versions)) h ->
  res = direct_resolve sec cm ns spec /\ versions_of sec cm (reads_of h) versions /\ Forall is_read h.
Proof.
  intros Hex.
  destruct (all_calls_history _ _ _ _ _ _ (Resolve_calls range ctx ns spec Hrange) Hex) as (hs & -> & Hall).
  apply (exec_simulate reads_of _ (snapshot sec cm)) in Hex.
  2: { intros X w e x w' [Hc ->]. unfold reads_of. rewrite omap_app. destruct e; simpl in *; rewrite ?app_nil_r; auto. }
  destruct (wp_complete _ _ _ _ _ _ _ (Resolve_agrees range Hrange sec cm ctx ns spec) Hex) as (Heq & Hver & _).
  split; [done|]. split; [done|]. eapply Forall_impl; [exact Hall|]. by intros [X [] x].
Qed.

(** C36. A pass reports the resolution and retries every failure. A pass over a
    provider config reads references only, then writes its status once, exactly
    when the status does not report the resolution yet; it asks for no requeue
    of its own but returns the resolution's error, or the failed write's, so the
    work queue backs off and retries; it ends without an error only if every
    field resolved. *)
Theorem config_pass_reports_and_retries ctx obj ns obj' res err h :
  exec (hist_step cluster) (CommonReconciler_Reconcile range ctx obj ns) [] (Ret (obj', res, err)) h ->
  let outcome := direct_resolve sec cm ns (config_spec obj) in
  res = no_requeue /\ (err = None -> is_ok outcome = true) /\
  exists reads versions, Forall is_read reads /\ versions_of sec cm (reads_of reads) versions /\
    let want := SetConditions (config_status obj) (m_generation (config_meta obj)) versions (error_of outcome) in
    (want = config_status obj /\ h = reads /\ obj' = obj /\ err = error_of outcome
     \/ want <> config_status obj /\ exists answer,
        h = reads ++ [Ev (ConfigStatusUpdate ctx (with_config_status obj want)) answer] /\
        match answer with
        | Ok stored => obj' = stored /\ err = error_of outcome
        | Err e => obj' = with_config_status obj want /\ err = Some (EWrap "could not update status" e)
        end).
Proof.
  intros Hex. cbv zeta. unfold CommonReconciler_Reconcile in Hex.
  apply exec_bind_inv in Hex as ([resolved versions] & w1 & Hres & Hex).
  apply Resolve_history in Hres as (-> & Hver & Hreads). cbv zeta in Hex.
  set (outcome := direct_resolve sec cm ns (config_spec obj)) in *.
  assert (error_of outcome = None -> is_ok outcome = true) as Hok by (by destruct outcome).
  cbn [config_status with_config_status] in Hex.
  set (want := SetConditions _ _ _ _) in *.
  destruct (DeepEqual _ _) eqn:Hde; cbn [negb] in Hex.
  - apply (proj1 (deep_equal _ _)) in Hde. apply exec_ret_inv in Hex as [Hr ->]. injection Hr as -> -> ->.
    split; [done|]. split; [done|]. exists w1, versions. split; [done|]. split; [done|]. left.
    split; [done|]. split; [done|]. split; [|done]. unfold with_config_status. rewrite <- Hde. by destruct obj.
  - assert (want <> config_status obj) as Hne.
    { intros He. rewrite He, (proj2 (deep_equal _ _) eq_refl) in Hde. done. }
    apply exec_bind_inv in Hex as (r & w2 & [_ ->]%exec_trigger_inv & Hex).
    destruct r; apply exec_ret_inv in Hex as [Hr ->]; injection Hr as -> -> ->;
      (split; [done|]; split; [done|]); exists w1, versions; (split; [done|]; split; [done|]);
      right; (split; [done|]); eexists; (split; [reflexivity|done]).
Qed.
End Pass.
