(* ===== verification/Controllers.v ===== *)
(** * internal/controller/resources: the controllers and their watches

    The ten generated controllers differ in the kind only; [kind_Reconcile] and
    [kind_setup] are the text they share.  What a SetupWithManager registers is a
    value: the field indexes, and the watches with their event handlers. *)

From S2P Require Import Prelude GoStd Errors Kube Core Conditions Effects Interfaces Reconciler ProviderConfig.
From Stdlib Require Import String.

Local Open Scope string_scope.
Local Open Scope list_scope.

(** ** Requests and lists *)

(** [client.ListOption]s: a namespace, and one value of a field index. *)
Record ListOptions := MkListOptions { InNamespace : option string; MatchingField : string * string }.

Definition ObjectKeyFromObject (m : ObjectMeta) : ObjectKey := MkKey (m_namespace m) (m_name m).

(** The calls a controller makes besides those of the pass it runs. *)
Inductive controller_call (T : Type) (E : Type -> Type) : Type -> Type :=
  | KGet (ctx : Context) (key : ObjectKey) : controller_call T E (result T error)
  | KList (ctx : Context) (opts : ListOptions) : controller_call T E (result (list ObjectMeta) error)
  | InPass {X} (e : E X) : controller_call T E X.
Arguments KGet {T E}.
Arguments KList {T E}.
Arguments InPass {T E X}.

Section Controllers.
Context `{AM : ApiMachinery}.

(** [client.IgnoreNotFound]. *)
Definition IgnoreNotFound (err : error) : option error := if api_IsNotFound err then None else Some err.

(** ** watches.go *)

(** A failed list enqueues nothing. *)
Definition requestsMatching {T E} (ctx : Context) (opts : ListOptions) : prog (controller_call T E) (list ObjectKey) :=
  items ← trigger (KList ctx opts);
  mret (match items with Err _ => [] | Ok items => ObjectKeyFromObject <$> items end).

(** ** providerconfig_watches.go *)

Definition providerConfigRefIndex : string := ".spec.providerConfigRef".

Definition providerConfigRefKey (kind name : string) : string :=
  ((if decide (kind = "") then "ProviderConfig" else kind) ++ "/" ++ name)%string.

(** The index function of a mirrored kind. *)
Definition indexProviderConfigRef (ref : ProviderConfigRef) : list string :=
  [providerConfigRefKey (ref_kind ref) (ref_name ref)].

Definition enqueueReferencers {T E} (kind : string) (scoped : bool) (ctx : Context) (obj : ObjectMeta)
    : prog (controller_call T E) (list ObjectKey) :=
  requestsMatching ctx
    (MkListOptions (if scoped then Some (m_namespace obj) else None)
       (providerConfigRefIndex, providerConfigRefKey kind (m_name obj))).

Definition watchProviderConfigs {T E} := @enqueueReferencers T E "ProviderConfig" true.
Definition watchClusterProviderConfigs {T E} := @enqueueReferencers T E "ClusterProviderConfig" false.

(** ** What a controller registers *)

(** A watched kind and the handler of its events. *)
Record Setup (T : Type) (E : Type -> Type) := MkSetup {
  setup_For : string;
  setup_indexes : list (string * (T -> list string));
  setup_watches : list (string * (Context -> ObjectMeta -> prog (controller_call T E) (list ObjectKey)));
  setup_Named : string;
}.

(** ** The generated controllers *)

Section Kind.
Context {T SigNoz Resolved : Type} `{RO : ResourceObject T} `{SE : SemanticEqual CoreStatus}.
Context (NewClient : Resolved -> SigNoz) (rec : commonReconciler).

Abbreviation E := (call T SigNoz Resolved).
Abbreviation go := (prog (controller_call (Object T) E)).

Definition kind_Reconcile (ctx : Context) (req : ObjectKey) : go (Result * option error) :=
  obj ← trigger (KGet ctx req);
  match obj with
  | Err err => mret (no_requeue, IgnoreNotFound err)
  | Ok obj =>
      '(_, result, err) ← lift (fun X (e : E X) => InPass e) (Reconcile NewClient rec ctx obj);
      mret (result, err)
  end.

Definition kind_setup (kind name : string) : Setup (Object T) E :=
  MkSetup _ _ kind
    [(providerConfigRefIndex, fun o => indexProviderConfigRef (ProviderConfigRef_ (o_spec o)))]
    [("ProviderConfig", watchProviderConfigs); ("ClusterProviderConfig", watchClusterProviderConfigs)]
    ("resources-" ++ name)%string.

Definition AuthDomainReconciler_SetupWithManager := kind_setup "AuthDomain" "authdomain".
Definition DashboardReconciler_SetupWithManager := kind_setup "Dashboard" "dashboard".
Definition NotificationChannelReconciler_SetupWithManager := kind_setup "NotificationChannel" "notificationchannel".
Definition PlannedMaintenanceReconciler_SetupWithManager := kind_setup "PlannedMaintenance" "plannedmaintenance".
Definition RoleReconciler_SetupWithManager := kind_setup "Role" "role".
Definition RoutePolicyReconciler_SetupWithManager := kind_setup "RoutePolicy" "routepolicy".
Definition RuleReconciler_SetupWithManager := kind_setup "Rule" "rule".
Definition SavedViewReconciler_SetupWithManager := kind_setup "SavedView" "savedview".
Definition ServiceAccountReconciler_SetupWithManager := kind_setup "ServiceAccount" "serviceaccount".
Definition UserReconciler_SetupWithManager := kind_setup "User" "user".
End Kind.

(** ** providerconfig_controller.go and clusterproviderconfig_controller.go *)

Section Configs.
Context `{NU : NetURL} `{XC : X509} `{SE : SemanticEqual ProviderConfigStatus}.
Context (range : gset string -> list string).

Abbreviation go := (prog (controller_call Config config_call)).

Definition secretRefsIndex : string := ".spec.secretRefs".
Definition configMapRefsIndex : string := ".spec.configMapRefs".

(** The body the two Reconciles share, from where references resolve. *)
Definition config_Reconcile (refNamespace : Config -> string) (ctx : Context) (req : ObjectKey)
    : go (Result * option error) :=
  config ← trigger (KGet ctx req);
  match config with
  | Err err => mret (no_requeue, IgnoreNotFound err)
  | Ok config =>
      match m_deletion (config_meta config) with
      | Some _ => mret (no_requeue, None)
      | None =>
          '(_, result, err) ← lift (fun X (e : config_call X) => InPass e)
            (CommonReconciler_Reconcile range ctx config (refNamespace config));
          mret (result, err)
      end
  end.

Definition ProviderConfigReconciler_Reconcile := config_Reconcile (fun config => m_namespace (config_meta config)).
Definition ClusterProviderConfigReconciler_Reconcile (operatorNamespace : string) :=
  config_Reconcile (fun _ => operatorNamespace).

Definition config_indexes : list (string * (Config -> list string)) :=
  [(secretRefsIndex, fun c => range (SecretNames (config_spec c)));
   (configMapRefsIndex, fun c => range (ConfigMapNames (config_spec c)))].

Definition ProviderConfig_watchReferences (indexField : string) (ctx : Context) (obj : ObjectMeta) : go (list ObjectKey) :=
  requestsMatching ctx (MkListOptions (Some (m_namespace obj)) (indexField, m_name obj)).

Definition ClusterProviderConfig_watchReferences (operatorNamespace indexField : string) (ctx : Context) (obj : ObjectMeta)
    : go (list ObjectKey) :=
  if decide (m_namespace obj <> operatorNamespace) then mret []
  else requestsMatching ctx (MkListOptions None (indexField, m_name obj)).

Definition ProviderConfigReconciler_SetupWithManager : Setup Config config_call :=
  MkSetup _ _ "ProviderConfig" config_indexes
    [("Secret", ProviderConfig_watchReferences secretRefsIndex);
     ("ConfigMap", ProviderConfig_watchReferences configMapRefsIndex)]
    "resources-providerconfig".

Definition ClusterProviderConfigReconciler_SetupWithManager (operatorNamespace : string)
    : result (Setup Config config_call) error :=
  if decide (operatorNamespace = "")
  then Err (errorString "operator namespace is required to resolve ClusterProviderConfig references")
  else Ok (MkSetup _ _ "ClusterProviderConfig" config_indexes
    [("Secret", ClusterProviderConfig_watchReferences operatorNamespace secretRefsIndex);
     ("ConfigMap", ClusterProviderConfig_watchReferences operatorNamespace configMapRefsIndex)]
    "resources-clusterproviderconfig").
End Configs.
End Controllers.
