(* ===== verification/ControllersSpec.v ===== *)
(** * Which objects an event requeues

    The watches against a client whose lists answer the registered indexes, and
    what a resolution reads. *)

From S2P Require Import Prelude GoStd Errors Kube Core Conditions Effects Interfaces Reconciler ProviderConfig ProviderConfigSpec Controllers.
From Stdlib Require Import String.

Local Open Scope string_scope.
Local Open Scope list_scope.

(** The object is in the namespace listed, if the list is of one. *)
Abbreviation in_namespace opts m := (default (m_namespace m) (InNamespace opts) = m_namespace m).

(** A cached client over a cluster: a list holds, in some order, the objects of
    the namespace whose index has the value. *)
Definition listing {T} {E : Type -> Type} (meta : T -> ObjectMeta) (indexes : list (string * (T -> list string)))
    (cluster : list T) (X : Type) (w : unit) (e : controller_call T E X) : X -> unit -> Prop :=
  match e in controller_call _ _ X return X -> unit -> Prop with
  | KList _ opts => fun x _ => exists index items,
      (((MatchingField opts).1, index) ∈ indexes) /\
      items ≡ₚ filter (fun o => (MatchingField opts).2 ∈ index o /\ in_namespace opts (meta o)) cluster /\
      x = Ok (meta <$> items)
  | _ => fun _ _ => True
  end.

Lemma requestsMatching_listing {T} {E : Type -> Type} (meta : T -> ObjectMeta) indexes index (cluster : list T) ctx opts keys w :
  NoDup indexes.*1 -> ((MatchingField opts).1, index) ∈ indexes ->
  exec (listing (E := E) meta indexes cluster) (requestsMatching ctx opts) tt (Ret keys) w ->
  forall key, key ∈ keys <-> exists o, o ∈ cluster /\ key = ObjectKeyFromObject (meta o) /\
    (MatchingField opts).2 ∈ index o /\ in_namespace opts (meta o).
Proof.
  intros Hnd Hin (x & [] & Hx%exec_trigger_inv & Hr)%exec_bind_inv key.
  apply exec_ret_inv in Hr as [-> _]. destruct Hx as (index' & items & Hin' & Hperm & ->).
  assert (index' = index) as ->.
  { clear -Hnd Hin Hin'. induction indexes as [|[f i] l IH]; [by apply not_elem_of_nil in Hin|].
    cbn in Hnd. apply NoDup_cons in Hnd as [Hnew Hnd]. rewrite elem_of_cons in Hin, Hin'.
    destruct Hin as [[= Hf ->]|Hin], Hin' as [[= Hf' ->]|Hin']; [done| | |by apply IH].
    - destruct Hnew. rewrite <- Hf. by apply (list_elem_of_fmap_2 fst) in Hin'.
    - destruct Hnew. rewrite <- Hf'. by apply (list_elem_of_fmap_2 fst) in Hin. }
  rewrite <- list_fmap_compose, list_elem_of_fmap. setoid_rewrite Hperm. setoid_rewrite list_elem_of_filter.
  split.
  - intros (o & -> & (Hi & Hns) & Ho). eauto 10.
  - intros (o & Ho & -> & Hi & Hns). eauto 10.
Qed.

(** ** Provider configs and the resources that use them *)

Section Users.
Context {T SigNoz Resolved : Type} `{NU : NetURL} `{XC : X509} `{AM : ApiMachinery}.
Context (range : gset string -> list string).

Abbreviation E := (call T SigNoz Resolved).

(** The provider config a resolution starts by reading. *)
Definition first_read {R} (p : prog config_call R) : option (string * ObjectKey) :=
  match p with
  | Vis (GetProviderConfig _ key) _ => Some ("ProviderConfig", key)
  | Vis (GetClusterProviderConfig _ key) _ => Some ("ClusterProviderConfig", key)
  | _ => None
  end.

Definition config_read (ctx : Context) (operatorNamespace : string) (o : Object T) : option (string * ObjectKey) :=
  first_read (ResolveRef range ctx (ProviderConfigRef_ (o_spec o)) (m_namespace (o_meta o)) operatorNamespace).

(** The schema's enum on providerConfigRef.kind. *)
Definition known_kind (o : Object T) : Prop :=
  ref_kind (ProviderConfigRef_ (o_spec o)) ∈ ["" ; "ProviderConfig"; "ClusterProviderConfig"].

Lemma append_cancel (s u v : string) : (s ++ u)%string = (s ++ v)%string -> u = v.
Proof. induction s as [|x s IH]; [done|]. intros [= ?]. auto. Qed.

(** An omitted kind is ProviderConfig, here and in ResolveRef. *)
Definition effective_kind (kind : string) : string := if decide (kind = "") then "ProviderConfig" else kind.

Lemma key_inj k1 k2 a b :
  k1 ∈ ["ProviderConfig"; "ClusterProviderConfig"] -> k2 ∈ ["ProviderConfig"; "ClusterProviderConfig"] ->
  (k1 ++ "/" ++ a)%string = (k2 ++ "/" ++ b)%string <-> k1 = k2 /\ a = b.
Proof.
  rewrite !elem_of_cons, !elem_of_nil. intros [->|[->|[]]] [->|[->|[]]].
  1,4: split; [intros He; split; [done|]; by do 2 apply append_cancel in He|by intros [_ ->]].
  all: split; [intros He; apply (f_equal (String.get 0)) in He; vm_compute in He; discriminate
              |intros [He _]; discriminate].
Qed.

Lemma indexed_key o kind name :
  known_kind o -> kind ∈ ["ProviderConfig"; "ClusterProviderConfig"] ->
  providerConfigRefKey kind name ∈ indexProviderConfigRef (ProviderConfigRef_ (o_spec o)) <->
  kind = effective_kind (ref_kind (ProviderConfigRef_ (o_spec o))) /\ name = ref_name (ProviderConfigRef_ (o_spec o)).
Proof.
  unfold known_kind, indexProviderConfigRef, providerConfigRefKey. fold (effective_kind (ref_kind (ProviderConfigRef_ (o_spec o)))).
  intros Hk Hkind. rewrite list_elem_of_singleton.
  assert ((if decide (kind = "") then "ProviderConfig" else kind) = kind) as ->.
  { rewrite !elem_of_cons, !elem_of_nil in Hkind. by destruct Hkind as [->|[->|[]]]. }
  apply key_inj; [done|]. rewrite !elem_of_cons, elem_of_nil in Hk. rewrite !elem_of_cons. unfold effective_kind.
  destruct Hk as [->|[->|[->|[]]]]; auto.
Qed.

(** C32. A provider config's event requeues exactly its users. When a provider
    config, of either kind, changes, the watch requeues precisely the resources
    whose next resolution starts by reading that very config: the references
    without a kind included, those of another namespace or kind not. *)
Theorem config_event_requeues_its_users plural name kind ctx rctx ons config cluster keys w :
  kind ∈ ["ProviderConfig"; "ClusterProviderConfig"] ->
  (kind = "ClusterProviderConfig" -> m_namespace config = "") ->
  Forall known_kind cluster ->
  exec (listing (E := E) o_meta (setup_indexes _ _ (kind_setup (SigNoz := SigNoz) (Resolved := Resolved) plural name)) cluster)
    (if decide (kind = "ProviderConfig") then watchProviderConfigs ctx config else watchClusterProviderConfigs ctx config)
    tt (Ret keys) w ->
  forall key, key ∈ keys <-> exists o, o ∈ cluster /\ key = ObjectKeyFromObject (o_meta o) /\
    config_read rctx ons o = Some (kind, ObjectKeyFromObject config).
Proof.
  intros Hkind Hns Hknown Hex key. rewrite Forall_forall in Hknown.
  assert (exec (listing (E := E) o_meta (setup_indexes _ _ (kind_setup (SigNoz := SigNoz) (Resolved := Resolved) plural name)) cluster)
    (enqueueReferencers kind (bool_decide (kind = "ProviderConfig")) ctx config) tt (Ret keys) w) as Hex'.
  { rewrite !elem_of_cons, !elem_of_nil in Hkind. by destruct Hkind as [->|[->|[]]]. }
  unfold enqueueReferencers in Hex'.
  eassert (forall key, key ∈ keys <-> _) as Hkeys.
  { eapply requestsMatching_listing with (3 := Hex'); [apply NoDup_singleton|apply list_elem_of_here]. }
  rewrite Hkeys. clear Hkeys.
  cbn [MatchingField InNamespace fst snd].
  assert (forall o, o ∈ cluster ->
    (providerConfigRefKey kind (m_name config) ∈ indexProviderConfigRef (ProviderConfigRef_ (o_spec o)) /\
     default (m_namespace (o_meta o)) (if bool_decide (kind = "ProviderConfig") then Some (m_namespace config) else None)
     = m_namespace (o_meta o)) <->
    config_read rctx ons o = Some (kind, ObjectKeyFromObject config)) as Heq.
  { intros o Ho. pose proof (Hknown o Ho) as Hk. rewrite (indexed_key o kind (m_name config) Hk Hkind).
    unfold config_read, ResolveRef, ObjectKeyFromObject. unfold known_kind in Hk.
    destruct (ProviderConfigRef_ (o_spec o)) as [n k]. simpl in *.
    rewrite !elem_of_cons, elem_of_nil in Hk. rewrite !elem_of_cons, elem_of_nil in Hkind.
    destruct Hkind as [->|[->|[]]], Hk as [->|[->|[->|[]]]]; simpl; rewrite ?Hns by done;
      split; intros He; try (by intuition congruence); try (by destruct config; simpl in *; intuition congruence);
      try (by intuition (simplify_eq/=; auto)). }
  split.
  - intros (o & Ho & -> & Hi & Hn). exists o. split; [done|]. split; [done|]. by apply Heq.
  - intros (o & Ho & -> & Hr). exists o. split; [done|]. split; [done|]. by apply Heq.
Qed.
End Users.

(** ** Secrets and ConfigMaps and the configs that read them *)

Section References.
Context `{NU : NetURL} `{XC : X509} `{AM : ApiMachinery}.
Context (range : gset string -> list string) (Hrange : forall s, range s ≡ₚ elements s).

(** The objects of a kind a spec references, by the index of that kind. *)
Definition names_of (field : string) (spec : ProviderConfigSpec) : gset string :=
  if decide (field = secretRefsIndex) then SecretNames spec else ConfigMapNames spec.

Abbreviation listing_configs := (listing (E := config_call) config_meta (config_indexes range)).

Lemma config_index field :
  field ∈ [secretRefsIndex; configMapRefsIndex] ->
  (field, fun c => range (names_of field (config_spec c))) ∈ config_indexes range.
Proof.
  rewrite !elem_of_cons, elem_of_nil. unfold config_indexes, names_of. intros [->|[->|[]]]; simpl; set_solver.
Qed.

Lemma config_indexes_distinct : NoDup (config_indexes range).*1.
Proof. apply (bool_decide_unpack (NoDup [secretRefsIndex; configMapRefsIndex])). by vm_compute. Qed.

(** C33. A rotated credential is resolved again. When a Secret or a ConfigMap
    changes, the watches requeue exactly the provider configs of its namespace
    that reference it, and, if it is in the operator's namespace, exactly the
    cluster provider configs that do. *)
Theorem reference_event_requeues_its_readers field ctx obj ons cluster keys w :
  field ∈ [secretRefsIndex; configMapRefsIndex] ->
  (exec (listing_configs cluster) (ProviderConfig_watchReferences field ctx obj) tt (Ret keys) w ->
   forall key, key ∈ keys <-> exists c, c ∈ cluster /\ key = ObjectKeyFromObject (config_meta c) /\
     m_namespace (config_meta c) = m_namespace obj /\ m_name obj ∈ names_of field (config_spec c)) /\
  (exec (listing_configs cluster) (ClusterProviderConfig_watchReferences ons field ctx obj) tt (Ret keys) w ->
   forall key, key ∈ keys <-> m_namespace obj = ons /\ exists c, c ∈ cluster /\
     key = ObjectKeyFromObject (config_meta c) /\ m_name obj ∈ names_of field (config_spec c)).
Proof.
  intros Hf. pose proof (config_index field Hf) as Hidx.
  assert (forall c, m_name obj ∈ range (names_of field (config_spec c)) <-> m_name obj ∈ names_of field (config_spec c)) as Hr
    by (intros c; by rewrite Hrange, elem_of_elements).
  split.
  - intros Hex key. eassert (forall key, key ∈ keys <-> _) as Hkeys.
    { eapply requestsMatching_listing with (3 := Hex); [apply config_indexes_distinct|exact Hidx]. }
    rewrite Hkeys. simpl. setoid_rewrite Hr. split; intros (c & ? & ? & ? & ?); exists c; auto.
  - unfold ClusterProviderConfig_watchReferences. case_decide as Hns; intros Hex key.
    + apply exec_ret_inv in Hex as [-> _]. split; [by intros ?%not_elem_of_nil|]. by intros [? _].
    + eassert (forall key, key ∈ keys <-> _) as Hkeys.
      { eapply requestsMatching_listing with (3 := Hex); [apply config_indexes_distinct|exact Hidx]. }
      rewrite Hkeys. simpl. setoid_rewrite Hr. split.
      * intros (c & ? & ? & ? & _). split; [by destruct (decide (m_namespace obj = ons))|]. exists c; auto.
      * intros (_ & c & ? & ? & ?). exists c; auto.
Qed.
End References.
