(* ===== verification/Client.v ===== *)
(** * internal/clients: the exchange of one JSON request

    [Exchange] over the one call that reaches the network, [http.Client.Do].  The
    response body arrives as its bytes and the error that ended the reading, if
    any. *)

From S2P Require Import Prelude GoStd Json Errors Kube Core Effects ProviderConfig.
From Stdlib Require Import Ascii String.

Local Open Scope string_scope.

(** [64 << 20]. *)
Definition maxResponseBody : Z := Z.shiftl 64 20.

(** ** net/http *)

(** [textproto.CanonicalMIMEHeaderKey]: a name that is not a token is left alone. *)
Definition is_token_byte (c : nat) : bool :=
  in_range 48 57 c || in_range 65 90 c || in_range 97 122 c
  || bool_decide (c ∈ [33; 35; 36; 37; 38; 39; 42; 43; 45; 46; 94; 95; 96; 124; 126]%nat).

Fixpoint canonical_bytes (upper : bool) (l : list nat) : list nat :=
  match l with
  | [] => []
  | c :: l' =>
      let c' := if upper then (if in_range 97 122 c then c - 32 else c)%nat
                else (if in_range 65 90 c then c + 32 else c)%nat in
      c' :: canonical_bytes (c =? 45)%nat l'
  end.

Definition CanonicalHeaderKey (key : string) : string :=
  if forallb is_token_byte (bytes_of key) then string_of (canonical_bytes true (bytes_of key)) else key.

(** [http.Header.Set]; every header the client sets has one value. *)
Definition Header : Type := gmap string string.
Definition Header_Set (h : Header) (key value : string) : Header := <[CanonicalHeaderKey key := value]> h.

Record Request := MkRequest { req_method : string; req_url : string; req_header : Header; req_body : option string }.

Record Response := MkResponse { resp_StatusCode : Z; resp_body : string; resp_read_error : option error }.

Section Client.
Context `{NU : NetURL} `{XC : X509}.
(** [build.Version], set at link time. *)
Context (Version : string).
(** What [url.Parse] and [http.NewRequestWithContext] say of their arguments when
    they refuse them. *)
Context (parse_error : string -> error) (request_error : string -> string -> option error).

Definition userAgent : string := "signoz-operator/" ++ Version.

(** The client of one resolved config; the transport's TLS settings, the default
    ones when [None]. *)
Record client := MkClient {
  client_resolved : ResolvedProviderConfigSpec;
  client_tls : option (bool * option CertPool);
}.

Definition New (resolved : ResolvedProviderConfigSpec) : client := MkClient resolved (TLSClientConfig resolved).

Inductive net : Type -> Type :=
  | Do (ctx : Context) (tls : option (bool * option CertPool)) (req : Request) : net (result Response error).

(** ** The body of a response *)

Definition is_trimmed (c : nat) : bool := is_space c.

Fixpoint drop_spaces (l : list nat) : list nat :=
  match l with c :: l' => if is_trimmed c then drop_spaces l' else l | [] => [] end.

(** A text without the white space around it. *)
Definition trim_json (s : string) : string :=
  string_of (reverse (drop_spaces (reverse (drop_spaces (bytes_of s))))).

(** [decoder.Decode(&data) == nil && !decoder.More()], with the data: the first
    value of the text, when only white space, or a closing bracket or brace and
    anything at all, comes after it.  [More] takes such a byte for the end of an
    enclosing list.  A text has at most one prefix that is a value and is
    followed, white space aside, by a byte that cannot continue it. *)
Fixpoint value_before_close (seen rest : list nat) : option string :=
  match rest with
  | [] => None
  | c :: rest' =>
      if ((c =? 93)%nat || (c =? 125)%nat) && Valid (string_of (reverse seen))
      then Some (trim_json (string_of (reverse seen)))
      else value_before_close (c :: seen) rest'
  end.

Definition decode_one (body : string) : option string :=
  if Valid body then Some (trim_json body) else value_before_close [] (bytes_of body).

(** [snippet]: at most 200 bytes, on one line. *)
Definition snippet_byte (c : nat) : nat := if bool_decide (c ∈ [10; 13; 9]%nat) then 32%nat else c.
Definition snippet (body : string) : string := string_of (snippet_byte <$> take 200 (bytes_of body)).

(** [json.Marshal(map[string]string{"response": s})], which cannot fail. *)
Definition wrapped_response (s : string) : string :=
  default "" (Marshal (JObj [("response", JStr s)])).

(** What Exchange makes of a response. *)
Definition read_response (resp : Response) : result (Z * option string) error :=
  let limited := take (Z.to_nat (maxResponseBody + 1)) (bytes_of (resp_body resp)) in
  let size := Z.of_nat (List.length limited) in
  let seen := string_of limited in
  match resp_read_error resp with
  | Some err =>
      if decide (size <= maxResponseBody)%Z
      then Err (EBase (Wrap err ReasonUnreachable "could not read the response body"))
      else Err (EBase (Errors.New ReasonUnreachable
             ("the server returned a response body over the " ++ Itoa maxResponseBody ++ " byte limit")))
  | None =>
      if decide (maxResponseBody < size)%Z
      then Err (EBase (Errors.New ReasonUnreachable
             ("the server returned a response body over the " ++ Itoa maxResponseBody ++ " byte limit")))
      else if decide (size = 0)%Z then Ok (resp_StatusCode resp, None)
      else
        match decode_one seen with
        | Some data => Ok (resp_StatusCode resp, Some data)
        | None =>
            if decide (200 <= resp_StatusCode resp < 300)%Z
            then Err (EBase (Errors.New ReasonUnreachable
                   ("the server returned a success status (HTTP " ++ Itoa (resp_StatusCode resp)
                    ++ ") with a non-JSON body: " ++ snippet seen)))
            else Ok (resp_StatusCode resp, Some (wrapped_response (snippet seen)))
        end
  end.

(** The request of an exchange. *)
Definition build_request (c : client) (method path : string) (body : option string) : result Request error :=
  match url_Parse path with
  | None => Err (EBase (Wrap (parse_error path) ReasonInvalidInput "could not build the request URL"))
  | Some ref =>
      let target := url_SetRawQuery (url_JoinPath (resolved_Endpoint (client_resolved c)) (url_EscapedPath ref)) (url_RawQuery ref) in
      match request_error method (url_String target) with
      | Some err => Err (EBase (Wrap err ReasonInvalidInput "could not build the request"))
      | None =>
          let h : Header := match SetAuthHeader (client_resolved c) with
                            | Some (name, value) => Header_Set ∅ name value
                            | None => ∅
                            end in
          let h := Header_Set h "User-Agent" userAgent in
          let h := match body with Some _ => Header_Set h "Content-Type" "application/json" | None => h end in
          Ok (MkRequest method (url_String target) h body)
      end
  end.

Definition Exchange (ctx : Context) (c : client) (method path : string) (body : option string)
    : prog net (result (Z * option string) error) :=
  match build_request c method path body with
  | Err err => mret (Err err)
  | Ok req =>
      resp ← trigger (Do ctx (client_tls c) req);
      mret (match resp with
            | Err err => Err (EBase (Wrap err ReasonUnreachable "could not reach SigNoz"))
            | Ok resp => read_response resp
            end)
  end.
End Client.

Example snippet_example : snippet (String (ascii_of_nat 10) "a") = " a".
Proof. vm_compute. reflexivity. Qed.

Example decode_one_example : decode_one " [1, 2] " = Some "[1, 2]".
Proof. vm_compute. reflexivity. Qed.

Example decode_one_two_values : decode_one "1 2" = None.
Proof. vm_compute. reflexivity. Qed.
