(* ===== verification/ClientSpec.v ===== *)
(** * What an exchange promises *)

From S2P Require Import Prelude GoStd Json JsonText Errors Kube Core Effects ProviderConfig Client.
From Stdlib Require Import Ascii String.

Local Open Scope string_scope.
Local Open Scope list_scope.

(** ** The data of a response is JSON *)

Lemma lex_drop_spaces l : lex LGround (drop_spaces l) = lex LGround l.
Proof.
  induction l as [|c l IH]; [done|]. cbn [drop_spaces]. unfold is_trimmed.
  destruct (is_space c) eqn:Hc; [|done]. by rewrite lex_space.
Qed.

Lemma lex_drop_end l : is_Some (lex LGround l) -> lex LGround (reverse (drop_spaces (reverse l))) = lex LGround l.
Proof.
  induction l as [|c l IH] using rev_ind; [done|]. rewrite reverse_snoc. cbn [drop_spaces].
  unfold is_trimmed. destruct (is_space c) eqn:Hc; [|by rewrite reverse_cons, reverse_involutive].
  intros Hs. rewrite (lex_space_end _ _ _ Hc Hs). rewrite (lex_space_end _ _ _ Hc Hs) in Hs. auto.
Qed.

Lemma drop_spaces_sub l : exists p, l = p ++ drop_spaces l.
Proof.
  induction l as [|c l [p IH]]; [by exists []|]. cbn [drop_spaces]. destruct (is_trimmed c); [|by exists []].
  exists (c :: p). by rewrite IH at 1.
Qed.

Lemma bytes_drop_spaces l : Forall is_byte l -> Forall is_byte (drop_spaces l).
Proof. destruct (drop_spaces_sub l) as [p Hp]. rewrite Hp at 1. by intros [_ ?]%Forall_app. Qed.

Lemma bytes_trim_json s :
  bytes_of (trim_json s) = reverse (drop_spaces (reverse (drop_spaces (bytes_of s)))).
Proof.
  unfold trim_json. apply bytes_of_string_of.
  by apply Forall_reverse, bytes_drop_spaces, Forall_reverse, bytes_drop_spaces, bytes_of_bytes.
Qed.

Lemma parse_trim_json s : Valid s = true -> parse_syntax (trim_json s) = parse_syntax s.
Proof.
  intros Hv. apply parse_syntax_tokens. pose proof (Valid_lex _ Hv) as Hs.
  rewrite <- lex_drop_spaces in Hs. by rewrite bytes_trim_json, lex_drop_end, lex_drop_spaces.
Qed.

Lemma Valid_trim_json s : Valid s = true -> Valid (trim_json s) = true.
Proof. intros Hv. pose proof Hv as Hv'. unfold Valid in *. by rewrite parse_trim_json. Qed.

Lemma value_before_close_valid seen rest data : value_before_close seen rest = Some data -> Valid data = true.
Proof.
  revert seen. induction rest as [|c rest IH]; intros seen; cbn [value_before_close]; [done|].
  destruct (_ && Valid _) eqn:Hv; [|apply IH]. apply andb_true_iff in Hv as [_ Hv]. intros [= <-].
  by apply Valid_trim_json.
Qed.

Lemma decode_one_valid body data : decode_one body = Some data -> Valid data = true.
Proof.
  unfold decode_one. destruct (Valid body) eqn:Hv; [|apply value_before_close_valid].
  intros [= <-]. by apply Valid_trim_json.
Qed.

(** A wrapped snippet is an object, whatever bytes it holds. *)
Lemma wrapped_response_valid s : Valid (wrapped_response s) = true.
Proof.
  set (text := ("{" ++ (marshal_string "response" ++ ":" ++ marshal_string s) ++ "}")%string).
  change (wrapped_response s) with text. unfold Valid, parse_syntax. apply bool_decide_eq_true.
  assert (exists t1 t2, lex LGround (bytes_of text) = Some [TLBrace; TStr t1; TColon; TStr t2; TRBrace]) as (t1 & t2 & ->).
  { unfold text. rewrite !bytes_of_app, <- !app_assoc.
    destruct (lex_marshal_string s (bytes_of "}")) as [t2 H2].
    destruct (lex_marshal_string "response" (bytes_of ":" ++ bytes_of (marshal_string s) ++ bytes_of "}")) as [t1 H1].
    exists t1, t2. change (bytes_of "{" ++ ?r) with (123 :: r)%nat.
    rewrite (lex_token LGround 123 [TLBrace] LGround _ eq_refl), H1.
    change (bytes_of ":" ++ ?r) with (58 :: r)%nat.
    rewrite (lex_token LGround 58 [TColon] LGround _ eq_refl), H2. reflexivity. }
  vm_compute. eauto.
Qed.

(** ** Sizes, in bytes *)

Abbreviation size s := (List.length (bytes_of s)).

Lemma drop_spaces_length l : (List.length (drop_spaces l) <= List.length l)%nat.
Proof. destruct (drop_spaces_sub l) as [p Hp]. rewrite Hp at 2. rewrite length_app. lia. Qed.

Lemma trim_json_size s : (size (trim_json s) <= size s)%nat.
Proof.
  rewrite bytes_trim_json, length_reverse. etrans; [apply drop_spaces_length|]. rewrite length_reverse. apply drop_spaces_length.
Qed.

Lemma value_before_close_size seen rest data : Forall is_byte seen -> Forall is_byte rest ->
  value_before_close seen rest = Some data -> (size data <= List.length seen + List.length rest)%nat.
Proof.
  revert seen. induction rest as [|c rest IH]; intros seen Hs Hr; cbn [value_before_close List.length]; [done|].
  apply Forall_cons in Hr as [Hc Hr]. destruct (_ && Valid _).
  - intros [= <-]. etrans; [apply trim_json_size|]. rewrite bytes_of_string_of, length_reverse by by apply Forall_reverse. lia.
  - intros Hd. apply IH in Hd; [|by constructor|done]. cbn in Hd. lia.
Qed.

Lemma decode_one_size body data : decode_one body = Some data -> (size data <= size body)%nat.
Proof.
  unfold decode_one. destruct (Valid body); [intros [= <-]; apply trim_json_size|].
  intros Hd. apply value_before_close_size in Hd; [done|constructor|apply bytes_of_bytes].
Qed.

Lemma escape_byte_size c : (c < 128)%nat -> (size (escape_byte c) <= 6)%nat.
Proof.
  assert (forallb (fun c => size (escape_byte c) <=? 6)%nat (seq 0 128) = true) as Hall by (vm_compute; reflexivity).
  intros Hc. rewrite forallb_forall in Hall. apply Nat.leb_le, Hall, in_seq. lia.
Qed.

Lemma escape_size copy skip l : Forall is_byte l -> (size (escape copy skip l) <= 6 * List.length l)%nat.
Proof.
  revert copy skip. induction l as [|c l IH]; intros copy skip Hl; [cbn; lia|].
  apply Forall_cons in Hl as [Hc Hl]. cbn [escape List.length].
  pose proof (fun copy skip => IH copy skip Hl) as Hrest.
  destruct copy; [destruct skip; [destruct (Nat.ltb_spec c 128)|]|].
  - rewrite bytes_of_app, length_app. pose proof (escape_byte_size c). specialize (Hrest 0 0). lia.
  - destruct (utf8_len _) as [|k]; [|case_bool_decide; [|case_bool_decide]]; rewrite bytes_of_app, length_app.
    + specialize (Hrest 0 0). cbn [bytes_of]. change (size "\ufffd") with 6. lia.
    + specialize (Hrest 0 2). change (size "\u2028") with 6. lia.
    + specialize (Hrest 0 2). change (size "\u2029") with 6. lia.
    + specialize (Hrest k 0). rewrite bytes_of_byte by done. cbn. lia.
  - specialize (Hrest 0 skip). lia.
  - specialize (Hrest copy 0). rewrite bytes_of_app, length_app, bytes_of_byte by done. cbn. lia.
Qed.

Lemma snippet_size s : (size (snippet s) <= 200)%nat.
Proof.
  unfold snippet. rewrite bytes_of_string_of, length_fmap, length_take; [lia|].
  apply Forall_fmap, Forall_take. eapply Forall_impl; [apply bytes_of_bytes|]. intros c Hc. cbn.
  unfold snippet_byte. case_bool_decide; [unfold is_byte; lia|done].
Qed.

(** The envelope is 15 bytes, and no byte of the snippet takes more than six. *)
Lemma wrapped_response_size s : (size (wrapped_response (snippet s)) <= 1215)%nat.
Proof.
  change (wrapped_response (snippet s)) with ("{" ++ (marshal_string "response" ++ ":" ++ marshal_string (snippet s)) ++ "}")%string.
  unfold marshal_string at 2. rewrite !bytes_of_app, !length_app.
  pose proof (escape_size 0 0 (bytes_of (snippet s)) (bytes_of_bytes _)). pose proof (snippet_size s).
  change (size "{") with 1. change (size "}") with 1. change (size ":") with 1.
  change (size (marshal_string "response")) with 10. change (size dquote) with 1. lia.
Qed.

Section Exchange.
Context `{NU : NetURL} `{XC : X509} (Version : string).
Context (parse_error : string -> error) (request_error : string -> string -> option error).

Abbreviation anything := (hist_step (E := net) (@any_answer net)).
Abbreviation exchange := (Exchange Version parse_error request_error).

Lemma read_response_contract resp :
  match read_response resp with
  | Ok (status, None) => status = resp_StatusCode resp /\ resp_body resp = ""
  | Ok (status, Some data) => status = resp_StatusCode resp /\ Valid data = true
  | Err e => ReasonForError e = ReasonUnreachable
  end.
Proof.
  unfold read_response. assert (0 <= maxResponseBody)%Z as Hmax by (by unfold maxResponseBody).
  generalize dependent maxResponseBody. intros max Hmax.
  set (limited := take _ _). assert (Z.of_nat (List.length limited) = 0%Z -> resp_body resp = "") as Hnil.
  { unfold limited. rewrite length_take. intros Hl. destruct (resp_body resp); [done|].
    unfold bytes_of in Hl. cbn [list_ascii_of_string fmap list_fmap List.length] in Hl. lia. }
  clearbody limited. cbv zeta. destruct (resp_read_error resp); [by case_decide|].
  case_decide as Hbig; [done|]. case_decide as Hempty; [by auto|].
  destruct (decode_one _) eqn:Hd; [split; [done|by eapply decode_one_valid]|].
  case_decide; [done|]. split; [done|apply wrapped_response_valid].
Qed.

(** A whole body within the cap is read as the value it holds. *)
Lemma read_response_whole status body data :
  (0 < Z.of_nat (size body) <= maxResponseBody)%Z -> decode_one body = Some data ->
  read_response (MkResponse status body None) = Ok (status, Some data).
Proof.
  unfold read_response. cbn [resp_read_error resp_body resp_StatusCode]. generalize maxResponseBody. intros max Hsize Hd. cbv zeta.
  rewrite take_ge by lia. rewrite string_of_bytes_of. rewrite !decide_False by lia. by rewrite Hd.
Qed.

(** C30. The contract of Exchange. One exchange makes at most one request, the
    built one, and: a body it returns is valid JSON, or nil exactly when the
    response had none; its status is the response's; every failure is
    Unreachable, hence retried, unless the request could not be built, when it
    is InvalidInput and nothing was sent. *)
Theorem Exchange_contract ctx c method path body r h :
  exec anything (exchange ctx c method path body) [] (Ret r) h ->
  (h = [] /\ (exists e, r = Err e /\ ReasonForError e = ReasonInvalidInput)
   \/ exists req answer, build_request Version parse_error request_error c method path body = Ok req /\
        h = [Ev (Do ctx (client_tls c) req : net _) answer] /\
        match r with
        | Ok (status, data) => exists resp, answer = Ok resp /\ status = resp_StatusCode resp /\
            match data with None => resp_body resp = "" | Some data => Valid data = true end
        | Err e => ReasonForError e = ReasonUnreachable
        end).
Proof.
  unfold Exchange. destruct (build_request _ _ _ _ _ _ _) as [req|e] eqn:Hb.
  - intros (answer & h1 & [_ ->]%exec_trigger_inv & [-> ->]%exec_ret_inv)%exec_bind_inv.
    right. exists req, answer. split; [done|]. split; [done|]. destruct answer as [resp|e]; [|done].
    pose proof (read_response_contract resp) as Hc. destruct (read_response resp) as [[status [data|]]|e]; [| |done];
      destruct Hc; eauto.
  - intros [-> ->]%exec_ret_inv. left. split; [done|]. exists e. split; [done|].
    unfold build_request in Hb. destruct (url_Parse path); [|by simplify_eq].
    cbv zeta in Hb. by destruct (request_error _ _); simplify_eq.
Qed.

(** C31. What a response may cost.  A body over the cap of 64 MiB is refused,
    whatever it holds; one of exactly the cap is not; what is returned is never
    longer than the body, or is the envelope of a snippet, at most 1215 bytes. *)
Theorem response_size_is_bounded resp :
  ((maxResponseBody < Z.of_nat (size (resp_body resp)))%Z -> is_ok (read_response resp) = false) /\
  (forall data, (0 < Z.of_nat (size (resp_body resp)) <= maxResponseBody)%Z -> resp_read_error resp = None ->
     decode_one (resp_body resp) = Some data -> read_response resp = Ok (resp_StatusCode resp, Some data)) /\
  (forall status data, read_response resp = Ok (status, Some data) ->
     (size data <= Nat.max (size (resp_body resp)) 1215)%nat).
Proof.
  unfold read_response. assert (0 <= maxResponseBody)%Z as Hmax by (by unfold maxResponseBody).
  generalize dependent maxResponseBody. intros max Hmax.
  set (limited := take _ _). assert (List.length limited = Nat.min (Z.to_nat (max + 1)) (size (resp_body resp))) as Hlen
    by apply length_take.
  assert (Forall is_byte limited) as Hbytes by apply Forall_take, bytes_of_bytes. split; [|split].
  - intros Hbig. destruct (resp_read_error resp); [by case_decide|]. by rewrite decide_True by lia.
  - intros data Hsize -> Hd. rewrite !decide_False by lia.
    assert (string_of limited = resp_body resp) as -> by (unfold limited; rewrite take_ge by lia; apply string_of_bytes_of).
    by rewrite Hd.
  - intros status data. destruct (resp_read_error resp); [by case_decide|]. case_decide; [done|]. case_decide; [done|].
    destruct (decode_one _) as [data'|] eqn:Hd.
    + intros [= _ <-]. apply decode_one_size in Hd. rewrite bytes_of_string_of in Hd by done. lia.
    + case_decide; [done|]. intros [= _ <-]. pose proof (wrapped_response_size (string_of limited)). lia.
Qed.

(** Requests carry the credential. Every request that is built bears the
    resolved header with its scheme and value, under its canonical name, unless
    that name is one the client sets itself; the user agent; and a content type
    exactly when it has a body, which is sent as it is. *)
Theorem request_carries_the_credential c method path body req header :
  build_request Version parse_error request_error c method path body = Ok req ->
  resolved_Header (client_resolved c) = Some header ->
  (CanonicalHeaderKey (header_Name header) <> "User-Agent" ->
   CanonicalHeaderKey (header_Name header) <> "Content-Type" ->
   req_header req !! CanonicalHeaderKey (header_Name header)
   = Some (if decide (header_Scheme header = "") then header_Value header
           else (header_Scheme header ++ " " ++ header_Value header)%string)) /\
  req_header req !! "User-Agent" = Some (userAgent Version) /\
  (CanonicalHeaderKey (header_Name header) <> "Content-Type" ->
   (is_Some (req_header req !! "Content-Type") <-> is_Some body)) /\
  req_method req = method /\ req_body req = body.
Proof.
  intros Hb Hh. unfold build_request in Hb. destruct (url_Parse path) as [ref|]; [|done]. cbv zeta in Hb.
  destruct (request_error _ _); [done|]. injection Hb as <-. cbn [req_header req_method req_body].
  unfold SetAuthHeader. rewrite Hh. unfold Header_Set, Header.
  change (CanonicalHeaderKey "User-Agent") with "User-Agent".
  change (CanonicalHeaderKey "Content-Type") with "Content-Type".
  set (name := CanonicalHeaderKey (header_Name header)).
  split; [|split; [|split; [|done]]].
  - intros Hu Hc. assert (forall v : string, (if decide (header_Scheme header <> "") then v else header_Value header)
      = (if decide (header_Scheme header = "") then header_Value header else v)) as Hv.
    { intros v. by repeat case_decide. }
    destruct body;
      [rewrite (lookup_insert_ne _ "Content-Type") by congruence|];
      rewrite (lookup_insert_ne _ "User-Agent"), lookup_insert_eq by congruence; by rewrite Hv.
  - destruct body; rewrite ?lookup_insert_ne by done; by rewrite lookup_insert_eq.
  - intros Hc. destruct body; [rewrite lookup_insert_eq; by split; eauto|].
    rewrite !lookup_insert_ne, lookup_empty by done. split; by intros [? ?].
Qed.
End Exchange.

(** ** A closing bracket ends a body early *)

Lemma value_before_close_finds seen l c rest :
  (c =? 93)%nat || (c =? 125)%nat = true -> Valid (string_of (reverse seen ++ l)) = true ->
  is_Some (value_before_close seen (l ++ c :: rest)).
Proof.
  intros Hc. revert seen. induction l as [|b l IH]; intros seen Hv; cbn [value_before_close app].
  - rewrite app_nil_r in Hv. rewrite Hc, Hv. by eexists.
  - destruct (_ && Valid _); [by eexists|]. apply IH. by rewrite reverse_cons, <- app_assoc.
Qed.

Lemma decode_one_close body close rest :
  Valid body = true -> close ∈ ["}"; "]"] -> is_Some (decode_one (body ++ close ++ rest)%string).
Proof.
  intros Hv Hc. unfold decode_one. destruct (Valid (body ++ close ++ rest)%string); [by eexists|].
  assert (exists c, ((c =? 93)%nat || (c =? 125)%nat = true) /\
    bytes_of (body ++ close ++ rest)%string = bytes_of body ++ c :: bytes_of rest) as (c & Hc' & ->).
  { rewrite !elem_of_cons, elem_of_nil in Hc.
    destruct Hc as [->|[->|[]]]; eexists; (split; [|rewrite !bytes_of_app; reflexivity]); reflexivity. }
  apply value_before_close_finds; [done|]. change (reverse [] ++ bytes_of body) with (bytes_of body). by rewrite string_of_bytes_of.
Qed.

(** C38. A closing bracket passes for the end.  Whatever follows a JSON value and a
    closing brace or bracket in a body, the body counts as valid: the exchange
    returns its status with some JSON value rather than reporting the text. *)
Theorem trailing_close_accepted status body close rest :
  Valid body = true -> close ∈ ["}"; "]"] ->
  (Z.of_nat (List.length (bytes_of (body ++ close ++ rest)%string)) <= maxResponseBody)%Z ->
  exists data, read_response (MkResponse status (body ++ close ++ rest) None) = Ok (status, Some data) /\ Valid data = true.
Proof.
  intros Hv Hc Hlen. destruct (decode_one_close body close rest Hv Hc) as [data Hd].
  exists data. split; [|by eapply decode_one_valid].
  unfold read_response. generalize dependent maxResponseBody. intros max Hlen.
  cbn [resp_read_error resp_body resp_StatusCode]. cbv zeta. rewrite take_ge by lia. rewrite string_of_bytes_of, decide_False by lia. rewrite decide_False; [by rewrite Hd|].
  rewrite !bytes_of_app, !length_app. intros Hz.
  rewrite !elem_of_cons, elem_of_nil in Hc. destruct Hc as [->|[->|[]]]; cbn in Hz; lia.
Qed.
