(* ===== verification/Cmd.v ===== *)
(** * cmd and internal/config: flags, environment, and the manager's wiring

    [Set_] is the merge of command line and environment; the [build*] methods
    turn the configuration into options; [run] is the order in which the manager
    is put together, as an effect tree over controller-runtime's calls. *)

From S2P Require Import Prelude GoStd Json Errors Kube Core Conditions Effects Interfaces Reconciler ProviderConfig Controllers.
From Stdlib Require Import Ascii String.

Local Open Scope string_scope.
Local Open Scope list_scope.

(** ** internal/config/config.go *)

Record Flag := MkFlag { flag_Changed : bool; flag_Value : string }.

(** pflag: [assign] is what a flag of that name becomes when it is set to a text,
    with the error when its type rejects the text. *)
Class Pflag := {
  FlagSet : Type;
  Lookup : FlagSet -> string -> option Flag;
  VisitAll : FlagSet -> list string;
  FlagSet_Set : FlagSet -> string -> string -> FlagSet * option error;
  assign : string -> Flag -> string -> Flag * option error;
}.

Class PflagLaws `{Pflag} := {
  visits_each_once fs : NoDup (VisitAll fs);
  visits_all fs name : name ∈ VisitAll fs <-> is_Some (Lookup fs name);
  set_assigns fs name f text : Lookup fs name = Some f ->
    Lookup (FlagSet_Set fs name text).1 name = Some (assign name f text).1 /\
    (FlagSet_Set fs name text).2 = (assign name f text).2;
  set_is_local fs name text name' : name' <> name ->
    Lookup (FlagSet_Set fs name text).1 name' = Lookup fs name';
}.

(** The variables flags are bound to, by the name and the type of the flag. *)
Class BoundVariables `{Pflag} := {
  StringVar : FlagSet -> string -> string;
  BoolVar : FlagSet -> string -> bool;
  DurationVar : FlagSet -> string -> Z;
  StringSliceVar : FlagSet -> string -> list string;
}.

Class BoundVariablesLaws `{BoundVariables} := {
  string_value fs name f : Lookup fs name = Some f -> StringVar fs name = flag_Value f;
}.

(** viper with its prefix, key replacer and [AutomaticEnv]: the variable of a
    flag, when it is set, printed by the verb %v. *)
Class Viper := viper_Get : string -> string -> option string.

(** [strings.ToUpper] and [strings.ReplaceAll(_, -, _)], on ASCII. *)
Definition upper_byte (c : nat) : nat := if in_range 97 122 c then (c - 32)%nat else c.
Definition dash_byte (c : nat) : nat := if decide (c = 45)%nat then 95%nat else c.

(** The variable a flag is read from. *)
Definition env_name (prefix name : string) : string :=
  string_of (dash_byte <$> (upper_byte <$> bytes_of (prefix ++ "_" ++ name)%string)).

Section Set_.
Context `{PF : Pflag} `{VI : Viper}.

(** The callback of [VisitAll]. *)
Definition visit (prefix : string) (acc : FlagSet * list (option error)) (name : string) : FlagSet * list (option error) :=
  let '(fs, errs) := acc in
  match Lookup fs name, viper_Get prefix name with
  | Some f, Some val =>
      if flag_Changed f then acc
      else
        match FlagSet_Set fs name val with
        | (fs', Some err) => (fs', errs ++ [Some (EWrap (env_name prefix name) err)])
        | (fs', None) => (fs', errs)
        end
  | _, _ => acc
  end.

Definition Set_ (fs : FlagSet) (prefix : string) : FlagSet * option error :=
  let prefix := TrimSpace prefix in
  let '(fs', errs) := fold_left (visit prefix) (VisitAll fs) (fs, []) in
  (fs', JoinErrors errs).
End Set_.

(** ** cmd/config.go *)

Record config := MkConfiguration {
  LogLevel : string;
  MetricsBindAddress : string;
  HealthProbeBindAddress : string;
  LeaderElect : bool;
  MetricsSecure : bool;
  WebhookCertPath : string;
  WebhookCertName : string;
  WebhookCertKey : string;
  MetricsCertPath : string;
  MetricsCertName : string;
  MetricsCertKey : string;
  EnableHTTP2 : bool;
  DefaultResourcesInterval : Z;
  DefaultResourcesRetryInterval : Z;
  DefaultResourcesTimeout : Z;
  WatchNamespaces : list string;
  OperatorNamespace : string;
}.

(** The values [RegisterFlags] leaves before any flag is parsed. *)
Definition RegisterFlags : config :=
  MkConfiguration "info" "0" ":8081" false true "" "tls.crt" "tls.key" "" "tls.crt" "tls.key" false
    (10 * Minute) Minute (30 * Second) [] "".

(** What each TLS option sets [NextProtos] to, and the certificate's files. *)
Record ServerOptions := MkServerOptions {
  NextProtos : list (list string);
  CertDir : string;
  CertName : string;
  KeyName : string;
}.

Definition tlsOpts (c : config) : list (list string) := if EnableHTTP2 c then [] else [["http/1.1"]].

Definition buildWebhookServerOptions (c : config) : ServerOptions :=
  if decide (0 < String.length (WebhookCertPath c))%nat
  then MkServerOptions (tlsOpts c) (WebhookCertPath c) (WebhookCertName c) (WebhookCertKey c)
  else MkServerOptions (tlsOpts c) "" "" "".

(** The bind address, whether serving is secure, and the server's options. *)
Definition buildMetricsServerOptions (c : config) : string * bool * ServerOptions :=
  (MetricsBindAddress c, MetricsSecure c,
   if decide (0 < String.length (MetricsCertPath c))%nat
   then MkServerOptions (tlsOpts c) (MetricsCertPath c) (MetricsCertName c) (MetricsCertKey c)
   else MkServerOptions (tlsOpts c) "" "" "").

(** [DefaultNamespaces], every entry with the zero [cache.Config]; a nil map, for
    which every namespace is cached, is [None]. *)
Definition CacheOptions : Type := option (gset string).

Fixpoint cached_namespaces (l : list string) (namespaces : gset string) : gset string :=
  match l with
  | [] => namespaces
  | ns :: l' =>
      let ns := TrimSpace ns in
      cached_namespaces l' (if decide (ns <> "") then namespaces ∪ {[ns]} else namespaces)
  end.

Definition buildCacheOptions (c : config) : CacheOptions :=
  if decide (List.length (WatchNamespaces c) = 0)%nat then None
  else Some (cached_namespaces (WatchNamespaces c) ∅ ∪ {[OperatorNamespace c]}).

(** Whether a namespace is in the manager's cache. *)
Definition caches (o : CacheOptions) (ns : string) : Prop :=
  match o with None => True | Some namespaces => ns ∈ namespaces end.

Section Run.
(** [instrumentation.LoggerFromContext]: the name the logger is given, from that of
    the calling function, or none when the call stack has none. *)
Fixpoint after_first (c : ascii) (s : string) : option string :=
  match s with
  | EmptyString => None
  | String d s' => if Ascii.eqb d c then Some s' else after_first c s'
  end.

Fixpoint after_last (c : ascii) (s : string) : option string :=
  match s with
  | EmptyString => None
  | String d s' =>
      match after_last c s' with
      | Some t => Some t
      | None => if Ascii.eqb d c then Some s' else None
      end
  end.

Fixpoint without_receiver (s : string) : string :=
  match s with
  | EmptyString => EmptyString
  | String c s' => if bool_decide (c ∈ ["("%char; "*"%char; ")"%char]) then without_receiver s' else String c (without_receiver s')
  end.

Definition LoggerFromContext (caller : option string) : option string :=
  match caller with
  | None => None
  | Some name =>
      let name := default name (after_last "/"%char name) in
      let name := default name (after_first "."%char name) in
      Some (without_receiver name)
  end.

(** [zapcore.ParseLevel]. *)
Context {Level : Type} (ParseLevel : string -> result Level error).

(** [instrumentation.NewLoggerWithZap]; the logger is its level. *)
Definition NewLoggerWithZap (lvl : string) : result Level error :=
  match ParseLevel lvl with
  | Err err => Err (EWrap ("level " ++ Quote lvl ++ " is not a valid level")%string err)
  | Ok level => Ok level
  end.

Definition buildLogger (c : config) : option error :=
  match NewLoggerWithZap (LogLevel c) with Err err => Some err | Ok _ => None end.

Definition buildConfig (c : config) : option error :=
  match buildLogger c with
  | Some err => Some err
  | None =>
      if decide (TrimSpace (OperatorNamespace c) = "")
      then Some (errorString "--operator-namespace is required: a ClusterProviderConfig's Secret and ConfigMap references resolve there")
      else None
  end.

(** ** cmd/main.go *)

Record ManagerOptions := MkManagerOptions {
  mgr_Metrics : string * bool * ServerOptions;
  mgr_WebhookServer : ServerOptions;
  mgr_HealthProbeBindAddress : string;
  mgr_LeaderElection : bool;
  mgr_LeaderElectionID : string;
  mgr_Cache : CacheOptions;
}.

Definition manager_options (c : config) : ManagerOptions :=
  MkManagerOptions (buildMetricsServerOptions c) (buildWebhookServerOptions c) (HealthProbeBindAddress c)
    (LeaderElect c) "1f9508b2.signoz.io" (buildCacheOptions c).

(** A controller as it is wired: the two of the provider configs, and one per
    mirrored kind with the adapter and the reconciler it is given. *)
Inductive controller :=
  | ProviderConfigController
  | ClusterProviderConfigController (namespace : string)
  | KindController (kind adapter : string) (rec : commonReconciler).

(** The calls on controller-runtime; each answers with its error.  That of
    [GetConfigOrDie], the config of the cluster's API server, is never seen: the
    program exits there. *)
Inductive manager_call : Type -> Type :=
  | GetConfigOrDie : manager_call (option error)
  | NewManager (o : ManagerOptions) : manager_call (option error)
  | SetupWithManager (c : controller) : manager_call (option error)
  | AddHealthzCheck (name : string) : manager_call (option error)
  | AddReadyzCheck (name : string) : manager_call (option error)
  | Start : manager_call (option error).

Abbreviation go := (prog manager_call).

(** How a run ends: [run] returns, or the process exits in it. *)
Inductive ended :=
  | Returned (err : option error)
  | Exited (code : Z).

(** The reconciler every kind is given. *)
Definition kind_reconciler (c : config) : commonReconciler :=
  NewCommonReconciler (DefaultResourcesInterval c) (DefaultResourcesRetryInterval c)
    (DefaultResourcesTimeout c) (OperatorNamespace c).

(** The steps of [run] after the manager exists, with what their errors are wrapped
    in. *)
Definition config_steps (c : config) : list (string * manager_call (option error)) :=
  [("could not create controller resources-providerconfig", SetupWithManager ProviderConfigController);
   ("could not create controller resources-clusterproviderconfig",
    SetupWithManager (ClusterProviderConfigController (OperatorNamespace c)))].

Definition kind_steps (c : config) : list (string * manager_call (option error)) :=
  let kind name kind adapter :=
    ("could not create controller resources-" ++ name, SetupWithManager (KindController kind adapter (kind_reconciler c)))%string in
  [kind "user" "User" "UserAdapter"; kind "authdomain" "AuthDomain" "AuthDomainAdapter";
   kind "dashboard" "Dashboard" "DashboardAdapter"; kind "savedview" "SavedView" "SavedViewAdapter";
   kind "plannedmaintenance" "PlannedMaintenance" "PlannedMaintenanceAdapter"; kind "role" "Role" "RoleAdapter";
   kind "routepolicy" "RoutePolicy" "RoutePolicyAdapter"; kind "rule" "Rule" "RuleAdapter";
   kind "serviceaccount" "ServiceAccount" "ServiceAccountAdapter";
   kind "notificationchannel" "NotificationChannel" "NotificationChannelAdapter"].

Definition check_steps : list (string * manager_call (option error)) :=
  [("could not set up health check", AddHealthzCheck "healthz");
   ("could not set up ready check", AddReadyzCheck "readyz")].

Definition setup_steps (c : config) : list (string * manager_call (option error)) :=
  config_steps c ++ kind_steps c ++ check_steps.

(** [if err := step; err != nil { return fmt.Errorf(message: %w, err) }], in turn. *)
Fixpoint run_steps (steps : list (string * manager_call (option error))) (k : go ended) : go ended :=
  match steps with
  | [] => k
  | (message, step) :: steps' =>
      err ← trigger step;
      match err with
      | Some err => mret (Returned (Some (EWrap message err)))
      | None => run_steps steps' k
      end
  end.

Definition run_manager (c : config) : go ended :=
  match buildConfig c with
  | Some err => mret (Returned (Some err))
  | None =>
      dies ← trigger GetConfigOrDie;
      match dies with
      | Some _ => mret (Exited 1)
      | None =>
          run_steps (("could not create manager", NewManager (manager_options c)) :: setup_steps c)
            (err ← trigger Start;
             mret (Returned (match err with Some err => Some (EWrap "manager exited" err) | None => None end)))
      end
  end.

(** *** main *)

(** What cobra makes of the arguments: an error, no command to run (help or the
    version was asked for), or the flags as the arguments set them. *)
Definition parsed_arguments `{Pflag} : Type := result (option FlagSet) error.

Section Main.
Context `{PF : Pflag} `{VI : Viper} `{BV : !BoundVariables}.

(** The variables that [RegisterFlags] binds, each to the flag of its name. *)
Definition bound_config (fs : FlagSet) : config :=
  MkConfiguration (StringVar fs "log-level") (StringVar fs "metrics-bind-address") (StringVar fs "health-probe-bind-address")
    (BoolVar fs "leader-elect") (BoolVar fs "metrics-secure")
    (StringVar fs "webhook-cert-path") (StringVar fs "webhook-cert-name") (StringVar fs "webhook-cert-key")
    (StringVar fs "metrics-cert-path") (StringVar fs "metrics-cert-name") (StringVar fs "metrics-cert-key")
    (BoolVar fs "enable-http2") (DurationVar fs "default-resources-interval")
    (DurationVar fs "default-resources-retry-interval") (DurationVar fs "default-resources-timeout")
    (StringSliceVar fs "watch-namespaces") (StringVar fs "operator-namespace").

(** [cmd.Execute]: the hook that reads the environment runs before the command. *)
Definition command (arguments : parsed_arguments) : go ended :=
  match arguments with
  | Err err => mret (Returned (Some err))
  | Ok None => mret (Returned None)
  | Ok (Some fs) =>
      match Set_ fs "signoz-operator" with
      | (_, Some err) => mret (Returned (Some err))
      | (fs, None) => run_manager (bound_config fs)
      end
  end.

(** The exit code. *)
Definition main (arguments : parsed_arguments) : go Z :=
  how ← command arguments;
  mret (match how with
        | Exited code => code
        | Returned (Some _) => 1%Z
        | Returned None => 0%Z
        end).
End Main.
End Run.

Example env_name_example : env_name "signoz-operator" "log-level" = "SIGNOZ_OPERATOR_LOG_LEVEL".
Proof. vm_compute. reflexivity. Qed.
