(* ===== verification/CmdSpec.v ===== *)
(** * The command: what configuration reaches the manager, and when it starts *)

From S2P Require Import Prelude GoStd Json Errors Kube Core Conditions Effects Interp Interfaces Reconciler ProviderConfig Controllers Cmd.
From Stdlib Require Import Ascii String.

Local Open Scope string_scope.
Local Open Scope list_scope.

Section Set_spec.
Context `{PL : PflagLaws} `{VI : Viper}.

(** What the environment does to one flag: the new flag, and the rejection. *)
Definition environment (prefix name : string) (f : Flag) : Flag * option error :=
  match viper_Get prefix name with
  | Some val => if flag_Changed f then (f, None) else assign name f val
  | None => (f, None)
  end.

Definition rejection (prefix : string) (fs : FlagSet) (name : string) : option error :=
  f ← Lookup fs name; EWrap (env_name prefix name) <$> (environment prefix name f).2.

Lemma visit_spec prefix fs errs name :
  exists fs', visit prefix (fs, errs) name = (fs', errs ++ option_list (Some <$> rejection prefix fs name)) /\
    (forall f, Lookup fs name = Some f -> Lookup fs' name = Some (environment prefix name f).1) /\
    (forall name', name' <> name -> Lookup fs' name' = Lookup fs name').
Proof.
  unfold visit, rejection, environment.
  destruct (Lookup fs name) as [f|] eqn:Hf; [|exists fs; cbn; rewrite ?app_nil_r; naive_solver].
  destruct (viper_Get prefix name) as [val|]; [|exists fs; cbn; rewrite ?app_nil_r; naive_solver].
  destruct (flag_Changed f) eqn:Hc.
  { exists fs. cbn. rewrite Hc, app_nil_r. split; [done|]. split; [|done]. intros f' [= <-]. by rewrite Hc. }
  destruct (set_assigns fs name f val Hf) as [Hn He]. pose proof (set_is_local fs name val) as Hl.
  destruct (FlagSet_Set fs name val) as [fs' e]. simpl in *. subst e. exists fs'.
  split; [|split; [intros f' [= <-]; by rewrite Hc|exact Hl]].
  cbn. rewrite Hc. destruct (assign name f val) as [? [e|]]; simpl; by rewrite ?app_nil_r.
Qed.

Lemma rejection_ext prefix fs fs' name :
  Lookup fs' name = Lookup fs name -> rejection prefix fs' name = rejection prefix fs name.
Proof. unfold rejection. by intros ->. Qed.

Lemma visits_spec prefix names fs errs : NoDup names ->
  exists fs', fold_left (visit prefix) names (fs, errs)
      = (fs', errs ++ flat_map (fun name => option_list (Some <$> rejection prefix fs name)) names) /\
    forall name f, Lookup fs name = Some f ->
      Lookup fs' name = Some (if decide (name ∈ names) then (environment prefix name f).1 else f).
Proof.
  intros Hnd. revert fs errs. induction Hnd as [|name names Hni Hnd IH]; intros fs errs.
  { exists fs. rewrite app_nil_r. split; [done|]. intros name f ->. by rewrite decide_False by apply not_elem_of_nil. }
  cbn [fold_left flat_map]. destruct (visit_spec prefix fs errs name) as (fs1 & -> & Hn & Hl).
  destruct (IH fs1 (errs ++ option_list (Some <$> rejection prefix fs name))) as (fs' & -> & Hall). exists fs'. split.
  { f_equal. rewrite <- app_assoc. f_equal. f_equal. rewrite !flat_map_concat_map. f_equal.
    apply map_ext_in. intros name' Hin%list_elem_of_In. f_equal. f_equal. apply rejection_ext, Hl. by intros ->. }
  intros name' f Hf. destruct (decide (name' = name)) as [->|Hne].
  - rewrite decide_True by apply list_elem_of_here. rewrite (Hall name _ (Hn f Hf)). by rewrite decide_False.
  - rewrite (Hall name' f) by (rewrite Hl; done). f_equal. apply decide_ext. set_solver.
Qed.

(** The command line wins over the environment.  After the merge a flag
    passed on the command line, or with no variable, is as it was; every other
    one is what its variable makes of it; and the error joins, in the order of
    the flags, the rejections of exactly those variables a flag refused, each
    under the variable's name: there is none when none was refused. *)
Theorem Set_merges prefix fs :
  (forall name f, Lookup fs name = Some f ->
    Lookup (Set_ fs prefix).1 name = Some (environment (TrimSpace prefix) name f).1) /\
  (Set_ fs prefix).2 = JoinErrors (rejection (TrimSpace prefix) fs <$> VisitAll fs).
Proof.
  unfold Set_. destruct (visits_spec (TrimSpace prefix) (VisitAll fs) fs [] (visits_each_once fs)) as (fs' & -> & Hall).
  split.
  - intros name f Hf. cbn [fst]. rewrite (Hall name f Hf). rewrite decide_True; [done|]. apply visits_all. eauto.
  - cbn [snd app]. unfold JoinErrors. f_equal.
    assert (omap id (flat_map (fun name => option_list (Some <$> rejection (TrimSpace prefix) fs name)) (VisitAll fs))
      = omap id (rejection (TrimSpace prefix) fs <$> VisitAll fs)) as ->; [|done].
    clear Hall. induction (VisitAll fs) as [|name names IH]; [done|]. cbn. rewrite omap_app, IH.
    by destruct (rejection _ _ _).
Qed.
End Set_spec.

(** ** The cache *)

Lemma cached_namespaces_spec l namespaces ns :
  ns ∈ cached_namespaces l namespaces <->
  ns ∈ namespaces \/ ns <> "" /\ exists w, w ∈ l /\ TrimSpace w = ns.
Proof.
  revert namespaces. induction l as [|w l IH]; intros namespaces; cbn [cached_namespaces].
  { set_solver. }
  rewrite IH. destruct (decide (TrimSpace w <> "")) as [Hw|Hw%dec_stable];
    rewrite ?elem_of_union, ?elem_of_singleton; split.
  - intros [[Hin| ->]|(Hn & v & Hv & Hvw)]; [by left|right; split; [done|exists w; set_solver]|].
    right. split; [done|]. exists v. set_solver.
  - intros [Hin|(Hn & v & [->|Hv]%elem_of_cons & Hvw)]; [by left; left|left; by right|right; eauto].
  - intros [Hin|(Hn & v & Hv & Hvw)]; [by left|right]. split; [done|]. exists v. set_solver.
  - intros [Hin|(Hn & v & [->|Hv]%elem_of_cons & Hvw)]; [by left|congruence|right; eauto].
Qed.

(** What the manager's cache holds.  Every namespace when none was asked for;
    otherwise the non-empty ones asked for, without the white space around them,
    and always the operator's own, where cluster configs keep their secrets. *)
Theorem buildCacheOptions_exact c ns :
  caches (buildCacheOptions c) ns <->
  WatchNamespaces c = [] \/ ns = OperatorNamespace c \/
  ns <> "" /\ exists w, w ∈ WatchNamespaces c /\ TrimSpace w = ns.
Proof.
  unfold buildCacheOptions, caches. destruct (decide _) as [Hl|Hl].
  - apply length_zero_iff_nil in Hl. intuition.
  - rewrite elem_of_union, elem_of_singleton, cached_namespaces_spec.
    assert (WatchNamespaces c <> []) by (by intros Hn; apply Hl; rewrite Hn). set_solver.
Qed.

(** ** The start of the manager *)

Section Run_spec.
Context {Level : Type} (ParseLevel : string -> result Level error).

Abbreviation anything := (hist_step (E := manager_call) (@any_answer manager_call)).

(** *** What a start is to do *)

(** The controllers a start sets up. *)
Definition controllers_of (c : config) : list controller :=
  [ProviderConfigController; ClusterProviderConfigController (OperatorNamespace c)]
    ++ ((fun kind => KindController kind (kind ++ "Adapter")
           (MkReconciler (DefaultResourcesInterval c) (DefaultResourcesRetryInterval c) (DefaultResourcesTimeout c) Second (OperatorNamespace c))) <$>
        ["User"; "AuthDomain"; "Dashboard"; "SavedView"; "PlannedMaintenance"; "Role"; "RoutePolicy"; "Rule";
         "ServiceAccount"; "NotificationChannel"]).

(** The calls before the manager runs, and all of them, in order. *)
Definition wiring (c : config) (o : ManagerOptions) : list (manager_call (option error)) :=
  [GetConfigOrDie; NewManager o] ++ (SetupWithManager <$> controllers_of c) ++ [AddHealthzCheck "healthz"; AddReadyzCheck "readyz"].
Definition start_calls (c : config) (o : ManagerOptions) : list (manager_call (option error)) := wiring c o ++ [Start].

(** A call that answered without error. *)
Definition passed (call : manager_call (option error)) : event manager_call := Ev call None.

(** A start goes to its end, or up to the first call that fails. *)
Definition started (c : config) (h : history manager_call) (code : Z) : Prop :=
  h = passed <$> start_calls c (manager_options c) /\ code = 0%Z \/
  exists before call err after, start_calls c (manager_options c) = before ++ call :: after /\
    h = (passed <$> before) ++ [Ev call (Some err)] /\ code = 1%Z.

(** A configuration that is not refused. *)
Definition accepted (c : config) : bool :=
  is_ok (ParseLevel (LogLevel c)) && negb (bool_decide (TrimSpace (OperatorNamespace c) = "")).

Lemma buildConfig_accepts c : accepted c = match buildConfig ParseLevel c with None => true | Some _ => false end.
Proof.
  unfold accepted, buildConfig, buildLogger, NewLoggerWithZap. destruct (ParseLevel (LogLevel c)); [|done]. cbn.
  by destruct (decide _); [rewrite bool_decide_true|rewrite bool_decide_false].
Qed.

(** What a server is given of the certificate, and of HTTP/2. *)
Definition serves_as_asked (c : config) (path name key : string) (s : ServerOptions) : Prop :=
  NextProtos s = (if EnableHTTP2 c then [] else [["http/1.1"]]) /\ CertDir s = path /\
  (path <> "" -> CertName s = name /\ KeyName s = key).

Definition options_as_asked (c : config) (o : ManagerOptions) : Prop :=
  mgr_HealthProbeBindAddress o = HealthProbeBindAddress c /\
  mgr_LeaderElection o = LeaderElect c /\ mgr_LeaderElectionID o = "1f9508b2.signoz.io" /\
  (mgr_Metrics o).1 = (MetricsBindAddress c, MetricsSecure c) /\
  serves_as_asked c (MetricsCertPath c) (MetricsCertName c) (MetricsCertKey c) (mgr_Metrics o).2 /\
  serves_as_asked c (WebhookCertPath c) (WebhookCertName c) (WebhookCertKey c) (mgr_WebhookServer o) /\
  forall ns, caches (mgr_Cache o) ns <->
    WatchNamespaces c = [] \/ ns = OperatorNamespace c \/ ns <> "" /\ exists w, w ∈ WatchNamespaces c /\ TrimSpace w = ns.

Lemma manager_options_asked c : options_as_asked c (manager_options c).
Proof.
  assert (forall path : string, ~ (0 < String.length path)%nat -> path = "") as Hempty by (intros []; cbn; [done|lia]).
  unfold options_as_asked, serves_as_asked, manager_options, buildMetricsServerOptions, buildWebhookServerOptions, tlsOpts.
  do 4 (split; [done|]). cbn [mgr_Metrics mgr_WebhookServer mgr_Cache snd].
  split; [|split; [|intros ns; apply buildCacheOptions_exact]];
    (destruct (decide _) as [Hlen|Hlen]; [done|]; by rewrite (Hempty _ Hlen)).
Qed.

(** *** Runs *)

Lemma run_steps_ends steps k h r h' :
  exec anything (run_steps steps k) h (Ret r) h' ->
  (exists before message step err after, steps = before ++ (message, step) :: after /\
     h' = h ++ (passed <$> before.*2) ++ [Ev step (Some err)] /\ r = Returned (Some (EWrap message err))) \/
  exec anything k (h ++ (passed <$> steps.*2)) (Ret r) h'.
Proof.
  revert h. induction steps as [|[message step] steps IH]; intros h; cbn [run_steps].
  { intros Hex. right. cbn. by rewrite app_nil_r. }
  intros (answer & h1 & [_ ->]%exec_trigger_inv & Hex)%exec_bind_inv. destruct answer as [err|].
  - apply exec_ret_inv in Hex as [-> ->]. left. by exists [], message, step, err, steps.
  - apply IH in Hex as [(before & m & s & err & after & -> & -> & ->)|Hex].
    + left. exists ((message, step) :: before), m, s, err, after. split; [done|]. split; [|done].
      cbn. by rewrite <- app_assoc.
    + right. cbn. by rewrite <- app_assoc in Hex.
Qed.

(** The calls of [run], under their messages. *)
Lemma steps_are_calls c :
  GetConfigOrDie :: (("could not create manager", NewManager (manager_options c)) :: setup_steps c).*2 = wiring c (manager_options c).
Proof. reflexivity. Qed.

(** [run] fails fast: a configuration that is not refused is started. *)
Lemma run_fails_fast c r h : buildConfig ParseLevel c = None ->
  exec anything (run_manager ParseLevel c) [] (Ret r) h ->
  started c h (match r with Exited code => code | Returned (Some _) => 1%Z | Returned None => 0%Z end).
Proof.
  unfold run_manager. intros -> (dies & h0 & [_ ->]%exec_trigger_inv & Hex)%exec_bind_inv. destruct dies as [e|].
  { apply exec_ret_inv in Hex as [-> ->]. right. by exists [], GetConfigOrDie, e, (tail (start_calls c (manager_options c))). }
  unfold started, start_calls. rewrite <- steps_are_calls.
  apply run_steps_ends in Hex as [(before & m & s & err & after & Hs & -> & ->)|Hex].
  - right. exists (GetConfigOrDie :: before.*2), s, err, (after.*2 ++ [Start]). rewrite Hs, fmap_app. split; [|done].
    cbn. by rewrite <- app_assoc.
  - apply exec_bind_inv in Hex as (answer & h1 & [_ ->]%exec_trigger_inv & [-> ->]%exec_ret_inv). destruct answer as [err|].
    + right. by exists (GetConfigOrDie :: (("could not create manager", NewManager (manager_options c)) :: setup_steps c).*2), Start, err, [].
    + left. split; [|done]. by rewrite fmap_app.
Qed.

(** The steps before [Start], none of which is [Start]. *)
Definition start_guard (P : history manager_call -> Prop) (X : Type) (h : history manager_call) (e : manager_call X) : Prop :=
  match e with Start => P h | _ => True end.

Lemma run_steps_wp P steps k h :
  Forall (fun step => forall h', start_guard P _ h' step.2) steps ->
  wp (hist_step (@any_answer manager_call)) (start_guard P) k (fun _ _ => True) (h ++ (passed <$> steps.*2)) ->
  wp (hist_step (@any_answer manager_call)) (start_guard P) (run_steps steps k) (fun _ _ => True) h.
Proof.
  intros Hs. revert h. induction Hs as [|[message step] steps Hp _ IH]; intros h Hk; cbn [run_steps].
  { cbn in Hk. by rewrite app_nil_r in Hk. }
  apply wp_bind, wp_trigger; [apply Hp|]. intros [err|] h1 [_ ->]; [done|].
  apply IH. cbn in Hk. by rewrite <- app_assoc.
Qed.

Lemma JoinErrors_none errs : JoinErrors errs = None -> Forall (fun err => err = None) errs.
Proof.
  unfold JoinErrors. induction errs as [|[e|] errs IH]; [constructor|done|]. intros He. constructor; [done|by apply IH].
Qed.

(** About to start, a manager of the configuration was made and set up whole. *)
Definition fully_wired (c : config) (h : history manager_call) : Prop :=
  buildConfig ParseLevel c = None /\ h = passed <$> wiring c (manager_options c).

Lemma run_manager_wired c :
  wp anything (start_guard (fully_wired c)) (run_manager ParseLevel c) (fun _ _ => True) [].
Proof.
  unfold run_manager. destruct (buildConfig ParseLevel c) as [err|] eqn:Hb; [done|].
  apply wp_bind, wp_trigger; [done|]. intros [e|] h1 [_ ->]; [done|].
  apply run_steps_wp; [by repeat constructor|].
  apply wp_bind, wp_trigger; [by split|by intros].
Qed.

Section Main_spec.
Context `{PL : PflagLaws} `{VI : Viper} `{BV : !BoundVariables} {BVL : BoundVariablesLaws}.

(** C40. The manager starts as it was asked to.  Whenever the program is about to
    start the manager, the arguments were understood and asked for a run, and no
    variable of the environment was refused; the configuration is read from the
    flags where one passed on the command line is as it was passed, and any other
    is what its variable makes of it; its level is one and the operator's
    namespace is not blank.  What was called up to then, every call without an
    error, is exactly: the config of the cluster; the manager, made with options
    that are those of the configuration; the set-up of both config controllers,
    the cluster one with the operator's namespace, and of one controller with its
    own adapter for each mirrored kind, all with the configured durations and
    namespace; and the health and the ready check. *)
Theorem manager_starts_as_asked arguments h k :
  exec anything (main ParseLevel arguments) [] (Vis Start k) h ->
  exists fs, arguments = Ok (Some fs) /\
    let fs' := (Set_ fs "signoz-operator").1 in
    (forall name f, Lookup fs name = Some f -> Lookup fs' name = Some (environment "signoz-operator" name f).1) /\
    Forall (fun name => rejection "signoz-operator" fs name = None) (VisitAll fs) /\
    let c := bound_config fs' in
    (forall f, Lookup fs "operator-namespace" = Some f ->
      OperatorNamespace c = flag_Value (environment "signoz-operator" "operator-namespace" f).1) /\
    TrimSpace (OperatorNamespace c) <> "" /\ is_ok (ParseLevel (LogLevel c)) = true /\
    exists o, options_as_asked c o /\ h = passed <$> wiring c o.
Proof.
  intros Hex.
  assert (wp anything (start_guard (fun h => exists fs, arguments = Ok (Some fs) /\ (Set_ fs "signoz-operator").2 = None /\
    fully_wired (bound_config (Set_ fs "signoz-operator").1) h)) (main ParseLevel arguments) (fun _ _ => True) []) as Hwp.
  { apply wp_bind. apply (wp_mono (Q := fun _ _ => True)); [done|]. unfold command. destruct arguments as [[fs|]|err]; [|done..].
    destruct (Set_ fs "signoz-operator") as [fs' [err|]] eqn:Hset; [done|].
    eapply wp_pre_mono; [|apply run_manager_wired]. intros X h' e. destruct e; try done. cbn. intros Hw.
    exists fs. by rewrite Hset. }
  destruct (wp_call _ _ _ _ _ _ _ _ Hwp Hex) as (fs & -> & Hno & Hb & ->). exists fs. split; [done|]. cbv zeta.
  destruct (Set_merges "signoz-operator" fs) as [Hflags Herrs]. rewrite Hno in Herrs. symmetry in Herrs.
  split; [exact Hflags|]. split; [exact (proj1 (Forall_fmap _ _ _) (JoinErrors_none _ Herrs))|].
  split; [intros f Hf; apply string_value; by apply Hflags|].
  pose proof (buildConfig_accepts (bound_config (Set_ fs "signoz-operator").1)) as Hacc. rewrite Hb in Hacc. unfold accepted in Hacc. breflect.
  split; [done|]. split; [done|]. eexists. split; [apply manager_options_asked|done].
Qed.

(** C39. The exit code tells whether the operator ran.  The program ends without
    any call when the arguments are not understood, a variable of the environment
    is refused, or the configuration is (its level is none, or the operator's
    namespace is blank), with code 1, and, with code 0, when help or the version
    was asked for; otherwise it makes the calls of the start in their order, up
    to the first that fails, and exits with 1, or all of them, the run of the
    manager last, and exits with 0. *)
Theorem main_exit_code arguments code h :
  exec anything (main ParseLevel arguments) [] (Ret code) h ->
  match arguments with
  | Err _ => h = [] /\ code = 1%Z
  | Ok None => h = [] /\ code = 0%Z
  | Ok (Some fs) =>
      let '(fs', refused) := Set_ fs "signoz-operator" in
      let c := bound_config fs' in
      match refused, accepted c with
      | None, true => started c h code
      | _, _ => h = [] /\ code = 1%Z
      end
  end.
Proof.
  intros (how & h1 & Hex & [-> ->]%exec_ret_inv)%exec_bind_inv. unfold command in Hex.
  destruct arguments as [[fs|]|e]; [|by apply exec_ret_inv in Hex as [-> ->]..].
  destruct (Set_ fs "signoz-operator") as [fs' [e|]]; [by apply exec_ret_inv in Hex as [-> ->]|]. cbv zeta.
  rewrite buildConfig_accepts.
  destruct (buildConfig ParseLevel (bound_config fs')) as [e|] eqn:Hb.
  - unfold run_manager in Hex. rewrite Hb in Hex. by apply exec_ret_inv in Hex as [-> ->].
  - by eapply run_fails_fast.
Qed.
End Main_spec.
End Run_spec.

(** ** The names of loggers *)

Definition lacks (c : ascii) (s : string) : Prop := c ∉ list_ascii_of_string s.

Lemma lacks_cons c d s : lacks c (String d s) <-> c <> d /\ lacks c s.
Proof. unfold lacks. cbn. rewrite not_elem_of_cons. done. Qed.

Lemma after_last_lacks c s : lacks c s -> after_last c s = None.
Proof.
  induction s as [|d s IH]; [done|]. intros [Hne Hs]%lacks_cons. cbn -[Ascii.eqb]. rewrite IH by done.
  destruct (Ascii.eqb_spec d c); [congruence|done].
Qed.

Lemma after_last_here c p t : lacks c t -> after_last c (p ++ String c t) = Some t.
Proof.
  intros Ht. induction p as [|d p IH].
  - change (after_last c (String c t) = Some t). cbn -[Ascii.eqb]. rewrite after_last_lacks by done. by rewrite Ascii.eqb_refl.
  - rewrite append_String. cbn -[Ascii.eqb]. by rewrite IH.
Qed.

Lemma after_first_here c p t : lacks c p -> after_first c (p ++ String c t) = Some t.
Proof.
  induction p as [|d p IH].
  - intros _. change (after_first c (String c t) = Some t). cbn -[Ascii.eqb]. by rewrite Ascii.eqb_refl.
  - intros [Hne Hp]%lacks_cons. rewrite append_String. cbn -[Ascii.eqb].
    destruct (Ascii.eqb_spec d c); [congruence|]. by apply IH.
Qed.

Lemma lacks_app c s t : lacks c s -> lacks c t -> lacks c (s ++ t).
Proof. induction s as [|d s IH]; [done|]. intros [? ?]%lacks_cons ?. rewrite append_String. apply lacks_cons. auto. Qed.

Lemma without_receiver_app s t : without_receiver (s ++ t) = (without_receiver s ++ without_receiver t)%string.
Proof.
  induction s as [|c s IH]; [done|]. rewrite append_String. cbn [without_receiver]. rewrite IH. by case_bool_decide.
Qed.

Lemma without_receiver_plain s :
  (forall c, c ∈ ["("%char; "*"%char; ")"%char] -> lacks c s) -> without_receiver s = s.
Proof.
  induction s as [|c s IH]; [done|]. intros Hs. cbn. rewrite bool_decide_eq_false_2.
  - f_equal. apply IH. intros d Hd. by apply Hs, lacks_cons in Hd as [_ ?].
  - intros Hc. by apply Hs, lacks_cons in Hc as [? _].
Qed.

(** The logger of a method is named after the receiver's type and the method. *)
Lemma logger_of_method path pkg recv meth :
  lacks "."%char pkg -> lacks "/"%char pkg ->
  (forall c, c ∈ ["/"%char; "("%char; "*"%char; ")"%char] -> lacks c recv /\ lacks c meth) ->
  LoggerFromContext (Some (path ++ "/" ++ pkg ++ ".(*" ++ recv ++ ")." ++ meth)%string) = Some (recv ++ "." ++ meth)%string.
Proof.
  intros Hd Hs Hm. unfold LoggerFromContext. cbv zeta. change ("/" ++ ?r)%string with (String "/" r).
  destruct (Hm "/"%char ltac:(set_solver)) as [Hr1 Hm1].
  rewrite after_last_here.
  2: { repeat apply lacks_app; try done; unfold lacks; cbn; set_solver. }
  change (".(*" ++ ?r)%string with (String "." ("(*" ++ r)). change (default ?a (Some ?b)) with b. rewrite after_first_here by done.
  change (default ?a (Some ?b)) with b. f_equal.
  rewrite !without_receiver_app. rewrite (without_receiver_plain recv), (without_receiver_plain meth); [done|..]; intros c Hc; apply (Hm c); set_solver.
Qed.
