(* ===== verification/ConfigWitness.v ===== *)
(** * The theorems of provider configs, controllers, client and command, at concrete inputs

    URLs are texts with the scheme https, a bundle is a pool unless empty, and the
    cluster holds one Secret and one ConfigMap. *)

From S2P Require Import Prelude GoStd Json Errors Kube Core Conditions Effects Interfaces Reconciler ProviderConfig ProviderConfigSpec Controllers ControllersSpec Client ClientSpec Cmd CmdSpec Fixture.
From Stdlib Require Import String.

Local Open Scope string_scope.
Local Open Scope list_scope.

#[export] Instance text_urls : NetURL := {
  URL := string;
  url_Parse s := if decide (s = "") then None else Some s;
  url_Scheme _ := "https";
  url_Host s := s;
  url_RawQuery _ := "";
  url_EscapedPath s := s;
  url_JoinPath u p := (u ++ p)%string;
  url_SetRawQuery u _ := u;
  url_String s := s;
  url_Redacted s := s;
}.

#[export] Instance text_pools : X509 := {
  CertPool := string;
  AppendCertsFromPEM s := if decide (s = "") then None else Some s;
}.

Definition names_in_order (s : gset string) : list string := elements s.
Lemma names_in_order_all s : names_in_order s ≡ₚ elements s.
Proof. reflexivity. Qed.

(** ** A cluster *)

Definition not_found : error := EText "NotFound" "not found".
Definition token_key : ObjectKey := MkKey "team" "signoz-token".
Definition ca_key : ObjectKey := MkKey "team" "signoz-endpoint".
Definition secrets (key : ObjectKey) : result Secret error :=
  if decide (key = token_key) then Ok (MkSecret "11" {["key" := "s3cr3t"]}) else Err not_found.
Definition configMaps (key : ObjectKey) : result ConfigMap error :=
  if decide (key = ca_key) then Ok (MkConfigMap "12" {["url" := "signoz.example"]}) else Err not_found.

Definition provider_spec : ProviderConfigSpec :=
  MkPCSpec (MkEndpoint "" (Some (MkSource None (Some (MkSelector "signoz-endpoint" "url")))))
    (MkAuthentication (Some (MkHeaderAuth "" "" "" (Some (MkSource (Some (MkSelector "signoz-token" "key")) None)))))
    None.
Definition provider : Config := MkConfig (meta None [] ∅) provider_spec (MkPCStatus [] 0 ∅).

Section answers.
Context {W : Type} (record : forall X, W -> config_call X -> X -> W).

Definition answer_config {X} (e : config_call X) : X :=
  match e with
  | GetSecret _ key => secrets key
  | GetConfigMap _ key => configMaps key
  | GetProviderConfig _ _ => Ok provider
  | GetClusterProviderConfig _ _ => Ok provider
  | ConfigStatusUpdate _ c => Ok c
  end.

Definition answering_config X (w : W) (e : config_call X) : X * W := (answer_config e, record X w e (answer_config e)).
End answers.

Definition record_read (X : Type) (w : list (string * ObjectKey)) (e : config_call X) (_ : X) : list (string * ObjectKey) :=
  match e with
  | GetSecret _ key => w ++ [(ProviderConfigObservedRefKindSecret, key)]
  | GetConfigMap _ key => w ++ [(ProviderConfigObservedRefKindConfigMap, key)]
  | _ => w
  end.
Definition record_event (X : Type) (h : history config_call) (e : config_call X) (x : X) : history config_call := h ++ [Ev e x].

Lemma answering_snapshot X w (e : config_call X) :
  snapshot secrets configMaps X w e (answering_config record_read X w e).1 (answering_config record_read X w e).2.
Proof. by destruct e. Qed.

Lemma answering_cluster X h (e : config_call X) :
  hist_step (cluster secrets configMaps) X h e (answering_config record_event X h e).1 (answering_config record_event X h e).2.
Proof. by destruct e. Qed.

Abbreviation resolve_team := (Resolve names_in_order background "team" provider_spec).

Lemma resolve_team_run :
  (run (answering_config record_read) resolve_team []).1.1
  = Ok (MkResolved "signoz.example" (Some (MkHeader DefaultHeaderName "" "s3cr3t")) None).
Proof. vm_compute. reflexivity. Qed.

Lemma Resolve_refines_direct_reads_witness : exists res versions w,
  exec (snapshot secrets configMaps) resolve_team [] (Ret (res, versions)) w /\
  res = direct_resolve secrets configMaps "team" provider_spec /\ is_ok res = true.
Proof.
  pose proof (run_exec _ _ resolve_team [] answering_snapshot) as Hex. pose proof resolve_team_run as Hr.
  destruct (run _ resolve_team []) as [[res versions] w]. cbn [fst snd] in Hex, Hr.
  exists res, versions, w. split; [exact Hex|]. split; [|by rewrite Hr].
  exact (proj1 (Resolve_refines_direct_reads names_in_order names_in_order_all secrets configMaps background "team"
    provider_spec res versions w Hex)).
Defined.

Lemma Resolve_reads_once_witness : exists ctx key k,
  exec (snapshot secrets configMaps) resolve_team [] (Vis (GetSecret ctx key) k) [] /\
  ~ (ProviderConfigObservedRefKindSecret, key) ∈ @nil (string * ObjectKey) /\ key_namespace key = "team".
Proof.
  assert (exists ctx key k, exec (snapshot secrets configMaps) resolve_team [] (Vis (GetSecret ctx key) k) [])
    as (ctx & key & k & Hex).
  { assert (match resolve_team with Vis (GetSecret _ _) _ => true | _ => false end = true) as Hfirst
      by (vm_compute; reflexivity).
    destruct resolve_team as [r|X e k]; [discriminate|]. destruct e; try discriminate. do 3 eexists. apply exec_refl. }
  exists ctx, key, k. split; [exact Hex|].
  exact (proj1 (Resolve_reads_once names_in_order names_in_order_all secrets configMaps background "team" provider_spec [])
    ctx key k Hex).
Defined.

Lemma Resolve_reads_are_indexed_witness : all_calls (indexed_read provider_spec) resolve_team.
Proof. apply (Resolve_reads_are_indexed names_in_order background "team" provider_spec). exact names_in_order_all. Defined.

Lemma config_pass_reports_and_retries_witness : exists obj res err h,
  exec (hist_step (cluster secrets configMaps)) (CommonReconciler_Reconcile names_in_order background provider "team") []
    (Ret (obj, res, err)) h /\ res = no_requeue /\ err = None.
Proof.
  pose proof (run_exec _ _ (CommonReconciler_Reconcile names_in_order background provider "team") [] answering_cluster) as Hex.
  destruct (run _ (CommonReconciler_Reconcile names_in_order background provider "team") []) as [[[obj res] err] h] eqn:Hr.
  cbn [fst snd] in Hex. exists obj, res, err, h. split; [exact Hex|].
  destruct (config_pass_reports_and_retries names_in_order names_in_order_all secrets configMaps background provider "team"
    obj res err h Hex) as (Hres & _). split; [exact Hres|].
  apply (f_equal (fun r => r.1.2)) in Hr. vm_compute in Hr. by symmetry.
Defined.

Lemma SetConditions_truthful_witness :
  SetConditions (SetConditions (MkPCStatus [] 0 ∅) 3 ∅ (Some not_found)) 3 ∅ (Some not_found)
  = SetConditions (MkPCStatus [] 0 ∅) 3 ∅ (Some not_found).
Proof.
  destruct (SetConditions_truthful (MkPCStatus [] 0 ∅) 3 ∅ (Some not_found)) as (_ & _ & _ & _ & Hs). exact Hs.
Defined.

(** ** Events *)

Definition default_config : ObjectMeta := MkMeta "default" "team" "1" 1 None [] ∅.
Abbreviation note_setup := (kind_setup (T := string) (SigNoz := string) (Resolved := string) "Note" "note").
Abbreviation note_listing := (listing (E := E) o_meta (setup_indexes _ _ note_setup) [new_note]).

Lemma config_event_requeues_its_users_witness : exists keys w,
  exec note_listing (watchProviderConfigs background default_config) tt (Ret keys) w /\ MkKey "team" "a" ∈ keys.
Proof.
  assert (exists keys w, exec note_listing (watchProviderConfigs background default_config) tt (Ret keys) w)
    as (keys & w & Hex).
  { do 2 eexists. right. exists (Ok [o_meta new_note]), tt. split; [|apply exec_refl].
    eexists _, [new_note]. split; [apply list_elem_of_here|]. split; reflexivity. }
  exists keys, w. split; [exact Hex|].
  assert ("ProviderConfig" ∈ ["ProviderConfig"; "ClusterProviderConfig"]) as Hk by apply list_elem_of_here.
  assert ("ProviderConfig" = "ClusterProviderConfig" -> m_namespace default_config = "") as Hn by discriminate.
  assert (Forall known_kind [new_note]) as Hkn.
  { constructor; [|constructor]. right. apply list_elem_of_here. }
  apply (config_event_requeues_its_users names_in_order "Note" "note" "ProviderConfig" background background "signoz-system"
    default_config [new_note] keys w Hk Hn Hkn Hex (MkKey "team" "a")).
  exists new_note. split; [apply list_elem_of_here|]. split; reflexivity.
Defined.

Abbreviation config_listing := (listing (E := config_call) config_meta (config_indexes names_in_order) [provider]).

Lemma provider_secret : "signoz-token" ∈ SecretNames provider_spec.
Proof. apply (bool_decide_unpack _). vm_compute. exact I. Qed.

Lemma reference_event_requeues_its_readers_witness : exists keys w,
  exec config_listing (ProviderConfig_watchReferences secretRefsIndex background
    (MkMeta "signoz-token" "team" "1" 1 None [] ∅)) tt (Ret keys) w /\ MkKey "team" "a" ∈ keys.
Proof.
  assert (exists keys w, exec config_listing (ProviderConfig_watchReferences secretRefsIndex background
    (MkMeta "signoz-token" "team" "1" 1 None [] ∅)) tt (Ret keys) w) as (keys & w & Hex).
  { do 2 eexists. right. exists (Ok [config_meta provider]), tt. split; [|apply exec_refl].
    eexists _, [provider]. split; [apply list_elem_of_here|]. split; [|reflexivity].
    rewrite filter_cons, decide_True; [reflexivity|]. split; [|reflexivity].
    apply elem_of_elements, provider_secret. }
  exists keys, w. split; [exact Hex|].
  assert (secretRefsIndex ∈ [secretRefsIndex; configMapRefsIndex]) as Hf by apply list_elem_of_here.
  apply (proj1 (reference_event_requeues_its_readers names_in_order names_in_order_all secretRefsIndex background
    (MkMeta "signoz-token" "team" "1" 1 None [] ∅) "signoz-system" [provider] keys w Hf) Hex (MkKey "team" "a")).
  exists provider. split; [apply list_elem_of_here|]. split; [reflexivity|]. split; [reflexivity|]. exact provider_secret.
Defined.

(** ** An exchange *)

Definition resolved_config : ResolvedProviderConfigSpec :=
  MkResolved "https://signoz.example" (Some (MkHeader DefaultHeaderName "Bearer" "s3cr3t")) None.
Definition the_client : client := Client.New resolved_config.
Definition bad_path (path : string) : error := errorString "bad path".
Definition good_request (method target : string) : option error := None.
Abbreviation get_notes := (Client.Exchange "v1" bad_path good_request background the_client "GET" "/api/v1/notes" None).

Lemma Exchange_contract_witness : exists h,
  exec (hist_step (E := net) (@any_answer net)) get_notes [] (Ret (Ok (200%Z, Some "[]"))) h /\
  exists req, h = [Ev (Do background None req) (Ok (MkResponse 200 "[]" None))].
Proof.
  assert (read_response (MkResponse 200 "[]" None) = Ok (200%Z, Some "[]")) as Hread.
  { unfold read_response. assert (64 <= maxResponseBody)%Z by (unfold maxResponseBody; rewrite Z.shiftl_mul_pow2; lia).
    generalize dependent maxResponseBody. intros max Hmax. cbn [resp_body resp_read_error resp_StatusCode].
    change (bytes_of "[]") with [91; 93]%nat. rewrite take_ge by (cbn; lia).
    rewrite decide_False by (cbn; lia). vm_compute. reflexivity. }
  assert (exists h, exec (hist_step (E := net) (@any_answer net)) get_notes [] (Ret (Ok (200%Z, Some "[]"))) h /\
    exists req, h = [Ev (Do background None req) (Ok (MkResponse 200 "[]" None))]) as (h & Hex & req & Hh).
  { eexists. split; [|eexists; reflexivity]. right. eexists (Ok (MkResponse 200 "[]" None)), _. split; [split; reflexivity|].
    cbn -[read_response]. rewrite Hread. left. split; reflexivity. }
  exists h. split; [exact Hex|].
  destruct (Exchange_contract "v1" bad_path good_request background the_client "GET" "/api/v1/notes" None _ _ Hex)
    as [[Hn _]|(req' & _)]; [by rewrite Hn in Hh|]. exists req. exact Hh.
Defined.

Lemma request_carries_the_credential_witness : exists req,
  build_request "v1" bad_path good_request the_client "GET" "/api/v1/notes" None = Ok req /\
  req_header req !! CanonicalHeaderKey DefaultHeaderName = Some "Bearer s3cr3t".
Proof.
  assert (exists req, build_request "v1" bad_path good_request the_client "GET" "/api/v1/notes" None = Ok req)
    as (req & Hreq) by (eexists; reflexivity).
  exists req. split; [exact Hreq|].
  assert (CanonicalHeaderKey DefaultHeaderName <> "User-Agent") as Hu by (by vm_compute).
  assert (CanonicalHeaderKey DefaultHeaderName <> "Content-Type") as Hc by (by vm_compute).
  exact (proj1 (request_carries_the_credential "v1" bad_path good_request the_client "GET" "/api/v1/notes" None req
    (MkHeader DefaultHeaderName "Bearer" "s3cr3t") Hreq eq_refl) Hu Hc).
Defined.

Lemma trailing_close_accepted_witness : exists data,
  read_response (MkResponse 200 "{}} not JSON" None) = Ok (200%Z, Some data).
Proof.
  assert (Valid "{}" = true) as Hv by (vm_compute; reflexivity).
  assert ("}" ∈ ["}"; "]"]) as Hc by apply list_elem_of_here.
  assert (Z.of_nat (List.length (bytes_of ("{}" ++ "}" ++ " not JSON")%string)) <= maxResponseBody)%Z as Hlen.
  { unfold maxResponseBody. rewrite Z.shiftl_mul_pow2 by lia. vm_compute. discriminate. }
  destruct (trailing_close_accepted 200 "{}" "}" " not JSON" Hv Hc Hlen) as (data & Hd & _).
  exists data. exact Hd.
Defined.

(** ** The command *)

(** One flag, [log-level], of which the environment has a value. *)
#[export] Instance one_flag : Pflag := {
  FlagSet := Flag;
  Lookup f name := if decide (name = "log-level") then Some f else None;
  VisitAll _ := ["log-level"];
  FlagSet_Set f name text := if decide (name = "log-level") then (MkFlag true text, None) else (f, None);
  assign _ _ text := (MkFlag true text, None);
}.

#[export] Instance one_flag_laws : PflagLaws.
Proof.
  split; simpl.
  - intros _. apply NoDup_singleton.
  - intros fs name. rewrite list_elem_of_singleton. case_decide; split; try done; eauto; by intros [? ?].
  - intros fs name f text. by case_decide.
  - intros fs name text name' Hne. repeat case_decide; first [done|congruence].
Qed.

#[export] Instance one_variable : Viper := fun prefix name =>
  if decide (env_name prefix name = "SIGNOZ_OPERATOR_LOG_LEVEL") then Some "debug" else None.

Lemma Set_merges_witness :
  Lookup (Set_ (MkFlag false "info" : FlagSet) " signoz-operator ").1 "log-level" = Some (MkFlag true "debug").
Proof. exact (proj1 (Set_merges " signoz-operator " (MkFlag false "info" : FlagSet)) "log-level" (MkFlag false "info") eq_refl). Defined.

Definition any_level (level : string) : result string error := Ok level.
Definition configured : config :=
  MkConfiguration "info" "0" ":8081" false true "" "tls.crt" "tls.key" "" "tls.crt" "tls.key" false
    (10 * Minute) Minute (30 * Second) [" team "; ""] "signoz-system".

(** The manager of a configured operator, about to start. *)
Definition is_start (X : Type) (e : manager_call X) : bool := match e with Start => true | _ => false end.
Definition passing X (h : history manager_call) (e : manager_call X) : X * history manager_call :=
  match e in manager_call X return X * history manager_call with
  | GetConfigOrDie => (None, h ++ [Ev GetConfigOrDie None])
  | NewManager o => (None, h ++ [Ev (NewManager o) None])
  | SetupWithManager c => (None, h ++ [Ev (SetupWithManager c) None])
  | AddHealthzCheck n => (None, h ++ [Ev (AddHealthzCheck n) None])
  | AddReadyzCheck n => (None, h ++ [Ev (AddReadyzCheck n) None])
  | Start => (None, h ++ [Ev Start None])
  end.

#[export] Instance bound_to_one_flag : BoundVariables := {
  StringVar fs name := if decide (name = "log-level") then flag_Value fs else if decide (name = "operator-namespace") then "signoz-system" else "";
  BoolVar _ _ := false;
  DurationVar _ _ := Minute;
  StringSliceVar _ _ := [];
}.

#[export] Instance bound_to_one_flag_laws : BoundVariablesLaws.
Proof. split. intros fs name f. simpl. by case_decide; [intros [= <-]|]. Qed.

(** Started with the log level of the environment. *)
Lemma manager_starts_as_asked_witness : exists k h,
  exec (hist_step (E := manager_call) (@any_answer manager_call)) (main any_level (Ok (Some (MkFlag false "info" : FlagSet)))) []
    (Vis Start k) h /\
  Lookup (Set_ (MkFlag false "info" : FlagSet) "signoz-operator").1 "log-level" = Some (MkFlag true "debug") /\
  List.length h = 16%nat.
Proof.
  assert (Set_ (MkFlag false "info" : FlagSet) "signoz-operator" = (MkFlag true "debug", None)) as Hset by (vm_compute; reflexivity).
  assert (buildConfig any_level (bound_config (MkFlag true "debug" : FlagSet)) = None) as Hb by (vm_compute; reflexivity).
  assert (exists k h, exec (hist_step (E := manager_call) (@any_answer manager_call))
    (main any_level (Ok (Some (MkFlag false "info" : FlagSet)))) [] (Vis Start k) h) as (k & h & Hex).
  { do 2 eexists. unfold main, command. rewrite Hset. unfold run_manager. rewrite Hb. apply (run_until_exec passing _ is_start).
    - intros X h []; split; solve [exact I | reflexivity].
    - reflexivity. }
  exists k, h. split; [exact Hex|].
  destruct (manager_starts_as_asked any_level _ _ _ Hex) as (fs & [= <-] & Hflags & _ & _ & _ & _ & o & _ & Hh).
  split; [exact (Hflags "log-level" (MkFlag false "info") eq_refl)|]. rewrite Hh. reflexivity.
Defined.

(** The manager cannot be made. *)
Lemma main_exit_code_witness : exists h code,
  exec (hist_step (E := manager_call) (@any_answer manager_call)) (main any_level (Ok (Some (MkFlag false "info" : FlagSet)))) []
    (Ret code) h /\ List.length h = 2%nat /\ code = 1%Z.
Proof.
  assert (Set_ (MkFlag false "info" : FlagSet) "signoz-operator" = (MkFlag true "debug", None)) as Hset by (vm_compute; reflexivity).
  set (c := bound_config (PF := one_flag) (MkFlag true "debug")).
  assert (buildConfig any_level c = None) as Hb by (vm_compute; reflexivity).
  assert (accepted any_level c = true) as Hacc by (vm_compute; reflexivity).
  set (h := [Ev GetConfigOrDie None; Ev (NewManager (manager_options c)) (Some not_found)]).
  assert (exec (hist_step (E := manager_call) (@any_answer manager_call))
    (main any_level (Ok (Some (MkFlag false "info" : FlagSet)))) [] (Ret 1%Z) h) as Hex.
  { unfold main, command. rewrite Hset. unfold run_manager. fold c. rewrite Hb.
    right. exists None. eexists. split; [split; reflexivity|].
    right. exists (Some not_found). eexists. split; [split; reflexivity|]. apply exec_refl. }
  exists h, 1%Z. split; [exact Hex|]. split; [reflexivity|].
  pose proof (main_exit_code any_level _ _ _ Hex) as Hend. cbv beta iota zeta in Hend.
  rewrite Hset in Hend. cbv beta iota zeta in Hend. fold c in Hend. rewrite Hacc in Hend.
  destruct Hend as [[Hl _]|(_ & _ & _ & _ & _ & _ & Hc)]; [|exact Hc].
  apply (f_equal (@List.length _)) in Hl. rewrite length_fmap in Hl. vm_compute in Hl. discriminate Hl.
Defined.
