(* ===== verification/Operator.v ===== *)
(** * The operator down to its requests

    The calls of a reconcile pass carried out by the code below them: the provider
    config resolved by reads of the API server ([ProviderConfig.ResolveRef]), the
    client made of it ([Client.New]), and each adapter's program, exchange by
    exchange, each exchange one request ([Client.Exchange]).  What is left are the
    writes of the object, the clock, the reads of configs, Secrets and ConfigMaps,
    and [http.Client.Do]. *)

From S2P Require Import Prelude GoStd Json Libraries Errors Kube Core JsonBody Effects Interp Interfaces Reconciler Objects Adapters HttpApi ProviderConfig Client.
From Stdlib Require Import String.

Local Open Scope string_scope.

Section Operator.
Context `{GJ : Gjson} `{CMP : GoCmp} `{JE : JsonErrors} `{CF : CaseFolding} `{AM : ApiMachinery} `{SE : SemanticEqual CoreStatus}.
Context `{NU : NetURL} `{XC : X509}.
Context {S : Type} `{SM : SpecMarshaler S}.
Context (Version : string) (parse_error : string -> error) (request_error : string -> string -> option error).
Context (range : gset string -> list string).

Abbreviation object := (Object (ObjectTemplate S)).
Abbreviation E := (call (ObjectTemplate S) client ResolvedProviderConfigSpec).

Inductive io : Type -> Type :=
  | WriteObject (ctx : Context) (o : object) : io (result object error)
  | PatchObject (ctx : Context) (o base : object) : io (result object error)
  | WriteStatus (ctx : Context) (o : object) : io (result object error)
  | Clock : io Z
  | ReadConfig {X : Type} (e : config_call X) : io X
  | Send {X : Type} (e : net X) : io X.

(** One exchange of the client. *)
Definition send (X : Type) (e : http client X) : prog io X :=
  match e in http _ X return prog io X with
  | Adapters.Exchange ctx c method path body =>
      lift (@Send) (Exchange Version parse_error request_error ctx c method path body)
  end.

Definition answered {X} (p : prog io X) : prog io (option X) := x ← p; mret (Some x).

Context (K : mirror (S := S) (SigNoz := client)) (fuel : nat).

#[local] Instance kind : ResourceObject (ObjectTemplate S) := mirror_object K.

(** [fuel] pages of a paged lookup; a run with too little ends there. *)
Definition handle (X : Type) (e : E X) : prog io (option X) :=
  match e in call _ _ _ X return prog io (option X) with
  | KUpdate ctx o => answered (trigger (WriteObject ctx o))
  | KPatch ctx o base => answered (trigger (PatchObject ctx o base))
  | KStatusUpdate ctx o => answered (trigger (WriteStatus ctx o))
  | TimeNow => answered (trigger Clock)
  | Interfaces.ResolveRef ctx ref resourceNamespace operatorNamespace =>
      answered (lift (@ReadConfig) (ProviderConfig.ResolveRef range ctx ref resourceNamespace operatorNamespace))
  | Find ctx c o => through send (mirror_Find K fuel ctx c o)
  | Create ctx c o => answered (through send (commonTransport_Create ctx c o))
  | Read ctx c o r => answered (through send (commonTransport_Read ctx c o r))
  | Update ctx c o r => answered (through send (commonTransport_Update ctx c o r))
  | Delete ctx c o r => answered (through send (commonTransport_Delete ctx c o r))
  end.

(** A pass of the operator over an object of the kind. *)
Definition operator (rec : commonReconciler) (ctx : Context) (obj : object)
    : prog io (option (object * Result * option error)) :=
  interp handle (Reconcile New rec ctx obj).
End Operator.
