(* ===== verification/OperatorSpec.v ===== *)
(** * What a pass sends, and to whom

    Every request of a pass goes to the endpoint, with the credential, of the one
    config resolved in that pass, and the writes among them are guarded. *)

From S2P Require Import Prelude GoStd Json Libraries Errors Kube Core JsonBody Effects Interp Interfaces Reconciler ReconcilerSafety ReconcilerOutcome Objects ObjectsSpec Adapters AdaptersSpec HttpApi HttpApiSpec ProviderConfig Client Operator.
From Stdlib Require Import String.

Local Open Scope string_scope.
Local Open Scope list_scope.

(** ** The client of a pass *)

Section Clients.
Context {T SigNoz Resolved : Type} `{AML : ApiMachineryLaws} `{RO : ResourceObject T} `{SE : SemanticEqual CoreStatus}.
Context (NewClient : Resolved -> SigNoz) (rec : commonReconciler).

Abbreviation E := (call T SigNoz Resolved).
Abbreviation hist := (history E).
Abbreviation anything := (hist_step (E := E) (@any_answer E)).

(** The client an adapter's call is made with. *)
Definition client_of {X} (e : E X) : option SigNoz :=
  match e with
  | Find _ c _ | Create _ c _ | Read _ c _ _ | Update _ c _ _ | Delete _ c _ _ => Some c
  | _ => None
  end.

(** What was resolved: the reference, the two namespaces, the answer. *)
Definition resolution : Type := Context * ProviderConfigRef * string * string * result Resolved error.

Definition resolution_of (ev : event E) : list resolution :=
  match ev with
  | Ev e x => match e in call _ _ _ X return X -> list resolution with
              | Interfaces.ResolveRef ctx ref ns ons => fun x => [(ctx, ref, ns, ons, x)]
              | _ => fun _ => []
              end x
  end.
Definition resolutions (h : hist) : list resolution := h ≫= resolution_of.

(** The object in hand: the one the pass was given, or what the server answered to
    a write. *)
Definition in_hand (obj : Object T) (h : hist) (o : Object T) : Prop :=
  o = obj \/ exists ctx o1, Ev (KUpdate ctx o1 : E _) (Ok o) ∈ h.

(** The pass resolved one reference, that of the object in hand, and [c] is the
    client of what it found. *)
Definition resolved_for (obj : Object T) (c : SigNoz) (h : hist) : Prop :=
  exists ctx o res, in_hand obj h o /\ c = NewClient res /\
    resolutions h = [(ctx, ProviderConfigRef_ (o_spec o), m_namespace (o_meta o), operatorNamespace rec, Ok res)].

Definition clients_resolved (obj : Object T) (X : Type) (h : hist) (e : E X) : Prop :=
  forall c, client_of e = Some c -> resolved_for obj c h.

Definition is_resolve {X} (e : E X) : bool := match e with Interfaces.ResolveRef _ _ _ _ => true | _ => false end.

(** Calls with the client [c], if any. *)
Definition with_client (c : option SigNoz) (X : Type) (e : E X) : Prop :=
  is_resolve e = false /\ forall c', client_of e = Some c' -> c = Some c'.

Lemma resolutions_snoc h X (e : E X) x : resolutions (h ++ [Ev e x]) = resolutions h ++ resolution_of (Ev e x).
Proof. unfold resolutions. rewrite bind_app. cbn. by rewrite app_nil_r. Qed.

Lemma not_resolve X (e : E X) x : is_resolve e = false -> resolution_of (Ev e x) = [].
Proof. by destruct e. Qed.

Lemma in_hand_snoc obj h o ev : in_hand obj h o -> in_hand obj (h ++ [ev]) o.
Proof. intros [->|(ctx & o1 & Hin)]; [by left|right]. exists ctx, o1. apply elem_of_app. by left. Qed.

Lemma resolved_snoc obj c h X (e : E X) x : is_resolve e = false -> resolved_for obj c h -> resolved_for obj c (h ++ [Ev e x]).
Proof.
  intros He (ctx & o & res & Ho & Hc & Hr). exists ctx, o, res. split; [by apply in_hand_snoc|]. split; [done|].
  by rewrite resolutions_snoc, (not_resolve _ _ _ He), app_nil_r.
Qed.

(** What a program does with its one client. *)
Lemma with_client_wp {R} obj c (p : prog E R) h :
  all_calls (with_client (Some c)) p -> resolved_for obj c h -> wp anything (clients_resolved obj) p (fun _ _ => True) h.
Proof.
  revert h. induction p as [r|X e k IH]; cbn; intros h; [done|]. intros [[He Hc] Hk] Hr. split.
  - intros c' Hc'. specialize (Hc c' Hc'). by injection Hc as <-.
  - intros x h' [_ ->]. apply IH; [done|]. by apply resolved_snoc.
Qed.

Lemma no_client_wp {R} obj (p : prog E R) h :
  all_calls (with_client None) p -> wp anything (clients_resolved obj) p (fun _ _ => True) h.
Proof. apply wp_all_calls. intros X e w [_ Hc] c Hc'. by specialize (Hc c Hc'). Qed.

Ltac one_client := intros; split; [done|]; intros ? [= <-]; done.
Ltac no_client := intros; split; done.

Lemma finalize_clients ctx obj : wp anything (clients_resolved obj) (finalize NewClient rec ctx obj) (fun _ _ => True) [].
Proof.
  unfold finalize. cbv zeta. destruct (negb _); [done|].
  assert (forall o h, wp anything (clients_resolved obj) (removeFinalizer ctx o) (fun _ _ => True) h) as Hrem.
  { intros. apply no_client_wp, removeFinalizer_calls. no_client. }
  destruct (decide _); [apply Hrem|]. destruct (_ && _); [apply Hrem|].
  apply wp_bind. unfold signozClientFor. apply wp_bind, wp_trigger; [done|]. intros x h [_ ->]. apply wp_ret.
  destruct x as [res|e]; [|done].
  assert (resolved_for obj (NewClient res) ([] ++ [Ev (Interfaces.ResolveRef ctx (ProviderConfigRef_ (o_spec obj))
    (m_namespace (o_meta obj)) (operatorNamespace rec) : E _) (Ok res)])) as Hr.
  { exists ctx, obj, res. split; [by left|done]. }
  eapply with_client_wp; [|exact Hr]. destruct (is_ok _); [apply reclaim_calls; one_client|].
  destruct (Identity obj); [|apply removeFinalizer_calls; no_client].
  prog_steps; try (one_client); try done; [apply removeFinalizer_calls; no_client|apply reclaim_calls; one_client].
Qed.

Lemma reconcile_clients ctx obj o h : in_hand obj h o -> resolutions h = [] ->
  wp anything (clients_resolved obj) (reconcile NewClient rec ctx o) (fun _ _ => True) h.
Proof.
  intros Ho Hno. unfold reconcile. cbv zeta. destruct (Suspend _); [done|]. destruct (Identity o); [|done].
  destruct (Interfaces.Hash o); [|done].
  apply wp_bind. unfold signozClientFor. apply wp_bind, wp_trigger; [done|]. intros x h' [_ ->]. apply wp_ret.
  destruct x as [res|e]; [|done].
  assert (resolved_for obj (NewClient res) (h ++ [Ev (Interfaces.ResolveRef ctx (ProviderConfigRef_ (o_spec o))
    (m_namespace (o_meta o)) (operatorNamespace rec) : E _) (Ok res)])) as Hr.
  { exists ctx, o, res. split; [by apply in_hand_snoc|]. split; [done|]. by rewrite resolutions_snoc, Hno. }
  eapply with_client_wp; [|exact Hr]. destruct (GetIDFromSigNozResource _).
  - apply all_calls_bind; [apply removeAnnotation_calls; no_client|]. intros [o' [e|]]; [done|].
    apply onExisting_calls; one_client.
  - apply onNew_calls; try one_client; no_client.
Qed.

Lemma Reconcile_clients ctx obj : wp anything (clients_resolved obj) (Reconcile NewClient rec ctx obj) (fun _ _ => True) [].
Proof.
  unfold Reconcile. cbv zeta. set (ctx' := if decide _ then _ else _). destruct (m_deletion _); [apply finalize_clients|].
  apply wp_bind. eapply (wp_mono (Q := fun '(o, err) h => err = None -> in_hand obj h o /\ resolutions h = [])).
  - intros [o [e|]] h Hh; [done|]. destruct (Hh eq_refl) as [Ho Hno]. apply wp_bind.
    eapply wp_mono; [|by apply reconcile_clients]. intros [[o' res] err] h' _. apply no_client_wp.
    destruct (DeepEqual _ _); [done|]. prog_steps; no_client.
  - unfold addFinalizer. destruct (AddFinalizer _ _) as [fs []]; [|apply wp_ret; intros _; split; [by left|done]].
    apply wp_bind, wp_trigger; [done|]. intros x h [_ ->]. apply wp_ret. destruct x as [o|e]; [|done]. intros _.
    split; [right|done]. do 2 eexists. by left.
Qed.
End Clients.

Arguments client_of {T SigNoz Resolved X} e.
Arguments is_resolve {T SigNoz Resolved X} e.

(** ** What resolving a reference reads and yields *)

Section Resolution.
Context `{NU : NetURL} `{XC : X509} `{AM : ApiMachinery}.
Context (range : gset string -> list string).
Context {W : Type} (step : forall X, W -> config_call X -> X -> W -> Prop).

Definition cluster_scoped (ref : ProviderConfigRef) : bool := bool_decide (ref_kind ref = "ClusterProviderConfig").

(** The config the reference names; Secrets and ConfigMaps of the namespace of the
    resource, or of the operator for a cluster's config. *)
Definition in_scope (ref : ProviderConfigRef) (ns ons : string) (X : Type) (e : config_call X) : Prop :=
  match e with
  | GetProviderConfig _ key => cluster_scoped ref = false /\ key = MkKey ns (ref_name ref)
  | GetClusterProviderConfig _ key => cluster_scoped ref = true /\ key = MkKey "" (ref_name ref)
  | GetSecret _ key | GetConfigMap _ key => key_namespace key = if cluster_scoped ref then ons else ns
  | ConfigStatusUpdate _ _ => False
  end.

(** An http or https endpoint with a host, and a credential. *)
Definition usable (r : ResolvedProviderConfigSpec) : Prop :=
  (url_Scheme (resolved_Endpoint r) = "http" \/ url_Scheme (resolved_Endpoint r) = "https") /\
  url_Host (resolved_Endpoint r) <> "" /\ exists h, resolved_Header r = Some h /\ header_Value h <> "".

Definition reads_in (ns : string) (X : Type) (e : config_call X) : Prop :=
  match e with GetSecret _ key | GetConfigMap _ key => key_namespace key = ns | _ => False end.

Abbreviation wpn ns := (wp step (fun X _ e => reads_in ns X e)).
Abbreviation same_ns ns := (fun '(c, _) _ => cache_namespace c = ns).

Lemma cache_secret_ns ctx (c : cache) key w : key_namespace key = cache_namespace c ->
  wpn (cache_namespace c) (cache_secret ctx c key) (same_ns (cache_namespace c)) w.
Proof. intros Hk. unfold cache_secret. prog_steps; try done. intros x w' _. apply wp_ret. by destruct x. Qed.

Lemma cache_configMap_ns ctx (c : cache) key w : key_namespace key = cache_namespace c ->
  wpn (cache_namespace c) (cache_configMap ctx c key) (same_ns (cache_namespace c)) w.
Proof. intros Hk. unfold cache_configMap. prog_steps; try done. intros x w' _. apply wp_ret. by destruct x. Qed.

Lemma cache_value_ns ctx (c : cache) path inline from w :
  wpn (cache_namespace c) (cache_value ctx c path inline from) (same_ns (cache_namespace c)) w.
Proof.
  unfold cache_value. destruct from as [from|]; [|by case_decide].
  destruct (SecretKeyRef from); [|destruct (ConfigMapKeyRef from); [|done]]; apply wp_bind.
  - eapply wp_mono; [|by apply cache_secret_ns]. by intros [c' r] w'.
  - eapply wp_mono; [|by apply cache_configMap_ns]. by intros [c' r] w'.
Qed.

Lemma read_secrets_ns ctx names (c : cache) w :
  wpn (cache_namespace c) (read_secrets ctx c names) (fun c' _ => cache_namespace c' = cache_namespace c) w.
Proof.
  revert c w. induction names as [|name names IH]; intros c w; [done|]. cbn [read_secrets]. apply wp_bind.
  eapply wp_mono; [|by apply cache_secret_ns]. intros [c' r] w' <-. apply IH.
Qed.

Lemma read_configMaps_ns ctx names (c : cache) w :
  wpn (cache_namespace c) (read_configMaps ctx c names) (fun c' _ => cache_namespace c' = cache_namespace c) w.
Proof.
  revert c w. induction names as [|name names IH]; intros c w; [done|]. cbn [read_configMaps]. apply wp_bind.
  eapply wp_mono; [|by apply cache_configMap_ns]. intros [c' r] w' <-. apply IH.
Qed.

Lemma parse_endpoint_usable raw url : parse_endpoint raw = Ok url ->
  (url_Scheme url = "http" \/ url_Scheme url = "https") /\ url_Host url <> "".
Proof.
  unfold parse_endpoint. destruct (url_Parse raw); [|done]. case_decide as Hs; [done|]. case_decide as Hh; [done|].
  intros [= <-]. split; [|done]. destruct (decide (url_Scheme u = "http")); [by left|]. 
  destruct (decide (url_Scheme u = "https")); [by right|]. by destruct Hs.
Qed.

Lemma Resolve_usable ctx ns spec w :
  wpn ns (Resolve range ctx ns spec) (fun '(r, _) _ => forall res, r = Ok res -> usable res) w.
Proof.
  unfold Resolve. cbv zeta. set (c := MkCache ns ∅ ∅ ∅ ∅). change ns with (cache_namespace c). apply wp_bind.
  eapply wp_mono; [|apply read_secrets_ns]. intros c1 w1 <-. apply wp_bind.
  eapply wp_mono; [|apply read_configMaps_ns]. intros c2 w2 <-. apply wp_bind. unfold cache_endpoint. apply wp_bind.
  eapply wp_mono; [|apply cache_value_ns]. intros [c3 raw] w3 <-. apply wp_ret.
  destruct raw as [raw|]; [|done]. destruct (parse_endpoint raw) as [url|] eqn:Hu; [|done].
  apply parse_endpoint_usable in Hu as [Hs Hh].
  apply wp_bind. unfold cache_authentication. destruct (auth_header _) as [header|]; [|done]. apply wp_bind.
  eapply wp_mono; [|apply cache_value_ns]. intros [c4 value] w4 <-. apply wp_ret.
  destruct value as [value|]; [|done]. unfold build_header. case_decide as Hv; [done|].
  apply wp_bind. eapply (wp_mono (Q := fun _ _ => True)).
  { intros [c5 t] w5 _. destruct t; [|done]. apply wp_ret. intros res [= <-]. split; [done|]. split; [done|]. by eexists. }
  unfold cache_trust. destruct (pc_tls spec) as [config|]; [|done]. destruct (tls_ca config) as [ref|]; [|done].
  apply wp_bind. eapply wp_mono; [|by apply cache_secret_ns]. by intros [c5 r] w5 _.
Qed.

Lemma ResolveRef_usable ctx ref ns ons w :
  wp step (fun X _ e => in_scope ref ns ons X e) (ProviderConfig.ResolveRef range ctx ref ns ons)
    (fun r _ => forall res, r = Ok res -> usable res) w.
Proof.
  assert (forall name ns' spec w, ns' = (if cluster_scoped ref then ons else ns) ->
    wp step (fun X _ e => in_scope ref ns ons X e) (resolve_named range ctx name ns' spec) (fun r _ => forall res, r = Ok res -> usable res) w) as Hn.
  { intros name ns' spec w1 Hns. unfold resolve_named. apply wp_bind.
    eapply wp_mono; [|eapply wp_pre_mono, (Resolve_usable ctx ns' spec)].
    - intros [[res|] versions] w2 Hr; [|done]. apply wp_ret. by intros ? [= <-]; apply Hr.
    - intros X w2 [] He; try done; cbn in *; congruence. }
  unfold ProviderConfig.ResolveRef. case_decide as Hk.
  - assert (cluster_scoped ref = false) as Hc by (apply bool_decide_eq_false; intros He; rewrite He in Hk; by destruct Hk).
    apply wp_bind, wp_trigger; [done|]. intros x w1 _. destruct x as [config|]; [|done]. apply Hn. by rewrite Hc.
  - case_decide as Hk'; [|done].
    assert (cluster_scoped ref = true) as Hc by (by apply bool_decide_eq_true).
    apply wp_bind, wp_trigger; [done|]. intros x w1 _. destruct x as [config|]; [|done]. apply Hn. by rewrite Hc.
Qed.
End Resolution.

(** ** The requests under a call *)

Section Requests.
Context `{GJ : Gjson} `{CMP : GoCmp} `{JE : JsonErrors} `{CF : CaseFolding} `{AML : ApiMachineryLaws} `{SEL : SemanticEqualLaw CoreStatus}.
Context `{NU : NetURL} `{XC : X509}.
Context {S : Type} `{SM : SpecMarshaler S}.
Context (Version : string) (parse_error : string -> error) (request_error : string -> string -> option error).
Context (range : gset string -> list string).

Abbreviation object := (Object (ObjectTemplate S)).
Abbreviation E := (call (ObjectTemplate S) client ResolvedProviderConfigSpec).
Abbreviation IO := (io (S := S)).
Abbreviation built := (build_request Version parse_error request_error).
Abbreviation mirror := (HttpApi.mirror (S := S) (SigNoz := client)).

(** Exchanges of one client. *)
Definition exchanges (c : client) (P : string -> string -> option string -> Prop) (X : Type) (e : http client X) : Prop :=
  match e with Adapters.Exchange _ c' method path body => c' = c /\ P method path body end.

(** A lookup below a collection. *)
Definition gets (collection : string) (method path : string) (body : option string) : Prop :=
  method = "GET" /\ (exists rest, path = (collection ++ rest)%string) /\ body = None.

Lemma lift_calls {F G : Type -> Type} {R} (f : forall X, F X -> G X) (P : forall X, G X -> Prop) (p : prog F R) :
  (forall X e, P X (f X e)) -> all_calls P (lift f p).
Proof. intros HP. induction p; cbn; auto. Qed.

(** Each of the ten lookups only gets. *)
Lemma one_get {A} collection rest path ctx c (f : result (Z * option string) error -> A) :
  path = (collection ++ rest)%string ->
  all_calls (exchanges c (gets collection)) (r ← trigger (Adapters.Exchange ctx c MethodGet path None); mret (f r)).
Proof. intros ->. apply all_calls_bind; [|done]. split; [|done]. split; [done|]. split; [done|]. split; [by eexists|done]. Qed.

Lemma findByField_gets `{RO : ResourceObject (ObjectTemplate S)} ctx c (o : object) collection field :
  all_calls (exchanges c (gets collection)) (findByField ctx c o collection field).
Proof. unfold findByField. destruct (Identity o); [|done]. apply (one_get _ ""). by rewrite append_nil. Qed.

Lemma find_pages_gets fuel ctx c collection listKey identity offset matches :
  all_calls (exchanges c (gets collection)) (find_pages fuel ctx c collection listKey identity offset matches).
Proof.
  revert offset matches. induction fuel as [|fuel IH]; intros offset matches; [done|]. cbn [find_pages].
  apply all_calls_bind; [split; [|done]; split; [done|]; split; [done|]; split; [by eexists|done]|].
  intros r. destruct (find_page _ _ _ _ _) as [[ms []]|]; [done|apply IH|done].
Qed.

Lemma findByPage_gets `{RO : ResourceObject (ObjectTemplate S)} fuel ctx c (o : object) collection listKey :
  all_calls (exchanges c (gets collection)) (findByPage fuel ctx c o collection listKey).
Proof. unfold findByPage. destruct (Identity o); [apply find_pages_gets|done]. Qed.

Lemma mirrors_get : Forall (fun K : mirror => forall fuel ctx c o,
  all_calls (exchanges c (gets (mirror_path K))) (mirror_Find K fuel ctx c o)) mirrors.
Proof.
  unfold mirrors. repeat apply Forall_cons_2; [..|by apply Forall_nil_2]; intros fuel ctx c o; cbn [mirror_Find mirror_path].
  all: try apply findByPage_gets.
  all: apply all_calls_bind; [|done]; try apply findByField_gets.
  - unfold SavedViewAdapter_Find. destruct (Identity o) as [identity|]; [|done]. by apply (one_get _ ("?name=" ++ QueryEscape identity)).
  - unfold UserAdapter_Find. destruct (Identity o); [|done]. by apply (one_get _ "").
Qed.

(** The kinds whose calls are what their method says. *)
Class speaks_http (K : mirror) : Prop := {
  speaks_object : exists upd imm, mirror_object K = object_of (mirror_path K) (mirror_identity K) upd imm;
  speaks_find : forall fuel ctx c o, all_calls (exchanges c (gets (mirror_path K))) (mirror_Find K fuel ctx c o);
}.

Lemma mirrors_speak_http : Forall speaks_http mirrors.
Proof.
  assert (Forall (fun K : mirror => exists upd imm, mirror_object K = object_of (mirror_path K) (mirror_identity K) upd imm) mirrors) as Hobj
    by (repeat constructor; do 2 eexists; reflexivity).
  rewrite Forall_forall in *. pose proof mirrors_get as Hget. rewrite Forall_forall in Hget. split; [by apply Hobj|by apply Hget].
Qed.

Abbreviation anything G := (hist_step (@any_answer G)).

Section Kind.
Context (K : mirror) {HK : speaks_http K} (fuel : nat).

#[local] Instance here : ResourceObject (ObjectTemplate S) := Operator.kind K.
Abbreviation handler := (handle Version parse_error request_error range K fuel).

Definition item (r : option SigNozResource) : string := (mirror_path K ++ "/" ++ id_or_zero r)%string.

(** The exchange a call asks for. *)
Definition asks {X} (e : E X) (method path : string) (body : option string) : Prop :=
  match e with
  | Find _ _ _ => gets (mirror_path K) method path body
  | Create _ _ o => method = "POST" /\ path = mirror_path K /\ exists b, Body o = Ok b /\ body = Some b
  | Read _ _ _ r => method = "GET" /\ path = item r /\ body = None
  | Update _ _ o r => method = "PUT" /\ path = item r /\ exists payload, ToUpdate o = Ok (Some payload) /\ body = Some payload
  | Delete _ _ _ r => method = "DELETE" /\ path = item r /\ body = None
  | _ => False
  end.

(** What a call may do below it: the requests of its exchange, and reads of configs
    under the resolution of a reference. *)
Definition below {X} (e : E X) (Y : Type) (f : IO Y) : Prop :=
  match f with
  | Send n => match n with Do _ tls req => exists c method path body,
                client_of e = Some c /\ tls = client_tls c /\ asks e method path body /\ built c method path body = Ok req end
  | ReadConfig _ => is_resolve e = true
  | _ => client_of e = None /\ is_resolve e = false
  end.

Lemma exchanges_below {R} X (e : E X) c (p : prog (http client) R) :
  client_of e = Some c -> all_calls (exchanges c (asks e)) p ->
  all_calls (below e) (through (send Version parse_error request_error) p).
Proof.
  intros Hc Hp. apply through_calls. eapply all_calls_mono, Hp. intros Y [ctx c' m path body] [-> Ha]. cbn.
  unfold Exchange. destruct (built _ _ _ _) as [req|] eqn:Hb; [|done]. cbn. split; [|done].
  by exists c, m, path, body.
Qed.

Lemma answered_below {X Y} (e : E Y) (p : prog IO X) : all_calls (below e) p -> all_calls (below e) (answered p).
Proof. intros Hp. by apply all_calls_bind. Qed.

Lemma transport_below {R} X (e : E X) c (p : prog (http client) R) :
  client_of e = Some c -> all_calls (exchanges c (asks e)) p ->
  all_calls (below e) (answered (through (send Version parse_error request_error) p)).
Proof. intros Hc Hp. apply answered_below. by eapply exchanges_below. Qed.

Lemma handle_below X (e : E X) : all_calls (below e) (handler X e).
Proof.
  destruct (speaks_object (K := K)) as (upd & imm & Hk).
  assert (CreateMethodAndPath (ResourceObject := here) = ("POST", mirror_path K)) as Hpost by (unfold here, Operator.kind; by rewrite Hk).
  assert (forall r, ReadMethodAndPath (ResourceObject := here) r = ("GET", item r)) as Hget by (intros; unfold here, Operator.kind; by rewrite Hk).
  assert (forall r, UpdateMethodAndPath (ResourceObject := here) r = ("PUT", item r)) as Hput by (intros; unfold here, Operator.kind; by rewrite Hk).
  assert (forall r, DeleteMethodAndPath (ResourceObject := here) r = ("DELETE", item r)) as Hdel by (intros; unfold here, Operator.kind; by rewrite Hk).
  destruct e; cbn [handle]; try by apply answered_below.
  - apply answered_below, lift_calls. done.
  - by eapply exchanges_below; [|apply speaks_find].
  - eapply transport_below; [done|]. unfold commonTransport_Create. fold here. rewrite Hpost. prog_steps; try done.
    split; [done|]. split; [done|]. split; [done|]. by eexists.
  - eapply transport_below; [done|]. unfold commonTransport_Read. fold here. rewrite Hget. by prog_steps.
  - eapply transport_below; [done|]. unfold commonTransport_Update. fold here. rewrite Hput. prog_steps; try done.
    split; [done|]. split; [done|]. split; [done|]. by eexists.
  - eapply transport_below; [done|]. unfold commonTransport_Delete. fold here. rewrite Hdel. by prog_steps.
Qed.

(** ** The reads of a pass *)

(** The reads of configs in a history. *)
Definition read_of (ev : event IO) : list (event config_call) :=
  match ev with
  | Ev f x => match f in io X return X -> list (event config_call) with
              | ReadConfig e => fun x => [Ev e x]
              | _ => fun _ => []
              end x
  end.
Definition reads (g : history IO) : history config_call := g ≫= read_of.

Lemma reads_app g g' : reads (g ++ g') = reads g ++ reads g'.
Proof. apply bind_app. Qed.

Lemma no_reads (g : history IO) (P : forall X, IO X -> Prop) :
  (forall X (e : config_call X), ~ P X (ReadConfig e)) -> Forall (fun ev => match ev with Ev f _ => P _ f end) g -> reads g = [].
Proof.
  intros HP. induction 1 as [|[X f x] g Hf _ IH]; [done|]. unfold reads in *. cbn. rewrite IH.
  destruct f; try done. by destruct (HP _ e).
Qed.

Lemma lift_reads {R} (p : prog config_call R) r g :
  exec (anything IO) (lift (fun X e => ReadConfig e) p) [] (Ret r) g -> exec (anything config_call) p [] (Ret r) (reads g).
Proof.
  change (@nil (event config_call)) with (reads []). generalize (@nil (event IO)). intros g0. revert g0.
  induction p as [r'|X e k IH]; intros g0; cbn.
  - intros [[[= ->] ->]|[]]. by left.
  - intros [[? _]|(x & g1 & [_ ->] & Hex)]; [done|]. right. exists x, (reads (g0 ++ [Ev (ReadConfig e) x])).
    split; [|by apply IH]. split; [done|]. by rewrite reads_app.
Qed.

Lemma answered_history {X} (p : prog IO X) x g :
  exec (anything IO) (answered p) [] (Ret (Some x)) g -> exec (anything IO) p [] (Ret x) g.
Proof. by intros (y & g1 & Hex & [[[= ->] ->]|[]])%exec_bind_inv. Qed.

(** The one resolution of a history is the run of [ResolveRef] over its reads. *)
Lemma explained_reads (h : history E) (g : history IO) : explains handler h g ->
  (resolutions h = [] -> reads g = []) /\
  forall ctx ref ns ons x, resolutions h = [(ctx, ref, ns, ons, x)] ->
    exec (anything config_call) (ProviderConfig.ResolveRef range ctx ref ns ons) [] (Ret x) (reads g).
Proof.
  induction 1 as [|h g X e x d _ [Hnone Hone] Hd]; [done|]. setoid_rewrite resolutions_snoc. rewrite reads_app.
  destruct (is_resolve e) eqn:He.
  - destruct e; try done. cbn in *. split; [by intros [_ ?]%app_nil|]. intros ? ? ? ? ? Hh.
    apply (app_inj_2 _ []) in Hh as [Hh [= <- <- <- <- <-]]; [|done]. rewrite (Hnone Hh). cbn.
    by apply lift_reads, answered_history.
  - assert (reads d = []) as Hd'.
    { destruct (all_calls_history _ _ _ _ _ _ (handle_below X e) Hd) as (hs & -> & Hall).
      eapply no_reads; [|exact Hall]. cbn. intros Y e' ?. congruence. }
    rewrite (not_resolve _ _ _ He), Hd'. setoid_rewrite app_nil_r. by split.
Qed.

(** ** Requests *)

Context (rec : commonReconciler).
Abbreviation pass := (operator Version parse_error request_error range K fuel rec).

(** The writes of the object in a history, as calls of the pass. *)
Definition write_of (ev : event IO) : history E :=
  match ev with
  | Ev f x => match f in io X return X -> history E with
              | WriteObject ctx o => fun x => [Ev (KUpdate ctx o) x]
              | PatchObject ctx o base => fun x => [Ev (KPatch ctx o base) x]
              | WriteStatus ctx o => fun x => [Ev (KStatusUpdate ctx o) x]
              | _ => fun _ => []
              end x
  end.
Definition writes (g : history IO) : history E := g ≫= write_of.

Definition is_kube (ev : event E) : bool :=
  match ev with Ev e _ => match e with KUpdate _ _ | KPatch _ _ _ | KStatusUpdate _ _ => true | _ => false end end.

Lemma writes_app g g' : writes (g ++ g') = writes g ++ writes g'.
Proof. apply bind_app. Qed.

Lemma one_call {X} (f : IO X) x d : exec (anything IO) (answered (trigger f)) [] (Ret (Some x)) d -> d = [Ev f x].
Proof. by intros [_ ->]%answered_history%exec_trigger_inv. Qed.

Lemma explained_writes (h : history E) (g : history IO) : explains handler h g -> writes g = filter (fun ev => is_kube ev = true) (h : list (event E)).
Proof.
  induction 1 as [|h g X e x d _ IH Hd]; [done|]. rewrite writes_app, (filter_app (A := event E)), IH. f_equal.
  pose proof (handle_below X e) as Hb.
  assert (client_of e <> None \/ is_resolve e = true -> writes d = []) as Hno.
  { intros He. destruct (all_calls_history _ _ _ _ _ _ Hb Hd) as (hs & -> & Hall). clear -Hall He. unfold writes. cbn.
    induction Hall as [|[Y f y] hs Hf _ IH]; [done|]. cbn. rewrite IH. destruct f; try done; destruct Hf as [? ?]; destruct He; congruence. }
  destruct e; try (apply one_call in Hd as ->; done); rewrite Hno by (by (left + right)); done.
Qed.

Lemma explained_write (h : history E) (g : history IO) ev : explains handler h g -> ev ∈ h -> is_kube ev = true -> ev ∈ writes g.
Proof. intros Hg Hin Hk. rewrite (explained_writes h g Hg). by apply list_elem_of_filter. Qed.
(** A request, and the call of the pass it is made for. *)
Lemma request_of_call ctx (obj : object) ctx' tls req k g :
  exec (anything IO) (pass ctx obj) [] (Vis (Send (Do ctx' tls req)) k) g ->
  exists X (e : E X) k' h g1 d k1 c method path body, exec (anything E) (Reconcile New rec ctx obj) [] (Vis e k') h /\
    explains handler h g1 /\ g = g1 ++ d /\ exec (anything IO) (handler X e) [] (Vis (Send (Do ctx' tls req)) k1) d /\
    reads d = [] /\ client_of e = Some c /\ tls = client_tls c /\ asks e method path body /\ built c method path body = Ok req.
Proof.
  intros (X & e & k' & h & g1 & d & k1 & Hex & Hg & -> & Hd)%interp_history.
  pose proof (wp_all_calls (anything IO) (fun Y _ f => below e Y f) (below e) _ [] ltac:(auto) (handle_below X e)) as Hwp.
  destruct (wp_run (below e) _ _ _ _ _ _ Hwp Hd) as (hs & Heq & Hall & [Hreq _]). cbn [app] in *. subst hs. cbn in Hreq.
  destruct Hreq as (c & method & path & body & Hc & Htls & Ha & Hb).
  exists X, e, k', h, g1, d, k1, c, method, path, body. do 4 (split; [done|]). split; [|done].
  eapply no_reads; [|exact Hall]. intros Y e' He. cbn in He. by destruct e.
Qed.

Lemma asks_below X (e : E X) method path body : asks e method path body -> exists rest, path = (mirror_path K ++ rest)%string.
Proof.
  destruct e; cbn; try done.
  - by intros (_ & ? & _).
  - intros (_ & -> & _). exists "". by rewrite append_nil.
  - intros (_ & -> & _). by eexists.
  - intros (_ & -> & _). by eexists.
  - intros (_ & -> & _). by eexists.
Qed.

(** ** Posts *)

Definition posts (ev : event IO) : bool :=
  match ev with Ev f _ => match f with Send n => match n with Do _ _ req => bool_decide (req_method req = "POST") end | _ => false end end.

Lemma built_fields c method path body req : built c method path body = Ok req -> req_method req = method /\ req_body req = body.
Proof.
  unfold build_request. destruct (url_Parse path); [|done]. cbv zeta. destruct (request_error _ _); [done|].
  by intros [= <-].
Qed.

Lemma only_creates_post X (e : E X) method path body : asks e method path body -> method = "POST" -> is_create e = true.
Proof. destruct e; cbn; try done; by intros [-> _]. Qed.

Lemma explained_posts (h : history E) (g : history IO) : explains handler h g -> no_call (@is_create _ _ _) h ->
  Forall (fun ev => posts ev = false) g.
Proof.
  unfold no_call. induction 1 as [|h g X e x d _ IH Hd]; [constructor|]. intros [Hno He]%Forall_app. apply Forall_app. split; [by apply IH|].
  apply Forall_cons in He as [He _]. change (is_create e = false) in He. destruct (all_calls_history _ _ _ _ _ _ (handle_below X e) Hd) as (hs & -> & Hall).
  eapply Forall_impl; [exact Hall|]. intros [Y f y] Hf. cbn. destruct f as [| | | | |Z n]; try done. destruct n as [ctx tls req].
  destruct Hf as (c & method & path & body & _ & _ & Ha & [Hm _]%built_fields). apply bool_decide_eq_false. rewrite Hm.
  intros Hpost. pose proof (only_creates_post _ _ _ _ _ Ha Hpost). congruence.
Qed.

(** A program that makes one call at most. *)
Definition one_call_at_most {G : Type -> Type} {R} (p : prog G R) : Prop :=
  match p with Ret _ => True | Vis _ k => forall x, exists r, k x = Ret r end.

Lemma before_the_one_call {G : Type -> Type} {R X} (p : prog G R) (f : G X) k h :
  one_call_at_most p -> exec (anything G) p [] (Vis f k) h -> h = [].
Proof.
  destruct p as [r|Y e k0]; cbn; [by intros _ [[? _]|[]]|]. intros Hone [[_ ->]|(x & h1 & _ & Hex)]; [done|].
  destruct (Hone x) as [r Hr]. rewrite Hr in Hex. by destruct Hex as [[? _]|[]].
Qed.

Lemma create_is_one_call ctx c o : one_call_at_most (handler _ (Create ctx c o : E _)).
Proof.
  cbn [handle]. unfold answered, commonTransport_Create. destruct (Body o); [|done].
  destruct CreateMethodAndPath as [method path]. cbn. unfold Exchange. destruct (built _ _ _ _); [|done]. cbn. eauto.
Qed.
End Kind.

(** C12. Requests follow the reference.  For each of the ten kinds, in any
    environment: at every request a pass makes, one reference was resolved, that
    of the object in hand (the one the pass was given, or what the API server
    answered to its write), by reads of the config it names and of Secrets and
    ConfigMaps of that config's namespace alone; and the request is the one the
    resolved config makes of a path of the kind: its endpoint, http or https with
    a host, its credential, which is not empty, and its TLS settings. *)
Theorem requests_follow_the_reference rec : Forall (fun K : mirror => forall fuel ctx obj ctx' tls req k g,
  exec (anything IO) (operator Version parse_error request_error range K fuel rec ctx obj) [] (Vis (Send (Do ctx' tls req)) k) g ->
  exists ctx1 o resolved method path body,
    let ref := ProviderConfigRef_ (o_spec o) in
    in_hand obj (writes g) o /\
    exec (anything config_call) (ProviderConfig.ResolveRef range ctx1 ref (m_namespace (o_meta o)) (operatorNamespace rec))
      [] (Ret (Ok resolved)) (reads g) /\
    Forall (fun ev => match ev with Ev e _ => in_scope ref (m_namespace (o_meta o)) (operatorNamespace rec) _ e end) (reads g) /\
    usable resolved /\ tls = TLSClientConfig resolved /\ built (New resolved) method path body = Ok req /\
    exists rest, path = (mirror_path K ++ rest)%string) mirrors.
Proof.
  eapply Forall_impl; [exact mirrors_speak_http|]. intros K HK fuel ctx obj ctx' tls req k g Hex.
  destruct (request_of_call K fuel rec _ _ _ _ _ _ _ Hex)
    as (X & e & k' & h & g1 & d & k1 & c & method & path & body & Hp & Hg & -> & _ & Hd & Hc & -> & Ha & Hb).
  destruct (wp_call _ _ _ _ _ _ _ _ (Reconcile_clients New rec ctx obj) Hp c Hc) as (ctx1 & o & resolved & Ho & -> & Hres).
  destruct (explained_reads K fuel h g1 Hg) as [_ Hone]. specialize (Hone _ _ _ _ _ Hres).
  rewrite reads_app, Hd, app_nil_r, writes_app. exists ctx1, o, resolved, method, path, body. cbv zeta.
  split; [|split; [done|split; [|split; [|split; [done|split; [done|by eapply asks_below]]]]]].
  - destruct Ho as [->|(ctx2 & o1 & Hin)]; [by left|right]. exists ctx2, o1. apply elem_of_app. left. by eapply explained_write.
  - pose proof (ResolveRef_usable range (anything config_call) ctx1 (ProviderConfigRef_ (o_spec o)) (m_namespace (o_meta o))
      (operatorNamespace rec) []) as Hwp. by destruct (wp_run (in_scope _ _ _) _ _ _ _ _ _ Hwp Hone) as (hs & -> & Hall & _).
  - exact (wp_complete _ _ _ _ _ _ _ (ResolveRef_usable range (anything config_call) ctx1 _ _ _ []) Hone resolved eq_refl).
Qed.

(** What must hold at a request that changes SigNoz. *)
Definition write_allowed (K : mirror) (obj : object) (g : history IO) (req : Request) : Prop :=
  (req_method req = "POST" /\ m_deletion (o_meta obj) = None /\ Forall (fun ev => posts ev = false) g /\
     exists ctx o1 o0 o body ws, writes g = ws ++ [Ev (KPatch ctx o1 o0 : E _) (Ok o)] /\
       is_Some (annotation o1 AnnotationCreateAttempt) /\
       Body (ResourceObject := mirror_object K) o = Ok body /\ req_body req = Some body) \/
  (req_method req = "PUT" /\ m_deletion (o_meta obj) = None /\
     exists o payload, ToUpdate (ResourceObject := mirror_object K) o = Ok (Some payload) /\ req_body req = Some payload) \/
  (req_method req = "DELETE" /\ is_Some (m_deletion (o_meta obj)) /\ ResourceFinalizer ∈ m_finalizers (o_meta obj) /\
     ReclaimPolicy (o_spec obj) <> ReclaimOrphan /\ req_body req = None).

(** C13. Writes on the wire are guarded.  For each of the ten kinds, in any
    environment: a request of a pass that is not a GET is a POST, for an object
    that is not being deleted, the first of the pass, made right after the write
    that announced it was answered, of the body of the object in that answer; or a
    PUT of an update payload, for one not being deleted; or a DELETE, for one
    being deleted that the finalizer holds and that is not to be orphaned. *)
Theorem wire_writes_are_guarded rec : Forall (fun K : mirror => forall fuel ctx obj ctx' tls req k g,
  exec (anything IO) (operator Version parse_error request_error range K fuel rec ctx obj) [] (Vis (Send (Do ctx' tls req)) k) g ->
  req_method req <> "GET" -> write_allowed K obj g req) mirrors.
Proof.
  eapply Forall_impl; [exact mirrors_speak_http|]. intros K HK fuel ctx obj ctx' tls req k g Hex Hget.
  destruct (request_of_call K fuel rec _ _ _ _ _ _ _ Hex)
    as (X & e & k' & h & g1 & d & k1 & c & method & path & body & Hp & Hg & -> & Hd & _ & _ & _ & Ha & [Hm Hbody]%built_fields).
  rewrite Hm in Hget. unfold write_allowed. rewrite Hm, Hbody. clear Hm Hbody.
  pose proof (wp_call _ _ _ _ _ _ _ _ (Reconcile_create_wp New rec ctx obj) Hp) as Hcreate.
  pose proof (wp_call _ _ _ _ _ _ _ _ (Reconcile_finalize_wp New rec ctx obj) Hp) as Hdelete.
  pose proof (wp_all_calls (anything E) (fun Y _ f => live_or_deletion obj f = true)
    (fun Y f => live_or_deletion obj f = true /\ in_context rec ctx obj f) _ [] ltac:(by intros ??? []) (Reconcile_discipline (RO := Operator.kind K) New rec ctx obj)) as Hwp.
  pose proof (wp_call _ _ _ _ _ _ _ _ Hwp Hp) as Hkind. unfold live_or_deletion in Hkind.
  destruct e; try done; cbn [asks] in Ha; destruct Ha as (-> & Ha).
  - done.
  - left. destruct (m_deletion (o_meta obj)); [done|]. destruct Ha as (_ & b & Hb & ->).
    destruct Hcreate as (h0 & o0 & o1 & t & Hh & Hann & _ & _ & _ & _ & Hno).
    pose proof (before_the_one_call _ _ _ _ (create_is_one_call K fuel ctx0 c0 o) Hd) as ->. rewrite app_nil_r.
    split; [done|]. split; [done|]. split; [by eapply explained_posts|].
    rewrite (explained_writes K fuel h g1 Hg), Hh. 
    exists ctx0, o1, o0, o, b. rewrite filter_app. eexists. split; [reflexivity|]. split; [by eexists|]. by split.
  - done.
  - right; left. destruct (m_deletion (o_meta obj)); [done|]. destruct Ha as (_ & p & Hp' & ->). split; [done|]. split; [done|]. by exists o, p.
  - right; right. destruct Hdelete as (-> & Hdel & Hfin & Hpol & _). destruct Ha as [_ ->]. destruct (m_deletion _); [|done]. by repeat split.
Qed.
End Requests.
