(* ===== verification/OperatorWitness.v ===== *)
(** * The operator down to its requests, at runs of a concrete server

    A pass over a new auth domain: its config is read, the lookup's GET finds
    nothing of the name, the attempt is announced, and the POST is sent to a server
    of auth domains; the operator crashes before the id is recorded. *)

From S2P Require Import Prelude GoStd Json Libraries Errors Kube Core JsonBody JsonBodySpec Conditions Effects Interp Interfaces Reconciler ReconcilerOutcome Objects ObjectsSpec Adapters AdaptersSpec Fixture LibraryWitness Protocol HttpApi HttpApiSpec HttpSystem HttpSystemSpec HttpWitness ProviderConfig ProviderConfigSpec Client ClientSpec ConfigWitness Operator OperatorSpec.
From Stdlib Require Import String.

Local Open Scope string_scope.
Local Open Scope list_scope.

Definition range : gset string -> list string := names_in_order.
Definition no_parse_error (s : string) : error := errorString "parse".
Definition no_request_error (method url : string) : option error := None.

Abbreviation IO := (io (S := string)).
Abbreviation built := (build_request "1.0" no_parse_error no_request_error).
Abbreviation sending := (send (S := string) "1.0" no_parse_error no_request_error).

Definition client_domains : mirror (S := string) (SigNoz := client) :=
  MkMirror AuthDomainObject cp "name" (Collection "name") (all_at_once (AuthDomainAdapter_Find (RO := AuthDomainObject))).

Lemma client_domains_mirrored : client_domains ∈ mirrors.
Proof. left. Qed.

Abbreviation handler := (handle "1.0" no_parse_error no_request_error range client_domains 1).

(** What the config of the fixture resolves to. *)
Definition resolved : ResolvedProviderConfigSpec := MkResolved (NU := text_urls) "signoz.example" (Some (MkHeader "SIGNOZ-API-KEY" "" "s3cr3t")) None.


Definition request (method path : string) (body : option string) : Request :=
  match built (New resolved) method path body with Ok req => req | Err _ => MkRequest "" "" ∅ None end.

Lemma request_built method path body : path <> "" -> built (New resolved) method path body = Ok (request method path body).
Proof. intros Hp. unfold request, build_request. cbn [url_Parse text_urls]. by rewrite decide_False. Qed.

(** ** Runs of handlers *)

Section runs.
Context {W : Type} (step : forall X, W -> IO X -> X -> W -> Prop).

Lemma resolve_run (next : forall X, W -> config_call X -> W) ctx w :
  (forall X w (e : config_call X), step X w (ReadConfig e) (answer_config e) (next X w e)) ->
  exists w', handled handler step _ w
    (Interfaces.ResolveRef ctx (MkRef "default" "ProviderConfig") "team" "signoz-system" : call _ client _ _) (Ok resolved) w'.
Proof.
  intros Hs. unfold handled. cbn [handle]. set (p := ProviderConfig.ResolveRef _ _ _ _ _).
  destruct (lift_run (fun X e => ReadConfig (S := string) e) step (fun X w e => (answer_config e, next X w e)) p w (Ok resolved) Hs)
    as [w' Hex]; [vm_compute; reflexivity|]. exists w'. eapply exec_bind; [exact Hex|apply exec_refl].
Qed.

(** An exchange whose request is answered with a whole JSON body. *)
Lemma exchange_run ctx method path body status text data w w' :
  path <> "" -> (0 < Z.of_nat (List.length (bytes_of text)) <= maxResponseBody)%Z -> decode_one text = Some data ->
  step _ w (Send (Do ctx None (request method path body))) (Ok (MkResponse status text None)) w' ->
  by_handler sending step _ w (Adapters.Exchange ctx (New resolved) method path body) (Ok (status, Some data)) w'.
Proof.
  intros Hp Hsize Hd Hstep. unfold by_handler. cbn [send]. unfold Exchange. rewrite request_built by done.
  right. exists (Ok (MkResponse status text None)), w'. split; [exact Hstep|]. left. split; [|done].
  by rewrite (read_response_whole _ _ data).
Qed.

(** The lookup of a new domain. *)
Lemma lookup_run ctx raw w w' : (0 < Z.of_nat (List.length (bytes_of raw)) <= maxResponseBody)%Z -> decode_one raw = Some raw ->
  (let data := GetBytes raw "data" in if negb (Exists data) || negb (IsArray data)
     then Err (internal_error "find: response carries no data list") else matching "name" "x" (Array data)) = Ok [] ->
  step _ w (Send (Do ctx None (request "GET" cp None))) (Ok (MkResponse 200 raw None)) w' ->
  handled handler step _ w (Find ctx (New resolved) new_domain : call _ _ ResolvedProviderConfigSpec _) (Ok []) w'.
Proof.
  intros Hsize Hd Hm Hstep. unfold handled. cbn [handle]. apply through_exec.
  assert (Identity (ResourceObject := AuthDomainObject) new_domain = Ok "x") as Hid by (vm_compute; reflexivity).
  cbn [mirror_Find client_domains]. eapply exec_bind; [|apply exec_refl]. unfold AuthDomainAdapter_Find, findByField. rewrite Hid.
  eapply exec_bind; [eapply (exec_step _ _ _ (Ok (200%Z, Some raw))); [by apply (exchange_run _ _ _ _ _ raw)|apply exec_refl]|].
  left. split; [|done]. assert (success (Ok (200%Z, Some raw)) = Ok (Some raw)) as -> by reflexivity.
  f_equal. symmetry. exact Hm.
Qed.
End runs.

(** The request of the create, sent. *)
Lemma create_inside ctx (w : history IO) : exists k,
  exec (hist_step (@any_answer IO)) (handler _ (Create ctx (New resolved) announced : call _ _ ResolvedProviderConfigSpec _)) w
    (Vis (Send (Do ctx None (request "POST" cp (Some desired)))) k) w.
Proof.
  assert (Body (ResourceObject := AuthDomainObject) announced = Ok desired) as Hb by (vm_compute; reflexivity).
  cbn [handle]. unfold answered, commonTransport_Create. change (Body announced) with (Body (ResourceObject := AuthDomainObject) announced).
  rewrite Hb. change (CreateMethodAndPath (ResourceObject := kind client_domains)) with ("POST", cp).
  unfold mbind, prog_bind, trigger. cbn [bind through send]. unfold Exchange. rewrite request_built by done.
  eexists. left. split; reflexivity.
Qed.

(** ** A pass about to post *)

Abbreviation pass := (Operator.operator "1.0" no_parse_error no_request_error range client_domains 1 Fixture.operator background new_domain).

Definition nothing : string := json_of "{'data':[]}".

(** A run that comes to the request of the create. *)
Definition posts_from {R} (p : prog IO R) (w : history IO) : Prop := exists ctx k g,
  exec (hist_step (@any_answer IO)) p w (Vis (Send (Do ctx None (request "POST" cp (Some desired)))) k) g.

Lemma posts_step {R X} (e : call _ _ _ X) (k : X -> prog _ R) x w w1 :
  handled handler (hist_step (@any_answer IO)) X w e x w1 -> posts_from (interp handler (k x)) w1 ->
  posts_from (interp handler (Vis e k)) w.
Proof. intros Hx (ctx & k1 & g & Hex). exists ctx, k1, g. by eapply interp_step. Qed.

Lemma posts_create {R} ctx (k : _ -> prog _ R) w : posts_from (interp handler (Vis (Create ctx (New resolved) announced) k)) w.
Proof. destruct (create_inside ctx w) as [k1 Hex]. apply (interp_inside _ _ _ k) in Hex as [q Hex]. by exists ctx, q, w. Qed.

(** A call answered by one call of its handler. *)
Lemma one_answer {X} (f : IO X) (x : X) (w : history IO) :
  exec (hist_step (@any_answer IO)) (answered (trigger f)) w (Ret (Some x)) (w ++ [Ev f x]).
Proof. eapply exec_bind; [eapply (exec_step _ _ _ x); [by split|apply exec_refl]|apply exec_refl]. Qed.

(** Put the program's next call in front. *)
Ltac next_call :=
  lazymatch goal with
  | |- posts_from (interp ?h ?p) ?w => let p' := eval hnf in p in change (posts_from (interp h p') w)
  end.

Lemma posting_reached : posts_from pass [].
Proof.
  destruct (resolve_run (hist_step (@any_answer IO)) (fun X w e => w ++ [Ev (ReadConfig e) (answer_config e)]) (pass_context Fixture.operator background new_domain) [])
    as [g1 H1]; [by split|].
  unfold Operator.operator. next_call. eapply posts_step; [exact H1|]. next_call.
  eapply posts_step; [eapply (lookup_run _ _ nothing); [split; vm_compute; done|vm_compute; reflexivity|vm_compute; reflexivity|by split]|].
  next_call. eapply (posts_step _ _ 0%Z); [apply one_answer|].
  next_call. eapply (posts_step _ _ (Ok announced)); [apply one_answer|].
  next_call. apply posts_create.
Qed.

Lemma requests_follow_the_reference_witness : exists resolved method path body,
  usable resolved /\ built (New resolved) method path body = Ok (request "POST" cp (Some desired)).
Proof.
  destruct posting_reached as (ctx & k & g & Hex).
  destruct (proj1 (Forall_forall _ _) (requests_follow_the_reference "1.0" no_parse_error no_request_error range Fixture.operator)
    client_domains client_domains_mirrored _ _ _ _ _ _ _ _ Hex)
    as (ctx1 & o & res & method & path & body & _ & _ & _ & Hus & _ & Hb & _).
  exists res, method, path, body. split; [exact Hus|exact Hb].
Defined.

Lemma wire_writes_are_guarded_witness : exists g, write_allowed client_domains new_domain g (request "POST" cp (Some desired)).
Proof.
  destruct posting_reached as (ctx & k & g & Hex). exists g.
  apply (proj1 (Forall_forall _ _) (wire_writes_are_guarded "1.0" no_parse_error no_request_error range Fixture.operator)
    client_domains client_domains_mirrored _ _ _ _ _ _ _ _ Hex). discriminate.
Defined.
