(* ===== verification/Wire.v ===== *)
(** * A SigNoz server behind the network

    How a server answers a request is a parameter; [Client.Exchange] over it is a
    server of exchanges as HttpApi.v knows them, and the calls of a pass are
    answered by the programs of Operator.v. *)

From S2P Require Import Prelude GoStd Json Libraries Errors Kube Core JsonBody JsonBodySpec Effects Interp Interfaces Reconciler Objects Adapters AdaptersSpec Protocol HttpApi HttpApiSpec HttpSystem ProviderConfig Client Operator.
From Stdlib Require Import String.

Local Open Scope string_scope.
Local Open Scope list_scope.

(** How a request is answered, and what the server then holds of a kind. *)
Class NetServer `{NetURL} `{X509} := net_server : forall X, list value -> net X -> X -> list value -> Prop.

Section Wire.
Context `{GJL : GjsonLaws} `{CMP : GoCmp} `{JE : JsonErrors} `{CF : CaseFolding} `{AM : ApiMachinery} `{SE : SemanticEqual CoreStatus}.
Context `{NU : NetURL} `{XC : X509}.
Context {S : Type} `{SM : SpecMarshaler S}.
Context (Version : string) (parse_error : string -> error) (request_error : string -> string -> option error).
Context (range : gset string -> list string).
Context `{NS : !NetServer}.

Abbreviation object := (Object (ObjectTemplate S)).
Abbreviation E := (call (ObjectTemplate S) client ResolvedProviderConfigSpec).
Abbreviation IO := (io (S := S)).

(** ** Exchanges over the network *)

Definition exchange (X : Type) (e : http client X) : prog net X :=
  match e in http _ X return prog net X with
  | Adapters.Exchange ctx c method path body => Exchange Version parse_error request_error ctx c method path body
  end.

Definition over_the_wire : SigNozServer (SigNoz := client) := by_handler exchange net_server.

(** The client [c] built the request for this exchange. *)
Definition asked (method path : string) (body : option string) (tls : option (bool * option CertPool)) (req : Request) : Prop :=
  exists c, tls = client_tls c /\ build_request Version parse_error request_error c method path body = Ok req.

Definition accepted (resp : Response) : Prop := (200 <= resp_StatusCode resp < 300)%Z.

(** All of a response arrived: what its body says, without the space around it. *)
Definition says (resp : Response) (P : string -> Prop) : Prop :=
  resp_read_error resp = None -> resp_body resp <> "" /\ forall data, decode_one (resp_body resp) = Some data -> P data.

(** What the API promises of its responses, whatever the network does to them.  An
    answer that is a transport error says nothing. *)
Section Laws.
Context (K : mirror (S := S) (SigNoz := client)).
Abbreviation st := (mirror_listing K).
Definition item_path (id : string) : string := (mirror_path K ++ "/" ++ id)%string.

Class NetServerLaws := {
  net_listed : forall X s (e : net X) x s', net_server X s e x s' -> listed st s -> listed st s';
  net_list : forall s ctx tls req path resp s', net_server _ s (Do ctx tls req) (Ok resp) s' ->
    asked "GET" path None tls req -> accepted resp -> says resp (fun data => lists st (mirror_path K) s path (Some data));
  net_get : forall s ctx tls req path x s', net_server _ s (Do ctx tls req) x s' -> asked "GET" path None tls req ->
    s' = s /\ forall id resp, path = item_path id -> x = Ok resp -> resp_StatusCode resp = 404%Z -> id ∉ id_of_entry <$> s;
  net_create : forall s ctx tls req body x s', net_server _ s (Do ctx tls req) x s' ->
    asked "POST" (mirror_path K) (Some body) tls req ->
    s' = s /\ (forall resp, x = Ok resp -> ~ accepted resp) \/
    exists v, s' ≡ₚ v :: s /\
      (forall identity, ExtractString body (mirror_identity K) = Ok identity -> mine st identity v = true) /\
      forall resp, x = Ok resp ->
        accepted resp /\ says resp (fun data => ExtractString data "data.id" = Ok (id_of_entry v)) \/
        ~ accepted resp /\ resp_StatusCode resp ∉ [400; 401; 403; 409]%Z;
  net_update : forall s ctx tls req id payload x s', net_server _ s (Do ctx tls req) x s' ->
    asked "PUT" (item_path id) (Some payload) tls req ->
    Forall2 (fun v v' => id_of_entry v' = id_of_entry v /\ (id_of_entry v <> id -> v' = v) /\
      forall identity, keeps_identity (mirror_identity K) identity payload -> mine st identity v = true -> mine st identity v' = true) s s';
  net_delete : forall s ctx tls req id x s', net_server _ s (Do ctx tls req) x s' ->
    asked "DELETE" (item_path id) None tls req ->
    s' = filter (fun v => id_of_entry v <> id) s /\ (forall resp, x = Ok resp -> resp_StatusCode resp <> 404%Z) \/
    s' = s /\ (forall resp, x = Ok resp -> ~ accepted resp /\ (resp_StatusCode resp = 404%Z -> id ∉ id_of_entry <$> s));
}.
End Laws.

(** ** The system, down to requests *)

Section System.
Context (K : mirror (S := S) (SigNoz := client)) (rec : commonReconciler) (ctx : Context) (identity : string).

#[local] Instance here : ResourceObject (ObjectTemplate S) := HttpSystem.kind K.

Abbreviation state := (http_world (S := S)).
Abbreviation abs := (abstract K identity).

(** The API server takes writes as in Protocol.v, SigNoz answers requests, with
    others at work in the ways [G] before each, and reads of configs may find
    anything. *)
Definition io_step (G : list value -> list value -> Prop) (X : Type) (h : state) (f : IO X) : X -> state -> Prop :=
  match f in io X return X -> state -> Prop with
  | WriteObject ctx o => fun x h' => respond _ (abs h) (KUpdate ctx o : E _) x (abs h') /\ h_entries h' = h_entries h
  | PatchObject ctx o base => fun x h' => respond _ (abs h) (KPatch ctx o base : E _) x (abs h') /\ h_entries h' = h_entries h
  | WriteStatus ctx o => fun x h' => respond _ (abs h) (KStatusUpdate ctx o : E _) x (abs h') /\ h_entries h' = h_entries h
  | Clock => fun _ h' => h' = h
  | ReadConfig _ => fun _ h' => h' = h
  | Send e => fun x h' => same_object h h' /\ exists s, G (h_entries h) s /\ net_server _ s e x (h_entries h')
  end.

(** Others are at work between the requests of a lookup. *)
Definition others {X} (e : E X) : list value -> list value -> Prop :=
  match e with Find _ _ _ => steady (mirror_listing K) identity | _ => eq end.

(** A call of a pass is answered by its program, whatever pages it takes. *)
Definition wire_respond (X : Type) (h : state) (e : E X) (x : X) (h' : state) : Prop :=
  exists fuel, handled (handle Version parse_error request_error range K fuel) (io_step (others e)) X h e x h'.

Definition wire_step (X : Type) (h : state) (e : E X) (x : X) (h' : state) : Prop :=
  exists h1, http_drift K identity h h1 /\ wire_respond X h1 e x h'.

Inductive wire_reachable : state -> Prop :=
  | wire_reach_fresh h : http_fresh K identity h -> wire_reachable h
  | wire_reach_drift h h' : wire_reachable h -> http_drift K identity h h' -> wire_reachable h'
  | wire_reach_pass h p h' : wire_reachable h -> h_live h = true ->
      exec wire_step (Reconcile New rec ctx (h_stored h)) h p h' -> wire_reachable h'.
End System.
End Wire.
