(* ===== verification/WireSpec.v ===== *)
(** * The client keeps the promises of the API

    Through [Client.Exchange], a server that answers requests as its API documents
    is one that answers exchanges as HttpApi.v asks: a lost, cut, oversized or
    garbled answer is Unreachable, so worth a retry, and never taken for a
    refusal, a list or a not-found. *)

From S2P Require Import Prelude GoStd Json JsonText Libraries Errors Kube Core JsonBody JsonBodySpec Conditions Effects Interp Interfaces Reconciler Objects ObjectsSpec Adapters AdaptersSpec Protocol ProtocolSafety HttpApi HttpApiSpec HttpSystem HttpSystemSpec ProviderConfig Client ClientSpec Operator Wire.
From Stdlib Require Import String.

Local Open Scope string_scope.
Local Open Scope list_scope.

(** ** Responses *)

Lemma read_response_cases resp :
  match read_response resp with
  | Err e => ReasonForError e = ReasonUnreachable
  | Ok (status, None) => status = resp_StatusCode resp /\ resp_read_error resp = None /\ resp_body resp = ""
  | Ok (status, Some data) => status = resp_StatusCode resp /\ resp_read_error resp = None /\
      (decode_one (resp_body resp) = Some data \/ ~ (200 <= status < 300)%Z)
  end.
Proof.
  unfold read_response. assert (0 <= maxResponseBody)%Z as Hmax by (by unfold maxResponseBody).
  generalize dependent maxResponseBody. intros max Hmax. cbv zeta.
  destruct (resp_read_error resp); [by case_decide|]. case_decide as Hbig; [done|].
  rewrite length_take in Hbig. rewrite take_ge by lia. rewrite string_of_bytes_of.
  case_decide as Hnil.
  { split; [done|]. split; [done|]. destruct (resp_body resp); [done|]. cbn in Hnil. lia. }
  destruct (decode_one _) eqn:Hd; [by auto|]. case_decide; [done|]. by auto.
Qed.

(** What an exchange makes of an answer. *)
Definition outcome (x : result Response error) : result (Z * option string) error :=
  match x with
  | Err err => Err (EBase (Wrap err ReasonUnreachable "could not reach SigNoz"))
  | Ok resp => read_response resp
  end.

Lemma unreachable_retried e : ReasonForError e = ReasonUnreachable ->
  IsRetryable (Some e) = true /\ IsNotFound (Some e) = false.
Proof. intros He. unfold IsRetryable, IsNotFound. cbn. by rewrite He. Qed.

(** A failure is Unreachable, or the status of a response that was read. *)
Lemma outcome_fails x e : success (outcome x) = Err e ->
  ReasonForError e = ReasonUnreachable \/
  exists resp body b, x = Ok resp /\ NewFromHTTPResponse (resp_StatusCode resp) body = Some b /\ e = EBase b.
Proof.
  unfold success. destruct x as [resp|err]; cbn [outcome]; [|intros [= <-]; by left].
  pose proof (read_response_cases resp) as Hc. destruct (read_response resp) as [[status body]|e']; [|intros [= <-]; by left].
  destruct (NewFromHTTPResponse status body) as [b|] eqn:Hb; [|done]. intros [= <-]. right. exists resp, body, b.
  assert (status = resp_StatusCode resp) as <- by (destruct body; apply Hc). done.
Qed.

Lemma not_found_status status body b : NewFromHTTPResponse status body = Some b -> IsNotFound (Some (EBase b)) = true -> status = 404%Z.
Proof.
  intros Hb Hn%bool_decide_eq_true. change (base_reason b = ReasonNotFound) in Hn. revert Hb. unfold NewFromHTTPResponse.
  repeat case_decide; try done; intros [= <-]; done.
Qed.

Lemma outcome_not_found x : not_found (outcome x) -> exists resp, x = Ok resp /\ resp_StatusCode resp = 404%Z.
Proof.
  intros (e & He & Hn). destruct (outcome_fails _ _ He) as [Hu|(resp & body & b & -> & Hb & ->)].
  - by rewrite (proj2 (unreachable_retried e Hu)) in Hn.
  - exists resp. split; [done|]. by eapply not_found_status.
Qed.

(** A success is an accepted response, all of whose body arrived. *)
Lemma outcome_succeeds x body : success (outcome x) = Ok body -> exists resp, x = Ok resp /\ accepted resp /\
  resp_read_error resp = None /\
  match body with None => resp_body resp = "" | Some data => decode_one (resp_body resp) = Some data end.
Proof.
  intros (status & Ho & Hs)%success_Ok. destruct x as [resp|err]; [|done]. cbn [outcome] in Ho.
  pose proof (read_response_cases resp) as Hc. rewrite Ho in Hc. exists resp. split; [done|]. unfold accepted.
  destruct body as [data|]; destruct Hc as (-> & Hr & Hb); [|done]. split; [done|]. split; [done|]. by destruct Hb.
Qed.

Lemma outcome_refused x : (forall resp, x = Ok resp -> ~ accepted resp) -> is_ok (success (outcome x)) = false.
Proof.
  intros Hx. destruct (success (outcome x)) as [body|e] eqn:Hs; [|done].
  destruct (outcome_succeeds _ _ Hs) as (resp & -> & Ha & _). by destruct (Hx resp eq_refl).
Qed.

(** ** The promises *)

Section Promises.
Context `{GJL : GjsonLaws} `{CMP : GoCmp} `{JE : JsonErrors} `{CF : CaseFolding}.
Context `{NU : NetURL} `{XC : X509}.
Context {S : Type} `{SM : SpecMarshaler S}.
Context (Version : string) (parse_error : string -> error) (request_error : string -> string -> option error).
Context `{NS : !NetServer} (K : mirror (S := S) (SigNoz := client)).
Context {laws : NetServerLaws Version parse_error request_error K}.

Abbreviation wire := (over_the_wire Version parse_error request_error).

(** One exchange over the network: refused before it is sent, or one request. *)
Lemma exchange_cases ctx c method path body s x s' :
  wire _ s (Adapters.Exchange ctx c method path body) x s' ->
  (s' = s /\ exists e, x = Err e /\ ReasonForError e = ReasonInvalidInput) \/
  exists req y, asked Version parse_error request_error method path body (client_tls c) req /\
    net_server _ s (Do ctx (client_tls c) req) y s' /\ x = outcome y.
Proof.
  unfold over_the_wire, by_handler. cbn [exchange]. unfold Exchange. destruct (build_request _ _ _ _ _ _ _) as [req|e] eqn:Hb.
  - intros (y & s1 & Hy%exec_trigger_inv & [-> ->]%exec_ret_inv)%exec_bind_inv. right. exists req, y.
    split; [by exists c|]. split; [done|]. by destruct y.
  - intros [-> ->]%exec_ret_inv. left. split; [done|]. exists e. split; [done|].
    unfold build_request in Hb. destruct (url_Parse path); [|by simplify_eq].
    cbv zeta in Hb. by destruct (request_error _ _); simplify_eq.
Qed.

(** What was not sent is neither a success nor a not-found. *)
Lemma unsent_fails x : (exists e, x = Err e /\ ReasonForError e = ReasonInvalidInput) ->
  is_ok (success x) = false /\ ~ not_found x.
Proof.
  intros (e & -> & He). split; [done|]. intros (e' & [= <-] & Hn). unfold IsNotFound in Hn. cbn in Hn. by rewrite He in Hn.
Qed.

Lemma Forall2_same {A} (P : A -> A -> Prop) l : (forall a, P a a) -> Forall2 P l l.
Proof. intros HP. by apply Forall_Forall2_diag, Forall_forall. Qed.

Lemma client_keeps_promises : SigNozServerLaws (SV := wire) K.
Proof.
  split; unfold server.
  - intros X s [ctx c method path body] x s' [[-> _]|(req & y & _ & Hy & _)]%exchange_cases; [done|].
    by apply (net_listed _ _ _ K _ _ _ _ _ Hy).
  - intros s ctx c path x s' body [[_ Hx]|(req & y & Hask & Hy & ->)]%exchange_cases Hok.
    { apply unsent_fails in Hx as [Hx _]. by rewrite Hok in Hx. }
    destruct (outcome_succeeds _ _ Hok) as (resp & -> & Ha & Hr & Hb).
    destruct (net_list _ _ _ K _ _ _ _ _ _ _ Hy Hask Ha Hr) as [Hne Hdata]. destruct body as [data|]; [by apply Hdata|done].
  - intros s ctx c path x s' [[-> Hx]|(req & y & Hask & Hy & ->)]%exchange_cases.
    { split; [done|]. intros id _ Hn. by destruct (proj2 (unsent_fails _ Hx)). }
    destruct (net_get _ _ _ K _ _ _ _ _ _ _ Hy Hask) as [-> Hgone]. split; [done|].
    intros id Hp (resp & -> & H404)%outcome_not_found. by eapply Hgone.
  - intros s ctx c body x s' [[-> Hx]|(req & y & Hask & Hy & ->)]%exchange_cases.
    { left. split; [done|]. by apply unsent_fails. }
    destruct (net_create _ _ _ K _ _ _ _ _ _ _ Hy Hask) as [[-> Hno]|(v & Hp & Hm & Hans)].
    { left. split; [done|]. by apply outcome_refused. }
    right. exists v. split; [done|]. split; [done|]. destruct (success (outcome y)) as [answer|e] eqn:Hs.
    + destruct (outcome_succeeds _ _ Hs) as (resp & -> & Ha & Hr & Hb).
      destruct (Hans resp eq_refl) as [[_ Hsays]|[Hn _]]; [|done]. destruct (Hsays Hr) as [Hne Hdata].
      destruct answer as [data|]; [by apply Hdata|done].
    + destruct (outcome_fails _ _ Hs) as [Hu|(resp & b & base & -> & Hb & ->)]; [by apply unreachable_retried|].
      destruct (Hans resp eq_refl) as [[Ha _]|[_ Hst]].
      * apply (NewFromHTTPResponse_none _ b) in Ha. congruence.
      * unfold IsRetryable. cbn. apply not_false_iff_true. intros Hn%(http_reason_not_retryable _ _ _ Hb).
        apply Hst. set_solver.
  - intros s ctx c id payload x s' [[-> Hx]|(req & y & Hask & Hy & ->)]%exchange_cases; [by apply Forall2_same|].
    exact (net_update _ _ _ K _ _ _ _ _ _ _ _ Hy Hask).
  - intros s ctx c id x s' [[-> Hx]|(req & y & Hask & Hy & ->)]%exchange_cases.
    { right. apply unsent_fails in Hx as [Hf Hn]. by split; [|split]. }
    destruct (net_delete _ _ _ K _ _ _ _ _ _ _ Hy Hask) as [[-> Hst]|[-> Hst]]; [left|right].
    + split; [done|]. intros (resp & -> & H404)%outcome_not_found. by apply (Hst resp).
    + split; [done|]. split; [apply outcome_refused; intros resp ->; by apply Hst|].
      intros (resp & -> & H404)%outcome_not_found. by apply (Hst resp).
Qed.
End Promises.

(** ** The system *)

Section System.
Context `{GJL : GjsonLaws} `{CMP : GoCmp} `{JE : JsonErrors} `{CF : CaseFolding} `{AML : ApiMachineryLaws} `{SEL : SemanticEqualLaw CoreStatus}.
Context `{NU : NetURL} `{XC : X509}.
Context {S : Type} `{SM : SpecMarshaler S}.
Context (Version : string) (parse_error : string -> error) (request_error : string -> string -> option error).
Context (range : gset string -> list string).
Context `{NS : !NetServer}.

Abbreviation E := (call (ObjectTemplate S) client ResolvedProviderConfigSpec).
Abbreviation wire := (over_the_wire Version parse_error request_error).

Section Kind.
Context (K : mirror (S := S) (SigNoz := client)) (rec : commonReconciler) (identity : string).

#[local] Instance there : ResourceObject (ObjectTemplate S) := HttpSystem.kind K.
Abbreviation state := (http_world (S := S)).
Abbreviation steps := (io_step K identity).

Lemma same_object_trans (h h1 h2 : state) : same_object h h1 -> same_object h1 h2 -> same_object h h2.
Proof. unfold same_object. intros (-> & -> & ->). done. Qed.

(** Programs of requests leave the object alone and run against the server. *)
Definition crowded (G : list value -> list value -> Prop) (X : Type) (s : list value) (e : net X) (x : X) (s' : list value) : Prop :=
  exists s1, G s s1 /\ net_server X s1 e x s'.

Lemma sends_run G {R} (q : prog net R) (h : state) r h' :
  exec (steps G) (lift (fun X e => Send e) q) h (Ret r) h' ->
  same_object h h' /\ exec (crowded G) q (h_entries h) (Ret r) (h_entries h').
Proof.
  revert h. induction q as [r'|X e k IH]; intros h; cbn.
  - intros [[[= ->] ->]|[]]. split; [done|by left].
  - intros [[? _]|(x & h1 & [Hs Hx] & Hex)]; [done|]. apply IH in Hex as [Hs' Hex].
    split; [by eapply same_object_trans|]. right. by exists x, (h_entries h1).
Qed.

Lemma send_lifts X (e : http client X) :
  send (S := S) Version parse_error request_error X e = lift (fun X e => Send e) (exchange Version parse_error request_error X e).
Proof. by destruct e. Qed.

(** An exchange is one request at most, so what others did came before it. *)
Lemma exchange_crowded G X (e : http client X) s x s' : (forall s, G s s) ->
  exec (crowded G) (exchange Version parse_error request_error X e) s (Ret x) s' -> busy (SV := wire) G X s e x s'.
Proof.
  intros HG. destruct e as [ctx c method path body]. unfold busy, HttpApi.server, over_the_wire, by_handler. cbn [exchange]. unfold Client.Exchange.
  destruct (build_request _ _ _ _ _ _ _) as [req|err]; [|intros [-> ->]%exec_ret_inv; exists s; split; [done|by left]].
  intros (y & s1 & (s2 & H2 & Hy)%exec_trigger_inv & [-> ->]%exec_ret_inv)%exec_bind_inv.
  exists s2. split; [done|]. eapply exec_step; [exact Hy|apply exec_refl].
Qed.

Lemma adapter_run G {R} (p : prog (http client) R) (h : state) r h' : (forall s, G s s) ->
  exec (steps G) (through (send Version parse_error request_error) p) h (Ret r) h' ->
  same_object h h' /\ exec (busy (SV := wire) G) p (h_entries h) (Ret r) (h_entries h').
Proof.
  intros HG Hex%through_exec. revert h Hex. induction p as [r'|X e k IH]; intros h; cbn.
  - intros [[[= ->] ->]|[]]. split; [done|by left].
  - intros [[? _]|(x & h1 & Hx & Hex)]; [done|]. unfold by_handler in Hx. rewrite send_lifts in Hx.
    apply sends_run in Hx as [Hs Hx%exchange_crowded]; [|done]. apply IH in Hex as [Hs' Hex].
    split; [by eapply same_object_trans|]. right. by exists x, (h_entries h1).
Qed.

Lemma adapter_run_alone {R} (p : prog (http client) R) (h : state) r h' :
  exec (steps eq) (through (send Version parse_error request_error) p) h (Ret r) h' ->
  same_object h h' /\ exec wire p (h_entries h) (Ret r) (h_entries h').
Proof.
  intros [Hs Hex]%adapter_run; [|done]. split; [done|].
  refine (exec_simulate (fun s => s) _ _ _ _ _ _ _ Hex). by intros X s1 e x s2 (s3 & <- & Hx).
Qed.

Lemma answered_run G {X} (p : prog (io (S := S)) X) (h : state) x h' :
  exec (steps G) (answered p) h (Ret (Some x)) h' -> exec (steps G) p h (Ret x) h'.
Proof. by intros (y & h1 & Hex & [[[= ->] ->]|[]])%exec_bind_inv. Qed.

Lemma reads_run G {R} (p : prog config_call R) (h : state) q h' :
  exec (steps G) (lift (fun X e => ReadConfig e) p) h q h' -> h' = h.
Proof.
  revert h. induction p as [r'|X e k IH]; intros h; cbn; [by intros [[_ ->]|[]]|].
  by intros [[_ ->]|(x & h1 & -> & Hex%IH)].
Qed.

(** A call answered by its program is answered as in HttpSystem.v. *)
Lemma wire_respond_http X (h : state) (e : E X) x h' :
  wire_respond Version parse_error request_error range K identity X h e x h' ->
  busy_respond (SV := wire) K identity X h e x h'.
Proof.
  intros (fuel & Hx). unfold handled in Hx. destruct e; cbn [handle busy_respond http_respond others] in *.
  - by apply answered_run, exec_trigger_inv in Hx.
  - by apply answered_run, exec_trigger_inv in Hx.
  - by apply answered_run, exec_trigger_inv in Hx.
  - apply answered_run, exec_trigger_inv in Hx. cbn in Hx. by subst h'.
  - apply answered_run, reads_run in Hx. by subst h'.
  - apply adapter_run in Hx as [Hs Hx]; [|done]. split; [done|]. by exists fuel.
  - by apply answered_run, adapter_run_alone in Hx.
  - by apply answered_run, adapter_run_alone in Hx.
  - by apply answered_run, adapter_run_alone in Hx.
  - by apply answered_run, adapter_run_alone in Hx.
Qed.

Lemma wire_reachable_http ctx h :
  wire_reachable Version parse_error request_error range K rec ctx identity h ->
  http_reachable (SV := wire) K New rec ctx identity h.
Proof.
  induction 1 as [h Hf|h h' _ IH Hd|h p h' _ IH Hl Hex].
  - by apply http_reach_fresh.
  - by eapply http_reach_drift.
  - eapply http_reach_pass; [exact IH|exact Hl|].
    refine (exec_simulate (fun h => h) _ _ _ _ _ _ _ Hex). intros X h1 e x h2 (h3 & Hd & Hr). exists h3. split; [done|]. by apply wire_respond_http.
Qed.
End Kind.

(** C8. The operator down to its requests.  For each of the ten kinds, with the
    adapters' programs, the client and the resolution of its config run to their
    last request and read, against any server that answers requests as its API
    documents while the network loses, cuts, garbles or oversizes the answers: the
    same is true as over HTTP.  The state is one the system of Protocol.v reaches,
    and SigNoz lists at most one entry of the identity, accounted for by the
    object. *)
Theorem wire_operator_is_the_system rec identity : Forall (fun K : mirror (S := S) (SigNoz := client) =>
  NetServerLaws Version parse_error request_error K ->
  forall ctx h, wire_reachable Version parse_error request_error range K rec ctx identity h ->
  reachable (RO := HttpSystem.kind K) New rec ctx identity (abstract K identity h) /\
  one_entry_accounted_for identity K h) mirrors.
Proof.
  eapply Forall_impl; [exact (mirrors_well_mirrored (SV := wire))|]. intros K HK laws ctx h Hh.
  apply (http_reachable_accounted (SV := wire)); [done|by apply client_keeps_promises|by apply wire_reachable_http in Hh].
Qed.
End System.
