(* ===== verification/WireWitness.v ===== *)
(** * The system down to requests, at a server that evaluates

    The server of auth domains of HttpWitness.v behind the network, at one address;
    it leaves what it does not serve unanswered. *)

From S2P Require Import Prelude GoStd Json Libraries Errors Kube Core JsonBody JsonBodySpec Conditions Effects Interp Interfaces Reconciler ReconcilerOutcome Objects ObjectsSpec Adapters AdaptersSpec Fixture LibraryWitness Protocol HttpApi HttpApiSpec HttpSystem HttpSystemSpec HttpWitness ProviderConfig ProviderConfigSpec Client ClientSpec ConfigWitness Operator OperatorSpec Wire WireSpec OperatorWitness.
From Stdlib Require Import String.

Local Open Scope string_scope.
Local Open Scope list_scope.

Abbreviation lost := (Err (errorString "no answer")).

(** An answer on the wire; only a JSON body of one value without space around it is
    sent. *)
Definition on_the_wire (a : answer) : result Response error :=
  match a with
  | Ok (status, Some raw) => if bool_decide (decode_one raw = Some raw) && negb (bool_decide (raw = "")) then Ok (MkResponse status raw None) else lost
  | Ok (status, None) => Ok (MkResponse status "" None)
  | Err e => lost
  end.

Definition serve_request (s : list value) (req : Request) : result Response error * list value :=
  if decide (req_url req = ("signoz.example" ++ cp)%string) then
    if decide (req_method req = "GET") then (on_the_wire (list_domains s), s)
    else if decide (req_method req = "POST") then
      match req_body req with Some b => let '(a, s') := add_domain s b in (on_the_wire a, s') | None => (lost, s) end
    else (lost, s)
  else (lost, s).

#[export] Instance net_domains : NetServer := fun X s e =>
  match e in net X return X -> list value -> Prop with Do _ _ req => fun x s' => serve_request s req = (x, s') end.

Lemma on_the_wire_status a resp : on_the_wire a = Ok resp -> exists body, a = Ok (resp_StatusCode resp, body).
Proof.
  unfold on_the_wire. destruct a as [[status [raw|]]|]; [destruct (_ && _)| |]; intros [= <-]; by eexists.
Qed.

Lemma on_the_wire_says status raw resp (P : string -> Prop) : on_the_wire (Ok (status, Some raw)) = Ok resp -> P raw -> says resp P.
Proof.
  unfold on_the_wire. destruct (_ && _) eqn:Hd; [|done]. intros [= <-] HP _. apply andb_true_iff in Hd as [Hd%bool_decide_eq_true Hn].
  cbn [resp_body]. split; [by apply negb_true_iff, bool_decide_eq_false in Hn|]. intros data Hdata. congruence.
Qed.

Lemma serve_get s req x s' : serve_request s req = (x, s') -> req_method req = "GET" ->
  s' = s /\ (x = lost \/ x = on_the_wire (list_domains s)).
Proof.
  unfold serve_request. intros Hx Hm. rewrite Hm in Hx. destruct (decide (req_url req = _)); injection Hx as <- <-; auto.
Qed.

Lemma serve_other s req x s' : serve_request s req = (x, s') -> req_method req <> "GET" -> req_method req <> "POST" -> x = lost /\ s' = s.
Proof.
  unfold serve_request. intros Hx Hg Hp. destruct (decide (req_url req = _)); [|by simplify_eq].
  rewrite !decide_False in Hx by done. by simplify_eq.
Qed.

Lemma serve_post s req body x s' : serve_request s req = (x, s') -> req_method req = "POST" -> req_body req = Some body ->
  x = lost /\ s' = s \/ exists a, add_domain s body = (a, s') /\ x = on_the_wire a.
Proof.
  unfold serve_request. intros Hx Hm Hb. rewrite Hm, Hb in Hx. destruct (decide (req_url req = _)); [|left; by simplify_eq].
  rewrite decide_False, decide_True in Hx by done. destruct (add_domain s body) as [a s1] eqn:Ha. simplify_eq. right. by exists a.
Qed.

Lemma list_domains_status s status body : list_domains s = Ok (status, body) -> status = 200%Z /\ exists raw, body = Some raw /\ list_response raw s.
Proof.
  intros Hl. assert (status = 200%Z) as ->.
  { unfold list_domains in Hl. destruct (Marshal _); [|done]. by destruct (_ && _); simplify_eq. }
  split; [done|]. apply (list_domains_lists s body). by rewrite Hl.
Qed.

Abbreviation made := (asked "1.0" no_parse_error no_request_error).

Lemma made_fields method path body tls req : made method path body tls req -> req_method req = method /\ req_body req = body.
Proof. intros (c & _ & Hb). by eapply built_fields. Qed.

#[export] Instance net_domains_laws : NetServerLaws "1.0" no_parse_error no_request_error client_domains.
Proof.
  split; unfold net_server, net_domains; cbn [mirror_path mirror_listing mirror_identity client_domains].
  - intros X s [ctx tls req] x s' Hx. destruct (decide (req_method req = "POST")) as [Hm|Hm].
    + destruct (req_body req) as [b|] eqn:Hb.
      * destruct (serve_post _ _ _ _ _ Hx Hm Hb) as [[_ ->]|(a & Ha & _)]; [done|by eapply add_domain_listed].
      * unfold serve_request in Hx. rewrite Hm, Hb in Hx. by repeat case_decide; simplify_eq.
    + destruct (decide (req_method req = "GET")) as [Hg|Hg]; [by destruct (serve_get _ _ _ _ Hx Hg) as [-> _]|].
      by destruct (serve_other _ _ _ _ Hx Hg Hm) as [_ ->].
  - intros s ctx tls req path resp s' Hx [Hm _]%made_fields Ha. destruct (serve_get _ _ _ _ Hx Hm) as [-> [?|Hr]]; [done|].
    symmetry in Hr. destruct (on_the_wire_status _ _ Hr) as [body Hl]. destruct (list_domains_status _ _ _ Hl) as (_ & raw & -> & Hraw).
    rewrite Hl in Hr. eapply on_the_wire_says; [exact Hr|]. intros _. by exists raw.
  - intros s ctx tls req path x s' Hx [Hm _]%made_fields. destruct (serve_get _ _ _ _ Hx Hm) as [-> Hr]. split; [done|].
    intros id resp _ -> H404. destruct Hr as [?|Hr]; [done|]. symmetry in Hr. destruct (on_the_wire_status _ _ Hr) as [body Hl].
    destruct (list_domains_status _ _ _ Hl) as [? _]. congruence.
  - intros s ctx tls req body x s' Hx [Hm Hb]%made_fields. destruct (serve_post _ _ _ _ _ Hx Hm Hb) as [[-> ->]|(a & Ha & ->)]; [by left|].
    destruct (add_domain_adds _ _ _ _ Ha) as [[-> Hno]|(id & name & raw & Hn & -> & Hid & _ & _ & -> & _)]; [left|right].
    + split; [done|]. intros resp Hr Hacc. destruct (on_the_wire_status _ _ Hr) as [b ->].
      unfold success in Hno. apply (NewFromHTTPResponse_none _ b) in Hacc. by rewrite Hacc in Hno.
    + exists (JObj [("id", JStr id); ("name", JStr name)]). split; [done|]. split.
      { intros identity Hi. rewrite Hn in Hi. injection Hi as <-. by apply bool_decide_eq_true. }
      intros resp Hr. left. destruct (on_the_wire_status _ _ Hr) as [b [= Hst _]]. split; [unfold accepted; by rewrite <- Hst|].
      eapply on_the_wire_says; [exact Hr|]. exact Hid.
  - intros s ctx tls req id payload x s' Hx [Hm _]%made_fields. destruct (serve_other _ _ _ _ Hx) as [_ ->]; [by rewrite Hm..|].
    by apply Forall2_same.
  - intros s ctx tls req id x s' Hx [Hm _]%made_fields. destruct (serve_other _ _ _ _ Hx) as [-> ->]; [by rewrite Hm..|].
    right. by split.
Qed.

(** ** A pass that crashes after the POST *)

Abbreviation wire_state := (http_world (S := string)).
Abbreviation io_answers := (io_step client_domains "x").
Abbreviation Wire_domains := (wire_reachable "1.0" no_parse_error no_request_error range client_domains Fixture.operator background "x").

(** What the server lists at the start. *)
Definition listed_other : string := default "" (Marshal (JObj [("data", JArr [other])])).

Lemma start_lookup ctx : handled handler (io_answers (steady (mirror_listing client_domains) "x")) _ start
  (Find ctx (New resolved) new_domain : call _ _ ResolvedProviderConfigSpec _) (Ok []) start.
Proof.
  apply (lookup_run (io_answers _) ctx listed_other); [split; vm_compute; done|vm_compute; reflexivity|vm_compute; reflexivity|].
  split; [done|]. exists [other]. split; [reflexivity|]. vm_compute. reflexivity.
Qed.

Definition domain_created : string := json_of "{'data':{'id':'d1'}}".

Lemma announced_create ctx : handled handler (io_answers eq) _ announcing
  (Create ctx (New resolved) announced : call _ _ ResolvedProviderConfigSpec _) (Ok (named_by "d1")) crashed.
Proof.
  assert (Body (ResourceObject := AuthDomainObject) announced = Ok desired) as Hb by (vm_compute; reflexivity).
  unfold handled. cbn [handle]. eapply exec_bind; [|apply exec_refl]. apply through_exec.
  unfold commonTransport_Create. change (Body announced) with (Body (ResourceObject := AuthDomainObject) announced). rewrite Hb.
  change (CreateMethodAndPath (ResourceObject := kind client_domains)) with ("POST", cp).
  eapply exec_bind; [eapply (exec_step _ _ _ (Ok (201%Z, Some domain_created)) _ crashed); [|apply exec_refl]|].
  - apply (exchange_run (io_answers eq) _ _ _ _ _ domain_created); [discriminate|split; vm_compute; done|vm_compute; reflexivity|].
    split; [done|]. exists [other]. split; [reflexivity|]. vm_compute. reflexivity.
  - left. split; [vm_compute; reflexivity|done].
Qed.

Lemma crash_reached_on_the_wire : exists p, exec (wire_step "1.0" no_parse_error no_request_error range client_domains "x")
  (Reconcile (RO := HttpSystem.kind client_domains) New Fixture.operator background new_domain) start p crashed.
Proof.
  destruct (resolve_run (io_answers eq) (fun X w e => w) (pass_context Fixture.operator background new_domain) start) as [h Hres]; [done|].
  assert (h = start) as -> by (by apply answered_run, reads_run in Hres).
  eexists.
  eapply (exec_step _ _ _ (Ok resolved) _ start). { exists start. split; [exact start_stays|]. by exists 1. }
  eapply (exec_step _ _ _ (Ok []) _ start). { exists start. split; [exact start_stays|]. exists 1. apply start_lookup. }
  eapply (exec_step _ _ _ 0%Z _ start).
  { exists start. split; [exact start_stays|]. exists 1. eapply exec_bind; [eapply (exec_step _ _ _ 0%Z); [done|apply exec_refl]|apply exec_refl]. }
  eapply (exec_step _ _ _ (Ok announced) _ announcing).
  { exists start. split; [exact start_stays|]. exists 1.
    eapply exec_bind; [eapply (exec_step _ _ _ (Ok announced)); [|apply exec_refl]|apply exec_refl].
    split; [|reflexivity]. by apply patch_announces. }
  eapply (exec_step _ _ _ (Ok (named_by "d1")) _ crashed).
  { exists announcing. split; [exact announcing_stays|]. exists 1. apply announced_create. }
  apply exec_refl.
Qed.

Lemma wire_operator_is_the_system_witness :
  Wire_domains crashed /\ my_ids (Collection "name") "x" (h_entries crashed) = ["d1"] /\
  (id_of (h_stored crashed) = Ok "d1" \/ is_ok (id_of (h_stored crashed)) = false /\ attempted (h_stored crashed)).
Proof.
  destruct crash_reached_on_the_wire as (p & Hex).
  assert (Wire_domains crashed) as Hr.
  { eapply (wire_reach_pass _ _ _ _ _ _ _ _ start); [|reflexivity|exact Hex]. apply wire_reach_fresh. split; [|exact start_sound].
    split; [reflexivity|]. split; [reflexivity|]. split; [reflexivity|]. split; [reflexivity|]. vm_compute. reflexivity. }
  split; [exact Hr|]. split; [vm_compute; reflexivity|].
  assert (created ∈ h_entries crashed) as Hin by left.
  destruct (proj1 (Forall_forall _ _) (wire_operator_is_the_system "1.0" no_parse_error no_request_error range Fixture.operator "x")
    client_domains client_domains_mirrored net_domains_laws background crashed Hr) as (_ & _ & Hall).
  destruct (Hall created Hin) as [Hnamed _]; [vm_compute; reflexivity|]. exact (Hnamed eq_refl).
Defined.
