(* ===== verification/GoTypes.v ===== *)
(** * Go's types, values in memory, and copies of them

    The struct types of the API are data here, as they are for encoding/json and
    for the generator of the deep copies, which work from the types by reflection.
    A value refers to memory through pointers, slices and maps; [denotes] reads
    it as a tree.  A copier makes the value of [*out] from the value of [*in]. *)

From S2P Require Import Prelude GoStd Json.
From Stdlib Require Import String SpecFloat.

Local Open Scope string_scope.

(** ** Types *)

(** The options of a field's json tag. *)
Inductive tag_option := Always | OmitEmpty | OmitZero | Inline.

#[export] Instance tag_option_eq_dec : EqDecision tag_option.
Proof. solve_decision. Defined.

Record tag := MkTag { go_name : string; json_name : string; option_of : tag_option }.

(** [TNamed] is a struct type of a package outside the repository, with what its
    values are made of. *)
Inductive ty :=
  | TBool
  | TString
  | TInt64
  | TFloat64
  | TPtr (t : ty)
  | TSlice (t : ty)
  | TMap (t : ty)
  | TStruct (fs : list (tag * ty))
  | TNamed (name : string) (t : ty).

Definition field (go json : string) (o : tag_option) (t : ty) : tag * ty := (MkTag go json o, t).

Section ty_ind.
Context (P : ty -> Prop) (Hbool : P TBool) (Hstring : P TString) (Hint : P TInt64) (Hfloat : P TFloat64)
  (Hptr : forall t, P t -> P (TPtr t)) (Hslice : forall t, P t -> P (TSlice t)) (Hmap : forall t, P t -> P (TMap t))
  (Hstruct : forall fs, Forall (fun f => P f.2) fs -> P (TStruct fs)) (Hnamed : forall n t, P t -> P (TNamed n t)).

Fixpoint ty_ind' (t : ty) : P t :=
  match t with
  | TBool => Hbool
  | TString => Hstring
  | TInt64 => Hint
  | TFloat64 => Hfloat
  | TPtr t => Hptr t (ty_ind' t)
  | TSlice t => Hslice t (ty_ind' t)
  | TMap t => Hmap t (ty_ind' t)
  | TStruct fs =>
      Hstruct fs ((fix go fs := match fs return Forall (fun f => P f.2) fs with
                                | [] => Forall_nil_2 _
                                | f :: fs' => Forall_cons_2 _ f fs' (ty_ind' f.2) (go fs')
                                end) fs)
  | TNamed n t => Hnamed n t (ty_ind' t)
  end.
End ty_ind.

(** ** Values and memory *)

Inductive scalar :=
  | SBool (b : bool)
  | SString (s : string)
  | SInt (z : Z)
  | SFloat (f : float64).

#[export] Instance scalar_eq_dec : EqDecision scalar.
Proof. solve_decision. Defined.

Abbreviation loc := positive.

(** A slice is a piece of an array: where it starts, and its length. *)
Inductive gv :=
  | VScalar (s : scalar)
  | VPtr (l : option loc)
  | VSlice (a : option (loc * nat * nat))
  | VMap (l : option loc)
  | VStruct (fs : list (string * gv)).

Inductive cell :=
  | CVar (v : gv)
  | CArray (vs : list gv)
  | CMap (m : gmap string gv).

Abbreviation heap := (gmap loc cell).

(** What a value means once its references are followed. *)
Inductive tree :=
  | XScalar (s : scalar)
  | XNil
  | XPtr (x : tree)
  | XSlice (xs : list tree)
  | XMap (m : gmap string tree)
  | XStruct (fs : list (string * tree)).

Definition in_int64 (z : Z) : bool := bool_decide (- 2 ^ 63 <= z < 2 ^ 63)%Z.

Definition scalar_fits (t : ty) (s : scalar) : bool :=
  match t, s with
  | TBool, SBool _ | TString, SString _ | TFloat64, SFloat _ => true
  | TInt64, SInt z => in_int64 z
  | _, _ => false
  end.

(** [denotes t h L v x]: in memory [h] the value [v] of type [t] means [x], and
    following it stays within the locations [L]. *)
Fixpoint denotes (t : ty) (h : heap) (L : gset loc) (v : gv) (x : tree) {struct t} : Prop :=
  match t with
  | TBool | TString | TInt64 | TFloat64 => exists s, v = VScalar s /\ x = XScalar s /\ scalar_fits t s = true
  | TPtr t =>
      match v, x with
      | VPtr None, XNil => True
      | VPtr (Some l), XPtr x => l ∈ L /\ exists v, h !! l = Some (CVar v) /\ denotes t h L v x
      | _, _ => False
      end
  | TSlice t =>
      match v, x with
      | VSlice None, XNil => True
      | VSlice (Some (l, from, len)), XSlice xs =>
          l ∈ L /\ exists vs, h !! l = Some (CArray vs) /\ (from + len <= List.length vs)%nat /\
            Forall2 (denotes t h L) (take len (drop from vs)) xs
      | _, _ => False
      end
  | TMap t =>
      match v, x with
      | VMap None, XNil => True
      | VMap (Some l), XMap xs => l ∈ L /\ exists m, h !! l = Some (CMap m) /\ map_Forall2 (fun _ => denotes t h L) m xs
      | _, _ => False
      end
  | TStruct fs =>
      match v, x with
      | VStruct vs, XStruct xs =>
          (fix go (fs : list (tag * ty)) vs xs :=
             match fs, vs, xs with
             | [], [], [] => True
             | (f, t) :: fs, (n, v) :: vs, (n', x) :: xs =>
                 n = go_name f /\ n' = go_name f /\ denotes t h L v x /\ go fs vs xs
             | _, _, _ => False
             end) fs vs xs
      | _, _ => False
      end
  | TNamed _ t => denotes t h L v x
  end.

(** The struct's part of it. *)
Fixpoint denotes_fields (fs : list (tag * ty)) (h : heap) (L : gset loc)
    (vs : list (string * gv)) (xs : list (string * tree)) : Prop :=
  match fs, vs, xs with
  | [], [], [] => True
  | (f, t) :: fs, (n, v) :: vs, (n', x) :: xs =>
      n = go_name f /\ n' = go_name f /\ denotes t h L v x /\ denotes_fields fs h L vs xs
  | _, _, _ => False
  end.

Lemma denotes_struct fs h L v x :
  denotes (TStruct fs) h L v x <->
  exists vs xs, v = VStruct vs /\ x = XStruct xs /\ denotes_fields fs h L vs xs.
Proof.
  split.
  - intros Hd. destruct v as [| | | |vs], x as [| | | | |xs]; try done.
    exists vs, xs. split; [done|]. split; [done|]. cbn in Hd. revert vs xs Hd.
    induction fs as [|[f t] fs IH]; intros [|[n v] vs] [|[n' x] xs]; cbn; try done. naive_solver.
  - intros (vs & xs & -> & -> & Hd). cbn. revert vs xs Hd.
    induction fs as [|[f t] fs IH]; intros [|[n v] vs] [|[n' x] xs]; cbn; try done. naive_solver.
Qed.

(** A tree is one of the type's. *)
Fixpoint has_type (t : ty) (x : tree) {struct t} : Prop :=
  match t with
  | TBool | TString | TInt64 | TFloat64 => match x with XScalar s => scalar_fits t s = true | _ => False end
  | TPtr t => match x with XNil => True | XPtr x => has_type t x | _ => False end
  | TSlice t => match x with XNil => True | XSlice xs => Forall (has_type t) xs | _ => False end
  | TMap t => match x with XNil => True | XMap m => map_Forall (fun _ => has_type t) m | _ => False end
  | TStruct fs =>
      match x with
      | XStruct xs =>
          (fix go (fs : list (tag * ty)) xs :=
             match fs, xs with
             | [], [] => True
             | (f, t) :: fs, (n, x) :: xs => n = go_name f /\ has_type t x /\ go fs xs
             | _, _ => False
             end) fs xs
      | _ => False
      end
  | TNamed _ t => has_type t x
  end.

Fixpoint fields_have_type (fs : list (tag * ty)) (xs : list (string * tree)) : Prop :=
  match fs, xs with
  | [], [] => True
  | (f, t) :: fs, (n, x) :: xs => n = go_name f /\ has_type t x /\ fields_have_type fs xs
  | _, _ => False
  end.

Lemma struct_has_type fs xs : has_type (TStruct fs) (XStruct xs) <-> fields_have_type fs xs.
Proof. done. Qed.

(** Memory of the right shape holds trees of the type. *)
Lemma denotes_has_type t h L v x : denotes t h L v x -> has_type t x.
Proof.
  revert v x. induction t as [| | | |t IH|t IH|t IH|fs IH|n t IH] using ty_ind'; intros v x.
  - by intros (s & -> & -> & ?).
  - by intros (s & -> & -> & ?).
  - by intros (s & -> & -> & ?).
  - by intros (s & -> & -> & ?).
  - destruct v as [|[l|]| | |], x; try done. cbn. intros (_ & v & _ & Hd). by eapply IH.
  - destruct v as [| |[[[l from] len]|]| |], x; try done. cbn. intros (_ & vs & _ & _ & Hd).
    eapply Forall2_Forall_r; [exact Hd|]. apply Forall_true. intros v y. by eapply IH.
  - destruct v as [| | |[l|]|], x as [| | | |m|]; try done. cbn. intros (_ & mv & _ & Hd) k y Hy.
    specialize (Hd k). rewrite Hy in Hd. inversion Hd. by eapply IH.
  - intros (vs & xs & -> & -> & Hd)%denotes_struct. apply struct_has_type. revert vs xs Hd.
    induction IH as [|[f t] fs Ht _ IHfs]; intros [|[n v] vs] [|[n' x] xs]; cbn; try done.
    intros (-> & -> & Hd & Hrest). split; [done|]. split; [by eapply Ht|by eapply IHfs].
  - apply IH.
Qed.

(** What a value means depends on the memory it reaches alone. *)
Definition agree_on (L : gset loc) (h h' : heap) : Prop := forall l, l ∈ L -> h !! l = h' !! l.

Lemma denotes_agree t h h' L L' v x : agree_on L h h' -> L ⊆ L' -> denotes t h L v x -> denotes t h' L' v x.
Proof.
  intros Ha HL. revert v x. induction t as [| | | |t IH|t IH|t IH|fs IH|n t IH] using ty_ind'; intros v x; try done.
  - destruct v as [|[l|]| | |], x; try done. cbn. intros (Hl & v & Hv & Hd). split; [set_solver|].
    exists v. rewrite <- Ha by done. auto.
  - destruct v as [| |[[[l from] len]|]| |], x; try done. cbn. intros (Hl & vs & Hvs & Hlen & Hd). split; [set_solver|].
    exists vs. rewrite <- Ha by done. split; [done|]. split; [done|]. eapply Forall2_impl; [exact Hd|]. auto.
  - destruct v as [| | |[l|]|], x; try done. cbn. intros (Hl & mv & Hmv & Hd). split; [set_solver|].
    exists mv. rewrite <- Ha by done. split; [done|]. eapply map_Forall2_impl; [exact Hd|]. auto.
  - rewrite !denotes_struct. intros (vs & xs & -> & -> & Hd). exists vs, xs. split; [done|]. split; [done|].
    revert vs xs Hd. induction IH as [|[f t] fs Ht _ IHfs]; intros [|[n v] vs] [|[n' x] xs]; cbn; try done.
    intros (-> & -> & Hd & Hrest). cbn in Ht. auto.
  - apply IH.
Qed.

(** Plain data: no references. *)
Fixpoint flat (t : ty) : bool :=
  match t with
  | TBool | TString | TInt64 | TFloat64 => true
  | TPtr _ | TSlice _ | TMap _ => false
  | TStruct fs => forallb (fun f => flat f.2) fs
  | TNamed _ t => flat t
  end.

Lemma denotes_flat t h h' L L' v x : flat t = true -> denotes t h L v x -> denotes t h' L' v x.
Proof.
  revert v x. induction t as [| | | |t IH|t IH|t IH|fs IH|n t IH] using ty_ind'; intros v x; cbn [flat]; try done.
  - rewrite !denotes_struct. intros Hf (vs & xs & -> & -> & Hd). exists vs, xs. split; [done|]. split; [done|].
    revert Hf vs xs Hd. induction IH as [|[f t] fs Ht _ IHfs]; intros Hf [|[n v] vs] [|[n' x] xs]; cbn; try done.
    cbn in Hf, Ht. apply andb_true_iff in Hf as [Hf1 Hf2]. intros (-> & -> & Hd & Hrest). auto.
  - apply IH.
Qed.

(** ** Computations on the memory *)

(** [None] is a panic: a nil pointer followed, or an index out of range. *)
Definition M (A : Type) : Type := heap -> option (A * heap).

#[export] Instance M_ret : MRet M := fun A a h => Some (a, h).
#[export] Instance M_bind : MBind M := fun A B k m h =>
  match m h with Some (a, h') => k a h' | None => None end.

Definition new_cell (c : cell) : M loc := fun h => let l := base.fresh (dom h) in Some (l, <[l := c]> h).
Definition load (l : loc) : M cell := fun h => match h !! l with Some c => Some (c, h) | None => None end.
Definition panic {A} : M A := fun _ => None.

Lemma bind_Some {A B} (m : M A) (k : A -> M B) h a h' : m h = Some (a, h') -> (m ≫= k) h = k a h'.
Proof. unfold mbind, M_bind. by intros ->. Qed.

Lemma load_Some l h c : h !! l = Some c -> load l h = Some (c, h).
Proof. unfold load. by intros ->. Qed.

(** Three computations that succeed, one after the other. *)
Tactic Notation "runs" constr(H1) constr(H2) constr(H3) :=
  rewrite (bind_Some _ _ _ _ _ H1); cbn match; rewrite (bind_Some _ _ _ _ _ H2), (bind_Some _ _ _ _ _ H3).

Fixpoint each {A B} (f : A -> M B) (l : list A) : M (list B) :=
  match l with
  | [] => mret []
  | a :: l => b ← f a; bs ← each f l; mret (b :: bs)
  end.

(** ** Copiers *)

(** What a copy puts into [*out], given [*in].  The functions that use it are
    called with an [out] of their own, so what [in] refers to stays as it is. *)
Definition copier : Type := gv -> M gv.

(** [*out = *in]. *)
Definition assigned : copier := fun v => mret v.

(** [if *in != nil { *out = new(T); copy **in to **out }]. *)
Definition new_pointer (c : copier) : copier := fun v =>
  match v with
  | VPtr None => mret v
  | VPtr (Some l) =>
      x ← load l;
      match x with
      | CVar v => v' ← c v; l' ← new_cell (CVar v'); mret (VPtr (Some l'))
      | _ => panic
      end
  | _ => panic
  end.

(** [if *in != nil { *out = make([]T, len( *in)); for i { copy ( *in)[i] to ( *out)[i] } }]. *)
Definition new_slice (c : copier) : copier := fun v =>
  match v with
  | VSlice None => mret v
  | VSlice (Some (l, from, len)) =>
      x ← load l;
      match x with
      | CArray vs =>
          vs' ← each c (take len (drop from vs));
          l' ← new_cell (CArray vs');
          mret (VSlice (Some (l', 0, List.length vs')))
      | _ => panic
      end
  | _ => panic
  end.

(** [if *in != nil { *out = make(map[K]T); for key, val := range *in { copy val to ( *out)[key] } }].
    The order of the range does not show in the map that is made. *)
Definition new_map (c : copier) : copier := fun v =>
  match v with
  | VMap None => mret v
  | VMap (Some l) =>
      x ← load l;
      match x with
      | CMap m =>
          kvs ← each (fun kv => v' ← c kv.2; mret (kv.1, v')) (map_to_list m);
          l' ← new_cell (CMap (list_to_map kvs));
          mret (VMap (Some l'))
      | _ => panic
      end
  | _ => panic
  end.

Fixpoint find_copier (n : string) (cs : list (string * copier)) : copier :=
  match cs with
  | [] => assigned
  | (n', c) :: cs => if String.eqb n n' then c else find_copier n cs
  end.

(** [*out = *in], then a statement for each field of the list. *)
Definition copy_fields (cs : list (string * copier)) : copier := fun v =>
  match v with
  | VStruct vs => vs' ← each (fun nv => v' ← find_copier nv.1 cs nv.2; mret (nv.1, v')) vs; mret (VStruct vs')
  | _ => panic
  end.

(** The method [DeepCopy] of a type whose [DeepCopyInto] is [into]:
    [if in == nil { return nil }; out := new(T); in.DeepCopyInto(out); return out]. *)
Definition DeepCopy_with (into : copier) : copier := new_pointer into.

(** [*val.DeepCopy()] of a variable [val]. *)
Definition through_DeepCopy (deep_copy : copier) : copier := fun v =>
  val ← new_cell (CVar v);
  out ← deep_copy (VPtr (Some val));
  match out with
  | VPtr (Some l) => x ← load l; match x with CVar v' => mret v' | _ => panic end
  | _ => panic
  end.

(** The method [DeepCopyObject]: [if c := in.DeepCopy(); c != nil { return c }; return nil]. *)
Definition DeepCopyObject_with (deep_copy : copier) : copier := fun v =>
  c ← deep_copy v;
  match c with VPtr None => mret (VPtr None) | c => mret c end.

(** ** What a deep copy promises *)

(** The copy means what the original means, the memory there was is as it was,
    and the copy reaches new memory only. *)
Class Copies (t : ty) (c : copier) := copies : forall h L v x, denotes t h L v x ->
  exists v' h', c v h = Some (v', h') /\ h ⊆ h' /\ denotes t h' (dom h' ∖ dom h) v' x.

#[export] Hint Mode Copies ! - : typeclass_instances.

Lemma agree_subseteq (h h' : heap) L : h ⊆ h' -> L ⊆ dom h -> agree_on L h h'.
Proof.
  intros Hs HL l Hl. apply HL, elem_of_dom in Hl as [c Hc]. by rewrite Hc, (lookup_weaken _ _ _ _ Hc Hs).
Qed.

(** What denotes in a memory still does in a larger one. *)
Lemma denotes_grow t h h' L v x : h ⊆ h' -> denotes t h L v x -> denotes t h' L v x.
Proof.
  intros Hs. revert v x. induction t as [| | | |t IH|t IH|t IH|fs IH|n t IH] using ty_ind'; intros v x; try done.
  - destruct v as [|[l|]| | |], x; try done. cbn. intros (Hl & v & Hv & Hd). split; [done|].
    exists v. split; [by eapply lookup_weaken|auto].
  - destruct v as [| |[[[l from] len]|]| |], x; try done. cbn. intros (Hl & vs & Hvs & Hlen & Hd). split; [done|].
    exists vs. split; [by eapply lookup_weaken|]. split; [done|]. eapply Forall2_impl; [exact Hd|]. auto.
  - destruct v as [| | |[l|]|], x; try done. cbn. intros (Hl & mv & Hmv & Hd). split; [done|].
    exists mv. split; [by eapply lookup_weaken|]. eapply map_Forall2_impl; [exact Hd|]. auto.
  - rewrite !denotes_struct. intros (vs & xs & -> & -> & Hd). exists vs, xs. split; [done|]. split; [done|].
    revert vs xs Hd. induction IH as [|[f t] fs Ht _ IHfs]; intros [|[n v] vs] [|[n' x] xs]; cbn; try done.
    intros (-> & -> & Hd & Hrest). cbn in Ht. auto.
  - apply IH.
Qed.

Lemma denotes_wider t h L L' v x : L ⊆ L' -> denotes t h L v x -> denotes t h L' v x.
Proof. by apply denotes_agree. Qed.

Lemma new_cell_spec c (h : heap) : exists l, new_cell c h = Some (l, <[l := c]> h) /\ h !! l = None.
Proof. eexists. split; [done|]. apply not_elem_of_dom, is_fresh. Qed.

Lemma new_cell_dom (h h' : heap) l c : h ⊆ h' -> h' !! l = None ->
  h ⊆ <[l := c]> h' /\ h' ⊆ <[l := c]> h' /\ l ∈ dom (<[l := c]> h') ∖ dom h /\
  dom h' ∖ dom h ⊆ dom (<[l := c]> h') ∖ dom h.
Proof.
  intros Hs Hl. pose proof (insert_subseteq h' l c Hl) as Hi. split; [by etrans|]. split; [done|].
  pose proof (subseteq_dom _ _ Hs). apply not_elem_of_dom in Hl. set_solver.
Qed.

(** A loop whose every turn copies. *)
Section each.
Context {A B X : Type} (f : A -> M B) (P : heap -> A -> X -> Prop) (Q : heap -> gset loc -> B -> X -> Prop).
Context (P_grow : forall h h' a x, h ⊆ h' -> P h a x -> P h' a x).
Context (Q_grow : forall h h' L L' b x, h ⊆ h' -> L ⊆ L' -> Q h L b x -> Q h' L' b x).
Context (f_copies : forall h a x, P h a x ->
  exists b h', f a h = Some (b, h') /\ h ⊆ h' /\ Q h' (dom h' ∖ dom h) b x).

Lemma each_copies_from h0 h l xs : h0 ⊆ h -> Forall2 (P h) l xs ->
  exists bs h', each f l h = Some (bs, h') /\ h ⊆ h' /\ Forall2 (Q h' (dom h' ∖ dom h0)) bs xs.
Proof.
  revert h xs. induction l as [|a l IH]; intros h xs Hh Hl; cbn [each].
  - apply Forall2_nil_inv_l in Hl as ->. exists [], h. by split.
  - apply Forall2_cons_inv_l in Hl as (x & xs' & Ha & Hl & ->).
    destruct (f_copies _ _ _ Ha) as (b & h1 & Hb & Hh1 & HQ).
    destruct (IH h1 xs') as (bs & h2 & Hbs & Hh2 & HQs); [by etrans| |].
    { eapply Forall2_impl; [exact Hl|]. intros ???. by eapply P_grow. }
    exists (b :: bs), h2. split; [by rewrite (bind_Some _ _ _ _ _ Hb), (bind_Some _ _ _ _ _ Hbs)|]. split; [by etrans|].
    constructor; [|done]. eapply Q_grow; [exact Hh2| |exact HQ].
    pose proof (subseteq_dom _ _ Hh). pose proof (subseteq_dom _ _ Hh2). set_solver.
Qed.

Lemma each_copies h l xs : Forall2 (P h) l xs ->
  exists bs h', each f l h = Some (bs, h') /\ h ⊆ h' /\ Forall2 (Q h' (dom h' ∖ dom h)) bs xs.
Proof. by apply each_copies_from. Qed.
End each.

Lemma denotes_keep t h h' L L' v x : h ⊆ h' -> L ⊆ L' -> denotes t h L v x -> denotes t h' L' v x.
Proof. intros Hh HL Hd. eapply denotes_wider; [exact HL|]. by eapply denotes_grow. Qed.

(** ** Each way to copy, copies *)

Lemma assigned_copies t : flat t = true -> Copies t assigned.
Proof.
  intros Hf h L v x Hd. exists v, h. split; [done|]. split; [done|]. by eapply denotes_flat.
Qed.

#[export] Hint Extern 2 (Copies _ assigned) => apply assigned_copies; reflexivity : typeclass_instances.

#[export] Instance new_pointer_copies t c : Copies t c -> Copies (TPtr t) (new_pointer c).
Proof.
  intros Hc h L v x Hd. destruct v as [|[l|]| | |], x as [| |x| | |]; try done; [|by exists (VPtr None), h].
  destruct Hd as (_ & v & Hv & Hd). destruct (Hc _ _ _ _ Hd) as (v' & h1 & Hv' & Hh1 & Hd').
  destruct (new_cell_spec (CVar v') h1) as (l' & Hl' & Hnew).
  destruct (new_cell_dom h h1 l' (CVar v') Hh1 Hnew) as (? & ? & ? & ?).
  exists (VPtr (Some l')), (<[l' := CVar v']> h1). split.
  { unfold new_pointer. by runs (load_Some _ _ _ Hv) Hv' Hl'. }
  split; [done|]. split; [done|]. exists v'. split; [apply lookup_insert_eq|]. by eapply denotes_keep.
Qed.

(** The loops over the cells of an array and the entries of a map. *)
Lemma each_cell_copies t c h L vs xs : Copies t c -> Forall2 (denotes t h L) vs xs ->
  exists vs' h', each c vs h = Some (vs', h') /\ h ⊆ h' /\ Forall2 (denotes t h' (dom h' ∖ dom h)) vs' xs.
Proof.
  intros Hc. apply (each_copies c (fun h => denotes t h L) (denotes t)).
  - intros ????. apply denotes_grow.
  - intros ??????. apply denotes_keep.
  - intros ???. apply Hc.
Qed.

Definition entry_denotes (t : ty) (h : heap) (L : gset loc) (kv : string * gv) (kx : string * tree) : Prop :=
  kv.1 = kx.1 /\ denotes t h L kv.2 kx.2.

Lemma each_entry_copies t c h L kvs kxs : Copies t c -> Forall2 (entry_denotes t h L) kvs kxs ->
  exists kvs' h', each (fun kv => v' ← c kv.2; mret (kv.1, v')) kvs h = Some (kvs', h') /\ h ⊆ h' /\
    Forall2 (entry_denotes t h' (dom h' ∖ dom h)) kvs' kxs.
Proof.
  intros Hc. apply (each_copies _ (fun h => entry_denotes t h L) (entry_denotes t)).
  - intros ???? Hh [? ?]. split; [done|]. by eapply denotes_grow.
  - intros ?????? Hh HL [? ?]. split; [done|]. by eapply denotes_keep.
  - intros h1 [k v] [k' x] [Hk Hd]. cbn in *. destruct (Hc _ _ _ _ Hd) as (v' & h2 & Hv' & Hh2 & Hd').
    exists (k, v'), h2. split; [|done]. by rewrite (bind_Some _ _ _ _ _ Hv').
Qed.

#[export] Instance new_slice_copies t c : Copies t c -> Copies (TSlice t) (new_slice c).
Proof.
  intros Hc h L v x Hd. destruct v as [| |[[[l from] len]|]| |], x as [| | |xs| |]; try done; [|by exists (VSlice None), h].
  destruct Hd as (_ & vs & Hvs & _ & Hd).
  destruct (each_cell_copies _ _ _ _ _ _ Hc Hd) as (vs' & h1 & Hvs' & Hh1 & Hd').
  destruct (new_cell_spec (CArray vs') h1) as (l' & Hl' & Hnew).
  destruct (new_cell_dom h h1 l' (CArray vs') Hh1 Hnew) as (? & ? & ? & ?).
  exists (VSlice (Some (l', 0, List.length vs'))), (<[l' := CArray vs']> h1). split.
  { unfold new_slice. by runs (load_Some _ _ _ Hvs) Hvs' Hl'. }
  split; [done|]. split; [done|]. exists vs'. split; [apply lookup_insert_eq|]. split; [done|].
  rewrite drop_0, firstn_all. eapply Forall2_impl; [exact Hd'|]. intros ??. by eapply denotes_keep.
Qed.

(** A map is read through its entries. *)
Lemma map_of_entries t h L kvs kxs :
  Forall2 (entry_denotes t h L) kvs kxs ->
  map_Forall2 (fun _ => denotes t h L) (list_to_map kvs : gmap string gv) (list_to_map kxs).
Proof.
  intros He. induction He as [|[k v] [k' x] kvs kxs [Hk Hd] _ IH]; [apply map_Forall2_empty|].
  cbn in Hk, Hd |- *. subst k'. by apply map_Forall2_insert_2.
Qed.

Lemma entries_of_map t h L m xs : map_Forall2 (fun _ => denotes t h L) m xs ->
  exists kxs, Forall2 (entry_denotes t h L) (map_to_list m) kxs /\ list_to_map kxs = xs.
Proof.
  intros Hm. set (kxs := (fun kv : string * gv => (kv.1, default XNil (xs !! kv.1))) <$> map_to_list m). exists kxs. split.
  - apply Forall2_fmap_r, Forall_Forall2_diag, Forall_forall. intros [k v] Hin.
    apply elem_of_map_to_list in Hin. split; [done|]. specialize (Hm k). cbn. rewrite Hin in Hm.
    by inversion Hm.
  - assert (kxs.*1 = (map_to_list m).*1) as Hkeys.
    { unfold kxs. rewrite <- list_fmap_compose. by apply list_fmap_ext. }
    apply map_eq. intros k. specialize (Hm k). destruct (m !! k) as [v|] eqn:Hk; inversion Hm as [? x ? E1 E2|E1 E2].
    + apply elem_of_list_to_map_1; [rewrite Hkeys; apply NoDup_fst_map_to_list|].
      apply list_elem_of_fmap. exists (k, v). cbn. rewrite <- E2. split; [done|by apply elem_of_map_to_list].
    + apply not_elem_of_list_to_map_1. rewrite Hkeys. intros Hin. apply list_elem_of_fmap in Hin as ([k' v] & -> & Hin).
      apply elem_of_map_to_list in Hin. cbn in Hk. congruence.
Qed.

#[export] Instance new_map_copies t c : Copies t c -> Copies (TMap t) (new_map c).
Proof.
  intros Hc h L v x Hd. destruct v as [| | |[l|]|], x as [| | | |xs|]; try done; [|by exists (VMap None), h].
  destruct Hd as (_ & m & Hm & Hd). destruct (entries_of_map _ _ _ _ _ Hd) as (kxs & He & <-).
  destruct (each_entry_copies _ _ _ _ _ _ Hc He) as (kvs & h1 & Hkvs & Hh1 & He').
  set (c' := CMap (list_to_map kvs)). destruct (new_cell_spec c' h1) as (l' & Hl' & Hnew).
  destruct (new_cell_dom h h1 l' c' Hh1 Hnew) as (? & ? & ? & ?).
  exists (VMap (Some l')), (<[l' := c']> h1). split.
  { unfold new_map. by runs (load_Some _ _ _ Hm) Hkvs Hl'. }
  split; [done|]. split; [done|]. exists (list_to_map kvs). split; [apply lookup_insert_eq|].
  eapply map_Forall2_impl; [by apply map_of_entries|]. intros ???. by eapply denotes_keep.
Qed.

(** The fields a [DeepCopyInto] has a statement for are copied by it, and the
    others are plain data. *)
Fixpoint copies_fields (cs : list (string * copier)) (fs : list (tag * ty)) : Prop :=
  match fs with [] => True | f :: fs => Copies f.2 (find_copier (go_name f.1) cs) /\ copies_fields cs fs end.

Lemma copy_fields_copies fs cs : copies_fields cs fs -> Copies (TStruct fs) (copy_fields cs).
Proof.
  intros Hcs h L v x (vs & xs & -> & -> & Hd)%denotes_struct.
  assert (forall h0 h, h0 ⊆ h -> denotes_fields fs h L vs xs -> exists vs' h',
    each (fun nv => v' ← find_copier nv.1 cs nv.2; mret (nv.1, v')) vs h = Some (vs', h') /\ h ⊆ h' /\
    denotes_fields fs h' (dom h' ∖ dom h0) vs' xs) as Hloop.
  { clear h Hd. intros h0. revert vs xs Hcs.
    induction fs as [|[f t] fs IH]; intros [|[n v] vs] [|[n' x] xs]; try done; [by intros _ h _ _; exists [], h|].
    intros [Hc Hcs] h Hh (-> & -> & Hd & Hrest). cbn in Hc, Hd. destruct (Hc _ _ _ _ Hd) as (v' & h1 & Hv' & Hh1 & Hd').
    destruct (IH vs xs Hcs h1) as (vs' & h2 & Hvs' & Hh2 & Hrest'); [by etrans| |].
    { clear -Hrest Hh1. revert vs xs Hrest. induction fs as [|[f t] fs IH]; intros [|[n v] vs] [|[n' x] xs]; try done.
      intros (-> & -> & ? & ?). cbn. repeat split; [by eapply denotes_grow|by apply IH]. }
    exists ((go_name f, v') :: vs'), h2. split.
    { cbn [each]. rewrite (bind_Some _ _ _ (go_name f, v') h1); [by rewrite (bind_Some _ _ _ _ _ Hvs')|].
      by rewrite (bind_Some _ _ _ _ _ Hv'). }
    split; [by etrans|]. cbn. do 2 (split; [done|]). split; [|done].
    eapply denotes_keep; [exact Hh2| |exact Hd']. pose proof (subseteq_dom _ _ Hh). pose proof (subseteq_dom _ _ Hh2). set_solver. }
  destruct (Hloop h h) as (vs' & h' & Hvs' & Hh' & Hd'); [done|done|].
  exists (VStruct vs'), h'. split; [unfold copy_fields; by rewrite (bind_Some _ _ _ _ _ Hvs')|]. split; [done|].
  apply denotes_struct. by exists vs', xs.
Qed.

Lemma named_copies n t c : Copies t c -> Copies (TNamed n t) c.
Proof. done. Qed.

#[export] Instance through_DeepCopy_copies t c : Copies (TPtr t) c -> Copies t (through_DeepCopy c).
Proof.
  intros Hc h L v x Hd. destruct (new_cell_spec (CVar v) h) as (l & Hl & Hnew).
  set (h1 := <[l := CVar v]> h) in *. pose proof (insert_subseteq h l (CVar v) Hnew) as Hh1.
  destruct (Hc h1 (L ∪ {[l]}) (VPtr (Some l)) (XPtr x)) as (v' & h2 & Hv' & Hh2 & Hd').
  { split; [set_solver|]. exists v. split; [apply lookup_insert_eq|]. eapply denotes_keep; [exact Hh1| |exact Hd]. set_solver. }
  destruct v' as [|[l'|]| | |]; try done. destruct Hd' as (_ & v' & Hload & Hd').
  exists v', h2. split; [unfold through_DeepCopy; by runs Hl Hv' (load_Some _ _ _ Hload)|]. split; [by etrans|].
  eapply denotes_wider; [|exact Hd']. pose proof (subseteq_dom _ _ Hh1). pose proof (subseteq_dom _ _ Hh2). set_solver.
Qed.

#[export] Instance DeepCopyObject_copies t c : Copies (TPtr t) c -> Copies (TPtr t) (DeepCopyObject_with c).
Proof.
  intros Hc h L v x Hd. destruct (Hc _ _ _ _ Hd) as (v' & h' & Hv' & Hh' & Hd').
  exists v', h'. split; [|done]. unfold DeepCopyObject_with. rewrite (bind_Some _ _ _ _ _ Hv').
  by destruct v' as [|[]| | |].
Qed.

(** Each field by its own copier. *)
Ltac copies_fields :=
  apply copy_fields_copies; cbn [copies_fields];
  repeat (split; [cbn [snd fst field go_name find_copier String.eqb Ascii.eqb Bool.eqb]; apply _|]); exact I.

(** A copy made through a pointer is independent of the original: whatever is
    done to the memory of the one, the other still means the same. *)
Definition independent (t : ty) (deep_copy : copier) : Prop := forall h l x,
  denotes (TPtr t) h (dom h) (VPtr (Some l)) x ->
  exists l' h', deep_copy (VPtr (Some l)) h = Some (VPtr (Some l'), h') /\
    denotes (TPtr t) h' (dom h' ∖ dom h) (VPtr (Some l')) x /\
    (forall h2, agree_on (dom h) h' h2 -> denotes (TPtr t) h2 (dom h) (VPtr (Some l)) x) /\
    (forall h2, agree_on (dom h' ∖ dom h) h' h2 -> denotes (TPtr t) h2 (dom h' ∖ dom h) (VPtr (Some l')) x).

Lemma copies_independent t c : Copies (TPtr t) c -> independent t c.
Proof.
  intros Hc h l x Hd. destruct (Hc _ _ _ _ Hd) as (v' & h' & Hv' & Hh' & Hd').
  destruct v' as [|[l'|]| | |]; try done; [|by destruct x; destruct Hd].
  exists l', h'. split; [done|]. split; [done|]. split; intros h2 Ha; (eapply denotes_agree; [|done|]).
  - exact Ha.
  - by eapply denotes_grow.
  - exact Ha.
  - done.
Qed.
