(* ===== verification/ApiTypes.v ===== *)
(** * api/resources/v1alpha1: the types, as reflection sees them

    Every struct of the package: its fields with their Go names and json tags.  A
    type from outside the repository is named, and what its values are made of is
    a parameter. *)

From S2P Require Import Prelude GoTypes.
From Stdlib Require Import String.

Local Open Scope string_scope.

(** The struct types of apimachinery and of the Kubernetes API that the package
    uses, and their [DeepCopyInto]. *)
Class ExternalTypes := {
  representation : string -> ty;
  external_DeepCopyInto : string -> copier;
}.

Definition external `{ExternalTypes} (name : string) : ty := TNamed name (representation name).

(** Their documentation: a DeepCopyInto copies deeply; TypeMeta is two strings and
    Duration a number. *)
Class ExternalTypesLaws `{ExternalTypes} := {
  external_copies : forall name, Copies (external name) (external_DeepCopyInto name);
  type_meta_plain : flat (external "metav1.TypeMeta") = true;
  duration_plain : flat (external "metav1.Duration") = true;
}.

Section ApiTypes.
Context `{ET : ExternalTypes}.

Definition ValueSource : ty := TStruct [
  field "SecretKeyRef" "secretKeyRef" OmitEmpty (TPtr (external "corev1.SecretKeySelector"));
  field "ConfigMapKeyRef" "configMapKeyRef" OmitEmpty (TPtr (external "corev1.ConfigMapKeySelector"))].

Definition Endpoint : ty := TStruct [
  field "Value" "value" OmitEmpty TString;
  field "ValueFrom" "valueFrom" OmitEmpty (TPtr ValueSource)].

Definition HeaderAuth : ty := TStruct [
  field "Name" "name" OmitEmpty TString;
  field "Scheme" "scheme" OmitEmpty TString;
  field "Value" "value" OmitEmpty TString;
  field "ValueFrom" "valueFrom" OmitEmpty (TPtr ValueSource)].

Definition Authentication : ty := TStruct [
  field "Header" "header" OmitEmpty (TPtr HeaderAuth)].

Definition TLSConfig : ty := TStruct [
  field "InsecureSkipVerify" "insecureSkipVerify" OmitEmpty TBool;
  field "CASecretRef" "caSecretRef" OmitEmpty (TPtr (external "corev1.SecretKeySelector"))].

Definition ProviderConfigSpec : ty := TStruct [
  field "Endpoint" "endpoint" Always Endpoint;
  field "Auth" "auth" Always Authentication;
  field "TLS" "tls" OmitEmpty (TPtr TLSConfig)].

Definition ProviderConfigStatus : ty := TStruct [
  field "Conditions" "conditions" OmitEmpty (TSlice (external "metav1.Condition"));
  field "ObservedGeneration" "observedGeneration" OmitEmpty TInt64;
  field "ObservedRefVersions" "observedRefVersions" OmitEmpty (TMap (TMap TString))].

Definition ClusterProviderConfig : ty := TStruct [
  field "TypeMeta" "" Inline (external "metav1.TypeMeta");
  field "ObjectMeta" "metadata" OmitZero (external "metav1.ObjectMeta");
  field "Spec" "spec" Always ProviderConfigSpec;
  field "Status" "status" OmitZero ProviderConfigStatus].

Definition ClusterProviderConfigList : ty := TStruct [
  field "TypeMeta" "" Inline (external "metav1.TypeMeta");
  field "ListMeta" "metadata" OmitZero (external "metav1.ListMeta");
  field "Items" "items" Always (TSlice ClusterProviderConfig)].

Definition ProviderConfigRef : ty := TStruct [
  field "Name" "name" Always TString;
  field "Kind" "kind" OmitEmpty TString].

Definition CoreSpec : ty := TStruct [
  field "ProviderConfigRef" "providerConfigRef" Always ProviderConfigRef;
  field "Interval" "interval" OmitEmpty (TPtr (external "metav1.Duration"));
  field "RetryInterval" "retryInterval" OmitEmpty (TPtr (external "metav1.Duration"));
  field "Timeout" "timeout" OmitEmpty (TPtr (external "metav1.Duration"));
  field "Suspend" "suspend" OmitEmpty TBool;
  field "ReclaimPolicy" "reclaimPolicy" OmitEmpty TString].

Definition SigNozResource : ty := TStruct [
  field "ID" "id" OmitEmpty (TPtr TString)].

Definition CoreStatus : ty := TStruct [
  field "Conditions" "conditions" OmitEmpty (TSlice (external "metav1.Condition"));
  field "SigNozResource" "signozResource" OmitEmpty (TPtr SigNozResource);
  field "ObservedGeneration" "observedGeneration" OmitEmpty TInt64;
  field "ObservedHash" "observedHash" OmitEmpty TString;
  field "ReconciledAt" "reconciledAt" OmitZero (external "metav1.Time")].

Definition ProviderConfig : ty := TStruct [
  field "TypeMeta" "" Inline (external "metav1.TypeMeta");
  field "ObjectMeta" "metadata" OmitZero (external "metav1.ObjectMeta");
  field "Spec" "spec" Always ProviderConfigSpec;
  field "Status" "status" OmitZero ProviderConfigStatus].

Definition ProviderConfigList : ty := TStruct [
  field "TypeMeta" "" Inline (external "metav1.TypeMeta");
  field "ListMeta" "metadata" OmitZero (external "metav1.ListMeta");
  field "Items" "items" Always (TSlice ProviderConfig)].

Definition AuthDomainAttributeMapping : ty := TStruct [
  field "Email" "email" OmitEmpty TString;
  field "Groups" "groups" OmitEmpty TString;
  field "Name" "name" OmitEmpty TString;
  field "Role" "role" OmitEmpty TString].

Definition AuthDomainConfigSpec : ty := TStruct [
  field "AllowedGroups" "allowedGroups" OmitEmpty (TSlice TString);
  field "AttributeMapping" "attributeMapping" OmitEmpty (TPtr AuthDomainAttributeMapping);
  field "Certificate" "certificate" OmitEmpty TString;
  field "ClaimMapping" "claimMapping" OmitEmpty (TPtr AuthDomainAttributeMapping);
  field "ClientId" "clientId" OmitEmpty TString;
  field "ClientSecret" "clientSecret" OmitEmpty TString;
  field "DomainToAdminEmail" "domainToAdminEmail" OmitEmpty (TMap TString);
  field "EntityId" "entityId" OmitEmpty TString;
  field "FetchGroups" "fetchGroups" OmitEmpty TBool;
  field "FetchTransitiveGroupMembership" "fetchTransitiveGroupMembership" OmitEmpty TBool;
  field "GetUserInfo" "getUserInfo" OmitEmpty TBool;
  field "InsecureSkipAuthNRequestsSigned" "insecureSkipAuthNRequestsSigned" OmitEmpty TBool;
  field "InsecureSkipEmailVerified" "insecureSkipEmailVerified" OmitEmpty TBool;
  field "Issuer" "issuer" OmitEmpty TString;
  field "IssuerAlias" "issuerAlias" OmitEmpty TString;
  field "Location" "location" OmitEmpty TString;
  field "ServiceAccountJson" "serviceAccountJson" OmitEmpty TString].

Definition AuthDomainConfig : ty := TStruct [
  field "Kind" "kind" Always TString;
  field "Spec" "spec" Always AuthDomainConfigSpec].

Definition AuthDomainRoleMapping : ty := TStruct [
  field "DefaultRole" "defaultRole" OmitEmpty TString;
  field "GroupMappings" "groupMappings" OmitEmpty (TMap TString);
  field "UseRoleAttribute" "useRoleAttribute" OmitEmpty TBool].

Definition AuthDomainObjectSpec : ty := TStruct [
  field "Config" "config" Always AuthDomainConfig;
  field "Name" "name" Always TString;
  field "Enabled" "enabled" OmitEmpty TBool;
  field "RoleMapping" "roleMapping" OmitEmpty (TPtr AuthDomainRoleMapping)].

Definition AuthDomainObjectTemplate : ty := TStruct [
  field "Spec" "spec" OmitEmpty (TPtr AuthDomainObjectSpec);
  field "JSONSpec" "jsonSpec" OmitEmpty (TPtr TString)].

Definition AuthDomainSpec : ty := TStruct [
  field "CoreSpec" "" Inline CoreSpec;
  field "ObjectTemplate" "objectTemplate" Always AuthDomainObjectTemplate].

Definition AuthDomainStatus : ty := TStruct [
  field "CoreStatus" "" Inline CoreStatus].

Definition AuthDomain : ty := TStruct [
  field "TypeMeta" "" Inline (external "metav1.TypeMeta");
  field "ObjectMeta" "metadata" OmitZero (external "metav1.ObjectMeta");
  field "Spec" "spec" Always AuthDomainSpec;
  field "Status" "status" OmitZero AuthDomainStatus].

Definition AuthDomainList : ty := TStruct [
  field "TypeMeta" "" Inline (external "metav1.TypeMeta");
  field "ListMeta" "metadata" OmitZero (external "metav1.ListMeta");
  field "Items" "items" Always (TSlice AuthDomain)].

Definition DashboardDisplay : ty := TStruct [
  field "Name" "name" Always TString;
  field "Description" "description" OmitEmpty TString].

Definition DashboardCollapse : ty := TStruct [
  field "Open" "open" OmitEmpty TBool].

Definition DashboardLayoutSpecDisplay : ty := TStruct [
  field "Collapse" "collapse" OmitEmpty (TPtr DashboardCollapse);
  field "Title" "title" OmitEmpty TString].

Definition DashboardContent : ty := TStruct [
  field "Ref" "$ref" OmitEmpty TString].

Definition DashboardItem : ty := TStruct [
  field "Content" "content" OmitEmpty (TPtr DashboardContent);
  field "Height" "height" OmitEmpty TInt64;
  field "Width" "width" OmitEmpty TInt64;
  field "X" "x" OmitEmpty TInt64;
  field "Y" "y" OmitEmpty TInt64].

Definition DashboardLayoutSpec : ty := TStruct [
  field "Display" "display" OmitEmpty (TPtr DashboardLayoutSpecDisplay);
  field "Items" "items" OmitEmpty (TSlice DashboardItem);
  field "RepeatVariable" "repeatVariable" OmitEmpty TString].

Definition DashboardLayout : ty := TStruct [
  field "Kind" "kind" Always TString;
  field "Spec" "spec" Always DashboardLayoutSpec].

Definition DashboardY : ty := TStruct [
  field "Scale" "scale" OmitEmpty TString].

Definition DashboardAxes : ty := TStruct [
  field "IsLogScale" "isLogScale" OmitEmpty TBool;
  field "SoftMax" "softMax" OmitEmpty (TPtr TFloat64);
  field "SoftMin" "softMin" OmitEmpty (TPtr TFloat64);
  field "Y" "y" OmitEmpty (TPtr DashboardY)].

Definition DashboardColors : ty := TStruct [
  field "Fill" "fill" OmitEmpty TString;
  field "MaxCount" "maxCount" OmitEmpty (TPtr TFloat64);
  field "MinCount" "minCount" OmitEmpty (TPtr TFloat64);
  field "Mode" "mode" OmitEmpty TString;
  field "Palette" "palette" OmitEmpty TString;
  field "Scale" "scale" OmitEmpty TString;
  field "Steps" "steps" OmitEmpty TInt64].

Definition DashboardSpanGaps : ty := TStruct [
  field "FillLessThan" "fillLessThan" OmitEmpty TString;
  field "FillOnlyBelow" "fillOnlyBelow" OmitEmpty TBool].

Definition DashboardChartAppearance : ty := TStruct [
  field "Colors" "colors" OmitEmpty (TPtr DashboardColors);
  field "FillMode" "fillMode" OmitEmpty TString;
  field "FillOpacity" "fillOpacity" OmitEmpty (TPtr TFloat64);
  field "LineInterpolation" "lineInterpolation" OmitEmpty TString;
  field "LineStyle" "lineStyle" OmitEmpty TString;
  field "ShowPoints" "showPoints" OmitEmpty TBool;
  field "SpanGaps" "spanGaps" OmitEmpty (TPtr DashboardSpanGaps)].

Definition DashboardFormatting : ty := TStruct [
  field "ColumnUnits" "columnUnits" OmitEmpty (TMap TString);
  field "DecimalPrecision" "decimalPrecision" OmitEmpty TString;
  field "Unit" "unit" OmitEmpty TString].

Definition DashboardHeaderOptions : ty := TStruct [
  field "Hide" "hide" OmitEmpty TBool].

Definition DashboardHistogramBuckets : ty := TStruct [
  field "BucketCount" "bucketCount" OmitEmpty (TPtr TFloat64);
  field "BucketWidth" "bucketWidth" OmitEmpty (TPtr TFloat64);
  field "MergeAllActiveQueries" "mergeAllActiveQueries" OmitEmpty TBool].

Definition DashboardLegend : ty := TStruct [
  field "CustomColors" "customColors" OmitEmpty (TMap TString);
  field "Mode" "mode" OmitEmpty TString;
  field "Position" "position" OmitEmpty TString].

Definition DashboardPresentation : ty := TStruct [
  field "Background" "background" OmitEmpty TString;
  field "TextAlign" "textAlign" OmitEmpty TString;
  field "VerticalAlign" "verticalAlign" OmitEmpty TString].

Definition DashboardSelectField : ty := TStruct [
  field "Name" "name" Always TString;
  field "Description" "description" OmitEmpty TString;
  field "FieldContext" "fieldContext" OmitEmpty TString;
  field "FieldDataType" "fieldDataType" OmitEmpty TString;
  field "Signal" "signal" OmitEmpty TString;
  field "Unit" "unit" OmitEmpty TString].

Definition DashboardThreshold : ty := TStruct [
  field "Color" "color" Always TString;
  field "Value" "value" Always TFloat64;
  field "ColumnName" "columnName" OmitEmpty TString;
  field "Format" "format" OmitEmpty TString;
  field "Label" "label" OmitEmpty TString;
  field "Operator" "operator" OmitEmpty TString;
  field "Unit" "unit" OmitEmpty TString].

Definition DashboardVisualization : ty := TStruct [
  field "FillSpans" "fillSpans" OmitEmpty TBool;
  field "Stack" "stack" OmitEmpty TString;
  field "StackedBarChart" "stackedBarChart" OmitEmpty TBool;
  field "TimePreference" "timePreference" OmitEmpty TString].

Definition DashboardPluginSpec : ty := TStruct [
  field "Axes" "axes" OmitEmpty (TPtr DashboardAxes);
  field "ChartAppearance" "chartAppearance" OmitEmpty (TPtr DashboardChartAppearance);
  field "Formatting" "formatting" OmitEmpty (TPtr DashboardFormatting);
  field "HeaderOptions" "headerOptions" OmitEmpty (TPtr DashboardHeaderOptions);
  field "HistogramBuckets" "histogramBuckets" OmitEmpty (TPtr DashboardHistogramBuckets);
  field "Legend" "legend" OmitEmpty (TPtr DashboardLegend);
  field "Mode" "mode" OmitEmpty TString;
  field "Presentation" "presentation" OmitEmpty (TPtr DashboardPresentation);
  field "SelectFields" "selectFields" OmitEmpty (TSlice DashboardSelectField);
  field "Text" "text" OmitEmpty TString;
  field "Thresholds" "thresholds" OmitEmpty (TSlice DashboardThreshold);
  field "Visualization" "visualization" OmitEmpty (TPtr DashboardVisualization)].

Definition DashboardPlugin : ty := TStruct [
  field "Kind" "kind" Always TString;
  field "Spec" "spec" Always DashboardPluginSpec].

Definition DashboardComparisonSpaceAggregationParam : ty := TStruct [
  field "Operator" "operator" Always TString;
  field "Threshold" "threshold" Always TFloat64].

Definition DashboardAggregation : ty := TStruct [
  field "Alias" "alias" OmitEmpty TString;
  field "ComparisonSpaceAggregationParam" "comparisonSpaceAggregationParam" OmitEmpty (TPtr DashboardComparisonSpaceAggregationParam);
  field "Expression" "expression" OmitEmpty TString;
  field "MetricName" "metricName" OmitEmpty TString;
  field "ReduceTo" "reduceTo" OmitEmpty TString;
  field "SpaceAggregation" "spaceAggregation" OmitEmpty TString;
  field "Temporality" "temporality" OmitEmpty TString;
  field "TimeAggregation" "timeAggregation" OmitEmpty TString].

Definition DashboardBucketOptionsSpec : ty := TStruct [
  field "MaxValue" "maxValue" OmitEmpty TFloat64;
  field "NumBuckets" "numBuckets" OmitEmpty TInt64;
  field "Scale" "scale" OmitEmpty (TPtr TInt64)].

Definition DashboardBucketOptions : ty := TStruct [
  field "Kind" "kind" Always TString;
  field "Spec" "spec" Always DashboardBucketOptionsSpec].

Definition DashboardFilter : ty := TStruct [
  field "Expression" "expression" OmitEmpty TString].

Definition DashboardArg : ty := TStruct [
  field "Name" "name" OmitEmpty TString;
  field "Value" "value" OmitEmpty (TPtr (external "apiextensionsv1.JSON"))].

Definition DashboardFunction : ty := TStruct [
  field "Args" "args" OmitEmpty (TSlice DashboardArg);
  field "Name" "name" OmitEmpty TString].

Definition DashboardGroupBy : ty := TStruct [
  field "Name" "name" Always TString;
  field "Description" "description" OmitEmpty TString;
  field "FieldContext" "fieldContext" OmitEmpty TString;
  field "FieldDataType" "fieldDataType" OmitEmpty TString;
  field "Signal" "signal" OmitEmpty TString;
  field "Unit" "unit" OmitEmpty TString].

Definition DashboardHaving : ty := TStruct [
  field "Expression" "expression" OmitEmpty TString].

Definition DashboardLimitBy : ty := TStruct [
  field "Keys" "keys" OmitEmpty (TSlice TString);
  field "Value" "value" OmitEmpty TString].

Definition DashboardKey : ty := TStruct [
  field "Name" "name" Always TString;
  field "Description" "description" OmitEmpty TString;
  field "FieldContext" "fieldContext" OmitEmpty TString;
  field "FieldDataType" "fieldDataType" OmitEmpty TString;
  field "Signal" "signal" OmitEmpty TString;
  field "Unit" "unit" OmitEmpty TString].

Definition DashboardOrder : ty := TStruct [
  field "Direction" "direction" OmitEmpty TString;
  field "Key" "key" OmitEmpty (TPtr DashboardKey)].

Definition DashboardQuerySpecPluginSpecQuerySpecAggregation : ty := TStruct [
  field "Alias" "alias" OmitEmpty TString;
  field "ComparisonSpaceAggregationParam" "comparisonSpaceAggregationParam" OmitEmpty (TPtr DashboardComparisonSpaceAggregationParam);
  field "Expression" "expression" OmitEmpty TString;
  field "MetricName" "metricName" OmitEmpty TString;
  field "ReduceTo" "reduceTo" OmitEmpty TString;
  field "SpaceAggregation" "spaceAggregation" OmitEmpty TString;
  field "Temporality" "temporality" OmitEmpty TString;
  field "TimeAggregation" "timeAggregation" OmitEmpty TString].

Definition DashboardQuerySpecPluginSpecQuerySpecBucketOptionsSpec : ty := TStruct [
  field "MaxValue" "maxValue" OmitEmpty TFloat64;
  field "NumBuckets" "numBuckets" OmitEmpty TInt64;
  field "Scale" "scale" OmitEmpty (TPtr TInt64)].

Definition DashboardQuerySpecPluginSpecQuerySpecBucketOptions : ty := TStruct [
  field "Kind" "kind" Always TString;
  field "Spec" "spec" Always DashboardQuerySpecPluginSpecQuerySpecBucketOptionsSpec].

Definition DashboardQuerySpecPluginSpecQuerySpecFilter : ty := TStruct [
  field "Expression" "expression" OmitEmpty TString].

Definition DashboardQuerySpecPluginSpecQuerySpecFunction : ty := TStruct [
  field "Args" "args" OmitEmpty (TSlice DashboardArg);
  field "Name" "name" OmitEmpty TString].

Definition DashboardQuerySpecPluginSpecQuerySpecGroupBy : ty := TStruct [
  field "Name" "name" Always TString;
  field "Description" "description" OmitEmpty TString;
  field "FieldContext" "fieldContext" OmitEmpty TString;
  field "FieldDataType" "fieldDataType" OmitEmpty TString;
  field "Signal" "signal" OmitEmpty TString;
  field "Unit" "unit" OmitEmpty TString].

Definition DashboardQuerySpecPluginSpecQuerySpecHaving : ty := TStruct [
  field "Expression" "expression" OmitEmpty TString].

Definition DashboardQuerySpecPluginSpecQuerySpecLimitBy : ty := TStruct [
  field "Keys" "keys" OmitEmpty (TSlice TString);
  field "Value" "value" OmitEmpty TString].

Definition DashboardQuerySpecPluginSpecQuerySpecOrder : ty := TStruct [
  field "Direction" "direction" OmitEmpty TString;
  field "Key" "key" OmitEmpty (TPtr DashboardKey)].

Definition DashboardSecondaryAggregationGroupBy : ty := TStruct [
  field "Name" "name" Always TString;
  field "Description" "description" OmitEmpty TString;
  field "FieldContext" "fieldContext" OmitEmpty TString;
  field "FieldDataType" "fieldDataType" OmitEmpty TString;
  field "Signal" "signal" OmitEmpty TString;
  field "Unit" "unit" OmitEmpty TString].

Definition DashboardSecondaryAggregationLimitBy : ty := TStruct [
  field "Keys" "keys" OmitEmpty (TSlice TString);
  field "Value" "value" OmitEmpty TString].

Definition DashboardSecondaryAggregationOrder : ty := TStruct [
  field "Direction" "direction" OmitEmpty TString;
  field "Key" "key" OmitEmpty (TPtr DashboardKey)].

Definition DashboardSecondaryAggregation : ty := TStruct [
  field "Alias" "alias" OmitEmpty TString;
  field "Expression" "expression" OmitEmpty TString;
  field "GroupBy" "groupBy" OmitEmpty (TSlice DashboardSecondaryAggregationGroupBy);
  field "Limit" "limit" OmitEmpty TInt64;
  field "LimitBy" "limitBy" OmitEmpty (TPtr DashboardSecondaryAggregationLimitBy);
  field "Order" "order" OmitEmpty (TSlice DashboardSecondaryAggregationOrder);
  field "StepInterval" "stepInterval" OmitEmpty (TPtr (external "apiextensionsv1.JSON"))].

Definition DashboardQuerySpecPluginSpecQuerySpecSelectField : ty := TStruct [
  field "Name" "name" Always TString;
  field "Description" "description" OmitEmpty TString;
  field "FieldContext" "fieldContext" OmitEmpty TString;
  field "FieldDataType" "fieldDataType" OmitEmpty TString;
  field "Signal" "signal" OmitEmpty TString;
  field "Unit" "unit" OmitEmpty TString].

Definition DashboardQuerySpecPluginSpecQuerySpec : ty := TStruct [
  field "Aggregations" "aggregations" OmitEmpty (TSlice DashboardQuerySpecPluginSpecQuerySpecAggregation);
  field "BucketOptions" "bucketOptions" OmitEmpty (TPtr DashboardQuerySpecPluginSpecQuerySpecBucketOptions);
  field "Cursor" "cursor" OmitEmpty TString;
  field "Disabled" "disabled" OmitEmpty TBool;
  field "Expression" "expression" OmitEmpty TString;
  field "Filter" "filter" OmitEmpty (TPtr DashboardQuerySpecPluginSpecQuerySpecFilter);
  field "Functions" "functions" OmitEmpty (TSlice DashboardQuerySpecPluginSpecQuerySpecFunction);
  field "GroupBy" "groupBy" OmitEmpty (TSlice DashboardQuerySpecPluginSpecQuerySpecGroupBy);
  field "Having" "having" OmitEmpty (TPtr DashboardQuerySpecPluginSpecQuerySpecHaving);
  field "Legend" "legend" OmitEmpty TString;
  field "Limit" "limit" OmitEmpty TInt64;
  field "LimitBy" "limitBy" OmitEmpty (TPtr DashboardQuerySpecPluginSpecQuerySpecLimitBy);
  field "Name" "name" OmitEmpty TString;
  field "Offset" "offset" OmitEmpty TInt64;
  field "Order" "order" OmitEmpty (TSlice DashboardQuerySpecPluginSpecQuerySpecOrder);
  field "Query" "query" OmitEmpty TString;
  field "ReturnSpansFrom" "returnSpansFrom" OmitEmpty TString;
  field "SecondaryAggregations" "secondaryAggregations" OmitEmpty (TSlice DashboardSecondaryAggregation);
  field "SelectFields" "selectFields" OmitEmpty (TSlice DashboardQuerySpecPluginSpecQuerySpecSelectField);
  field "Signal" "signal" OmitEmpty TString;
  field "SkipStepAlignment" "skipStepAlignment" OmitEmpty TBool;
  field "Source" "source" OmitEmpty TString;
  field "Stats" "stats" OmitEmpty TBool;
  field "Step" "step" OmitEmpty (TPtr (external "apiextensionsv1.JSON"));
  field "StepInterval" "stepInterval" OmitEmpty (TPtr (external "apiextensionsv1.JSON"))].

Definition DashboardQuerySpecPluginSpecQuery : ty := TStruct [
  field "Type" "type" Always TString;
  field "Spec" "spec" OmitEmpty (TPtr DashboardQuerySpecPluginSpecQuerySpec)].

Definition DashboardQuerySpecPluginSpecSelectField : ty := TStruct [
  field "Name" "name" Always TString;
  field "Description" "description" OmitEmpty TString;
  field "FieldContext" "fieldContext" OmitEmpty TString;
  field "FieldDataType" "fieldDataType" OmitEmpty TString;
  field "Signal" "signal" OmitEmpty TString;
  field "Unit" "unit" OmitEmpty TString].

Definition DashboardQuerySpecPluginSpec : ty := TStruct [
  field "Aggregations" "aggregations" OmitEmpty (TSlice DashboardAggregation);
  field "BucketOptions" "bucketOptions" OmitEmpty (TPtr DashboardBucketOptions);
  field "Cursor" "cursor" OmitEmpty TString;
  field "Disabled" "disabled" OmitEmpty TBool;
  field "Expression" "expression" OmitEmpty TString;
  field "Filter" "filter" OmitEmpty (TPtr DashboardFilter);
  field "Functions" "functions" OmitEmpty (TSlice DashboardFunction);
  field "GroupBy" "groupBy" OmitEmpty (TSlice DashboardGroupBy);
  field "Having" "having" OmitEmpty (TPtr DashboardHaving);
  field "Legend" "legend" OmitEmpty TString;
  field "Limit" "limit" OmitEmpty TInt64;
  field "LimitBy" "limitBy" OmitEmpty (TPtr DashboardLimitBy);
  field "Name" "name" OmitEmpty TString;
  field "Offset" "offset" OmitEmpty TInt64;
  field "Order" "order" OmitEmpty (TSlice DashboardOrder);
  field "Queries" "queries" OmitEmpty (TSlice DashboardQuerySpecPluginSpecQuery);
  field "Query" "query" OmitEmpty TString;
  field "ReturnSpansFrom" "returnSpansFrom" OmitEmpty TString;
  field "SecondaryAggregations" "secondaryAggregations" OmitEmpty (TSlice DashboardSecondaryAggregation);
  field "SelectFields" "selectFields" OmitEmpty (TSlice DashboardQuerySpecPluginSpecSelectField);
  field "Signal" "signal" OmitEmpty TString;
  field "SkipStepAlignment" "skipStepAlignment" OmitEmpty TBool;
  field "Source" "source" OmitEmpty TString;
  field "Stats" "stats" OmitEmpty TBool;
  field "Step" "step" OmitEmpty (TPtr (external "apiextensionsv1.JSON"));
  field "StepInterval" "stepInterval" OmitEmpty (TPtr (external "apiextensionsv1.JSON"))].

Definition DashboardQuerySpecPlugin : ty := TStruct [
  field "Kind" "kind" Always TString;
  field "Spec" "spec" Always DashboardQuerySpecPluginSpec].

Definition DashboardQuerySpec : ty := TStruct [
  field "Plugin" "plugin" Always DashboardQuerySpecPlugin;
  field "Name" "name" OmitEmpty TString].

Definition DashboardQuery : ty := TStruct [
  field "Kind" "kind" Always TString;
  field "Spec" "spec" Always DashboardQuerySpec].

Definition DashboardLink : ty := TStruct [
  field "Name" "name" OmitEmpty TString;
  field "RenderVariables" "renderVariables" OmitEmpty TBool;
  field "TargetBlank" "targetBlank" OmitEmpty TBool;
  field "Tooltip" "tooltip" OmitEmpty TString;
  field "Url" "url" OmitEmpty TString].

Definition DashboardPanelSpec : ty := TStruct [
  field "Display" "display" Always DashboardDisplay;
  field "Plugin" "plugin" Always DashboardPlugin;
  field "Queries" "queries" Always (TSlice DashboardQuery);
  field "Links" "links" OmitEmpty (TSlice DashboardLink)].

Definition DashboardPanel : ty := TStruct [
  field "Kind" "kind" Always TString;
  field "Spec" "spec" Always DashboardPanelSpec].

Definition DashboardVariableSpecPluginSpec : ty := TStruct [
  field "CustomValue" "customValue" OmitEmpty TString;
  field "Name" "name" OmitEmpty TString;
  field "QueryValue" "queryValue" OmitEmpty TString;
  field "Signal" "signal" OmitEmpty TString].

Definition DashboardVariableSpecPlugin : ty := TStruct [
  field "Kind" "kind" Always TString;
  field "Spec" "spec" Always DashboardVariableSpecPluginSpec].

Definition DashboardVariableSpec : ty := TStruct [
  field "AllowAllValue" "allowAllValue" OmitEmpty TBool;
  field "AllowMultiple" "allowMultiple" OmitEmpty TBool;
  field "CapturingRegexp" "capturingRegexp" OmitEmpty TString;
  field "Constant" "constant" OmitEmpty TBool;
  field "CustomAllValue" "customAllValue" OmitEmpty TString;
  field "DefaultValue" "defaultValue" OmitEmpty (TPtr (external "apiextensionsv1.JSON"));
  field "Display" "display" OmitEmpty (TPtr DashboardDisplay);
  field "Name" "name" OmitEmpty TString;
  field "Plugin" "plugin" OmitEmpty (TPtr DashboardVariableSpecPlugin);
  field "Sort" "sort" OmitEmpty TString;
  field "Value" "value" OmitEmpty TString].

Definition DashboardVariable : ty := TStruct [
  field "Kind" "kind" Always TString;
  field "Spec" "spec" Always DashboardVariableSpec].

Definition DashboardSpecPayload : ty := TStruct [
  field "Display" "display" Always DashboardDisplay;
  field "Layouts" "layouts" Always (TSlice DashboardLayout);
  field "Panels" "panels" Always (TMap DashboardPanel);
  field "Variables" "variables" Always (TSlice DashboardVariable);
  field "Duration" "duration" OmitEmpty TString;
  field "Links" "links" OmitEmpty (TSlice DashboardLink);
  field "RefreshInterval" "refreshInterval" OmitEmpty TString].

Definition DashboardTag : ty := TStruct [
  field "Key" "key" Always TString;
  field "Value" "value" Always TString].

Definition DashboardObjectSpec : ty := TStruct [
  field "SchemaVersion" "schemaVersion" Always TString;
  field "Spec" "spec" Always DashboardSpecPayload;
  field "Tags" "tags" Always (TSlice DashboardTag);
  field "Image" "image" OmitEmpty TString;
  field "Name" "name" OmitEmpty TString].

Definition DashboardObjectTemplate : ty := TStruct [
  field "Spec" "spec" OmitEmpty (TPtr DashboardObjectSpec);
  field "JSONSpec" "jsonSpec" OmitEmpty (TPtr TString)].

Definition DashboardSpec : ty := TStruct [
  field "CoreSpec" "" Inline CoreSpec;
  field "ObjectTemplate" "objectTemplate" Always DashboardObjectTemplate].

Definition DashboardStatus : ty := TStruct [
  field "CoreStatus" "" Inline CoreStatus].

Definition Dashboard : ty := TStruct [
  field "TypeMeta" "" Inline (external "metav1.TypeMeta");
  field "ObjectMeta" "metadata" OmitZero (external "metav1.ObjectMeta");
  field "Spec" "spec" Always DashboardSpec;
  field "Status" "status" OmitZero DashboardStatus].

Definition DashboardList : ty := TStruct [
  field "TypeMeta" "" Inline (external "metav1.TypeMeta");
  field "ListMeta" "metadata" OmitZero (external "metav1.ListMeta");
  field "Items" "items" Always (TSlice Dashboard)].

Definition NotificationChannelConfirm : ty := TStruct [
  field "Text" "text" Always TString;
  field "DismissText" "dismissText" OmitEmpty TString;
  field "OkText" "okText" OmitEmpty TString;
  field "Title" "title" OmitEmpty TString].

Definition NotificationChannelAction : ty := TStruct [
  field "Text" "text" Always TString;
  field "Type" "type" Always TString;
  field "Confirm" "confirm" OmitEmpty (TPtr NotificationChannelConfirm);
  field "Name" "name" OmitEmpty TString;
  field "Style" "style" OmitEmpty TString;
  field "Url" "url" OmitEmpty TString;
  field "Value" "value" OmitEmpty TString].

Definition NotificationChannelField : ty := TStruct [
  field "Title" "title" Always TString;
  field "Value" "value" Always TString;
  field "Short" "short" OmitEmpty (TPtr TBool)].

Definition NotificationChannelConfigSpec : ty := TStruct [
  field "Actions" "actions" OmitEmpty (TSlice NotificationChannelAction);
  field "ApiKey" "apiKey" OmitEmpty TString;
  field "ApiToken" "apiToken" OmitEmpty TString;
  field "ApiUrl" "apiUrl" OmitEmpty TString;
  field "BearerToken" "bearerToken" OmitEmpty TString;
  field "BotToken" "botToken" OmitEmpty TString;
  field "Channel" "channel" OmitEmpty TString;
  field "ChatId" "chatId" OmitEmpty TInt64;
  field "Class" "class" OmitEmpty TString;
  field "Client" "client" OmitEmpty TString;
  field "ClientUrl" "clientUrl" OmitEmpty TString;
  field "Color" "color" OmitEmpty TString;
  field "Component" "component" OmitEmpty TString;
  field "CustomFields" "customFields" OmitEmpty (TPtr (external "apiextensionsv1.JSON"));
  field "Description" "description" OmitEmpty TString;
  field "Details" "details" OmitEmpty (TMap TString);
  field "DisableNotifications" "disableNotifications" OmitEmpty TBool;
  field "Email" "email" OmitEmpty TString;
  field "Fallback" "fallback" OmitEmpty TString;
  field "Fields" "fields" OmitEmpty (TSlice NotificationChannelField);
  field "Footer" "footer" OmitEmpty TString;
  field "Group" "group" OmitEmpty TString;
  field "Headers" "headers" OmitEmpty (TMap TString);
  field "Html" "html" OmitEmpty TString;
  field "IssueType" "issueType" OmitEmpty TString;
  field "Labels" "labels" OmitEmpty (TSlice TString);
  field "Message" "message" OmitEmpty TString;
  field "MessageThreadId" "messageThreadId" OmitEmpty TInt64;
  field "Metadata" "metadata" OmitEmpty (TMap TString);
  field "Password" "password" OmitEmpty TString;
  field "Pretext" "pretext" OmitEmpty TString;
  field "Priority" "priority" OmitEmpty TString;
  field "Project" "project" OmitEmpty TString;
  field "ReopenDuration" "reopenDuration" OmitEmpty TString;
  field "ReopenTransition" "reopenTransition" OmitEmpty TString;
  field "ResolveTransition" "resolveTransition" OmitEmpty TString;
  field "RoutingKey" "routingKey" OmitEmpty TString;
  field "SendResolved" "sendResolved" OmitEmpty (TPtr TBool);
  field "Severity" "severity" OmitEmpty TString;
  field "Site" "site" OmitEmpty TString;
  field "Source" "source" OmitEmpty TString;
  field "Summary" "summary" OmitEmpty TString;
  field "Tags" "tags" OmitEmpty TString;
  field "Text" "text" OmitEmpty TString;
  field "Title" "title" OmitEmpty TString;
  field "TitleLink" "titleLink" OmitEmpty TString;
  field "To" "to" OmitEmpty TString;
  field "Token" "token" OmitEmpty TString;
  field "Url" "url" OmitEmpty TString;
  field "Username" "username" OmitEmpty TString;
  field "WebhookUrl" "webhookUrl" OmitEmpty TString;
  field "WontFixResolution" "wontFixResolution" OmitEmpty TString].

Definition NotificationChannelConfig : ty := TStruct [
  field "Kind" "kind" Always TString;
  field "Spec" "spec" Always NotificationChannelConfigSpec].

Definition NotificationChannelObjectSpec : ty := TStruct [
  field "Config" "config" Always NotificationChannelConfig;
  field "DisplayName" "displayName" OmitEmpty TString;
  field "Name" "name" OmitEmpty TString].

Definition NotificationChannelObjectTemplate : ty := TStruct [
  field "Spec" "spec" OmitEmpty (TPtr NotificationChannelObjectSpec);
  field "JSONSpec" "jsonSpec" OmitEmpty (TPtr TString)].

Definition NotificationChannelSpec : ty := TStruct [
  field "CoreSpec" "" Inline CoreSpec;
  field "ObjectTemplate" "objectTemplate" Always NotificationChannelObjectTemplate].

Definition NotificationChannelStatus : ty := TStruct [
  field "CoreStatus" "" Inline CoreStatus].

Definition NotificationChannel : ty := TStruct [
  field "TypeMeta" "" Inline (external "metav1.TypeMeta");
  field "ObjectMeta" "metadata" OmitZero (external "metav1.ObjectMeta");
  field "Spec" "spec" Always NotificationChannelSpec;
  field "Status" "status" OmitZero NotificationChannelStatus].

Definition NotificationChannelList : ty := TStruct [
  field "TypeMeta" "" Inline (external "metav1.TypeMeta");
  field "ListMeta" "metadata" OmitZero (external "metav1.ListMeta");
  field "Items" "items" Always (TSlice NotificationChannel)].

Definition PlannedMaintenanceRecurrence : ty := TStruct [
  field "Duration" "duration" Always TString;
  field "RepeatType" "repeatType" Always TString;
  field "RepeatOn" "repeatOn" OmitEmpty (TSlice TString)].

Definition PlannedMaintenanceSchedule : ty := TStruct [
  field "StartTime" "startTime" Always TString;
  field "Timezone" "timezone" Always TString;
  field "EndTime" "endTime" OmitEmpty TString;
  field "Recurrence" "recurrence" OmitEmpty (TPtr PlannedMaintenanceRecurrence)].

Definition PlannedMaintenanceObjectSpec : ty := TStruct [
  field "Name" "name" Always TString;
  field "Schedule" "schedule" Always PlannedMaintenanceSchedule;
  field "AlertIds" "alertIds" OmitEmpty (TSlice TString);
  field "Description" "description" OmitEmpty TString;
  field "Scope" "scope" OmitEmpty TString].

Definition PlannedMaintenanceObjectTemplate : ty := TStruct [
  field "Spec" "spec" OmitEmpty (TPtr PlannedMaintenanceObjectSpec);
  field "JSONSpec" "jsonSpec" OmitEmpty (TPtr TString)].

Definition PlannedMaintenanceSpec : ty := TStruct [
  field "CoreSpec" "" Inline CoreSpec;
  field "ObjectTemplate" "objectTemplate" Always PlannedMaintenanceObjectTemplate].

Definition PlannedMaintenanceStatus : ty := TStruct [
  field "CoreStatus" "" Inline CoreStatus].

Definition PlannedMaintenance : ty := TStruct [
  field "TypeMeta" "" Inline (external "metav1.TypeMeta");
  field "ObjectMeta" "metadata" OmitZero (external "metav1.ObjectMeta");
  field "Spec" "spec" Always PlannedMaintenanceSpec;
  field "Status" "status" OmitZero PlannedMaintenanceStatus].

Definition PlannedMaintenanceList : ty := TStruct [
  field "TypeMeta" "" Inline (external "metav1.TypeMeta");
  field "ListMeta" "metadata" OmitZero (external "metav1.ListMeta");
  field "Items" "items" Always (TSlice PlannedMaintenance)].

Definition RoleResource : ty := TStruct [
  field "Kind" "kind" Always TString;
  field "Type" "type" Always TString].

Definition RoleObjectGroup : ty := TStruct [
  field "Resource" "resource" Always RoleResource;
  field "Selectors" "selectors" Always (TSlice TString)].

Definition RoleTransactionGroup : ty := TStruct [
  field "ObjectGroup" "objectGroup" Always RoleObjectGroup;
  field "Relation" "relation" Always TString].

Definition RoleObjectSpec : ty := TStruct [
  field "Name" "name" Always TString;
  field "Description" "description" OmitEmpty TString;
  field "TransactionGroups" "transactionGroups" OmitEmpty (TSlice RoleTransactionGroup)].

Definition RoleObjectTemplate : ty := TStruct [
  field "Spec" "spec" OmitEmpty (TPtr RoleObjectSpec);
  field "JSONSpec" "jsonSpec" OmitEmpty (TPtr TString)].

Definition RoleSpec : ty := TStruct [
  field "CoreSpec" "" Inline CoreSpec;
  field "ObjectTemplate" "objectTemplate" Always RoleObjectTemplate].

Definition RoleStatus : ty := TStruct [
  field "CoreStatus" "" Inline CoreStatus].

Definition Role : ty := TStruct [
  field "TypeMeta" "" Inline (external "metav1.TypeMeta");
  field "ObjectMeta" "metadata" OmitZero (external "metav1.ObjectMeta");
  field "Spec" "spec" Always RoleSpec;
  field "Status" "status" OmitZero RoleStatus].

Definition RoleList : ty := TStruct [
  field "TypeMeta" "" Inline (external "metav1.TypeMeta");
  field "ListMeta" "metadata" OmitZero (external "metav1.ListMeta");
  field "Items" "items" Always (TSlice Role)].

Definition RoutePolicyObjectSpec : ty := TStruct [
  field "Channels" "channels" Always (TSlice TString);
  field "Expression" "expression" Always TString;
  field "Name" "name" Always TString;
  field "Description" "description" OmitEmpty TString;
  field "Kind" "kind" OmitEmpty TString;
  field "Tags" "tags" OmitEmpty (TSlice TString)].

Definition RoutePolicyObjectTemplate : ty := TStruct [
  field "Spec" "spec" OmitEmpty (TPtr RoutePolicyObjectSpec);
  field "JSONSpec" "jsonSpec" OmitEmpty (TPtr TString)].

Definition RoutePolicySpec : ty := TStruct [
  field "CoreSpec" "" Inline CoreSpec;
  field "ObjectTemplate" "objectTemplate" Always RoutePolicyObjectTemplate].

Definition RoutePolicyStatus : ty := TStruct [
  field "CoreStatus" "" Inline CoreStatus].

Definition RoutePolicy : ty := TStruct [
  field "TypeMeta" "" Inline (external "metav1.TypeMeta");
  field "ObjectMeta" "metadata" OmitZero (external "metav1.ObjectMeta");
  field "Spec" "spec" Always RoutePolicySpec;
  field "Status" "status" OmitZero RoutePolicyStatus].

Definition RoutePolicyList : ty := TStruct [
  field "TypeMeta" "" Inline (external "metav1.TypeMeta");
  field "ListMeta" "metadata" OmitZero (external "metav1.ListMeta");
  field "Items" "items" Always (TSlice RoutePolicy)].

Definition RuleComparisonSpaceAggregationParam : ty := TStruct [
  field "Operator" "operator" Always TString;
  field "Threshold" "threshold" Always TFloat64].

Definition RuleAggregation : ty := TStruct [
  field "Alias" "alias" OmitEmpty TString;
  field "ComparisonSpaceAggregationParam" "comparisonSpaceAggregationParam" OmitEmpty (TPtr RuleComparisonSpaceAggregationParam);
  field "Expression" "expression" OmitEmpty TString;
  field "MetricName" "metricName" OmitEmpty TString;
  field "ReduceTo" "reduceTo" OmitEmpty TString;
  field "SpaceAggregation" "spaceAggregation" OmitEmpty TString;
  field "Temporality" "temporality" OmitEmpty TString;
  field "TimeAggregation" "timeAggregation" OmitEmpty TString].

Definition RuleBucketOptionsSpec : ty := TStruct [
  field "MaxValue" "maxValue" OmitEmpty TFloat64;
  field "NumBuckets" "numBuckets" OmitEmpty TInt64;
  field "Scale" "scale" OmitEmpty (TPtr TInt64)].

Definition RuleBucketOptions : ty := TStruct [
  field "Kind" "kind" Always TString;
  field "Spec" "spec" Always RuleBucketOptionsSpec].

Definition RuleFilter : ty := TStruct [
  field "Expression" "expression" OmitEmpty TString].

Definition RuleArg : ty := TStruct [
  field "Name" "name" OmitEmpty TString;
  field "Value" "value" OmitEmpty (TPtr (external "apiextensionsv1.JSON"))].

Definition RuleFunction : ty := TStruct [
  field "Args" "args" OmitEmpty (TSlice RuleArg);
  field "Name" "name" OmitEmpty TString].

Definition RuleGroupBy : ty := TStruct [
  field "Name" "name" Always TString;
  field "Description" "description" OmitEmpty TString;
  field "FieldContext" "fieldContext" OmitEmpty TString;
  field "FieldDataType" "fieldDataType" OmitEmpty TString;
  field "Signal" "signal" OmitEmpty TString;
  field "Unit" "unit" OmitEmpty TString].

Definition RuleHaving : ty := TStruct [
  field "Expression" "expression" OmitEmpty TString].

Definition RuleLimitBy : ty := TStruct [
  field "Keys" "keys" OmitEmpty (TSlice TString);
  field "Value" "value" OmitEmpty TString].

Definition RuleKey : ty := TStruct [
  field "Name" "name" Always TString;
  field "Description" "description" OmitEmpty TString;
  field "FieldContext" "fieldContext" OmitEmpty TString;
  field "FieldDataType" "fieldDataType" OmitEmpty TString;
  field "Signal" "signal" OmitEmpty TString;
  field "Unit" "unit" OmitEmpty TString].

Definition RuleOrder : ty := TStruct [
  field "Direction" "direction" OmitEmpty TString;
  field "Key" "key" OmitEmpty (TPtr RuleKey)].

Definition RuleSecondaryAggregationGroupBy : ty := TStruct [
  field "Name" "name" Always TString;
  field "Description" "description" OmitEmpty TString;
  field "FieldContext" "fieldContext" OmitEmpty TString;
  field "FieldDataType" "fieldDataType" OmitEmpty TString;
  field "Signal" "signal" OmitEmpty TString;
  field "Unit" "unit" OmitEmpty TString].

Definition RuleSecondaryAggregationLimitBy : ty := TStruct [
  field "Keys" "keys" OmitEmpty (TSlice TString);
  field "Value" "value" OmitEmpty TString].

Definition RuleSecondaryAggregationOrder : ty := TStruct [
  field "Direction" "direction" OmitEmpty TString;
  field "Key" "key" OmitEmpty (TPtr RuleKey)].

Definition RuleSecondaryAggregation : ty := TStruct [
  field "Alias" "alias" OmitEmpty TString;
  field "Expression" "expression" OmitEmpty TString;
  field "GroupBy" "groupBy" OmitEmpty (TSlice RuleSecondaryAggregationGroupBy);
  field "Limit" "limit" OmitEmpty TInt64;
  field "LimitBy" "limitBy" OmitEmpty (TPtr RuleSecondaryAggregationLimitBy);
  field "Order" "order" OmitEmpty (TSlice RuleSecondaryAggregationOrder);
  field "StepInterval" "stepInterval" OmitEmpty (TPtr (external "apiextensionsv1.JSON"))].

Definition RuleSelectField : ty := TStruct [
  field "Name" "name" Always TString;
  field "Description" "description" OmitEmpty TString;
  field "FieldContext" "fieldContext" OmitEmpty TString;
  field "FieldDataType" "fieldDataType" OmitEmpty TString;
  field "Signal" "signal" OmitEmpty TString;
  field "Unit" "unit" OmitEmpty TString].

Definition RuleQuerySpec : ty := TStruct [
  field "Aggregations" "aggregations" OmitEmpty (TSlice RuleAggregation);
  field "BucketOptions" "bucketOptions" OmitEmpty (TPtr RuleBucketOptions);
  field "Cursor" "cursor" OmitEmpty TString;
  field "Disabled" "disabled" OmitEmpty TBool;
  field "Expression" "expression" OmitEmpty TString;
  field "Filter" "filter" OmitEmpty (TPtr RuleFilter);
  field "Functions" "functions" OmitEmpty (TSlice RuleFunction);
  field "GroupBy" "groupBy" OmitEmpty (TSlice RuleGroupBy);
  field "Having" "having" OmitEmpty (TPtr RuleHaving);
  field "Legend" "legend" OmitEmpty TString;
  field "Limit" "limit" OmitEmpty TInt64;
  field "LimitBy" "limitBy" OmitEmpty (TPtr RuleLimitBy);
  field "Name" "name" OmitEmpty TString;
  field "Offset" "offset" OmitEmpty TInt64;
  field "Order" "order" OmitEmpty (TSlice RuleOrder);
  field "Query" "query" OmitEmpty TString;
  field "ReturnSpansFrom" "returnSpansFrom" OmitEmpty TString;
  field "SecondaryAggregations" "secondaryAggregations" OmitEmpty (TSlice RuleSecondaryAggregation);
  field "SelectFields" "selectFields" OmitEmpty (TSlice RuleSelectField);
  field "Signal" "signal" OmitEmpty TString;
  field "SkipStepAlignment" "skipStepAlignment" OmitEmpty TBool;
  field "Source" "source" OmitEmpty TString;
  field "Stats" "stats" OmitEmpty TBool;
  field "Step" "step" OmitEmpty (TPtr (external "apiextensionsv1.JSON"));
  field "StepInterval" "stepInterval" OmitEmpty (TPtr (external "apiextensionsv1.JSON"))].

Definition RuleQuery : ty := TStruct [
  field "Type" "type" Always TString;
  field "Spec" "spec" OmitEmpty (TPtr RuleQuerySpec)].

Definition RuleCompositeQuery : ty := TStruct [
  field "PanelType" "panelType" Always TString;
  field "Queries" "queries" Always (TSlice RuleQuery);
  field "QueryType" "queryType" Always TString;
  field "Unit" "unit" OmitEmpty TString].

Definition RuleThresholdsSpec : ty := TStruct [
  field "MatchType" "matchType" Always TString;
  field "Name" "name" Always TString;
  field "Op" "op" Always TString;
  field "Target" "target" Always TFloat64;
  field "Channels" "channels" OmitEmpty (TSlice TString);
  field "RecoveryTarget" "recoveryTarget" OmitEmpty (TPtr TFloat64);
  field "TargetUnit" "targetUnit" OmitEmpty TString].

Definition RuleThresholds : ty := TStruct [
  field "Kind" "kind" Always TString;
  field "Spec" "spec" Always (TSlice RuleThresholdsSpec)].

Definition RuleCondition : ty := TStruct [
  field "CompositeQuery" "compositeQuery" Always RuleCompositeQuery;
  field "SelectedQueryName" "selectedQueryName" Always TString;
  field "Thresholds" "thresholds" Always RuleThresholds;
  field "AbsentFor" "absentFor" OmitEmpty TInt64;
  field "AlertOnAbsent" "alertOnAbsent" OmitEmpty TBool;
  field "Algorithm" "algorithm" OmitEmpty TString;
  field "RequireMinPoints" "requireMinPoints" OmitEmpty TBool;
  field "RequiredNumPoints" "requiredNumPoints" OmitEmpty TInt64;
  field "Seasonality" "seasonality" OmitEmpty TString].

Definition RuleSchedule : ty := TStruct [
  field "Type" "type" Always TString;
  field "Day" "day" OmitEmpty (TPtr TInt64);
  field "Hour" "hour" OmitEmpty (TPtr TInt64);
  field "Minute" "minute" OmitEmpty (TPtr TInt64);
  field "Weekday" "weekday" OmitEmpty (TPtr TInt64)].

Definition RuleEvaluationSpec : ty := TStruct [
  field "EvalWindow" "evalWindow" OmitEmpty TString;
  field "Frequency" "frequency" OmitEmpty TString;
  field "Schedule" "schedule" OmitEmpty (TPtr RuleSchedule);
  field "Timezone" "timezone" OmitEmpty TString].

Definition RuleEvaluation : ty := TStruct [
  field "Kind" "kind" Always TString;
  field "Spec" "spec" Always RuleEvaluationSpec].

Definition RuleRenotify : ty := TStruct [
  field "AlertStates" "alertStates" OmitEmpty (TSlice TString);
  field "Enabled" "enabled" OmitEmpty TBool;
  field "Interval" "interval" OmitEmpty TString].

Definition RuleNotificationSettings : ty := TStruct [
  field "GroupBy" "groupBy" OmitEmpty (TSlice TString);
  field "NewGroupEvalDelay" "newGroupEvalDelay" OmitEmpty TString;
  field "Renotify" "renotify" OmitEmpty (TPtr RuleRenotify);
  field "UsePolicy" "usePolicy" OmitEmpty TBool].

Definition RuleObjectSpec : ty := TStruct [
  field "Alert" "alert" Always TString;
  field "AlertType" "alertType" Always TString;
  field "Condition" "condition" Always RuleCondition;
  field "Evaluation" "evaluation" Always RuleEvaluation;
  field "NotificationSettings" "notificationSettings" Always RuleNotificationSettings;
  field "RuleType" "ruleType" Always TString;
  field "SchemaVersion" "schemaVersion" Always TString;
  field "Annotations" "annotations" OmitEmpty (TMap TString);
  field "Description" "description" OmitEmpty TString;
  field "Disabled" "disabled" OmitEmpty TBool;
  field "Labels" "labels" OmitEmpty (TMap TString)].

Definition RuleObjectTemplate : ty := TStruct [
  field "Spec" "spec" OmitEmpty (TPtr RuleObjectSpec);
  field "JSONSpec" "jsonSpec" OmitEmpty (TPtr TString)].

Definition RuleSpec : ty := TStruct [
  field "CoreSpec" "" Inline CoreSpec;
  field "ObjectTemplate" "objectTemplate" Always RuleObjectTemplate].

Definition RuleStatus : ty := TStruct [
  field "CoreStatus" "" Inline CoreStatus].

Definition Rule : ty := TStruct [
  field "TypeMeta" "" Inline (external "metav1.TypeMeta");
  field "ObjectMeta" "metadata" OmitZero (external "metav1.ObjectMeta");
  field "Spec" "spec" Always RuleSpec;
  field "Status" "status" OmitZero RuleStatus].

Definition RuleList : ty := TStruct [
  field "TypeMeta" "" Inline (external "metav1.TypeMeta");
  field "ListMeta" "metadata" OmitZero (external "metav1.ListMeta");
  field "Items" "items" Always (TSlice Rule)].

Definition SavedViewComparisonSpaceAggregationParam : ty := TStruct [
  field "Operator" "operator" Always TString;
  field "Threshold" "threshold" Always TFloat64].

Definition SavedViewAggregation : ty := TStruct [
  field "Alias" "alias" OmitEmpty TString;
  field "ComparisonSpaceAggregationParam" "comparisonSpaceAggregationParam" OmitEmpty (TPtr SavedViewComparisonSpaceAggregationParam);
  field "Expression" "expression" OmitEmpty TString;
  field "MetricName" "metricName" OmitEmpty TString;
  field "ReduceTo" "reduceTo" OmitEmpty TString;
  field "SpaceAggregation" "spaceAggregation" OmitEmpty TString;
  field "Temporality" "temporality" OmitEmpty TString;
  field "TimeAggregation" "timeAggregation" OmitEmpty TString].

Definition SavedViewBucketOptionsSpec : ty := TStruct [
  field "MaxValue" "maxValue" OmitEmpty TFloat64;
  field "NumBuckets" "numBuckets" OmitEmpty TInt64;
  field "Scale" "scale" OmitEmpty (TPtr TInt64)].

Definition SavedViewBucketOptions : ty := TStruct [
  field "Kind" "kind" Always TString;
  field "Spec" "spec" Always SavedViewBucketOptionsSpec].

Definition SavedViewFilter : ty := TStruct [
  field "Expression" "expression" OmitEmpty TString].

Definition SavedViewArg : ty := TStruct [
  field "Name" "name" OmitEmpty TString;
  field "Value" "value" OmitEmpty (TPtr (external "apiextensionsv1.JSON"))].

Definition SavedViewFunction : ty := TStruct [
  field "Args" "args" OmitEmpty (TSlice SavedViewArg);
  field "Name" "name" OmitEmpty TString].

Definition SavedViewGroupBy : ty := TStruct [
  field "Name" "name" Always TString;
  field "Description" "description" OmitEmpty TString;
  field "FieldContext" "fieldContext" OmitEmpty TString;
  field "FieldDataType" "fieldDataType" OmitEmpty TString;
  field "Signal" "signal" OmitEmpty TString;
  field "Unit" "unit" OmitEmpty TString].

Definition SavedViewHaving : ty := TStruct [
  field "Expression" "expression" OmitEmpty TString].

Definition SavedViewLimitBy : ty := TStruct [
  field "Keys" "keys" OmitEmpty (TSlice TString);
  field "Value" "value" OmitEmpty TString].

Definition SavedViewKey : ty := TStruct [
  field "Name" "name" Always TString;
  field "Description" "description" OmitEmpty TString;
  field "FieldContext" "fieldContext" OmitEmpty TString;
  field "FieldDataType" "fieldDataType" OmitEmpty TString;
  field "Signal" "signal" OmitEmpty TString;
  field "Unit" "unit" OmitEmpty TString].

Definition SavedViewOrder : ty := TStruct [
  field "Direction" "direction" OmitEmpty TString;
  field "Key" "key" OmitEmpty (TPtr SavedViewKey)].

Definition SavedViewSecondaryAggregationGroupBy : ty := TStruct [
  field "Name" "name" Always TString;
  field "Description" "description" OmitEmpty TString;
  field "FieldContext" "fieldContext" OmitEmpty TString;
  field "FieldDataType" "fieldDataType" OmitEmpty TString;
  field "Signal" "signal" OmitEmpty TString;
  field "Unit" "unit" OmitEmpty TString].

Definition SavedViewSecondaryAggregationLimitBy : ty := TStruct [
  field "Keys" "keys" OmitEmpty (TSlice TString);
  field "Value" "value" OmitEmpty TString].

Definition SavedViewSecondaryAggregationOrder : ty := TStruct [
  field "Direction" "direction" OmitEmpty TString;
  field "Key" "key" OmitEmpty (TPtr SavedViewKey)].

Definition SavedViewSecondaryAggregation : ty := TStruct [
  field "Alias" "alias" OmitEmpty TString;
  field "Expression" "expression" OmitEmpty TString;
  field "GroupBy" "groupBy" OmitEmpty (TSlice SavedViewSecondaryAggregationGroupBy);
  field "Limit" "limit" OmitEmpty TInt64;
  field "LimitBy" "limitBy" OmitEmpty (TPtr SavedViewSecondaryAggregationLimitBy);
  field "Order" "order" OmitEmpty (TSlice SavedViewSecondaryAggregationOrder);
  field "StepInterval" "stepInterval" OmitEmpty (TPtr (external "apiextensionsv1.JSON"))].

Definition SavedViewSelectField : ty := TStruct [
  field "Name" "name" Always TString;
  field "Description" "description" OmitEmpty TString;
  field "FieldContext" "fieldContext" OmitEmpty TString;
  field "FieldDataType" "fieldDataType" OmitEmpty TString;
  field "Signal" "signal" OmitEmpty TString;
  field "Unit" "unit" OmitEmpty TString].

Definition SavedViewQuerySpec : ty := TStruct [
  field "Aggregations" "aggregations" OmitEmpty (TSlice SavedViewAggregation);
  field "BucketOptions" "bucketOptions" OmitEmpty (TPtr SavedViewBucketOptions);
  field "Cursor" "cursor" OmitEmpty TString;
  field "Disabled" "disabled" OmitEmpty TBool;
  field "Expression" "expression" OmitEmpty TString;
  field "Filter" "filter" OmitEmpty (TPtr SavedViewFilter);
  field "Functions" "functions" OmitEmpty (TSlice SavedViewFunction);
  field "GroupBy" "groupBy" OmitEmpty (TSlice SavedViewGroupBy);
  field "Having" "having" OmitEmpty (TPtr SavedViewHaving);
  field "Legend" "legend" OmitEmpty TString;
  field "Limit" "limit" OmitEmpty TInt64;
  field "LimitBy" "limitBy" OmitEmpty (TPtr SavedViewLimitBy);
  field "Name" "name" OmitEmpty TString;
  field "Offset" "offset" OmitEmpty TInt64;
  field "Order" "order" OmitEmpty (TSlice SavedViewOrder);
  field "Query" "query" OmitEmpty TString;
  field "ReturnSpansFrom" "returnSpansFrom" OmitEmpty TString;
  field "SecondaryAggregations" "secondaryAggregations" OmitEmpty (TSlice SavedViewSecondaryAggregation);
  field "SelectFields" "selectFields" OmitEmpty (TSlice SavedViewSelectField);
  field "Signal" "signal" OmitEmpty TString;
  field "SkipStepAlignment" "skipStepAlignment" OmitEmpty TBool;
  field "Source" "source" OmitEmpty TString;
  field "Stats" "stats" OmitEmpty TBool;
  field "Step" "step" OmitEmpty (TPtr (external "apiextensionsv1.JSON"));
  field "StepInterval" "stepInterval" OmitEmpty (TPtr (external "apiextensionsv1.JSON"))].

Definition SavedViewQuery : ty := TStruct [
  field "Type" "type" Always TString;
  field "Spec" "spec" OmitEmpty (TPtr SavedViewQuerySpec)].

Definition SavedViewDisplay : ty := TStruct [
  field "Color" "color" OmitEmpty TString;
  field "FontSize" "fontSize" OmitEmpty TString;
  field "Format" "format" OmitEmpty TString;
  field "MaxLines" "maxLines" OmitEmpty TInt64].

Definition SavedViewSelectedField : ty := TStruct [
  field "Name" "name" Always TString;
  field "Description" "description" OmitEmpty TString;
  field "FieldContext" "fieldContext" OmitEmpty TString;
  field "FieldDataType" "fieldDataType" OmitEmpty TString;
  field "Signal" "signal" OmitEmpty TString;
  field "Unit" "unit" OmitEmpty TString].

Definition SavedViewSpecPayload : ty := TStruct [
  field "DisplayName" "displayName" Always TString;
  field "PanelType" "panelType" Always TString;
  field "Queries" "queries" Always (TSlice SavedViewQuery);
  field "RequestType" "requestType" Always TString;
  field "Display" "display" OmitEmpty (TPtr SavedViewDisplay);
  field "SelectedFields" "selectedFields" OmitEmpty (TSlice SavedViewSelectedField)].

Definition SavedViewObjectSpec : ty := TStruct [
  field "SchemaVersion" "schemaVersion" Always TString;
  field "Source" "source" Always TString;
  field "Spec" "spec" Always SavedViewSpecPayload;
  field "Name" "name" OmitEmpty TString].

Definition SavedViewObjectTemplate : ty := TStruct [
  field "Spec" "spec" OmitEmpty (TPtr SavedViewObjectSpec);
  field "JSONSpec" "jsonSpec" OmitEmpty (TPtr TString)].

Definition SavedViewSpec : ty := TStruct [
  field "CoreSpec" "" Inline CoreSpec;
  field "ObjectTemplate" "objectTemplate" Always SavedViewObjectTemplate].

Definition SavedViewStatus : ty := TStruct [
  field "CoreStatus" "" Inline CoreStatus].

Definition SavedView : ty := TStruct [
  field "TypeMeta" "" Inline (external "metav1.TypeMeta");
  field "ObjectMeta" "metadata" OmitZero (external "metav1.ObjectMeta");
  field "Spec" "spec" Always SavedViewSpec;
  field "Status" "status" OmitZero SavedViewStatus].

Definition SavedViewList : ty := TStruct [
  field "TypeMeta" "" Inline (external "metav1.TypeMeta");
  field "ListMeta" "metadata" OmitZero (external "metav1.ListMeta");
  field "Items" "items" Always (TSlice SavedView)].

Definition ServiceAccountObjectSpec : ty := TStruct [
  field "Name" "name" Always TString].

Definition ServiceAccountObjectTemplate : ty := TStruct [
  field "Spec" "spec" OmitEmpty (TPtr ServiceAccountObjectSpec);
  field "JSONSpec" "jsonSpec" OmitEmpty (TPtr TString)].

Definition ServiceAccountSpec : ty := TStruct [
  field "CoreSpec" "" Inline CoreSpec;
  field "ObjectTemplate" "objectTemplate" Always ServiceAccountObjectTemplate].

Definition ServiceAccountStatus : ty := TStruct [
  field "CoreStatus" "" Inline CoreStatus].

Definition ServiceAccount : ty := TStruct [
  field "TypeMeta" "" Inline (external "metav1.TypeMeta");
  field "ObjectMeta" "metadata" OmitZero (external "metav1.ObjectMeta");
  field "Spec" "spec" Always ServiceAccountSpec;
  field "Status" "status" OmitZero ServiceAccountStatus].

Definition ServiceAccountList : ty := TStruct [
  field "TypeMeta" "" Inline (external "metav1.TypeMeta");
  field "ListMeta" "metadata" OmitZero (external "metav1.ListMeta");
  field "Items" "items" Always (TSlice ServiceAccount)].

Definition UserObjectSpec : ty := TStruct [
  field "Email" "email" Always TString;
  field "DisplayName" "displayName" OmitEmpty TString].

Definition UserObjectTemplate : ty := TStruct [
  field "Spec" "spec" OmitEmpty (TPtr UserObjectSpec);
  field "JSONSpec" "jsonSpec" OmitEmpty (TPtr TString)].

Definition UserSpec : ty := TStruct [
  field "CoreSpec" "" Inline CoreSpec;
  field "ObjectTemplate" "objectTemplate" Always UserObjectTemplate].

Definition UserStatus : ty := TStruct [
  field "CoreStatus" "" Inline CoreStatus].

Definition User : ty := TStruct [
  field "TypeMeta" "" Inline (external "metav1.TypeMeta");
  field "ObjectMeta" "metadata" OmitZero (external "metav1.ObjectMeta");
  field "Spec" "spec" Always UserSpec;
  field "Status" "status" OmitZero UserStatus].

Definition UserList : ty := TStruct [
  field "TypeMeta" "" Inline (external "metav1.TypeMeta");
  field "ListMeta" "metadata" OmitZero (external "metav1.ListMeta");
  field "Items" "items" Always (TSlice User)].
End ApiTypes.
