(* ===== verification/DeepCopy.v ===== *)
(** * api/resources/v1alpha1/zz_generated.deepcopy.go

    The methods DeepCopyInto, DeepCopy and DeepCopyObject of every type: for a
    DeepCopyInto, the statement each field has after [*out = *in]. *)

From S2P Require Import Prelude GoTypes ApiTypes.
From Stdlib Require Import String.

Local Open Scope string_scope.

Section DeepCopy.
Context `{ET : ExternalTypes}.

Definition ValueSource_DeepCopyInto : copier := copy_fields [
  ("SecretKeyRef", new_pointer (external_DeepCopyInto "corev1.SecretKeySelector"));
  ("ConfigMapKeyRef", new_pointer (external_DeepCopyInto "corev1.ConfigMapKeySelector"))].
Definition ValueSource_DeepCopy : copier := DeepCopy_with ValueSource_DeepCopyInto.

Definition Endpoint_DeepCopyInto : copier := copy_fields [
  ("ValueFrom", new_pointer ValueSource_DeepCopyInto)].
Definition Endpoint_DeepCopy : copier := DeepCopy_with Endpoint_DeepCopyInto.

Definition HeaderAuth_DeepCopyInto : copier := copy_fields [
  ("ValueFrom", new_pointer ValueSource_DeepCopyInto)].
Definition HeaderAuth_DeepCopy : copier := DeepCopy_with HeaderAuth_DeepCopyInto.

Definition Authentication_DeepCopyInto : copier := copy_fields [
  ("Header", new_pointer HeaderAuth_DeepCopyInto)].
Definition Authentication_DeepCopy : copier := DeepCopy_with Authentication_DeepCopyInto.

Definition TLSConfig_DeepCopyInto : copier := copy_fields [
  ("CASecretRef", new_pointer (external_DeepCopyInto "corev1.SecretKeySelector"))].
Definition TLSConfig_DeepCopy : copier := DeepCopy_with TLSConfig_DeepCopyInto.

Definition ProviderConfigSpec_DeepCopyInto : copier := copy_fields [
  ("Endpoint", Endpoint_DeepCopyInto);
  ("Auth", Authentication_DeepCopyInto);
  ("TLS", new_pointer TLSConfig_DeepCopyInto)].
Definition ProviderConfigSpec_DeepCopy : copier := DeepCopy_with ProviderConfigSpec_DeepCopyInto.

Definition ProviderConfigStatus_DeepCopyInto : copier := copy_fields [
  ("Conditions", new_slice (external_DeepCopyInto "metav1.Condition"));
  ("ObservedRefVersions", new_map (new_map assigned))].
Definition ProviderConfigStatus_DeepCopy : copier := DeepCopy_with ProviderConfigStatus_DeepCopyInto.

Definition ClusterProviderConfig_DeepCopyInto : copier := copy_fields [
  ("TypeMeta", assigned);
  ("ObjectMeta", external_DeepCopyInto "metav1.ObjectMeta");
  ("Spec", ProviderConfigSpec_DeepCopyInto);
  ("Status", ProviderConfigStatus_DeepCopyInto)].
Definition ClusterProviderConfig_DeepCopy : copier := DeepCopy_with ClusterProviderConfig_DeepCopyInto.
Definition ClusterProviderConfig_DeepCopyObject : copier := DeepCopyObject_with ClusterProviderConfig_DeepCopy.

Definition ClusterProviderConfigList_DeepCopyInto : copier := copy_fields [
  ("TypeMeta", assigned);
  ("ListMeta", external_DeepCopyInto "metav1.ListMeta");
  ("Items", new_slice ClusterProviderConfig_DeepCopyInto)].
Definition ClusterProviderConfigList_DeepCopy : copier := DeepCopy_with ClusterProviderConfigList_DeepCopyInto.
Definition ClusterProviderConfigList_DeepCopyObject : copier := DeepCopyObject_with ClusterProviderConfigList_DeepCopy.

Definition ProviderConfigRef_DeepCopyInto : copier := copy_fields [].
Definition ProviderConfigRef_DeepCopy : copier := DeepCopy_with ProviderConfigRef_DeepCopyInto.

Definition CoreSpec_DeepCopyInto : copier := copy_fields [
  ("ProviderConfigRef", assigned);
  ("Interval", new_pointer assigned);
  ("RetryInterval", new_pointer assigned);
  ("Timeout", new_pointer assigned)].
Definition CoreSpec_DeepCopy : copier := DeepCopy_with CoreSpec_DeepCopyInto.

Definition SigNozResource_DeepCopyInto : copier := copy_fields [
  ("ID", new_pointer assigned)].
Definition SigNozResource_DeepCopy : copier := DeepCopy_with SigNozResource_DeepCopyInto.

Definition CoreStatus_DeepCopyInto : copier := copy_fields [
  ("Conditions", new_slice (external_DeepCopyInto "metav1.Condition"));
  ("SigNozResource", new_pointer SigNozResource_DeepCopyInto);
  ("ReconciledAt", external_DeepCopyInto "metav1.Time")].
Definition CoreStatus_DeepCopy : copier := DeepCopy_with CoreStatus_DeepCopyInto.

Definition ProviderConfig_DeepCopyInto : copier := copy_fields [
  ("TypeMeta", assigned);
  ("ObjectMeta", external_DeepCopyInto "metav1.ObjectMeta");
  ("Spec", ProviderConfigSpec_DeepCopyInto);
  ("Status", ProviderConfigStatus_DeepCopyInto)].
Definition ProviderConfig_DeepCopy : copier := DeepCopy_with ProviderConfig_DeepCopyInto.
Definition ProviderConfig_DeepCopyObject : copier := DeepCopyObject_with ProviderConfig_DeepCopy.

Definition ProviderConfigList_DeepCopyInto : copier := copy_fields [
  ("TypeMeta", assigned);
  ("ListMeta", external_DeepCopyInto "metav1.ListMeta");
  ("Items", new_slice ProviderConfig_DeepCopyInto)].
Definition ProviderConfigList_DeepCopy : copier := DeepCopy_with ProviderConfigList_DeepCopyInto.
Definition ProviderConfigList_DeepCopyObject : copier := DeepCopyObject_with ProviderConfigList_DeepCopy.

Definition AuthDomainAttributeMapping_DeepCopyInto : copier := copy_fields [].
Definition AuthDomainAttributeMapping_DeepCopy : copier := DeepCopy_with AuthDomainAttributeMapping_DeepCopyInto.

Definition AuthDomainConfigSpec_DeepCopyInto : copier := copy_fields [
  ("AllowedGroups", new_slice assigned);
  ("AttributeMapping", new_pointer assigned);
  ("ClaimMapping", new_pointer assigned);
  ("DomainToAdminEmail", new_map assigned)].
Definition AuthDomainConfigSpec_DeepCopy : copier := DeepCopy_with AuthDomainConfigSpec_DeepCopyInto.

Definition AuthDomainConfig_DeepCopyInto : copier := copy_fields [
  ("Spec", AuthDomainConfigSpec_DeepCopyInto)].
Definition AuthDomainConfig_DeepCopy : copier := DeepCopy_with AuthDomainConfig_DeepCopyInto.

Definition AuthDomainRoleMapping_DeepCopyInto : copier := copy_fields [
  ("GroupMappings", new_map assigned)].
Definition AuthDomainRoleMapping_DeepCopy : copier := DeepCopy_with AuthDomainRoleMapping_DeepCopyInto.

Definition AuthDomainObjectSpec_DeepCopyInto : copier := copy_fields [
  ("Config", AuthDomainConfig_DeepCopyInto);
  ("RoleMapping", new_pointer AuthDomainRoleMapping_DeepCopyInto)].
Definition AuthDomainObjectSpec_DeepCopy : copier := DeepCopy_with AuthDomainObjectSpec_DeepCopyInto.

Definition AuthDomainObjectTemplate_DeepCopyInto : copier := copy_fields [
  ("Spec", new_pointer AuthDomainObjectSpec_DeepCopyInto);
  ("JSONSpec", new_pointer assigned)].
Definition AuthDomainObjectTemplate_DeepCopy : copier := DeepCopy_with AuthDomainObjectTemplate_DeepCopyInto.

Definition AuthDomainSpec_DeepCopyInto : copier := copy_fields [
  ("CoreSpec", CoreSpec_DeepCopyInto);
  ("ObjectTemplate", AuthDomainObjectTemplate_DeepCopyInto)].
Definition AuthDomainSpec_DeepCopy : copier := DeepCopy_with AuthDomainSpec_DeepCopyInto.

Definition AuthDomainStatus_DeepCopyInto : copier := copy_fields [
  ("CoreStatus", CoreStatus_DeepCopyInto)].
Definition AuthDomainStatus_DeepCopy : copier := DeepCopy_with AuthDomainStatus_DeepCopyInto.

Definition AuthDomain_DeepCopyInto : copier := copy_fields [
  ("TypeMeta", assigned);
  ("ObjectMeta", external_DeepCopyInto "metav1.ObjectMeta");
  ("Spec", AuthDomainSpec_DeepCopyInto);
  ("Status", AuthDomainStatus_DeepCopyInto)].
Definition AuthDomain_DeepCopy : copier := DeepCopy_with AuthDomain_DeepCopyInto.
Definition AuthDomain_DeepCopyObject : copier := DeepCopyObject_with AuthDomain_DeepCopy.

Definition AuthDomainList_DeepCopyInto : copier := copy_fields [
  ("TypeMeta", assigned);
  ("ListMeta", external_DeepCopyInto "metav1.ListMeta");
  ("Items", new_slice AuthDomain_DeepCopyInto)].
Definition AuthDomainList_DeepCopy : copier := DeepCopy_with AuthDomainList_DeepCopyInto.
Definition AuthDomainList_DeepCopyObject : copier := DeepCopyObject_with AuthDomainList_DeepCopy.

Definition DashboardDisplay_DeepCopyInto : copier := copy_fields [].
Definition DashboardDisplay_DeepCopy : copier := DeepCopy_with DashboardDisplay_DeepCopyInto.

Definition DashboardCollapse_DeepCopyInto : copier := copy_fields [].
Definition DashboardCollapse_DeepCopy : copier := DeepCopy_with DashboardCollapse_DeepCopyInto.

Definition DashboardLayoutSpecDisplay_DeepCopyInto : copier := copy_fields [
  ("Collapse", new_pointer assigned)].
Definition DashboardLayoutSpecDisplay_DeepCopy : copier := DeepCopy_with DashboardLayoutSpecDisplay_DeepCopyInto.

Definition DashboardContent_DeepCopyInto : copier := copy_fields [].
Definition DashboardContent_DeepCopy : copier := DeepCopy_with DashboardContent_DeepCopyInto.

Definition DashboardItem_DeepCopyInto : copier := copy_fields [
  ("Content", new_pointer assigned)].
Definition DashboardItem_DeepCopy : copier := DeepCopy_with DashboardItem_DeepCopyInto.

Definition DashboardLayoutSpec_DeepCopyInto : copier := copy_fields [
  ("Display", new_pointer DashboardLayoutSpecDisplay_DeepCopyInto);
  ("Items", new_slice DashboardItem_DeepCopyInto)].
Definition DashboardLayoutSpec_DeepCopy : copier := DeepCopy_with DashboardLayoutSpec_DeepCopyInto.

Definition DashboardLayout_DeepCopyInto : copier := copy_fields [
  ("Spec", DashboardLayoutSpec_DeepCopyInto)].
Definition DashboardLayout_DeepCopy : copier := DeepCopy_with DashboardLayout_DeepCopyInto.

Definition DashboardY_DeepCopyInto : copier := copy_fields [].
Definition DashboardY_DeepCopy : copier := DeepCopy_with DashboardY_DeepCopyInto.

Definition DashboardAxes_DeepCopyInto : copier := copy_fields [
  ("SoftMax", new_pointer assigned);
  ("SoftMin", new_pointer assigned);
  ("Y", new_pointer assigned)].
Definition DashboardAxes_DeepCopy : copier := DeepCopy_with DashboardAxes_DeepCopyInto.

Definition DashboardColors_DeepCopyInto : copier := copy_fields [
  ("MaxCount", new_pointer assigned);
  ("MinCount", new_pointer assigned)].
Definition DashboardColors_DeepCopy : copier := DeepCopy_with DashboardColors_DeepCopyInto.

Definition DashboardSpanGaps_DeepCopyInto : copier := copy_fields [].
Definition DashboardSpanGaps_DeepCopy : copier := DeepCopy_with DashboardSpanGaps_DeepCopyInto.

Definition DashboardChartAppearance_DeepCopyInto : copier := copy_fields [
  ("Colors", new_pointer DashboardColors_DeepCopyInto);
  ("FillOpacity", new_pointer assigned);
  ("SpanGaps", new_pointer assigned)].
Definition DashboardChartAppearance_DeepCopy : copier := DeepCopy_with DashboardChartAppearance_DeepCopyInto.

Definition DashboardFormatting_DeepCopyInto : copier := copy_fields [
  ("ColumnUnits", new_map assigned)].
Definition DashboardFormatting_DeepCopy : copier := DeepCopy_with DashboardFormatting_DeepCopyInto.

Definition DashboardHeaderOptions_DeepCopyInto : copier := copy_fields [].
Definition DashboardHeaderOptions_DeepCopy : copier := DeepCopy_with DashboardHeaderOptions_DeepCopyInto.

Definition DashboardHistogramBuckets_DeepCopyInto : copier := copy_fields [
  ("BucketCount", new_pointer assigned);
  ("BucketWidth", new_pointer assigned)].
Definition DashboardHistogramBuckets_DeepCopy : copier := DeepCopy_with DashboardHistogramBuckets_DeepCopyInto.

Definition DashboardLegend_DeepCopyInto : copier := copy_fields [
  ("CustomColors", new_map assigned)].
Definition DashboardLegend_DeepCopy : copier := DeepCopy_with DashboardLegend_DeepCopyInto.

Definition DashboardPresentation_DeepCopyInto : copier := copy_fields [].
Definition DashboardPresentation_DeepCopy : copier := DeepCopy_with DashboardPresentation_DeepCopyInto.

Definition DashboardSelectField_DeepCopyInto : copier := copy_fields [].
Definition DashboardSelectField_DeepCopy : copier := DeepCopy_with DashboardSelectField_DeepCopyInto.

Definition DashboardThreshold_DeepCopyInto : copier := copy_fields [].
Definition DashboardThreshold_DeepCopy : copier := DeepCopy_with DashboardThreshold_DeepCopyInto.

Definition DashboardVisualization_DeepCopyInto : copier := copy_fields [].
Definition DashboardVisualization_DeepCopy : copier := DeepCopy_with DashboardVisualization_DeepCopyInto.

Definition DashboardPluginSpec_DeepCopyInto : copier := copy_fields [
  ("Axes", new_pointer DashboardAxes_DeepCopyInto);
  ("ChartAppearance", new_pointer DashboardChartAppearance_DeepCopyInto);
  ("Formatting", new_pointer DashboardFormatting_DeepCopyInto);
  ("HeaderOptions", new_pointer assigned);
  ("HistogramBuckets", new_pointer DashboardHistogramBuckets_DeepCopyInto);
  ("Legend", new_pointer DashboardLegend_DeepCopyInto);
  ("Presentation", new_pointer assigned);
  ("SelectFields", new_slice assigned);
  ("Thresholds", new_slice assigned);
  ("Visualization", new_pointer assigned)].
Definition DashboardPluginSpec_DeepCopy : copier := DeepCopy_with DashboardPluginSpec_DeepCopyInto.

Definition DashboardPlugin_DeepCopyInto : copier := copy_fields [
  ("Spec", DashboardPluginSpec_DeepCopyInto)].
Definition DashboardPlugin_DeepCopy : copier := DeepCopy_with DashboardPlugin_DeepCopyInto.

Definition DashboardComparisonSpaceAggregationParam_DeepCopyInto : copier := copy_fields [].
Definition DashboardComparisonSpaceAggregationParam_DeepCopy : copier := DeepCopy_with DashboardComparisonSpaceAggregationParam_DeepCopyInto.

Definition DashboardAggregation_DeepCopyInto : copier := copy_fields [
  ("ComparisonSpaceAggregationParam", new_pointer assigned)].
Definition DashboardAggregation_DeepCopy : copier := DeepCopy_with DashboardAggregation_DeepCopyInto.

Definition DashboardBucketOptionsSpec_DeepCopyInto : copier := copy_fields [
  ("Scale", new_pointer assigned)].
Definition DashboardBucketOptionsSpec_DeepCopy : copier := DeepCopy_with DashboardBucketOptionsSpec_DeepCopyInto.

Definition DashboardBucketOptions_DeepCopyInto : copier := copy_fields [
  ("Spec", DashboardBucketOptionsSpec_DeepCopyInto)].
Definition DashboardBucketOptions_DeepCopy : copier := DeepCopy_with DashboardBucketOptions_DeepCopyInto.

Definition DashboardFilter_DeepCopyInto : copier := copy_fields [].
Definition DashboardFilter_DeepCopy : copier := DeepCopy_with DashboardFilter_DeepCopyInto.

Definition DashboardArg_DeepCopyInto : copier := copy_fields [
  ("Value", new_pointer (external_DeepCopyInto "apiextensionsv1.JSON"))].
Definition DashboardArg_DeepCopy : copier := DeepCopy_with DashboardArg_DeepCopyInto.

Definition DashboardFunction_DeepCopyInto : copier := copy_fields [
  ("Args", new_slice DashboardArg_DeepCopyInto)].
Definition DashboardFunction_DeepCopy : copier := DeepCopy_with DashboardFunction_DeepCopyInto.

Definition DashboardGroupBy_DeepCopyInto : copier := copy_fields [].
Definition DashboardGroupBy_DeepCopy : copier := DeepCopy_with DashboardGroupBy_DeepCopyInto.

Definition DashboardHaving_DeepCopyInto : copier := copy_fields [].
Definition DashboardHaving_DeepCopy : copier := DeepCopy_with DashboardHaving_DeepCopyInto.

Definition DashboardLimitBy_DeepCopyInto : copier := copy_fields [
  ("Keys", new_slice assigned)].
Definition DashboardLimitBy_DeepCopy : copier := DeepCopy_with DashboardLimitBy_DeepCopyInto.

Definition DashboardKey_DeepCopyInto : copier := copy_fields [].
Definition DashboardKey_DeepCopy : copier := DeepCopy_with DashboardKey_DeepCopyInto.

Definition DashboardOrder_DeepCopyInto : copier := copy_fields [
  ("Key", new_pointer assigned)].
Definition DashboardOrder_DeepCopy : copier := DeepCopy_with DashboardOrder_DeepCopyInto.

Definition DashboardQuerySpecPluginSpecQuerySpecAggregation_DeepCopyInto : copier := copy_fields [
  ("ComparisonSpaceAggregationParam", new_pointer assigned)].
Definition DashboardQuerySpecPluginSpecQuerySpecAggregation_DeepCopy : copier := DeepCopy_with DashboardQuerySpecPluginSpecQuerySpecAggregation_DeepCopyInto.

Definition DashboardQuerySpecPluginSpecQuerySpecBucketOptionsSpec_DeepCopyInto : copier := copy_fields [
  ("Scale", new_pointer assigned)].
Definition DashboardQuerySpecPluginSpecQuerySpecBucketOptionsSpec_DeepCopy : copier := DeepCopy_with DashboardQuerySpecPluginSpecQuerySpecBucketOptionsSpec_DeepCopyInto.

Definition DashboardQuerySpecPluginSpecQuerySpecBucketOptions_DeepCopyInto : copier := copy_fields [
  ("Spec", DashboardQuerySpecPluginSpecQuerySpecBucketOptionsSpec_DeepCopyInto)].
Definition DashboardQuerySpecPluginSpecQuerySpecBucketOptions_DeepCopy : copier := DeepCopy_with DashboardQuerySpecPluginSpecQuerySpecBucketOptions_DeepCopyInto.

Definition DashboardQuerySpecPluginSpecQuerySpecFilter_DeepCopyInto : copier := copy_fields [].
Definition DashboardQuerySpecPluginSpecQuerySpecFilter_DeepCopy : copier := DeepCopy_with DashboardQuerySpecPluginSpecQuerySpecFilter_DeepCopyInto.

Definition DashboardQuerySpecPluginSpecQuerySpecFunction_DeepCopyInto : copier := copy_fields [
  ("Args", new_slice DashboardArg_DeepCopyInto)].
Definition DashboardQuerySpecPluginSpecQuerySpecFunction_DeepCopy : copier := DeepCopy_with DashboardQuerySpecPluginSpecQuerySpecFunction_DeepCopyInto.

Definition DashboardQuerySpecPluginSpecQuerySpecGroupBy_DeepCopyInto : copier := copy_fields [].
Definition DashboardQuerySpecPluginSpecQuerySpecGroupBy_DeepCopy : copier := DeepCopy_with DashboardQuerySpecPluginSpecQuerySpecGroupBy_DeepCopyInto.

Definition DashboardQuerySpecPluginSpecQuerySpecHaving_DeepCopyInto : copier := copy_fields [].
Definition DashboardQuerySpecPluginSpecQuerySpecHaving_DeepCopy : copier := DeepCopy_with DashboardQuerySpecPluginSpecQuerySpecHaving_DeepCopyInto.

Definition DashboardQuerySpecPluginSpecQuerySpecLimitBy_DeepCopyInto : copier := copy_fields [
  ("Keys", new_slice assigned)].
Definition DashboardQuerySpecPluginSpecQuerySpecLimitBy_DeepCopy : copier := DeepCopy_with DashboardQuerySpecPluginSpecQuerySpecLimitBy_DeepCopyInto.

Definition DashboardQuerySpecPluginSpecQuerySpecOrder_DeepCopyInto : copier := copy_fields [
  ("Key", new_pointer assigned)].
Definition DashboardQuerySpecPluginSpecQuerySpecOrder_DeepCopy : copier := DeepCopy_with DashboardQuerySpecPluginSpecQuerySpecOrder_DeepCopyInto.

Definition DashboardSecondaryAggregationGroupBy_DeepCopyInto : copier := copy_fields [].
Definition DashboardSecondaryAggregationGroupBy_DeepCopy : copier := DeepCopy_with DashboardSecondaryAggregationGroupBy_DeepCopyInto.

Definition DashboardSecondaryAggregationLimitBy_DeepCopyInto : copier := copy_fields [
  ("Keys", new_slice assigned)].
Definition DashboardSecondaryAggregationLimitBy_DeepCopy : copier := DeepCopy_with DashboardSecondaryAggregationLimitBy_DeepCopyInto.

Definition DashboardSecondaryAggregationOrder_DeepCopyInto : copier := copy_fields [
  ("Key", new_pointer assigned)].
Definition DashboardSecondaryAggregationOrder_DeepCopy : copier := DeepCopy_with DashboardSecondaryAggregationOrder_DeepCopyInto.

Definition DashboardSecondaryAggregation_DeepCopyInto : copier := copy_fields [
  ("GroupBy", new_slice assigned);
  ("LimitBy", new_pointer DashboardSecondaryAggregationLimitBy_DeepCopyInto);
  ("Order", new_slice DashboardSecondaryAggregationOrder_DeepCopyInto);
  ("StepInterval", new_pointer (external_DeepCopyInto "apiextensionsv1.JSON"))].
Definition DashboardSecondaryAggregation_DeepCopy : copier := DeepCopy_with DashboardSecondaryAggregation_DeepCopyInto.

Definition DashboardQuerySpecPluginSpecQuerySpecSelectField_DeepCopyInto : copier := copy_fields [].
Definition DashboardQuerySpecPluginSpecQuerySpecSelectField_DeepCopy : copier := DeepCopy_with DashboardQuerySpecPluginSpecQuerySpecSelectField_DeepCopyInto.

Definition DashboardQuerySpecPluginSpecQuerySpec_DeepCopyInto : copier := copy_fields [
  ("Aggregations", new_slice DashboardQuerySpecPluginSpecQuerySpecAggregation_DeepCopyInto);
  ("BucketOptions", new_pointer DashboardQuerySpecPluginSpecQuerySpecBucketOptions_DeepCopyInto);
  ("Filter", new_pointer assigned);
  ("Functions", new_slice DashboardQuerySpecPluginSpecQuerySpecFunction_DeepCopyInto);
  ("GroupBy", new_slice assigned);
  ("Having", new_pointer assigned);
  ("LimitBy", new_pointer DashboardQuerySpecPluginSpecQuerySpecLimitBy_DeepCopyInto);
  ("Order", new_slice DashboardQuerySpecPluginSpecQuerySpecOrder_DeepCopyInto);
  ("SecondaryAggregations", new_slice DashboardSecondaryAggregation_DeepCopyInto);
  ("SelectFields", new_slice assigned);
  ("Step", new_pointer (external_DeepCopyInto "apiextensionsv1.JSON"));
  ("StepInterval", new_pointer (external_DeepCopyInto "apiextensionsv1.JSON"))].
Definition DashboardQuerySpecPluginSpecQuerySpec_DeepCopy : copier := DeepCopy_with DashboardQuerySpecPluginSpecQuerySpec_DeepCopyInto.

Definition DashboardQuerySpecPluginSpecQuery_DeepCopyInto : copier := copy_fields [
  ("Spec", new_pointer DashboardQuerySpecPluginSpecQuerySpec_DeepCopyInto)].
Definition DashboardQuerySpecPluginSpecQuery_DeepCopy : copier := DeepCopy_with DashboardQuerySpecPluginSpecQuery_DeepCopyInto.

Definition DashboardQuerySpecPluginSpecSelectField_DeepCopyInto : copier := copy_fields [].
Definition DashboardQuerySpecPluginSpecSelectField_DeepCopy : copier := DeepCopy_with DashboardQuerySpecPluginSpecSelectField_DeepCopyInto.

Definition DashboardQuerySpecPluginSpec_DeepCopyInto : copier := copy_fields [
  ("Aggregations", new_slice DashboardAggregation_DeepCopyInto);
  ("BucketOptions", new_pointer DashboardBucketOptions_DeepCopyInto);
  ("Filter", new_pointer assigned);
  ("Functions", new_slice DashboardFunction_DeepCopyInto);
  ("GroupBy", new_slice assigned);
  ("Having", new_pointer assigned);
  ("LimitBy", new_pointer DashboardLimitBy_DeepCopyInto);
  ("Order", new_slice DashboardOrder_DeepCopyInto);
  ("Queries", new_slice DashboardQuerySpecPluginSpecQuery_DeepCopyInto);
  ("SecondaryAggregations", new_slice DashboardSecondaryAggregation_DeepCopyInto);
  ("SelectFields", new_slice assigned);
  ("Step", new_pointer (external_DeepCopyInto "apiextensionsv1.JSON"));
  ("StepInterval", new_pointer (external_DeepCopyInto "apiextensionsv1.JSON"))].
Definition DashboardQuerySpecPluginSpec_DeepCopy : copier := DeepCopy_with DashboardQuerySpecPluginSpec_DeepCopyInto.

Definition DashboardQuerySpecPlugin_DeepCopyInto : copier := copy_fields [
  ("Spec", DashboardQuerySpecPluginSpec_DeepCopyInto)].
Definition DashboardQuerySpecPlugin_DeepCopy : copier := DeepCopy_with DashboardQuerySpecPlugin_DeepCopyInto.

Definition DashboardQuerySpec_DeepCopyInto : copier := copy_fields [
  ("Plugin", DashboardQuerySpecPlugin_DeepCopyInto)].
Definition DashboardQuerySpec_DeepCopy : copier := DeepCopy_with DashboardQuerySpec_DeepCopyInto.

Definition DashboardQuery_DeepCopyInto : copier := copy_fields [
  ("Spec", DashboardQuerySpec_DeepCopyInto)].
Definition DashboardQuery_DeepCopy : copier := DeepCopy_with DashboardQuery_DeepCopyInto.

Definition DashboardLink_DeepCopyInto : copier := copy_fields [].
Definition DashboardLink_DeepCopy : copier := DeepCopy_with DashboardLink_DeepCopyInto.

Definition DashboardPanelSpec_DeepCopyInto : copier := copy_fields [
  ("Display", assigned);
  ("Plugin", DashboardPlugin_DeepCopyInto);
  ("Queries", new_slice DashboardQuery_DeepCopyInto);
  ("Links", new_slice assigned)].
Definition DashboardPanelSpec_DeepCopy : copier := DeepCopy_with DashboardPanelSpec_DeepCopyInto.

Definition DashboardPanel_DeepCopyInto : copier := copy_fields [
  ("Spec", DashboardPanelSpec_DeepCopyInto)].
Definition DashboardPanel_DeepCopy : copier := DeepCopy_with DashboardPanel_DeepCopyInto.

Definition DashboardVariableSpecPluginSpec_DeepCopyInto : copier := copy_fields [].
Definition DashboardVariableSpecPluginSpec_DeepCopy : copier := DeepCopy_with DashboardVariableSpecPluginSpec_DeepCopyInto.

Definition DashboardVariableSpecPlugin_DeepCopyInto : copier := copy_fields [
  ("Spec", assigned)].
Definition DashboardVariableSpecPlugin_DeepCopy : copier := DeepCopy_with DashboardVariableSpecPlugin_DeepCopyInto.

Definition DashboardVariableSpec_DeepCopyInto : copier := copy_fields [
  ("DefaultValue", new_pointer (external_DeepCopyInto "apiextensionsv1.JSON"));
  ("Display", new_pointer assigned);
  ("Plugin", new_pointer assigned)].
Definition DashboardVariableSpec_DeepCopy : copier := DeepCopy_with DashboardVariableSpec_DeepCopyInto.

Definition DashboardVariable_DeepCopyInto : copier := copy_fields [
  ("Spec", DashboardVariableSpec_DeepCopyInto)].
Definition DashboardVariable_DeepCopy : copier := DeepCopy_with DashboardVariable_DeepCopyInto.

Definition DashboardSpecPayload_DeepCopyInto : copier := copy_fields [
  ("Display", assigned);
  ("Layouts", new_slice DashboardLayout_DeepCopyInto);
  ("Panels", new_map (through_DeepCopy DashboardPanel_DeepCopy));
  ("Variables", new_slice DashboardVariable_DeepCopyInto);
  ("Links", new_slice assigned)].
Definition DashboardSpecPayload_DeepCopy : copier := DeepCopy_with DashboardSpecPayload_DeepCopyInto.

Definition DashboardTag_DeepCopyInto : copier := copy_fields [].
Definition DashboardTag_DeepCopy : copier := DeepCopy_with DashboardTag_DeepCopyInto.

Definition DashboardObjectSpec_DeepCopyInto : copier := copy_fields [
  ("Spec", DashboardSpecPayload_DeepCopyInto);
  ("Tags", new_slice assigned)].
Definition DashboardObjectSpec_DeepCopy : copier := DeepCopy_with DashboardObjectSpec_DeepCopyInto.

Definition DashboardObjectTemplate_DeepCopyInto : copier := copy_fields [
  ("Spec", new_pointer DashboardObjectSpec_DeepCopyInto);
  ("JSONSpec", new_pointer assigned)].
Definition DashboardObjectTemplate_DeepCopy : copier := DeepCopy_with DashboardObjectTemplate_DeepCopyInto.

Definition DashboardSpec_DeepCopyInto : copier := copy_fields [
  ("CoreSpec", CoreSpec_DeepCopyInto);
  ("ObjectTemplate", DashboardObjectTemplate_DeepCopyInto)].
Definition DashboardSpec_DeepCopy : copier := DeepCopy_with DashboardSpec_DeepCopyInto.

Definition DashboardStatus_DeepCopyInto : copier := copy_fields [
  ("CoreStatus", CoreStatus_DeepCopyInto)].
Definition DashboardStatus_DeepCopy : copier := DeepCopy_with DashboardStatus_DeepCopyInto.

Definition Dashboard_DeepCopyInto : copier := copy_fields [
  ("TypeMeta", assigned);
  ("ObjectMeta", external_DeepCopyInto "metav1.ObjectMeta");
  ("Spec", DashboardSpec_DeepCopyInto);
  ("Status", DashboardStatus_DeepCopyInto)].
Definition Dashboard_DeepCopy : copier := DeepCopy_with Dashboard_DeepCopyInto.
Definition Dashboard_DeepCopyObject : copier := DeepCopyObject_with Dashboard_DeepCopy.

Definition DashboardList_DeepCopyInto : copier := copy_fields [
  ("TypeMeta", assigned);
  ("ListMeta", external_DeepCopyInto "metav1.ListMeta");
  ("Items", new_slice Dashboard_DeepCopyInto)].
Definition DashboardList_DeepCopy : copier := DeepCopy_with DashboardList_DeepCopyInto.
Definition DashboardList_DeepCopyObject : copier := DeepCopyObject_with DashboardList_DeepCopy.

Definition NotificationChannelConfirm_DeepCopyInto : copier := copy_fields [].
Definition NotificationChannelConfirm_DeepCopy : copier := DeepCopy_with NotificationChannelConfirm_DeepCopyInto.

Definition NotificationChannelAction_DeepCopyInto : copier := copy_fields [
  ("Confirm", new_pointer assigned)].
Definition NotificationChannelAction_DeepCopy : copier := DeepCopy_with NotificationChannelAction_DeepCopyInto.

Definition NotificationChannelField_DeepCopyInto : copier := copy_fields [
  ("Short", new_pointer assigned)].
Definition NotificationChannelField_DeepCopy : copier := DeepCopy_with NotificationChannelField_DeepCopyInto.

Definition NotificationChannelConfigSpec_DeepCopyInto : copier := copy_fields [
  ("Actions", new_slice NotificationChannelAction_DeepCopyInto);
  ("CustomFields", new_pointer (external_DeepCopyInto "apiextensionsv1.JSON"));
  ("Details", new_map assigned);
  ("Fields", new_slice NotificationChannelField_DeepCopyInto);
  ("Headers", new_map assigned);
  ("Labels", new_slice assigned);
  ("Metadata", new_map assigned);
  ("SendResolved", new_pointer assigned)].
Definition NotificationChannelConfigSpec_DeepCopy : copier := DeepCopy_with NotificationChannelConfigSpec_DeepCopyInto.

Definition NotificationChannelConfig_DeepCopyInto : copier := copy_fields [
  ("Spec", NotificationChannelConfigSpec_DeepCopyInto)].
Definition NotificationChannelConfig_DeepCopy : copier := DeepCopy_with NotificationChannelConfig_DeepCopyInto.

Definition NotificationChannelObjectSpec_DeepCopyInto : copier := copy_fields [
  ("Config", NotificationChannelConfig_DeepCopyInto)].
Definition NotificationChannelObjectSpec_DeepCopy : copier := DeepCopy_with NotificationChannelObjectSpec_DeepCopyInto.

Definition NotificationChannelObjectTemplate_DeepCopyInto : copier := copy_fields [
  ("Spec", new_pointer NotificationChannelObjectSpec_DeepCopyInto);
  ("JSONSpec", new_pointer assigned)].
Definition NotificationChannelObjectTemplate_DeepCopy : copier := DeepCopy_with NotificationChannelObjectTemplate_DeepCopyInto.

Definition NotificationChannelSpec_DeepCopyInto : copier := copy_fields [
  ("CoreSpec", CoreSpec_DeepCopyInto);
  ("ObjectTemplate", NotificationChannelObjectTemplate_DeepCopyInto)].
Definition NotificationChannelSpec_DeepCopy : copier := DeepCopy_with NotificationChannelSpec_DeepCopyInto.

Definition NotificationChannelStatus_DeepCopyInto : copier := copy_fields [
  ("CoreStatus", CoreStatus_DeepCopyInto)].
Definition NotificationChannelStatus_DeepCopy : copier := DeepCopy_with NotificationChannelStatus_DeepCopyInto.

Definition NotificationChannel_DeepCopyInto : copier := copy_fields [
  ("TypeMeta", assigned);
  ("ObjectMeta", external_DeepCopyInto "metav1.ObjectMeta");
  ("Spec", NotificationChannelSpec_DeepCopyInto);
  ("Status", NotificationChannelStatus_DeepCopyInto)].
Definition NotificationChannel_DeepCopy : copier := DeepCopy_with NotificationChannel_DeepCopyInto.
Definition NotificationChannel_DeepCopyObject : copier := DeepCopyObject_with NotificationChannel_DeepCopy.

Definition NotificationChannelList_DeepCopyInto : copier := copy_fields [
  ("TypeMeta", assigned);
  ("ListMeta", external_DeepCopyInto "metav1.ListMeta");
  ("Items", new_slice NotificationChannel_DeepCopyInto)].
Definition NotificationChannelList_DeepCopy : copier := DeepCopy_with NotificationChannelList_DeepCopyInto.
Definition NotificationChannelList_DeepCopyObject : copier := DeepCopyObject_with NotificationChannelList_DeepCopy.

Definition PlannedMaintenanceRecurrence_DeepCopyInto : copier := copy_fields [
  ("RepeatOn", new_slice assigned)].
Definition PlannedMaintenanceRecurrence_DeepCopy : copier := DeepCopy_with PlannedMaintenanceRecurrence_DeepCopyInto.

Definition PlannedMaintenanceSchedule_DeepCopyInto : copier := copy_fields [
  ("Recurrence", new_pointer PlannedMaintenanceRecurrence_DeepCopyInto)].
Definition PlannedMaintenanceSchedule_DeepCopy : copier := DeepCopy_with PlannedMaintenanceSchedule_DeepCopyInto.

Definition PlannedMaintenanceObjectSpec_DeepCopyInto : copier := copy_fields [
  ("Schedule", PlannedMaintenanceSchedule_DeepCopyInto);
  ("AlertIds", new_slice assigned)].
Definition PlannedMaintenanceObjectSpec_DeepCopy : copier := DeepCopy_with PlannedMaintenanceObjectSpec_DeepCopyInto.

Definition PlannedMaintenanceObjectTemplate_DeepCopyInto : copier := copy_fields [
  ("Spec", new_pointer PlannedMaintenanceObjectSpec_DeepCopyInto);
  ("JSONSpec", new_pointer assigned)].
Definition PlannedMaintenanceObjectTemplate_DeepCopy : copier := DeepCopy_with PlannedMaintenanceObjectTemplate_DeepCopyInto.

Definition PlannedMaintenanceSpec_DeepCopyInto : copier := copy_fields [
  ("CoreSpec", CoreSpec_DeepCopyInto);
  ("ObjectTemplate", PlannedMaintenanceObjectTemplate_DeepCopyInto)].
Definition PlannedMaintenanceSpec_DeepCopy : copier := DeepCopy_with PlannedMaintenanceSpec_DeepCopyInto.

Definition PlannedMaintenanceStatus_DeepCopyInto : copier := copy_fields [
  ("CoreStatus", CoreStatus_DeepCopyInto)].
Definition PlannedMaintenanceStatus_DeepCopy : copier := DeepCopy_with PlannedMaintenanceStatus_DeepCopyInto.

Definition PlannedMaintenance_DeepCopyInto : copier := copy_fields [
  ("TypeMeta", assigned);
  ("ObjectMeta", external_DeepCopyInto "metav1.ObjectMeta");
  ("Spec", PlannedMaintenanceSpec_DeepCopyInto);
  ("Status", PlannedMaintenanceStatus_DeepCopyInto)].
Definition PlannedMaintenance_DeepCopy : copier := DeepCopy_with PlannedMaintenance_DeepCopyInto.
Definition PlannedMaintenance_DeepCopyObject : copier := DeepCopyObject_with PlannedMaintenance_DeepCopy.

Definition PlannedMaintenanceList_DeepCopyInto : copier := copy_fields [
  ("TypeMeta", assigned);
  ("ListMeta", external_DeepCopyInto "metav1.ListMeta");
  ("Items", new_slice PlannedMaintenance_DeepCopyInto)].
Definition PlannedMaintenanceList_DeepCopy : copier := DeepCopy_with PlannedMaintenanceList_DeepCopyInto.
Definition PlannedMaintenanceList_DeepCopyObject : copier := DeepCopyObject_with PlannedMaintenanceList_DeepCopy.

Definition RoleResource_DeepCopyInto : copier := copy_fields [].
Definition RoleResource_DeepCopy : copier := DeepCopy_with RoleResource_DeepCopyInto.

Definition RoleObjectGroup_DeepCopyInto : copier := copy_fields [
  ("Resource", assigned);
  ("Selectors", new_slice assigned)].
Definition RoleObjectGroup_DeepCopy : copier := DeepCopy_with RoleObjectGroup_DeepCopyInto.

Definition RoleTransactionGroup_DeepCopyInto : copier := copy_fields [
  ("ObjectGroup", RoleObjectGroup_DeepCopyInto)].
Definition RoleTransactionGroup_DeepCopy : copier := DeepCopy_with RoleTransactionGroup_DeepCopyInto.

Definition RoleObjectSpec_DeepCopyInto : copier := copy_fields [
  ("TransactionGroups", new_slice RoleTransactionGroup_DeepCopyInto)].
Definition RoleObjectSpec_DeepCopy : copier := DeepCopy_with RoleObjectSpec_DeepCopyInto.

Definition RoleObjectTemplate_DeepCopyInto : copier := copy_fields [
  ("Spec", new_pointer RoleObjectSpec_DeepCopyInto);
  ("JSONSpec", new_pointer assigned)].
Definition RoleObjectTemplate_DeepCopy : copier := DeepCopy_with RoleObjectTemplate_DeepCopyInto.

Definition RoleSpec_DeepCopyInto : copier := copy_fields [
  ("CoreSpec", CoreSpec_DeepCopyInto);
  ("ObjectTemplate", RoleObjectTemplate_DeepCopyInto)].
Definition RoleSpec_DeepCopy : copier := DeepCopy_with RoleSpec_DeepCopyInto.

Definition RoleStatus_DeepCopyInto : copier := copy_fields [
  ("CoreStatus", CoreStatus_DeepCopyInto)].
Definition RoleStatus_DeepCopy : copier := DeepCopy_with RoleStatus_DeepCopyInto.

Definition Role_DeepCopyInto : copier := copy_fields [
  ("TypeMeta", assigned);
  ("ObjectMeta", external_DeepCopyInto "metav1.ObjectMeta");
  ("Spec", RoleSpec_DeepCopyInto);
  ("Status", RoleStatus_DeepCopyInto)].
Definition Role_DeepCopy : copier := DeepCopy_with Role_DeepCopyInto.
Definition Role_DeepCopyObject : copier := DeepCopyObject_with Role_DeepCopy.

Definition RoleList_DeepCopyInto : copier := copy_fields [
  ("TypeMeta", assigned);
  ("ListMeta", external_DeepCopyInto "metav1.ListMeta");
  ("Items", new_slice Role_DeepCopyInto)].
Definition RoleList_DeepCopy : copier := DeepCopy_with RoleList_DeepCopyInto.
Definition RoleList_DeepCopyObject : copier := DeepCopyObject_with RoleList_DeepCopy.

Definition RoutePolicyObjectSpec_DeepCopyInto : copier := copy_fields [
  ("Channels", new_slice assigned);
  ("Tags", new_slice assigned)].
Definition RoutePolicyObjectSpec_DeepCopy : copier := DeepCopy_with RoutePolicyObjectSpec_DeepCopyInto.

Definition RoutePolicyObjectTemplate_DeepCopyInto : copier := copy_fields [
  ("Spec", new_pointer RoutePolicyObjectSpec_DeepCopyInto);
  ("JSONSpec", new_pointer assigned)].
Definition RoutePolicyObjectTemplate_DeepCopy : copier := DeepCopy_with RoutePolicyObjectTemplate_DeepCopyInto.

Definition RoutePolicySpec_DeepCopyInto : copier := copy_fields [
  ("CoreSpec", CoreSpec_DeepCopyInto);
  ("ObjectTemplate", RoutePolicyObjectTemplate_DeepCopyInto)].
Definition RoutePolicySpec_DeepCopy : copier := DeepCopy_with RoutePolicySpec_DeepCopyInto.

Definition RoutePolicyStatus_DeepCopyInto : copier := copy_fields [
  ("CoreStatus", CoreStatus_DeepCopyInto)].
Definition RoutePolicyStatus_DeepCopy : copier := DeepCopy_with RoutePolicyStatus_DeepCopyInto.

Definition RoutePolicy_DeepCopyInto : copier := copy_fields [
  ("TypeMeta", assigned);
  ("ObjectMeta", external_DeepCopyInto "metav1.ObjectMeta");
  ("Spec", RoutePolicySpec_DeepCopyInto);
  ("Status", RoutePolicyStatus_DeepCopyInto)].
Definition RoutePolicy_DeepCopy : copier := DeepCopy_with RoutePolicy_DeepCopyInto.
Definition RoutePolicy_DeepCopyObject : copier := DeepCopyObject_with RoutePolicy_DeepCopy.

Definition RoutePolicyList_DeepCopyInto : copier := copy_fields [
  ("TypeMeta", assigned);
  ("ListMeta", external_DeepCopyInto "metav1.ListMeta");
  ("Items", new_slice RoutePolicy_DeepCopyInto)].
Definition RoutePolicyList_DeepCopy : copier := DeepCopy_with RoutePolicyList_DeepCopyInto.
Definition RoutePolicyList_DeepCopyObject : copier := DeepCopyObject_with RoutePolicyList_DeepCopy.

Definition RuleComparisonSpaceAggregationParam_DeepCopyInto : copier := copy_fields [].
Definition RuleComparisonSpaceAggregationParam_DeepCopy : copier := DeepCopy_with RuleComparisonSpaceAggregationParam_DeepCopyInto.

Definition RuleAggregation_DeepCopyInto : copier := copy_fields [
  ("ComparisonSpaceAggregationParam", new_pointer assigned)].
Definition RuleAggregation_DeepCopy : copier := DeepCopy_with RuleAggregation_DeepCopyInto.

Definition RuleBucketOptionsSpec_DeepCopyInto : copier := copy_fields [
  ("Scale", new_pointer assigned)].
Definition RuleBucketOptionsSpec_DeepCopy : copier := DeepCopy_with RuleBucketOptionsSpec_DeepCopyInto.

Definition RuleBucketOptions_DeepCopyInto : copier := copy_fields [
  ("Spec", RuleBucketOptionsSpec_DeepCopyInto)].
Definition RuleBucketOptions_DeepCopy : copier := DeepCopy_with RuleBucketOptions_DeepCopyInto.

Definition RuleFilter_DeepCopyInto : copier := copy_fields [].
Definition RuleFilter_DeepCopy : copier := DeepCopy_with RuleFilter_DeepCopyInto.

Definition RuleArg_DeepCopyInto : copier := copy_fields [
  ("Value", new_pointer (external_DeepCopyInto "apiextensionsv1.JSON"))].
Definition RuleArg_DeepCopy : copier := DeepCopy_with RuleArg_DeepCopyInto.

Definition RuleFunction_DeepCopyInto : copier := copy_fields [
  ("Args", new_slice RuleArg_DeepCopyInto)].
Definition RuleFunction_DeepCopy : copier := DeepCopy_with RuleFunction_DeepCopyInto.

Definition RuleGroupBy_DeepCopyInto : copier := copy_fields [].
Definition RuleGroupBy_DeepCopy : copier := DeepCopy_with RuleGroupBy_DeepCopyInto.

Definition RuleHaving_DeepCopyInto : copier := copy_fields [].
Definition RuleHaving_DeepCopy : copier := DeepCopy_with RuleHaving_DeepCopyInto.

Definition RuleLimitBy_DeepCopyInto : copier := copy_fields [
  ("Keys", new_slice assigned)].
Definition RuleLimitBy_DeepCopy : copier := DeepCopy_with RuleLimitBy_DeepCopyInto.

Definition RuleKey_DeepCopyInto : copier := copy_fields [].
Definition RuleKey_DeepCopy : copier := DeepCopy_with RuleKey_DeepCopyInto.

Definition RuleOrder_DeepCopyInto : copier := copy_fields [
  ("Key", new_pointer assigned)].
Definition RuleOrder_DeepCopy : copier := DeepCopy_with RuleOrder_DeepCopyInto.

Definition RuleSecondaryAggregationGroupBy_DeepCopyInto : copier := copy_fields [].
Definition RuleSecondaryAggregationGroupBy_DeepCopy : copier := DeepCopy_with RuleSecondaryAggregationGroupBy_DeepCopyInto.

Definition RuleSecondaryAggregationLimitBy_DeepCopyInto : copier := copy_fields [
  ("Keys", new_slice assigned)].
Definition RuleSecondaryAggregationLimitBy_DeepCopy : copier := DeepCopy_with RuleSecondaryAggregationLimitBy_DeepCopyInto.

Definition RuleSecondaryAggregationOrder_DeepCopyInto : copier := copy_fields [
  ("Key", new_pointer assigned)].
Definition RuleSecondaryAggregationOrder_DeepCopy : copier := DeepCopy_with RuleSecondaryAggregationOrder_DeepCopyInto.

Definition RuleSecondaryAggregation_DeepCopyInto : copier := copy_fields [
  ("GroupBy", new_slice assigned);
  ("LimitBy", new_pointer RuleSecondaryAggregationLimitBy_DeepCopyInto);
  ("Order", new_slice RuleSecondaryAggregationOrder_DeepCopyInto);
  ("StepInterval", new_pointer (external_DeepCopyInto "apiextensionsv1.JSON"))].
Definition RuleSecondaryAggregation_DeepCopy : copier := DeepCopy_with RuleSecondaryAggregation_DeepCopyInto.

Definition RuleSelectField_DeepCopyInto : copier := copy_fields [].
Definition RuleSelectField_DeepCopy : copier := DeepCopy_with RuleSelectField_DeepCopyInto.

Definition RuleQuerySpec_DeepCopyInto : copier := copy_fields [
  ("Aggregations", new_slice RuleAggregation_DeepCopyInto);
  ("BucketOptions", new_pointer RuleBucketOptions_DeepCopyInto);
  ("Filter", new_pointer assigned);
  ("Functions", new_slice RuleFunction_DeepCopyInto);
  ("GroupBy", new_slice assigned);
  ("Having", new_pointer assigned);
  ("LimitBy", new_pointer RuleLimitBy_DeepCopyInto);
  ("Order", new_slice RuleOrder_DeepCopyInto);
  ("SecondaryAggregations", new_slice RuleSecondaryAggregation_DeepCopyInto);
  ("SelectFields", new_slice assigned);
  ("Step", new_pointer (external_DeepCopyInto "apiextensionsv1.JSON"));
  ("StepInterval", new_pointer (external_DeepCopyInto "apiextensionsv1.JSON"))].
Definition RuleQuerySpec_DeepCopy : copier := DeepCopy_with RuleQuerySpec_DeepCopyInto.

Definition RuleQuery_DeepCopyInto : copier := copy_fields [
  ("Spec", new_pointer RuleQuerySpec_DeepCopyInto)].
Definition RuleQuery_DeepCopy : copier := DeepCopy_with RuleQuery_DeepCopyInto.

Definition RuleCompositeQuery_DeepCopyInto : copier := copy_fields [
  ("Queries", new_slice RuleQuery_DeepCopyInto)].
Definition RuleCompositeQuery_DeepCopy : copier := DeepCopy_with RuleCompositeQuery_DeepCopyInto.

Definition RuleThresholdsSpec_DeepCopyInto : copier := copy_fields [
  ("Channels", new_slice assigned);
  ("RecoveryTarget", new_pointer assigned)].
Definition RuleThresholdsSpec_DeepCopy : copier := DeepCopy_with RuleThresholdsSpec_DeepCopyInto.

Definition RuleThresholds_DeepCopyInto : copier := copy_fields [
  ("Spec", new_slice RuleThresholdsSpec_DeepCopyInto)].
Definition RuleThresholds_DeepCopy : copier := DeepCopy_with RuleThresholds_DeepCopyInto.

Definition RuleCondition_DeepCopyInto : copier := copy_fields [
  ("CompositeQuery", RuleCompositeQuery_DeepCopyInto);
  ("Thresholds", RuleThresholds_DeepCopyInto)].
Definition RuleCondition_DeepCopy : copier := DeepCopy_with RuleCondition_DeepCopyInto.

Definition RuleSchedule_DeepCopyInto : copier := copy_fields [
  ("Day", new_pointer assigned);
  ("Hour", new_pointer assigned);
  ("Minute", new_pointer assigned);
  ("Weekday", new_pointer assigned)].
Definition RuleSchedule_DeepCopy : copier := DeepCopy_with RuleSchedule_DeepCopyInto.

Definition RuleEvaluationSpec_DeepCopyInto : copier := copy_fields [
  ("Schedule", new_pointer RuleSchedule_DeepCopyInto)].
Definition RuleEvaluationSpec_DeepCopy : copier := DeepCopy_with RuleEvaluationSpec_DeepCopyInto.

Definition RuleEvaluation_DeepCopyInto : copier := copy_fields [
  ("Spec", RuleEvaluationSpec_DeepCopyInto)].
Definition RuleEvaluation_DeepCopy : copier := DeepCopy_with RuleEvaluation_DeepCopyInto.

Definition RuleRenotify_DeepCopyInto : copier := copy_fields [
  ("AlertStates", new_slice assigned)].
Definition RuleRenotify_DeepCopy : copier := DeepCopy_with RuleRenotify_DeepCopyInto.

Definition RuleNotificationSettings_DeepCopyInto : copier := copy_fields [
  ("GroupBy", new_slice assigned);
  ("Renotify", new_pointer RuleRenotify_DeepCopyInto)].
Definition RuleNotificationSettings_DeepCopy : copier := DeepCopy_with RuleNotificationSettings_DeepCopyInto.

Definition RuleObjectSpec_DeepCopyInto : copier := copy_fields [
  ("Condition", RuleCondition_DeepCopyInto);
  ("Evaluation", RuleEvaluation_DeepCopyInto);
  ("NotificationSettings", RuleNotificationSettings_DeepCopyInto);
  ("Annotations", new_map assigned);
  ("Labels", new_map assigned)].
Definition RuleObjectSpec_DeepCopy : copier := DeepCopy_with RuleObjectSpec_DeepCopyInto.

Definition RuleObjectTemplate_DeepCopyInto : copier := copy_fields [
  ("Spec", new_pointer RuleObjectSpec_DeepCopyInto);
  ("JSONSpec", new_pointer assigned)].
Definition RuleObjectTemplate_DeepCopy : copier := DeepCopy_with RuleObjectTemplate_DeepCopyInto.

Definition RuleSpec_DeepCopyInto : copier := copy_fields [
  ("CoreSpec", CoreSpec_DeepCopyInto);
  ("ObjectTemplate", RuleObjectTemplate_DeepCopyInto)].
Definition RuleSpec_DeepCopy : copier := DeepCopy_with RuleSpec_DeepCopyInto.

Definition RuleStatus_DeepCopyInto : copier := copy_fields [
  ("CoreStatus", CoreStatus_DeepCopyInto)].
Definition RuleStatus_DeepCopy : copier := DeepCopy_with RuleStatus_DeepCopyInto.

Definition Rule_DeepCopyInto : copier := copy_fields [
  ("TypeMeta", assigned);
  ("ObjectMeta", external_DeepCopyInto "metav1.ObjectMeta");
  ("Spec", RuleSpec_DeepCopyInto);
  ("Status", RuleStatus_DeepCopyInto)].
Definition Rule_DeepCopy : copier := DeepCopy_with Rule_DeepCopyInto.
Definition Rule_DeepCopyObject : copier := DeepCopyObject_with Rule_DeepCopy.

Definition RuleList_DeepCopyInto : copier := copy_fields [
  ("TypeMeta", assigned);
  ("ListMeta", external_DeepCopyInto "metav1.ListMeta");
  ("Items", new_slice Rule_DeepCopyInto)].
Definition RuleList_DeepCopy : copier := DeepCopy_with RuleList_DeepCopyInto.
Definition RuleList_DeepCopyObject : copier := DeepCopyObject_with RuleList_DeepCopy.

Definition SavedViewComparisonSpaceAggregationParam_DeepCopyInto : copier := copy_fields [].
Definition SavedViewComparisonSpaceAggregationParam_DeepCopy : copier := DeepCopy_with SavedViewComparisonSpaceAggregationParam_DeepCopyInto.

Definition SavedViewAggregation_DeepCopyInto : copier := copy_fields [
  ("ComparisonSpaceAggregationParam", new_pointer assigned)].
Definition SavedViewAggregation_DeepCopy : copier := DeepCopy_with SavedViewAggregation_DeepCopyInto.

Definition SavedViewBucketOptionsSpec_DeepCopyInto : copier := copy_fields [
  ("Scale", new_pointer assigned)].
Definition SavedViewBucketOptionsSpec_DeepCopy : copier := DeepCopy_with SavedViewBucketOptionsSpec_DeepCopyInto.

Definition SavedViewBucketOptions_DeepCopyInto : copier := copy_fields [
  ("Spec", SavedViewBucketOptionsSpec_DeepCopyInto)].
Definition SavedViewBucketOptions_DeepCopy : copier := DeepCopy_with SavedViewBucketOptions_DeepCopyInto.

Definition SavedViewFilter_DeepCopyInto : copier := copy_fields [].
Definition SavedViewFilter_DeepCopy : copier := DeepCopy_with SavedViewFilter_DeepCopyInto.

Definition SavedViewArg_DeepCopyInto : copier := copy_fields [
  ("Value", new_pointer (external_DeepCopyInto "apiextensionsv1.JSON"))].
Definition SavedViewArg_DeepCopy : copier := DeepCopy_with SavedViewArg_DeepCopyInto.

Definition SavedViewFunction_DeepCopyInto : copier := copy_fields [
  ("Args", new_slice SavedViewArg_DeepCopyInto)].
Definition SavedViewFunction_DeepCopy : copier := DeepCopy_with SavedViewFunction_DeepCopyInto.

Definition SavedViewGroupBy_DeepCopyInto : copier := copy_fields [].
Definition SavedViewGroupBy_DeepCopy : copier := DeepCopy_with SavedViewGroupBy_DeepCopyInto.

Definition SavedViewHaving_DeepCopyInto : copier := copy_fields [].
Definition SavedViewHaving_DeepCopy : copier := DeepCopy_with SavedViewHaving_DeepCopyInto.

Definition SavedViewLimitBy_DeepCopyInto : copier := copy_fields [
  ("Keys", new_slice assigned)].
Definition SavedViewLimitBy_DeepCopy : copier := DeepCopy_with SavedViewLimitBy_DeepCopyInto.

Definition SavedViewKey_DeepCopyInto : copier := copy_fields [].
Definition SavedViewKey_DeepCopy : copier := DeepCopy_with SavedViewKey_DeepCopyInto.

Definition SavedViewOrder_DeepCopyInto : copier := copy_fields [
  ("Key", new_pointer assigned)].
Definition SavedViewOrder_DeepCopy : copier := DeepCopy_with SavedViewOrder_DeepCopyInto.

Definition SavedViewSecondaryAggregationGroupBy_DeepCopyInto : copier := copy_fields [].
Definition SavedViewSecondaryAggregationGroupBy_DeepCopy : copier := DeepCopy_with SavedViewSecondaryAggregationGroupBy_DeepCopyInto.

Definition SavedViewSecondaryAggregationLimitBy_DeepCopyInto : copier := copy_fields [
  ("Keys", new_slice assigned)].
Definition SavedViewSecondaryAggregationLimitBy_DeepCopy : copier := DeepCopy_with SavedViewSecondaryAggregationLimitBy_DeepCopyInto.

Definition SavedViewSecondaryAggregationOrder_DeepCopyInto : copier := copy_fields [
  ("Key", new_pointer assigned)].
Definition SavedViewSecondaryAggregationOrder_DeepCopy : copier := DeepCopy_with SavedViewSecondaryAggregationOrder_DeepCopyInto.

Definition SavedViewSecondaryAggregation_DeepCopyInto : copier := copy_fields [
  ("GroupBy", new_slice assigned);
  ("LimitBy", new_pointer SavedViewSecondaryAggregationLimitBy_DeepCopyInto);
  ("Order", new_slice SavedViewSecondaryAggregationOrder_DeepCopyInto);
  ("StepInterval", new_pointer (external_DeepCopyInto "apiextensionsv1.JSON"))].
Definition SavedViewSecondaryAggregation_DeepCopy : copier := DeepCopy_with SavedViewSecondaryAggregation_DeepCopyInto.

Definition SavedViewSelectField_DeepCopyInto : copier := copy_fields [].
Definition SavedViewSelectField_DeepCopy : copier := DeepCopy_with SavedViewSelectField_DeepCopyInto.

Definition SavedViewQuerySpec_DeepCopyInto : copier := copy_fields [
  ("Aggregations", new_slice SavedViewAggregation_DeepCopyInto);
  ("BucketOptions", new_pointer SavedViewBucketOptions_DeepCopyInto);
  ("Filter", new_pointer assigned);
  ("Functions", new_slice SavedViewFunction_DeepCopyInto);
  ("GroupBy", new_slice assigned);
  ("Having", new_pointer assigned);
  ("LimitBy", new_pointer SavedViewLimitBy_DeepCopyInto);
  ("Order", new_slice SavedViewOrder_DeepCopyInto);
  ("SecondaryAggregations", new_slice SavedViewSecondaryAggregation_DeepCopyInto);
  ("SelectFields", new_slice assigned);
  ("Step", new_pointer (external_DeepCopyInto "apiextensionsv1.JSON"));
  ("StepInterval", new_pointer (external_DeepCopyInto "apiextensionsv1.JSON"))].
Definition SavedViewQuerySpec_DeepCopy : copier := DeepCopy_with SavedViewQuerySpec_DeepCopyInto.

Definition SavedViewQuery_DeepCopyInto : copier := copy_fields [
  ("Spec", new_pointer SavedViewQuerySpec_DeepCopyInto)].
Definition SavedViewQuery_DeepCopy : copier := DeepCopy_with SavedViewQuery_DeepCopyInto.

Definition SavedViewDisplay_DeepCopyInto : copier := copy_fields [].
Definition SavedViewDisplay_DeepCopy : copier := DeepCopy_with SavedViewDisplay_DeepCopyInto.

Definition SavedViewSelectedField_DeepCopyInto : copier := copy_fields [].
Definition SavedViewSelectedField_DeepCopy : copier := DeepCopy_with SavedViewSelectedField_DeepCopyInto.

Definition SavedViewSpecPayload_DeepCopyInto : copier := copy_fields [
  ("Queries", new_slice SavedViewQuery_DeepCopyInto);
  ("Display", new_pointer assigned);
  ("SelectedFields", new_slice assigned)].
Definition SavedViewSpecPayload_DeepCopy : copier := DeepCopy_with SavedViewSpecPayload_DeepCopyInto.

Definition SavedViewObjectSpec_DeepCopyInto : copier := copy_fields [
  ("Spec", SavedViewSpecPayload_DeepCopyInto)].
Definition SavedViewObjectSpec_DeepCopy : copier := DeepCopy_with SavedViewObjectSpec_DeepCopyInto.

Definition SavedViewObjectTemplate_DeepCopyInto : copier := copy_fields [
  ("Spec", new_pointer SavedViewObjectSpec_DeepCopyInto);
  ("JSONSpec", new_pointer assigned)].
Definition SavedViewObjectTemplate_DeepCopy : copier := DeepCopy_with SavedViewObjectTemplate_DeepCopyInto.

Definition SavedViewSpec_DeepCopyInto : copier := copy_fields [
  ("CoreSpec", CoreSpec_DeepCopyInto);
  ("ObjectTemplate", SavedViewObjectTemplate_DeepCopyInto)].
Definition SavedViewSpec_DeepCopy : copier := DeepCopy_with SavedViewSpec_DeepCopyInto.

Definition SavedViewStatus_DeepCopyInto : copier := copy_fields [
  ("CoreStatus", CoreStatus_DeepCopyInto)].
Definition SavedViewStatus_DeepCopy : copier := DeepCopy_with SavedViewStatus_DeepCopyInto.

Definition SavedView_DeepCopyInto : copier := copy_fields [
  ("TypeMeta", assigned);
  ("ObjectMeta", external_DeepCopyInto "metav1.ObjectMeta");
  ("Spec", SavedViewSpec_DeepCopyInto);
  ("Status", SavedViewStatus_DeepCopyInto)].
Definition SavedView_DeepCopy : copier := DeepCopy_with SavedView_DeepCopyInto.
Definition SavedView_DeepCopyObject : copier := DeepCopyObject_with SavedView_DeepCopy.

Definition SavedViewList_DeepCopyInto : copier := copy_fields [
  ("TypeMeta", assigned);
  ("ListMeta", external_DeepCopyInto "metav1.ListMeta");
  ("Items", new_slice SavedView_DeepCopyInto)].
Definition SavedViewList_DeepCopy : copier := DeepCopy_with SavedViewList_DeepCopyInto.
Definition SavedViewList_DeepCopyObject : copier := DeepCopyObject_with SavedViewList_DeepCopy.

Definition ServiceAccountObjectSpec_DeepCopyInto : copier := copy_fields [].
Definition ServiceAccountObjectSpec_DeepCopy : copier := DeepCopy_with ServiceAccountObjectSpec_DeepCopyInto.

Definition ServiceAccountObjectTemplate_DeepCopyInto : copier := copy_fields [
  ("Spec", new_pointer assigned);
  ("JSONSpec", new_pointer assigned)].
Definition ServiceAccountObjectTemplate_DeepCopy : copier := DeepCopy_with ServiceAccountObjectTemplate_DeepCopyInto.

Definition ServiceAccountSpec_DeepCopyInto : copier := copy_fields [
  ("CoreSpec", CoreSpec_DeepCopyInto);
  ("ObjectTemplate", ServiceAccountObjectTemplate_DeepCopyInto)].
Definition ServiceAccountSpec_DeepCopy : copier := DeepCopy_with ServiceAccountSpec_DeepCopyInto.

Definition ServiceAccountStatus_DeepCopyInto : copier := copy_fields [
  ("CoreStatus", CoreStatus_DeepCopyInto)].
Definition ServiceAccountStatus_DeepCopy : copier := DeepCopy_with ServiceAccountStatus_DeepCopyInto.

Definition ServiceAccount_DeepCopyInto : copier := copy_fields [
  ("TypeMeta", assigned);
  ("ObjectMeta", external_DeepCopyInto "metav1.ObjectMeta");
  ("Spec", ServiceAccountSpec_DeepCopyInto);
  ("Status", ServiceAccountStatus_DeepCopyInto)].
Definition ServiceAccount_DeepCopy : copier := DeepCopy_with ServiceAccount_DeepCopyInto.
Definition ServiceAccount_DeepCopyObject : copier := DeepCopyObject_with ServiceAccount_DeepCopy.

Definition ServiceAccountList_DeepCopyInto : copier := copy_fields [
  ("TypeMeta", assigned);
  ("ListMeta", external_DeepCopyInto "metav1.ListMeta");
  ("Items", new_slice ServiceAccount_DeepCopyInto)].
Definition ServiceAccountList_DeepCopy : copier := DeepCopy_with ServiceAccountList_DeepCopyInto.
Definition ServiceAccountList_DeepCopyObject : copier := DeepCopyObject_with ServiceAccountList_DeepCopy.

Definition UserObjectSpec_DeepCopyInto : copier := copy_fields [].
Definition UserObjectSpec_DeepCopy : copier := DeepCopy_with UserObjectSpec_DeepCopyInto.

Definition UserObjectTemplate_DeepCopyInto : copier := copy_fields [
  ("Spec", new_pointer assigned);
  ("JSONSpec", new_pointer assigned)].
Definition UserObjectTemplate_DeepCopy : copier := DeepCopy_with UserObjectTemplate_DeepCopyInto.

Definition UserSpec_DeepCopyInto : copier := copy_fields [
  ("CoreSpec", CoreSpec_DeepCopyInto);
  ("ObjectTemplate", UserObjectTemplate_DeepCopyInto)].
Definition UserSpec_DeepCopy : copier := DeepCopy_with UserSpec_DeepCopyInto.

Definition UserStatus_DeepCopyInto : copier := copy_fields [
  ("CoreStatus", CoreStatus_DeepCopyInto)].
Definition UserStatus_DeepCopy : copier := DeepCopy_with UserStatus_DeepCopyInto.

Definition User_DeepCopyInto : copier := copy_fields [
  ("TypeMeta", assigned);
  ("ObjectMeta", external_DeepCopyInto "metav1.ObjectMeta");
  ("Spec", UserSpec_DeepCopyInto);
  ("Status", UserStatus_DeepCopyInto)].
Definition User_DeepCopy : copier := DeepCopy_with User_DeepCopyInto.
Definition User_DeepCopyObject : copier := DeepCopyObject_with User_DeepCopy.

Definition UserList_DeepCopyInto : copier := copy_fields [
  ("TypeMeta", assigned);
  ("ListMeta", external_DeepCopyInto "metav1.ListMeta");
  ("Items", new_slice User_DeepCopyInto)].
Definition UserList_DeepCopy : copier := DeepCopy_with UserList_DeepCopyInto.
Definition UserList_DeepCopyObject : copier := DeepCopyObject_with UserList_DeepCopy.

(** Every type of the package with its copier. *)
Definition api_copiers : list (ty * copier) := [
  (ValueSource, ValueSource_DeepCopyInto); (Endpoint, Endpoint_DeepCopyInto);
  (HeaderAuth, HeaderAuth_DeepCopyInto); (Authentication, Authentication_DeepCopyInto);
  (TLSConfig, TLSConfig_DeepCopyInto); (ProviderConfigSpec, ProviderConfigSpec_DeepCopyInto);
  (ProviderConfigStatus, ProviderConfigStatus_DeepCopyInto); (ClusterProviderConfig, ClusterProviderConfig_DeepCopyInto);
  (ClusterProviderConfigList, ClusterProviderConfigList_DeepCopyInto); (ProviderConfigRef, ProviderConfigRef_DeepCopyInto);
  (CoreSpec, CoreSpec_DeepCopyInto); (SigNozResource, SigNozResource_DeepCopyInto);
  (CoreStatus, CoreStatus_DeepCopyInto); (ProviderConfig, ProviderConfig_DeepCopyInto);
  (ProviderConfigList, ProviderConfigList_DeepCopyInto); (AuthDomainAttributeMapping, AuthDomainAttributeMapping_DeepCopyInto);
  (AuthDomainConfigSpec, AuthDomainConfigSpec_DeepCopyInto); (AuthDomainConfig, AuthDomainConfig_DeepCopyInto);
  (AuthDomainRoleMapping, AuthDomainRoleMapping_DeepCopyInto); (AuthDomainObjectSpec, AuthDomainObjectSpec_DeepCopyInto);
  (AuthDomainObjectTemplate, AuthDomainObjectTemplate_DeepCopyInto); (AuthDomainSpec, AuthDomainSpec_DeepCopyInto);
  (AuthDomainStatus, AuthDomainStatus_DeepCopyInto); (AuthDomain, AuthDomain_DeepCopyInto);
  (AuthDomainList, AuthDomainList_DeepCopyInto); (DashboardDisplay, DashboardDisplay_DeepCopyInto);
  (DashboardCollapse, DashboardCollapse_DeepCopyInto); (DashboardLayoutSpecDisplay, DashboardLayoutSpecDisplay_DeepCopyInto);
  (DashboardContent, DashboardContent_DeepCopyInto); (DashboardItem, DashboardItem_DeepCopyInto);
  (DashboardLayoutSpec, DashboardLayoutSpec_DeepCopyInto); (DashboardLayout, DashboardLayout_DeepCopyInto);
  (DashboardY, DashboardY_DeepCopyInto); (DashboardAxes, DashboardAxes_DeepCopyInto);
  (DashboardColors, DashboardColors_DeepCopyInto); (DashboardSpanGaps, DashboardSpanGaps_DeepCopyInto);
  (DashboardChartAppearance, DashboardChartAppearance_DeepCopyInto); (DashboardFormatting, DashboardFormatting_DeepCopyInto);
  (DashboardHeaderOptions, DashboardHeaderOptions_DeepCopyInto); (DashboardHistogramBuckets, DashboardHistogramBuckets_DeepCopyInto);
  (DashboardLegend, DashboardLegend_DeepCopyInto); (DashboardPresentation, DashboardPresentation_DeepCopyInto);
  (DashboardSelectField, DashboardSelectField_DeepCopyInto); (DashboardThreshold, DashboardThreshold_DeepCopyInto);
  (DashboardVisualization, DashboardVisualization_DeepCopyInto); (DashboardPluginSpec, DashboardPluginSpec_DeepCopyInto);
  (DashboardPlugin, DashboardPlugin_DeepCopyInto); (DashboardComparisonSpaceAggregationParam, DashboardComparisonSpaceAggregationParam_DeepCopyInto);
  (DashboardAggregation, DashboardAggregation_DeepCopyInto); (DashboardBucketOptionsSpec, DashboardBucketOptionsSpec_DeepCopyInto);
  (DashboardBucketOptions, DashboardBucketOptions_DeepCopyInto); (DashboardFilter, DashboardFilter_DeepCopyInto);
  (DashboardArg, DashboardArg_DeepCopyInto); (DashboardFunction, DashboardFunction_DeepCopyInto);
  (DashboardGroupBy, DashboardGroupBy_DeepCopyInto); (DashboardHaving, DashboardHaving_DeepCopyInto);
  (DashboardLimitBy, DashboardLimitBy_DeepCopyInto); (DashboardKey, DashboardKey_DeepCopyInto);
  (DashboardOrder, DashboardOrder_DeepCopyInto); (DashboardQuerySpecPluginSpecQuerySpecAggregation, DashboardQuerySpecPluginSpecQuerySpecAggregation_DeepCopyInto);
  (DashboardQuerySpecPluginSpecQuerySpecBucketOptionsSpec, DashboardQuerySpecPluginSpecQuerySpecBucketOptionsSpec_DeepCopyInto); (DashboardQuerySpecPluginSpecQuerySpecBucketOptions, DashboardQuerySpecPluginSpecQuerySpecBucketOptions_DeepCopyInto);
  (DashboardQuerySpecPluginSpecQuerySpecFilter, DashboardQuerySpecPluginSpecQuerySpecFilter_DeepCopyInto); (DashboardQuerySpecPluginSpecQuerySpecFunction, DashboardQuerySpecPluginSpecQuerySpecFunction_DeepCopyInto);
  (DashboardQuerySpecPluginSpecQuerySpecGroupBy, DashboardQuerySpecPluginSpecQuerySpecGroupBy_DeepCopyInto); (DashboardQuerySpecPluginSpecQuerySpecHaving, DashboardQuerySpecPluginSpecQuerySpecHaving_DeepCopyInto);
  (DashboardQuerySpecPluginSpecQuerySpecLimitBy, DashboardQuerySpecPluginSpecQuerySpecLimitBy_DeepCopyInto); (DashboardQuerySpecPluginSpecQuerySpecOrder, DashboardQuerySpecPluginSpecQuerySpecOrder_DeepCopyInto);
  (DashboardSecondaryAggregationGroupBy, DashboardSecondaryAggregationGroupBy_DeepCopyInto); (DashboardSecondaryAggregationLimitBy, DashboardSecondaryAggregationLimitBy_DeepCopyInto);
  (DashboardSecondaryAggregationOrder, DashboardSecondaryAggregationOrder_DeepCopyInto); (DashboardSecondaryAggregation, DashboardSecondaryAggregation_DeepCopyInto);
  (DashboardQuerySpecPluginSpecQuerySpecSelectField, DashboardQuerySpecPluginSpecQuerySpecSelectField_DeepCopyInto); (DashboardQuerySpecPluginSpecQuerySpec, DashboardQuerySpecPluginSpecQuerySpec_DeepCopyInto);
  (DashboardQuerySpecPluginSpecQuery, DashboardQuerySpecPluginSpecQuery_DeepCopyInto); (DashboardQuerySpecPluginSpecSelectField, DashboardQuerySpecPluginSpecSelectField_DeepCopyInto);
  (DashboardQuerySpecPluginSpec, DashboardQuerySpecPluginSpec_DeepCopyInto); (DashboardQuerySpecPlugin, DashboardQuerySpecPlugin_DeepCopyInto);
  (DashboardQuerySpec, DashboardQuerySpec_DeepCopyInto); (DashboardQuery, DashboardQuery_DeepCopyInto);
  (DashboardLink, DashboardLink_DeepCopyInto); (DashboardPanelSpec, DashboardPanelSpec_DeepCopyInto);
  (DashboardPanel, DashboardPanel_DeepCopyInto); (DashboardVariableSpecPluginSpec, DashboardVariableSpecPluginSpec_DeepCopyInto);
  (DashboardVariableSpecPlugin, DashboardVariableSpecPlugin_DeepCopyInto); (DashboardVariableSpec, DashboardVariableSpec_DeepCopyInto);
  (DashboardVariable, DashboardVariable_DeepCopyInto); (DashboardSpecPayload, DashboardSpecPayload_DeepCopyInto);
  (DashboardTag, DashboardTag_DeepCopyInto); (DashboardObjectSpec, DashboardObjectSpec_DeepCopyInto);
  (DashboardObjectTemplate, DashboardObjectTemplate_DeepCopyInto); (DashboardSpec, DashboardSpec_DeepCopyInto);
  (DashboardStatus, DashboardStatus_DeepCopyInto); (Dashboard, Dashboard_DeepCopyInto);
  (DashboardList, DashboardList_DeepCopyInto); (NotificationChannelConfirm, NotificationChannelConfirm_DeepCopyInto);
  (NotificationChannelAction, NotificationChannelAction_DeepCopyInto); (NotificationChannelField, NotificationChannelField_DeepCopyInto);
  (NotificationChannelConfigSpec, NotificationChannelConfigSpec_DeepCopyInto); (NotificationChannelConfig, NotificationChannelConfig_DeepCopyInto);
  (NotificationChannelObjectSpec, NotificationChannelObjectSpec_DeepCopyInto); (NotificationChannelObjectTemplate, NotificationChannelObjectTemplate_DeepCopyInto);
  (NotificationChannelSpec, NotificationChannelSpec_DeepCopyInto); (NotificationChannelStatus, NotificationChannelStatus_DeepCopyInto);
  (NotificationChannel, NotificationChannel_DeepCopyInto); (NotificationChannelList, NotificationChannelList_DeepCopyInto);
  (PlannedMaintenanceRecurrence, PlannedMaintenanceRecurrence_DeepCopyInto); (PlannedMaintenanceSchedule, PlannedMaintenanceSchedule_DeepCopyInto);
  (PlannedMaintenanceObjectSpec, PlannedMaintenanceObjectSpec_DeepCopyInto); (PlannedMaintenanceObjectTemplate, PlannedMaintenanceObjectTemplate_DeepCopyInto);
  (PlannedMaintenanceSpec, PlannedMaintenanceSpec_DeepCopyInto); (PlannedMaintenanceStatus, PlannedMaintenanceStatus_DeepCopyInto);
  (PlannedMaintenance, PlannedMaintenance_DeepCopyInto); (PlannedMaintenanceList, PlannedMaintenanceList_DeepCopyInto);
  (RoleResource, RoleResource_DeepCopyInto); (RoleObjectGroup, RoleObjectGroup_DeepCopyInto);
  (RoleTransactionGroup, RoleTransactionGroup_DeepCopyInto); (RoleObjectSpec, RoleObjectSpec_DeepCopyInto);
  (RoleObjectTemplate, RoleObjectTemplate_DeepCopyInto); (RoleSpec, RoleSpec_DeepCopyInto);
  (RoleStatus, RoleStatus_DeepCopyInto); (Role, Role_DeepCopyInto);
  (RoleList, RoleList_DeepCopyInto); (RoutePolicyObjectSpec, RoutePolicyObjectSpec_DeepCopyInto);
  (RoutePolicyObjectTemplate, RoutePolicyObjectTemplate_DeepCopyInto); (RoutePolicySpec, RoutePolicySpec_DeepCopyInto);
  (RoutePolicyStatus, RoutePolicyStatus_DeepCopyInto); (RoutePolicy, RoutePolicy_DeepCopyInto);
  (RoutePolicyList, RoutePolicyList_DeepCopyInto); (RuleComparisonSpaceAggregationParam, RuleComparisonSpaceAggregationParam_DeepCopyInto);
  (RuleAggregation, RuleAggregation_DeepCopyInto); (RuleBucketOptionsSpec, RuleBucketOptionsSpec_DeepCopyInto);
  (RuleBucketOptions, RuleBucketOptions_DeepCopyInto); (RuleFilter, RuleFilter_DeepCopyInto);
  (RuleArg, RuleArg_DeepCopyInto); (RuleFunction, RuleFunction_DeepCopyInto);
  (RuleGroupBy, RuleGroupBy_DeepCopyInto); (RuleHaving, RuleHaving_DeepCopyInto);
  (RuleLimitBy, RuleLimitBy_DeepCopyInto); (RuleKey, RuleKey_DeepCopyInto);
  (RuleOrder, RuleOrder_DeepCopyInto); (RuleSecondaryAggregationGroupBy, RuleSecondaryAggregationGroupBy_DeepCopyInto);
  (RuleSecondaryAggregationLimitBy, RuleSecondaryAggregationLimitBy_DeepCopyInto); (RuleSecondaryAggregationOrder, RuleSecondaryAggregationOrder_DeepCopyInto);
  (RuleSecondaryAggregation, RuleSecondaryAggregation_DeepCopyInto); (RuleSelectField, RuleSelectField_DeepCopyInto);
  (RuleQuerySpec, RuleQuerySpec_DeepCopyInto); (RuleQuery, RuleQuery_DeepCopyInto);
  (RuleCompositeQuery, RuleCompositeQuery_DeepCopyInto); (RuleThresholdsSpec, RuleThresholdsSpec_DeepCopyInto);
  (RuleThresholds, RuleThresholds_DeepCopyInto); (RuleCondition, RuleCondition_DeepCopyInto);
  (RuleSchedule, RuleSchedule_DeepCopyInto); (RuleEvaluationSpec, RuleEvaluationSpec_DeepCopyInto);
  (RuleEvaluation, RuleEvaluation_DeepCopyInto); (RuleRenotify, RuleRenotify_DeepCopyInto);
  (RuleNotificationSettings, RuleNotificationSettings_DeepCopyInto); (RuleObjectSpec, RuleObjectSpec_DeepCopyInto);
  (RuleObjectTemplate, RuleObjectTemplate_DeepCopyInto); (RuleSpec, RuleSpec_DeepCopyInto);
  (RuleStatus, RuleStatus_DeepCopyInto); (Rule, Rule_DeepCopyInto);
  (RuleList, RuleList_DeepCopyInto); (SavedViewComparisonSpaceAggregationParam, SavedViewComparisonSpaceAggregationParam_DeepCopyInto);
  (SavedViewAggregation, SavedViewAggregation_DeepCopyInto); (SavedViewBucketOptionsSpec, SavedViewBucketOptionsSpec_DeepCopyInto);
  (SavedViewBucketOptions, SavedViewBucketOptions_DeepCopyInto); (SavedViewFilter, SavedViewFilter_DeepCopyInto);
  (SavedViewArg, SavedViewArg_DeepCopyInto); (SavedViewFunction, SavedViewFunction_DeepCopyInto);
  (SavedViewGroupBy, SavedViewGroupBy_DeepCopyInto); (SavedViewHaving, SavedViewHaving_DeepCopyInto);
  (SavedViewLimitBy, SavedViewLimitBy_DeepCopyInto); (SavedViewKey, SavedViewKey_DeepCopyInto);
  (SavedViewOrder, SavedViewOrder_DeepCopyInto); (SavedViewSecondaryAggregationGroupBy, SavedViewSecondaryAggregationGroupBy_DeepCopyInto);
  (SavedViewSecondaryAggregationLimitBy, SavedViewSecondaryAggregationLimitBy_DeepCopyInto); (SavedViewSecondaryAggregationOrder, SavedViewSecondaryAggregationOrder_DeepCopyInto);
  (SavedViewSecondaryAggregation, SavedViewSecondaryAggregation_DeepCopyInto); (SavedViewSelectField, SavedViewSelectField_DeepCopyInto);
  (SavedViewQuerySpec, SavedViewQuerySpec_DeepCopyInto); (SavedViewQuery, SavedViewQuery_DeepCopyInto);
  (SavedViewDisplay, SavedViewDisplay_DeepCopyInto); (SavedViewSelectedField, SavedViewSelectedField_DeepCopyInto);
  (SavedViewSpecPayload, SavedViewSpecPayload_DeepCopyInto); (SavedViewObjectSpec, SavedViewObjectSpec_DeepCopyInto);
  (SavedViewObjectTemplate, SavedViewObjectTemplate_DeepCopyInto); (SavedViewSpec, SavedViewSpec_DeepCopyInto);
  (SavedViewStatus, SavedViewStatus_DeepCopyInto); (SavedView, SavedView_DeepCopyInto);
  (SavedViewList, SavedViewList_DeepCopyInto); (ServiceAccountObjectSpec, ServiceAccountObjectSpec_DeepCopyInto);
  (ServiceAccountObjectTemplate, ServiceAccountObjectTemplate_DeepCopyInto); (ServiceAccountSpec, ServiceAccountSpec_DeepCopyInto);
  (ServiceAccountStatus, ServiceAccountStatus_DeepCopyInto); (ServiceAccount, ServiceAccount_DeepCopyInto);
  (ServiceAccountList, ServiceAccountList_DeepCopyInto); (UserObjectSpec, UserObjectSpec_DeepCopyInto);
  (UserObjectTemplate, UserObjectTemplate_DeepCopyInto); (UserSpec, UserSpec_DeepCopyInto);
  (UserStatus, UserStatus_DeepCopyInto); (User, User_DeepCopyInto);
  (UserList, UserList_DeepCopyInto)].

(** The types that are Kubernetes objects, with their [DeepCopyObject]. *)
Definition api_objects : list (ty * copier) := [
  (ClusterProviderConfig, ClusterProviderConfig_DeepCopyObject);
  (ClusterProviderConfigList, ClusterProviderConfigList_DeepCopyObject);
  (ProviderConfig, ProviderConfig_DeepCopyObject);
  (ProviderConfigList, ProviderConfigList_DeepCopyObject);
  (AuthDomain, AuthDomain_DeepCopyObject);
  (AuthDomainList, AuthDomainList_DeepCopyObject);
  (Dashboard, Dashboard_DeepCopyObject);
  (DashboardList, DashboardList_DeepCopyObject);
  (NotificationChannel, NotificationChannel_DeepCopyObject);
  (NotificationChannelList, NotificationChannelList_DeepCopyObject);
  (PlannedMaintenance, PlannedMaintenance_DeepCopyObject);
  (PlannedMaintenanceList, PlannedMaintenanceList_DeepCopyObject);
  (Role, Role_DeepCopyObject);
  (RoleList, RoleList_DeepCopyObject);
  (RoutePolicy, RoutePolicy_DeepCopyObject);
  (RoutePolicyList, RoutePolicyList_DeepCopyObject);
  (Rule, Rule_DeepCopyObject);
  (RuleList, RuleList_DeepCopyObject);
  (SavedView, SavedView_DeepCopyObject);
  (SavedViewList, SavedViewList_DeepCopyObject);
  (ServiceAccount, ServiceAccount_DeepCopyObject);
  (ServiceAccountList, ServiceAccountList_DeepCopyObject);
  (User, User_DeepCopyObject);
  (UserList, UserList_DeepCopyObject)].
End DeepCopy.
