(* ===== verification/DeepCopySpec.v ===== *)
(** * Deep copies share nothing

    The generated methods against the types they copy: a field that holds a
    reference and has no statement, or one that copies too little, is a copy that
    shares memory with the original. *)

From S2P Require Import Prelude GoTypes ApiTypes DeepCopy.
From Stdlib Require Import String.

Local Open Scope string_scope.

Section DeepCopySpec.
Context `{ETL : ExternalTypesLaws}.

#[local] Existing Instance external_copies.

#[local] Instance type_meta_copies : Copies (external "metav1.TypeMeta") assigned.
Proof. apply assigned_copies, type_meta_plain. Qed.

#[local] Instance duration_copies : Copies (external "metav1.Duration") assigned.
Proof. apply assigned_copies, duration_plain. Qed.

(** Instances are found by name. *)
#[local] Typeclasses Opaque ValueSource ValueSource_DeepCopyInto Endpoint Endpoint_DeepCopyInto HeaderAuth
  HeaderAuth_DeepCopyInto Authentication Authentication_DeepCopyInto TLSConfig TLSConfig_DeepCopyInto
  ProviderConfigSpec ProviderConfigSpec_DeepCopyInto ProviderConfigStatus ProviderConfigStatus_DeepCopyInto
  ClusterProviderConfig ClusterProviderConfig_DeepCopyInto ClusterProviderConfigList
  ClusterProviderConfigList_DeepCopyInto ProviderConfigRef ProviderConfigRef_DeepCopyInto CoreSpec
  CoreSpec_DeepCopyInto SigNozResource SigNozResource_DeepCopyInto CoreStatus CoreStatus_DeepCopyInto
  ProviderConfig ProviderConfig_DeepCopyInto ProviderConfigList ProviderConfigList_DeepCopyInto
  AuthDomainAttributeMapping AuthDomainAttributeMapping_DeepCopyInto AuthDomainConfigSpec
  AuthDomainConfigSpec_DeepCopyInto AuthDomainConfig AuthDomainConfig_DeepCopyInto AuthDomainRoleMapping
  AuthDomainRoleMapping_DeepCopyInto AuthDomainObjectSpec AuthDomainObjectSpec_DeepCopyInto
  AuthDomainObjectTemplate AuthDomainObjectTemplate_DeepCopyInto AuthDomainSpec AuthDomainSpec_DeepCopyInto
  AuthDomainStatus AuthDomainStatus_DeepCopyInto AuthDomain AuthDomain_DeepCopyInto AuthDomainList
  AuthDomainList_DeepCopyInto DashboardDisplay DashboardDisplay_DeepCopyInto DashboardCollapse
  DashboardCollapse_DeepCopyInto DashboardLayoutSpecDisplay DashboardLayoutSpecDisplay_DeepCopyInto
  DashboardContent DashboardContent_DeepCopyInto DashboardItem DashboardItem_DeepCopyInto DashboardLayoutSpec
  DashboardLayoutSpec_DeepCopyInto DashboardLayout DashboardLayout_DeepCopyInto DashboardY
  DashboardY_DeepCopyInto DashboardAxes DashboardAxes_DeepCopyInto DashboardColors
  DashboardColors_DeepCopyInto DashboardSpanGaps DashboardSpanGaps_DeepCopyInto DashboardChartAppearance
  DashboardChartAppearance_DeepCopyInto DashboardFormatting DashboardFormatting_DeepCopyInto
  DashboardHeaderOptions DashboardHeaderOptions_DeepCopyInto DashboardHistogramBuckets
  DashboardHistogramBuckets_DeepCopyInto DashboardLegend DashboardLegend_DeepCopyInto DashboardPresentation
  DashboardPresentation_DeepCopyInto DashboardSelectField DashboardSelectField_DeepCopyInto DashboardThreshold
  DashboardThreshold_DeepCopyInto DashboardVisualization DashboardVisualization_DeepCopyInto
  DashboardPluginSpec DashboardPluginSpec_DeepCopyInto DashboardPlugin DashboardPlugin_DeepCopyInto
  DashboardComparisonSpaceAggregationParam DashboardComparisonSpaceAggregationParam_DeepCopyInto
  DashboardAggregation DashboardAggregation_DeepCopyInto DashboardBucketOptionsSpec
  DashboardBucketOptionsSpec_DeepCopyInto DashboardBucketOptions DashboardBucketOptions_DeepCopyInto
  DashboardFilter DashboardFilter_DeepCopyInto DashboardArg DashboardArg_DeepCopyInto DashboardFunction
  DashboardFunction_DeepCopyInto DashboardGroupBy DashboardGroupBy_DeepCopyInto DashboardHaving
  DashboardHaving_DeepCopyInto DashboardLimitBy DashboardLimitBy_DeepCopyInto DashboardKey
  DashboardKey_DeepCopyInto DashboardOrder DashboardOrder_DeepCopyInto
  DashboardQuerySpecPluginSpecQuerySpecAggregation
  DashboardQuerySpecPluginSpecQuerySpecAggregation_DeepCopyInto
  DashboardQuerySpecPluginSpecQuerySpecBucketOptionsSpec
  DashboardQuerySpecPluginSpecQuerySpecBucketOptionsSpec_DeepCopyInto
  DashboardQuerySpecPluginSpecQuerySpecBucketOptions
  DashboardQuerySpecPluginSpecQuerySpecBucketOptions_DeepCopyInto DashboardQuerySpecPluginSpecQuerySpecFilter
  DashboardQuerySpecPluginSpecQuerySpecFilter_DeepCopyInto DashboardQuerySpecPluginSpecQuerySpecFunction
  DashboardQuerySpecPluginSpecQuerySpecFunction_DeepCopyInto DashboardQuerySpecPluginSpecQuerySpecGroupBy
  DashboardQuerySpecPluginSpecQuerySpecGroupBy_DeepCopyInto DashboardQuerySpecPluginSpecQuerySpecHaving
  DashboardQuerySpecPluginSpecQuerySpecHaving_DeepCopyInto DashboardQuerySpecPluginSpecQuerySpecLimitBy
  DashboardQuerySpecPluginSpecQuerySpecLimitBy_DeepCopyInto DashboardQuerySpecPluginSpecQuerySpecOrder
  DashboardQuerySpecPluginSpecQuerySpecOrder_DeepCopyInto DashboardSecondaryAggregationGroupBy
  DashboardSecondaryAggregationGroupBy_DeepCopyInto DashboardSecondaryAggregationLimitBy
  DashboardSecondaryAggregationLimitBy_DeepCopyInto DashboardSecondaryAggregationOrder
  DashboardSecondaryAggregationOrder_DeepCopyInto DashboardSecondaryAggregation
  DashboardSecondaryAggregation_DeepCopyInto DashboardQuerySpecPluginSpecQuerySpecSelectField
  DashboardQuerySpecPluginSpecQuerySpecSelectField_DeepCopyInto DashboardQuerySpecPluginSpecQuerySpec
  DashboardQuerySpecPluginSpecQuerySpec_DeepCopyInto DashboardQuerySpecPluginSpecQuery
  DashboardQuerySpecPluginSpecQuery_DeepCopyInto DashboardQuerySpecPluginSpecSelectField
  DashboardQuerySpecPluginSpecSelectField_DeepCopyInto DashboardQuerySpecPluginSpec
  DashboardQuerySpecPluginSpec_DeepCopyInto DashboardQuerySpecPlugin DashboardQuerySpecPlugin_DeepCopyInto
  DashboardQuerySpec DashboardQuerySpec_DeepCopyInto DashboardQuery DashboardQuery_DeepCopyInto DashboardLink
  DashboardLink_DeepCopyInto DashboardPanelSpec DashboardPanelSpec_DeepCopyInto DashboardPanel
  DashboardPanel_DeepCopyInto DashboardVariableSpecPluginSpec DashboardVariableSpecPluginSpec_DeepCopyInto
  DashboardVariableSpecPlugin DashboardVariableSpecPlugin_DeepCopyInto DashboardVariableSpec
  DashboardVariableSpec_DeepCopyInto DashboardVariable DashboardVariable_DeepCopyInto DashboardSpecPayload
  DashboardSpecPayload_DeepCopyInto DashboardTag DashboardTag_DeepCopyInto DashboardObjectSpec
  DashboardObjectSpec_DeepCopyInto DashboardObjectTemplate DashboardObjectTemplate_DeepCopyInto DashboardSpec
  DashboardSpec_DeepCopyInto DashboardStatus DashboardStatus_DeepCopyInto Dashboard Dashboard_DeepCopyInto
  DashboardList DashboardList_DeepCopyInto NotificationChannelConfirm NotificationChannelConfirm_DeepCopyInto
  NotificationChannelAction NotificationChannelAction_DeepCopyInto NotificationChannelField
  NotificationChannelField_DeepCopyInto NotificationChannelConfigSpec
  NotificationChannelConfigSpec_DeepCopyInto NotificationChannelConfig NotificationChannelConfig_DeepCopyInto
  NotificationChannelObjectSpec NotificationChannelObjectSpec_DeepCopyInto NotificationChannelObjectTemplate
  NotificationChannelObjectTemplate_DeepCopyInto NotificationChannelSpec NotificationChannelSpec_DeepCopyInto
  NotificationChannelStatus NotificationChannelStatus_DeepCopyInto NotificationChannel
  NotificationChannel_DeepCopyInto NotificationChannelList NotificationChannelList_DeepCopyInto
  PlannedMaintenanceRecurrence PlannedMaintenanceRecurrence_DeepCopyInto PlannedMaintenanceSchedule
  PlannedMaintenanceSchedule_DeepCopyInto PlannedMaintenanceObjectSpec
  PlannedMaintenanceObjectSpec_DeepCopyInto PlannedMaintenanceObjectTemplate
  PlannedMaintenanceObjectTemplate_DeepCopyInto PlannedMaintenanceSpec PlannedMaintenanceSpec_DeepCopyInto
  PlannedMaintenanceStatus PlannedMaintenanceStatus_DeepCopyInto PlannedMaintenance
  PlannedMaintenance_DeepCopyInto PlannedMaintenanceList PlannedMaintenanceList_DeepCopyInto RoleResource
  RoleResource_DeepCopyInto RoleObjectGroup RoleObjectGroup_DeepCopyInto RoleTransactionGroup
  RoleTransactionGroup_DeepCopyInto RoleObjectSpec RoleObjectSpec_DeepCopyInto RoleObjectTemplate
  RoleObjectTemplate_DeepCopyInto RoleSpec RoleSpec_DeepCopyInto RoleStatus RoleStatus_DeepCopyInto Role
  Role_DeepCopyInto RoleList RoleList_DeepCopyInto RoutePolicyObjectSpec RoutePolicyObjectSpec_DeepCopyInto
  RoutePolicyObjectTemplate RoutePolicyObjectTemplate_DeepCopyInto RoutePolicySpec
  RoutePolicySpec_DeepCopyInto RoutePolicyStatus RoutePolicyStatus_DeepCopyInto RoutePolicy
  RoutePolicy_DeepCopyInto RoutePolicyList RoutePolicyList_DeepCopyInto RuleComparisonSpaceAggregationParam
  RuleComparisonSpaceAggregationParam_DeepCopyInto RuleAggregation RuleAggregation_DeepCopyInto
  RuleBucketOptionsSpec RuleBucketOptionsSpec_DeepCopyInto RuleBucketOptions RuleBucketOptions_DeepCopyInto
  RuleFilter RuleFilter_DeepCopyInto RuleArg RuleArg_DeepCopyInto RuleFunction RuleFunction_DeepCopyInto
  RuleGroupBy RuleGroupBy_DeepCopyInto RuleHaving RuleHaving_DeepCopyInto RuleLimitBy RuleLimitBy_DeepCopyInto
  RuleKey RuleKey_DeepCopyInto RuleOrder RuleOrder_DeepCopyInto RuleSecondaryAggregationGroupBy
  RuleSecondaryAggregationGroupBy_DeepCopyInto RuleSecondaryAggregationLimitBy
  RuleSecondaryAggregationLimitBy_DeepCopyInto RuleSecondaryAggregationOrder
  RuleSecondaryAggregationOrder_DeepCopyInto RuleSecondaryAggregation RuleSecondaryAggregation_DeepCopyInto
  RuleSelectField RuleSelectField_DeepCopyInto RuleQuerySpec RuleQuerySpec_DeepCopyInto RuleQuery
  RuleQuery_DeepCopyInto RuleCompositeQuery RuleCompositeQuery_DeepCopyInto RuleThresholdsSpec
  RuleThresholdsSpec_DeepCopyInto RuleThresholds RuleThresholds_DeepCopyInto RuleCondition
  RuleCondition_DeepCopyInto RuleSchedule RuleSchedule_DeepCopyInto RuleEvaluationSpec
  RuleEvaluationSpec_DeepCopyInto RuleEvaluation RuleEvaluation_DeepCopyInto RuleRenotify
  RuleRenotify_DeepCopyInto RuleNotificationSettings RuleNotificationSettings_DeepCopyInto RuleObjectSpec
  RuleObjectSpec_DeepCopyInto RuleObjectTemplate RuleObjectTemplate_DeepCopyInto RuleSpec
  RuleSpec_DeepCopyInto RuleStatus RuleStatus_DeepCopyInto Rule Rule_DeepCopyInto RuleList
  RuleList_DeepCopyInto SavedViewComparisonSpaceAggregationParam
  SavedViewComparisonSpaceAggregationParam_DeepCopyInto SavedViewAggregation SavedViewAggregation_DeepCopyInto
  SavedViewBucketOptionsSpec SavedViewBucketOptionsSpec_DeepCopyInto SavedViewBucketOptions
  SavedViewBucketOptions_DeepCopyInto SavedViewFilter SavedViewFilter_DeepCopyInto SavedViewArg
  SavedViewArg_DeepCopyInto SavedViewFunction SavedViewFunction_DeepCopyInto SavedViewGroupBy
  SavedViewGroupBy_DeepCopyInto SavedViewHaving SavedViewHaving_DeepCopyInto SavedViewLimitBy
  SavedViewLimitBy_DeepCopyInto SavedViewKey SavedViewKey_DeepCopyInto SavedViewOrder
  SavedViewOrder_DeepCopyInto SavedViewSecondaryAggregationGroupBy
  SavedViewSecondaryAggregationGroupBy_DeepCopyInto SavedViewSecondaryAggregationLimitBy
  SavedViewSecondaryAggregationLimitBy_DeepCopyInto SavedViewSecondaryAggregationOrder
  SavedViewSecondaryAggregationOrder_DeepCopyInto SavedViewSecondaryAggregation
  SavedViewSecondaryAggregation_DeepCopyInto SavedViewSelectField SavedViewSelectField_DeepCopyInto
  SavedViewQuerySpec SavedViewQuerySpec_DeepCopyInto SavedViewQuery SavedViewQuery_DeepCopyInto
  SavedViewDisplay SavedViewDisplay_DeepCopyInto SavedViewSelectedField SavedViewSelectedField_DeepCopyInto
  SavedViewSpecPayload SavedViewSpecPayload_DeepCopyInto SavedViewObjectSpec SavedViewObjectSpec_DeepCopyInto
  SavedViewObjectTemplate SavedViewObjectTemplate_DeepCopyInto SavedViewSpec SavedViewSpec_DeepCopyInto
  SavedViewStatus SavedViewStatus_DeepCopyInto SavedView SavedView_DeepCopyInto SavedViewList
  SavedViewList_DeepCopyInto ServiceAccountObjectSpec ServiceAccountObjectSpec_DeepCopyInto
  ServiceAccountObjectTemplate ServiceAccountObjectTemplate_DeepCopyInto ServiceAccountSpec
  ServiceAccountSpec_DeepCopyInto ServiceAccountStatus ServiceAccountStatus_DeepCopyInto ServiceAccount
  ServiceAccount_DeepCopyInto ServiceAccountList ServiceAccountList_DeepCopyInto UserObjectSpec
  UserObjectSpec_DeepCopyInto UserObjectTemplate UserObjectTemplate_DeepCopyInto UserSpec
  UserSpec_DeepCopyInto UserStatus UserStatus_DeepCopyInto User User_DeepCopyInto UserList
  UserList_DeepCopyInto.

#[local] Instance ValueSource_copies : Copies ValueSource ValueSource_DeepCopyInto.
Proof. copies_fields. Qed.
#[local] Instance Endpoint_copies : Copies Endpoint Endpoint_DeepCopyInto.
Proof. copies_fields. Qed.
#[local] Instance HeaderAuth_copies : Copies HeaderAuth HeaderAuth_DeepCopyInto.
Proof. copies_fields. Qed.
#[local] Instance Authentication_copies : Copies Authentication Authentication_DeepCopyInto.
Proof. copies_fields. Qed.
#[local] Instance TLSConfig_copies : Copies TLSConfig TLSConfig_DeepCopyInto.
Proof. copies_fields. Qed.
#[local] Instance ProviderConfigSpec_copies : Copies ProviderConfigSpec ProviderConfigSpec_DeepCopyInto.
Proof. copies_fields. Qed.
#[local] Instance ProviderConfigStatus_copies : Copies ProviderConfigStatus ProviderConfigStatus_DeepCopyInto.
Proof. copies_fields. Qed.
#[local] Instance ClusterProviderConfig_copies : Copies ClusterProviderConfig ClusterProviderConfig_DeepCopyInto.
Proof. copies_fields. Qed.
#[local] Instance ClusterProviderConfigList_copies : Copies ClusterProviderConfigList ClusterProviderConfigList_DeepCopyInto.
Proof. copies_fields. Qed.
#[local] Instance ProviderConfigRef_copies : Copies ProviderConfigRef ProviderConfigRef_DeepCopyInto.
Proof. copies_fields. Qed.
#[local] Instance CoreSpec_copies : Copies CoreSpec CoreSpec_DeepCopyInto.
Proof. copies_fields. Qed.
#[local] Instance SigNozResource_copies : Copies SigNozResource SigNozResource_DeepCopyInto.
Proof. copies_fields. Qed.
#[local] Instance CoreStatus_copies : Copies CoreStatus CoreStatus_DeepCopyInto.
Proof. copies_fields. Qed.
#[local] Instance ProviderConfig_copies : Copies ProviderConfig ProviderConfig_DeepCopyInto.
Proof. copies_fields. Qed.
#[local] Instance ProviderConfigList_copies : Copies ProviderConfigList ProviderConfigList_DeepCopyInto.
Proof. copies_fields. Qed.
#[local] Instance AuthDomainAttributeMapping_copies : Copies AuthDomainAttributeMapping AuthDomainAttributeMapping_DeepCopyInto.
Proof. copies_fields. Qed.
#[local] Instance AuthDomainConfigSpec_copies : Copies AuthDomainConfigSpec AuthDomainConfigSpec_DeepCopyInto.
Proof. copies_fields. Qed.
#[local] Instance AuthDomainConfig_copies : Copies AuthDomainConfig AuthDomainConfig_DeepCopyInto.
Proof. copies_fields. Qed.
#[local] Instance AuthDomainRoleMapping_copies : Copies AuthDomainRoleMapping AuthDomainRoleMapping_DeepCopyInto.
Proof. copies_fields. Qed.
#[local] Instance AuthDomainObjectSpec_copies : Copies AuthDomainObjectSpec AuthDomainObjectSpec_DeepCopyInto.
Proof. copies_fields. Qed.
#[local] Instance AuthDomainObjectTemplate_copies : Copies AuthDomainObjectTemplate AuthDomainObjectTemplate_DeepCopyInto.
Proof. copies_fields. Qed.
#[local] Instance AuthDomainSpec_copies : Copies AuthDomainSpec AuthDomainSpec_DeepCopyInto.
Proof. copies_fields. Qed.
#[local] Instance AuthDomainStatus_copies : Copies AuthDomainStatus AuthDomainStatus_DeepCopyInto.
Proof. copies_fields. Qed.
#[local] Instance AuthDomain_copies : Copies AuthDomain AuthDomain_DeepCopyInto.
Proof. copies_fields. Qed.
#[local] Instance AuthDomainList_copies : Copies AuthDomainList AuthDomainList_DeepCopyInto.
Proof. copies_fields. Qed.
#[local] Instance DashboardDisplay_copies : Copies DashboardDisplay DashboardDisplay_DeepCopyInto.
Proof. copies_fields. Qed.
#[local] Instance DashboardCollapse_copies : Copies DashboardCollapse DashboardCollapse_DeepCopyInto.
Proof. copies_fields. Qed.
#[local] Instance DashboardLayoutSpecDisplay_copies : Copies DashboardLayoutSpecDisplay DashboardLayoutSpecDisplay_DeepCopyInto.
Proof. copies_fields. Qed.
#[local] Instance DashboardContent_copies : Copies DashboardContent DashboardContent_DeepCopyInto.
Proof. copies_fields. Qed.
#[local] Instance DashboardItem_copies : Copies DashboardItem DashboardItem_DeepCopyInto.
Proof. copies_fields. Qed.
#[local] Instance DashboardLayoutSpec_copies : Copies DashboardLayoutSpec DashboardLayoutSpec_DeepCopyInto.
Proof. copies_fields. Qed.
#[local] Instance DashboardLayout_copies : Copies DashboardLayout DashboardLayout_DeepCopyInto.
Proof. copies_fields. Qed.
#[local] Instance DashboardY_copies : Copies DashboardY DashboardY_DeepCopyInto.
Proof. copies_fields. Qed.
#[local] Instance DashboardAxes_copies : Copies DashboardAxes DashboardAxes_DeepCopyInto.
Proof. copies_fields. Qed.
#[local] Instance DashboardColors_copies : Copies DashboardColors DashboardColors_DeepCopyInto.
Proof. copies_fields. Qed.
#[local] Instance DashboardSpanGaps_copies : Copies DashboardSpanGaps DashboardSpanGaps_DeepCopyInto.
Proof. copies_fields. Qed.
#[local] Instance DashboardChartAppearance_copies : Copies DashboardChartAppearance DashboardChartAppearance_DeepCopyInto.
Proof. copies_fields. Qed.
#[local] Instance DashboardFormatting_copies : Copies DashboardFormatting DashboardFormatting_DeepCopyInto.
Proof. copies_fields. Qed.
#[local] Instance DashboardHeaderOptions_copies : Copies DashboardHeaderOptions DashboardHeaderOptions_DeepCopyInto.
Proof. copies_fields. Qed.
#[local] Instance DashboardHistogramBuckets_copies : Copies DashboardHistogramBuckets DashboardHistogramBuckets_DeepCopyInto.
Proof. copies_fields. Qed.
#[local] Instance DashboardLegend_copies : Copies DashboardLegend DashboardLegend_DeepCopyInto.
Proof. copies_fields. Qed.
#[local] Instance DashboardPresentation_copies : Copies DashboardPresentation DashboardPresentation_DeepCopyInto.
Proof. copies_fields. Qed.
#[local] Instance DashboardSelectField_copies : Copies DashboardSelectField DashboardSelectField_DeepCopyInto.
Proof. copies_fields. Qed.
#[local] Instance DashboardThreshold_copies : Copies DashboardThreshold DashboardThreshold_DeepCopyInto.
Proof. copies_fields. Qed.
#[local] Instance DashboardVisualization_copies : Copies DashboardVisualization DashboardVisualization_DeepCopyInto.
Proof. copies_fields. Qed.
#[local] Instance DashboardPluginSpec_copies : Copies DashboardPluginSpec DashboardPluginSpec_DeepCopyInto.
Proof. copies_fields. Qed.
#[local] Instance DashboardPlugin_copies : Copies DashboardPlugin DashboardPlugin_DeepCopyInto.
Proof. copies_fields. Qed.
#[local] Instance DashboardComparisonSpaceAggregationParam_copies : Copies DashboardComparisonSpaceAggregationParam DashboardComparisonSpaceAggregationParam_DeepCopyInto.
Proof. copies_fields. Qed.
#[local] Instance DashboardAggregation_copies : Copies DashboardAggregation DashboardAggregation_DeepCopyInto.
Proof. copies_fields. Qed.
#[local] Instance DashboardBucketOptionsSpec_copies : Copies DashboardBucketOptionsSpec DashboardBucketOptionsSpec_DeepCopyInto.
Proof. copies_fields. Qed.
#[local] Instance DashboardBucketOptions_copies : Copies DashboardBucketOptions DashboardBucketOptions_DeepCopyInto.
Proof. copies_fields. Qed.
#[local] Instance DashboardFilter_copies : Copies DashboardFilter DashboardFilter_DeepCopyInto.
Proof. copies_fields. Qed.
#[local] Instance DashboardArg_copies : Copies DashboardArg DashboardArg_DeepCopyInto.
Proof. copies_fields. Qed.
#[local] Instance DashboardFunction_copies : Copies DashboardFunction DashboardFunction_DeepCopyInto.
Proof. copies_fields. Qed.
#[local] Instance DashboardGroupBy_copies : Copies DashboardGroupBy DashboardGroupBy_DeepCopyInto.
Proof. copies_fields. Qed.
#[local] Instance DashboardHaving_copies : Copies DashboardHaving DashboardHaving_DeepCopyInto.
Proof. copies_fields. Qed.
#[local] Instance DashboardLimitBy_copies : Copies DashboardLimitBy DashboardLimitBy_DeepCopyInto.
Proof. copies_fields. Qed.
#[local] Instance DashboardKey_copies : Copies DashboardKey DashboardKey_DeepCopyInto.
Proof. copies_fields. Qed.
#[local] Instance DashboardOrder_copies : Copies DashboardOrder DashboardOrder_DeepCopyInto.
Proof. copies_fields. Qed.
#[local] Instance DashboardQuerySpecPluginSpecQuerySpecAggregation_copies : Copies DashboardQuerySpecPluginSpecQuerySpecAggregation DashboardQuerySpecPluginSpecQuerySpecAggregation_DeepCopyInto.
Proof. copies_fields. Qed.
#[local] Instance DashboardQuerySpecPluginSpecQuerySpecBucketOptionsSpec_copies : Copies DashboardQuerySpecPluginSpecQuerySpecBucketOptionsSpec DashboardQuerySpecPluginSpecQuerySpecBucketOptionsSpec_DeepCopyInto.
Proof. copies_fields. Qed.
#[local] Instance DashboardQuerySpecPluginSpecQuerySpecBucketOptions_copies : Copies DashboardQuerySpecPluginSpecQuerySpecBucketOptions DashboardQuerySpecPluginSpecQuerySpecBucketOptions_DeepCopyInto.
Proof. copies_fields. Qed.
#[local] Instance DashboardQuerySpecPluginSpecQuerySpecFilter_copies : Copies DashboardQuerySpecPluginSpecQuerySpecFilter DashboardQuerySpecPluginSpecQuerySpecFilter_DeepCopyInto.
Proof. copies_fields. Qed.
#[local] Instance DashboardQuerySpecPluginSpecQuerySpecFunction_copies : Copies DashboardQuerySpecPluginSpecQuerySpecFunction DashboardQuerySpecPluginSpecQuerySpecFunction_DeepCopyInto.
Proof. copies_fields. Qed.
#[local] Instance DashboardQuerySpecPluginSpecQuerySpecGroupBy_copies : Copies DashboardQuerySpecPluginSpecQuerySpecGroupBy DashboardQuerySpecPluginSpecQuerySpecGroupBy_DeepCopyInto.
Proof. copies_fields. Qed.
#[local] Instance DashboardQuerySpecPluginSpecQuerySpecHaving_copies : Copies DashboardQuerySpecPluginSpecQuerySpecHaving DashboardQuerySpecPluginSpecQuerySpecHaving_DeepCopyInto.
Proof. copies_fields. Qed.
#[local] Instance DashboardQuerySpecPluginSpecQuerySpecLimitBy_copies : Copies DashboardQuerySpecPluginSpecQuerySpecLimitBy DashboardQuerySpecPluginSpecQuerySpecLimitBy_DeepCopyInto.
Proof. copies_fields. Qed.
#[local] Instance DashboardQuerySpecPluginSpecQuerySpecOrder_copies : Copies DashboardQuerySpecPluginSpecQuerySpecOrder DashboardQuerySpecPluginSpecQuerySpecOrder_DeepCopyInto.
Proof. copies_fields. Qed.
#[local] Instance DashboardSecondaryAggregationGroupBy_copies : Copies DashboardSecondaryAggregationGroupBy DashboardSecondaryAggregationGroupBy_DeepCopyInto.
Proof. copies_fields. Qed.
#[local] Instance DashboardSecondaryAggregationLimitBy_copies : Copies DashboardSecondaryAggregationLimitBy DashboardSecondaryAggregationLimitBy_DeepCopyInto.
Proof. copies_fields. Qed.
#[local] Instance DashboardSecondaryAggregationOrder_copies : Copies DashboardSecondaryAggregationOrder DashboardSecondaryAggregationOrder_DeepCopyInto.
Proof. copies_fields. Qed.
#[local] Instance DashboardSecondaryAggregation_copies : Copies DashboardSecondaryAggregation DashboardSecondaryAggregation_DeepCopyInto.
Proof. copies_fields. Qed.
#[local] Instance DashboardQuerySpecPluginSpecQuerySpecSelectField_copies : Copies DashboardQuerySpecPluginSpecQuerySpecSelectField DashboardQuerySpecPluginSpecQuerySpecSelectField_DeepCopyInto.
Proof. copies_fields. Qed.
#[local] Instance DashboardQuerySpecPluginSpecQuerySpec_copies : Copies DashboardQuerySpecPluginSpecQuerySpec DashboardQuerySpecPluginSpecQuerySpec_DeepCopyInto.
Proof. copies_fields. Qed.
#[local] Instance DashboardQuerySpecPluginSpecQuery_copies : Copies DashboardQuerySpecPluginSpecQuery DashboardQuerySpecPluginSpecQuery_DeepCopyInto.
Proof. copies_fields. Qed.
#[local] Instance DashboardQuerySpecPluginSpecSelectField_copies : Copies DashboardQuerySpecPluginSpecSelectField DashboardQuerySpecPluginSpecSelectField_DeepCopyInto.
Proof. copies_fields. Qed.
#[local] Instance DashboardQuerySpecPluginSpec_copies : Copies DashboardQuerySpecPluginSpec DashboardQuerySpecPluginSpec_DeepCopyInto.
Proof. copies_fields. Qed.
#[local] Instance DashboardQuerySpecPlugin_copies : Copies DashboardQuerySpecPlugin DashboardQuerySpecPlugin_DeepCopyInto.
Proof. copies_fields. Qed.
#[local] Instance DashboardQuerySpec_copies : Copies DashboardQuerySpec DashboardQuerySpec_DeepCopyInto.
Proof. copies_fields. Qed.
#[local] Instance DashboardQuery_copies : Copies DashboardQuery DashboardQuery_DeepCopyInto.
Proof. copies_fields. Qed.
#[local] Instance DashboardLink_copies : Copies DashboardLink DashboardLink_DeepCopyInto.
Proof. copies_fields. Qed.
#[local] Instance DashboardPanelSpec_copies : Copies DashboardPanelSpec DashboardPanelSpec_DeepCopyInto.
Proof. copies_fields. Qed.
#[local] Instance DashboardPanel_copies : Copies DashboardPanel DashboardPanel_DeepCopyInto.
Proof. copies_fields. Qed.
#[local] Instance DashboardVariableSpecPluginSpec_copies : Copies DashboardVariableSpecPluginSpec DashboardVariableSpecPluginSpec_DeepCopyInto.
Proof. copies_fields. Qed.
#[local] Instance DashboardVariableSpecPlugin_copies : Copies DashboardVariableSpecPlugin DashboardVariableSpecPlugin_DeepCopyInto.
Proof. copies_fields. Qed.
#[local] Instance DashboardVariableSpec_copies : Copies DashboardVariableSpec DashboardVariableSpec_DeepCopyInto.
Proof. copies_fields. Qed.
#[local] Instance DashboardVariable_copies : Copies DashboardVariable DashboardVariable_DeepCopyInto.
Proof. copies_fields. Qed.
#[local] Instance DashboardSpecPayload_copies : Copies DashboardSpecPayload DashboardSpecPayload_DeepCopyInto.
Proof. copies_fields. Qed.
#[local] Instance DashboardTag_copies : Copies DashboardTag DashboardTag_DeepCopyInto.
Proof. copies_fields. Qed.
#[local] Instance DashboardObjectSpec_copies : Copies DashboardObjectSpec DashboardObjectSpec_DeepCopyInto.
Proof. copies_fields. Qed.
#[local] Instance DashboardObjectTemplate_copies : Copies DashboardObjectTemplate DashboardObjectTemplate_DeepCopyInto.
Proof. copies_fields. Qed.
#[local] Instance DashboardSpec_copies : Copies DashboardSpec DashboardSpec_DeepCopyInto.
Proof. copies_fields. Qed.
#[local] Instance DashboardStatus_copies : Copies DashboardStatus DashboardStatus_DeepCopyInto.
Proof. copies_fields. Qed.
#[local] Instance Dashboard_copies : Copies Dashboard Dashboard_DeepCopyInto.
Proof. copies_fields. Qed.
#[local] Instance DashboardList_copies : Copies DashboardList DashboardList_DeepCopyInto.
Proof. copies_fields. Qed.
#[local] Instance NotificationChannelConfirm_copies : Copies NotificationChannelConfirm NotificationChannelConfirm_DeepCopyInto.
Proof. copies_fields. Qed.
#[local] Instance NotificationChannelAction_copies : Copies NotificationChannelAction NotificationChannelAction_DeepCopyInto.
Proof. copies_fields. Qed.
#[local] Instance NotificationChannelField_copies : Copies NotificationChannelField NotificationChannelField_DeepCopyInto.
Proof. copies_fields. Qed.
#[local] Instance NotificationChannelConfigSpec_copies : Copies NotificationChannelConfigSpec NotificationChannelConfigSpec_DeepCopyInto.
Proof. copies_fields. Qed.
#[local] Instance NotificationChannelConfig_copies : Copies NotificationChannelConfig NotificationChannelConfig_DeepCopyInto.
Proof. copies_fields. Qed.
#[local] Instance NotificationChannelObjectSpec_copies : Copies NotificationChannelObjectSpec NotificationChannelObjectSpec_DeepCopyInto.
Proof. copies_fields. Qed.
#[local] Instance NotificationChannelObjectTemplate_copies : Copies NotificationChannelObjectTemplate NotificationChannelObjectTemplate_DeepCopyInto.
Proof. copies_fields. Qed.
#[local] Instance NotificationChannelSpec_copies : Copies NotificationChannelSpec NotificationChannelSpec_DeepCopyInto.
Proof. copies_fields. Qed.
#[local] Instance NotificationChannelStatus_copies : Copies NotificationChannelStatus NotificationChannelStatus_DeepCopyInto.
Proof. copies_fields. Qed.
#[local] Instance NotificationChannel_copies : Copies NotificationChannel NotificationChannel_DeepCopyInto.
Proof. copies_fields. Qed.
#[local] Instance NotificationChannelList_copies : Copies NotificationChannelList NotificationChannelList_DeepCopyInto.
Proof. copies_fields. Qed.
#[local] Instance PlannedMaintenanceRecurrence_copies : Copies PlannedMaintenanceRecurrence PlannedMaintenanceRecurrence_DeepCopyInto.
Proof. copies_fields. Qed.
#[local] Instance PlannedMaintenanceSchedule_copies : Copies PlannedMaintenanceSchedule PlannedMaintenanceSchedule_DeepCopyInto.
Proof. copies_fields. Qed.
#[local] Instance PlannedMaintenanceObjectSpec_copies : Copies PlannedMaintenanceObjectSpec PlannedMaintenanceObjectSpec_DeepCopyInto.
Proof. copies_fields. Qed.
#[local] Instance PlannedMaintenanceObjectTemplate_copies : Copies PlannedMaintenanceObjectTemplate PlannedMaintenanceObjectTemplate_DeepCopyInto.
Proof. copies_fields. Qed.
#[local] Instance PlannedMaintenanceSpec_copies : Copies PlannedMaintenanceSpec PlannedMaintenanceSpec_DeepCopyInto.
Proof. copies_fields. Qed.
#[local] Instance PlannedMaintenanceStatus_copies : Copies PlannedMaintenanceStatus PlannedMaintenanceStatus_DeepCopyInto.
Proof. copies_fields. Qed.
#[local] Instance PlannedMaintenance_copies : Copies PlannedMaintenance PlannedMaintenance_DeepCopyInto.
Proof. copies_fields. Qed.
#[local] Instance PlannedMaintenanceList_copies : Copies PlannedMaintenanceList PlannedMaintenanceList_DeepCopyInto.
Proof. copies_fields. Qed.
#[local] Instance RoleResource_copies : Copies RoleResource RoleResource_DeepCopyInto.
Proof. copies_fields. Qed.
#[local] Instance RoleObjectGroup_copies : Copies RoleObjectGroup RoleObjectGroup_DeepCopyInto.
Proof. copies_fields. Qed.
#[local] Instance RoleTransactionGroup_copies : Copies RoleTransactionGroup RoleTransactionGroup_DeepCopyInto.
Proof. copies_fields. Qed.
#[local] Instance RoleObjectSpec_copies : Copies RoleObjectSpec RoleObjectSpec_DeepCopyInto.
Proof. copies_fields. Qed.
#[local] Instance RoleObjectTemplate_copies : Copies RoleObjectTemplate RoleObjectTemplate_DeepCopyInto.
Proof. copies_fields. Qed.
#[local] Instance RoleSpec_copies : Copies RoleSpec RoleSpec_DeepCopyInto.
Proof. copies_fields. Qed.
#[local] Instance RoleStatus_copies : Copies RoleStatus RoleStatus_DeepCopyInto.
Proof. copies_fields. Qed.
#[local] Instance Role_copies : Copies Role Role_DeepCopyInto.
Proof. copies_fields. Qed.
#[local] Instance RoleList_copies : Copies RoleList RoleList_DeepCopyInto.
Proof. copies_fields. Qed.
#[local] Instance RoutePolicyObjectSpec_copies : Copies RoutePolicyObjectSpec RoutePolicyObjectSpec_DeepCopyInto.
Proof. copies_fields. Qed.
#[local] Instance RoutePolicyObjectTemplate_copies : Copies RoutePolicyObjectTemplate RoutePolicyObjectTemplate_DeepCopyInto.
Proof. copies_fields. Qed.
#[local] Instance RoutePolicySpec_copies : Copies RoutePolicySpec RoutePolicySpec_DeepCopyInto.
Proof. copies_fields. Qed.
#[local] Instance RoutePolicyStatus_copies : Copies RoutePolicyStatus RoutePolicyStatus_DeepCopyInto.
Proof. copies_fields. Qed.
#[local] Instance RoutePolicy_copies : Copies RoutePolicy RoutePolicy_DeepCopyInto.
Proof. copies_fields. Qed.
#[local] Instance RoutePolicyList_copies : Copies RoutePolicyList RoutePolicyList_DeepCopyInto.
Proof. copies_fields. Qed.
#[local] Instance RuleComparisonSpaceAggregationParam_copies : Copies RuleComparisonSpaceAggregationParam RuleComparisonSpaceAggregationParam_DeepCopyInto.
Proof. copies_fields. Qed.
#[local] Instance RuleAggregation_copies : Copies RuleAggregation RuleAggregation_DeepCopyInto.
Proof. copies_fields. Qed.
#[local] Instance RuleBucketOptionsSpec_copies : Copies RuleBucketOptionsSpec RuleBucketOptionsSpec_DeepCopyInto.
Proof. copies_fields. Qed.
#[local] Instance RuleBucketOptions_copies : Copies RuleBucketOptions RuleBucketOptions_DeepCopyInto.
Proof. copies_fields. Qed.
#[local] Instance RuleFilter_copies : Copies RuleFilter RuleFilter_DeepCopyInto.
Proof. copies_fields. Qed.
#[local] Instance RuleArg_copies : Copies RuleArg RuleArg_DeepCopyInto.
Proof. copies_fields. Qed.
#[local] Instance RuleFunction_copies : Copies RuleFunction RuleFunction_DeepCopyInto.
Proof. copies_fields. Qed.
#[local] Instance RuleGroupBy_copies : Copies RuleGroupBy RuleGroupBy_DeepCopyInto.
Proof. copies_fields. Qed.
#[local] Instance RuleHaving_copies : Copies RuleHaving RuleHaving_DeepCopyInto.
Proof. copies_fields. Qed.
#[local] Instance RuleLimitBy_copies : Copies RuleLimitBy RuleLimitBy_DeepCopyInto.
Proof. copies_fields. Qed.
#[local] Instance RuleKey_copies : Copies RuleKey RuleKey_DeepCopyInto.
Proof. copies_fields. Qed.
#[local] Instance RuleOrder_copies : Copies RuleOrder RuleOrder_DeepCopyInto.
Proof. copies_fields. Qed.
#[local] Instance RuleSecondaryAggregationGroupBy_copies : Copies RuleSecondaryAggregationGroupBy RuleSecondaryAggregationGroupBy_DeepCopyInto.
Proof. copies_fields. Qed.
#[local] Instance RuleSecondaryAggregationLimitBy_copies : Copies RuleSecondaryAggregationLimitBy RuleSecondaryAggregationLimitBy_DeepCopyInto.
Proof. copies_fields. Qed.
#[local] Instance RuleSecondaryAggregationOrder_copies : Copies RuleSecondaryAggregationOrder RuleSecondaryAggregationOrder_DeepCopyInto.
Proof. copies_fields. Qed.
#[local] Instance RuleSecondaryAggregation_copies : Copies RuleSecondaryAggregation RuleSecondaryAggregation_DeepCopyInto.
Proof. copies_fields. Qed.
#[local] Instance RuleSelectField_copies : Copies RuleSelectField RuleSelectField_DeepCopyInto.
Proof. copies_fields. Qed.
#[local] Instance RuleQuerySpec_copies : Copies RuleQuerySpec RuleQuerySpec_DeepCopyInto.
Proof. copies_fields. Qed.
#[local] Instance RuleQuery_copies : Copies RuleQuery RuleQuery_DeepCopyInto.
Proof. copies_fields. Qed.
#[local] Instance RuleCompositeQuery_copies : Copies RuleCompositeQuery RuleCompositeQuery_DeepCopyInto.
Proof. copies_fields. Qed.
#[local] Instance RuleThresholdsSpec_copies : Copies RuleThresholdsSpec RuleThresholdsSpec_DeepCopyInto.
Proof. copies_fields. Qed.
#[local] Instance RuleThresholds_copies : Copies RuleThresholds RuleThresholds_DeepCopyInto.
Proof. copies_fields. Qed.
#[local] Instance RuleCondition_copies : Copies RuleCondition RuleCondition_DeepCopyInto.
Proof. copies_fields. Qed.
#[local] Instance RuleSchedule_copies : Copies RuleSchedule RuleSchedule_DeepCopyInto.
Proof. copies_fields. Qed.
#[local] Instance RuleEvaluationSpec_copies : Copies RuleEvaluationSpec RuleEvaluationSpec_DeepCopyInto.
Proof. copies_fields. Qed.
#[local] Instance RuleEvaluation_copies : Copies RuleEvaluation RuleEvaluation_DeepCopyInto.
Proof. copies_fields. Qed.
#[local] Instance RuleRenotify_copies : Copies RuleRenotify RuleRenotify_DeepCopyInto.
Proof. copies_fields. Qed.
#[local] Instance RuleNotificationSettings_copies : Copies RuleNotificationSettings RuleNotificationSettings_DeepCopyInto.
Proof. copies_fields. Qed.
#[local] Instance RuleObjectSpec_copies : Copies RuleObjectSpec RuleObjectSpec_DeepCopyInto.
Proof. copies_fields. Qed.
#[local] Instance RuleObjectTemplate_copies : Copies RuleObjectTemplate RuleObjectTemplate_DeepCopyInto.
Proof. copies_fields. Qed.
#[local] Instance RuleSpec_copies : Copies RuleSpec RuleSpec_DeepCopyInto.
Proof. copies_fields. Qed.
#[local] Instance RuleStatus_copies : Copies RuleStatus RuleStatus_DeepCopyInto.
Proof. copies_fields. Qed.
#[local] Instance Rule_copies : Copies Rule Rule_DeepCopyInto.
Proof. copies_fields. Qed.
#[local] Instance RuleList_copies : Copies RuleList RuleList_DeepCopyInto.
Proof. copies_fields. Qed.
#[local] Instance SavedViewComparisonSpaceAggregationParam_copies : Copies SavedViewComparisonSpaceAggregationParam SavedViewComparisonSpaceAggregationParam_DeepCopyInto.
Proof. copies_fields. Qed.
#[local] Instance SavedViewAggregation_copies : Copies SavedViewAggregation SavedViewAggregation_DeepCopyInto.
Proof. copies_fields. Qed.
#[local] Instance SavedViewBucketOptionsSpec_copies : Copies SavedViewBucketOptionsSpec SavedViewBucketOptionsSpec_DeepCopyInto.
Proof. copies_fields. Qed.
#[local] Instance SavedViewBucketOptions_copies : Copies SavedViewBucketOptions SavedViewBucketOptions_DeepCopyInto.
Proof. copies_fields. Qed.
#[local] Instance SavedViewFilter_copies : Copies SavedViewFilter SavedViewFilter_DeepCopyInto.
Proof. copies_fields. Qed.
#[local] Instance SavedViewArg_copies : Copies SavedViewArg SavedViewArg_DeepCopyInto.
Proof. copies_fields. Qed.
#[local] Instance SavedViewFunction_copies : Copies SavedViewFunction SavedViewFunction_DeepCopyInto.
Proof. copies_fields. Qed.
#[local] Instance SavedViewGroupBy_copies : Copies SavedViewGroupBy SavedViewGroupBy_DeepCopyInto.
Proof. copies_fields. Qed.
#[local] Instance SavedViewHaving_copies : Copies SavedViewHaving SavedViewHaving_DeepCopyInto.
Proof. copies_fields. Qed.
#[local] Instance SavedViewLimitBy_copies : Copies SavedViewLimitBy SavedViewLimitBy_DeepCopyInto.
Proof. copies_fields. Qed.
#[local] Instance SavedViewKey_copies : Copies SavedViewKey SavedViewKey_DeepCopyInto.
Proof. copies_fields. Qed.
#[local] Instance SavedViewOrder_copies : Copies SavedViewOrder SavedViewOrder_DeepCopyInto.
Proof. copies_fields. Qed.
#[local] Instance SavedViewSecondaryAggregationGroupBy_copies : Copies SavedViewSecondaryAggregationGroupBy SavedViewSecondaryAggregationGroupBy_DeepCopyInto.
Proof. copies_fields. Qed.
#[local] Instance SavedViewSecondaryAggregationLimitBy_copies : Copies SavedViewSecondaryAggregationLimitBy SavedViewSecondaryAggregationLimitBy_DeepCopyInto.
Proof. copies_fields. Qed.
#[local] Instance SavedViewSecondaryAggregationOrder_copies : Copies SavedViewSecondaryAggregationOrder SavedViewSecondaryAggregationOrder_DeepCopyInto.
Proof. copies_fields. Qed.
#[local] Instance SavedViewSecondaryAggregation_copies : Copies SavedViewSecondaryAggregation SavedViewSecondaryAggregation_DeepCopyInto.
Proof. copies_fields. Qed.
#[local] Instance SavedViewSelectField_copies : Copies SavedViewSelectField SavedViewSelectField_DeepCopyInto.
Proof. copies_fields. Qed.
#[local] Instance SavedViewQuerySpec_copies : Copies SavedViewQuerySpec SavedViewQuerySpec_DeepCopyInto.
Proof. copies_fields. Qed.
#[local] Instance SavedViewQuery_copies : Copies SavedViewQuery SavedViewQuery_DeepCopyInto.
Proof. copies_fields. Qed.
#[local] Instance SavedViewDisplay_copies : Copies SavedViewDisplay SavedViewDisplay_DeepCopyInto.
Proof. copies_fields. Qed.
#[local] Instance SavedViewSelectedField_copies : Copies SavedViewSelectedField SavedViewSelectedField_DeepCopyInto.
Proof. copies_fields. Qed.
#[local] Instance SavedViewSpecPayload_copies : Copies SavedViewSpecPayload SavedViewSpecPayload_DeepCopyInto.
Proof. copies_fields. Qed.
#[local] Instance SavedViewObjectSpec_copies : Copies SavedViewObjectSpec SavedViewObjectSpec_DeepCopyInto.
Proof. copies_fields. Qed.
#[local] Instance SavedViewObjectTemplate_copies : Copies SavedViewObjectTemplate SavedViewObjectTemplate_DeepCopyInto.
Proof. copies_fields. Qed.
#[local] Instance SavedViewSpec_copies : Copies SavedViewSpec SavedViewSpec_DeepCopyInto.
Proof. copies_fields. Qed.
#[local] Instance SavedViewStatus_copies : Copies SavedViewStatus SavedViewStatus_DeepCopyInto.
Proof. copies_fields. Qed.
#[local] Instance SavedView_copies : Copies SavedView SavedView_DeepCopyInto.
Proof. copies_fields. Qed.
#[local] Instance SavedViewList_copies : Copies SavedViewList SavedViewList_DeepCopyInto.
Proof. copies_fields. Qed.
#[local] Instance ServiceAccountObjectSpec_copies : Copies ServiceAccountObjectSpec ServiceAccountObjectSpec_DeepCopyInto.
Proof. copies_fields. Qed.
#[local] Instance ServiceAccountObjectTemplate_copies : Copies ServiceAccountObjectTemplate ServiceAccountObjectTemplate_DeepCopyInto.
Proof. copies_fields. Qed.
#[local] Instance ServiceAccountSpec_copies : Copies ServiceAccountSpec ServiceAccountSpec_DeepCopyInto.
Proof. copies_fields. Qed.
#[local] Instance ServiceAccountStatus_copies : Copies ServiceAccountStatus ServiceAccountStatus_DeepCopyInto.
Proof. copies_fields. Qed.
#[local] Instance ServiceAccount_copies : Copies ServiceAccount ServiceAccount_DeepCopyInto.
Proof. copies_fields. Qed.
#[local] Instance ServiceAccountList_copies : Copies ServiceAccountList ServiceAccountList_DeepCopyInto.
Proof. copies_fields. Qed.
#[local] Instance UserObjectSpec_copies : Copies UserObjectSpec UserObjectSpec_DeepCopyInto.
Proof. copies_fields. Qed.
#[local] Instance UserObjectTemplate_copies : Copies UserObjectTemplate UserObjectTemplate_DeepCopyInto.
Proof. copies_fields. Qed.
#[local] Instance UserSpec_copies : Copies UserSpec UserSpec_DeepCopyInto.
Proof. copies_fields. Qed.
#[local] Instance UserStatus_copies : Copies UserStatus UserStatus_DeepCopyInto.
Proof. copies_fields. Qed.
#[local] Instance User_copies : Copies User User_DeepCopyInto.
Proof. copies_fields. Qed.
#[local] Instance UserList_copies : Copies UserList UserList_DeepCopyInto.
Proof. copies_fields. Qed.

(** ** The whole package *)

Lemma api_copiers_copy : Forall (fun '(t, into) => Copies t into) api_copiers.
Proof. unfold api_copiers. repeat (apply Forall_cons_2; [cbn beta match; apply _|]). by apply Forall_nil_2. Qed.

Lemma api_objects_copy : Forall (fun '(t, deep) => Copies (TPtr t) deep) api_objects.
Proof.
  unfold api_objects.
  repeat (apply Forall_cons_2; [cbn beta match; apply DeepCopyObject_copies, new_pointer_copies; apply _|]). by apply Forall_nil_2.
Qed.

(** C26. Deep copies are independent.  For each of the 203 types of the package,
    [DeepCopy] of a pointer to a value whose references are good never panics and
    returns a pointer to memory of its own that means the same: whatever is then
    done to the copy's memory, the original still means what it did, and the
    other way round.  [DeepCopyObject] of each of the 24 Kubernetes objects does
    the same, and a nil pointer copies to nil. *)
Theorem deep_copies_are_independent :
  Forall (fun '(t, into) => independent t (DeepCopy_with into) /\ forall h, DeepCopy_with into (VPtr None) h = Some (VPtr None, h))
    api_copiers /\
  Forall (fun '(t, deep) => independent t deep /\ forall h, deep (VPtr None) h = Some (VPtr None, h)) api_objects.
Proof.
  split.
  - eapply Forall_impl; [exact api_copiers_copy|]. intros [t into] Hc. split; [|done].
    by apply copies_independent, new_pointer_copies.
  - apply Forall_forall. intros [t deep] Hin. pose proof (proj1 (Forall_forall _ _) api_objects_copy _ Hin) as Hc.
    split; [by apply copies_independent|]. unfold api_objects in Hin. set_unfold in Hin.
    by repeat (destruct Hin as [[= -> ->]|Hin]; [done|]).
Qed.
End DeepCopySpec.
