(* ===== verification/Scheme.v ===== *)
(** * api/resources/v1alpha1/groupversion_info.go: the types of the scheme

    Each file of types registers its two at initialisation; [AddToScheme] makes
    the registrations, when cmd/main.go is initialised. *)

From S2P Require Import Prelude GoTypes ApiTypes DeepCopy.
From Stdlib Require Import String.

Local Open Scope string_scope.
Local Open Scope list_scope.

Definition GroupVersion : Type := string * string.

#[export] Instance GroupVersion_eq_dec : EqDecision GroupVersion.
Proof. unfold GroupVersion. apply _. Defined.

(** The scheme of apimachinery: the type a kind of a group version stands for.
    [AddKnownTypes] panics, [None], when a kind has another type already. *)
Class RuntimeScheme := {
  Scheme : Type;
  known : Scheme -> GroupVersion -> string -> option ty;
  AddToGroupVersion : Scheme -> GroupVersion -> Scheme;
  AddKnownTypes : Scheme -> GroupVersion -> list (string * ty) -> option Scheme;
}.

(** The kinds metav1.AddToGroupVersion gives every group version. *)
Definition meta_kinds : list string :=
  ["WatchEvent"; "ListOptions"; "GetOptions"; "DeleteOptions"; "CreateOptions"; "UpdateOptions"; "PatchOptions"].

Class RuntimeSchemeLaws `{RuntimeScheme} := {
  add_group_version : forall s gv gv' k, k ∉ meta_kinds -> known (AddToGroupVersion s gv) gv' k = known s gv' k;
  add_known_types : forall s gv kinds, NoDup kinds.*1 -> (forall k, k ∈ kinds.*1 -> known s gv k = None) ->
    exists s', AddKnownTypes s gv kinds = Some s' /\
      forall gv' k, known s' gv' k =
        match (if decide (gv' = gv) then (list_to_map kinds : gmap string ty) !! k else None) with
        | Some t => Some t
        | None => known s gv' k
        end;
}.

Section Scheme.
Context `{ET : ExternalTypes} `{RS : RuntimeScheme}.

Definition SchemeGroupVersion : GroupVersion := ("resources.signoz.io", "v1alpha1").

(** The functions registered do not fail; one may panic. *)
Definition registration : Type := Scheme -> option Scheme.

Definition ClusterProviderConfig_init : registration := fun s =>
  AddKnownTypes s SchemeGroupVersion [("ClusterProviderConfig", ClusterProviderConfig); ("ClusterProviderConfigList", ClusterProviderConfigList)].
Definition ProviderConfig_init : registration := fun s =>
  AddKnownTypes s SchemeGroupVersion [("ProviderConfig", ProviderConfig); ("ProviderConfigList", ProviderConfigList)].
Definition AuthDomain_init : registration := fun s =>
  AddKnownTypes s SchemeGroupVersion [("AuthDomain", AuthDomain); ("AuthDomainList", AuthDomainList)].
Definition Dashboard_init : registration := fun s =>
  AddKnownTypes s SchemeGroupVersion [("Dashboard", Dashboard); ("DashboardList", DashboardList)].
Definition NotificationChannel_init : registration := fun s =>
  AddKnownTypes s SchemeGroupVersion [("NotificationChannel", NotificationChannel); ("NotificationChannelList", NotificationChannelList)].
Definition PlannedMaintenance_init : registration := fun s =>
  AddKnownTypes s SchemeGroupVersion [("PlannedMaintenance", PlannedMaintenance); ("PlannedMaintenanceList", PlannedMaintenanceList)].
Definition Role_init : registration := fun s =>
  AddKnownTypes s SchemeGroupVersion [("Role", Role); ("RoleList", RoleList)].
Definition RoutePolicy_init : registration := fun s =>
  AddKnownTypes s SchemeGroupVersion [("RoutePolicy", RoutePolicy); ("RoutePolicyList", RoutePolicyList)].
Definition Rule_init : registration := fun s =>
  AddKnownTypes s SchemeGroupVersion [("Rule", Rule); ("RuleList", RuleList)].
Definition SavedView_init : registration := fun s =>
  AddKnownTypes s SchemeGroupVersion [("SavedView", SavedView); ("SavedViewList", SavedViewList)].
Definition ServiceAccount_init : registration := fun s =>
  AddKnownTypes s SchemeGroupVersion [("ServiceAccount", ServiceAccount); ("ServiceAccountList", ServiceAccountList)].
Definition User_init : registration := fun s =>
  AddKnownTypes s SchemeGroupVersion [("User", User); ("UserList", UserList)].

(** The builder starts with a function of its own and grows file by file.  The
    method value [AddToScheme] holds a pointer to it, so it makes them all. *)
Definition SchemeBuilder : list registration :=
  [(fun s => Some (AddToGroupVersion s SchemeGroupVersion));
   ClusterProviderConfig_init;
   ProviderConfig_init;
   AuthDomain_init;
   Dashboard_init;
   NotificationChannel_init;
   PlannedMaintenance_init;
   Role_init;
   RoutePolicy_init;
   Rule_init;
   SavedView_init;
   ServiceAccount_init;
   User_init].

Definition AddToScheme (s : Scheme) : option Scheme := foldl (fun s f => s ≫= f) (Some s) SchemeBuilder.

(** cmd/main.go: the types of client-go, then these; [Must] panics on an error. *)
Definition init (clientgoscheme_AddToScheme : registration) (s : Scheme) : option Scheme :=
  s ← clientgoscheme_AddToScheme s; AddToScheme s.
End Scheme.
