(* ===== verification/SchemeSpec.v ===== *)
(** * The scheme knows every object of the API, under its own name *)

From S2P Require Import Prelude GoTypes ApiTypes DeepCopy Scheme.
From Stdlib Require Import String.

Local Open Scope string_scope.
Local Open Scope list_scope.

Section SchemeSpec.
Context `{ET : ExternalTypes} `{RSL : RuntimeSchemeLaws}.

(** What a file registers. *)
Definition two (kind : string) (t tl : ty) : list (string * ty) := [(kind, t); ((kind ++ "List")%string, tl)].
Definition api_files : list (list (string * ty)) := [
  two "ClusterProviderConfig" ClusterProviderConfig ClusterProviderConfigList;
  two "ProviderConfig" ProviderConfig ProviderConfigList; two "AuthDomain" AuthDomain AuthDomainList;
  two "Dashboard" Dashboard DashboardList; two "NotificationChannel" NotificationChannel NotificationChannelList;
  two "PlannedMaintenance" PlannedMaintenance PlannedMaintenanceList; two "Role" Role RoleList;
  two "RoutePolicy" RoutePolicy RoutePolicyList; two "Rule" Rule RuleList; two "SavedView" SavedView SavedViewList;
  two "ServiceAccount" ServiceAccount ServiceAccountList; two "User" User UserList].
Definition api_kinds : list (string * ty) := List.concat api_files.

(** Registrations of kinds that are new, one after the other, are one of them all. *)
Definition registers (f : registration) (kinds : list (string * ty)) : Prop := forall s,
  (forall k, k ∈ kinds.*1 -> known s SchemeGroupVersion k = None) ->
  exists s', f s = Some s' /\ forall gv k, known s' gv k =
    match (if decide (gv = SchemeGroupVersion) then (list_to_map kinds : gmap string ty) !! k else None) with
    | Some t => Some t
    | None => known s gv k
    end.

Lemma add_registers kinds : NoDup kinds.*1 -> registers (fun s => AddKnownTypes s SchemeGroupVersion kinds) kinds.
Proof. intros Hnd s Hs. by apply add_known_types. Qed.

Lemma registers_all (fs : list registration) (kss : list (list (string * ty))) :
  Forall2 registers fs kss -> NoDup (List.concat kss).*1 ->
  registers (fun s => foldl (fun s f => s ≫= f) (Some s) fs) (List.concat kss).
Proof.
  induction 1 as [|f ks fs kss Hf _ IH]; cbn [List.concat]; intros Hnd s Hs.
  - exists s. split; [done|]. intros gv k. by case_decide.
  - rewrite fmap_app in Hnd. apply NoDup_app in Hnd as (_ & Hdis & Hnd).
    destruct (Hf s) as (s1 & Hs1 & Hk1); [intros k Hk; apply Hs; rewrite fmap_app; set_solver|].
    destruct (IH Hnd s1) as (s2 & Hs2 & Hk2).
    { intros k Hk. rewrite Hk1, decide_True by done.
      rewrite not_elem_of_list_to_map_1 by (intros Hin; by apply (Hdis k)). apply Hs. rewrite fmap_app. set_solver. }
    exists s2. split; [cbn [foldl mbind option_bind]; by rewrite Hs1|]. intros gv k. rewrite Hk2, Hk1, list_to_map_app.
    case_decide; [|done]. rewrite lookup_union.
    destruct ((list_to_map (List.concat kss) : gmap string ty) !! k) as [t|] eqn:Ek, ((list_to_map ks : gmap string ty) !! k) as [t'|] eqn:Ek'; try done.
    exfalso. apply (Hdis k); apply list_elem_of_fmap; [exists (k, t')|exists (k, t)]; (split; [done|]);
      by apply elem_of_list_to_map_2.
Qed.

(** [AddToScheme], on a scheme that knows none of the group's kinds, does not
    panic, and after it the 24 types are known under their names, which are the
    types [DeepCopyObject] is made for; nothing else has changed but the meta
    kinds of the group version. *)
Theorem AddToScheme_registers s :
  (forall k, known s SchemeGroupVersion k = None) ->
  exists s', AddToScheme s = Some s' /\ api_kinds.*2 = api_objects.*1 /\ NoDup api_kinds.*1 /\
    forall gv k, k ∉ meta_kinds -> known s' gv k =
      match (if decide (gv = SchemeGroupVersion) then (list_to_map api_kinds : gmap string ty) !! k else None) with
      | Some t => Some t
      | None => known s gv k
      end.
Proof.
  intros Hs. assert (NoDup api_kinds.*1) as Hnd by (apply (bool_decide_unpack _); vm_compute; exact I).
  assert (Forall2 registers (tail SchemeBuilder) api_files) as Hall.
  { unfold api_files, SchemeBuilder, tail.
    repeat (constructor; [apply add_registers, (bool_decide_unpack _); vm_compute; exact I|]). constructor. }
  destruct (registers_all _ _ Hall Hnd (AddToGroupVersion s SchemeGroupVersion)) as (s' & Hs' & Hk).
  { intros k Hk. rewrite add_group_version; [apply Hs|]. revert k Hk. apply Forall_forall, (bool_decide_unpack _).
    vm_compute. exact I. }
  exists s'. split; [exact Hs'|]. split; [reflexivity|]. split; [exact Hnd|]. intros gv k Hm.
  rewrite Hk. fold api_kinds. by rewrite add_group_version.
Qed.

(** The program's scheme, when client-go's registration leaves the group alone. *)
Lemma init_registers clientgo s s1 :
  clientgo s = Some s1 -> (forall k, known s1 SchemeGroupVersion k = None) ->
  exists s', init clientgo s = Some s' /\ forall k t, (k, t) ∈ api_kinds -> known s' SchemeGroupVersion k = Some t.
Proof.
  intros Hs Hnew. destruct (AddToScheme_registers s1 Hnew) as (s' & Hs' & _ & Hnd & Hk).
  exists s'. split; [unfold init; rewrite Hs; exact Hs'|]. intros k t Hin.
  assert (Forall (fun k => k ∉ meta_kinds) api_kinds.*1) as Hall by (apply (bool_decide_unpack _); vm_compute; exact I).
  rewrite Forall_forall in Hall. rewrite Hk by (apply Hall, list_elem_of_fmap; by exists (k, t)). rewrite decide_True by reflexivity.
  by rewrite (elem_of_list_to_map_1 _ k t Hnd Hin).
Qed.
End SchemeSpec.

(** ** A scheme that evaluates, without the meta kinds; it refuses any kind it knows. *)

#[export] Instance reference_scheme : RuntimeScheme := {
  Scheme := GroupVersion -> string -> option ty;
  known s gv k := s gv k;
  AddToGroupVersion s _ := s;
  AddKnownTypes s gv kinds :=
    if forallb (fun kt => match s gv kt.1 with None => true | Some _ => false end) kinds
    then Some (fun gv' k =>
      match (if decide (gv' = gv) then (list_to_map kinds : gmap string ty) !! k else None) with Some t => Some t | None => s gv' k end)
    else None;
}.

#[export] Instance reference_scheme_laws : RuntimeSchemeLaws.
Proof.
  split; [done|]. intros s gv kinds _ Hnew. cbn [AddKnownTypes reference_scheme known] in *.
  rewrite (proj2 (forallb_forall _ kinds)); [by eexists|]. intros [k t] Hin%list_elem_of_In. cbn.
  rewrite Hnew; [done|]. apply list_elem_of_fmap. by exists (k, t).
Qed.
