(* ===== verification/SpecJson.v ===== *)
(** * encoding/json on the typed specs

    [json.Marshal] works from the type by reflection: the struct's fields in
    order, under the names of their tags, without those the tag omits when they
    are empty.  The ten kinds of Objects.v at their own spec types. *)

From S2P Require Import Prelude GoStd Json JsonText JsonParse JsonString JsonPrint Libraries Errors Kube Core JsonBody Interfaces Objects GoTypes ApiTypes.
From Stdlib Require Import String SpecFloat.

Local Open Scope string_scope.
Local Open Scope list_scope.

(** What the [MarshalJSON] of a type from outside the repository returns, as the
    encoder compacts it; [None] is its error. *)
Class ExternalJSON := external_json : string -> tree -> option string.

Section SpecJson.
Context `{ET : ExternalTypes} `{XJ : ExternalJSON}.

(** False, 0, a nil pointer, and an empty string, slice or map; never a struct. *)
Definition is_empty (x : tree) : bool :=
  match x with
  | XScalar (SBool b) => negb b
  | XScalar (SString s) => bool_decide (s = "")
  | XScalar (SInt z) => bool_decide (z = 0%Z)
  | XScalar (SFloat f) => SFeqb f (S754_zero false)
  | XNil => true
  | XSlice xs => match xs with [] => true | _ => false end
  | XMap m => bool_decide (m = ∅)
  | XPtr _ | XStruct _ => false
  end.

Definition encode_scalar (s : scalar) : option document :=
  match s with
  | SBool b => Some (JBool b)
  | SString s => Some (JStr s)
  | SInt z => Some (JNum (Itoa z))
  | SFloat f => JNum <$> format_float f
  end.

(** A map's entries are written in key order. *)
Definition by_key {N} (entries : list (string * json N)) : list (string * json N) :=
  foldr (fun kv m => obj_insert kv.1 kv.2 m) [] entries.

(** No field of a spec is embedded or tagged omitzero: the encoder's treatment of
    those is left out. *)
Fixpoint encode (t : ty) (x : tree) {struct t} : option document :=
  match t with
  | TBool | TString | TInt64 | TFloat64 => match x with XScalar s => encode_scalar s | _ => None end
  | TPtr t => match x with XNil => Some JNull | XPtr x => encode t x | _ => None end
  | TSlice t => match x with XNil => Some JNull | XSlice xs => JArr <$> mapM (encode t) xs | _ => None end
  | TMap t =>
      match x with
      | XNil => Some JNull
      | XMap m => (fun entries => JObj (by_key entries)) <$> mapM (fun kv => pair kv.1 <$> encode t kv.2) (map_to_list m)
      | _ => None
      end
  | TStruct fs =>
      match x with
      | XStruct xs =>
          JObj <$> (fix go (fs : list (tag * ty)) xs :=
            match fs, xs with
            | [], [] => Some []
            | (f, t) :: fs, (_, x) :: xs =>
                match option_of f with
                | OmitZero | Inline => None
                | OmitEmpty => if is_empty x then go fs xs else
                    d ← encode t x; ms ← go fs xs; Some ((json_name f, d) :: ms)
                | Always => d ← encode t x; ms ← go fs xs; Some ((json_name f, d) :: ms)
                end
            | _, _ => None
            end) fs xs
      | _ => None
      end
  | TNamed n _ => JNum <$> external_json n x
  end.

Definition omitted (f : tag) (x : tree) : bool :=
  match option_of f with OmitEmpty => is_empty x | _ => false end.

(** The members of a struct's object. *)
Fixpoint encode_fields (fs : list (tag * ty)) (xs : list (string * tree)) : option (list (string * document)) :=
  match fs, xs with
  | [], [] => Some []
  | (f, t) :: fs, (_, x) :: xs =>
      if bool_decide (option_of f = OmitZero \/ option_of f = Inline) then None
      else if omitted f x then encode_fields fs xs
      else d ← encode t x; ms ← encode_fields fs xs; Some ((json_name f, d) :: ms)
  | _, _ => None
  end.

Lemma encode_struct fs xs : encode (TStruct fs) (XStruct xs) = JObj <$> encode_fields fs xs.
Proof.
  cbn. f_equal. revert xs. induction fs as [|[f t] fs IH]; intros [|[n x] xs]; try done.
  cbn. unfold omitted. destruct (option_of f); cbn; rewrite ?IH; [done| |done|done]. by destruct (is_empty x).
Qed.

Context `{JE : JsonErrors}.

(** [json.Marshal] of a pointer to a spec of the type. *)
Definition marshal_as (t : ty) : SpecMarshaler tree := fun x =>
  match encode t x with Some d => Ok (print d) | None => Err marshal_error end.

(** ** The kinds at their types *)

Context `{GJ : Gjson} `{CMP : GoCmp}.

Record typed_kind := MkTyped {
  kind_object : ResourceObject (ObjectTemplate tree);
  kind_path : string;
  kind_spec : list (tag * ty);
  kind_identity : string;
}.

Definition fields_of (t : ty) : list (tag * ty) := match t with TStruct fs => fs | _ => [] end.

Definition typed_kinds : list typed_kind := [
  MkTyped (AuthDomainObject (SM := marshal_as AuthDomainObjectSpec)) "/api/v2/auth_domains" (fields_of AuthDomainObjectSpec) "name";
  MkTyped (DashboardObject (SM := marshal_as DashboardObjectSpec)) "/api/v2/dashboards" (fields_of DashboardObjectSpec) "name";
  MkTyped (NotificationChannelObject (SM := marshal_as NotificationChannelObjectSpec)) "/api/v2/notification_channels"
    (fields_of NotificationChannelObjectSpec) "name";
  MkTyped (PlannedMaintenanceObject (SM := marshal_as PlannedMaintenanceObjectSpec)) "/api/v1/downtime_schedules"
    (fields_of PlannedMaintenanceObjectSpec) "name";
  MkTyped (RoleObject (SM := marshal_as RoleObjectSpec)) "/api/v1/roles" (fields_of RoleObjectSpec) "name";
  MkTyped (RoutePolicyObject (SM := marshal_as RoutePolicyObjectSpec)) "/api/v1/route_policies" (fields_of RoutePolicyObjectSpec) "name";
  MkTyped (RuleObject (SM := marshal_as RuleObjectSpec)) "/api/v2/rules" (fields_of RuleObjectSpec) "alert";
  MkTyped (SavedViewObject (SM := marshal_as SavedViewObjectSpec)) "/api/v2/saved_views" (fields_of SavedViewObjectSpec) "name";
  MkTyped (ServiceAccountObject (SM := marshal_as ServiceAccountObjectSpec)) "/api/v1/service_accounts"
    (fields_of ServiceAccountObjectSpec) "name";
  MkTyped (UserObject (SM := marshal_as UserObjectSpec)) "/api/v2/users" (fields_of UserObjectSpec) "email"].
End SpecJson.
