(* ===== verification/SpecJsonSpec.v ===== *)
(** * What a typed spec puts on the wire

    The body of each kind at its own type: which fields it has, which of them a
    comparison sees, and where the identity comes from. *)

From S2P Require Import Prelude GoStd Json JsonText JsonParse JsonString JsonPrint HashSpec Libraries Errors Kube Core JsonBody JsonBodySpec Interfaces Protocol Objects ObjectsSpec GoTypes ApiTypes SpecJson.
From Stdlib Require Import String SpecFloat.

Local Open Scope string_scope.
Local Open Scope list_scope.

Section SpecJsonSpec.
Context `{ET : ExternalTypes} `{XJ : ExternalJSON} `{JE : JsonErrors} `{GJL : GjsonLaws} `{CMPL : GoCmpLaws}.

(** ** Documents the libraries read *)

(** The document stands for [w]: its strings are valid, its texts are well encoded
    JSON without repeated keys, nested within the decoder's bound, and its numbers are in
    range. *)
Definition readable (d : document) (w : value) : Prop :=
  valid_strings d = true /\
  exists v, meaning d = Some v /\ fits max_depth v /\ distinct_keys v = true /\ decode v = Some w.

Lemma readable_documented d w : readable d w -> documented (print d) w.
Proof.
  intros (Hv & v & Hm & Hf & Hd & Hw). pose proof (parse_print d v Hm Hv Hf) as Hp.
  unfold documented, Unmarshal, DistinctKeys. rewrite Hp, Hd, (print_encoded d Hv). by split.
Qed.

(** ** The fields of a body *)

(** The JSON a value of a type becomes. *)
Definition json_value (t : ty) (x : tree) : option value := d ← encode t x; v ← meaning d; decode v.

Fixpoint find_field (k : string) (fs : list (tag * ty)) (xs : list (string * tree)) : option (tag * ty * tree) :=
  match fs, xs with
  | (f, t) :: fs, (_, x) :: xs => if decide (k = json_name f) then Some (f, t, x) else find_field k fs xs
  | _, _ => None
  end.

(** Exactly the fields that are set, as what they are. *)
Definition set_fields (fs : list (tag * ty)) (xs : list (string * tree)) (m : list (string * value)) : Prop :=
  forall k, obj_lookup k m =
    match find_field k fs xs with
    | Some (f, t, x) => if omitted f x then None else json_value t x
    | None => None
    end.

Abbreviation names := (fun fs : list (tag * ty) => (fun f => json_name f.1) <$> fs).

Lemma obj_lookup_elem {N} k (m : list (string * json N)) : k ∉ m.*1 -> obj_lookup k m = None.
Proof.
  induction m as [|[k' v] m IH]; [done|]. cbn. intros Hk. rewrite decide_False by set_solver. apply IH. set_solver.
Qed.

Lemma lookup_go_map k m : NoDup m.*1 -> obj_lookup k (go_map m) = obj_lookup k m.
Proof.
  unfold go_map. intros Hnd.
  assert (forall acc, obj_lookup k (foldl (fun acc kv => obj_insert kv.1 kv.2 acc) acc m)
    = match obj_lookup k m with Some v => Some v | None => obj_lookup k acc end) as Hfold.
  { induction m as [|[k' v] m IH]; intros acc; [done|]. cbn [foldl fst snd fmap list_fmap obj_lookup] in *.
    apply NoDup_cons in Hnd as [Hni Hnd]. rewrite IH, obj_lookup_insert by done.
    destruct (decide (k = k')) as [->|]; [by rewrite obj_lookup_elem|done]. }
  rewrite Hfold. by destruct (obj_lookup k m).
Qed.

Lemma encode_fields_keys fs xs ms k : encode_fields fs xs = Some ms -> k ∈ ms.*1 -> k ∈ names fs.
Proof.
  revert xs ms. induction fs as [|[f t] fs IH]; intros [|[n x] xs] ms; cbn; try done; [by intros [= <-]|].
  case_bool_decide; [done|]. destruct (omitted f x).
  - intros Hms Hk. apply list_elem_of_further. by eapply IH.
  - destruct (encode t x); [|done]. destruct (encode_fields fs xs) eqn:E; [|done]. intros [= <-]. cbn.
    rewrite !elem_of_cons. intros [->|Hk]; [by left|right]. by eapply IH.
Qed.

Lemma encode_fields_distinct fs xs ms : NoDup (names fs) -> encode_fields fs xs = Some ms -> NoDup ms.*1.
Proof.
  revert xs ms. induction fs as [|[f t] fs IH]; intros [|[n x] xs] ms Hnd; cbn; try done; [intros [= <-]; constructor|].
  apply NoDup_cons in Hnd as [Hni Hnd]. case_bool_decide; [done|]. destruct (omitted f x); [by apply IH|].
  destruct (encode t x); [|done]. destruct (encode_fields fs xs) eqn:E; [|done]. intros [= <-].
  apply NoDup_cons. split; [|by eapply IH]. intros Hk. apply Hni. by eapply encode_fields_keys.
Qed.

(** The members once decoded, in the order of the document. *)
Lemma members_json fs xs ms vs es : NoDup (names fs) -> encode_fields fs xs = Some ms ->
  mapM (fun kv => pair kv.1 <$> meaning kv.2) ms = Some vs ->
  mapM (fun kv => pair kv.1 <$> decode kv.2) vs = Some es -> set_fields fs xs es.
Proof.
  intros Hnd Hms Hvs Hes k. revert xs ms vs es Hms Hvs Hes.
  induction fs as [|[f t] fs IH]; intros [|[n x] xs] ms vs es Hms; cbn in Hms; try done.
  { injection Hms as <-. cbn. intros [= <-]. cbn. by intros [= <-]. }
  apply NoDup_cons in Hnd as [Hni Hnd]. case_bool_decide; [done|]. cbn [find_field].
  destruct (omitted f x) eqn:Ho.
  - intros Hvs Hes. rewrite (IH Hnd _ _ _ _ Hms Hvs Hes). destruct (decide (k = json_name f)) as [->|]; [|done].
    rewrite Ho. destruct (find_field _ fs xs) as [[[f' t'] x']|] eqn:E; [|done]. exfalso. apply Hni.
    clear -E. revert xs E. induction fs as [|[g u] fs IH]; intros [|[n y] xs]; cbn; try done.
    case_decide as Hg; [intros _; rewrite Hg; by left|]. intros E. right. by eapply IH.
  - destruct (encode t x) as [d|] eqn:Hd; [|done]. destruct (encode_fields fs xs) as [ms'|] eqn:Hms'; [|done].
    injection Hms as <-. cbn. destruct (meaning d) as [v|] eqn:Hv; [|done].
    destruct (mapM _ ms') as [vs'|] eqn:Hvs'; [|done]. intros [= <-]. cbn.
    destruct (decode v) as [w|] eqn:Hw; [|done]. destruct (mapM _ vs') as [es'|] eqn:Hes'; [|done]. intros [= <-].
    cbn [obj_lookup]. destruct (decide (k = json_name f)) as [->|].
    + rewrite Ho. unfold json_value. rewrite Hd. cbn. rewrite Hv. cbn. by rewrite Hw.
    + exact (IH Hnd _ _ _ _ Hms' Hvs' Hes').
Qed.

Lemma mapM_meaning_keys (ms vs : list (string * json string)) : mapM (fun kv => pair kv.1 <$> meaning kv.2) ms = Some vs -> vs.*1 = ms.*1.
Proof.
  intros Hm%mapM_Some. induction Hm as [|[k v] [k' v'] ms vs Hd _ IH]; [done|].
  apply fmap_Some in Hd as (? & _ & [= -> ->]). cbn. by rewrite IH.
Qed.

(** The body of a struct is an object of its set fields. *)
Lemma struct_body fs xs d w : NoDup (names fs) -> encode (TStruct fs) (XStruct xs) = Some d -> readable d w ->
  exists m, w = JObj m /\ set_fields fs xs m.
Proof.
  rewrite encode_struct. intros Hnd (ms & Hms & ->)%fmap_Some (_ & v & Hm & _ & _ & Hw). cbn [meaning] in Hm.
  apply fmap_Some in Hm as (vs & Hvs & ->). rewrite decode_object in Hw.
  destruct (mapM _ vs) as [es|] eqn:Hes; [|done]. injection Hw as <-. exists (go_map es). split; [done|].
  intros k. rewrite lookup_go_map; [by eapply members_json|].
  rewrite (mapM_keys _ _ Hes), (mapM_meaning_keys _ _ Hvs). by eapply encode_fields_distinct.
Qed.

(** ** The ten kinds *)

Abbreviation object := (Object (ObjectTemplate tree)).

(** A kind's methods are those of [object_of] at its spec type; its lists are the
    names of the type's fields, each in one of them; the identity is a string
    field. *)
Definition described (K : typed_kind) : Prop :=
  (exists upd imm, kind_object K
     = object_of (SM := marshal_as (TStruct (kind_spec K))) (kind_path K) (kind_identity K) upd imm) /\
  NoDup (names (kind_spec K)) /\ NoDup (UpdatableFields (ResourceObject := kind_object K) ++ ImmutableFields (ResourceObject := kind_object K)) /\
  (forall k, k ∈ names (kind_spec K) <-> k ∈ UpdatableFields (ResourceObject := kind_object K) ++ ImmutableFields (ResourceObject := kind_object K)) /\
  Forall (fun k => plain_key k = true) (names (kind_spec K)) /\
  (exists f, (f, TString) ∈ kind_spec K /\ json_name f = kind_identity K).

Lemma same_members (l l' : list string) :
  forallb (fun k => bool_decide (k ∈ l')) l && forallb (fun k => bool_decide (k ∈ l)) l' = true -> forall k, k ∈ l <-> k ∈ l'.
Proof.
  intros [H1 H2]%andb_true_iff k. rewrite forallb_forall in H1, H2.
  split; intros Hk%list_elem_of_In; [apply H1 in Hk|apply H2 in Hk]; by apply bool_decide_eq_true in Hk.
Qed.

Ltac pick_member := apply list_elem_of_here + (apply list_elem_of_further; pick_member).
Ltac describe :=
  split; [do 2 eexists; reflexivity|];
  split; [apply (bool_decide_unpack _); vm_compute; exact I|];
  split; [apply (bool_decide_unpack _); vm_compute; exact I|];
  split; [apply same_members; vm_compute; reflexivity|];
  split; [apply (bool_decide_unpack _); vm_compute; exact I|];
  eexists; split; [pick_member|reflexivity].

Lemma typed_kinds_described : Forall described typed_kinds.
Proof.
  unfold typed_kinds. repeat (apply Forall_cons_2; [describe|]). apply Forall_nil_2.
Qed.

Lemma find_field_member f t fs xs : NoDup (names fs) -> (f, t) ∈ fs -> fields_have_type fs xs ->
  exists x, find_field (json_name f) fs xs = Some (f, t, x) /\ has_type t x.
Proof.
  revert xs. induction fs as [|[g u] fs IH]; intros [|[n x] xs]; try (by intros _ []%not_elem_of_nil); try done.
  intros [Hni Hnd]%NoDup_cons Hin (_ & Hx & Hxs). cbn [find_field]. apply elem_of_cons in Hin as [[= -> ->]|Hin].
  - rewrite decide_True by done. by exists x.
  - rewrite decide_False; [by apply IH|]. intros Heq. apply Hni. cbn. rewrite <- Heq.
    apply list_elem_of_fmap. by exists (f, t).
Qed.

Lemma find_field_name k fs xs r : find_field k fs xs = Some r -> k ∈ names fs.
Proof.
  revert xs. induction fs as [|[g u] fs IH]; intros [|[n x] xs]; cbn; try done.
  case_decide as Hk; [intros _; rewrite Hk; by left|]. intros Hf. right. by eapply IH.
Qed.

Lemma string_field_type x : has_type TString x -> exists s, x = XScalar (SString s).
Proof. destruct x as [[]| | | | |]; try done. by eexists. Qed.

#[local] Instance covered_dec x y : Decision (covered x y).
Proof.
  destruct (Equal x y) eqn:E; [left; by apply Equal_covered|right]. intros Hc%Equal_covered. congruence.
Defined.
#[local] Instance field_covered_dec a b : Decision (field_covered a b).
Proof. destruct a, b; unfold field_covered; apply _. Defined.

Lemma nil_iff {A} (l : list A) : l = [] <-> forall x, x ∉ l.
Proof. split; [intros -> x; apply not_elem_of_nil|]. destruct l; [done|]. intros Hl. destruct (Hl a). by left. Qed.

Lemma typed_body (K : typed_kind) (o : object) xs js d w : described K ->
  o_template o = MkTemplate (Some (XStruct xs)) js ->
  encode (TStruct (kind_spec K)) (XStruct xs) = Some d -> readable d w ->
  exists m, w = JObj m /\ set_fields (kind_spec K) xs m /\ documented (print d) (JObj m) /\
    object_Body (SM := marshal_as (TStruct (kind_spec K))) o = Ok (print d).
Proof.
  intros (_ & Hnd & _) Ho Hd Hw. destruct (struct_body _ _ _ _ Hnd Hd Hw) as (m & -> & Hm).
  exists m. split; [done|]. split; [done|]. split; [by apply readable_documented|].
  unfold object_Body. rewrite Ho. unfold JsonBody.Render, MarshalSpec, marshal_as. cbn [Spec]. by rewrite Hd.
Qed.

(** C27. A typed spec on the wire.  For each of the ten kinds, of any typed spec
    that encodes: the body is the printed document, which the libraries read back
    as an object of exactly the fields that are set, each as the value its type
    encodes to, where a field tagged omitempty is left out when it is false, 0,
    empty or nil, set or not; and the identity is the string field of the kind,
    or an error when that is empty. *)
Theorem typed_spec_on_the_wire : Forall (fun K : typed_kind => forall (o : object) xs js d w,
  o_template o = MkTemplate (Some (XStruct xs)) js -> fields_have_type (kind_spec K) xs ->
  encode (TStruct (kind_spec K)) (XStruct xs) = Some d -> readable d w ->
  exists m f s, Body (ResourceObject := kind_object K) o = Ok (print d) /\ documented (print d) (JObj m) /\
    set_fields (kind_spec K) xs m /\
    find_field (kind_identity K) (kind_spec K) xs = Some (f, TString, XScalar (SString s)) /\
    Identity (ResourceObject := kind_object K) o
    = if decide (s = "") then Err (errorString ("no value at " ++ kind_identity K)) else Ok s) typed_kinds.
Proof.
  eapply Forall_impl; [exact typed_kinds_described|]. intros K HK o xs js d w Ho Hxs Hd Hw.
  destruct (typed_body K o xs js d w HK Ho Hd Hw) as (m & -> & Hm & Hdoc & Hbody).
  destruct HK as ((upd & imm & ->) & Hnd & _ & _ & Hplain & (f & Hf & Hid)).
  destruct (find_field_member _ _ _ _ Hnd Hf Hxs) as (x & Hx & Htx).
  destruct (string_field_type x Htx) as [s ->]. rewrite Hid in Hx. exists m, f, s.
  split; [done|]. split; [done|]. split; [done|]. split; [done|].
  cbn [Identity object_of]. unfold object_Identity, ExtractFromSpecs.
  change (JsonBody.Render _ _) with (object_Body (SM := marshal_as (TStruct (kind_spec K))) o). rewrite Hbody.
  apply extract_string with m; [done| |].
  - rewrite Forall_forall in Hplain. apply Hplain, list_elem_of_fmap. by exists (f, TString).
  - specialize (Hm (kind_identity K)). rewrite Hx in Hm. rewrite Hm.
    unfold omitted. destruct (option_of f); try (by right). cbn. case_bool_decide as Hs.
    + left. by rewrite decide_True.
    + by right.
Qed.

(** C28. Every field is compared, once.  For each of the ten kinds: the updatable
    and the immutable fields are, without repetition, exactly the fields of its
    spec type; so for a typed spec a comparison with a response reports nothing
    exactly when the response covers the body in every field of the type, set or
    not. *)
Theorem every_spec_field_is_compared : Forall (fun K : typed_kind =>
  NoDup (UpdatableFields (ResourceObject := kind_object K) ++ ImmutableFields (ResourceObject := kind_object K)) /\
  (forall k, k ∈ names (kind_spec K) <->
     k ∈ UpdatableFields (ResourceObject := kind_object K) ++ ImmutableFields (ResourceObject := kind_object K)) /\
  forall (o : object) xs js d m raw md,
    o_template o = MkTemplate (Some (XStruct xs)) js ->
    encode (TStruct (kind_spec K)) (XStruct xs) = Some d -> readable d (JObj m) ->
    response_is raw md -> own_keys md ->
    exists cr, Compare (ResourceObject := kind_object K) o (Some raw) = Ok cr /\
      (cmp_UpdatableFields cr = [] /\ cmp_ImmutableFields cr = [] <->
       forall k, k ∈ names (kind_spec K) -> field_covered (obj_lookup k m) (obj_lookup k md))) typed_kinds.
Proof.
  eapply Forall_impl; [exact typed_kinds_described|]. intros K HK. pose proof HK as (Hobj & Hnd & Hlists & Hcover & Hplain & _).
  split; [done|]. split; [done|]. intros o xs js d m raw md Ho Hd Hm Hraw Hmd.
  destruct (typed_body K o xs js d (JObj m) HK Ho Hd Hm) as (m' & [= <-] & Hset & Hdoc & Hbody).
  destruct Hobj as (upd & imm & Hobj). rewrite Hobj in *. cbn [UpdatableFields ImmutableFields object_of] in *.
  assert (Forall (fun k => plain_key k = true) (upd ++ imm)) as Hp.
  { rewrite Forall_forall in Hplain |- *. intros k Hk. by apply Hplain, Hcover. }
  assert (own_keys m) as Hown.
  { intros k [v Hk]. rewrite Hset in Hk. destruct (find_field k _ xs) as [r|] eqn:Hf; [|done].
    apply plain_one_segment. rewrite Forall_forall in Hplain. apply Hplain. by eapply find_field_name. }
  assert (forall cr, Compare (ResourceObject := object_of (SM := marshal_as (TStruct (kind_spec K))) (kind_path K) (kind_identity K) upd imm)
    o (Some raw) = Ok cr -> forall k, (k ∈ cmp_UpdatableFields cr ++ cmp_ImmutableFields cr <->
      k ∈ names (kind_spec K) /\ ~ field_covered (obj_lookup k m) (obj_lookup k md))) as Hcmp.
  { intros cr Hcr k. destruct (Compare_fields (SM := marshal_as (TStruct (kind_spec K))) (kind_path K) (kind_identity K) upd imm o raw m md k)
      as (cr' & Hcr' & Hu & Hi); try done; [by exists (print d)|]. rewrite Hcr in Hcr'. injection Hcr' as <-.
    rewrite elem_of_app, Hu, Hi, Hcover, elem_of_app. tauto. }
  destruct (Compare_fields (SM := marshal_as (TStruct (kind_spec K))) (kind_path K) (kind_identity K) upd imm o raw m md "")
    as (cr & Hcr & _); try done; [by exists (print d)|].
  exists cr. split; [done|]. rewrite <- app_nil. rewrite nil_iff. specialize (Hcmp cr Hcr). split.
  - intros Hnone k Hk. destruct (decide (field_covered (obj_lookup k m) (obj_lookup k md))) as [|Hnc]; [done|].
    destruct (Hnone k). by apply Hcmp.
  - intros Hall k Hk. apply Hcmp in Hk as [Hk Hnc]. by apply Hnc, Hall.
Qed.
End SpecJsonSpec.
