(* ===== verification/TypesWitness.v ===== *)
(** * The theorems of the types, their copies and their JSON, at concrete inputs

    Users and the small struct types that hold references, over one choice for
    the types from outside the repository. *)

From S2P Require Import Prelude GoStd Json JsonText JsonParse JsonString JsonPrint HashSpec Sha256 Libraries Errors Kube Core JsonBody JsonBodySpec Interfaces Objects ObjectsSpec Fixture LibraryWitness GoTypes ApiTypes DeepCopy DeepCopySpec SpecJson SpecJsonSpec.
From Stdlib Require Import String.

Local Open Scope string_scope.
Local Open Scope list_scope.

(** ** Deep copies *)

(** The raw JSON of apiextensions holds a slice; the others a name. *)
#[export] Instance sample_types : ExternalTypes := {
  representation name :=
    if decide (name = "apiextensionsv1.JSON") then TStruct [field "Raw" "" Always (TSlice TInt64)]
    else TStruct [field "Name" "name" OmitEmpty TString];
  external_DeepCopyInto _ := copy_fields [("Raw", new_slice assigned)];
}.

#[export] Instance sample_types_laws : ExternalTypesLaws.
Proof.
  split; [|done..]. intros name. apply named_copies. cbn [representation external_DeepCopyInto sample_types].
  case_decide; copies_fields.
Qed.

(** A user's template: a pointer to a spec. *)
Definition template_memory : heap :=
  {[ 1%positive := CVar (VStruct [("Spec", VPtr (Some 2%positive)); ("JSONSpec", VPtr None)]);
     2%positive := CVar (VStruct [("Email", VScalar (SString "a@b.c")); ("DisplayName", VScalar (SString ""))]) ]}.
Definition user_fields (email : string) : list (string * tree) :=
  [("Email", XScalar (SString email)); ("DisplayName", XScalar (SString ""))].
Definition template_tree : tree :=
  XPtr (XStruct [("Spec", XPtr (XStruct (user_fields "a@b.c"))); ("JSONSpec", XNil)]).

Lemma struct_denotes fs h L vs xs : denotes_fields fs h L vs xs -> denotes (TStruct fs) h L (VStruct vs) (XStruct xs).
Proof. intros Hd. apply denotes_struct. by exists vs, xs. Qed.

Lemma pointer_denotes t h l v x : h !! l = Some (CVar v) -> denotes t h (dom h) v x ->
  denotes (TPtr t) h (dom h) (VPtr (Some l)) (XPtr x).
Proof. intros Hl Hd. split; [apply elem_of_dom; by exists (CVar v)|]. by exists v. Qed.

Lemma template_denotes : denotes (TPtr UserObjectTemplate) template_memory (dom template_memory) (VPtr (Some 1%positive)) template_tree.
Proof.
  eapply pointer_denotes; [done|]. apply struct_denotes. do 2 (split; [done|]). split; [|by repeat split].
  eapply pointer_denotes; [done|]. apply struct_denotes.
  do 2 (split; [done|]; split; [done|]; split; [by eexists|]). done.
Qed.

(** The spec of the original is then overwritten; the copy keeps the address. *)
Lemma deep_copies_are_independent_witness : exists l' h',
  UserObjectTemplate_DeepCopy (VPtr (Some 1%positive)) template_memory = Some (VPtr (Some l'), h') /\
  denotes (TPtr UserObjectTemplate) (<[2%positive := CVar (VStruct [])]> h') (dom h' ∖ dom template_memory)
    (VPtr (Some l')) template_tree.
Proof.
  assert ((UserObjectTemplate, UserObjectTemplate_DeepCopyInto) ∈ api_copiers) as Hin.
  { unfold api_copiers. repeat (apply elem_of_cons; first [left; reflexivity|right]). }
  destruct (proj1 (Forall_forall _ _) (proj1 deep_copies_are_independent) _ Hin) as [Hcopy _].
  destruct (Hcopy _ _ _ template_denotes) as (l' & h' & Hrun & _ & _ & Hkeep).
  exists l', h'. split; [exact Hrun|]. apply Hkeep. intros l Hl. rewrite lookup_insert_ne; [done|].
  intros <-. apply elem_of_difference in Hl as [_ Hl]. apply Hl, elem_of_dom. by eexists.
Defined.

(** ** Hashes *)

Definition domain_text : string := json_of "{'name':'x','config':{'a':1,'b':true}}".
Definition domain_text' : string := json_of " {'config' : {'b':true, 'a':1}, 'n\u0061me':'x'}".

Definition scanned (text : string) : json string := default JNull (parse_syntax text).

Lemma domain_reordered : reordered (scanned domain_text) (scanned domain_text').
Proof.
  vm_compute. eapply reordered_trans; [apply reordered_members, Permutation_swap|].
  apply (reordered_in_object []), reordered_members, Permutation_swap.
Qed.

Lemma Hash_of_value_witness : JsonBody.Hash domain_text' = JsonBody.Hash domain_text.
Proof.
  destruct (JsonBody.Hash domain_text) as [h|e] eqn:Hh; [|exfalso; revert Hh; vm_compute; discriminate].
  refine (proj1 (Hash_of_value domain_text domain_text' (scanned domain_text) (scanned domain_text') h _ _ _ domain_reordered Hh)).
  all: vm_compute; reflexivity.
Defined.

(** ** Typed users *)

(** The raw JSON of apiextensions is written as it is. *)
#[export] Instance sample_json : ExternalJSON := fun _ _ => Some "null".

Definition user_of (email : string) : Object (ObjectTemplate tree) :=
  MkObject (meta None [] ∅) (spec ReclaimDelete false) (MkTemplate (Some (XStruct (user_fields email))) None) (status None "").

Definition user_kind : typed_kind :=
  MkTyped (UserObject (SM := marshal_as UserObjectSpec)) "/api/v2/users" (fields_of UserObjectSpec) "email".

Lemma user_kind_typed : user_kind ∈ typed_kinds.
Proof. unfold typed_kinds. repeat (apply elem_of_cons; first [left; reflexivity|right]). Qed.

Definition user_document : document := JObj [("email", JStr "a@b.c")].
Definition user_value : list (string * value) := [("email", JStr "a@b.c")].

#[local] Opaque max_depth.

(** Anything nested once is within the bound. *)
Lemma flat_object_fits (m : list (string * json string)) : (forall d, Forall (fun kv => fits d kv.2) m) -> fits max_depth (JObj m).
Proof.
  intros Hm. destruct max_depth as [|d] eqn:Hd; [exfalso; vm_compute in Hd; discriminate|]. exact (Hm d).
Qed.

Lemma user_readable : readable user_document (JObj user_value).
Proof.
  split; [reflexivity|]. eexists. split; [reflexivity|].
  split; [|split; reflexivity]. apply (flat_object_fits [("email", JStr "a@b.c")]). intros d. apply Forall_singleton. by destruct d.
Qed.

(** The empty display name is not sent. *)
Lemma typed_spec_on_the_wire_witness :
  Body (ResourceObject := UserObject (SM := marshal_as UserObjectSpec)) (user_of "a@b.c") = Ok (print user_document) /\
  Identity (ResourceObject := UserObject (SM := marshal_as UserObjectSpec)) (user_of "a@b.c") = Ok "a@b.c".
Proof.
  destruct (proj1 (Forall_forall _ _) typed_spec_on_the_wire user_kind user_kind_typed (user_of "a@b.c")
    (user_fields "a@b.c") None user_document (JObj user_value)) as (m & f & s & Hbody & _ & _ & Hfield & Hid).
  - reflexivity.
  - repeat split.
  - reflexivity.
  - exact user_readable.
  - split; [exact Hbody|]. cbn in Hfield. injection Hfield as _ <-. exact Hid.
Defined.

Definition user_response : string := json_of "{'data':{'id':'7','email':'a@b.c','displayName':'Ada'}}".

(** The server's display name is a difference although the spec leaves it unset. *)
Lemma every_spec_field_is_compared_witness : exists cr,
  Compare (ResourceObject := UserObject (SM := marshal_as UserObjectSpec)) (user_of "a@b.c") (Some user_response) = Ok cr /\
  (cmp_UpdatableFields cr = [] /\ cmp_ImmutableFields cr = [] -> False).
Proof.
  destruct (proj1 (Forall_forall _ _) every_spec_field_is_compared user_kind user_kind_typed) as (_ & _ & Hcmp).
  destruct (Hcmp (user_of "a@b.c") (user_fields "a@b.c") None user_document user_value user_response (data_members user_response))
    as (cr & Hcr & Hiff).
  - reflexivity.
  - reflexivity.
  - exact user_readable.
  - exists (members user_response). split; [split|]; vm_compute; reflexivity.
  - apply plain_own_keys. vm_compute. reflexivity.
  - exists cr. split; [exact Hcr|]. intros Hnone. pose proof (proj1 Hiff Hnone "displayName") as Hcov.
    assert (isDeepZero (JStr "Ada") = true) as Hzero by (apply Hcov; right; left). discriminate Hzero.
Defined.
